(* ===== verification/_CoqProject ===== *)
-Q . S2P
Prelude.v
CLayout.v
Bytes.v
CObject.v
VmlinuxBase.v
VmlinuxNet.v
VmlinuxNetNs.v
VmlinuxTask.v
VmlinuxBpf.v
Vmlinux.v
Common.v
Bpf.v
BpfRef.v
LayoutFacts.v
ProbeObject.v
TcpTracker.v
Emitter.v
DnsMapper.v
HttpInspector.v
DbProbe.v
Interleaving.v
Verifier.v
Serializable.v
Races.v
DbRaces.v
RustSlice.v
RustStr.v
Consumer.v
TcpConsumer.v
DnsConsumer.v
HttpConsumer.v
DbText.v
DbInspector.v
EndToEnd.v
ProcFs.v
ProcFallback.v
ObserverMode.v
ClusterEvent.v
Agent.v
RustFloat.v
Sqlite.v
EdgeBuffer.v
EdgeBufferSpec.v
EdgeBufferTasks.v
FlowControl.v
MetricMessage.v
Tenant.v
Compression.v
GrpcClient.v
Reconnect.v
ClusterLink.v
ClusterLinkSpec.v
Report.v
