(* ===== verification/Prelude.v ===== *)
(** * Paryty: verification of the eBPF network observer

    Paryty's agent watches the network of the host it runs on.  The C part of
    the repository, [agent/src/ebpf/bpf], is the kernel side of that observer:
    four BPF programs hooked to kernel functions, the event structures they
    send to userspace ([common.h]) and the kernel types they read
    ([vmlinux.h]).  Each has a Rust consumer in [agent/src/ebpf] that reads the
    events from a ring buffer.  This library models the four programs, the
    layouts they depend on, the consumers of all four, the observer that stands
    in for them where eBPF is not available, the choice between them, and the
    agent's side of the way to the cluster, and proves what makes them correct,
    separately, together and concurrently.

    ** How the program is put together

    A kernel function is called, the probe attached to it runs: it reads members
    of the [struct sock] it is handed from kernel memory, keeps what it must
    remember until the function returns in a BPF hash map keyed by thread, and
    copies one event structure into a BPF ring buffer, or drops it when the ring
    is full.  In userspace libbpf calls a consumer's callback for each record in
    order; the callback casts the bytes to a [repr(C, packed)] structure and
    updates a table under a mutex; the observer task drains the tables.  What it
    drains goes to the agent's [Client]: a remote call when there is a
    connection, else the edge buffer, a queue in memory with a table on disk,
    which background loops flush; the cluster answers with commands and with
    signals that slow the agent down, some of them on a stream of its own.

    ** What models what

    - [Prelude], [Bytes], [RustStr]: shared tactics, hints and lemmas; bytes and
      little-endian integers; the string functions of Rust's standard library
      that the consumers use.
    - [CLayout]: C declarations as data and the layout a compiler gives them
      (sizes, alignment, bit-fields, packed aggregates, anonymous members),
      with [resolve] for member designators.  [CObject] relates a record to the
      bytes of a structure member by member.
    - [VmlinuxBase], [VmlinuxNet], [VmlinuxNetNs], [VmlinuxTask], [VmlinuxBpf],
      [Vmlinux]: declarations of [vmlinux.h], one definition per declaration,
      named after it ([struct_sock] for [struct sock]); [LayoutFacts] states
      what their computed layouts guarantee.
    - [Common]: [common.h], the event structures as records and as C
      declarations, the event, state and protocol codes.
    - [Bpf]: BPF programs as finite trees of helper calls ([prog]) and the
      interfaces of what they call and the repository does not contain: kernel
      helpers and CO-RE reads ([Helpers]), hash maps ([BpfHash], elements have
      an identity, so that a pointer can outlive an element), ring buffers
      ([Ringbuf], reserve, write, submit).  Integers keep their C width, written
      as [wrap n].  [BpfRef] is an executable instance of each interface.
    - [ProbeObject]: the programs of one C file as an object with an abstract
      state (a dictionary and a log of unread events), the interface [Probes]
      between program text and specification, and what follows for traces.
      [Emitter] is the sub-case of programs that emit one event per call.
    - [TcpTracker], [DnsMapper], [HttpInspector], [DbProbe]: one per [.bpf.c]
      file; the definitions have the names of the C functions.
    - [Verifier]: a discipline in the manner of the kernel's verifier for
      [prog], with its soundness, and the seven programs checked against it.
    - [Interleaving]: what holds of every schedule of [run_pool]; bounds on the
      steps of a program, and [owned], a discipline of ownership under which
      programs of different threads do not disturb each other.  [Serializable]
      is the interface [Concurrent] of an object whose programs respect it, and
      what follows: any interleaving has the outcome of running one by one.
      [Races] has its instances, the TCP tracker, the DNS mapper and the HTTP
      inspector; [DbRaces] the two of the database probe.
    - [RustSlice], [Consumer]: slices, structures and the cast the Rust side
      shares; [TcpConsumer], [DnsConsumer], [HttpConsumer]: one per consumer
      ([tcp_tracker.rs] and so on).  [DbText] has the free functions of
      [db_inspector.rs] (SQL, PostgreSQL, MySQL and Redis text), [DbInspector]
      its classifier, its handlers and their state.  A panic is a value.
    - [EndToEnd]: the TCP tracker and its consumer as one system in which probe
      firings, polls and drains are interleaved in any order.
    - [ProcFs], [ProcFallback]: the observer that reads [/proc/net/tcp] instead of
      running programs ([proc_fallback.rs]), on a file system and a clock that
      change under it, and the kernel's printed tables.  [ObserverMode]: the
      choice between the observers ([mod.rs]) and the loader's checks
      ([loader.rs]).  [ClusterEvent], [Agent]: the messages events are converted
      to ([communication/mod.rs], [ebpf.proto]) and the event loop of [run_ebpf]
      with all three programs and consumers as one system.
    - [Sqlite], [EdgeBuffer], [EdgeBufferSpec]: [edge_buffer.rs].  The first has
      the rows of its table and the interfaces of SQLite and bincode
      ([BufferDb], [Bincode]) with reference instances, the second the methods,
      the third the abstract buffer (a queue, a table, an account of entries)
      and its refinement; [EdgeBufferTasks] the methods as sequences of accesses
      to the queue and the counter, interleaved by several tasks.
    - [FlowControl]: [flow_control.rs]; [RustFloat]: the [f64] it and the next use.
    - [Compression], [Tenant]: [compression.rs], on the interface [Zstd], and
      [tenant.rs], on a map from paths to contents.
    - [GrpcClient], [Reconnect], [ClusterLink], [ClusterLinkSpec]:
      [grpc_client.rs] (connection, remote calls with the headers of their
      requests, refresh of the key, byte channel, with tokio's channel as the
      interface [Mpsc]), [reconnect.rs], and [Client] of [communication/mod.rs]:
      sending, flushing, registration, commands, the stream listener, one turn
      of each background loop.  Every operation is a sequence of changes, each of
      the buffer, of the channel or of one aspect of the rest ([change],
      [aspect]); [effects] says which aspects, on which the theorems on runs are
      inductions.
    - [MetricMessage]: the snapshot of the metrics ([agent/src/metal]) and the
      message [send_metrics] makes of it ([agent.proto]).
    - [Report]: [Agent] and [ClusterLink] as one system, in which iterations of
      the event loop report to the cluster ([send_network_events_proto]), the
      other operations of the client happen at any moment, and what the cluster
      receives of events and metrics is recorded.

    ** What is proved

    - TCP tracker: the programs implement a dictionary of connects in progress
      and a log ([tracker_refines_spec]); a successful connect is reported
      exactly once with the socket's data at connect time, whatever other
      threads do in between, and no CONNECT event has another origin; entries
      are removed on every return, and stay for ever when the return is not
      hooked; which state changes are reported; how many events the ring holds.
    - Database probe: the same refinement; what a receive reports; the protocol
      detector against an independent description; that nothing is ever
      classified because the parked buffer pointer is always null.
    - All programs: they pass the verifier ([handlers_verified]), so on any
      runtime they return 0 and leave everything well-formed ([handlers_safe]).
    - Concurrency: interleaved on several CPUs, the programs of the TCP tracker
      have the outcome of running one by one ([tracker_serializable]), and
      concurrent sends are logged whole and once ([sends_concurrent]).  The
      return of the database probe reads an element it has deleted: where
      elements are recycled ([Recycling]), it reports the connection of a thread
      that starts to receive in between ([args_read_after_delete]); as long as
      no return reads its element while a receive on a database port starts, the
      outcome is that of running one by one ([db_probe_serializable]).
    - DNS mapper, HTTP inspector: when an event is emitted, what it holds, where
      each record comes from; the copy loop terminates inside its buffers.
    - Layouts: members of the kernel types do not overlap and stay in bounds,
      the members read through [struct sock] are where every concrete socket
      type has them, and which bytes of kernel memory they are; the events have
      no holes.
    - Consumers: reading back what a probe wrote ([wire_roundtrip]); the
      connection table as a function of the events seen; drains; the server name
      extractor never panics, terminates and finds the name of every client
      hello; requests are parsed; the queue is bounded; the two copies of the
      DNS callback and of the protocol detector agree.
    - Database inspector: whatever is captured, [inspect] neither panics nor
      fails and does what a small specification allows ([inspect_refines_spec]);
      a query is answered with its own text, rows and latency when its process
      has one connection to the server ([pg_query_answered]), and with another's
      when it has two ([pooled_connections_confused]); errors, statistics; SQL
      statements against a reference on words, in all of Unicode
      ([parse_sql_words]); Redis commands, MySQL integers and PostgreSQL errors
      read back what was written.
    - [/proc] observer: a poll of the kernel's tables reports what appeared and
      what disappeared ([collect_reports_tables]), reports of one connection
      alternate ([connection_reports_alternate]), processes come from scans at
      most 30 seconds old ([pid_found_recently]), and nothing is reported on a
      host without IPv6 ([no_ipv6_no_reports]), which the code does not intend.
    - Choice of the observer: the two version checks agree
      ([startup_checks_agree]); what becomes of the observer in eBPF mode,
      failures included ([ebpf_mode_outcomes]).
    - Together: a connect that succeeds is reported by the next iteration of the
      loop, and the cluster has it or the edge buffer ([connect_reaches_cluster]);
      what the cluster receives, metrics included, is in the order in which it
      was sent ([cluster_receives]), and every message ever sent is a connection
      seen in a socket ([agent_sends_only_connections]): neither the DNS nor the
      HTTP events lead to any report, which the code does not intend.
    - Edge buffer: what it returns and what it keeps are as its specification
      says, whatever clocks and disk do ([edge_buffer_refines_spec]); the memory
      it uses is counted exactly and bounded ([edge_buffer_bounded]); every entry
      is handed out, queued, spilled into a row of its own or lost for a reason,
      and none is lost while memory or disk has room ([edge_buffer_accounts]); an entry survives the way through the disk
      ([spilled_entry_drained]).  Of concurrent tasks, that the counter of memory
      is right whenever none is in between ([counter_settles]), and by examples
      that it can make a write evict entries from a nearly empty buffer, that
      the limit can be exceeded and that a deletion can leave the counter wrong.
    - Flow control: order of the queue, no critical message dropped
      ([critical_never_dropped]); when a signal holds back metrics
      ([pause_needs_rate]).
    - Cluster link: the backoff of reconnection ([reconnect_backoff]); a client
      that was connected once counts as connected until the shutdown
      ([connected_for_good]); nothing sent as bytes leaves the agent, and once
      1024 messages wait the senders do for ever ([byte_channel_fills]); what a
      flush sends and what it drops ([flush_outcome]), what becomes of metrics
      ([metrics_outcome]), what is sent twice ([sent_twice]); that requests do
      not carry a configured identity ([requests_lack_identity]), that a failed
      registration never leads to a new key ([registration_never_refreshes]) and
      that the stream is opened once ([stream_not_reopened]): most of which the
      code does not intend; and that the registration loop ends with the first
      session the cluster answers, and how long it sleeps until then
      ([registration_loop_ends]).
    - Metrics: reading their message by its fields gives back everything that
      was measured ([metric_batch_roundtrip]).
    - Compressed data read back ([compress_roundtrip]); what is read of the
      tenant's file after a write, whole or broken off, or a removal
      ([tenant_cache_roundtrip]).

    ** Assumptions, bounds and fuel

    The runtime is a parameter, with documented behaviour as the laws of the
    three classes of [Bpf]; every property about it has an instance on the
    reference runtime.  In traces a program runs to its end on one CPU before
    the next one starts; [run_pool] interleaves the steps of programs on several
    CPUs, in [Interleaving] to [DbRaces], where a
    thread runs on one CPU at a time (different invocations have different
    pid_tgid).  Loops of the source with a bound are fixpoints on
    it; [find_sni] takes one unit of fuel per extension, of at least four bytes
    each, and starts with more than the length of the data ([extract_sni_safe]
    says it is enough); [utf8_split] starts with the length of the string and
    takes at least one byte per step; [pg_error_fields] starts with more than
    the length of the data and takes at least two ([pg_error_fields_total]).  The target is little-endian x86-64.
    Times of the consumers are nanoseconds of a monotonic clock, the iteration
    order of a hash map is one of its enumerations, the content of files, what
    libbpf makes of an object and the cast of the [plain] crate are parameters,
    and so is the upper case of non-ASCII characters ([Unicode], with the facts of the
    Unicode tables the SQL extractor relies on).  Latencies are binary64 numbers
    ([SpecFloat]).  Counters wrap at 64 bits, as in a release build.

    Methods of the edge buffer, of flow control and of [Client] run one after the
    other, except in [EdgeBufferTasks], where the buffer is in memory; each reads
    the clocks and the disk anew ([moment]), and the disk may fail at any access.
    What the cluster answers to a remote call, or the text of its status, is an
    argument of the operation that makes the call.  The limit of the buffer is at
    most 2^63 bytes and a vector is shorter than that ([op_ok]); the time to live
    is not negative.  Of SQLite the statements the code executes are assumed to
    do what they say on a list of rows, of bincode that it reads back what it wrote, of tokio's channel
    that it holds as many messages as it was created for, of zstd that it
    decodes what it encoded; the JSON of events and of metrics and chrono's
    parser of times are parameters.

    ** What is not modelled

    The calls to libbpf that open, load and attach a program, the configuration
    files, and the rest of the agent; the cluster (Go), the intelligence service
    (Python) and the frontend (TypeScript).  Of [vmlinux.h], which is generated,
    the declarations that the programs do not reach.  Of the verifier, the
    kernel's own path-sensitive analysis: [verified] is a discipline on [prog].
    Poisoned mutexes.  In [Agent] the three ring buffers have been set up.  Of
    [communication]: tonic and the connections themselves, what the agent tells
    about its host when it registers, times of messages, logging and counters;
    interleavings inside a method of [Client], and those of the edge buffer with
    the disk.  The collectors of metrics. *)

From Stdlib Require Export ZArith Lia.
From stdpp Require Export base gmap strings list fin_maps.

#[global] Open Scope Z_scope.

(** ** Automation *)

Create HintDb paryty.

(** Turn boolean comparisons on integers into propositions, everywhere. *)
Ltac bool_to_prop :=
  repeat match goal with
  | H : (_ =? _) = true |- _ => apply Z.eqb_eq in H
  | H : (_ =? _) = false |- _ => apply Z.eqb_neq in H
  | H : (_ <? _) = true |- _ => apply Z.ltb_lt in H
  | H : (_ <? _) = false |- _ => apply Z.ltb_ge in H
  | H : (_ <=? _) = true |- _ => apply Z.leb_le in H
  | H : (_ <=? _) = false |- _ => apply Z.leb_gt in H
  | H : (_ && _)%bool = true |- _ => apply andb_true_iff in H as [? ?]
  | H : (_ || _)%bool = false |- _ => apply orb_false_iff in H as [? ?]
  | H : (_ && _)%bool = false |- _ => apply andb_false_iff in H
  | H : (_ || _)%bool = true |- _ => apply orb_true_iff in H
  | H : negb _ = true |- _ => apply negb_true_iff in H
  | H : negb _ = false |- _ => apply negb_false_iff in H
  end.

(** Peel the binds of an option computation that is known to succeed. *)
Ltac opt_inv :=
  repeat match goal with
  | H : (_ ≫= _) = Some _ |- _ => apply bind_Some in H as (? & ? & H)
  | H : Some _ = Some _ |- _ => injection H as H; subst
  | H : (guard _ ≫= _) = Some _ |- _ => case_guard; [|discriminate H]
  end.

(** ** Machine integers

    A [w]-bit unsigned integer is a [Z] in [0, 2^w); every C or Rust
    conversion that can lose bits is written with [wrap]. *)

Definition wrap (w x : Z) : Z := x mod 2 ^ w.
Definition in_range (w x : Z) : Prop := 0 <= x < 2 ^ w.

#[global] Instance in_range_dec w x : Decision (in_range w x).
Proof. unfold in_range. apply _. Defined.

Lemma wrap_in_range w x : 0 <= w -> in_range w (wrap w x).
Proof. intros. apply Z.mod_pos_bound. lia. Qed.

Lemma wrap_id w x : in_range w x -> wrap w x = x.
Proof. apply Z.mod_small. Qed.

Lemma wrap_add_wrap_l w x y : wrap w (wrap w x + y) = wrap w (x + y).
Proof. unfold wrap. by rewrite Zplus_mod_idemp_l. Qed.

Lemma wrap_sub_wrap_l w x y : wrap w (wrap w x - y) = wrap w (x - y).
Proof. unfold wrap. by rewrite Zminus_mod_idemp_l. Qed.

Lemma in_range_weaken w w' x : 0 <= w <= w' -> in_range w x -> in_range w' x.
Proof.
  intros Hw [? ?]. pose proof (Z.pow_le_mono_r 2 w w'). unfold in_range. lia.
Qed.

Lemma in_range_0 w : 0 <= w -> in_range w 0.
Proof. split; lia. Qed.

Lemma shiftr_in_range w k x :
  0 <= k -> 0 <= w -> in_range (w + k) x -> in_range w (Z.shiftr x k).
Proof.
  intros Hk Hw [H0 H1]. rewrite Z.shiftr_div_pow2 by lia.
  split; [apply Z.div_pos; lia|].
  apply Z.div_lt_upper_bound; [lia|]. rewrite <- Z.pow_add_r by lia.
  by rewrite Z.add_comm.
Qed.

#[export] Hint Resolve wrap_in_range in_range_0 shiftr_in_range : paryty.

(** ** Rounding up to a multiple *)

Definition align_up (x a : Z) : Z := (x + a - 1) / a * a.

Section align_up.
Context (a : Z) (Ha : 0 < a).

Lemma align_up_ge x : x <= align_up x a.
Proof using Ha.
  unfold align_up. pose proof (Z.div_mod (x + a - 1) a).
  pose proof (Z.mod_pos_bound (x + a - 1) a). nia.
Qed.

Lemma align_up_lt x : align_up x a < x + a.
Proof using Ha.
  unfold align_up. pose proof (Z.div_mod (x + a - 1) a).
  pose proof (Z.mod_pos_bound (x + a - 1) a). nia.
Qed.

Lemma align_up_divide x : (a | align_up x a).
Proof using Ha. apply Z.divide_factor_r. Qed.

Lemma align_up_mod x : align_up x a mod a = 0.
Proof using Ha. apply Z.mod_divide; [lia|apply align_up_divide]. Qed.

Lemma align_up_id x : (a | x) -> align_up x a = x.
Proof using Ha.
  intros [k ->]. unfold align_up.
  replace (k * a + a - 1) with (k * a + (a - 1)) by lia.
  rewrite Z.div_add_l, (Z.div_small (a - 1)) by lia. lia.
Qed.

Lemma align_up_mono x y : x <= y -> align_up x a <= align_up y a.
Proof using Ha.
  intros. unfold align_up. apply Z.mul_le_mono_nonneg_r; [lia|].
  apply Z.div_le_mono; lia.
Qed.
End align_up.

(** ** Powers of two, the alignments of C objects *)

Definition pow2 (a : Z) : Prop := exists n : nat, a = 2 ^ Z.of_nat n.

Lemma pow2_pos a : pow2 a -> 0 < a.
Proof. intros [n ->]. lia. Qed.

Lemma pow2_le_divide a b : pow2 a -> pow2 b -> a <= b -> (a | b).
Proof.
  intros [n ->] [m ->] Hle. apply Z.pow_le_mono_r_iff in Hle; [|lia..].
  exists (2 ^ (Z.of_nat m - Z.of_nat n)). rewrite <- Z.pow_add_r by lia.
  f_equal. lia.
Qed.

Lemma pow2_max a b : pow2 a -> pow2 b -> pow2 (Z.max a b).
Proof. intros. destruct (Z.max_spec a b) as [[_ ->]|[_ ->]]; done. Qed.

Lemma pow2_divide_max_l a b : pow2 a -> pow2 b -> (a | Z.max a b).
Proof. intros. apply pow2_le_divide; [done|by apply pow2_max|lia]. Qed.

Lemma pow2_divide_max_r a b : pow2 a -> pow2 b -> (b | Z.max a b).
Proof. intros. apply pow2_le_divide; [done|by apply pow2_max|lia]. Qed.

#[export] Hint Resolve pow2_pos pow2_max pow2_divide_max_l pow2_divide_max_r : paryty.

(** ** Lists *)

(** [NoDup] of a projection, the form uniqueness of names takes. *)
Definition disjoint_spans (l : list (Z * Z)) : Prop :=
  forall i j o w o' w',
    (i < j)%nat -> l !! i = Some (o, w) -> l !! j = Some (o', w') ->
    o + w <= o'.

Lemma take_app_exact {A} (l k : list A) n : length l = n -> take n (l ++ k) = l.
Proof. intros <-. apply take_app_length. Qed.

Lemma drop_app_exact {A} (l k : list A) n : length l = n -> drop n (l ++ k) = k.
Proof. intros <-. apply drop_app_length. Qed.
