(* ===== verification/CLayout.v ===== *)
(** * C object layout

    The types of the C declarations under [src/.../ebpf/bpf] (the event
    structures of [common.h], the kernel types of [vmlinux.h]) and the
    layout an x86-64 SysV C compiler gives them: size, alignment and the
    bit offset of every member, bit-fields, [packed] aggregates and
    anonymous members included.  [resolve] computes what a member designator
    such as [sk->__sk_common.skc_dport] denotes. *)

From S2P Require Import Prelude.

(** ** Types and declarations *)

Inductive ikind :=
  | IBool | IChar | ISChar | IUChar | IShort | IUShort | IInt | IUInt
  | ILong | IULong | ILLong | IULLong | IInt128 | IUInt128.

Definition ik_size (k : ikind) : Z :=
  match k with
  | IBool | IChar | ISChar | IUChar => 1
  | IShort | IUShort => 2
  | IInt | IUInt => 4
  | ILong | IULong | ILLong | IULLong => 8
  | IInt128 | IUInt128 => 16
  end.

Inductive ckind := CStruct | CUnion.

#[local] Set Warnings "-register-all".

(** [CName] refers to a declared type: ["struct sock"], ["union bpf_attr"],
    ["enum sock_type"] or a typedef name.  A field is a name (empty for an
    anonymous member), a type and, for a bit-field, its width.  Qualifiers
    ([const], [volatile]) have no effect on layout and are not represented. *)
Inductive ctype :=
  | CVoid
  | CVarargs
  | CInt (k : ikind)
  | CPtr (t : ctype)
  | CFun (r : ctype) (args : list ctype)
  | CName (n : string)
  | CArr (t : ctype) (n : Z)
  | CEnum (consts : list (string * Z))
  | CComp (k : ckind) (packed : bool) (fs : list (string * ctype * option Z)).

Abbreviation cfield := (string * ctype * option Z)%type.

Inductive decl :=
  | DComp (name : string) (k : ckind) (packed : bool) (fs : list cfield)
  | DEnum (name : string) (byte_mode : bool) (consts : list (string * Z))
  | DTypedef (name : string) (t : ctype).

Definition decl_name (d : decl) : string :=
  match d with DComp n _ _ _ | DEnum n _ _ | DTypedef n _ => n end.

(** The two forms of a field, for the tables of declarations. *)
Definition fld (n : string) (t : ctype) : cfield := (n, t, None).
Definition bit (n : string) (t : ctype) (w : Z) : cfield := (n, t, Some w).

(** ** Layout information *)

(** A named member reachable in an aggregate, members of its anonymous
    members included: bit offset and width, the alignment in bytes its
    offset is guaranteed to have, and whether it is a bit-field. *)
Record member := Member {
  m_name : string;
  m_type : ctype;
  m_off : Z;
  m_width : Z;
  m_align : Z;
  m_bits : bool;
}.

Record tinfo := TInfo { ti_size : Z; ti_align : Z; ti_members : list member }.

Definition scalar (n : Z) : tinfo := TInfo n n [].

Definition shift_member (o : Z) (m : member) : member :=
  Member (m_name m) (m_type m) (o + m_off m) (m_width m) (m_align m) (m_bits m).

(** A field together with the layout of its type. *)
Record pfield := PField {
  pf_name : string;
  pf_type : ctype;
  pf_bits : option Z;
  pf_info : tinfo;
}.

Definition pf_width (f : pfield) : Z :=
  match pf_bits f with Some w => w | None => 8 * ti_size (pf_info f) end.

(** The alignment of the field's own offset. *)
Definition pf_align (packed : bool) (f : pfield) : Z :=
  if packed then 1 else
  match pf_bits f with Some _ => 1 | None => ti_align (pf_info f) end.

(** What the field contributes to the alignment of the aggregate: in the
    psABI an unnamed bit-field contributes nothing. *)
Definition pf_agg_align (packed : bool) (f : pfield) : Z :=
  if packed then 1 else
  match pf_bits f with
  | Some _ => if decide (pf_name f = ""%string) then 1 else ti_align (pf_info f)
  | None => ti_align (pf_info f)
  end.

(** Where the next field goes when the first [cur] bits are taken. *)
Definition place (packed : bool) (cur : Z) (f : pfield) : Z :=
  let unit := 8 * ti_size (pf_info f) in
  match pf_bits f with
  | None => align_up cur (8 * pf_align packed f)
  | Some w =>
      if w =? 0 then align_up cur unit
      else if packed then cur
      else if unit <? cur mod unit + w then align_up cur unit
      else cur
  end.

Fixpoint place_all (packed : bool) (cur : Z) (fs : list pfield) : list (Z * pfield) * Z :=
  match fs with
  | [] => ([], cur)
  | f :: fs =>
      let o := place packed cur f in
      let '(l, e) := place_all packed (o + pf_width f) fs in
      ((o, f) :: l, e)
  end.

Definition union_end (fs : list pfield) : Z := foldr (λ f e, Z.max (pf_width f) e) 0 fs.
Definition agg_align (packed : bool) (fs : list pfield) : Z :=
  foldr (λ f a, Z.max (pf_agg_align packed f) a) 1 fs.

(** The members a placed field contributes: itself when it is named, the
    members of its type when it is an anonymous struct or union. *)
Definition members_of (packed : bool) (pl : Z * pfield) : list member :=
  let '(o, f) := pl in
  if decide (pf_name f = ""%string) then
    match pf_bits f with
    | Some _ => []
    | None =>
        (λ m, let m' := shift_member o m in
              if packed then Member (m_name m') (m_type m') (m_off m') (m_width m') 1 (m_bits m')
              else m') <$> ti_members (pf_info f)
    end
  else
    [Member (pf_name f) (pf_type f) o (pf_width f) (pf_align packed f)
       (match pf_bits f with Some _ => true | None => false end)].

Definition layout_comp (k : ckind) (packed : bool) (fs : list pfield) : tinfo :=
  let '(l, e) :=
    match k with
    | CStruct => place_all packed 0 fs
    | CUnion => ((λ f, (0, f)) <$> fs, union_end fs)
    end in
  let a := agg_align packed fs in
  TInfo (align_up e (8 * a) / 8) a (concat (members_of packed <$> l)).

(** C11 6.7.2.1: the width of a bit-field does not exceed that of its type. *)
Definition bits_ok (b : option Z) (ti : tinfo) : bool :=
  match b with
  | None => true
  | Some w => (0 <? ti_size ti) && (0 <=? w) && (w <=? 8 * ti_size ti)
  end.

(** gcc: an enumeration has the size of the first of [unsigned int], [int],
    8-byte integers that holds its constants; [mode(byte)] makes it a byte. *)
Definition enum_size (byte_mode : bool) (consts : list (string * Z)) : Z :=
  if byte_mode then 1 else
  let lo := foldr (λ c, Z.min c.2) 0 consts in
  let hi := foldr (λ c, Z.max c.2) 0 consts in
  if (lo <? 0)
  then if (- 2 ^ 31 <=? lo) && (hi <? 2 ^ 31) then 4 else 8
  else if hi <? 2 ^ 32 then 4 else 8.

Abbreviation layouts := (gmap string tinfo).

Fixpoint layout_type (E : layouts) (t : ctype) : option tinfo :=
  match t with
  | CVoid | CVarargs | CFun _ _ => None
  | CInt k => Some (scalar (ik_size k))
  | CPtr _ => Some (scalar 8)
  | CName n => E !! n
  | CArr t n =>
      ti ← layout_type E t;
      if 0 <=? n then Some (TInfo (n * ti_size ti) (ti_align ti) []) else None
  | CEnum cs => Some (scalar (enum_size false cs))
  | CComp k packed fs =>
      pfs ← (fix go fs :=
        match fs with
        | [] => Some []
        | (n, t, b) :: fs =>
            ti ← layout_type E t;
            if bits_ok b ti then (PField n t b ti ::.) <$> go fs else None
        end) fs;
      Some (layout_comp k packed pfs)
  end.

(** A declaration is laid out in the environment of the declarations before
    it, as in C; a name is declared once. *)
Definition layout_decl (d : decl) (E : layouts) : option layouts :=
  match E !! decl_name d with
  | Some _ => None
  | None =>
      ti ← match d with
           | DComp _ k packed fs => layout_type E (CComp k packed fs)
           | DEnum _ byte_mode cs => Some (scalar (enum_size byte_mode cs))
           | DTypedef _ t => layout_type E t
           end;
      Some (<[decl_name d := ti]> E)
  end.

Fixpoint layout_decls (ds : list decl) (E : layouts) : option layouts :=
  match ds with
  | [] => Some E
  | d :: ds => E' ← layout_decl d E; layout_decls ds E'
  end.

(** ** Member designators *)

Definition find_member (n : string) (ms : list member) : option member :=
  list_find (λ m, m_name m = n) ms ≫= λ im, Some im.2.

(** What [p.f1.f2...] denotes for [p] of type [t]: bit offset, bit width,
    type, and whether it is a bit-field. *)
Record lvalue := LValue { lv_off : Z; lv_width : Z; lv_type : ctype; lv_bits : bool }.

Fixpoint resolve (E : layouts) (t : ctype) (path : list string) : option lvalue :=
  ti ← layout_type E t;
  match path with
  | [] => Some (LValue 0 (8 * ti_size ti) t false)
  | n :: rest =>
      m ← find_member n (ti_members ti);
      if m_bits m
      then match rest with
           | [] => Some (LValue (m_off m) (m_width m) (m_type m) true)
           | _ => None
           end
      else lv ← resolve E (m_type m) rest;
           Some (LValue (m_off m + lv_off lv) (lv_width lv) (lv_type lv) (lv_bits lv))
  end.

Definition sizeof (E : layouts) (t : ctype) : option Z := ti_size <$> layout_type E t.
Definition alignof (E : layouts) (t : ctype) : option Z := ti_align <$> layout_type E t.
(** [offsetof] and the size in bytes of a designated object; C has neither for
    a bit-field. *)
Definition object_at (E : layouts) (t : ctype) (path : list string) : option (Z * Z) :=
  lv ← resolve E t path;
  if lv_bits lv then None else Some (lv_off lv / 8, lv_width lv / 8).

#[global] Arguments sizeof : simpl never.
#[global] Arguments object_at : simpl never.

(** ** Well-formed layouts *)

(** A member lies inside the object; a member that is not a bit-field is at
    a multiple of its alignment, which divides that of the object. *)
Record wf_member (ti : tinfo) (m : member) : Prop := {
  wm_off : 0 <= m_off m;
  wm_width : 0 <= m_width m;
  wm_in : m_off m + m_width m <= 8 * ti_size ti;
  wm_pow2 : pow2 (m_align m);
  wm_align : (m_align m | ti_align ti);
  wm_aligned : m_bits m = false -> (8 * m_align m | m_off m);
}.

Record wf_tinfo (ti : tinfo) : Prop := {
  wt_size : 0 <= ti_size ti;
  wt_align : pow2 (ti_align ti);
  wt_divide : (ti_align ti | ti_size ti);
  wt_members : Forall (wf_member ti) (ti_members ti);
}.

Record wf_pfield (f : pfield) : Prop := {
  wp_info : wf_tinfo (pf_info f);
  wp_bits : bits_ok (pf_bits f) (pf_info f) = true;
}.

#[export] Hint Resolve wt_size wt_align wt_divide wp_info : paryty.

Lemma pow2_1 : pow2 1. Proof. by exists 0%nat. Qed.
Lemma pow2_ik k : pow2 (ik_size k).
Proof.
  destruct k; solve [by exists 0%nat | by exists 1%nat | by exists 2%nat
                    | by exists 3%nat | by exists 4%nat].
Qed.
Lemma pow2_enum b cs : pow2 (enum_size b cs).
Proof.
  unfold enum_size. repeat case_match;
    solve [by exists 0%nat | by exists 2%nat | by exists 3%nat].
Qed.
#[export] Hint Resolve pow2_1 pow2_ik pow2_enum : paryty.

Lemma wf_scalar n : pow2 n -> wf_tinfo (scalar n).
Proof.
  intros Hp. pose proof (pow2_pos _ Hp). split; simpl; [lia|done|done|constructor].
Qed.

Lemma pf_width_nonneg f : wf_pfield f -> 0 <= pf_width f.
Proof.
  intros [Hi Hb]. pose proof (wt_size _ Hi). unfold pf_width, bits_ok in *.
  destruct (pf_bits f); bool_to_prop; lia.
Qed.

Lemma pf_align_pow2 p f : wf_pfield f -> pow2 (pf_align p f).
Proof. intros []. unfold pf_align. repeat case_match; eauto with paryty. Qed.

Lemma pf_agg_align_pow2 p f : wf_pfield f -> pow2 (pf_agg_align p f).
Proof. intros []. unfold pf_agg_align. repeat case_match; eauto with paryty. Qed.

Lemma pf_align_agg p f : wf_pfield f -> (pf_align p f | pf_agg_align p f).
Proof.
  intros []. unfold pf_align, pf_agg_align. destruct p; [done|].
  destruct (pf_bits f); [apply Z.divide_1_l|done].
Qed.

Lemma agg_align_pow2 p fs : Forall wf_pfield fs -> pow2 (agg_align p fs).
Proof.
  induction 1; simpl; [apply pow2_1|]. apply pow2_max; [by apply pf_agg_align_pow2|done].
Qed.

Lemma agg_align_divide p fs f :
  Forall wf_pfield fs -> f ∈ fs -> (pf_agg_align p f | agg_align p fs).
Proof.
  intros Hfs Hin. induction Hin as [f fs|f g fs Hin IH]; inversion Hfs; subst; simpl.
  - apply pow2_divide_max_l; [by apply pf_agg_align_pow2|by apply agg_align_pow2].
  - etrans; [by apply IH|].
    apply pow2_divide_max_r; [by apply pf_agg_align_pow2|by apply agg_align_pow2].
Qed.

#[export] Hint Resolve wf_scalar pf_width_nonneg pf_align_pow2 pf_agg_align_pow2
  agg_align_pow2 : paryty.

(** ** Placement of the fields of a struct *)

Lemma place_ge p cur f : wf_pfield f -> 0 <= cur -> cur <= place p cur f.
Proof.
  intros [Hi Hb] Hc. unfold place, bits_ok in *.
  pose proof (pow2_pos _ (pf_align_pow2 p f ltac:(by split))).
  destruct (pf_bits f) as [w|]; bool_to_prop; [|apply align_up_ge; lia].
  repeat case_match; try lia; apply align_up_ge; lia.
Qed.

Lemma place_aligned p cur f :
  wf_pfield f -> pf_bits f = None -> (8 * pf_align p f | place p cur f).
Proof.
  intros Hf Hn. unfold place. rewrite Hn. apply align_up_divide.
  pose proof (pow2_pos _ (pf_align_pow2 p f Hf)). lia.
Qed.

(** A non-packed bit-field never crosses a boundary of its storage unit. *)
Lemma place_bits_unit cur f w :
  wf_pfield f -> pf_bits f = Some w -> 0 < w -> 0 <= cur ->
  place false cur f mod (8 * ti_size (pf_info f)) + w <= 8 * ti_size (pf_info f).
Proof.
  intros [Hi Hb] Hw Hpos Hc. unfold place, bits_ok in *. rewrite Hw in *. bool_to_prop.
  destruct (Z.eqb_spec w 0); [lia|].
  destruct (Z.ltb_spec (8 * ti_size (pf_info f)) (cur mod (8 * ti_size (pf_info f)) + w)); [|lia].
  rewrite align_up_mod by lia. lia.
Qed.

(** Spans that come one after the other between [lo] and [hi]. *)
Fixpoint ordered_spans (lo hi : Z) (l : list (Z * Z)) : Prop :=
  match l with
  | [] => lo <= hi
  | (o, w) :: l => lo <= o /\ 0 <= w /\ ordered_spans (o + w) hi l
  end.

Lemma ordered_spans_le lo hi l : ordered_spans lo hi l -> lo <= hi.
Proof.
  revert lo. induction l as [|[o w] l IH]; simpl; [done|].
  intros lo (? & ? & H%IH). lia.
Qed.

Lemma ordered_spans_weaken lo lo' hi l :
  lo' <= lo -> ordered_spans lo hi l -> ordered_spans lo' hi l.
Proof. destruct l as [|[o w] l]; simpl; [lia|]. intros ? (? & ? & ?). split_and!; [lia..|done]. Qed.

Lemma ordered_spans_lookup lo hi l i o w :
  ordered_spans lo hi l -> l !! i = Some (o, w) -> lo <= o /\ 0 <= w /\ o + w <= hi.
Proof.
  revert lo i. induction l as [|[o' w'] l IH]; simpl; [done|].
  intros lo [|i] (? & ? & H) Hi; simplify_eq/=.
  - apply ordered_spans_le in H. lia.
  - destruct (IH _ _ H Hi) as (? & ? & ?). lia.
Qed.

Lemma ordered_spans_disjoint lo hi l : ordered_spans lo hi l -> disjoint_spans l.
Proof.
  revert lo. induction l as [|[o' w'] l IH]; intros lo; [by intros ? [|i] [|j]|].
  simpl. intros (? & ? & H) [|i] [|j] o w o2 w2 Hij Hi Hj; simplify_eq/=; try lia.
  - by destruct (ordered_spans_lookup _ _ _ _ _ _ H Hj).
  - eapply IH; [done| |done..]. lia.
Qed.

Definition span (pl : Z * pfield) : Z * Z := (pl.1, pf_width pl.2).

Lemma place_all_fields p cur fs : (place_all p cur fs).1.*2 = fs.
Proof.
  revert cur. induction fs as [|f fs IH]; intros cur; simpl; [done|].
  specialize (IH (place p cur f + pf_width f)).
  destruct (place_all _ _ fs). simpl in *. by f_equal.
Qed.

Lemma place_all_ordered p cur fs :
  Forall wf_pfield fs -> 0 <= cur ->
  ordered_spans cur (place_all p cur fs).2 (span <$> (place_all p cur fs).1).
Proof.
  intros Hfs. revert cur. induction Hfs as [|f fs Hf Hfs IH]; intros cur Hc; simpl; [done|].
  pose proof (place_ge p cur f Hf Hc). pose proof (pf_width_nonneg f Hf).
  specialize (IH (place p cur f + pf_width f) ltac:(lia)).
  destruct (place_all _ _ fs). simpl in *. auto.
Qed.

Lemma place_all_aligned p cur fs o f :
  Forall wf_pfield fs -> (o, f) ∈ (place_all p cur fs).1 -> pf_bits f = None ->
  (8 * pf_align p f | o).
Proof.
  intros Hfs. revert cur. induction Hfs as [|g fs Hg Hfs IH]; intros cur; simpl.
  { by intros ?%elem_of_nil. }
  specialize (IH (place p cur g + pf_width g)). destruct (place_all _ _ fs).
  simpl in *. intros [[= -> ->]|?]%elem_of_cons Hb; [|by apply IH].
  by apply place_aligned.
Qed.


(** Packed fields that are not bit-fields follow each other without holes. *)
Lemma place_all_packed cur fs :
  Forall wf_pfield fs -> Forall (λ f, pf_bits f = None) fs -> 0 <= cur -> (8 | cur) ->
  (place_all true cur fs).2 = cur + foldr (λ f s, pf_width f + s) 0 fs.
Proof.
  intros Hwf Hfs. revert cur.
  induction Hfs as [|f fs Hf Hfs IH]; intros cur Hc Hd; inversion Hwf; subst; simpl; [lia|].
  assert (place true cur f = cur) as ->.
  { unfold place. rewrite Hf. by apply align_up_id. }
  pose proof (pf_width_nonneg f ltac:(done)).
  specialize (IH ltac:(done) (cur + pf_width f)). destruct (place_all _ _ fs). simpl in *.
  rewrite IH; [lia|lia|]. apply Z.divide_add_r; [done|].
  unfold pf_width. rewrite Hf. apply Z.divide_factor_l.
Qed.

(** ** Aggregates are well formed *)

Lemma union_end_ge fs f : f ∈ fs -> pf_width f <= union_end fs.
Proof. induction 1 as [|f g fs _ IH]; simpl; lia. Qed.

Lemma union_end_nonneg fs : 0 <= union_end fs.
Proof. induction fs; simpl; lia. Qed.

(** The placed fields and the end of an aggregate, as [layout_comp] takes them. *)
Definition placed (k : ckind) (p : bool) (fs : list pfield) : list (Z * pfield) * Z :=
  match k with
  | CStruct => place_all p 0 fs
  | CUnion => ((λ f, (0, f)) <$> fs, union_end fs)
  end.

Lemma placed_spec k p fs o f :
  Forall wf_pfield fs -> (o, f) ∈ (placed k p fs).1 ->
  f ∈ fs /\ wf_pfield f /\ 0 <= o /\ o + pf_width f <= (placed k p fs).2 /\
  (pf_bits f = None -> (8 * pf_align p f | o)).
Proof.
  intros Hfs Hin.
  assert (f ∈ fs) as Hf.
  { destruct k; simpl in *.
    - rewrite <- (place_all_fields p 0 fs). by apply (list_elem_of_fmap_2 snd) in Hin.
    - by apply list_elem_of_fmap in Hin as (? & [= -> ->] & ?). }
  split_and!; [done|by eapply Forall_forall|..]; destruct k; simpl in *.
  1,3: apply (list_elem_of_fmap_2 span), list_elem_of_lookup in Hin as [i Hi];
       destruct (ordered_spans_lookup _ _ _ _ _ _ (place_all_ordered p 0 fs Hfs ltac:(lia)) Hi) as (? & ? & ?); simpl in *; lia.
  - apply list_elem_of_fmap in Hin as (? & [= -> ->] & ?). lia.
  - apply list_elem_of_fmap in Hin as (? & [= -> ->] & ?). by apply union_end_ge.
  - intros. by eapply place_all_aligned.
  - apply list_elem_of_fmap in Hin as (? & [= -> ->] & ?). intros _. apply Z.divide_0_r.
Qed.

Lemma layout_comp_placed k p fs :
  layout_comp k p fs =
  TInfo (align_up (placed k p fs).2 (8 * agg_align p fs) / 8) (agg_align p fs)
    (concat (members_of p <$> (placed k p fs).1)).
Proof. unfold layout_comp, placed. destruct k; [|done]. by destruct (place_all _ _ _). Qed.

Lemma placed_end_nonneg k p fs : Forall wf_pfield fs -> 0 <= (placed k p fs).2.
Proof.
  intros Hfs. destruct k; simpl; [|apply union_end_nonneg].
  eapply ordered_spans_le, place_all_ordered; [done|lia].
Qed.

(** The size in bits is the end of the fields rounded up to the alignment. *)
Lemma layout_comp_size k p fs :
  Forall wf_pfield fs ->
  8 * ti_size (layout_comp k p fs) = align_up (placed k p fs).2 (8 * agg_align p fs).
Proof.
  intros Hfs. rewrite layout_comp_placed. simpl.
  pose proof (pow2_pos _ (agg_align_pow2 p fs Hfs)).
  destruct (align_up_divide (8 * agg_align p fs) ltac:(lia) (placed k p fs).2) as [q ->].
  replace (q * (8 * agg_align p fs)) with (q * agg_align p fs * 8) by lia.
  rewrite Z.div_mul by lia. lia.
Qed.

Lemma wf_member_of k p fs o f m :
  Forall wf_pfield fs -> (o, f) ∈ (placed k p fs).1 -> m ∈ members_of p (o, f) ->
  wf_member (layout_comp k p fs) m.
Proof.
  intros Hfs Hin Hm.
  destruct (placed_spec _ _ _ _ _ Hfs Hin) as (Hf & Hwf & Ho & He & Ha).
  pose proof (pow2_pos _ (agg_align_pow2 p fs Hfs)).
  pose proof (layout_comp_size k p fs Hfs) as Hsz.
  pose proof (align_up_ge (8 * agg_align p fs) ltac:(lia) (placed k p fs).2).
  pose proof (agg_align_divide p fs f Hfs Hf) as Hd.
  pose proof (pf_width_nonneg f Hwf).
  unfold members_of in Hm. case_decide.
  - destruct (pf_bits f) eqn:Hb; [by apply elem_of_nil in Hm|].
    apply list_elem_of_fmap in Hm as (m' & -> & Hm').
    destruct (proj1 (Forall_forall _ _) (wt_members _ (wp_info _ Hwf)) m' Hm').
    assert (m_off m' + m_width m' <= pf_width f) by (unfold pf_width; rewrite Hb; lia).
    specialize (Ha eq_refl). unfold pf_align, pf_agg_align in *.
    destruct p; split; simpl; try lia; rewrite ?layout_comp_placed; simpl;
      try apply pow2_1; try apply Z.divide_1_l; try done.
    + intros Hmb. apply Z.divide_add_r; [done|].
      etrans; [|by apply wm_aligned0].
      apply Z.mul_divide_mono_l with (p := 8). apply Z.divide_1_l.
    + rewrite Hb in Hd. by etrans.
    + intros Hmb. apply Z.divide_add_r; [|by apply wm_aligned0].
      rewrite Hb in Ha. etrans; [|done]. by apply Z.mul_divide_mono_l.
  - apply list_elem_of_singleton in Hm as ->.
    split; simpl; try lia; rewrite ?layout_comp_placed; simpl.
    + by apply pf_align_pow2.
    + etrans; [by apply pf_align_agg|done].
    + destruct (pf_bits f); [done|auto].
Qed.

Lemma wf_layout_comp k p fs : Forall wf_pfield fs -> wf_tinfo (layout_comp k p fs).
Proof.
  intros Hfs. pose proof (agg_align_pow2 p fs Hfs) as Hp. pose proof (pow2_pos _ Hp).
  pose proof (layout_comp_size k p fs Hfs) as Hsz.
  pose proof (placed_end_nonneg k p fs Hfs).
  pose proof (align_up_ge (8 * agg_align p fs) ltac:(lia) (placed k p fs).2).
  split; rewrite ?layout_comp_placed; simpl.
  - rewrite layout_comp_placed in Hsz. simpl in Hsz. lia.
  - done.
  - apply (Z.mul_divide_cancel_l _ _ 8); [lia|].
    rewrite layout_comp_placed in Hsz. simpl in Hsz. rewrite Hsz. apply align_up_divide. lia.
  - rewrite <- layout_comp_placed. apply Forall_forall. intros m Hm.
    apply list_elem_of_In, in_concat in Hm as (l & Hl & Hm).
    apply list_elem_of_In in Hl, Hm.
    apply list_elem_of_fmap in Hl as ([o f] & -> & Hin). by eapply wf_member_of.
Qed.

#[export] Hint Resolve wf_layout_comp : paryty.

(** ** The layout of types *)

(** Induction on types, with the hypothesis for every field of an aggregate. *)
Section ctype_induction.
Context (P : ctype -> Prop).
Context (Hvoid : P CVoid) (Hva : P CVarargs) (Hint : forall k, P (CInt k))
  (Hptr : forall t, P t -> P (CPtr t)) (Hfun : forall r args, P (CFun r args))
  (Hname : forall n, P (CName n)) (Harr : forall t n, P t -> P (CArr t n))
  (Henum : forall cs, P (CEnum cs))
  (Hcomp : forall k p fs, Forall (λ f : cfield, P f.1.2) fs -> P (CComp k p fs)).

Fixpoint ctype_ind' (t : ctype) : P t :=
  match t with
  | CVoid => Hvoid
  | CVarargs => Hva
  | CInt k => Hint k
  | CPtr t => Hptr t (ctype_ind' t)
  | CFun r args => Hfun r args
  | CName n => Hname n
  | CArr t n => Harr t n (ctype_ind' t)
  | CEnum cs => Henum cs
  | CComp k p fs =>
      Hcomp k p fs
        ((fix go (fs : list cfield) : Forall (λ f : cfield, P f.1.2) fs :=
            match fs with
            | [] => Forall_nil_2 _
            | f :: fs => Forall_cons_2 _ f fs (ctype_ind' f.1.2) (go fs)
            end) fs)
  end.
End ctype_induction.

(** The inner loop of [layout_type] on its own. *)
Definition layout_fields (E : layouts) : list cfield -> option (list pfield) :=
  fix go fs :=
    match fs with
    | [] => Some []
    | (n, t, b) :: fs =>
        ti ← layout_type E t;
        if bits_ok b ti then (PField n t b ti ::.) <$> go fs else None
    end.

Lemma layout_type_comp E k p fs :
  layout_type E (CComp k p fs) = layout_comp k p <$> layout_fields E fs.
Proof.
  simpl. fold (layout_fields E). by destruct (layout_fields E fs).
Qed.

Lemma layout_fields_cons E n t b fs pfs :
  layout_fields E ((n, t, b) :: fs) = Some pfs <->
  exists ti pfs', layout_type E t = Some ti /\ bits_ok b ti = true /\
    layout_fields E fs = Some pfs' /\ pfs = PField n t b ti :: pfs'.
Proof.
  simpl. fold (layout_fields E). split.
  - intros (ti & Ht & H)%bind_Some. destruct (bits_ok b ti) eqn:?; [|done].
    apply fmap_Some in H as (pfs' & ? & ->). naive_solver.
  - intros (ti & pfs' & -> & Hb & -> & ->). simpl. by rewrite Hb.
Qed.

(** A field list is laid out exactly when each of its types is. *)
Lemma layout_fields_Forall2 E fs pfs :
  layout_fields E fs = Some pfs <->
  Forall2 (λ (f : cfield) pf, pf_name pf = f.1.1 /\ pf_type pf = f.1.2 /\ pf_bits pf = f.2 /\
    layout_type E f.1.2 = Some (pf_info pf) /\ bits_ok f.2 (pf_info pf) = true) fs pfs.
Proof.
  revert pfs. induction fs as [|[[n t] b] fs IH]; intros pfs.
  { split; [by intros [= <-]|by intros ->%Forall2_nil_inv_l]. }
  rewrite layout_fields_cons. split.
  - intros (ti & pfs' & ? & ? & ?%IH & ->). by constructor.
  - intros ([n' t' b' ti] & pfs' & (?&?&?&?&?) & ?%IH & ->)%Forall2_cons_inv_l.
    simplify_eq/=. eauto 10.
Qed.

Definition wf_layouts (E : layouts) : Prop := map_Forall (λ _, wf_tinfo) E.

Section layout_type.
Context (E : layouts) (HE : wf_layouts E).

Lemma layout_type_wf t ti : layout_type E t = Some ti -> wf_tinfo ti.
Proof using HE.
  revert ti. induction t as [| |ik|t _|r args|n|t n IH|cs|k p fs IH] using ctype_ind';
    intros ti Ht; try discriminate.
  - injection Ht as <-. eauto with paryty.
  - injection Ht as <-. apply wf_scalar. by exists 3%nat.
  - by eapply HE.
  - simpl in Ht. apply bind_Some in Ht as (ti' & Ht' & Ht). destruct (Z.leb_spec 0 n); simplify_eq.
    destruct (IH _ Ht'). split; simpl; [nia|done|by apply Z.divide_mul_r|constructor].
  - injection Ht as <-. apply wf_scalar, (pow2_enum false).
  - rewrite layout_type_comp in Ht. apply fmap_Some in Ht as (pfs & Hfs & ->).
    apply layout_fields_Forall2 in Hfs. apply wf_layout_comp.
    induction Hfs as [|f pf fs pfs (_ & _ & Hb & Ht & Hok) _ IHfs];
      inversion IH; subst; constructor; [|by apply IHfs].
    split; [eauto|by rewrite Hb].
Qed.

Lemma layout_decl_wf d E' : layout_decl d E = Some E' -> wf_layouts E'.
Proof using HE.
  unfold layout_decl. destruct (E !! decl_name d); [done|].
  intros (ti & Hti & [= <-])%bind_Some. apply map_Forall_insert_2; [|done].
  destruct d; [by eapply layout_type_wf| |by eapply layout_type_wf].
  injection Hti as <-. eauto with paryty.
Qed.
End layout_type.

Lemma layout_decls_wf ds E E' : wf_layouts E -> layout_decls ds E = Some E' -> wf_layouts E'.
Proof.
  revert E. induction ds as [|d ds IH]; simpl; intros E HE; [by intros [= <-]|].
  intros (E1 & Hd & H)%bind_Some. eapply IH; [|done]. by eapply layout_decl_wf.
Qed.

(** Declaring more types changes no layout. *)
Lemma layout_type_mono E E' t ti :
  E ⊆ E' -> layout_type E t = Some ti -> layout_type E' t = Some ti.
Proof.
  intros HE. revert ti. induction t as [| |ik|t _|r args|n|t n IH|cs|k p fs IH] using ctype_ind';
    intros ti Ht; try done.
  - by eapply lookup_weaken.
  - simpl in *. apply bind_Some in Ht as (ti' & Ht' & Ht). by rewrite (IH _ Ht').
  - rewrite layout_type_comp in *. apply fmap_Some in Ht as (pfs & Hfs & ->).
    enough (layout_fields E' fs = Some pfs) as -> by done.
    apply layout_fields_Forall2. apply layout_fields_Forall2 in Hfs.
    induction Hfs as [|f pf fs pfs (?&?&?&?&?) _ IHfs]; inversion IH; subst;
      constructor; eauto 10.
Qed.

Lemma layout_decl_mono d E E' : layout_decl d E = Some E' -> E ⊆ E'.
Proof.
  unfold layout_decl. destruct (E !! decl_name d) eqn:Hn; [done|].
  intros (ti & _ & [= <-])%bind_Some. by apply insert_subseteq.
Qed.

Lemma layout_decls_mono ds E E' : layout_decls ds E = Some E' -> E ⊆ E'.
Proof.
  revert E. induction ds as [|d ds IH]; simpl; intros E; [by intros [= <-]|].
  intros (E1 & Hd%layout_decl_mono & H%IH)%bind_Some. by etrans.
Qed.

(** ** Designators stay inside the object *)

(** The width of a member is the size of its type. *)
Definition coherent (E : layouts) (ti : tinfo) : Prop :=
  Forall (λ m, m_bits m = false ->
    exists ti', layout_type E (m_type m) = Some ti' /\ m_width m = 8 * ti_size ti') (ti_members ti).

Definition wf_env (E : layouts) : Prop :=
  map_Forall (λ _ ti, wf_tinfo ti /\ coherent E ti) E.

Lemma wf_env_layouts E : wf_env E -> wf_layouts E.
Proof. intros HE n ti Hn. by destruct (HE n ti Hn). Qed.

Lemma coherent_mono E E' ti : E ⊆ E' -> coherent E ti -> coherent E' ti.
Proof.
  intros HE H. eapply Forall_impl; [exact H|]. intros m Hm Hb.
  destruct (Hm Hb) as (ti' & ? & ?). eauto using layout_type_mono.
Qed.

Lemma coherent_comp E k p pfs :
  Forall (λ pf, layout_type E (pf_type pf) = Some (pf_info pf) /\ coherent E (pf_info pf)) pfs ->
  coherent E (layout_comp k p pfs).
Proof.
  intros Hpfs. unfold coherent. rewrite layout_comp_placed. simpl.
  assert (Forall (λ pl : Z * pfield, layout_type E (pf_type pl.2) = Some (pf_info pl.2) /\
    coherent E (pf_info pl.2)) (placed k p pfs).1) as Hpl.
  { apply (Forall_fmap snd (λ pf, layout_type E (pf_type pf) = Some (pf_info pf) /\ coherent E (pf_info pf))).
    destruct k; simpl; [by rewrite place_all_fields|].
    by rewrite <- list_fmap_compose, list_fmap_id. }
  clear Hpfs. induction Hpl as [|[o f] l [Ht Hc] _ IH]; simpl; [constructor|].
  apply Forall_app. split; [|done]. clear IH. unfold members_of. case_decide.
  - destruct (pf_bits f); [constructor|]. apply Forall_fmap.
    eapply Forall_impl; [exact Hc|]. intros m Hm. by destruct p.
  - constructor; [|constructor]. simpl. unfold pf_width. destruct (pf_bits f); [done|eauto].
Qed.

Section coherence.
Context (E : layouts) (HE : wf_env E).

Lemma layout_type_coherent t ti : layout_type E t = Some ti -> coherent E ti.
Proof using HE.
  revert ti. induction t as [| |ik|t _|r args|n|t n IH|cs|k p fs IH] using ctype_ind';
    intros ti Ht; try discriminate; try (injection Ht as <-; constructor).
  - by eapply HE.
  - simpl in Ht. apply bind_Some in Ht as (ti' & _ & Ht).
    destruct (0 <=? n); simplify_eq. constructor.
  - rewrite layout_type_comp in Ht. apply fmap_Some in Ht as (pfs & Hfs & ->).
    apply layout_fields_Forall2 in Hfs. apply coherent_comp.
    induction Hfs as [|f pf fs pfs (_ & Htp & _ & Ht & _) _ IHfs];
      inversion IH; subst; constructor; [|by apply IHfs].
    rewrite Htp. eauto.
Qed.

Lemma find_member_elem n ms m : find_member n ms = Some m -> m ∈ ms /\ m_name m = n.
Proof using Type.
  unfold find_member. intros ([i m'] & (Hi & Hn & _)%list_find_Some & [= <-])%bind_Some.
  simpl in *. eauto using list_elem_of_lookup_2.
Qed.

(** Every designator the layout accepts names bits inside the object; unless
    it is a bit-field, at a byte boundary and as wide as its type. *)
Lemma resolve_spec t path lv ti :
  resolve E t path = Some lv -> layout_type E t = Some ti ->
  0 <= lv_off lv /\ 0 <= lv_width lv /\ lv_off lv + lv_width lv <= 8 * ti_size ti /\
  (lv_bits lv = false -> (8 | lv_off lv) /\ sizeof E (lv_type lv) = Some (lv_width lv / 8) /\
    (8 | lv_width lv)).
Proof using HE.
  revert t lv ti. induction path as [|n path IH]; intros t lv ti Hr Ht;
    simpl in Hr; rewrite Ht in Hr; simpl in Hr.
  - injection Hr as <-. simpl.
    destruct (layout_type_wf E (wf_env_layouts E HE) t ti Ht).
    split_and!; try lia. intros _. unfold sizeof. rewrite Ht. split_and!.
    + apply Z.divide_0_r.
    + simpl. f_equal. rewrite Z.mul_comm, Z.div_mul; lia.
    + apply Z.divide_factor_l.
  - apply bind_Some in Hr as (m & [Hin Hn]%find_member_elem & Hr).
    pose proof (wt_members _ (layout_type_wf E (wf_env_layouts E HE) t ti Ht)) as Hm.
    pose proof (layout_type_coherent t ti Ht) as Hc. unfold coherent in Hc.
    rewrite Forall_forall in Hm, Hc. specialize (Hm _ Hin). specialize (Hc _ Hin).
    destruct Hm. destruct (m_bits m) eqn:Hb.
    + destruct path; [|done]. injection Hr as <-. simpl. split_and!; [lia..|done].
    + apply bind_Some in Hr as (lv' & Hr & [= <-]). simpl.
      destruct (Hc eq_refl) as (ti' & Ht' & Hw').
      destruct (IH _ _ _ Hr Ht') as (? & ? & ? & Hbits). split_and!; try lia.
      intros Hb'. destruct (Hbits Hb') as (? & ? & ?). split_and!; [|done..].
      apply Z.divide_add_r; [|done]. etrans; [|by apply wm_aligned0].
      apply Z.divide_factor_l.
Qed.
End coherence.

(** Designators compose. *)
Lemma resolve_app E t p1 p2 lv1 lv2 :
  resolve E t p1 = Some lv1 -> lv_bits lv1 = false -> resolve E (lv_type lv1) p2 = Some lv2 ->
  resolve E t (p1 ++ p2) =
    Some (LValue (lv_off lv1 + lv_off lv2) (lv_width lv2) (lv_type lv2) (lv_bits lv2)).
Proof.
  revert t lv1. induction p1 as [|n p1 IH]; intros t lv1 H1 Hb H2.
  - simpl in H1. apply bind_Some in H1 as (ti & Hti & [= <-]). simpl in *.
    rewrite H2. by destruct lv2.
  - simpl in *. apply bind_Some in H1 as (ti & -> & H1). simpl.
    apply bind_Some in H1 as (m & -> & H1). simpl.
    destruct (m_bits m); [destruct p1; simplify_eq/=; done|].
    apply bind_Some in H1 as (lv & H1 & [= <-]). simpl in *.
    rewrite (IH _ _ H1 Hb H2). simpl. by rewrite Z.add_assoc.
Qed.

Lemma layout_decl_env d E E' : wf_env E -> layout_decl d E = Some E' -> wf_env E'.
Proof.
  intros HE Hd. pose proof (layout_decl_mono _ _ _ Hd) as Hmono.
  pose proof (layout_decl_wf E (wf_env_layouts E HE) d E' Hd) as Hwf.
  intros n ti Hn. split; [by eapply Hwf|]. apply (coherent_mono E); [done|].
  unfold layout_decl in Hd. destruct (E !! decl_name d); [done|].
  apply bind_Some in Hd as (ti' & Hti & [= <-]).
  apply lookup_insert_Some in Hn as [[<- <-]|[_ Hn]]; [|by eapply HE].
  destruct d; [by eapply layout_type_coherent| |by eapply layout_type_coherent].
  injection Hti as <-. constructor.
Qed.

Lemma layout_decls_env ds E E' : wf_env E -> layout_decls ds E = Some E' -> wf_env E'.
Proof.
  revert E. induction ds as [|d ds IH]; simpl; intros E HE; [by intros [= <-]|].
  intros (E1 & Hd & H)%bind_Some. eapply IH; [|done]. by eapply layout_decl_env.
Qed.

Lemma wf_env_empty : wf_env ∅.
Proof. apply map_Forall_empty. Qed.
