(* ===== verification/Bytes.v ===== *)
(** * Bytes and little-endian integers

    Memory is a list of [byte]s.  The probes run on, and are compiled for, a
    little-endian machine: an [n]-byte integer object holds [le_bytes n z]. *)

From Stdlib Require Export Strings.Byte.
From S2P Require Import Prelude.

#[global] Instance byte_eq_dec : EqDecision byte.
Proof. intros x y. destruct (Byte.byte_eq_dec x y); [left|right]; done. Defined.

#[global] Instance byte_countable : Countable byte :=
  inj_countable Byte.to_N Byte.of_N Byte.of_to_N.

#[global] Instance byte_inhabited : Inhabited byte := populate x00.

Definition Z_of_byte (b : byte) : Z := Z.of_N (Byte.to_N b).

Definition byte_of_Z (z : Z) : byte :=
  match Byte.of_N (Z.to_N (z mod 256)) with Some b => b | None => x00 end.

Lemma Z_of_byte_range b : 0 <= Z_of_byte b < 256.
Proof. unfold Z_of_byte. pose proof (Byte.to_N_bounded b). lia. Qed.

Lemma Z_of_byte_of_Z z : Z_of_byte (byte_of_Z z) = z mod 256.
Proof.
  unfold Z_of_byte, byte_of_Z. pose proof (Z.mod_pos_bound z 256).
  destruct (Byte.of_N _) eqn:Hb.
  - apply Byte.to_of_N in Hb. rewrite Hb. lia.
  - apply Byte.of_N_None_iff in Hb. lia.
Qed.

Lemma byte_of_Z_of_byte b : byte_of_Z (Z_of_byte b) = b.
Proof.
  unfold byte_of_Z. rewrite Z.mod_small by apply Z_of_byte_range.
  unfold Z_of_byte. by rewrite N2Z.id, Byte.of_to_N.
Qed.

Lemma Z_of_byte_inj b b' : Z_of_byte b = Z_of_byte b' -> b = b'.
Proof. intros H. by rewrite <- (byte_of_Z_of_byte b), H, byte_of_Z_of_byte. Qed.

(** ** Little-endian integers *)

Fixpoint le_bytes (n : nat) (z : Z) : list byte :=
  match n with
  | O => []
  | S n => byte_of_Z z :: le_bytes n (z / 256)
  end.

Definition le_val (bs : list byte) : Z := foldr (λ b v, Z_of_byte b + 256 * v) 0 bs.

Lemma length_le_bytes n z : length (le_bytes n z) = n.
Proof. revert z. induction n; intros; simpl; auto. Qed.

Lemma le_val_le_bytes n z : le_val (le_bytes n z) = z mod 2 ^ (8 * Z.of_nat n).
Proof.
  revert z. induction n as [|n IH]; intros z; simpl; [by rewrite Z.mod_1_r|].
  rewrite Z_of_byte_of_Z, IH.
  replace (8 * Z.of_nat (S n)) with (8 + 8 * Z.of_nat n) by lia.
  rewrite Z.pow_add_r by lia. change (2 ^ 8) with 256.
  rewrite Z.rem_mul_r by lia. lia.
Qed.

Lemma le_val_in_range bs : in_range (8 * Z.of_nat (length bs)) (le_val bs).
Proof.
  unfold in_range. induction bs as [|b bs IH]; [done|].
  cbn [length le_val foldr]. fold (le_val bs). pose proof (Z_of_byte_range b).
  replace (8 * Z.of_nat (S (length bs))) with (8 + 8 * Z.of_nat (length bs)) by lia.
  rewrite Z.pow_add_r by lia. change (2 ^ 8) with 256. nia.
Qed.

Lemma le_bytes_le_val bs : le_bytes (length bs) (le_val bs) = bs.
Proof.
  induction bs as [|b bs IH]; [done|]. cbn [length le_val foldr le_bytes]. fold (le_val bs).
  pose proof (Z_of_byte_range b). f_equal.
  - apply Z_of_byte_inj. rewrite Z_of_byte_of_Z.
    rewrite Z.mul_comm, Z.mod_add by lia. by apply Z.mod_small.
  - rewrite Z.mul_comm, Z.div_add by lia. by rewrite Z.div_small, Z.add_0_l by done.
Qed.

Lemma le_val_le_bytes_id n w z :
  w = 8 * Z.of_nat n -> in_range w z -> le_val (le_bytes n z) = z.
Proof. intros -> ?. rewrite le_val_le_bytes. by apply Z.mod_small. Qed.

Lemma le_bytes_le_val_id n bs : length bs = n -> le_bytes n (le_val bs) = bs.
Proof. intros <-. apply le_bytes_le_val. Qed.

Lemma le_bytes_inj n w x y :
  w = 8 * Z.of_nat n -> in_range w x -> in_range w y -> le_bytes n x = le_bytes n y -> x = y.
Proof.
  intros Hw Hx Hy H. apply (f_equal le_val) in H.
  by rewrite !(le_val_le_bytes_id n w) in H.
Qed.

(** ** Slices *)

(** [n] bytes at offset [o]. *)
Definition slice (o n : nat) (bs : list byte) : list byte := take n (drop o bs).

Lemma length_slice o n bs : (o + n <= length bs)%nat -> length (slice o n bs) = n.
Proof. intros. unfold slice. rewrite length_take, length_drop. lia. Qed.

Lemma slice_app_l o n bs bs' :
  (o + n <= length bs)%nat -> slice o n (bs ++ bs') = slice o n bs.
Proof.
  intros. unfold slice. rewrite drop_app_le, take_app_le; [done|rewrite length_drop; lia|lia].
Qed.

Lemma slice_skip o n bs bs' k :
  length bs = k -> (k <= o)%nat -> slice o n (bs ++ bs') = slice (o - k) n bs'.
Proof. intros <- ?. unfold slice. by rewrite drop_app_ge by done. Qed.

Lemma slice_head n bs bs' : length bs = n -> slice 0 n (bs ++ bs') = bs.
Proof. intros <-. unfold slice. rewrite drop_0. by rewrite take_app_length. Qed.

Lemma slice_all bs n : length bs = n -> slice 0 n bs = bs.
Proof. intros <-. unfold slice. rewrite drop_0. by apply take_ge. Qed.

(** Consecutive slices put together. *)
Lemma slice_split o n m bs : slice o (n + m) bs = slice o n bs ++ slice (o + n) m bs.
Proof. unfold slice. by rewrite <- take_take_drop, drop_drop. Qed.

(** ** NUL-terminated strings in fixed arrays *)

(** [iter().position(|b| b == 0).unwrap_or(len)]: the number of bytes before
    the first NUL. *)
Definition strnlen (bs : list byte) : nat :=
  match list_find (λ b, b = x00) bs with Some (i, _) => i | None => length bs end.

Definition cstr (bs : list byte) : list byte := take (strnlen bs) bs.

Lemma cstr_no_nul bs : x00 ∉ cstr bs.
Proof.
  unfold cstr, strnlen. intros Hin. apply list_elem_of_lookup in Hin as [i Hi].
  apply lookup_take_Some in Hi as [Hi Hlt].
  destruct (list_find _ bs) as [[j b]|] eqn:Hf.
  - apply list_find_Some in Hf as (_ & _ & Hno). by apply (Hno i x00 Hi).
  - apply list_find_None in Hf. rewrite Forall_forall in Hf.
    apply (Hf x00); [by eapply list_elem_of_lookup_2|done].
Qed.

Lemma cstr_app s bs : x00 ∉ s -> cstr (s ++ x00 :: bs) = s.
Proof.
  intros Hs. unfold cstr, strnlen.
  assert (list_find (λ b, b = x00) (s ++ x00 :: bs) = Some (length s, x00)) as ->.
  { apply list_find_Some. split_and!; [by apply list_lookup_middle|done|].
    intros j y Hj Hlt ->. rewrite lookup_app_l in Hj by done.
    by apply Hs, (list_elem_of_lookup_2 _ j). }
  by rewrite take_app_length.
Qed.

Lemma cstr_id s : x00 ∉ s -> cstr s = s.
Proof.
  intros Hs. unfold cstr, strnlen.
  assert (list_find (λ b, b = x00) s = None) as ->.
  { apply list_find_None, Forall_forall. by intros b Hb ->. }
  by apply take_ge.
Qed.

(** The bytes of an ASCII literal of the source. *)
Definition ascii_bytes (s : string) : list byte := String.list_byte_of_string s.


