(* ===== verification/CObject.v ===== *)
(** * Object representation of records

    [CObject A]: the records [A] model a C (or Rust [repr(C)]) structure whose
    members, in declaration order, have the given names, sizes and
    representations.  The class asks that the declared layout puts them one
    after the other; a client then gets that every member is found in the
    object representation where the layout says, whichever compatible
    declaration it is read through. *)

From S2P Require Import Prelude Bytes CLayout.

#[local] Open Scope string_scope.
#[local] Open Scope list_scope.
#[local] Open Scope Z_scope.

(** The members [l], named and sized, fill an object of type [T] from byte
    [o] to its end. *)
Fixpoint fields_at (E : layouts) (T : ctype) (o : nat) (l : list (string * nat)) : bool :=
  match l with
  | [] => bool_decide (sizeof E T = Some (Z.of_nat o))
  | (n, k) :: l =>
      bool_decide (object_at E T [n] = Some (Z.of_nat o, Z.of_nat k)) && fields_at E T (o + k) l
  end.

(** The bytes of member [n] of an object of type [T]. *)
Definition load (E : layouts) (T : ctype) (n : string) (bs : list byte) : list byte :=
  match object_at E T [n] with
  | Some (o, k) => slice (Z.to_nat o) (Z.to_nat k) bs
  | None => []
  end.

Class CObject (A : Type) := {
  co_env : layouts;
  co_type : ctype;
  co_fields : list (string * nat * (A -> list byte));
  co_wf : A -> Prop;
  co_sized : forall a n k g, co_wf a -> (n, k, g) ∈ co_fields -> length (g a) = k;
  co_layout : fields_at co_env co_type 0 (co_fields.*1) = true;
}.

Definition to_bytes {A} `{!CObject A} (a : A) : list byte :=
  concat ((λ f : string * nat * (A -> list byte), f.2 a) <$> co_fields).

#[global] Arguments to_bytes : simpl never.

(** Declarations that put the same members at the same places. *)
Definition same_fields (A : Type) `{!CObject A} (E : layouts) (T : ctype) : Prop :=
  fields_at E T 0 (co_fields.*1) = true.

Section fields_at.
Context (E : layouts) (T : ctype).

Lemma fields_at_size o l :
  fields_at E T o l = true -> sizeof E T = Some (Z.of_nat (o + sum_list (l.*2))).
Proof.
  revert o. induction l as [|[n k] l IH]; intros o H; csimpl in *.
  - apply bool_decide_eq_true in H. by rewrite H, Nat.add_0_r.
  - apply andb_true_iff in H as [_ H]. by rewrite (IH _ H), <- Nat.add_assoc.
Qed.

(** Loading a member from the concatenation of the members' bytes. *)
Lemma load_concat (l : list (string * nat * list byte)) pre post n k bs :
  fields_at E T (length pre) (l.*1) = true ->
  Forall (λ f, length f.2 = f.1.2) l -> (n, k, bs) ∈ l ->
  load E T n (pre ++ concat (l.*2) ++ post) = bs.
Proof.
  revert pre. induction l as [|[[n' k'] bs'] l IH]; intros pre H Hl Hin; csimpl in *.
  { by apply elem_of_nil in Hin. }
  apply andb_true_iff in H as [Ho%bool_decide_eq_true H].
  inversion Hl as [|? ? Hk Hl']; csimpl in *; subst.
  apply elem_of_cons in Hin as [[= -> -> ->]|Hin].
  - unfold load. rewrite Ho, !Nat2Z.id.
    rewrite (slice_skip _ _ pre _ (length pre)) by lia.
    rewrite Nat.sub_diag, <- app_assoc. by apply slice_head.
  - specialize (IH (pre ++ bs')). rewrite length_app, <- !app_assoc in IH.
    rewrite <- app_assoc. by apply IH.
Qed.

(** Conversely the loaded members put together are the object. *)
Lemma concat_loads o l bs :
  fields_at E T o l = true -> length bs = (o + sum_list (l.*2))%nat ->
  concat ((λ f, load E T f.1 bs) <$> l) = drop o bs.
Proof.
  revert o. induction l as [|[n k] l IH]; intros o H Hlen; csimpl in *.
  - rewrite drop_ge; [done|lia].
  - apply andb_true_iff in H as [Ho%bool_decide_eq_true H].
    rewrite (IH _ H) by lia. unfold load at 1. csimpl. rewrite Ho, !Nat2Z.id.
    unfold slice. rewrite <- drop_drop. apply take_drop.
Qed.

Lemma length_load o l n k bs :
  fields_at E T o l = true -> (o + sum_list (l.*2) <= length bs)%nat -> (n, k) ∈ l ->
  length (load E T n bs) = k.
Proof.
  revert o. induction l as [|[n' k'] l IH]; intros o H Hlen Hin; csimpl in *.
  { by apply elem_of_nil in Hin. }
  apply andb_true_iff in H as [Ho%bool_decide_eq_true H].
  apply elem_of_cons in Hin as [[= -> ->]|Hin]; [|apply (IH _ H); [lia|done]].
  unfold load. rewrite Ho, !Nat2Z.id. apply length_slice. lia.
Qed.
End fields_at.

Section objects.
Context {A : Type} `{!CObject A}.
Implicit Types a : A.

Definition field_bytes a : list (string * nat * list byte) :=
  (λ f : string * nat * (A -> list byte), (f.1, f.2 a)) <$> co_fields.

Lemma to_bytes_field_bytes a : to_bytes a = concat ((field_bytes a).*2).
Proof using Type. unfold to_bytes, field_bytes. by rewrite <- list_fmap_compose. Qed.

Lemma field_bytes_fst a : (field_bytes a).*1 = co_fields.*1.
Proof using Type. unfold field_bytes. by rewrite <- list_fmap_compose. Qed.

Lemma field_bytes_sized a : co_wf a -> Forall (λ f, length f.2 = f.1.2) (field_bytes a).
Proof using Type.
  intros Hwf. apply Forall_fmap, Forall_forall. intros [[n k] g] Hin. simpl.
  by eapply co_sized.
Qed.

Lemma load_to_bytes E T a n k g post :
  same_fields A E T -> co_wf a -> (n, k, g) ∈ co_fields ->
  load E T n (to_bytes a ++ post) = g a.
Proof using Type.
  intros Hs Hwf Hin. rewrite to_bytes_field_bytes.
  apply (load_concat E T (field_bytes a) [] post n k).
  - by rewrite field_bytes_fst.
  - by apply field_bytes_sized.
  - apply list_elem_of_fmap. by exists (n, k, g).
Qed.

Lemma sizeof_same E T : same_fields A E T -> sizeof E T = sizeof co_env co_type.
Proof using Type.
  intros Hs. rewrite (fields_at_size _ _ _ _ Hs). symmetry.
  apply (fields_at_size _ _ _ _ co_layout).
Qed.

Lemma length_to_bytes a :
  co_wf a -> sizeof co_env co_type = Some (Z.of_nat (length (to_bytes a))).
Proof using Type.
  intros Hwf. rewrite (fields_at_size _ _ _ _ co_layout). do 2 f_equal. simpl.
  rewrite to_bytes_field_bytes, <- (field_bytes_fst a).
  induction (field_bytes_sized a Hwf) as [|[[n k] bs] l Hk _ IH]; [done|].
  csimpl in *. by rewrite length_app, IH, Hk.
Qed.
End objects.
