(* ===== verification/VmlinuxBase.v ===== *)
(** * Kernel types: the scalars, locks, lists and other small types shared by
    the socket, task and BPF tables.

    Transcribed from [vmlinux.h], declaration by declaration, in an order in
    which the types a declaration holds by value come before it. *)

From S2P Require Import Prelude CLayout.

#[local] Open Scope string_scope.
#[local] Open Scope list_scope.
#[local] Open Scope Z_scope.

Definition typedef_bool : decl := DTypedef "bool" (CInt IBool).

Definition typedef___s32 : decl := DTypedef "__s32" (CInt IInt).

Definition typedef___s64 : decl := DTypedef "__s64" (CInt ILLong).

Definition typedef_s64 : decl := DTypedef "s64" (CName "__s64").

Definition typedef_ktime_t : decl := DTypedef "ktime_t" (CName "s64").

Definition typedef___u64 : decl := DTypedef "__u64" (CInt IULLong).

Definition typedef_u64 : decl := DTypedef "u64" (CName "__u64").

Definition typedef_netdev_features_t : decl := DTypedef "netdev_features_t" (CName "u64").

Definition typedef___kernel_ulong_t : decl := DTypedef "__kernel_ulong_t" (CInt IULong).

Definition typedef___kernel_size_t : decl := DTypedef "__kernel_size_t" (CName "__kernel_ulong_t").

Definition typedef_size_t : decl := DTypedef "size_t" (CName "__kernel_size_t").

Definition typedef___s16 : decl := DTypedef "__s16" (CInt IShort).

Definition typedef_s16 : decl := DTypedef "s16" (CName "__s16").

Definition typedef___u16 : decl := DTypedef "__u16" (CInt IUShort).

Definition typedef_u16 : decl := DTypedef "u16" (CName "__u16").

Definition typedef___be16 : decl := DTypedef "__be16" (CName "__u16").

Definition typedef___u8 : decl := DTypedef "__u8" (CInt IUChar).

Definition typedef_u8 : decl := DTypedef "u8" (CName "__u8").

Definition typedef___u32 : decl := DTypedef "__u32" (CInt IUInt).

Definition typedef_u32 : decl := DTypedef "u32" (CName "__u32").

Definition typedef___kernel_gid32_t : decl := DTypedef "__kernel_gid32_t" (CInt IUInt).

Definition typedef___kernel_uid32_t : decl := DTypedef "__kernel_uid32_t" (CInt IUInt).

Definition typedef_gfp_t : decl := DTypedef "gfp_t" (CInt IUInt).

Definition typedef_gid_t : decl := DTypedef "gid_t" (CName "__kernel_gid32_t").

Definition typedef_uid_t : decl := DTypedef "uid_t" (CName "__kernel_uid32_t").

Definition struct_list_head : decl :=
  DComp "struct list_head" CStruct false [
    fld "next" (CPtr (CName "struct list_head"));
    fld "prev" (CPtr (CName "struct list_head"))].

Definition typedef_atomic_t : decl := DTypedef "atomic_t" (CComp CStruct false [
      fld "counter" (CInt IInt)]).

Definition struct_refcount_struct : decl :=
  DComp "struct refcount_struct" CStruct false [
    fld "refs" (CName "atomic_t")].

Definition typedef_refcount_t : decl := DTypedef "refcount_t" (CName "struct refcount_struct").

Definition typedef_atomic64_t : decl := DTypedef "atomic64_t" (CComp CStruct false [
      fld "counter" (CName "s64")]).

Definition typedef_atomic_long_t : decl := DTypedef "atomic_long_t" (CName "atomic64_t").

Definition struct_qspinlock : decl :=
  DComp "struct qspinlock" CStruct false [
    fld "" (CComp CUnion false [
      fld "val" (CName "atomic_t");
      fld "" (CComp CStruct false [
        fld "locked" (CName "u8");
        fld "pending" (CName "u8")]);
      fld "" (CComp CStruct false [
        fld "locked_pending" (CName "u16");
        fld "tail" (CName "u16")])])].

Definition typedef_arch_spinlock_t : decl := DTypedef "arch_spinlock_t" (CName "struct qspinlock").

Definition struct_raw_spinlock : decl :=
  DComp "struct raw_spinlock" CStruct false [
    fld "raw_lock" (CName "arch_spinlock_t")].

Definition typedef_raw_spinlock_t : decl := DTypedef "raw_spinlock_t" (CName "struct raw_spinlock").

Definition struct_spinlock : decl :=
  DComp "struct spinlock" CStruct false [
    fld "" (CComp CUnion false [
      fld "rlock" (CName "struct raw_spinlock")])].

Definition typedef_spinlock_t : decl := DTypedef "spinlock_t" (CName "struct spinlock").

Definition typedef_kgid_t : decl := DTypedef "kgid_t" (CComp CStruct false [
      fld "val" (CName "gid_t")]).

Definition typedef_kuid_t : decl := DTypedef "kuid_t" (CComp CStruct false [
      fld "val" (CName "uid_t")]).

Definition struct_optimistic_spin_queue : decl :=
  DComp "struct optimistic_spin_queue" CStruct false [
    fld "tail" (CName "atomic_t")].

Definition struct_rw_semaphore : decl :=
  DComp "struct rw_semaphore" CStruct false [
    fld "count" (CName "atomic_long_t");
    fld "owner" (CName "atomic_long_t");
    fld "osq" (CName "struct optimistic_spin_queue");
    fld "wait_lock" (CName "raw_spinlock_t");
    fld "wait_list" (CName "struct list_head")].

Definition struct_mutex : decl :=
  DComp "struct mutex" CStruct false [
    fld "owner" (CName "atomic_long_t");
    fld "wait_lock" (CName "raw_spinlock_t");
    fld "osq" (CName "struct optimistic_spin_queue");
    fld "wait_list" (CName "struct list_head")].

Definition typedef_netdevice_tracker : decl := DTypedef "netdevice_tracker" (CComp CStruct false []).

Definition typedef_possible_net_t : decl := DTypedef "possible_net_t" (CComp CStruct false [
      fld "net" (CPtr (CName "struct net"))]).

Definition struct_qrwlock : decl :=
  DComp "struct qrwlock" CStruct false [
    fld "" (CComp CUnion false [
      fld "cnts" (CName "atomic_t");
      fld "" (CComp CStruct false [
        fld "wlocked" (CName "u8");
        fld "__lstate" (CArr (CName "u8") 3)])]);
    fld "wait_lock" (CName "arch_spinlock_t")].

Definition typedef_arch_rwlock_t : decl := DTypedef "arch_rwlock_t" (CName "struct qrwlock").

Definition typedef_rwlock_t : decl := DTypedef "rwlock_t" (CComp CStruct false [
      fld "raw_lock" (CName "arch_rwlock_t")]).

Definition struct_seqcount : decl :=
  DComp "struct seqcount" CStruct false [
    fld "sequence" (CInt IUInt)].

Definition typedef_seqcount_t : decl := DTypedef "seqcount_t" (CName "struct seqcount").

Definition struct_seqcount_spinlock : decl :=
  DComp "struct seqcount_spinlock" CStruct false [
    fld "seqcount" (CName "seqcount_t")].

Definition typedef_seqcount_spinlock_t : decl := DTypedef "seqcount_spinlock_t" (CName "struct seqcount_spinlock").

Definition typedef_seqlock_t : decl := DTypedef "seqlock_t" (CComp CStruct false [
      fld "seqcount" (CName "seqcount_spinlock_t");
      fld "lock" (CName "spinlock_t")]).

Definition struct_wait_queue_head : decl :=
  DComp "struct wait_queue_head" CStruct false [
    fld "lock" (CName "spinlock_t");
    fld "head" (CName "struct list_head")].

Definition typedef_wait_queue_head_t : decl := DTypedef "wait_queue_head_t" (CName "struct wait_queue_head").

Definition struct_hlist_node : decl :=
  DComp "struct hlist_node" CStruct false [
    fld "next" (CPtr (CName "struct hlist_node"));
    fld "pprev" (CPtr (CPtr (CName "struct hlist_node")))].

Definition struct_sk_buff_list : decl :=
  DComp "struct sk_buff_list" CStruct false [
    fld "next" (CPtr (CName "struct sk_buff"));
    fld "prev" (CPtr (CName "struct sk_buff"))].

Definition struct_sk_buff_head : decl :=
  DComp "struct sk_buff_head" CStruct false [
    fld "" (CComp CUnion false [
      fld "" (CComp CStruct false [
        fld "next" (CPtr (CName "struct sk_buff"));
        fld "prev" (CPtr (CName "struct sk_buff"))]);
      fld "list" (CName "struct sk_buff_list")]);
    fld "qlen" (CName "__u32");
    fld "lock" (CName "spinlock_t")].

Definition struct_callback_head : decl :=
  DComp "struct callback_head" CStruct false [
    fld "next" (CPtr (CName "struct callback_head"));
    fld "func" (CPtr (CFun CVoid [CPtr (CName "struct callback_head")]))].

Definition struct_rb_node : decl :=
  DComp "struct rb_node" CStruct false [
    fld "__rb_parent_color" (CInt IULong);
    fld "rb_right" (CPtr (CName "struct rb_node"));
    fld "rb_left" (CPtr (CName "struct rb_node"))].

Definition struct_timerqueue_node : decl :=
  DComp "struct timerqueue_node" CStruct false [
    fld "node" (CName "struct rb_node");
    fld "expires" (CName "ktime_t")].

Definition struct_hrtimer : decl :=
  DComp "struct hrtimer" CStruct false [
    fld "node" (CName "struct timerqueue_node");
    fld "_softexpires" (CName "ktime_t");
    fld "function" (CPtr (CFun (CName "enum hrtimer_restart") [CPtr (CName "struct hrtimer")]));
    fld "base" (CPtr (CName "struct hrtimer_clock_base"));
    fld "state" (CName "u8");
    fld "is_rel" (CName "u8");
    fld "is_soft" (CName "u8");
    fld "is_hard" (CName "u8")].

Definition typedef_work_func_t : decl := DTypedef "work_func_t" (CPtr (CFun CVoid [CPtr (CName "struct work_struct")])).

Definition struct_work_struct : decl :=
  DComp "struct work_struct" CStruct false [
    fld "data" (CName "atomic_long_t");
    fld "entry" (CName "struct list_head");
    fld "func" (CName "work_func_t")].

Definition struct_timer_list : decl :=
  DComp "struct timer_list" CStruct false [
    fld "entry" (CName "struct hlist_node");
    fld "expires" (CInt IULong);
    fld "function" (CPtr (CFun CVoid [CPtr (CName "struct timer_list")]));
    fld "flags" (CName "u32")].

Definition struct_llist_node : decl :=
  DComp "struct llist_node" CStruct false [
    fld "next" (CPtr (CName "struct llist_node"))].

Definition struct___call_single_node : decl :=
  DComp "struct __call_single_node" CStruct false [
    fld "llist" (CName "struct llist_node");
    fld "" (CComp CUnion false [
      fld "u_flags" (CInt IUInt);
      fld "a_flags" (CName "atomic_t")]);
    fld "src" (CName "u16");
    fld "dst" (CName "u16")].

Definition struct_rhash_head : decl :=
  DComp "struct rhash_head" CStruct false [
    fld "next" (CPtr (CName "struct rhash_head"))].

Definition struct_rb_root : decl :=
  DComp "struct rb_root" CStruct false [
    fld "rb_node" (CPtr (CName "struct rb_node"))].

Definition struct_hlist_head : decl :=
  DComp "struct hlist_head" CStruct false [
    fld "first" (CPtr (CName "struct hlist_node"))].

Definition struct_percpu_counter : decl :=
  DComp "struct percpu_counter" CStruct false [
    fld "lock" (CName "raw_spinlock_t");
    fld "count" (CName "s64");
    fld "list" (CName "struct list_head");
    fld "counters" (CPtr (CName "s32"))].

Definition struct_hlist_nulls_node : decl :=
  DComp "struct hlist_nulls_node" CStruct false [
    fld "next" (CPtr (CName "struct hlist_nulls_node"));
    fld "pprev" (CPtr (CPtr (CName "struct hlist_nulls_node")))].

Definition struct_page_frag : decl :=
  DComp "struct page_frag" CStruct false [
    fld "page" (CPtr (CName "struct page"));
    fld "offset" (CName "__u32");
    fld "size" (CName "__u32")].

Definition struct_dst_ops : decl :=
  DComp "struct dst_ops" CStruct false [
    fld "family" (CInt IUShort);
    fld "gc_thresh" (CInt IUInt);
    fld "gc" (CPtr (CFun CVoid [CPtr (CName "struct dst_ops")]));
    fld "check" (CPtr (CFun (CPtr (CName "struct dst_entry")) [CPtr (CName "struct dst_entry"); CName "__u32"]));
    fld "default_advmss" (CPtr (CFun (CInt IUInt) [CPtr (CName "struct dst_entry")]));
    fld "mtu" (CPtr (CFun (CInt IUInt) [CPtr (CName "struct dst_entry")]));
    fld "cow_metrics" (CPtr (CFun (CPtr (CName "u32")) [CPtr (CName "struct dst_entry"); CInt IULong]));
    fld "destroy" (CPtr (CFun CVoid [CPtr (CName "struct dst_entry")]));
    fld "ifdown" (CPtr (CFun CVoid [CPtr (CName "struct dst_entry"); CPtr (CName "struct net_device")]));
    fld "negative_advice" (CPtr (CFun CVoid [CPtr (CName "struct sock"); CPtr (CName "struct dst_entry")]));
    fld "link_failure" (CPtr (CFun CVoid [CPtr (CName "struct sk_buff")]));
    fld "update_pmtu" (CPtr (CFun CVoid [CPtr (CName "struct dst_entry"); CPtr (CName "struct sock"); CPtr (CName "struct sk_buff"); CName "u32"; CName "bool"]));
    fld "redirect" (CPtr (CFun CVoid [CPtr (CName "struct dst_entry"); CPtr (CName "struct sock"); CPtr (CName "struct sk_buff")]));
    fld "local_out" (CPtr (CFun (CInt IInt) [CPtr (CName "struct net"); CPtr (CName "struct sock"); CPtr (CName "struct sk_buff")]));
    fld "neigh_lookup" (CPtr (CFun (CPtr (CName "struct neighbour")) [CPtr (CName "struct dst_entry"); CPtr (CName "struct sk_buff"); CPtr CVoid]));
    fld "confirm_neigh" (CPtr (CFun CVoid [CPtr (CName "struct dst_entry"); CPtr CVoid]));
    fld "kmem_cachep" (CPtr (CName "struct kmem_cache"));
    fld "pcpuc_entries" (CName "struct percpu_counter");
    bit "" (CInt ILong) 64;
    bit "" (CInt ILong) 64;
    bit "" (CInt ILong) 64].

(** The declarations of this file, in order. *)
Definition base_decls : list decl := [
  typedef_bool; typedef___s32; typedef___s64; typedef_s64; typedef_ktime_t; typedef___u64;
  typedef_u64; typedef_netdev_features_t; typedef___kernel_ulong_t; typedef___kernel_size_t;
  typedef_size_t; typedef___s16; typedef_s16; typedef___u16; typedef_u16; typedef___be16;
  typedef___u8; typedef_u8; typedef___u32; typedef_u32; typedef___kernel_gid32_t;
  typedef___kernel_uid32_t; typedef_gfp_t; typedef_gid_t; typedef_uid_t; struct_list_head;
  typedef_atomic_t; struct_refcount_struct; typedef_refcount_t; typedef_atomic64_t;
  typedef_atomic_long_t; struct_qspinlock; typedef_arch_spinlock_t; struct_raw_spinlock;
  typedef_raw_spinlock_t; struct_spinlock; typedef_spinlock_t; typedef_kgid_t; typedef_kuid_t;
  struct_optimistic_spin_queue; struct_rw_semaphore; struct_mutex; typedef_netdevice_tracker;
  typedef_possible_net_t; struct_qrwlock; typedef_arch_rwlock_t; typedef_rwlock_t;
  struct_seqcount; typedef_seqcount_t; struct_seqcount_spinlock; typedef_seqcount_spinlock_t;
  typedef_seqlock_t; struct_wait_queue_head; typedef_wait_queue_head_t; struct_hlist_node;
  struct_sk_buff_list; struct_sk_buff_head; struct_callback_head; struct_rb_node;
  struct_timerqueue_node; struct_hrtimer; typedef_work_func_t; struct_work_struct;
  struct_timer_list; struct_llist_node; struct___call_single_node; struct_rhash_head;
  struct_rb_root; struct_hlist_head; struct_percpu_counter; struct_hlist_nulls_node;
  struct_page_frag; struct_dst_ops].
