(* ===== verification/VmlinuxNet.v ===== *)
(** * Kernel types: the socket objects a probe receives ([struct sock], the
    TCP, UDP, raw, unix and netlink sockets that embed it, the request and
    time-wait sockets that share [struct sock_common]), the message and packet
    structures the hooked functions take, protocol operations and headers.

    Transcribed from [vmlinux.h], declaration by declaration, in an order in
    which the types a declaration holds by value come before it. *)

From S2P Require Import Prelude CLayout.

#[local] Open Scope string_scope.
#[local] Open Scope list_scope.
#[local] Open Scope Z_scope.

Definition enum_IPPROTO : list (string * Z) := [
  ("IPPROTO_IP", 0);
  ("IPPROTO_ICMP", 1);
  ("IPPROTO_IGMP", 2);
  ("IPPROTO_IPIP", 4);
  ("IPPROTO_TCP", 6);
  ("IPPROTO_EGP", 8);
  ("IPPROTO_PUP", 12);
  ("IPPROTO_UDP", 17);
  ("IPPROTO_IDP", 22);
  ("IPPROTO_TP", 29);
  ("IPPROTO_DCCP", 33);
  ("IPPROTO_IPV6", 41);
  ("IPPROTO_RSVP", 46);
  ("IPPROTO_GRE", 47);
  ("IPPROTO_ESP", 50);
  ("IPPROTO_AH", 51);
  ("IPPROTO_MTP", 92);
  ("IPPROTO_BEETPH", 94);
  ("IPPROTO_ENCAP", 98);
  ("IPPROTO_PIM", 103);
  ("IPPROTO_COMP", 108);
  ("IPPROTO_L2TP", 115);
  ("IPPROTO_SCTP", 132);
  ("IPPROTO_UDPLITE", 136);
  ("IPPROTO_MPLS", 137);
  ("IPPROTO_ETHERNET", 143);
  ("IPPROTO_RAW", 255);
  ("IPPROTO_MPTCP", 262);
  ("IPPROTO_MAX", 263)].

Definition enum_TCP_STATES : list (string * Z) := [
  ("TCP_ESTABLISHED", 1);
  ("TCP_SYN_SENT", 2);
  ("TCP_SYN_RECV", 3);
  ("TCP_FIN_WAIT1", 4);
  ("TCP_FIN_WAIT2", 5);
  ("TCP_TIME_WAIT", 6);
  ("TCP_CLOSE", 7);
  ("TCP_CLOSE_WAIT", 8);
  ("TCP_LAST_ACK", 9);
  ("TCP_LISTEN", 10);
  ("TCP_CLOSING", 11);
  ("TCP_NEW_SYN_RECV", 12);
  ("TCP_MAX_STATES", 13)].

Definition typedef_socket_state : decl := DTypedef "socket_state" (CEnum [("SS_FREE", 0); ("SS_UNCONNECTED", 1); ("SS_CONNECTING", 2); ("SS_CONNECTED", 3); ("SS_DISCONNECTING", 4)]).

Definition enum_sock_type : decl :=
  DEnum "enum sock_type" false [
    ("SOCK_STREAM", 1);
    ("SOCK_DGRAM", 2);
    ("SOCK_RAW", 3);
    ("SOCK_RDM", 4);
    ("SOCK_SEQPACKET", 5);
    ("SOCK_DCCP", 6);
    ("SOCK_PACKET", 10)].

Definition enum_tcp_ca_state : decl :=
  DEnum "enum tcp_ca_state" false [
    ("TCP_CA_Open", 0);
    ("TCP_CA_Disorder", 1);
    ("TCP_CA_CWR", 2);
    ("TCP_CA_Recovery", 3);
    ("TCP_CA_Loss", 4)].

Definition typedef___kernel_loff_t : decl := DTypedef "__kernel_loff_t" (CInt ILLong).

Definition typedef_loff_t : decl := DTypedef "loff_t" (CName "__kernel_loff_t").

Definition typedef___addrpair : decl := DTypedef "__addrpair" (CName "__u64").

Definition typedef___be64 : decl := DTypedef "__be64" (CName "__u64").

Definition typedef___kernel_sa_family_t : decl := DTypedef "__kernel_sa_family_t" (CInt IUShort).

Definition typedef___sum16 : decl := DTypedef "__sum16" (CName "__u16").

Definition typedef___be32 : decl := DTypedef "__be32" (CName "__u32").

Definition typedef___portpair : decl := DTypedef "__portpair" (CName "__u32").

Definition typedef___wsum : decl := DTypedef "__wsum" (CName "__u32").

Definition typedef_sk_buff_data_t : decl := DTypedef "sk_buff_data_t" (CInt IUInt).

Definition typedef_slab_flags_t : decl := DTypedef "slab_flags_t" (CInt IUInt).

Definition typedef_netns_tracker : decl := DTypedef "netns_tracker" (CComp CStruct false []).

Definition typedef_rcuref_t : decl := DTypedef "rcuref_t" (CComp CStruct false [
      fld "refcnt" (CName "atomic_t")]).

Definition typedef_socket_lock_t : decl := DTypedef "socket_lock_t" (CComp CStruct false [
      fld "slock" (CName "spinlock_t");
      fld "owned" (CInt IInt);
      fld "wq" (CName "wait_queue_head_t")]).

Definition struct_in6_addr : decl :=
  DComp "struct in6_addr" CStruct false [
    fld "in6_u" (CComp CUnion false [
      fld "u6_addr8" (CArr (CName "__u8") 16);
      fld "u6_addr16" (CArr (CName "__be16") 8);
      fld "u6_addr32" (CArr (CName "__be32") 4)])].

Definition struct___kernel_sockaddr_storage : decl :=
  DComp "struct __kernel_sockaddr_storage" CStruct false [
    fld "" (CComp CUnion false [
      fld "" (CComp CStruct false [
        fld "ss_family" (CName "__kernel_sa_family_t");
        fld "__data" (CArr (CInt IChar) 126)]);
      fld "__align" (CPtr CVoid)])].

Definition typedef_wait_queue_func_t : decl := DTypedef "wait_queue_func_t" (CPtr (CFun (CInt IInt) [CPtr (CName "struct wait_queue_entry"); CInt IUInt; CInt IInt; CPtr CVoid])).

Definition struct_wait_queue_entry : decl :=
  DComp "struct wait_queue_entry" CStruct false [
    fld "flags" (CInt IUInt);
    fld "private" (CPtr CVoid);
    fld "func" (CName "wait_queue_func_t");
    fld "entry" (CName "struct list_head")].

Definition struct_path : decl :=
  DComp "struct path" CStruct false [
    fld "mnt" (CPtr (CName "struct vfsmount"));
    fld "dentry" (CPtr (CName "struct dentry"))].

Definition struct_bio_vec : decl :=
  DComp "struct bio_vec" CStruct false [
    fld "bv_page" (CPtr (CName "struct page"));
    fld "bv_len" (CInt IUInt);
    fld "bv_offset" (CInt IUInt)].

Definition struct_iovec : decl :=
  DComp "struct iovec" CStruct false [
    fld "iov_base" (CPtr CVoid);
    fld "iov_len" (CName "__kernel_size_t")].

Definition struct_iov_iter : decl :=
  DComp "struct iov_iter" CStruct false [
    fld "iter_type" (CName "u8");
    fld "copy_mc" (CName "bool");
    fld "nofault" (CName "bool");
    fld "data_source" (CName "bool");
    fld "user_backed" (CName "bool");
    fld "" (CComp CUnion false [
      fld "iov_offset" (CName "size_t");
      fld "last_offset" (CInt IInt)]);
    fld "" (CComp CUnion false [
      fld "__ubuf_iovec" (CName "struct iovec");
      fld "" (CComp CStruct false [
        fld "" (CComp CUnion false [
          fld "__iov" (CPtr (CName "struct iovec"));
          fld "kvec" (CPtr (CName "struct kvec"));
          fld "bvec" (CPtr (CName "struct bio_vec"));
          fld "xarray" (CPtr (CName "struct xarray"));
          fld "ubuf" (CPtr CVoid)]);
        fld "count" (CName "size_t")])]);
    fld "" (CComp CUnion false [
      fld "nr_segs" (CInt IULong);
      fld "xarray_start" (CName "loff_t")])].

Definition typedef_skb_frag_t : decl := DTypedef "skb_frag_t" (CName "struct bio_vec").

Definition typedef_wait_queue_entry_t : decl := DTypedef "wait_queue_entry_t" (CName "struct wait_queue_entry").

Definition struct_sk_buff : decl :=
  DComp "struct sk_buff" CStruct false [
    fld "" (CComp CUnion false [
      fld "" (CComp CStruct false [
        fld "next" (CPtr (CName "struct sk_buff"));
        fld "prev" (CPtr (CName "struct sk_buff"));
        fld "" (CComp CUnion false [
          fld "dev" (CPtr (CName "struct net_device"));
          fld "dev_scratch" (CInt IULong)])]);
      fld "rbnode" (CName "struct rb_node");
      fld "list" (CName "struct list_head");
      fld "ll_node" (CName "struct llist_node")]);
    fld "sk" (CPtr (CName "struct sock"));
    fld "" (CComp CUnion false [
      fld "tstamp" (CName "ktime_t");
      fld "skb_mstamp_ns" (CName "u64")]);
    fld "cb" (CArr (CInt IChar) 48);
    fld "" (CComp CUnion false [
      fld "" (CComp CStruct false [
        fld "_skb_refdst" (CInt IULong);
        fld "destructor" (CPtr (CFun CVoid [CPtr (CName "struct sk_buff")]))]);
      fld "tcp_tsorted_anchor" (CName "struct list_head");
      fld "_sk_redir" (CInt IULong)]);
    fld "_nfct" (CInt IULong);
    fld "len" (CInt IUInt);
    fld "data_len" (CInt IUInt);
    fld "mac_len" (CName "__u16");
    fld "hdr_len" (CName "__u16");
    fld "queue_mapping" (CName "__u16");
    fld "__cloned_offset" (CArr (CName "__u8") 0);
    bit "cloned" (CName "__u8") 1;
    bit "nohdr" (CName "__u8") 1;
    bit "fclone" (CName "__u8") 2;
    bit "peeked" (CName "__u8") 1;
    bit "head_frag" (CName "__u8") 1;
    bit "pfmemalloc" (CName "__u8") 1;
    bit "pp_recycle" (CName "__u8") 1;
    fld "active_extensions" (CName "__u8");
    fld "" (CComp CUnion false [
      fld "" (CComp CStruct false [
        fld "__pkt_type_offset" (CArr (CName "__u8") 0);
        bit "pkt_type" (CName "__u8") 3;
        bit "ignore_df" (CName "__u8") 1;
        bit "dst_pending_confirm" (CName "__u8") 1;
        bit "ip_summed" (CName "__u8") 2;
        bit "ooo_okay" (CName "__u8") 1;
        fld "__mono_tc_offset" (CArr (CName "__u8") 0);
        bit "tstamp_type" (CName "__u8") 1;
        bit "tc_at_ingress" (CName "__u8") 1;
        bit "tc_skip_classify" (CName "__u8") 1;
        bit "remcsum_offload" (CName "__u8") 1;
        bit "csum_complete_sw" (CName "__u8") 1;
        bit "csum_level" (CName "__u8") 2;
        bit "inner_protocol_type" (CName "__u8") 1;
        bit "l4_hash" (CName "__u8") 1;
        bit "sw_hash" (CName "__u8") 1;
        bit "wifi_acked_valid" (CName "__u8") 1;
        bit "wifi_acked" (CName "__u8") 1;
        bit "no_fcs" (CName "__u8") 1;
        bit "encapsulation" (CName "__u8") 1;
        bit "encap_hdr_csum" (CName "__u8") 1;
        bit "csum_valid" (CName "__u8") 1;
        bit "ndisc_nodetype" (CName "__u8") 2;
        bit "ipvs_property" (CName "__u8") 1;
        bit "nf_trace" (CName "__u8") 1;
        bit "offload_fwd_mark" (CName "__u8") 1;
        bit "offload_l3_fwd_mark" (CName "__u8") 1;
        bit "redirected" (CName "__u8") 1;
        bit "from_ingress" (CName "__u8") 1;
        bit "nf_skip_egress" (CName "__u8") 1;
        bit "slow_gro" (CName "__u8") 1;
        bit "csum_not_inet" (CName "__u8") 1;
        fld "tc_index" (CName "__u16");
        fld "alloc_cpu" (CName "u16");
        fld "" (CComp CUnion false [
          fld "csum" (CName "__wsum");
          fld "" (CComp CStruct false [
            fld "csum_start" (CName "__u16");
            fld "csum_offset" (CName "__u16")])]);
        fld "priority" (CName "__u32");
        fld "skb_iif" (CInt IInt);
        fld "hash" (CName "__u32");
        fld "" (CComp CUnion false [
          fld "vlan_all" (CName "u32");
          fld "" (CComp CStruct false [
            fld "vlan_proto" (CName "__be16");
            fld "vlan_tci" (CName "__u16")])]);
        fld "" (CComp CUnion false [
          fld "napi_id" (CInt IUInt);
          fld "sender_cpu" (CInt IUInt)]);
        fld "secmark" (CName "__u32");
        fld "" (CComp CUnion false [
          fld "mark" (CName "__u32");
          fld "reserved_tailroom" (CName "__u32")]);
        fld "" (CComp CUnion false [
          fld "inner_protocol" (CName "__be16");
          fld "inner_ipproto" (CName "__u8")]);
        fld "inner_transport_header" (CName "__u16");
        fld "inner_network_header" (CName "__u16");
        fld "inner_mac_header" (CName "__u16");
        fld "protocol" (CName "__be16");
        fld "transport_header" (CName "__u16");
        fld "network_header" (CName "__u16");
        fld "mac_header" (CName "__u16")]);
      fld "headers" (CComp CStruct false [
        fld "__pkt_type_offset" (CArr (CName "__u8") 0);
        bit "pkt_type" (CName "__u8") 3;
        bit "ignore_df" (CName "__u8") 1;
        bit "dst_pending_confirm" (CName "__u8") 1;
        bit "ip_summed" (CName "__u8") 2;
        bit "ooo_okay" (CName "__u8") 1;
        fld "__mono_tc_offset" (CArr (CName "__u8") 0);
        bit "tstamp_type" (CName "__u8") 1;
        bit "tc_at_ingress" (CName "__u8") 1;
        bit "tc_skip_classify" (CName "__u8") 1;
        bit "remcsum_offload" (CName "__u8") 1;
        bit "csum_complete_sw" (CName "__u8") 1;
        bit "csum_level" (CName "__u8") 2;
        bit "inner_protocol_type" (CName "__u8") 1;
        bit "l4_hash" (CName "__u8") 1;
        bit "sw_hash" (CName "__u8") 1;
        bit "wifi_acked_valid" (CName "__u8") 1;
        bit "wifi_acked" (CName "__u8") 1;
        bit "no_fcs" (CName "__u8") 1;
        bit "encapsulation" (CName "__u8") 1;
        bit "encap_hdr_csum" (CName "__u8") 1;
        bit "csum_valid" (CName "__u8") 1;
        bit "ndisc_nodetype" (CName "__u8") 2;
        bit "ipvs_property" (CName "__u8") 1;
        bit "nf_trace" (CName "__u8") 1;
        bit "offload_fwd_mark" (CName "__u8") 1;
        bit "offload_l3_fwd_mark" (CName "__u8") 1;
        bit "redirected" (CName "__u8") 1;
        bit "from_ingress" (CName "__u8") 1;
        bit "nf_skip_egress" (CName "__u8") 1;
        bit "slow_gro" (CName "__u8") 1;
        bit "csum_not_inet" (CName "__u8") 1;
        fld "tc_index" (CName "__u16");
        fld "alloc_cpu" (CName "u16");
        fld "" (CComp CUnion false [
          fld "csum" (CName "__wsum");
          fld "" (CComp CStruct false [
            fld "csum_start" (CName "__u16");
            fld "csum_offset" (CName "__u16")])]);
        fld "priority" (CName "__u32");
        fld "skb_iif" (CInt IInt);
        fld "hash" (CName "__u32");
        fld "" (CComp CUnion false [
          fld "vlan_all" (CName "u32");
          fld "" (CComp CStruct false [
            fld "vlan_proto" (CName "__be16");
            fld "vlan_tci" (CName "__u16")])]);
        fld "" (CComp CUnion false [
          fld "napi_id" (CInt IUInt);
          fld "sender_cpu" (CInt IUInt)]);
        fld "secmark" (CName "__u32");
        fld "" (CComp CUnion false [
          fld "mark" (CName "__u32");
          fld "reserved_tailroom" (CName "__u32")]);
        fld "" (CComp CUnion false [
          fld "inner_protocol" (CName "__be16");
          fld "inner_ipproto" (CName "__u8")]);
        fld "inner_transport_header" (CName "__u16");
        fld "inner_network_header" (CName "__u16");
        fld "inner_mac_header" (CName "__u16");
        fld "protocol" (CName "__be16");
        fld "transport_header" (CName "__u16");
        fld "network_header" (CName "__u16");
        fld "mac_header" (CName "__u16")])]);
    fld "tail" (CName "sk_buff_data_t");
    fld "end" (CName "sk_buff_data_t");
    fld "head" (CPtr (CInt IUChar));
    fld "data" (CPtr (CInt IUChar));
    fld "truesize" (CInt IUInt);
    fld "users" (CName "refcount_t");
    fld "extensions" (CPtr (CName "struct skb_ext"))].

Definition struct_sock_common : decl :=
  DComp "struct sock_common" CStruct false [
    fld "" (CComp CUnion false [
      fld "skc_addrpair" (CName "__addrpair");
      fld "" (CComp CStruct false [
        fld "skc_daddr" (CName "__be32");
        fld "skc_rcv_saddr" (CName "__be32")])]);
    fld "" (CComp CUnion false [
      fld "skc_hash" (CInt IUInt);
      fld "skc_u16hashes" (CArr (CName "__u16") 2)]);
    fld "" (CComp CUnion false [
      fld "skc_portpair" (CName "__portpair");
      fld "" (CComp CStruct false [
        fld "skc_dport" (CName "__be16");
        fld "skc_num" (CName "__u16")])]);
    fld "skc_family" (CInt IUShort);
    fld "skc_state" (CInt IUChar);
    bit "skc_reuse" (CInt IUChar) 4;
    bit "skc_reuseport" (CInt IUChar) 1;
    bit "skc_ipv6only" (CInt IUChar) 1;
    bit "skc_net_refcnt" (CInt IUChar) 1;
    fld "skc_bound_dev_if" (CInt IInt);
    fld "" (CComp CUnion false [
      fld "skc_bind_node" (CName "struct hlist_node");
      fld "skc_portaddr_node" (CName "struct hlist_node")]);
    fld "skc_prot" (CPtr (CName "struct proto"));
    fld "skc_net" (CName "possible_net_t");
    fld "skc_v6_daddr" (CName "struct in6_addr");
    fld "skc_v6_rcv_saddr" (CName "struct in6_addr");
    fld "skc_cookie" (CName "atomic64_t");
    fld "" (CComp CUnion false [
      fld "skc_flags" (CInt IULong);
      fld "skc_listener" (CPtr (CName "struct sock"));
      fld "skc_tw_dr" (CPtr (CName "struct inet_timewait_death_row"))]);
    fld "skc_dontcopy_begin" (CArr (CInt IInt) 0);
    fld "" (CComp CUnion false [
      fld "skc_node" (CName "struct hlist_node");
      fld "skc_nulls_node" (CName "struct hlist_nulls_node")]);
    fld "skc_tx_queue_mapping" (CInt IUShort);
    fld "skc_rx_queue_mapping" (CInt IUShort);
    fld "" (CComp CUnion false [
      fld "skc_incoming_cpu" (CInt IInt);
      fld "skc_rcv_wnd" (CName "u32");
      fld "skc_tw_rcv_nxt" (CName "u32")]);
    fld "skc_refcnt" (CName "refcount_t");
    fld "skc_dontcopy_end" (CArr (CInt IInt) 0);
    fld "" (CComp CUnion false [
      fld "skc_rxhash" (CName "u32");
      fld "skc_window_clamp" (CName "u32");
      fld "skc_tw_snd_nxt" (CName "u32")])].

Definition struct_sock_cgroup_data : decl :=
  DComp "struct sock_cgroup_data" CStruct false [
    fld "cgroup" (CPtr (CName "struct cgroup"));
    fld "classid" (CName "u32");
    fld "prioidx" (CName "u16")].

Definition struct_sock : decl :=
  DComp "struct sock" CStruct false [
    fld "__sk_common" (CName "struct sock_common");
    fld "sk_rx_dst" (CPtr (CName "struct dst_entry"));
    fld "sk_rx_dst_ifindex" (CInt IInt);
    fld "sk_rx_dst_cookie" (CName "u32");
    fld "sk_lock" (CName "socket_lock_t");
    fld "sk_drops" (CName "atomic_t");
    fld "sk_rcvlowat" (CInt IInt);
    fld "sk_error_queue" (CName "struct sk_buff_head");
    fld "sk_receive_queue" (CName "struct sk_buff_head");
    fld "sk_backlog" (CComp CStruct false [
      fld "rmem_alloc" (CName "atomic_t");
      fld "len" (CInt IInt);
      fld "head" (CPtr (CName "struct sk_buff"));
      fld "tail" (CPtr (CName "struct sk_buff"))]);
    fld "sk_forward_alloc" (CInt IInt);
    fld "sk_reserved_mem" (CName "u32");
    fld "sk_ll_usec" (CInt IUInt);
    fld "sk_napi_id" (CInt IUInt);
    fld "sk_rcvbuf" (CInt IInt);
    fld "sk_disconnects" (CInt IInt);
    fld "sk_filter" (CPtr (CName "struct sk_filter"));
    fld "" (CComp CUnion false [
      fld "sk_wq" (CPtr (CName "struct socket_wq"));
      fld "sk_wq_raw" (CPtr (CName "struct socket_wq"))]);
    fld "sk_policy" (CArr (CPtr (CName "struct xfrm_policy")) 2);
    fld "sk_dst_cache" (CPtr (CName "struct dst_entry"));
    fld "sk_omem_alloc" (CName "atomic_t");
    fld "sk_sndbuf" (CInt IInt);
    fld "sk_wmem_queued" (CInt IInt);
    fld "sk_wmem_alloc" (CName "refcount_t");
    fld "sk_tsq_flags" (CInt IULong);
    fld "" (CComp CUnion false [
      fld "sk_send_head" (CPtr (CName "struct sk_buff"));
      fld "tcp_rtx_queue" (CName "struct rb_root")]);
    fld "sk_write_queue" (CName "struct sk_buff_head");
    fld "sk_peek_off" (CName "__s32");
    fld "sk_write_pending" (CInt IInt);
    fld "sk_dst_pending_confirm" (CName "__u32");
    fld "sk_pacing_status" (CName "u32");
    fld "sk_sndtimeo" (CInt ILong);
    fld "sk_timer" (CName "struct timer_list");
    fld "sk_priority" (CName "__u32");
    fld "sk_mark" (CName "__u32");
    fld "sk_pacing_rate" (CInt IULong);
    fld "sk_max_pacing_rate" (CInt IULong);
    fld "sk_frag" (CName "struct page_frag");
    fld "sk_route_caps" (CName "netdev_features_t");
    fld "sk_gso_type" (CInt IInt);
    fld "sk_gso_max_size" (CInt IUInt);
    fld "sk_allocation" (CName "gfp_t");
    fld "sk_txhash" (CName "__u32");
    bit "sk_gso_disabled" (CName "u8") 1;
    bit "sk_kern_sock" (CName "u8") 1;
    bit "sk_no_check_tx" (CName "u8") 1;
    bit "sk_no_check_rx" (CName "u8") 1;
    bit "sk_userlocks" (CName "u8") 4;
    fld "sk_pacing_shift" (CName "u8");
    fld "sk_type" (CName "u16");
    fld "sk_protocol" (CName "u16");
    fld "sk_gso_max_segs" (CName "u16");
    fld "sk_lingertime" (CInt IULong);
    fld "sk_prot_creator" (CPtr (CName "struct proto"));
    fld "sk_callback_lock" (CName "rwlock_t");
    fld "sk_err" (CInt IInt);
    fld "sk_err_soft" (CInt IInt);
    fld "sk_ack_backlog" (CName "u32");
    fld "sk_max_ack_backlog" (CName "u32");
    fld "sk_uid" (CName "kuid_t");
    fld "sk_txrehash" (CName "u8");
    fld "sk_prefer_busy_poll" (CName "u8");
    fld "sk_busy_poll_budget" (CName "u16");
    fld "sk_peer_lock" (CName "spinlock_t");
    fld "sk_bind_phc" (CInt IInt);
    fld "sk_peer_pid" (CPtr (CName "struct pid"));
    fld "sk_peer_cred" (CPtr (CName "struct cred"));
    fld "sk_rcvtimeo" (CInt ILong);
    fld "sk_stamp" (CName "ktime_t");
    fld "sk_tskey" (CName "atomic_t");
    fld "sk_zckey" (CName "atomic_t");
    fld "sk_tsflags" (CName "u32");
    fld "sk_shutdown" (CName "u8");
    fld "sk_clockid" (CName "u8");
    bit "sk_txtime_deadline_mode" (CName "u8") 1;
    bit "sk_txtime_report_errors" (CName "u8") 1;
    bit "sk_txtime_unused" (CName "u8") 6;
    fld "sk_use_task_frag" (CName "bool");
    fld "sk_socket" (CPtr (CName "struct socket"));
    fld "sk_user_data" (CPtr CVoid);
    fld "sk_security" (CPtr CVoid);
    fld "sk_cgrp_data" (CName "struct sock_cgroup_data");
    fld "sk_memcg" (CPtr (CName "struct mem_cgroup"));
    fld "sk_state_change" (CPtr (CFun CVoid [CPtr (CName "struct sock")]));
    fld "sk_data_ready" (CPtr (CFun CVoid [CPtr (CName "struct sock")]));
    fld "sk_write_space" (CPtr (CFun CVoid [CPtr (CName "struct sock")]));
    fld "sk_error_report" (CPtr (CFun CVoid [CPtr (CName "struct sock")]));
    fld "sk_backlog_rcv" (CPtr (CFun (CInt IInt) [CPtr (CName "struct sock"); CPtr (CName "struct sk_buff")]));
    fld "sk_destruct" (CPtr (CFun CVoid [CPtr (CName "struct sock")]));
    fld "sk_reuseport_cb" (CPtr (CName "struct sock_reuseport"));
    fld "sk_bpf_storage" (CPtr (CName "struct bpf_local_storage"));
    fld "sk_rcu" (CName "struct callback_head");
    fld "ns_tracker" (CName "netns_tracker");
    fld "sk_bind2_node" (CName "struct hlist_node")].

Definition struct_tcp_congestion_ops : decl :=
  DComp "struct tcp_congestion_ops" CStruct false [
    fld "ssthresh" (CPtr (CFun (CName "u32") [CPtr (CName "struct sock")]));
    fld "cong_avoid" (CPtr (CFun CVoid [CPtr (CName "struct sock"); CName "u32"; CName "u32"]));
    fld "set_state" (CPtr (CFun CVoid [CPtr (CName "struct sock"); CName "u8"]));
    fld "cwnd_event" (CPtr (CFun CVoid [CPtr (CName "struct sock"); CName "enum tcp_ca_event"]));
    fld "in_ack_event" (CPtr (CFun CVoid [CPtr (CName "struct sock"); CName "u32"]));
    fld "pkts_acked" (CPtr (CFun CVoid [CPtr (CName "struct sock"); CPtr (CName "struct ack_sample")]));
    fld "min_tso_segs" (CPtr (CFun (CName "u32") [CPtr (CName "struct sock")]));
    fld "cong_control" (CPtr (CFun CVoid [CPtr (CName "struct sock"); CPtr (CName "struct rate_sample")]));
    fld "undo_cwnd" (CPtr (CFun (CName "u32") [CPtr (CName "struct sock")]));
    fld "sndbuf_expand" (CPtr (CFun (CName "u32") [CPtr (CName "struct sock")]));
    fld "get_info" (CPtr (CFun (CName "size_t") [CPtr (CName "struct sock"); CName "u32"; CPtr (CInt IInt); CPtr (CName "union tcp_cc_info")]));
    fld "name" (CArr (CInt IChar) 16);
    fld "owner" (CPtr (CName "struct module"));
    fld "list" (CName "struct list_head");
    fld "key" (CName "u32");
    fld "flags" (CName "u32");
    fld "init" (CPtr (CFun CVoid [CPtr (CName "struct sock")]));
    fld "release" (CPtr (CFun CVoid [CPtr (CName "struct sock")]));
    bit "" (CInt ILong) 64;
    bit "" (CInt ILong) 64;
    bit "" (CInt ILong) 64;
    bit "" (CInt ILong) 64;
    bit "" (CInt ILong) 64].

Definition struct_in_addr : decl :=
  DComp "struct in_addr" CStruct false [
    fld "s_addr" (CName "__be32")].

Definition struct_sockaddr_in6 : decl :=
  DComp "struct sockaddr_in6" CStruct false [
    fld "sin6_family" (CInt IUShort);
    fld "sin6_port" (CName "__be16");
    fld "sin6_flowinfo" (CName "__be32");
    fld "sin6_addr" (CName "struct in6_addr");
    fld "sin6_scope_id" (CName "__u32")].

Definition struct_iphdr : decl :=
  DComp "struct iphdr" CStruct false [
    bit "ihl" (CName "__u8") 4;
    bit "version" (CName "__u8") 4;
    fld "tos" (CName "__u8");
    fld "tot_len" (CName "__be16");
    fld "id" (CName "__be16");
    fld "frag_off" (CName "__be16");
    fld "ttl" (CName "__u8");
    fld "protocol" (CName "__u8");
    fld "check" (CName "__sum16");
    fld "" (CComp CUnion false [
      fld "" (CComp CStruct false [
        fld "saddr" (CName "__be32");
        fld "daddr" (CName "__be32")]);
      fld "addrs" (CComp CStruct false [
        fld "saddr" (CName "__be32");
        fld "daddr" (CName "__be32")])])].

Definition struct_tcphdr : decl :=
  DComp "struct tcphdr" CStruct false [
    fld "source" (CName "__be16");
    fld "dest" (CName "__be16");
    fld "seq" (CName "__be32");
    fld "ack_seq" (CName "__be32");
    bit "res1" (CName "__u16") 4;
    bit "doff" (CName "__u16") 4;
    bit "fin" (CName "__u16") 1;
    bit "syn" (CName "__u16") 1;
    bit "rst" (CName "__u16") 1;
    bit "psh" (CName "__u16") 1;
    bit "ack" (CName "__u16") 1;
    bit "urg" (CName "__u16") 1;
    bit "ece" (CName "__u16") 1;
    bit "cwr" (CName "__u16") 1;
    fld "window" (CName "__be16");
    fld "check" (CName "__sum16");
    fld "urg_ptr" (CName "__be16")].

Definition struct_dst_entry : decl :=
  DComp "struct dst_entry" CStruct false [
    fld "dev" (CPtr (CName "struct net_device"));
    fld "ops" (CPtr (CName "struct dst_ops"));
    fld "_metrics" (CInt IULong);
    fld "expires" (CInt IULong);
    fld "xfrm" (CPtr (CName "struct xfrm_state"));
    fld "input" (CPtr (CFun (CInt IInt) [CPtr (CName "struct sk_buff")]));
    fld "output" (CPtr (CFun (CInt IInt) [CPtr (CName "struct net"); CPtr (CName "struct sock"); CPtr (CName "struct sk_buff")]));
    fld "flags" (CInt IUShort);
    fld "obsolete" (CInt IShort);
    fld "header_len" (CInt IUShort);
    fld "trailer_len" (CInt IUShort);
    fld "__rcuref" (CName "rcuref_t");
    fld "__use" (CInt IInt);
    fld "lastuse" (CInt IULong);
    fld "callback_head" (CName "struct callback_head");
    fld "error" (CInt IShort);
    fld "__pad" (CInt IShort);
    fld "tclassid" (CName "__u32");
    fld "dev_tracker" (CName "netdevice_tracker");
    fld "rt_uncached" (CName "struct list_head");
    fld "rt_uncached_list" (CPtr (CName "struct uncached_list"));
    fld "lwtstate" (CPtr (CName "struct lwtunnel_state"))].

Definition struct_fastopen_queue : decl :=
  DComp "struct fastopen_queue" CStruct false [
    fld "rskq_rst_head" (CPtr (CName "struct request_sock"));
    fld "rskq_rst_tail" (CPtr (CName "struct request_sock"));
    fld "lock" (CName "spinlock_t");
    fld "qlen" (CInt IInt);
    fld "max_qlen" (CInt IInt);
    fld "ctx" (CPtr (CName "struct tcp_fastopen_context"))].

Definition struct_flowi_tunnel : decl :=
  DComp "struct flowi_tunnel" CStruct false [
    fld "tun_id" (CName "__be64")].

Definition struct_flowi_common : decl :=
  DComp "struct flowi_common" CStruct false [
    fld "flowic_oif" (CInt IInt);
    fld "flowic_iif" (CInt IInt);
    fld "flowic_l3mdev" (CInt IInt);
    fld "flowic_mark" (CName "__u32");
    fld "flowic_tos" (CName "__u8");
    fld "flowic_scope" (CName "__u8");
    fld "flowic_proto" (CName "__u8");
    fld "flowic_flags" (CName "__u8");
    fld "flowic_secid" (CName "__u32");
    fld "flowic_uid" (CName "kuid_t");
    fld "flowic_multipath_hash" (CName "__u32");
    fld "flowic_tun_key" (CName "struct flowi_tunnel")].

Definition union_flowi_uli : decl :=
  DComp "union flowi_uli" CUnion false [
    fld "ports" (CComp CStruct false [
      fld "dport" (CName "__be16");
      fld "sport" (CName "__be16")]);
    fld "icmpt" (CComp CStruct false [
      fld "type" (CName "__u8");
      fld "code" (CName "__u8")]);
    fld "gre_key" (CName "__be32");
    fld "mht" (CComp CStruct false [
      fld "type" (CName "__u8")])].

Definition struct_flowi4 : decl :=
  DComp "struct flowi4" CStruct false [
    fld "__fl_common" (CName "struct flowi_common");
    fld "saddr" (CName "__be32");
    fld "daddr" (CName "__be32");
    fld "uli" (CName "union flowi_uli")].

Definition struct_flowi6 : decl :=
  DComp "struct flowi6" CStruct false [
    fld "__fl_common" (CName "struct flowi_common");
    fld "daddr" (CName "struct in6_addr");
    fld "saddr" (CName "struct in6_addr");
    fld "flowlabel" (CName "__be32");
    fld "uli" (CName "union flowi_uli");
    fld "mp_hash" (CName "__u32")].

Definition struct_flowi : decl :=
  DComp "struct flowi" CStruct false [
    fld "u" (CComp CUnion false [
      fld "__fl_common" (CName "struct flowi_common");
      fld "ip4" (CName "struct flowi4");
      fld "ip6" (CName "struct flowi6")])].

Definition struct_hh_cache : decl :=
  DComp "struct hh_cache" CStruct false [
    fld "hh_len" (CInt IUInt);
    fld "hh_lock" (CName "seqlock_t");
    fld "hh_data" (CArr (CInt IULong) 16)].

Definition struct_icmp_filter : decl :=
  DComp "struct icmp_filter" CStruct false [
    fld "data" (CName "__u32")].

Definition struct_in6_pktinfo : decl :=
  DComp "struct in6_pktinfo" CStruct false [
    fld "ipi6_addr" (CName "struct in6_addr");
    fld "ipi6_ifindex" (CInt IInt)].

Definition struct_inet6_cork : decl :=
  DComp "struct inet6_cork" CStruct false [
    fld "opt" (CPtr (CName "struct ipv6_txoptions"));
    fld "hop_limit" (CName "u8");
    fld "tclass" (CName "u8")].

Definition struct_inet_bind_bucket : decl :=
  DComp "struct inet_bind_bucket" CStruct false [
    fld "ib_net" (CName "possible_net_t");
    fld "l3mdev" (CInt IInt);
    fld "port" (CInt IUShort);
    fld "fastreuse" (CInt ISChar);
    fld "fastreuseport" (CInt ISChar);
    fld "fastuid" (CName "kuid_t");
    fld "fast_v6_rcv_saddr" (CName "struct in6_addr");
    fld "fast_rcv_saddr" (CName "__be32");
    fld "fast_sk_family" (CInt IUShort);
    fld "fast_ipv6_only" (CName "bool");
    fld "node" (CName "struct hlist_node");
    fld "owners" (CName "struct hlist_head")].

Definition struct_inet_cork : decl :=
  DComp "struct inet_cork" CStruct false [
    fld "flags" (CInt IUInt);
    fld "addr" (CName "__be32");
    fld "opt" (CPtr (CName "struct ip_options"));
    fld "fragsize" (CInt IUInt);
    fld "length" (CInt IInt);
    fld "dst" (CPtr (CName "struct dst_entry"));
    fld "tx_flags" (CName "u8");
    fld "ttl" (CName "__u8");
    fld "tos" (CName "__s16");
    fld "priority" (CInt IChar);
    fld "gso_size" (CName "__u16");
    fld "transmit_time" (CName "u64");
    fld "mark" (CName "u32")].

Definition struct_inet_cork_full : decl :=
  DComp "struct inet_cork_full" CStruct false [
    fld "base" (CName "struct inet_cork");
    fld "fl" (CName "struct flowi")].

Definition struct_inet_sock : decl :=
  DComp "struct inet_sock" CStruct false [
    fld "sk" (CName "struct sock");
    fld "pinet6" (CPtr (CName "struct ipv6_pinfo"));
    fld "inet_flags" (CInt IULong);
    fld "inet_saddr" (CName "__be32");
    fld "uc_ttl" (CName "__s16");
    fld "inet_sport" (CName "__be16");
    fld "inet_opt" (CPtr (CName "struct ip_options_rcu"));
    fld "inet_id" (CName "atomic_t");
    fld "tos" (CName "__u8");
    fld "min_ttl" (CName "__u8");
    fld "mc_ttl" (CName "__u8");
    fld "pmtudisc" (CName "__u8");
    fld "rcv_tos" (CName "__u8");
    fld "convert_csum" (CName "__u8");
    fld "uc_index" (CInt IInt);
    fld "mc_index" (CInt IInt);
    fld "mc_addr" (CName "__be32");
    fld "local_port_range" (CComp CStruct false [
      fld "lo" (CName "__u16");
      fld "hi" (CName "__u16")]);
    fld "mc_list" (CPtr (CName "struct ip_mc_socklist"));
    fld "cork" (CName "struct inet_cork_full")].

Definition struct_request_sock_queue : decl :=
  DComp "struct request_sock_queue" CStruct false [
    fld "rskq_lock" (CName "spinlock_t");
    fld "rskq_defer_accept" (CName "u8");
    fld "synflood_warned" (CName "u32");
    fld "qlen" (CName "atomic_t");
    fld "young" (CName "atomic_t");
    fld "rskq_accept_head" (CPtr (CName "struct request_sock"));
    fld "rskq_accept_tail" (CPtr (CName "struct request_sock"));
    fld "fastopenq" (CName "struct fastopen_queue")].

Definition struct_inet_connection_sock : decl :=
  DComp "struct inet_connection_sock" CStruct false [
    fld "icsk_inet" (CName "struct inet_sock");
    fld "icsk_accept_queue" (CName "struct request_sock_queue");
    fld "icsk_bind_hash" (CPtr (CName "struct inet_bind_bucket"));
    fld "icsk_bind2_hash" (CPtr (CName "struct inet_bind2_bucket"));
    fld "icsk_timeout" (CInt IULong);
    fld "icsk_retransmit_timer" (CName "struct timer_list");
    fld "icsk_delack_timer" (CName "struct timer_list");
    fld "icsk_rto" (CName "__u32");
    fld "icsk_rto_min" (CName "__u32");
    fld "icsk_delack_max" (CName "__u32");
    fld "icsk_pmtu_cookie" (CName "__u32");
    fld "icsk_ca_ops" (CPtr (CName "struct tcp_congestion_ops"));
    fld "icsk_af_ops" (CPtr (CName "struct inet_connection_sock_af_ops"));
    fld "icsk_ulp_ops" (CPtr (CName "struct tcp_ulp_ops"));
    fld "icsk_ulp_data" (CPtr CVoid);
    fld "icsk_clean_acked" (CPtr (CFun CVoid [CPtr (CName "struct sock"); CName "u32"]));
    fld "icsk_sync_mss" (CPtr (CFun (CInt IUInt) [CPtr (CName "struct sock"); CName "u32"]));
    bit "icsk_ca_state" (CName "__u8") 5;
    bit "icsk_ca_initialized" (CName "__u8") 1;
    bit "icsk_ca_setsockopt" (CName "__u8") 1;
    bit "icsk_ca_dst_locked" (CName "__u8") 1;
    fld "icsk_retransmits" (CName "__u8");
    fld "icsk_pending" (CName "__u8");
    fld "icsk_backoff" (CName "__u8");
    fld "icsk_syn_retries" (CName "__u8");
    fld "icsk_probes_out" (CName "__u8");
    fld "icsk_ext_hdr_len" (CName "__u16");
    fld "icsk_ack" (CComp CStruct false [
      fld "pending" (CName "__u8");
      fld "quick" (CName "__u8");
      fld "pingpong" (CName "__u8");
      fld "retry" (CName "__u8");
      fld "ato" (CName "__u32");
      fld "timeout" (CInt IULong);
      fld "lrcvtime" (CName "__u32");
      fld "last_seg_size" (CName "__u16");
      fld "rcv_mss" (CName "__u16")]);
    fld "icsk_mtup" (CComp CStruct false [
      fld "search_high" (CInt IInt);
      fld "search_low" (CInt IInt);
      bit "probe_size" (CName "u32") 31;
      bit "enabled" (CName "u32") 1;
      fld "probe_timestamp" (CName "u32")]);
    fld "icsk_probes_tstamp" (CName "u32");
    fld "icsk_user_timeout" (CName "u32");
    fld "icsk_ca_priv" (CArr (CName "u64") 13)].

Definition struct_inet_connection_sock_af_ops : decl :=
  DComp "struct inet_connection_sock_af_ops" CStruct false [
    fld "queue_xmit" (CPtr (CFun (CInt IInt) [CPtr (CName "struct sock"); CPtr (CName "struct sk_buff"); CPtr (CName "struct flowi")]));
    fld "send_check" (CPtr (CFun CVoid [CPtr (CName "struct sock"); CPtr (CName "struct sk_buff")]));
    fld "rebuild_header" (CPtr (CFun (CInt IInt) [CPtr (CName "struct sock")]));
    fld "sk_rx_dst_set" (CPtr (CFun CVoid [CPtr (CName "struct sock"); CPtr (CName "struct sk_buff")]));
    fld "conn_request" (CPtr (CFun (CInt IInt) [CPtr (CName "struct sock"); CPtr (CName "struct sk_buff")]));
    fld "syn_recv_sock" (CPtr (CFun (CPtr (CName "struct sock")) [CPtr (CName "struct sock"); CPtr (CName "struct sk_buff"); CPtr (CName "struct request_sock"); CPtr (CName "struct dst_entry"); CPtr (CName "struct request_sock"); CPtr (CName "bool")]));
    fld "net_header_len" (CName "u16");
    fld "net_frag_header_len" (CName "u16");
    fld "sockaddr_len" (CName "u16");
    fld "setsockopt" (CPtr (CFun (CInt IInt) [CPtr (CName "struct sock"); CInt IInt; CInt IInt; CName "sockptr_t"; CInt IUInt]));
    fld "getsockopt" (CPtr (CFun (CInt IInt) [CPtr (CName "struct sock"); CInt IInt; CInt IInt; CPtr (CInt IChar); CPtr (CInt IInt)]));
    fld "addr2sockaddr" (CPtr (CFun CVoid [CPtr (CName "struct sock"); CPtr (CName "struct sockaddr")]));
    fld "mtu_reduced" (CPtr (CFun CVoid [CPtr (CName "struct sock")]))].

Definition struct_inet_hashinfo : decl :=
  DComp "struct inet_hashinfo" CStruct false [
    fld "ehash" (CPtr (CName "struct inet_ehash_bucket"));
    fld "ehash_locks" (CPtr (CName "spinlock_t"));
    fld "ehash_mask" (CInt IUInt);
    fld "ehash_locks_mask" (CInt IUInt);
    fld "bind_bucket_cachep" (CPtr (CName "struct kmem_cache"));
    fld "bhash" (CPtr (CName "struct inet_bind_hashbucket"));
    fld "bind2_bucket_cachep" (CPtr (CName "struct kmem_cache"));
    fld "bhash2" (CPtr (CName "struct inet_bind_hashbucket"));
    fld "bhash_size" (CInt IUInt);
    fld "lhash2_mask" (CInt IUInt);
    fld "lhash2" (CPtr (CName "struct inet_listen_hashbucket"));
    fld "pernet" (CName "bool");
    bit "" (CInt ILong) 64;
    bit "" (CInt ILong) 64;
    bit "" (CInt ILong) 64;
    bit "" (CInt ILong) 64;
    bit "" (CInt ILong) 64;
    bit "" (CInt ILong) 64].

Definition struct_request_sock : decl :=
  DComp "struct request_sock" CStruct false [
    fld "__req_common" (CName "struct sock_common");
    fld "dl_next" (CPtr (CName "struct request_sock"));
    fld "mss" (CName "u16");
    fld "num_retrans" (CName "u8");
    bit "syncookie" (CName "u8") 1;
    bit "num_timeout" (CName "u8") 7;
    fld "ts_recent" (CName "u32");
    fld "rsk_timer" (CName "struct timer_list");
    fld "rsk_ops" (CPtr (CName "struct request_sock_ops"));
    fld "sk" (CPtr (CName "struct sock"));
    fld "saved_syn" (CPtr (CName "struct saved_syn"));
    fld "secid" (CName "u32");
    fld "peer_secid" (CName "u32");
    fld "timeout" (CName "u32")].

Definition struct_inet_request_sock : decl :=
  DComp "struct inet_request_sock" CStruct false [
    fld "req" (CName "struct request_sock");
    bit "snd_wscale" (CName "u16") 4;
    bit "rcv_wscale" (CName "u16") 4;
    bit "tstamp_ok" (CName "u16") 1;
    bit "sack_ok" (CName "u16") 1;
    bit "wscale_ok" (CName "u16") 1;
    bit "ecn_ok" (CName "u16") 1;
    bit "acked" (CName "u16") 1;
    bit "no_srccheck" (CName "u16") 1;
    bit "smc_ok" (CName "u16") 1;
    fld "ir_mark" (CName "u32");
    fld "" (CComp CUnion false [
      fld "ireq_opt" (CPtr (CName "struct ip_options_rcu"));
      fld "" (CComp CStruct false [
        fld "ipv6_opt" (CPtr (CName "struct ipv6_txoptions"));
        fld "pktopts" (CPtr (CName "struct sk_buff"))])])].

Definition struct_inet_timewait_sock : decl :=
  DComp "struct inet_timewait_sock" CStruct false [
    fld "__tw_common" (CName "struct sock_common");
    fld "tw_mark" (CName "__u32");
    fld "tw_substate" (CInt IUChar);
    fld "tw_rcv_wscale" (CInt IUChar);
    fld "tw_sport" (CName "__be16");
    bit "tw_transparent" (CInt IUInt) 1;
    bit "tw_flowlabel" (CInt IUInt) 20;
    bit "tw_pad" (CInt IUInt) 3;
    bit "tw_tos" (CInt IUInt) 8;
    fld "tw_txhash" (CName "u32");
    fld "tw_priority" (CName "u32");
    fld "tw_timer" (CName "struct timer_list");
    fld "tw_tb" (CPtr (CName "struct inet_bind_bucket"));
    fld "tw_tb2" (CPtr (CName "struct inet_bind2_bucket"));
    fld "tw_bind2_node" (CName "struct hlist_node")].

Definition struct_msghdr : decl :=
  DComp "struct msghdr" CStruct false [
    fld "msg_name" (CPtr CVoid);
    fld "msg_namelen" (CInt IInt);
    fld "msg_inq" (CInt IInt);
    fld "msg_iter" (CName "struct iov_iter");
    fld "" (CComp CUnion false [
      fld "msg_control" (CPtr CVoid);
      fld "msg_control_user" (CPtr CVoid)]);
    bit "msg_control_is_user" (CName "bool") 1;
    bit "msg_get_inq" (CName "bool") 1;
    fld "msg_flags" (CInt IUInt);
    fld "msg_controllen" (CName "__kernel_size_t");
    fld "msg_iocb" (CPtr (CName "struct kiocb"));
    fld "msg_ubuf" (CPtr (CName "struct ubuf_info"));
    fld "sg_from_iter" (CPtr (CFun (CInt IInt) [CPtr (CName "struct sock"); CPtr (CName "struct sk_buff"); CPtr (CName "struct iov_iter"); CName "size_t"]))].

Definition struct_ipv6_pinfo : decl :=
  DComp "struct ipv6_pinfo" CStruct false [
    fld "saddr" (CName "struct in6_addr");
    fld "sticky_pktinfo" (CName "struct in6_pktinfo");
    fld "daddr_cache" (CPtr (CName "struct in6_addr"));
    fld "saddr_cache" (CPtr (CName "struct in6_addr"));
    fld "flow_label" (CName "__be32");
    fld "frag_size" (CName "__u32");
    bit "__unused_1" (CName "__u16") 7;
    bit "hop_limit" (CName "__s16") 9;
    bit "mc_loop" (CName "__u16") 1;
    bit "__unused_2" (CName "__u16") 6;
    bit "mcast_hops" (CName "__s16") 9;
    fld "ucast_oif" (CInt IInt);
    fld "mcast_oif" (CInt IInt);
    fld "rxopt" (CComp CUnion false [
      fld "bits" (CComp CStruct false [
        bit "srcrt" (CName "__u16") 1;
        bit "osrcrt" (CName "__u16") 1;
        bit "rxinfo" (CName "__u16") 1;
        bit "rxoinfo" (CName "__u16") 1;
        bit "rxhlim" (CName "__u16") 1;
        bit "rxohlim" (CName "__u16") 1;
        bit "hopopts" (CName "__u16") 1;
        bit "ohopopts" (CName "__u16") 1;
        bit "dstopts" (CName "__u16") 1;
        bit "odstopts" (CName "__u16") 1;
        bit "rxflow" (CName "__u16") 1;
        bit "rxtclass" (CName "__u16") 1;
        bit "rxpmtu" (CName "__u16") 1;
        bit "rxorigdstaddr" (CName "__u16") 1;
        bit "recvfragsize" (CName "__u16") 1]);
      fld "all" (CName "__u16")]);
    bit "recverr" (CName "__u16") 1;
    bit "sndflow" (CName "__u16") 1;
    bit "repflow" (CName "__u16") 1;
    bit "pmtudisc" (CName "__u16") 3;
    bit "padding" (CName "__u16") 1;
    bit "srcprefs" (CName "__u16") 3;
    bit "dontfrag" (CName "__u16") 1;
    bit "autoflowlabel" (CName "__u16") 1;
    bit "autoflowlabel_set" (CName "__u16") 1;
    bit "mc_all" (CName "__u16") 1;
    bit "recverr_rfc4884" (CName "__u16") 1;
    bit "rtalert_isolate" (CName "__u16") 1;
    fld "min_hopcount" (CName "__u8");
    fld "tclass" (CName "__u8");
    fld "rcv_flowinfo" (CName "__be32");
    fld "dst_cookie" (CName "__u32");
    fld "ipv6_mc_list" (CPtr (CName "struct ipv6_mc_socklist"));
    fld "ipv6_ac_list" (CPtr (CName "struct ipv6_ac_socklist"));
    fld "ipv6_fl_list" (CPtr (CName "struct ipv6_fl_socklist"));
    fld "opt" (CPtr (CName "struct ipv6_txoptions"));
    fld "pktoptions" (CPtr (CName "struct sk_buff"));
    fld "rxpmtu" (CPtr (CName "struct sk_buff"));
    fld "cork" (CName "struct inet6_cork")].

Definition struct_ipv6hdr : decl :=
  DComp "struct ipv6hdr" CStruct false [
    bit "priority" (CName "__u8") 4;
    bit "version" (CName "__u8") 4;
    fld "flow_lbl" (CArr (CName "__u8") 3);
    fld "payload_len" (CName "__be16");
    fld "nexthdr" (CName "__u8");
    fld "hop_limit" (CName "__u8");
    fld "" (CComp CUnion false [
      fld "" (CComp CStruct false [
        fld "saddr" (CName "struct in6_addr");
        fld "daddr" (CName "struct in6_addr")]);
      fld "addrs" (CComp CStruct false [
        fld "saddr" (CName "struct in6_addr");
        fld "daddr" (CName "struct in6_addr")])])].

Definition struct_minmax_sample : decl :=
  DComp "struct minmax_sample" CStruct false [
    fld "t" (CName "u32");
    fld "v" (CName "u32")].

Definition struct_minmax : decl :=
  DComp "struct minmax" CStruct false [
    fld "s" (CArr (CName "struct minmax_sample") 3)].

Definition struct_neighbour : decl :=
  DComp "struct neighbour" CStruct false [
    fld "next" (CPtr (CName "struct neighbour"));
    fld "tbl" (CPtr (CName "struct neigh_table"));
    fld "parms" (CPtr (CName "struct neigh_parms"));
    fld "confirmed" (CInt IULong);
    fld "updated" (CInt IULong);
    fld "lock" (CName "rwlock_t");
    fld "refcnt" (CName "refcount_t");
    fld "arp_queue_len_bytes" (CInt IUInt);
    fld "arp_queue" (CName "struct sk_buff_head");
    fld "timer" (CName "struct timer_list");
    fld "used" (CInt IULong);
    fld "probes" (CName "atomic_t");
    fld "nud_state" (CName "u8");
    fld "type" (CName "u8");
    fld "dead" (CName "u8");
    fld "protocol" (CName "u8");
    fld "flags" (CName "u32");
    fld "ha_lock" (CName "seqlock_t");
    bit "" (CInt ILong) 0;
    fld "ha" (CArr (CInt IUChar) 32);
    fld "hh" (CName "struct hh_cache");
    fld "output" (CPtr (CFun (CInt IInt) [CPtr (CName "struct neighbour"); CPtr (CName "struct sk_buff")]));
    fld "ops" (CPtr (CName "struct neigh_ops"));
    fld "gc_list" (CName "struct list_head");
    fld "managed_list" (CName "struct list_head");
    fld "rcu" (CName "struct callback_head");
    fld "dev" (CPtr (CName "struct net_device"));
    fld "dev_tracker" (CName "netdevice_tracker");
    fld "primary_key" (CArr (CName "u8") 0)].

Definition struct_rtable : decl :=
  DComp "struct rtable" CStruct false [
    fld "dst" (CName "struct dst_entry");
    fld "rt_genid" (CInt IInt);
    fld "rt_flags" (CInt IUInt);
    fld "rt_type" (CName "__u16");
    fld "rt_is_input" (CName "__u8");
    fld "rt_uses_gateway" (CName "__u8");
    fld "rt_iif" (CInt IInt);
    fld "rt_gw_family" (CName "u8");
    fld "" (CComp CUnion false [
      fld "rt_gw4" (CName "__be32");
      fld "rt_gw6" (CName "struct in6_addr")]);
    bit "rt_mtu_locked" (CName "u32") 1;
    bit "rt_pmtu" (CName "u32") 31].

Definition struct_netlink_callback : decl :=
  DComp "struct netlink_callback" CStruct false [
    fld "skb" (CPtr (CName "struct sk_buff"));
    fld "nlh" (CPtr (CName "struct nlmsghdr"));
    fld "dump" (CPtr (CFun (CInt IInt) [CPtr (CName "struct sk_buff"); CPtr (CName "struct netlink_callback")]));
    fld "done" (CPtr (CFun (CInt IInt) [CPtr (CName "struct netlink_callback")]));
    fld "data" (CPtr CVoid);
    fld "module" (CPtr (CName "struct module"));
    fld "extack" (CPtr (CName "struct netlink_ext_ack"));
    fld "family" (CName "u16");
    fld "answer_flags" (CName "u16");
    fld "min_dump_alloc" (CName "u32");
    fld "prev_seq" (CInt IUInt);
    fld "seq" (CInt IUInt);
    fld "flags" (CInt IInt);
    fld "strict_check" (CName "bool");
    fld "" (CComp CUnion false [
      fld "ctx" (CArr (CName "u8") 48);
      fld "args" (CArr (CInt ILong) 6)])].

Definition struct_netlink_sock : decl :=
  DComp "struct netlink_sock" CStruct false [
    fld "sk" (CName "struct sock");
    fld "flags" (CInt IULong);
    fld "portid" (CName "u32");
    fld "dst_portid" (CName "u32");
    fld "dst_group" (CName "u32");
    fld "subscriptions" (CName "u32");
    fld "ngroups" (CName "u32");
    fld "groups" (CPtr (CInt IULong));
    fld "state" (CInt IULong);
    fld "max_recvmsg_len" (CName "size_t");
    fld "wait" (CName "wait_queue_head_t");
    fld "bound" (CName "bool");
    fld "cb_running" (CName "bool");
    fld "dump_done_errno" (CInt IInt);
    fld "cb" (CName "struct netlink_callback");
    fld "nl_cb_mutex" (CName "struct mutex");
    fld "dump_cb_mutex" (CPtr (CName "struct mutex"));
    fld "netlink_rcv" (CPtr (CFun CVoid [CPtr (CName "struct sk_buff")]));
    fld "netlink_bind" (CPtr (CFun (CInt IInt) [CPtr (CName "struct net"); CInt IInt]));
    fld "netlink_unbind" (CPtr (CFun CVoid [CPtr (CName "struct net"); CInt IInt]));
    fld "netlink_release" (CPtr (CFun CVoid [CPtr (CName "struct sock"); CPtr (CInt IULong)]));
    fld "module" (CPtr (CName "struct module"));
    fld "node" (CName "struct rhash_head");
    fld "rcu" (CName "struct callback_head")].

Definition struct_proto : decl :=
  DComp "struct proto" CStruct false [
    fld "close" (CPtr (CFun CVoid [CPtr (CName "struct sock"); CInt ILong]));
    fld "pre_connect" (CPtr (CFun (CInt IInt) [CPtr (CName "struct sock"); CPtr (CName "struct sockaddr"); CInt IInt]));
    fld "connect" (CPtr (CFun (CInt IInt) [CPtr (CName "struct sock"); CPtr (CName "struct sockaddr"); CInt IInt]));
    fld "disconnect" (CPtr (CFun (CInt IInt) [CPtr (CName "struct sock"); CInt IInt]));
    fld "accept" (CPtr (CFun (CPtr (CName "struct sock")) [CPtr (CName "struct sock"); CInt IInt; CPtr (CInt IInt); CName "bool"]));
    fld "ioctl" (CPtr (CFun (CInt IInt) [CPtr (CName "struct sock"); CInt IInt; CPtr (CInt IInt)]));
    fld "init" (CPtr (CFun (CInt IInt) [CPtr (CName "struct sock")]));
    fld "destroy" (CPtr (CFun CVoid [CPtr (CName "struct sock")]));
    fld "shutdown" (CPtr (CFun CVoid [CPtr (CName "struct sock"); CInt IInt]));
    fld "setsockopt" (CPtr (CFun (CInt IInt) [CPtr (CName "struct sock"); CInt IInt; CInt IInt; CName "sockptr_t"; CInt IUInt]));
    fld "getsockopt" (CPtr (CFun (CInt IInt) [CPtr (CName "struct sock"); CInt IInt; CInt IInt; CPtr (CInt IChar); CPtr (CInt IInt)]));
    fld "keepalive" (CPtr (CFun CVoid [CPtr (CName "struct sock"); CInt IInt]));
    fld "compat_ioctl" (CPtr (CFun (CInt IInt) [CPtr (CName "struct sock"); CInt IUInt; CInt IULong]));
    fld "sendmsg" (CPtr (CFun (CInt IInt) [CPtr (CName "struct sock"); CPtr (CName "struct msghdr"); CName "size_t"]));
    fld "recvmsg" (CPtr (CFun (CInt IInt) [CPtr (CName "struct sock"); CPtr (CName "struct msghdr"); CName "size_t"; CInt IInt; CPtr (CInt IInt)]));
    fld "splice_eof" (CPtr (CFun CVoid [CPtr (CName "struct socket")]));
    fld "bind" (CPtr (CFun (CInt IInt) [CPtr (CName "struct sock"); CPtr (CName "struct sockaddr"); CInt IInt]));
    fld "bind_add" (CPtr (CFun (CInt IInt) [CPtr (CName "struct sock"); CPtr (CName "struct sockaddr"); CInt IInt]));
    fld "backlog_rcv" (CPtr (CFun (CInt IInt) [CPtr (CName "struct sock"); CPtr (CName "struct sk_buff")]));
    fld "bpf_bypass_getsockopt" (CPtr (CFun (CName "bool") [CInt IInt; CInt IInt]));
    fld "release_cb" (CPtr (CFun CVoid [CPtr (CName "struct sock")]));
    fld "hash" (CPtr (CFun (CInt IInt) [CPtr (CName "struct sock")]));
    fld "unhash" (CPtr (CFun CVoid [CPtr (CName "struct sock")]));
    fld "rehash" (CPtr (CFun CVoid [CPtr (CName "struct sock")]));
    fld "get_port" (CPtr (CFun (CInt IInt) [CPtr (CName "struct sock"); CInt IUShort]));
    fld "put_port" (CPtr (CFun CVoid [CPtr (CName "struct sock")]));
    fld "psock_update_sk_prot" (CPtr (CFun (CInt IInt) [CPtr (CName "struct sock"); CPtr (CName "struct sk_psock"); CName "bool"]));
    fld "inuse_idx" (CInt IUInt);
    fld "stream_memory_free" (CPtr (CFun (CName "bool") [CPtr (CName "struct sock"); CInt IInt]));
    fld "sock_is_readable" (CPtr (CFun (CName "bool") [CPtr (CName "struct sock")]));
    fld "enter_memory_pressure" (CPtr (CFun CVoid [CPtr (CName "struct sock")]));
    fld "leave_memory_pressure" (CPtr (CFun CVoid [CPtr (CName "struct sock")]));
    fld "memory_allocated" (CPtr (CName "atomic_long_t"));
    fld "per_cpu_fw_alloc" (CPtr (CInt IInt));
    fld "sockets_allocated" (CPtr (CName "struct percpu_counter"));
    fld "memory_pressure" (CPtr (CInt IULong));
    fld "sysctl_mem" (CPtr (CInt ILong));
    fld "sysctl_wmem" (CPtr (CInt IInt));
    fld "sysctl_rmem" (CPtr (CInt IInt));
    fld "sysctl_wmem_offset" (CName "u32");
    fld "sysctl_rmem_offset" (CName "u32");
    fld "max_header" (CInt IInt);
    fld "no_autobind" (CName "bool");
    fld "slab" (CPtr (CName "struct kmem_cache"));
    fld "obj_size" (CInt IUInt);
    fld "ipv6_pinfo_offset" (CInt IUInt);
    fld "slab_flags" (CName "slab_flags_t");
    fld "useroffset" (CInt IUInt);
    fld "usersize" (CInt IUInt);
    fld "orphan_count" (CPtr (CInt IUInt));
    fld "rsk_prot" (CPtr (CName "struct request_sock_ops"));
    fld "twsk_prot" (CPtr (CName "struct timewait_sock_ops"));
    fld "h" (CComp CUnion false [
      fld "hashinfo" (CPtr (CName "struct inet_hashinfo"));
      fld "udp_table" (CPtr (CName "struct udp_table"));
      fld "raw_hash" (CPtr (CName "struct raw_hashinfo"));
      fld "smc_hash" (CPtr (CName "struct smc_hashinfo"))]);
    fld "owner" (CPtr (CName "struct module"));
    fld "name" (CArr (CInt IChar) 32);
    fld "node" (CName "struct list_head");
    fld "diag_destroy" (CPtr (CFun (CInt IInt) [CPtr (CName "struct sock"); CInt IInt]))].

Definition struct_proto_ops : decl :=
  DComp "struct proto_ops" CStruct false [
    fld "family" (CInt IInt);
    fld "owner" (CPtr (CName "struct module"));
    fld "release" (CPtr (CFun (CInt IInt) [CPtr (CName "struct socket")]));
    fld "bind" (CPtr (CFun (CInt IInt) [CPtr (CName "struct socket"); CPtr (CName "struct sockaddr"); CInt IInt]));
    fld "connect" (CPtr (CFun (CInt IInt) [CPtr (CName "struct socket"); CPtr (CName "struct sockaddr"); CInt IInt; CInt IInt]));
    fld "socketpair" (CPtr (CFun (CInt IInt) [CPtr (CName "struct socket"); CPtr (CName "struct socket")]));
    fld "accept" (CPtr (CFun (CInt IInt) [CPtr (CName "struct socket"); CPtr (CName "struct socket"); CInt IInt; CName "bool"]));
    fld "getname" (CPtr (CFun (CInt IInt) [CPtr (CName "struct socket"); CPtr (CName "struct sockaddr"); CInt IInt]));
    fld "poll" (CPtr (CFun (CName "__poll_t") [CPtr (CName "struct file"); CPtr (CName "struct socket"); CPtr (CName "struct poll_table_struct")]));
    fld "ioctl" (CPtr (CFun (CInt IInt) [CPtr (CName "struct socket"); CInt IUInt; CInt IULong]));
    fld "compat_ioctl" (CPtr (CFun (CInt IInt) [CPtr (CName "struct socket"); CInt IUInt; CInt IULong]));
    fld "gettstamp" (CPtr (CFun (CInt IInt) [CPtr (CName "struct socket"); CPtr CVoid; CName "bool"; CName "bool"]));
    fld "listen" (CPtr (CFun (CInt IInt) [CPtr (CName "struct socket"); CInt IInt]));
    fld "shutdown" (CPtr (CFun (CInt IInt) [CPtr (CName "struct socket"); CInt IInt]));
    fld "setsockopt" (CPtr (CFun (CInt IInt) [CPtr (CName "struct socket"); CInt IInt; CInt IInt; CName "sockptr_t"; CInt IUInt]));
    fld "getsockopt" (CPtr (CFun (CInt IInt) [CPtr (CName "struct socket"); CInt IInt; CInt IInt; CPtr (CInt IChar); CPtr (CInt IInt)]));
    fld "show_fdinfo" (CPtr (CFun CVoid [CPtr (CName "struct seq_file"); CPtr (CName "struct socket")]));
    fld "sendmsg" (CPtr (CFun (CInt IInt) [CPtr (CName "struct socket"); CPtr (CName "struct msghdr"); CName "size_t"]));
    fld "recvmsg" (CPtr (CFun (CInt IInt) [CPtr (CName "struct socket"); CPtr (CName "struct msghdr"); CName "size_t"; CInt IInt]));
    fld "mmap" (CPtr (CFun (CInt IInt) [CPtr (CName "struct file"); CPtr (CName "struct socket"); CPtr (CName "struct vm_area_struct")]));
    fld "splice_read" (CPtr (CFun (CName "ssize_t") [CPtr (CName "struct socket"); CPtr (CName "loff_t"); CPtr (CName "struct pipe_inode_info"); CName "size_t"; CInt IUInt]));
    fld "splice_eof" (CPtr (CFun CVoid [CPtr (CName "struct socket")]));
    fld "set_peek_off" (CPtr (CFun (CInt IInt) [CPtr (CName "struct sock"); CInt IInt]));
    fld "peek_len" (CPtr (CFun (CInt IInt) [CPtr (CName "struct socket")]));
    fld "read_sock" (CPtr (CFun (CInt IInt) [CPtr (CName "struct sock"); CPtr (CName "read_descriptor_t"); CName "sk_read_actor_t"]));
    fld "read_skb" (CPtr (CFun (CInt IInt) [CPtr (CName "struct sock"); CName "skb_read_actor_t"]));
    fld "sendmsg_locked" (CPtr (CFun (CInt IInt) [CPtr (CName "struct sock"); CPtr (CName "struct msghdr"); CName "size_t"]));
    fld "set_rcvlowat" (CPtr (CFun (CInt IInt) [CPtr (CName "struct sock"); CInt IInt]))].

Definition struct_raw_sock : decl :=
  DComp "struct raw_sock" CStruct false [
    fld "inet" (CName "struct inet_sock");
    fld "filter" (CName "struct icmp_filter");
    fld "ipmr_table" (CName "u32")].

Definition struct_request_sock_ops : decl :=
  DComp "struct request_sock_ops" CStruct false [
    fld "family" (CInt IInt);
    fld "obj_size" (CInt IUInt);
    fld "slab" (CPtr (CName "struct kmem_cache"));
    fld "slab_name" (CPtr (CInt IChar));
    fld "rtx_syn_ack" (CPtr (CFun (CInt IInt) [CPtr (CName "struct sock"); CPtr (CName "struct request_sock")]));
    fld "send_ack" (CPtr (CFun CVoid [CPtr (CName "struct sock"); CPtr (CName "struct sk_buff"); CPtr (CName "struct request_sock")]));
    fld "send_reset" (CPtr (CFun CVoid [CPtr (CName "struct sock"); CPtr (CName "struct sk_buff")]));
    fld "destructor" (CPtr (CFun CVoid [CPtr (CName "struct request_sock")]));
    fld "syn_ack_timeout" (CPtr (CFun CVoid [CPtr (CName "struct request_sock")]))].

Definition struct_scm_stat : decl :=
  DComp "struct scm_stat" CStruct false [
    fld "nr_fds" (CName "atomic_t");
    fld "nr_unix_fds" (CInt IULong)].

Definition struct_sockaddr_in : decl :=
  DComp "struct sockaddr_in" CStruct false [
    fld "sin_family" (CName "__kernel_sa_family_t");
    fld "sin_port" (CName "__be16");
    fld "sin_addr" (CName "struct in_addr");
    fld "__pad" (CArr (CInt IUChar) 8)].

Definition struct_skb_shared_hwtstamps : decl :=
  DComp "struct skb_shared_hwtstamps" CStruct false [
    fld "" (CComp CUnion false [
      fld "hwtstamp" (CName "ktime_t");
      fld "netdev_data" (CPtr CVoid)])].

Definition struct_skb_shared_info : decl :=
  DComp "struct skb_shared_info" CStruct false [
    fld "flags" (CName "__u8");
    fld "meta_len" (CName "__u8");
    fld "nr_frags" (CName "__u8");
    fld "tx_flags" (CName "__u8");
    fld "gso_size" (CInt IUShort);
    fld "gso_segs" (CInt IUShort);
    fld "frag_list" (CPtr (CName "struct sk_buff"));
    fld "hwtstamps" (CName "struct skb_shared_hwtstamps");
    fld "gso_type" (CInt IUInt);
    fld "tskey" (CName "u32");
    fld "dataref" (CName "atomic_t");
    fld "xdp_frags_size" (CInt IUInt);
    fld "destructor_arg" (CPtr CVoid);
    fld "frags" (CArr (CName "skb_frag_t") 17)].

Definition struct_sock_reuseport : decl :=
  DComp "struct sock_reuseport" CStruct false [
    fld "rcu" (CName "struct callback_head");
    fld "max_socks" (CName "u16");
    fld "num_socks" (CName "u16");
    fld "num_closed_socks" (CName "u16");
    fld "incoming_cpu" (CName "u16");
    fld "synq_overflow_ts" (CInt IUInt);
    fld "reuseport_id" (CInt IUInt);
    bit "bind_inany" (CInt IUInt) 1;
    bit "has_conns" (CInt IUInt) 1;
    fld "prog" (CPtr (CName "struct bpf_prog"));
    fld "socks" (CArr (CPtr (CName "struct sock")) 0)].

Definition struct_socket_wq : decl :=
  DComp "struct socket_wq" CStruct false [
    fld "wait" (CName "wait_queue_head_t");
    fld "fasync_list" (CPtr (CName "struct fasync_struct"));
    fld "flags" (CInt IULong);
    fld "rcu" (CName "struct callback_head");
    bit "" (CInt ILong) 64].

Definition struct_socket : decl :=
  DComp "struct socket" CStruct false [
    fld "state" (CName "socket_state");
    fld "type" (CInt IShort);
    fld "flags" (CInt IULong);
    fld "file" (CPtr (CName "struct file"));
    fld "sk" (CPtr (CName "struct sock"));
    fld "ops" (CPtr (CName "struct proto_ops"));
    bit "" (CInt ILong) 64;
    bit "" (CInt ILong) 64;
    bit "" (CInt ILong) 64;
    fld "wq" (CName "struct socket_wq")].

Definition struct_tcp_rack : decl :=
  DComp "struct tcp_rack" CStruct false [
    fld "mstamp" (CName "u64");
    fld "rtt_us" (CName "u32");
    fld "end_seq" (CName "u32");
    fld "last_delivered" (CName "u32");
    fld "reo_wnd_steps" (CName "u8");
    bit "reo_wnd_persist" (CName "u8") 5;
    bit "dsack_seen" (CName "u8") 1;
    bit "advanced" (CName "u8") 1].

Definition struct_tcp_options_received : decl :=
  DComp "struct tcp_options_received" CStruct false [
    fld "ts_recent_stamp" (CInt IInt);
    fld "ts_recent" (CName "u32");
    fld "rcv_tsval" (CName "u32");
    fld "rcv_tsecr" (CName "u32");
    bit "saw_tstamp" (CName "u16") 1;
    bit "tstamp_ok" (CName "u16") 1;
    bit "dsack" (CName "u16") 1;
    bit "wscale_ok" (CName "u16") 1;
    bit "sack_ok" (CName "u16") 3;
    bit "smc_ok" (CName "u16") 1;
    bit "snd_wscale" (CName "u16") 4;
    bit "rcv_wscale" (CName "u16") 4;
    bit "saw_unknown" (CName "u8") 1;
    bit "unused" (CName "u8") 7;
    fld "num_sacks" (CName "u8");
    fld "user_mss" (CName "u16");
    fld "mss_clamp" (CName "u16")].

Definition struct_tcp_sack_block : decl :=
  DComp "struct tcp_sack_block" CStruct false [
    fld "start_seq" (CName "u32");
    fld "end_seq" (CName "u32")].

Definition struct_tcp_sock : decl :=
  DComp "struct tcp_sock" CStruct false [
    fld "inet_conn" (CName "struct inet_connection_sock");
    fld "tcp_header_len" (CName "u16");
    fld "gso_segs" (CName "u16");
    fld "pred_flags" (CName "__be32");
    fld "bytes_received" (CName "u64");
    fld "segs_in" (CName "u32");
    fld "data_segs_in" (CName "u32");
    fld "rcv_nxt" (CName "u32");
    fld "copied_seq" (CName "u32");
    fld "rcv_wup" (CName "u32");
    fld "snd_nxt" (CName "u32");
    fld "segs_out" (CName "u32");
    fld "data_segs_out" (CName "u32");
    fld "bytes_sent" (CName "u64");
    fld "bytes_acked" (CName "u64");
    fld "dsack_dups" (CName "u32");
    fld "snd_una" (CName "u32");
    fld "snd_sml" (CName "u32");
    fld "rcv_tstamp" (CName "u32");
    fld "lsndtime" (CName "u32");
    fld "last_oow_ack_time" (CName "u32");
    fld "compressed_ack_rcv_nxt" (CName "u32");
    fld "tsoffset" (CName "u32");
    fld "tsq_node" (CName "struct list_head");
    fld "tsorted_sent_queue" (CName "struct list_head");
    fld "snd_wl1" (CName "u32");
    fld "snd_wnd" (CName "u32");
    fld "max_window" (CName "u32");
    fld "mss_cache" (CName "u32");
    fld "window_clamp" (CName "u32");
    fld "rcv_ssthresh" (CName "u32");
    fld "scaling_ratio" (CName "u8");
    fld "rack" (CName "struct tcp_rack");
    fld "advmss" (CName "u16");
    fld "compressed_ack" (CName "u8");
    bit "dup_ack_counter" (CName "u8") 2;
    bit "tlp_retrans" (CName "u8") 1;
    bit "unused" (CName "u8") 5;
    fld "chrono_start" (CName "u32");
    fld "chrono_stat" (CArr (CName "u32") 3);
    bit "chrono_type" (CName "u8") 2;
    bit "rate_app_limited" (CName "u8") 1;
    bit "fastopen_connect" (CName "u8") 1;
    bit "fastopen_no_cookie" (CName "u8") 1;
    bit "is_sack_reneg" (CName "u8") 1;
    bit "fastopen_client_fail" (CName "u8") 2;
    bit "nonagle" (CName "u8") 4;
    bit "thin_lto" (CName "u8") 1;
    bit "recvmsg_inq" (CName "u8") 1;
    bit "repair" (CName "u8") 1;
    bit "frto" (CName "u8") 1;
    fld "repair_queue" (CName "u8");
    bit "save_syn" (CName "u8") 2;
    bit "syn_data" (CName "u8") 1;
    bit "syn_fastopen" (CName "u8") 1;
    bit "syn_fastopen_exp" (CName "u8") 1;
    bit "syn_fastopen_ch" (CName "u8") 1;
    bit "syn_data_acked" (CName "u8") 1;
    bit "is_cwnd_limited" (CName "u8") 1;
    fld "tlp_high_seq" (CName "u32");
    fld "tcp_tx_delay" (CName "u32");
    fld "tcp_wstamp_ns" (CName "u64");
    fld "tcp_clock_cache" (CName "u64");
    fld "tcp_mstamp" (CName "u64");
    fld "srtt_us" (CName "u32");
    fld "mdev_us" (CName "u32");
    fld "mdev_max_us" (CName "u32");
    fld "rttvar_us" (CName "u32");
    fld "rtt_seq" (CName "u32");
    fld "rtt_min" (CName "struct minmax");
    fld "packets_out" (CName "u32");
    fld "retrans_out" (CName "u32");
    fld "max_packets_out" (CName "u32");
    fld "cwnd_usage_seq" (CName "u32");
    fld "urg_data" (CName "u16");
    fld "ecn_flags" (CName "u8");
    fld "keepalive_probes" (CName "u8");
    fld "reordering" (CName "u32");
    fld "reord_seen" (CName "u32");
    fld "snd_up" (CName "u32");
    fld "rx_opt" (CName "struct tcp_options_received");
    fld "snd_ssthresh" (CName "u32");
    fld "snd_cwnd" (CName "u32");
    fld "snd_cwnd_cnt" (CName "u32");
    fld "snd_cwnd_clamp" (CName "u32");
    fld "snd_cwnd_used" (CName "u32");
    fld "snd_cwnd_stamp" (CName "u32");
    fld "prior_cwnd" (CName "u32");
    fld "prr_delivered" (CName "u32");
    fld "prr_out" (CName "u32");
    fld "delivered" (CName "u32");
    fld "delivered_ce" (CName "u32");
    fld "lost" (CName "u32");
    fld "app_limited" (CName "u32");
    fld "first_tx_mstamp" (CName "u64");
    fld "delivered_mstamp" (CName "u64");
    fld "rate_delivered" (CName "u32");
    fld "rate_interval_us" (CName "u32");
    fld "rcv_wnd" (CName "u32");
    fld "write_seq" (CName "u32");
    fld "notsent_lowat" (CName "u32");
    fld "pushed_seq" (CName "u32");
    fld "lost_out" (CName "u32");
    fld "sacked_out" (CName "u32");
    fld "pacing_timer" (CName "struct hrtimer");
    fld "compressed_ack_timer" (CName "struct hrtimer");
    fld "lost_skb_hint" (CPtr (CName "struct sk_buff"));
    fld "retransmit_skb_hint" (CPtr (CName "struct sk_buff"));
    fld "out_of_order_queue" (CName "struct rb_root");
    fld "ooo_last_skb" (CPtr (CName "struct sk_buff"));
    fld "duplicate_sack" (CArr (CName "struct tcp_sack_block") 1);
    fld "selective_acks" (CArr (CName "struct tcp_sack_block") 4);
    fld "recv_sack_cache" (CArr (CName "struct tcp_sack_block") 4);
    fld "highest_sack" (CPtr (CName "struct sk_buff"));
    fld "lost_cnt_hint" (CInt IInt);
    fld "prior_ssthresh" (CName "u32");
    fld "high_seq" (CName "u32");
    fld "retrans_stamp" (CName "u32");
    fld "undo_marker" (CName "u32");
    fld "undo_retrans" (CInt IInt);
    fld "bytes_retrans" (CName "u64");
    fld "total_retrans" (CName "u32");
    fld "rto_stamp" (CName "u32");
    fld "total_rto" (CName "u16");
    fld "total_rto_recoveries" (CName "u16");
    fld "total_rto_time" (CName "u32");
    fld "urg_seq" (CName "u32");
    fld "keepalive_time" (CInt IUInt);
    fld "keepalive_intvl" (CInt IUInt);
    fld "linger2" (CInt IInt);
    fld "bpf_sock_ops_cb_flags" (CName "u8");
    bit "bpf_chg_cc_inprogress" (CName "u8") 1;
    fld "timeout_rehash" (CName "u16");
    fld "rcv_ooopack" (CName "u32");
    fld "rcv_rtt_last_tsecr" (CName "u32");
    fld "rcv_rtt_est" (CComp CStruct false [
      fld "rtt_us" (CName "u32");
      fld "seq" (CName "u32");
      fld "time" (CName "u64")]);
    fld "rcvq_space" (CComp CStruct false [
      fld "space" (CName "u32");
      fld "seq" (CName "u32");
      fld "time" (CName "u64")]);
    fld "mtu_probe" (CComp CStruct false [
      fld "probe_seq_start" (CName "u32");
      fld "probe_seq_end" (CName "u32")]);
    fld "plb_rehash" (CName "u32");
    fld "mtu_info" (CName "u32");
    fld "smc_hs_congested" (CPtr (CFun (CName "bool") [CPtr (CName "struct sock")]));
    fld "syn_smc" (CName "bool");
    fld "af_specific" (CPtr (CName "struct tcp_sock_af_ops"));
    fld "md5sig_info" (CPtr (CName "struct tcp_md5sig_info"));
    fld "fastopen_req" (CPtr (CName "struct tcp_fastopen_request"));
    fld "fastopen_rsk" (CPtr (CName "struct request_sock"));
    fld "saved_syn" (CPtr (CName "struct saved_syn"))].

Definition struct_tcp6_sock : decl :=
  DComp "struct tcp6_sock" CStruct false [
    fld "tcp" (CName "struct tcp_sock");
    fld "inet6" (CName "struct ipv6_pinfo")].

Definition struct_tcp_request_sock : decl :=
  DComp "struct tcp_request_sock" CStruct false [
    fld "req" (CName "struct inet_request_sock");
    fld "af_specific" (CPtr (CName "struct tcp_request_sock_ops"));
    fld "snt_synack" (CName "u64");
    fld "tfo_listener" (CName "bool");
    fld "is_mptcp" (CName "bool");
    fld "txhash" (CName "u32");
    fld "rcv_isn" (CName "u32");
    fld "snt_isn" (CName "u32");
    fld "ts_off" (CName "u32");
    fld "last_oow_ack_time" (CName "u32");
    fld "rcv_nxt" (CName "u32");
    fld "syn_tos" (CName "u8")].

Definition struct_tcp_timewait_sock : decl :=
  DComp "struct tcp_timewait_sock" CStruct false [
    fld "tw_sk" (CName "struct inet_timewait_sock");
    fld "tw_rcv_wnd" (CName "u32");
    fld "tw_ts_offset" (CName "u32");
    fld "tw_ts_recent" (CName "u32");
    fld "tw_last_oow_ack_time" (CName "u32");
    fld "tw_ts_recent_stamp" (CInt IInt);
    fld "tw_tx_delay" (CName "u32");
    fld "tw_md5_key" (CPtr (CName "struct tcp_md5sig_key"))].

Definition struct_udp_sock : decl :=
  DComp "struct udp_sock" CStruct false [
    fld "inet" (CName "struct inet_sock");
    fld "udp_flags" (CInt IULong);
    fld "pending" (CInt IInt);
    fld "encap_type" (CName "__u8");
    fld "len" (CName "__u16");
    fld "gso_size" (CName "__u16");
    fld "pcslen" (CName "__u16");
    fld "pcrlen" (CName "__u16");
    fld "encap_rcv" (CPtr (CFun (CInt IInt) [CPtr (CName "struct sock"); CPtr (CName "struct sk_buff")]));
    fld "encap_err_rcv" (CPtr (CFun CVoid [CPtr (CName "struct sock"); CPtr (CName "struct sk_buff"); CInt IInt; CName "__be16"; CName "u32"; CPtr (CName "u8")]));
    fld "encap_err_lookup" (CPtr (CFun (CInt IInt) [CPtr (CName "struct sock"); CPtr (CName "struct sk_buff")]));
    fld "encap_destroy" (CPtr (CFun CVoid [CPtr (CName "struct sock")]));
    fld "gro_receive" (CPtr (CFun (CPtr (CName "struct sk_buff")) [CPtr (CName "struct sock"); CPtr (CName "struct list_head"); CPtr (CName "struct sk_buff")]));
    fld "gro_complete" (CPtr (CFun (CInt IInt) [CPtr (CName "struct sock"); CPtr (CName "struct sk_buff"); CInt IInt]));
    bit "" (CInt ILong) 64;
    bit "" (CInt ILong) 64;
    bit "" (CInt ILong) 64;
    bit "" (CInt ILong) 64;
    fld "reader_queue" (CName "struct sk_buff_head");
    fld "forward_deficit" (CInt IInt);
    fld "forward_threshold" (CInt IInt);
    bit "" (CInt ILong) 64;
    bit "" (CInt ILong) 64;
    bit "" (CInt ILong) 64;
    bit "" (CInt ILong) 64].

Definition struct_udp6_sock : decl :=
  DComp "struct udp6_sock" CStruct false [
    fld "udp" (CName "struct udp_sock");
    fld "inet6" (CName "struct ipv6_pinfo");
    bit "" (CInt ILong) 64;
    bit "" (CInt ILong) 64;
    bit "" (CInt ILong) 64;
    bit "" (CInt ILong) 64].

Definition struct_udphdr : decl :=
  DComp "struct udphdr" CStruct false [
    fld "source" (CName "__be16");
    fld "dest" (CName "__be16");
    fld "len" (CName "__be16");
    fld "check" (CName "__sum16")].

Definition struct_unix_sock : decl :=
  DComp "struct unix_sock" CStruct false [
    fld "sk" (CName "struct sock");
    fld "addr" (CPtr (CName "struct unix_address"));
    fld "path" (CName "struct path");
    fld "iolock" (CName "struct mutex");
    fld "bindlock" (CName "struct mutex");
    fld "peer" (CPtr (CName "struct sock"));
    fld "listener" (CPtr (CName "struct sock"));
    fld "vertex" (CPtr (CName "struct unix_vertex"));
    fld "lock" (CName "spinlock_t");
    bit "" (CInt ILong) 64;
    fld "peer_wq" (CName "struct socket_wq");
    fld "peer_wake" (CName "wait_queue_entry_t");
    fld "scm_stat" (CName "struct scm_stat");
    fld "oob_skb" (CPtr (CName "struct sk_buff"))].

(** The declarations of this file, in order. *)
Definition net_decls : list decl := [
  typedef_socket_state; enum_sock_type; enum_tcp_ca_state; typedef___kernel_loff_t;
  typedef_loff_t; typedef___addrpair; typedef___be64; typedef___kernel_sa_family_t;
  typedef___sum16; typedef___be32; typedef___portpair; typedef___wsum; typedef_sk_buff_data_t;
  typedef_slab_flags_t; typedef_netns_tracker; typedef_rcuref_t; typedef_socket_lock_t;
  struct_in6_addr; struct___kernel_sockaddr_storage; typedef_wait_queue_func_t;
  struct_wait_queue_entry; struct_path; struct_bio_vec; struct_iovec; struct_iov_iter;
  typedef_skb_frag_t; typedef_wait_queue_entry_t; struct_sk_buff; struct_sock_common;
  struct_sock_cgroup_data; struct_sock; struct_tcp_congestion_ops; struct_in_addr;
  struct_sockaddr_in6; struct_iphdr; struct_tcphdr; struct_dst_entry; struct_fastopen_queue;
  struct_flowi_tunnel; struct_flowi_common; union_flowi_uli; struct_flowi4; struct_flowi6;
  struct_flowi; struct_hh_cache; struct_icmp_filter; struct_in6_pktinfo; struct_inet6_cork;
  struct_inet_bind_bucket; struct_inet_cork; struct_inet_cork_full; struct_inet_sock;
  struct_request_sock_queue; struct_inet_connection_sock; struct_inet_connection_sock_af_ops;
  struct_inet_hashinfo; struct_request_sock; struct_inet_request_sock;
  struct_inet_timewait_sock; struct_msghdr; struct_ipv6_pinfo; struct_ipv6hdr;
  struct_minmax_sample; struct_minmax; struct_neighbour; struct_rtable;
  struct_netlink_callback; struct_netlink_sock; struct_proto; struct_proto_ops;
  struct_raw_sock; struct_request_sock_ops; struct_scm_stat; struct_sockaddr_in;
  struct_skb_shared_hwtstamps; struct_skb_shared_info; struct_sock_reuseport; struct_socket_wq;
  struct_socket; struct_tcp_rack; struct_tcp_options_received; struct_tcp_sack_block;
  struct_tcp_sock; struct_tcp6_sock; struct_tcp_request_sock; struct_tcp_timewait_sock;
  struct_udp_sock; struct_udp6_sock; struct_udphdr; struct_unix_sock].
