(* ===== verification/VmlinuxNetNs.v ===== *)
(** * Kernel types: the network namespace and device objects a socket leads to
    ([skc_net], [sk_buff::dev]).

    Transcribed from [vmlinux.h], declaration by declaration, in an order in
    which the types a declaration holds by value come before it. *)

From S2P Require Import Prelude CLayout.

#[local] Open Scope string_scope.
#[local] Open Scope list_scope.
#[local] Open Scope Z_scope.

Definition enum_device_removable : decl :=
  DEnum "enum device_removable" false [
    ("DEVICE_REMOVABLE_NOT_SUPPORTED", 0);
    ("DEVICE_REMOVABLE_UNKNOWN", 1);
    ("DEVICE_FIXED", 2);
    ("DEVICE_REMOVABLE", 3)].

Definition enum_dl_dev_state : decl :=
  DEnum "enum dl_dev_state" false [
    ("DL_DEV_NO_DRIVER", 0);
    ("DL_DEV_PROBING", 1);
    ("DL_DEV_DRIVER_BOUND", 2);
    ("DL_DEV_UNBINDING", 3)].

Definition enum_netdev_ml_priv_type : decl :=
  DEnum "enum netdev_ml_priv_type" false [
    ("ML_PRIV_NONE", 0);
    ("ML_PRIV_CAN", 1)].

Definition enum_netdev_stat_type : decl :=
  DEnum "enum netdev_stat_type" false [
    ("NETDEV_PCPU_STAT_NONE", 0);
    ("NETDEV_PCPU_STAT_LSTATS", 1);
    ("NETDEV_PCPU_STAT_TSTATS", 2);
    ("NETDEV_PCPU_STAT_DSTATS", 3)].

Definition enum_rpm_request : decl :=
  DEnum "enum rpm_request" false [
    ("RPM_REQ_NONE", 0);
    ("RPM_REQ_IDLE", 1);
    ("RPM_REQ_SUSPEND", 2);
    ("RPM_REQ_AUTOSUSPEND", 3);
    ("RPM_REQ_RESUME", 4)].

Definition enum_rpm_status : decl :=
  DEnum "enum rpm_status" false [
    ("RPM_INVALID", (-1));
    ("RPM_ACTIVE", 0);
    ("RPM_RESUMING", 1);
    ("RPM_SUSPENDED", 2);
    ("RPM_SUSPENDING", 3)].

Definition typedef___kernel_dev_t : decl := DTypedef "__kernel_dev_t" (CName "u32").

Definition typedef_dev_t : decl := DTypedef "dev_t" (CName "__kernel_dev_t").

Definition typedef_xdp_features_t : decl := DTypedef "xdp_features_t" (CName "u32").

Definition typedef_siphash_key_t : decl := DTypedef "siphash_key_t" (CComp CStruct false [
      fld "key" (CArr (CName "u64") 2)]).

Definition struct_kref : decl :=
  DComp "struct kref" CStruct false [
    fld "refcount" (CName "refcount_t")].

Definition struct_swait_queue_head : decl :=
  DComp "struct swait_queue_head" CStruct false [
    fld "lock" (CName "raw_spinlock_t");
    fld "task_list" (CName "struct list_head")].

Definition struct_completion : decl :=
  DComp "struct completion" CStruct false [
    fld "done" (CInt IUInt);
    fld "wait" (CName "struct swait_queue_head")].

Definition struct_kobject : decl :=
  DComp "struct kobject" CStruct false [
    fld "name" (CPtr (CInt IChar));
    fld "entry" (CName "struct list_head");
    fld "parent" (CPtr (CName "struct kobject"));
    fld "kset" (CPtr (CName "struct kset"));
    fld "ktype" (CPtr (CName "struct kobj_type"));
    fld "sd" (CPtr (CName "struct kernfs_node"));
    fld "kref" (CName "struct kref");
    bit "state_initialized" (CInt IUInt) 1;
    bit "state_in_sysfs" (CInt IUInt) 1;
    bit "state_add_uevent_sent" (CInt IUInt) 1;
    bit "state_remove_uevent_sent" (CInt IUInt) 1;
    bit "uevent_suppress" (CInt IUInt) 1].

Definition struct_dev_links_info : decl :=
  DComp "struct dev_links_info" CStruct false [
    fld "suppliers" (CName "struct list_head");
    fld "consumers" (CName "struct list_head");
    fld "defer_sync" (CName "struct list_head");
    fld "status" (CName "enum dl_dev_state")].

Definition struct_pm_message : decl :=
  DComp "struct pm_message" CStruct false [
    fld "event" (CInt IInt)].

Definition typedef_pm_message_t : decl := DTypedef "pm_message_t" (CName "struct pm_message").

Definition struct_dev_pm_info : decl :=
  DComp "struct dev_pm_info" CStruct false [
    fld "power_state" (CName "pm_message_t");
    bit "can_wakeup" (CInt IUInt) 1;
    bit "async_suspend" (CInt IUInt) 1;
    bit "in_dpm_list" (CName "bool") 1;
    bit "is_prepared" (CName "bool") 1;
    bit "is_suspended" (CName "bool") 1;
    bit "is_noirq_suspended" (CName "bool") 1;
    bit "is_late_suspended" (CName "bool") 1;
    bit "no_pm" (CName "bool") 1;
    bit "early_init" (CName "bool") 1;
    bit "direct_complete" (CName "bool") 1;
    fld "driver_flags" (CName "u32");
    fld "lock" (CName "spinlock_t");
    fld "entry" (CName "struct list_head");
    fld "completion" (CName "struct completion");
    fld "wakeup" (CPtr (CName "struct wakeup_source"));
    bit "wakeup_path" (CName "bool") 1;
    bit "syscore" (CName "bool") 1;
    bit "no_pm_callbacks" (CName "bool") 1;
    bit "must_resume" (CInt IUInt) 1;
    bit "may_skip_resume" (CInt IUInt) 1;
    fld "suspend_timer" (CName "struct hrtimer");
    fld "timer_expires" (CName "u64");
    fld "work" (CName "struct work_struct");
    fld "wait_queue" (CName "wait_queue_head_t");
    fld "wakeirq" (CPtr (CName "struct wake_irq"));
    fld "usage_count" (CName "atomic_t");
    fld "child_count" (CName "atomic_t");
    bit "disable_depth" (CInt IUInt) 3;
    bit "idle_notification" (CInt IUInt) 1;
    bit "request_pending" (CInt IUInt) 1;
    bit "deferred_resume" (CInt IUInt) 1;
    bit "needs_force_resume" (CInt IUInt) 1;
    bit "runtime_auto" (CInt IUInt) 1;
    bit "ignore_children" (CName "bool") 1;
    bit "no_callbacks" (CInt IUInt) 1;
    bit "irq_safe" (CInt IUInt) 1;
    bit "use_autosuspend" (CInt IUInt) 1;
    bit "timer_autosuspends" (CInt IUInt) 1;
    bit "memalloc_noio" (CInt IUInt) 1;
    fld "links_count" (CInt IUInt);
    fld "request" (CName "enum rpm_request");
    fld "runtime_status" (CName "enum rpm_status");
    fld "last_status" (CName "enum rpm_status");
    fld "runtime_error" (CInt IInt);
    fld "autosuspend_delay" (CInt IInt);
    fld "last_busy" (CName "u64");
    fld "active_time" (CName "u64");
    fld "suspended_time" (CName "u64");
    fld "accounting_timestamp" (CName "u64");
    fld "subsys_data" (CPtr (CName "struct pm_subsys_data"));
    fld "set_latency_tolerance" (CPtr (CFun CVoid [CPtr (CName "struct device"); CName "s32"]));
    fld "qos" (CPtr (CName "struct dev_pm_qos"))].

Definition struct_dev_msi_info : decl :=
  DComp "struct dev_msi_info" CStruct false [
    fld "domain" (CPtr (CName "struct irq_domain"));
    fld "data" (CPtr (CName "struct msi_device_data"))].

Definition struct_dev_archdata : decl :=
  DComp "struct dev_archdata" CStruct false [].

Definition struct_device : decl :=
  DComp "struct device" CStruct false [
    fld "kobj" (CName "struct kobject");
    fld "parent" (CPtr (CName "struct device"));
    fld "p" (CPtr (CName "struct device_private"));
    fld "init_name" (CPtr (CInt IChar));
    fld "type" (CPtr (CName "struct device_type"));
    fld "bus" (CPtr (CName "struct bus_type"));
    fld "driver" (CPtr (CName "struct device_driver"));
    fld "platform_data" (CPtr CVoid);
    fld "driver_data" (CPtr CVoid);
    fld "mutex" (CName "struct mutex");
    fld "links" (CName "struct dev_links_info");
    fld "power" (CName "struct dev_pm_info");
    fld "pm_domain" (CPtr (CName "struct dev_pm_domain"));
    fld "pins" (CPtr (CName "struct dev_pin_info"));
    fld "msi" (CName "struct dev_msi_info");
    fld "dma_ops" (CPtr (CName "struct dma_map_ops"));
    fld "dma_mask" (CPtr (CName "u64"));
    fld "coherent_dma_mask" (CName "u64");
    fld "bus_dma_limit" (CName "u64");
    fld "dma_range_map" (CPtr (CName "struct bus_dma_region"));
    fld "dma_parms" (CPtr (CName "struct device_dma_parameters"));
    fld "dma_pools" (CName "struct list_head");
    fld "dma_io_tlb_mem" (CPtr (CName "struct io_tlb_mem"));
    fld "archdata" (CName "struct dev_archdata");
    fld "of_node" (CPtr (CName "struct device_node"));
    fld "fwnode" (CPtr (CName "struct fwnode_handle"));
    fld "numa_node" (CInt IInt);
    fld "devt" (CName "dev_t");
    fld "id" (CName "u32");
    fld "devres_lock" (CName "spinlock_t");
    fld "devres_head" (CName "struct list_head");
    fld "class" (CPtr (CName "struct class"));
    fld "groups" (CPtr (CPtr (CName "struct attribute_group")));
    fld "release" (CPtr (CFun CVoid [CPtr (CName "struct device")]));
    fld "iommu_group" (CPtr (CName "struct iommu_group"));
    fld "iommu" (CPtr (CName "struct dev_iommu"));
    fld "physical_location" (CPtr (CName "struct device_physical_location"));
    fld "removable" (CName "enum device_removable");
    bit "offline_disabled" (CName "bool") 1;
    bit "offline" (CName "bool") 1;
    bit "of_node_reused" (CName "bool") 1;
    bit "state_synced" (CName "bool") 1;
    bit "can_match" (CName "bool") 1].

Definition struct_delayed_work : decl :=
  DComp "struct delayed_work" CStruct false [
    fld "work" (CName "struct work_struct");
    fld "timer" (CName "struct timer_list");
    fld "wq" (CPtr (CName "struct workqueue_struct"));
    fld "cpu" (CInt IInt)].

Definition struct_xarray : decl :=
  DComp "struct xarray" CStruct false [
    fld "xa_lock" (CName "spinlock_t");
    fld "xa_flags" (CName "gfp_t");
    fld "xa_head" (CPtr CVoid)].

Definition struct_blocking_notifier_head : decl :=
  DComp "struct blocking_notifier_head" CStruct false [
    fld "rwsem" (CName "struct rw_semaphore");
    fld "head" (CPtr (CName "struct notifier_block"))].

Definition struct_bpf_xdp_entity : decl :=
  DComp "struct bpf_xdp_entity" CStruct false [
    fld "prog" (CPtr (CName "struct bpf_prog"));
    fld "link" (CPtr (CName "struct bpf_xdp_link"))].

Definition struct_ns_common : decl :=
  DComp "struct ns_common" CStruct false [
    fld "stashed" (CName "atomic_long_t");
    fld "ops" (CPtr (CName "struct proc_ns_operations"));
    fld "inum" (CInt IUInt);
    fld "count" (CName "refcount_t")].

Definition struct_idr : decl :=
  DComp "struct idr" CStruct false [
    fld "idr_rt" (CName "struct xarray");
    fld "idr_base" (CInt IUInt);
    fld "idr_next" (CInt IUInt)].

Definition struct_ctl_table_header : decl :=
  DComp "struct ctl_table_header" CStruct false [
    fld "" (CComp CUnion false [
      fld "" (CComp CStruct false [
        fld "ctl_table" (CPtr (CName "struct ctl_table"));
        fld "ctl_table_size" (CInt IInt);
        fld "used" (CInt IInt);
        fld "count" (CInt IInt);
        fld "nreg" (CInt IInt)]);
      fld "rcu" (CName "struct callback_head")]);
    fld "unregistering" (CPtr (CName "struct completion"));
    fld "ctl_table_arg" (CPtr (CName "struct ctl_table"));
    fld "root" (CPtr (CName "struct ctl_table_root"));
    fld "set" (CPtr (CName "struct ctl_table_set"));
    fld "parent" (CPtr (CName "struct ctl_dir"));
    fld "node" (CPtr (CName "struct ctl_node"));
    fld "inodes" (CName "struct hlist_head")].

Definition struct_ctl_dir : decl :=
  DComp "struct ctl_dir" CStruct false [
    fld "header" (CName "struct ctl_table_header");
    fld "root" (CName "struct rb_root")].

Definition struct_ctl_table_set : decl :=
  DComp "struct ctl_table_set" CStruct false [
    fld "is_seen" (CPtr (CFun (CInt IInt) [CPtr (CName "struct ctl_table_set")]));
    fld "dir" (CName "struct ctl_dir")].

Definition struct_dql : decl :=
  DComp "struct dql" CStruct false [
    fld "num_queued" (CInt IUInt);
    fld "adj_limit" (CInt IUInt);
    fld "last_obj_cnt" (CInt IUInt);
    bit "" (CInt ILong) 64;
    bit "" (CInt ILong) 64;
    bit "" (CInt ILong) 64;
    bit "" (CInt ILong) 64;
    bit "" (CInt ILong) 64;
    bit "" (CInt ILong) 64;
    fld "limit" (CInt IUInt);
    fld "num_completed" (CInt IUInt);
    fld "prev_ovlimit" (CInt IUInt);
    fld "prev_num_queued" (CInt IUInt);
    fld "prev_last_obj_cnt" (CInt IUInt);
    fld "lowest_slack" (CInt IUInt);
    fld "slack_start_time" (CInt IULong);
    fld "max_limit" (CInt IUInt);
    fld "min_limit" (CInt IUInt);
    fld "slack_hold_time" (CInt IUInt);
    bit "" (CInt ILong) 64;
    bit "" (CInt ILong) 64].

Definition struct_gro_list : decl :=
  DComp "struct gro_list" CStruct false [
    fld "list" (CName "struct list_head");
    fld "count" (CInt IInt)].

Definition struct_napi_struct : decl :=
  DComp "struct napi_struct" CStruct false [
    fld "poll_list" (CName "struct list_head");
    fld "state" (CInt IULong);
    fld "weight" (CInt IInt);
    fld "defer_hard_irqs_count" (CInt IInt);
    fld "gro_bitmask" (CInt IULong);
    fld "poll" (CPtr (CFun (CInt IInt) [CPtr (CName "struct napi_struct"); CInt IInt]));
    fld "poll_owner" (CInt IInt);
    fld "list_owner" (CInt IInt);
    fld "dev" (CPtr (CName "struct net_device"));
    fld "gro_hash" (CArr (CName "struct gro_list") 8);
    fld "skb" (CPtr (CName "struct sk_buff"));
    fld "rx_list" (CName "struct list_head");
    fld "rx_count" (CInt IInt);
    fld "napi_id" (CInt IUInt);
    fld "timer" (CName "struct hrtimer");
    fld "thread" (CPtr (CName "struct task_struct"));
    fld "dev_list" (CName "struct list_head");
    fld "napi_hash_node" (CName "struct hlist_node")].

Definition struct_inet_timewait_death_row : decl :=
  DComp "struct inet_timewait_death_row" CStruct false [
    fld "tw_refcount" (CName "refcount_t");
    bit "" (CInt ILong) 64;
    bit "" (CInt ILong) 64;
    bit "" (CInt ILong) 64;
    bit "" (CInt ILong) 64;
    bit "" (CInt ILong) 64;
    bit "" (CInt ILong) 64;
    bit "" (CInt ILong) 64;
    fld "hashinfo" (CPtr (CName "struct inet_hashinfo"));
    fld "sysctl_max_tw_buckets" (CInt IInt);
    bit "" (CInt ILong) 64;
    bit "" (CInt ILong) 64;
    bit "" (CInt ILong) 64;
    bit "" (CInt ILong) 64;
    bit "" (CInt ILong) 64;
    bit "" (CInt ILong) 64].

Definition struct_local_ports : decl :=
  DComp "struct local_ports" CStruct false [
    fld "lock" (CName "seqlock_t");
    fld "range" (CArr (CInt IInt) 2);
    fld "warned" (CName "bool")].

Definition struct_ref_tracker_dir : decl :=
  DComp "struct ref_tracker_dir" CStruct false [].

Definition struct_raw_notifier_head : decl :=
  DComp "struct raw_notifier_head" CStruct false [
    fld "head" (CPtr (CName "struct notifier_block"))].

Definition struct_netns_core : decl :=
  DComp "struct netns_core" CStruct false [
    fld "sysctl_hdr" (CPtr (CName "struct ctl_table_header"));
    fld "sysctl_somaxconn" (CInt IInt);
    fld "sysctl_txrehash" (CName "u8");
    fld "prot_inuse" (CPtr (CName "struct prot_inuse"));
    fld "rps_default_mask" (CPtr (CName "struct cpumask"))].

Definition struct_netns_mib : decl :=
  DComp "struct netns_mib" CStruct false [
    fld "ip_statistics" (CPtr (CName "struct ipstats_mib"));
    fld "ipv6_statistics" (CPtr (CName "struct ipstats_mib"));
    fld "tcp_statistics" (CPtr (CName "struct tcp_mib"));
    fld "net_statistics" (CPtr (CName "struct linux_mib"));
    fld "udp_statistics" (CPtr (CName "struct udp_mib"));
    fld "udp_stats_in6" (CPtr (CName "struct udp_mib"));
    fld "xfrm_statistics" (CPtr (CName "struct linux_xfrm_mib"));
    fld "tls_statistics" (CPtr (CName "struct linux_tls_mib"));
    fld "udplite_statistics" (CPtr (CName "struct udp_mib"));
    fld "udplite_stats_in6" (CPtr (CName "struct udp_mib"));
    fld "icmp_statistics" (CPtr (CName "struct icmp_mib"));
    fld "icmpmsg_statistics" (CPtr (CName "struct icmpmsg_mib"));
    fld "icmpv6_statistics" (CPtr (CName "struct icmpv6_mib"));
    fld "icmpv6msg_statistics" (CPtr (CName "struct icmpv6msg_mib"));
    fld "proc_net_devsnmp6" (CPtr (CName "struct proc_dir_entry"))].

Definition struct_netns_packet : decl :=
  DComp "struct netns_packet" CStruct false [
    fld "sklist_lock" (CName "struct mutex");
    fld "sklist" (CName "struct hlist_head")].

Definition struct_unix_table : decl :=
  DComp "struct unix_table" CStruct false [
    fld "locks" (CPtr (CName "spinlock_t"));
    fld "buckets" (CPtr (CName "struct hlist_head"))].

Definition struct_netns_unix : decl :=
  DComp "struct netns_unix" CStruct false [
    fld "table" (CName "struct unix_table");
    fld "sysctl_max_dgram_qlen" (CInt IInt);
    fld "ctl" (CPtr (CName "struct ctl_table_header"))].

Definition struct_netns_nexthop : decl :=
  DComp "struct netns_nexthop" CStruct false [
    fld "rb_root" (CName "struct rb_root");
    fld "devhash" (CPtr (CName "struct hlist_head"));
    fld "seq" (CInt IUInt);
    fld "last_id_allocated" (CName "u32");
    fld "notifier_chain" (CName "struct blocking_notifier_head")].

Definition struct_ping_group_range : decl :=
  DComp "struct ping_group_range" CStruct false [
    fld "lock" (CName "seqlock_t");
    fld "range" (CArr (CName "kgid_t") 2)].

Definition struct_netns_ipv4 : decl :=
  DComp "struct netns_ipv4" CStruct false [
    fld "tcp_death_row" (CName "struct inet_timewait_death_row");
    fld "udp_table" (CPtr (CName "struct udp_table"));
    fld "forw_hdr" (CPtr (CName "struct ctl_table_header"));
    fld "frags_hdr" (CPtr (CName "struct ctl_table_header"));
    fld "ipv4_hdr" (CPtr (CName "struct ctl_table_header"));
    fld "route_hdr" (CPtr (CName "struct ctl_table_header"));
    fld "xfrm4_hdr" (CPtr (CName "struct ctl_table_header"));
    fld "devconf_all" (CPtr (CName "struct ipv4_devconf"));
    fld "devconf_dflt" (CPtr (CName "struct ipv4_devconf"));
    fld "ra_chain" (CPtr (CName "struct ip_ra_chain"));
    fld "ra_mutex" (CName "struct mutex");
    fld "rules_ops" (CPtr (CName "struct fib_rules_ops"));
    fld "fib_main" (CPtr (CName "struct fib_table"));
    fld "fib_default" (CPtr (CName "struct fib_table"));
    fld "fib_rules_require_fldissect" (CInt IUInt);
    fld "fib_has_custom_rules" (CName "bool");
    fld "fib_has_custom_local_routes" (CName "bool");
    fld "fib_offload_disabled" (CName "bool");
    fld "sysctl_tcp_shrink_window" (CName "u8");
    fld "fib_num_tclassid_users" (CName "atomic_t");
    fld "fib_table_hash" (CPtr (CName "struct hlist_head"));
    fld "fibnl" (CPtr (CName "struct sock"));
    fld "mc_autojoin_sk" (CPtr (CName "struct sock"));
    fld "peers" (CPtr (CName "struct inet_peer_base"));
    fld "fqdir" (CPtr (CName "struct fqdir"));
    fld "sysctl_icmp_echo_ignore_all" (CName "u8");
    fld "sysctl_icmp_echo_enable_probe" (CName "u8");
    fld "sysctl_icmp_echo_ignore_broadcasts" (CName "u8");
    fld "sysctl_icmp_ignore_bogus_error_responses" (CName "u8");
    fld "sysctl_icmp_errors_use_inbound_ifaddr" (CName "u8");
    fld "sysctl_icmp_ratelimit" (CInt IInt);
    fld "sysctl_icmp_ratemask" (CInt IInt);
    fld "ip_rt_min_pmtu" (CName "u32");
    fld "ip_rt_mtu_expires" (CInt IInt);
    fld "ip_rt_min_advmss" (CInt IInt);
    fld "ip_local_ports" (CName "struct local_ports");
    fld "sysctl_tcp_ecn" (CName "u8");
    fld "sysctl_tcp_ecn_fallback" (CName "u8");
    fld "sysctl_ip_default_ttl" (CName "u8");
    fld "sysctl_ip_no_pmtu_disc" (CName "u8");
    fld "sysctl_ip_fwd_use_pmtu" (CName "u8");
    fld "sysctl_ip_fwd_update_priority" (CName "u8");
    fld "sysctl_ip_nonlocal_bind" (CName "u8");
    fld "sysctl_ip_autobind_reuse" (CName "u8");
    fld "sysctl_ip_dynaddr" (CName "u8");
    fld "sysctl_ip_early_demux" (CName "u8");
    fld "sysctl_raw_l3mdev_accept" (CName "u8");
    fld "sysctl_tcp_early_demux" (CName "u8");
    fld "sysctl_udp_early_demux" (CName "u8");
    fld "sysctl_nexthop_compat_mode" (CName "u8");
    fld "sysctl_fwmark_reflect" (CName "u8");
    fld "sysctl_tcp_fwmark_accept" (CName "u8");
    fld "sysctl_tcp_l3mdev_accept" (CName "u8");
    fld "sysctl_tcp_mtu_probing" (CName "u8");
    fld "sysctl_tcp_mtu_probe_floor" (CInt IInt);
    fld "sysctl_tcp_base_mss" (CInt IInt);
    fld "sysctl_tcp_min_snd_mss" (CInt IInt);
    fld "sysctl_tcp_probe_threshold" (CInt IInt);
    fld "sysctl_tcp_probe_interval" (CName "u32");
    fld "sysctl_tcp_keepalive_time" (CInt IInt);
    fld "sysctl_tcp_keepalive_intvl" (CInt IInt);
    fld "sysctl_tcp_keepalive_probes" (CName "u8");
    fld "sysctl_tcp_syn_retries" (CName "u8");
    fld "sysctl_tcp_synack_retries" (CName "u8");
    fld "sysctl_tcp_syncookies" (CName "u8");
    fld "sysctl_tcp_migrate_req" (CName "u8");
    fld "sysctl_tcp_comp_sack_nr" (CName "u8");
    fld "sysctl_tcp_reordering" (CInt IInt);
    fld "sysctl_tcp_retries1" (CName "u8");
    fld "sysctl_tcp_retries2" (CName "u8");
    fld "sysctl_tcp_orphan_retries" (CName "u8");
    fld "sysctl_tcp_tw_reuse" (CName "u8");
    fld "sysctl_tcp_fin_timeout" (CInt IInt);
    fld "sysctl_tcp_notsent_lowat" (CInt IUInt);
    fld "sysctl_tcp_sack" (CName "u8");
    fld "sysctl_tcp_window_scaling" (CName "u8");
    fld "sysctl_tcp_timestamps" (CName "u8");
    fld "sysctl_tcp_early_retrans" (CName "u8");
    fld "sysctl_tcp_recovery" (CName "u8");
    fld "sysctl_tcp_thin_linear_timeouts" (CName "u8");
    fld "sysctl_tcp_slow_start_after_idle" (CName "u8");
    fld "sysctl_tcp_retrans_collapse" (CName "u8");
    fld "sysctl_tcp_stdurg" (CName "u8");
    fld "sysctl_tcp_rfc1337" (CName "u8");
    fld "sysctl_tcp_abort_on_overflow" (CName "u8");
    fld "sysctl_tcp_fack" (CName "u8");
    fld "sysctl_tcp_max_reordering" (CInt IInt);
    fld "sysctl_tcp_adv_win_scale" (CInt IInt);
    fld "sysctl_tcp_dsack" (CName "u8");
    fld "sysctl_tcp_app_win" (CName "u8");
    fld "sysctl_tcp_frto" (CName "u8");
    fld "sysctl_tcp_nometrics_save" (CName "u8");
    fld "sysctl_tcp_no_ssthresh_metrics_save" (CName "u8");
    fld "sysctl_tcp_moderate_rcvbuf" (CName "u8");
    fld "sysctl_tcp_tso_win_divisor" (CName "u8");
    fld "sysctl_tcp_workaround_signed_windows" (CName "u8");
    fld "sysctl_tcp_limit_output_bytes" (CInt IInt);
    fld "sysctl_tcp_challenge_ack_limit" (CInt IInt);
    fld "sysctl_tcp_min_rtt_wlen" (CInt IInt);
    fld "sysctl_tcp_min_tso_segs" (CName "u8");
    fld "sysctl_tcp_tso_rtt_log" (CName "u8");
    fld "sysctl_tcp_autocorking" (CName "u8");
    fld "sysctl_tcp_reflect_tos" (CName "u8");
    fld "sysctl_tcp_invalid_ratelimit" (CInt IInt);
    fld "sysctl_tcp_pacing_ss_ratio" (CInt IInt);
    fld "sysctl_tcp_pacing_ca_ratio" (CInt IInt);
    fld "sysctl_tcp_wmem" (CArr (CInt IInt) 3);
    fld "sysctl_tcp_rmem" (CArr (CInt IInt) 3);
    fld "sysctl_tcp_child_ehash_entries" (CInt IUInt);
    fld "sysctl_tcp_comp_sack_delay_ns" (CInt IULong);
    fld "sysctl_tcp_comp_sack_slack_ns" (CInt IULong);
    fld "sysctl_max_syn_backlog" (CInt IInt);
    fld "sysctl_tcp_fastopen" (CInt IInt);
    fld "tcp_congestion_control" (CPtr (CName "struct tcp_congestion_ops"));
    fld "tcp_fastopen_ctx" (CPtr (CName "struct tcp_fastopen_context"));
    fld "sysctl_tcp_fastopen_blackhole_timeout" (CInt IUInt);
    fld "tfo_active_disable_times" (CName "atomic_t");
    fld "tfo_active_disable_stamp" (CInt IULong);
    fld "tcp_challenge_timestamp" (CName "u32");
    fld "tcp_challenge_count" (CName "u32");
    fld "sysctl_tcp_plb_enabled" (CName "u8");
    fld "sysctl_tcp_plb_idle_rehash_rounds" (CName "u8");
    fld "sysctl_tcp_plb_rehash_rounds" (CName "u8");
    fld "sysctl_tcp_plb_suspend_rto_sec" (CName "u8");
    fld "sysctl_tcp_plb_cong_thresh" (CInt IInt);
    fld "sysctl_udp_wmem_min" (CInt IInt);
    fld "sysctl_udp_rmem_min" (CInt IInt);
    fld "sysctl_fib_notify_on_flag_change" (CName "u8");
    fld "sysctl_tcp_syn_linear_timeouts" (CName "u8");
    fld "sysctl_udp_l3mdev_accept" (CName "u8");
    fld "sysctl_igmp_llm_reports" (CName "u8");
    fld "sysctl_igmp_max_memberships" (CInt IInt);
    fld "sysctl_igmp_max_msf" (CInt IInt);
    fld "sysctl_igmp_qrv" (CInt IInt);
    fld "ping_group_range" (CName "struct ping_group_range");
    fld "dev_addr_genid" (CName "atomic_t");
    fld "sysctl_udp_child_hash_entries" (CInt IUInt);
    fld "sysctl_local_reserved_ports" (CPtr (CInt IULong));
    fld "sysctl_ip_prot_sock" (CInt IInt);
    fld "mr_tables" (CName "struct list_head");
    fld "mr_rules_ops" (CPtr (CName "struct fib_rules_ops"));
    fld "sysctl_fib_multipath_hash_fields" (CName "u32");
    fld "sysctl_fib_multipath_use_neigh" (CName "u8");
    fld "sysctl_fib_multipath_hash_policy" (CName "u8");
    fld "notifier_ops" (CPtr (CName "struct fib_notifier_ops"));
    fld "fib_seq" (CInt IUInt);
    fld "ipmr_notifier_ops" (CPtr (CName "struct fib_notifier_ops"));
    fld "ipmr_seq" (CInt IUInt);
    fld "rt_genid" (CName "atomic_t");
    fld "ip_id_key" (CName "siphash_key_t");
    bit "" (CInt ILong) 64;
    bit "" (CInt ILong) 64;
    bit "" (CInt ILong) 64;
    bit "" (CInt ILong) 64].

Definition struct_netns_sysctl_ipv6 : decl :=
  DComp "struct netns_sysctl_ipv6" CStruct false [
    fld "hdr" (CPtr (CName "struct ctl_table_header"));
    fld "route_hdr" (CPtr (CName "struct ctl_table_header"));
    fld "icmp_hdr" (CPtr (CName "struct ctl_table_header"));
    fld "frags_hdr" (CPtr (CName "struct ctl_table_header"));
    fld "xfrm6_hdr" (CPtr (CName "struct ctl_table_header"));
    fld "flush_delay" (CInt IInt);
    fld "ip6_rt_max_size" (CInt IInt);
    fld "ip6_rt_gc_min_interval" (CInt IInt);
    fld "ip6_rt_gc_timeout" (CInt IInt);
    fld "ip6_rt_gc_interval" (CInt IInt);
    fld "ip6_rt_gc_elasticity" (CInt IInt);
    fld "ip6_rt_mtu_expires" (CInt IInt);
    fld "ip6_rt_min_advmss" (CInt IInt);
    fld "multipath_hash_fields" (CName "u32");
    fld "multipath_hash_policy" (CName "u8");
    fld "bindv6only" (CName "u8");
    fld "flowlabel_consistency" (CName "u8");
    fld "auto_flowlabels" (CName "u8");
    fld "icmpv6_time" (CInt IInt);
    fld "icmpv6_echo_ignore_all" (CName "u8");
    fld "icmpv6_echo_ignore_multicast" (CName "u8");
    fld "icmpv6_echo_ignore_anycast" (CName "u8");
    fld "icmpv6_ratemask" (CArr (CInt IULong) 4);
    fld "icmpv6_ratemask_ptr" (CPtr (CInt IULong));
    fld "anycast_src_echo_reply" (CName "u8");
    fld "ip_nonlocal_bind" (CName "u8");
    fld "fwmark_reflect" (CName "u8");
    fld "flowlabel_state_ranges" (CName "u8");
    fld "idgen_retries" (CInt IInt);
    fld "idgen_delay" (CInt IInt);
    fld "flowlabel_reflect" (CInt IInt);
    fld "max_dst_opts_cnt" (CInt IInt);
    fld "max_hbh_opts_cnt" (CInt IInt);
    fld "max_dst_opts_len" (CInt IInt);
    fld "max_hbh_opts_len" (CInt IInt);
    fld "seg6_flowlabel" (CInt IInt);
    fld "ioam6_id" (CName "u32");
    fld "ioam6_id_wide" (CName "u64");
    fld "skip_notify_on_dev_down" (CName "u8");
    fld "fib_notify_on_flag_change" (CName "u8");
    fld "icmpv6_error_anycast_as_unicast" (CName "u8")].

Definition struct_netns_ipv6 : decl :=
  DComp "struct netns_ipv6" CStruct false [
    fld "ip6_dst_ops" (CName "struct dst_ops");
    fld "sysctl" (CName "struct netns_sysctl_ipv6");
    fld "devconf_all" (CPtr (CName "struct ipv6_devconf"));
    fld "devconf_dflt" (CPtr (CName "struct ipv6_devconf"));
    fld "peers" (CPtr (CName "struct inet_peer_base"));
    fld "fqdir" (CPtr (CName "struct fqdir"));
    fld "fib6_null_entry" (CPtr (CName "struct fib6_info"));
    fld "ip6_null_entry" (CPtr (CName "struct rt6_info"));
    fld "rt6_stats" (CPtr (CName "struct rt6_statistics"));
    fld "ip6_fib_timer" (CName "struct timer_list");
    fld "fib_table_hash" (CPtr (CName "struct hlist_head"));
    fld "fib6_main_tbl" (CPtr (CName "struct fib6_table"));
    fld "fib6_walkers" (CName "struct list_head");
    fld "fib6_walker_lock" (CName "rwlock_t");
    fld "fib6_gc_lock" (CName "spinlock_t");
    fld "ip6_rt_gc_expire" (CName "atomic_t");
    fld "ip6_rt_last_gc" (CInt IULong);
    fld "flowlabel_has_excl" (CInt IUChar);
    fld "fib6_has_custom_rules" (CName "bool");
    fld "fib6_rules_require_fldissect" (CInt IUInt);
    fld "fib6_routes_require_src" (CInt IUInt);
    fld "ip6_prohibit_entry" (CPtr (CName "struct rt6_info"));
    fld "ip6_blk_hole_entry" (CPtr (CName "struct rt6_info"));
    fld "fib6_local_tbl" (CPtr (CName "struct fib6_table"));
    fld "fib6_rules_ops" (CPtr (CName "struct fib_rules_ops"));
    fld "ndisc_sk" (CPtr (CName "struct sock"));
    fld "tcp_sk" (CPtr (CName "struct sock"));
    fld "igmp_sk" (CPtr (CName "struct sock"));
    fld "mc_autojoin_sk" (CPtr (CName "struct sock"));
    fld "inet6_addr_lst" (CPtr (CName "struct hlist_head"));
    fld "addrconf_hash_lock" (CName "spinlock_t");
    fld "addr_chk_work" (CName "struct delayed_work");
    fld "mr6_tables" (CName "struct list_head");
    fld "mr6_rules_ops" (CPtr (CName "struct fib_rules_ops"));
    fld "dev_addr_genid" (CName "atomic_t");
    fld "fib6_sernum" (CName "atomic_t");
    fld "seg6_data" (CPtr (CName "struct seg6_pernet_data"));
    fld "notifier_ops" (CPtr (CName "struct fib_notifier_ops"));
    fld "ip6mr_notifier_ops" (CPtr (CName "struct fib_notifier_ops"));
    fld "ipmr_seq" (CInt IUInt);
    fld "ip6addrlbl_table" (CComp CStruct false [
      fld "head" (CName "struct hlist_head");
      fld "lock" (CName "spinlock_t");
      fld "seq" (CName "u32")]);
    fld "ioam6_data" (CPtr (CName "struct ioam6_pernet_data"));
    bit "" (CInt ILong) 64;
    bit "" (CInt ILong) 64;
    bit "" (CInt ILong) 64;
    bit "" (CInt ILong) 64].

Definition struct_netns_sctp : decl :=
  DComp "struct netns_sctp" CStruct false [
    fld "sctp_statistics" (CPtr (CName "struct sctp_mib"));
    fld "proc_net_sctp" (CPtr (CName "struct proc_dir_entry"));
    fld "sysctl_header" (CPtr (CName "struct ctl_table_header"));
    fld "ctl_sock" (CPtr (CName "struct sock"));
    fld "udp4_sock" (CPtr (CName "struct sock"));
    fld "udp6_sock" (CPtr (CName "struct sock"));
    fld "udp_port" (CInt IInt);
    fld "encap_port" (CInt IInt);
    fld "local_addr_list" (CName "struct list_head");
    fld "addr_waitq" (CName "struct list_head");
    fld "addr_wq_timer" (CName "struct timer_list");
    fld "auto_asconf_splist" (CName "struct list_head");
    fld "addr_wq_lock" (CName "spinlock_t");
    fld "local_addr_lock" (CName "spinlock_t");
    fld "rto_initial" (CInt IUInt);
    fld "rto_min" (CInt IUInt);
    fld "rto_max" (CInt IUInt);
    fld "rto_alpha" (CInt IInt);
    fld "rto_beta" (CInt IInt);
    fld "max_burst" (CInt IInt);
    fld "cookie_preserve_enable" (CInt IInt);
    fld "sctp_hmac_alg" (CPtr (CInt IChar));
    fld "valid_cookie_life" (CInt IUInt);
    fld "sack_timeout" (CInt IUInt);
    fld "hb_interval" (CInt IUInt);
    fld "probe_interval" (CInt IUInt);
    fld "max_retrans_association" (CInt IInt);
    fld "max_retrans_path" (CInt IInt);
    fld "max_retrans_init" (CInt IInt);
    fld "pf_retrans" (CInt IInt);
    fld "ps_retrans" (CInt IInt);
    fld "pf_enable" (CInt IInt);
    fld "pf_expose" (CInt IInt);
    fld "sndbuf_policy" (CInt IInt);
    fld "rcvbuf_policy" (CInt IInt);
    fld "default_auto_asconf" (CInt IInt);
    fld "addip_enable" (CInt IInt);
    fld "addip_noauth" (CInt IInt);
    fld "prsctp_enable" (CInt IInt);
    fld "reconf_enable" (CInt IInt);
    fld "auth_enable" (CInt IInt);
    fld "intl_enable" (CInt IInt);
    fld "ecn_enable" (CInt IInt);
    fld "scope_policy" (CInt IInt);
    fld "rwnd_upd_shift" (CInt IInt);
    fld "max_autoclose" (CInt IULong);
    fld "l3mdev_accept" (CInt IInt)].

Definition struct_netns_nf : decl :=
  DComp "struct netns_nf" CStruct false [
    fld "proc_netfilter" (CPtr (CName "struct proc_dir_entry"));
    fld "nf_loggers" (CArr (CPtr (CName "struct nf_logger")) 11);
    fld "nf_log_dir_header" (CPtr (CName "struct ctl_table_header"));
    fld "hooks_ipv4" (CArr (CPtr (CName "struct nf_hook_entries")) 5);
    fld "hooks_ipv6" (CArr (CPtr (CName "struct nf_hook_entries")) 5);
    fld "hooks_arp" (CArr (CPtr (CName "struct nf_hook_entries")) 3);
    fld "hooks_bridge" (CArr (CPtr (CName "struct nf_hook_entries")) 5);
    fld "defrag_ipv4_users" (CInt IUInt);
    fld "defrag_ipv6_users" (CInt IUInt)].

Definition struct_nf_generic_net : decl :=
  DComp "struct nf_generic_net" CStruct false [
    fld "timeout" (CInt IUInt)].

Definition struct_nf_tcp_net : decl :=
  DComp "struct nf_tcp_net" CStruct false [
    fld "timeouts" (CArr (CInt IUInt) 14);
    fld "tcp_loose" (CName "u8");
    fld "tcp_be_liberal" (CName "u8");
    fld "tcp_max_retrans" (CName "u8");
    fld "tcp_ignore_invalid_rst" (CName "u8")].

Definition struct_nf_udp_net : decl :=
  DComp "struct nf_udp_net" CStruct false [
    fld "timeouts" (CArr (CInt IUInt) 2)].

Definition struct_nf_icmp_net : decl :=
  DComp "struct nf_icmp_net" CStruct false [
    fld "timeout" (CInt IUInt)].

Definition struct_nf_dccp_net : decl :=
  DComp "struct nf_dccp_net" CStruct false [
    fld "dccp_loose" (CName "u8");
    fld "dccp_timeout" (CArr (CInt IUInt) 10)].

Definition struct_nf_sctp_net : decl :=
  DComp "struct nf_sctp_net" CStruct false [
    fld "timeouts" (CArr (CInt IUInt) 10)].

Definition struct_nf_gre_net : decl :=
  DComp "struct nf_gre_net" CStruct false [
    fld "keymap_list" (CName "struct list_head");
    fld "timeouts" (CArr (CInt IUInt) 2)].

Definition struct_nf_ip_net : decl :=
  DComp "struct nf_ip_net" CStruct false [
    fld "generic" (CName "struct nf_generic_net");
    fld "tcp" (CName "struct nf_tcp_net");
    fld "udp" (CName "struct nf_udp_net");
    fld "icmp" (CName "struct nf_icmp_net");
    fld "icmpv6" (CName "struct nf_icmp_net");
    fld "dccp" (CName "struct nf_dccp_net");
    fld "sctp" (CName "struct nf_sctp_net");
    fld "gre" (CName "struct nf_gre_net")].

Definition struct_netns_ct : decl :=
  DComp "struct netns_ct" CStruct false [
    fld "ecache_dwork_pending" (CName "bool");
    fld "sysctl_log_invalid" (CName "u8");
    fld "sysctl_events" (CName "u8");
    fld "sysctl_acct" (CName "u8");
    fld "sysctl_tstamp" (CName "u8");
    fld "sysctl_checksum" (CName "u8");
    fld "stat" (CPtr (CName "struct ip_conntrack_stat"));
    fld "nf_conntrack_event_cb" (CPtr (CName "struct nf_ct_event_notifier"));
    fld "nf_ct_proto" (CName "struct nf_ip_net");
    fld "labels_used" (CInt IUInt)].

Definition struct_netns_nftables : decl :=
  DComp "struct netns_nftables" CStruct false [
    fld "gencursor" (CName "u8")].

Definition struct_netns_bpf : decl :=
  DComp "struct netns_bpf" CStruct false [
    fld "run_array" (CArr (CPtr (CName "struct bpf_prog_array")) 2);
    fld "progs" (CArr (CPtr (CName "struct bpf_prog")) 2);
    fld "links" (CArr (CName "struct list_head") 2)].

Definition struct_xfrm_policy_hash : decl :=
  DComp "struct xfrm_policy_hash" CStruct false [
    fld "table" (CPtr (CName "struct hlist_head"));
    fld "hmask" (CInt IUInt);
    fld "dbits4" (CName "u8");
    fld "sbits4" (CName "u8");
    fld "dbits6" (CName "u8");
    fld "sbits6" (CName "u8")].

Definition struct_xfrm_policy_hthresh : decl :=
  DComp "struct xfrm_policy_hthresh" CStruct false [
    fld "work" (CName "struct work_struct");
    fld "lock" (CName "seqlock_t");
    fld "lbits4" (CName "u8");
    fld "rbits4" (CName "u8");
    fld "lbits6" (CName "u8");
    fld "rbits6" (CName "u8")].

Definition struct_netns_xfrm : decl :=
  DComp "struct netns_xfrm" CStruct false [
    fld "state_all" (CName "struct list_head");
    fld "state_bydst" (CPtr (CName "struct hlist_head"));
    fld "state_bysrc" (CPtr (CName "struct hlist_head"));
    fld "state_byspi" (CPtr (CName "struct hlist_head"));
    fld "state_byseq" (CPtr (CName "struct hlist_head"));
    fld "state_hmask" (CInt IUInt);
    fld "state_num" (CInt IUInt);
    fld "state_hash_work" (CName "struct work_struct");
    fld "policy_all" (CName "struct list_head");
    fld "policy_byidx" (CPtr (CName "struct hlist_head"));
    fld "policy_idx_hmask" (CInt IUInt);
    fld "idx_generator" (CInt IUInt);
    fld "policy_inexact" (CArr (CName "struct hlist_head") 3);
    fld "policy_bydst" (CArr (CName "struct xfrm_policy_hash") 3);
    fld "policy_count" (CArr (CInt IUInt) 6);
    fld "policy_hash_work" (CName "struct work_struct");
    fld "policy_hthresh" (CName "struct xfrm_policy_hthresh");
    fld "inexact_bins" (CName "struct list_head");
    fld "nlsk" (CPtr (CName "struct sock"));
    fld "nlsk_stash" (CPtr (CName "struct sock"));
    fld "sysctl_aevent_etime" (CName "u32");
    fld "sysctl_aevent_rseqth" (CName "u32");
    fld "sysctl_larval_drop" (CInt IInt);
    fld "sysctl_acq_expires" (CName "u32");
    fld "policy_default" (CArr (CName "u8") 3);
    fld "sysctl_hdr" (CPtr (CName "struct ctl_table_header"));
    bit "" (CInt ILong) 64;
    bit "" (CInt ILong) 64;
    bit "" (CInt ILong) 64;
    fld "xfrm4_dst_ops" (CName "struct dst_ops");
    fld "xfrm6_dst_ops" (CName "struct dst_ops");
    fld "xfrm_state_lock" (CName "spinlock_t");
    fld "xfrm_state_hash_generation" (CName "seqcount_spinlock_t");
    fld "xfrm_policy_hash_generation" (CName "seqcount_spinlock_t");
    fld "xfrm_policy_lock" (CName "spinlock_t");
    fld "xfrm_cfg_mutex" (CName "struct mutex");
    bit "" (CInt ILong) 64;
    bit "" (CInt ILong) 64].

Definition struct_netns_mpls : decl :=
  DComp "struct netns_mpls" CStruct false [
    fld "ip_ttl_propagate" (CInt IInt);
    fld "default_ttl" (CInt IInt);
    fld "platform_labels" (CName "size_t");
    fld "platform_label" (CPtr (CPtr (CName "struct mpls_route")));
    fld "ctl" (CPtr (CName "struct ctl_table_header"))].

Definition struct_netns_can : decl :=
  DComp "struct netns_can" CStruct false [
    fld "proc_dir" (CPtr (CName "struct proc_dir_entry"));
    fld "pde_stats" (CPtr (CName "struct proc_dir_entry"));
    fld "pde_reset_stats" (CPtr (CName "struct proc_dir_entry"));
    fld "pde_rcvlist_all" (CPtr (CName "struct proc_dir_entry"));
    fld "pde_rcvlist_fil" (CPtr (CName "struct proc_dir_entry"));
    fld "pde_rcvlist_inv" (CPtr (CName "struct proc_dir_entry"));
    fld "pde_rcvlist_sff" (CPtr (CName "struct proc_dir_entry"));
    fld "pde_rcvlist_eff" (CPtr (CName "struct proc_dir_entry"));
    fld "pde_rcvlist_err" (CPtr (CName "struct proc_dir_entry"));
    fld "bcmproc_dir" (CPtr (CName "struct proc_dir_entry"));
    fld "rx_alldev_list" (CPtr (CName "struct can_dev_rcv_lists"));
    fld "rcvlists_lock" (CName "spinlock_t");
    fld "stattimer" (CName "struct timer_list");
    fld "pkg_stats" (CPtr (CName "struct can_pkg_stats"));
    fld "rcv_lists_stats" (CPtr (CName "struct can_rcv_lists_stats"));
    fld "cgw_list" (CName "struct hlist_head")].

Definition struct_netns_xdp : decl :=
  DComp "struct netns_xdp" CStruct false [
    fld "lock" (CName "struct mutex");
    fld "list" (CName "struct hlist_head")].

Definition struct_netns_smc : decl :=
  DComp "struct netns_smc" CStruct false [
    fld "smc_stats" (CPtr (CName "struct smc_stats"));
    fld "mutex_fback_rsn" (CName "struct mutex");
    fld "fback_rsn" (CPtr (CName "struct smc_stats_rsn"));
    fld "limit_smc_hs" (CName "bool");
    fld "smc_hdr" (CPtr (CName "struct ctl_table_header"));
    fld "sysctl_autocorking_size" (CInt IUInt);
    fld "sysctl_smcr_buf_type" (CInt IUInt);
    fld "sysctl_smcr_testlink_time" (CInt IInt);
    fld "sysctl_wmem" (CInt IInt);
    fld "sysctl_rmem" (CInt IInt)].

Definition struct_net : decl :=
  DComp "struct net" CStruct false [
    fld "passive" (CName "refcount_t");
    fld "rules_mod_lock" (CName "spinlock_t");
    fld "dev_unreg_count" (CName "atomic_t");
    fld "dev_base_seq" (CInt IUInt);
    fld "ifindex" (CName "u32");
    fld "nsid_lock" (CName "spinlock_t");
    fld "fnhe_genid" (CName "atomic_t");
    fld "list" (CName "struct list_head");
    fld "exit_list" (CName "struct list_head");
    fld "defer_free_list" (CName "struct llist_node");
    fld "cleanup_list" (CName "struct llist_node");
    fld "key_domain" (CPtr (CName "struct key_tag"));
    fld "user_ns" (CPtr (CName "struct user_namespace"));
    fld "ucounts" (CPtr (CName "struct ucounts"));
    fld "netns_ids" (CName "struct idr");
    fld "ns" (CName "struct ns_common");
    fld "refcnt_tracker" (CName "struct ref_tracker_dir");
    fld "notrefcnt_tracker" (CName "struct ref_tracker_dir");
    fld "dev_base_head" (CName "struct list_head");
    fld "proc_net" (CPtr (CName "struct proc_dir_entry"));
    fld "proc_net_stat" (CPtr (CName "struct proc_dir_entry"));
    fld "sysctls" (CName "struct ctl_table_set");
    fld "rtnl" (CPtr (CName "struct sock"));
    fld "genl_sock" (CPtr (CName "struct sock"));
    fld "uevent_sock" (CPtr (CName "struct uevent_sock"));
    fld "dev_name_head" (CPtr (CName "struct hlist_head"));
    fld "dev_index_head" (CPtr (CName "struct hlist_head"));
    fld "dev_by_index" (CName "struct xarray");
    fld "netdev_chain" (CName "struct raw_notifier_head");
    fld "hash_mix" (CName "u32");
    fld "loopback_dev" (CPtr (CName "struct net_device"));
    fld "rules_ops" (CName "struct list_head");
    fld "core" (CName "struct netns_core");
    fld "mib" (CName "struct netns_mib");
    fld "packet" (CName "struct netns_packet");
    fld "unx" (CName "struct netns_unix");
    fld "nexthop" (CName "struct netns_nexthop");
    bit "" (CInt ILong) 64;
    bit "" (CInt ILong) 64;
    bit "" (CInt ILong) 64;
    bit "" (CInt ILong) 64;
    fld "ipv4" (CName "struct netns_ipv4");
    fld "ipv6" (CName "struct netns_ipv6");
    fld "sctp" (CName "struct netns_sctp");
    fld "nf" (CName "struct netns_nf");
    fld "ct" (CName "struct netns_ct");
    fld "nft" (CName "struct netns_nftables");
    fld "wext_nlevents" (CName "struct sk_buff_head");
    fld "gen" (CPtr (CName "struct net_generic"));
    fld "bpf" (CName "struct netns_bpf");
    bit "" (CInt ILong) 64;
    fld "xfrm" (CName "struct netns_xfrm");
    fld "net_cookie" (CName "u64");
    fld "ipvs" (CPtr (CName "struct netns_ipvs"));
    fld "mpls" (CName "struct netns_mpls");
    fld "can" (CName "struct netns_can");
    fld "xdp" (CName "struct netns_xdp");
    fld "crypto_nlsk" (CPtr (CName "struct sock"));
    fld "diag_nlsk" (CPtr (CName "struct sock"));
    fld "smc" (CName "struct netns_smc");
    bit "" (CInt ILong) 64;
    bit "" (CInt ILong) 64;
    bit "" (CInt ILong) 64;
    bit "" (CInt ILong) 64].

Definition struct_net_device_stats : decl :=
  DComp "struct net_device_stats" CStruct false [
    fld "" (CComp CUnion false [
      fld "rx_packets" (CInt IULong);
      fld "__rx_packets" (CName "atomic_long_t")]);
    fld "" (CComp CUnion false [
      fld "tx_packets" (CInt IULong);
      fld "__tx_packets" (CName "atomic_long_t")]);
    fld "" (CComp CUnion false [
      fld "rx_bytes" (CInt IULong);
      fld "__rx_bytes" (CName "atomic_long_t")]);
    fld "" (CComp CUnion false [
      fld "tx_bytes" (CInt IULong);
      fld "__tx_bytes" (CName "atomic_long_t")]);
    fld "" (CComp CUnion false [
      fld "rx_errors" (CInt IULong);
      fld "__rx_errors" (CName "atomic_long_t")]);
    fld "" (CComp CUnion false [
      fld "tx_errors" (CInt IULong);
      fld "__tx_errors" (CName "atomic_long_t")]);
    fld "" (CComp CUnion false [
      fld "rx_dropped" (CInt IULong);
      fld "__rx_dropped" (CName "atomic_long_t")]);
    fld "" (CComp CUnion false [
      fld "tx_dropped" (CInt IULong);
      fld "__tx_dropped" (CName "atomic_long_t")]);
    fld "" (CComp CUnion false [
      fld "multicast" (CInt IULong);
      fld "__multicast" (CName "atomic_long_t")]);
    fld "" (CComp CUnion false [
      fld "collisions" (CInt IULong);
      fld "__collisions" (CName "atomic_long_t")]);
    fld "" (CComp CUnion false [
      fld "rx_length_errors" (CInt IULong);
      fld "__rx_length_errors" (CName "atomic_long_t")]);
    fld "" (CComp CUnion false [
      fld "rx_over_errors" (CInt IULong);
      fld "__rx_over_errors" (CName "atomic_long_t")]);
    fld "" (CComp CUnion false [
      fld "rx_crc_errors" (CInt IULong);
      fld "__rx_crc_errors" (CName "atomic_long_t")]);
    fld "" (CComp CUnion false [
      fld "rx_frame_errors" (CInt IULong);
      fld "__rx_frame_errors" (CName "atomic_long_t")]);
    fld "" (CComp CUnion false [
      fld "rx_fifo_errors" (CInt IULong);
      fld "__rx_fifo_errors" (CName "atomic_long_t")]);
    fld "" (CComp CUnion false [
      fld "rx_missed_errors" (CInt IULong);
      fld "__rx_missed_errors" (CName "atomic_long_t")]);
    fld "" (CComp CUnion false [
      fld "tx_aborted_errors" (CInt IULong);
      fld "__tx_aborted_errors" (CName "atomic_long_t")]);
    fld "" (CComp CUnion false [
      fld "tx_carrier_errors" (CInt IULong);
      fld "__tx_carrier_errors" (CName "atomic_long_t")]);
    fld "" (CComp CUnion false [
      fld "tx_fifo_errors" (CInt IULong);
      fld "__tx_fifo_errors" (CName "atomic_long_t")]);
    fld "" (CComp CUnion false [
      fld "tx_heartbeat_errors" (CInt IULong);
      fld "__tx_heartbeat_errors" (CName "atomic_long_t")]);
    fld "" (CComp CUnion false [
      fld "tx_window_errors" (CInt IULong);
      fld "__tx_window_errors" (CName "atomic_long_t")]);
    fld "" (CComp CUnion false [
      fld "rx_compressed" (CInt IULong);
      fld "__rx_compressed" (CName "atomic_long_t")]);
    fld "" (CComp CUnion false [
      fld "tx_compressed" (CInt IULong);
      fld "__tx_compressed" (CName "atomic_long_t")])].

Definition struct_netdev_hw_addr_list : decl :=
  DComp "struct netdev_hw_addr_list" CStruct false [
    fld "list" (CName "struct list_head");
    fld "count" (CInt IInt);
    fld "tree" (CName "struct rb_root")].

Definition struct_netdev_tc_txq : decl :=
  DComp "struct netdev_tc_txq" CStruct false [
    fld "count" (CName "u16");
    fld "offset" (CName "u16")].

Definition struct_net_device : decl :=
  DComp "struct net_device" CStruct false [
    fld "name" (CArr (CInt IChar) 16);
    fld "name_node" (CPtr (CName "struct netdev_name_node"));
    fld "ifalias" (CPtr (CName "struct dev_ifalias"));
    fld "mem_end" (CInt IULong);
    fld "mem_start" (CInt IULong);
    fld "base_addr" (CInt IULong);
    fld "state" (CInt IULong);
    fld "dev_list" (CName "struct list_head");
    fld "napi_list" (CName "struct list_head");
    fld "unreg_list" (CName "struct list_head");
    fld "close_list" (CName "struct list_head");
    fld "ptype_all" (CName "struct list_head");
    fld "ptype_specific" (CName "struct list_head");
    fld "adj_list" (CComp CStruct false [
      fld "upper" (CName "struct list_head");
      fld "lower" (CName "struct list_head")]);
    fld "flags" (CInt IUInt);
    fld "xdp_features" (CName "xdp_features_t");
    fld "priv_flags" (CInt IULLong);
    fld "netdev_ops" (CPtr (CName "struct net_device_ops"));
    fld "xdp_metadata_ops" (CPtr (CName "struct xdp_metadata_ops"));
    fld "ifindex" (CInt IInt);
    fld "gflags" (CInt IUShort);
    fld "hard_header_len" (CInt IUShort);
    fld "mtu" (CInt IUInt);
    fld "needed_headroom" (CInt IUShort);
    fld "needed_tailroom" (CInt IUShort);
    fld "features" (CName "netdev_features_t");
    fld "hw_features" (CName "netdev_features_t");
    fld "wanted_features" (CName "netdev_features_t");
    fld "vlan_features" (CName "netdev_features_t");
    fld "hw_enc_features" (CName "netdev_features_t");
    fld "mpls_features" (CName "netdev_features_t");
    fld "gso_partial_features" (CName "netdev_features_t");
    fld "min_mtu" (CInt IUInt);
    fld "max_mtu" (CInt IUInt);
    fld "type" (CInt IUShort);
    fld "min_header_len" (CInt IUChar);
    fld "name_assign_type" (CInt IUChar);
    fld "group" (CInt IInt);
    fld "stats" (CName "struct net_device_stats");
    fld "core_stats" (CPtr (CName "struct net_device_core_stats"));
    fld "carrier_up_count" (CName "atomic_t");
    fld "carrier_down_count" (CName "atomic_t");
    fld "ethtool_ops" (CPtr (CName "struct ethtool_ops"));
    fld "l3mdev_ops" (CPtr (CName "struct l3mdev_ops"));
    fld "ndisc_ops" (CPtr (CName "struct ndisc_ops"));
    fld "xfrmdev_ops" (CPtr (CName "struct xfrmdev_ops"));
    fld "header_ops" (CPtr (CName "struct header_ops"));
    fld "operstate" (CInt IUChar);
    fld "link_mode" (CInt IUChar);
    fld "if_port" (CInt IUChar);
    fld "dma" (CInt IUChar);
    fld "perm_addr" (CArr (CInt IUChar) 32);
    fld "addr_assign_type" (CInt IUChar);
    fld "addr_len" (CInt IUChar);
    fld "upper_level" (CInt IUChar);
    fld "lower_level" (CInt IUChar);
    fld "neigh_priv_len" (CInt IUShort);
    fld "dev_id" (CInt IUShort);
    fld "dev_port" (CInt IUShort);
    fld "padded" (CInt IUShort);
    fld "addr_list_lock" (CName "spinlock_t");
    fld "irq" (CInt IInt);
    fld "uc" (CName "struct netdev_hw_addr_list");
    fld "mc" (CName "struct netdev_hw_addr_list");
    fld "dev_addrs" (CName "struct netdev_hw_addr_list");
    fld "queues_kset" (CPtr (CName "struct kset"));
    fld "promiscuity" (CInt IUInt);
    fld "allmulti" (CInt IUInt);
    fld "uc_promisc" (CName "bool");
    fld "ip_ptr" (CPtr (CName "struct in_device"));
    fld "ip6_ptr" (CPtr (CName "struct inet6_dev"));
    fld "vlan_info" (CPtr (CName "struct vlan_info"));
    fld "ieee80211_ptr" (CPtr (CName "struct wireless_dev"));
    fld "dev_addr" (CPtr (CInt IUChar));
    fld "_rx" (CPtr (CName "struct netdev_rx_queue"));
    fld "num_rx_queues" (CInt IUInt);
    fld "real_num_rx_queues" (CInt IUInt);
    fld "xdp_prog" (CPtr (CName "struct bpf_prog"));
    fld "gro_flush_timeout" (CInt IULong);
    fld "napi_defer_hard_irqs" (CInt IInt);
    fld "gro_max_size" (CInt IUInt);
    fld "gro_ipv4_max_size" (CInt IUInt);
    fld "xdp_zc_max_segs" (CInt IUInt);
    fld "rx_handler" (CPtr (CName "rx_handler_func_t"));
    fld "rx_handler_data" (CPtr CVoid);
    fld "tcx_ingress" (CPtr (CName "struct bpf_mprog_entry"));
    fld "ingress_queue" (CPtr (CName "struct netdev_queue"));
    fld "nf_hooks_ingress" (CPtr (CName "struct nf_hook_entries"));
    fld "broadcast" (CArr (CInt IUChar) 32);
    fld "rx_cpu_rmap" (CPtr (CName "struct cpu_rmap"));
    fld "index_hlist" (CName "struct hlist_node");
    bit "" (CInt ILong) 64;
    bit "" (CInt ILong) 64;
    bit "" (CInt ILong) 64;
    bit "" (CInt ILong) 64;
    bit "" (CInt ILong) 64;
    bit "" (CInt ILong) 64;
    fld "_tx" (CPtr (CName "struct netdev_queue"));
    fld "num_tx_queues" (CInt IUInt);
    fld "real_num_tx_queues" (CInt IUInt);
    fld "qdisc" (CPtr (CName "struct Qdisc"));
    fld "tx_queue_len" (CInt IUInt);
    fld "tx_global_lock" (CName "spinlock_t");
    fld "xdp_bulkq" (CPtr (CName "struct xdp_dev_bulk_queue"));
    fld "xps_maps" (CArr (CPtr (CName "struct xps_dev_maps")) 2);
    fld "tcx_egress" (CPtr (CName "struct bpf_mprog_entry"));
    fld "nf_hooks_egress" (CPtr (CName "struct nf_hook_entries"));
    fld "qdisc_hash" (CArr (CName "struct hlist_head") 16);
    fld "watchdog_timer" (CName "struct timer_list");
    fld "watchdog_timeo" (CInt IInt);
    fld "proto_down_reason" (CName "u32");
    fld "todo_list" (CName "struct list_head");
    fld "pcpu_refcnt" (CPtr (CInt IInt));
    fld "refcnt_tracker" (CName "struct ref_tracker_dir");
    fld "link_watch_list" (CName "struct list_head");
    bit "reg_state" (CEnum [("NETREG_UNINITIALIZED", 0); ("NETREG_REGISTERED", 1); ("NETREG_UNREGISTERING", 2); ("NETREG_UNREGISTERED", 3); ("NETREG_RELEASED", 4); ("NETREG_DUMMY", 5)]) 8;
    fld "dismantle" (CName "bool");
    bit "rtnl_link_state" (CEnum [("RTNL_LINK_INITIALIZED", 0); ("RTNL_LINK_INITIALIZING", 1)]) 16;
    fld "needs_free_netdev" (CName "bool");
    fld "priv_destructor" (CPtr (CFun CVoid [CPtr (CName "struct net_device")]));
    fld "npinfo" (CPtr (CName "struct netpoll_info"));
    fld "nd_net" (CName "possible_net_t");
    fld "ml_priv" (CPtr CVoid);
    fld "ml_priv_type" (CName "enum netdev_ml_priv_type");
    bit "pcpu_stat_type" (CName "enum netdev_stat_type") 8;
    fld "" (CComp CUnion false [
      fld "lstats" (CPtr (CName "struct pcpu_lstats"));
      fld "tstats" (CPtr (CName "struct pcpu_sw_netstats"));
      fld "dstats" (CPtr (CName "struct pcpu_dstats"))]);
    fld "garp_port" (CPtr (CName "struct garp_port"));
    fld "mrp_port" (CPtr (CName "struct mrp_port"));
    fld "dm_private" (CPtr (CName "struct dm_hw_stat_delta"));
    fld "dev" (CName "struct device");
    fld "sysfs_groups" (CArr (CPtr (CName "struct attribute_group")) 4);
    fld "sysfs_rx_queue_group" (CPtr (CName "struct attribute_group"));
    fld "rtnl_link_ops" (CPtr (CName "struct rtnl_link_ops"));
    fld "gso_max_size" (CInt IUInt);
    fld "tso_max_size" (CInt IUInt);
    fld "gso_max_segs" (CName "u16");
    fld "tso_max_segs" (CName "u16");
    fld "gso_ipv4_max_size" (CInt IUInt);
    fld "dcbnl_ops" (CPtr (CName "struct dcbnl_rtnl_ops"));
    fld "num_tc" (CName "s16");
    fld "tc_to_txq" (CArr (CName "struct netdev_tc_txq") 16);
    fld "prio_tc_map" (CArr (CName "u8") 16);
    fld "fcoe_ddp_xid" (CInt IUInt);
    fld "priomap" (CPtr (CName "struct netprio_map"));
    fld "phydev" (CPtr (CName "struct phy_device"));
    fld "sfp_bus" (CPtr (CName "struct sfp_bus"));
    fld "qdisc_tx_busylock" (CPtr (CName "struct lock_class_key"));
    fld "proto_down" (CName "bool");
    bit "wol_enabled" (CInt IUInt) 1;
    bit "threaded" (CInt IUInt) 1;
    fld "net_notifier_list" (CName "struct list_head");
    fld "udp_tunnel_nic_info" (CPtr (CName "struct udp_tunnel_nic_info"));
    fld "udp_tunnel_nic" (CPtr (CName "struct udp_tunnel_nic"));
    fld "xdp_state" (CArr (CName "struct bpf_xdp_entity") 3);
    fld "dev_addr_shadow" (CArr (CName "u8") 32);
    fld "linkwatch_dev_tracker" (CName "netdevice_tracker");
    fld "watchdog_dev_tracker" (CName "netdevice_tracker");
    fld "dev_registered_tracker" (CName "netdevice_tracker");
    fld "offload_xstats_l3" (CPtr (CName "struct rtnl_hw_stats64"));
    fld "devlink_port" (CPtr (CName "struct devlink_port"));
    bit "" (CInt ILong) 64;
    bit "" (CInt ILong) 64;
    bit "" (CInt ILong) 64;
    bit "" (CInt ILong) 64;
    bit "" (CInt ILong) 64].

Definition struct_netdev_queue : decl :=
  DComp "struct netdev_queue" CStruct false [
    fld "dev" (CPtr (CName "struct net_device"));
    fld "dev_tracker" (CName "netdevice_tracker");
    fld "qdisc" (CPtr (CName "struct Qdisc"));
    fld "qdisc_sleeping" (CPtr (CName "struct Qdisc"));
    fld "kobj" (CName "struct kobject");
    fld "numa_node" (CInt IInt);
    fld "tx_maxrate" (CInt IULong);
    fld "trans_timeout" (CName "atomic_long_t");
    fld "sb_dev" (CPtr (CName "struct net_device"));
    fld "pool" (CPtr (CName "struct xsk_buff_pool"));
    fld "_xmit_lock" (CName "spinlock_t");
    fld "xmit_lock_owner" (CInt IInt);
    fld "trans_start" (CInt IULong);
    fld "state" (CInt IULong);
    bit "" (CInt ILong) 64;
    bit "" (CInt ILong) 64;
    bit "" (CInt ILong) 64;
    bit "" (CInt ILong) 64;
    bit "" (CInt ILong) 64;
    fld "dql" (CName "struct dql")].

(** The declarations of this file, in order. *)
Definition netns_decls : list decl := [
  enum_device_removable; enum_dl_dev_state; enum_netdev_ml_priv_type; enum_netdev_stat_type;
  enum_rpm_request; enum_rpm_status; typedef___kernel_dev_t; typedef_dev_t;
  typedef_xdp_features_t; typedef_siphash_key_t; struct_kref; struct_swait_queue_head;
  struct_completion; struct_kobject; struct_dev_links_info; struct_pm_message;
  typedef_pm_message_t; struct_dev_pm_info; struct_dev_msi_info; struct_dev_archdata;
  struct_device; struct_delayed_work; struct_xarray; struct_blocking_notifier_head;
  struct_bpf_xdp_entity; struct_ns_common; struct_idr; struct_ctl_table_header; struct_ctl_dir;
  struct_ctl_table_set; struct_dql; struct_gro_list; struct_napi_struct;
  struct_inet_timewait_death_row; struct_local_ports; struct_ref_tracker_dir;
  struct_raw_notifier_head; struct_netns_core; struct_netns_mib; struct_netns_packet;
  struct_unix_table; struct_netns_unix; struct_netns_nexthop; struct_ping_group_range;
  struct_netns_ipv4; struct_netns_sysctl_ipv6; struct_netns_ipv6; struct_netns_sctp;
  struct_netns_nf; struct_nf_generic_net; struct_nf_tcp_net; struct_nf_udp_net;
  struct_nf_icmp_net; struct_nf_dccp_net; struct_nf_sctp_net; struct_nf_gre_net;
  struct_nf_ip_net; struct_netns_ct; struct_netns_nftables; struct_netns_bpf;
  struct_xfrm_policy_hash; struct_xfrm_policy_hthresh; struct_netns_xfrm; struct_netns_mpls;
  struct_netns_can; struct_netns_xdp; struct_netns_smc; struct_net; struct_net_device_stats;
  struct_netdev_hw_addr_list; struct_netdev_tc_txq; struct_net_device; struct_netdev_queue].
