(* ===== verification/VmlinuxTask.v ===== *)
(** * Kernel types: the task, its credentials, memory and signals (the source
    of [bpf_get_current_pid_tgid] and [bpf_get_current_comm]) and the register
    file [struct pt_regs] the probes take their arguments from.

    Transcribed from [vmlinux.h], declaration by declaration, in an order in
    which the types a declaration holds by value come before it. *)

From S2P Require Import Prelude CLayout.

#[local] Open Scope string_scope.
#[local] Open Scope list_scope.
#[local] Open Scope Z_scope.

Definition enum_timespec_type : decl :=
  DEnum "enum timespec_type" false [
    ("TT_NONE", 0);
    ("TT_NATIVE", 1);
    ("TT_COMPAT", 2)].

Definition typedef___kernel_clockid_t : decl := DTypedef "__kernel_clockid_t" (CInt IInt).

Definition typedef___kernel_pid_t : decl := DTypedef "__kernel_pid_t" (CInt IInt).

Definition typedef_clockid_t : decl := DTypedef "clockid_t" (CName "__kernel_clockid_t").

Definition typedef_pid_t : decl := DTypedef "pid_t" (CName "__kernel_pid_t").

Definition typedef_kernel_cap_t : decl := DTypedef "kernel_cap_t" (CComp CStruct false [
      fld "val" (CName "u64")]).

Definition typedef_lockdep_map_p : decl := DTypedef "lockdep_map_p" (CComp CStruct false []).

Definition typedef_mm_context_t : decl := DTypedef "mm_context_t" (CComp CStruct false [
      fld "ctx_id" (CName "u64");
      fld "tlb_gen" (CName "atomic64_t");
      fld "next_trim_cpumask" (CInt IULong);
      fld "ldt_usr_sem" (CName "struct rw_semaphore");
      fld "ldt" (CPtr (CName "struct ldt_struct"));
      fld "flags" (CInt IULong);
      fld "lock" (CName "struct mutex");
      fld "vdso" (CPtr CVoid);
      fld "vdso_image" (CPtr (CName "struct vdso_image"));
      fld "perf_rdpmc_allowed" (CName "atomic_t");
      fld "pkey_allocation_map" (CName "u16");
      fld "execute_only_pkey" (CName "s16")]).

Definition typedef_nodemask_t : decl := DTypedef "nodemask_t" (CComp CStruct false [
      fld "bits" (CArr (CInt IULong) 16)]).

Definition typedef_sigset_t : decl := DTypedef "sigset_t" (CComp CStruct false [
      fld "sig" (CArr (CInt IULong) 1)]).

Definition struct_rlimit : decl :=
  DComp "struct rlimit" CStruct false [
    fld "rlim_cur" (CName "__kernel_ulong_t");
    fld "rlim_max" (CName "__kernel_ulong_t")].

Definition struct_plist_node : decl :=
  DComp "struct plist_node" CStruct false [
    fld "prio" (CInt IInt);
    fld "prio_list" (CName "struct list_head");
    fld "node_list" (CName "struct list_head")].

Definition struct_rb_root_cached : decl :=
  DComp "struct rb_root_cached" CStruct false [
    fld "rb_root" (CName "struct rb_root");
    fld "rb_leftmost" (CPtr (CName "struct rb_node"))].

Definition struct_timerqueue_head : decl :=
  DComp "struct timerqueue_head" CStruct false [
    fld "rb_root" (CName "struct rb_root_cached")].

Definition struct_llist_head : decl :=
  DComp "struct llist_head" CStruct false [
    fld "first" (CPtr (CName "struct llist_node"))].

Definition struct_cpumask : decl :=
  DComp "struct cpumask" CStruct false [
    fld "bits" (CArr (CInt IULong) 128)].

Definition typedef_cpumask_t : decl := DTypedef "cpumask_t" (CName "struct cpumask").

Definition struct_arch_tlbflush_unmap_batch : decl :=
  DComp "struct arch_tlbflush_unmap_batch" CStruct false [
    fld "cpumask" (CName "struct cpumask")].

Definition struct_fred_cs : decl :=
  DComp "struct fred_cs" CStruct false [
    bit "cs" (CName "u64") 16;
    bit "sl" (CName "u64") 2;
    bit "wfe" (CName "u64") 1].

Definition struct_fred_ss : decl :=
  DComp "struct fred_ss" CStruct false [
    bit "ss" (CName "u64") 16;
    bit "sti" (CName "u64") 1;
    bit "swevent" (CName "u64") 1;
    bit "nmi" (CName "u64") 1;
    bit "" (CInt IInt) 13;
    bit "vector" (CName "u64") 8;
    bit "" (CInt IShort) 8;
    bit "type" (CName "u64") 4;
    bit "" (CInt IChar) 4;
    bit "enclave" (CName "u64") 1;
    bit "lm" (CName "u64") 1;
    bit "nested" (CName "u64") 1;
    bit "" (CInt IChar) 1;
    bit "insnlen" (CName "u64") 4].

Definition struct_pt_regs : decl :=
  DComp "struct pt_regs" CStruct false [
    fld "r15" (CInt IULong);
    fld "r14" (CInt IULong);
    fld "r13" (CInt IULong);
    fld "r12" (CInt IULong);
    fld "bp" (CInt IULong);
    fld "bx" (CInt IULong);
    fld "r11" (CInt IULong);
    fld "r10" (CInt IULong);
    fld "r9" (CInt IULong);
    fld "r8" (CInt IULong);
    fld "ax" (CInt IULong);
    fld "cx" (CInt IULong);
    fld "dx" (CInt IULong);
    fld "si" (CInt IULong);
    fld "di" (CInt IULong);
    fld "orig_ax" (CInt IULong);
    fld "ip" (CInt IULong);
    fld "" (CComp CUnion false [
      fld "cs" (CName "u16");
      fld "csx" (CName "u64");
      fld "fred_cs" (CName "struct fred_cs")]);
    fld "flags" (CInt IULong);
    fld "sp" (CInt IULong);
    fld "" (CComp CUnion false [
      fld "ss" (CName "u16");
      fld "ssx" (CName "u64");
      fld "fred_ss" (CName "struct fred_ss")])].

Definition struct_load_weight : decl :=
  DComp "struct load_weight" CStruct false [
    fld "weight" (CInt IULong);
    fld "inv_weight" (CName "u32")].

Definition struct_util_est : decl :=
  DComp "struct util_est" CStruct false [
    fld "enqueued" (CInt IUInt);
    fld "ewma" (CInt IUInt)].

Definition struct_sched_avg : decl :=
  DComp "struct sched_avg" CStruct false [
    fld "last_update_time" (CName "u64");
    fld "load_sum" (CName "u64");
    fld "runnable_sum" (CName "u64");
    fld "util_sum" (CName "u32");
    fld "period_contrib" (CName "u32");
    fld "load_avg" (CInt IULong);
    fld "runnable_avg" (CInt IULong);
    fld "util_avg" (CInt IULong);
    fld "util_est" (CName "struct util_est")].

Definition struct_prev_cputime : decl :=
  DComp "struct prev_cputime" CStruct false [
    fld "utime" (CName "u64");
    fld "stime" (CName "u64");
    fld "lock" (CName "raw_spinlock_t")].

Definition struct_cpu_itimer : decl :=
  DComp "struct cpu_itimer" CStruct false [
    fld "expires" (CName "u64");
    fld "incr" (CName "u64")].

Definition struct_cred : decl :=
  DComp "struct cred" CStruct false [
    fld "usage" (CName "atomic_long_t");
    fld "uid" (CName "kuid_t");
    fld "gid" (CName "kgid_t");
    fld "suid" (CName "kuid_t");
    fld "sgid" (CName "kgid_t");
    fld "euid" (CName "kuid_t");
    fld "egid" (CName "kgid_t");
    fld "fsuid" (CName "kuid_t");
    fld "fsgid" (CName "kgid_t");
    fld "securebits" (CInt IUInt);
    fld "cap_inheritable" (CName "kernel_cap_t");
    fld "cap_permitted" (CName "kernel_cap_t");
    fld "cap_effective" (CName "kernel_cap_t");
    fld "cap_bset" (CName "kernel_cap_t");
    fld "cap_ambient" (CName "kernel_cap_t");
    fld "jit_keyring" (CInt IUChar);
    fld "session_keyring" (CPtr (CName "struct key"));
    fld "process_keyring" (CPtr (CName "struct key"));
    fld "thread_keyring" (CPtr (CName "struct key"));
    fld "request_key_auth" (CPtr (CName "struct key"));
    fld "security" (CPtr CVoid);
    fld "user" (CPtr (CName "struct user_struct"));
    fld "user_ns" (CPtr (CName "struct user_namespace"));
    fld "ucounts" (CPtr (CName "struct ucounts"));
    fld "group_info" (CPtr (CName "struct group_info"));
    fld "" (CComp CUnion false [
      fld "non_rcu" (CInt IInt);
      fld "rcu" (CName "struct callback_head")])].

Definition struct_desc_struct : decl :=
  DComp "struct desc_struct" CStruct false [
    fld "limit0" (CName "u16");
    fld "base0" (CName "u16");
    bit "base1" (CName "u16") 8;
    bit "type" (CName "u16") 4;
    bit "s" (CName "u16") 1;
    bit "dpl" (CName "u16") 2;
    bit "p" (CName "u16") 1;
    bit "limit1" (CName "u16") 4;
    bit "avl" (CName "u16") 1;
    bit "l" (CName "u16") 1;
    bit "d" (CName "u16") 1;
    bit "g" (CName "u16") 1;
    bit "base2" (CName "u16") 8].

Definition struct_ratelimit_state : decl :=
  DComp "struct ratelimit_state" CStruct false [
    fld "lock" (CName "raw_spinlock_t");
    fld "interval" (CInt IInt);
    fld "burst" (CInt IInt);
    fld "printed" (CInt IInt);
    fld "missed" (CInt IInt);
    fld "begin" (CInt IULong);
    fld "flags" (CInt IULong)].

Definition struct_fdtable : decl :=
  DComp "struct fdtable" CStruct false [
    fld "max_fds" (CInt IUInt);
    fld "fd" (CPtr (CPtr (CName "struct file")));
    fld "close_on_exec" (CPtr (CInt IULong));
    fld "open_fds" (CPtr (CInt IULong));
    fld "full_fds_bits" (CPtr (CInt IULong));
    fld "rcu" (CName "struct callback_head")].

Definition struct_files_struct : decl :=
  DComp "struct files_struct" CStruct false [
    fld "count" (CName "atomic_t");
    fld "resize_in_progress" (CName "bool");
    fld "resize_wait" (CName "wait_queue_head_t");
    fld "fdt" (CPtr (CName "struct fdtable"));
    fld "fdtab" (CName "struct fdtable");
    bit "" (CInt ILong) 64;
    bit "" (CInt ILong) 64;
    bit "" (CInt ILong) 64;
    bit "" (CInt ILong) 64;
    fld "file_lock" (CName "spinlock_t");
    fld "next_fd" (CInt IUInt);
    fld "close_on_exec_init" (CArr (CInt IULong) 1);
    fld "open_fds_init" (CArr (CInt IULong) 1);
    fld "full_fds_bits_init" (CArr (CInt IULong) 1);
    fld "fd_array" (CArr (CPtr (CName "struct file")) 64);
    bit "" (CInt ILong) 64;
    bit "" (CInt ILong) 64;
    bit "" (CInt ILong) 64;
    bit "" (CInt ILong) 64].

Definition struct_fregs_state : decl :=
  DComp "struct fregs_state" CStruct false [
    fld "cwd" (CName "u32");
    fld "swd" (CName "u32");
    fld "twd" (CName "u32");
    fld "fip" (CName "u32");
    fld "fcs" (CName "u32");
    fld "foo" (CName "u32");
    fld "fos" (CName "u32");
    fld "st_space" (CArr (CName "u32") 20);
    fld "status" (CName "u32")].

Definition struct_fxregs_state : decl :=
  DComp "struct fxregs_state" CStruct false [
    fld "cwd" (CName "u16");
    fld "swd" (CName "u16");
    fld "twd" (CName "u16");
    fld "fop" (CName "u16");
    fld "" (CComp CUnion false [
      fld "" (CComp CStruct false [
        fld "rip" (CName "u64");
        fld "rdp" (CName "u64")]);
      fld "" (CComp CStruct false [
        fld "fip" (CName "u32");
        fld "fcs" (CName "u32");
        fld "foo" (CName "u32");
        fld "fos" (CName "u32")])]);
    fld "mxcsr" (CName "u32");
    fld "mxcsr_mask" (CName "u32");
    fld "st_space" (CArr (CName "u32") 32);
    fld "xmm_space" (CArr (CName "u32") 64);
    fld "padding" (CArr (CName "u32") 12);
    fld "" (CComp CUnion false [
      fld "padding1" (CArr (CName "u32") 12);
      fld "sw_reserved" (CArr (CName "u32") 12)])].

Definition struct_swregs_state : decl :=
  DComp "struct swregs_state" CStruct false [
    fld "cwd" (CName "u32");
    fld "swd" (CName "u32");
    fld "twd" (CName "u32");
    fld "fip" (CName "u32");
    fld "fcs" (CName "u32");
    fld "foo" (CName "u32");
    fld "fos" (CName "u32");
    fld "st_space" (CArr (CName "u32") 20);
    fld "ftop" (CName "u8");
    fld "changed" (CName "u8");
    fld "lookahead" (CName "u8");
    fld "no_update" (CName "u8");
    fld "rm" (CName "u8");
    fld "alimit" (CName "u8");
    fld "info" (CPtr (CName "struct math_emu_info"));
    fld "entry_eip" (CName "u32")].

Definition struct_xstate_header : decl :=
  DComp "struct xstate_header" CStruct false [
    fld "xfeatures" (CName "u64");
    fld "xcomp_bv" (CName "u64");
    fld "reserved" (CArr (CName "u64") 6)].

Definition struct_xregs_state : decl :=
  DComp "struct xregs_state" CStruct false [
    fld "i387" (CName "struct fxregs_state");
    fld "header" (CName "struct xstate_header");
    fld "extended_state_area" (CArr (CName "u8") 0)].

Definition union_fpregs_state : decl :=
  DComp "union fpregs_state" CUnion false [
    fld "fsave" (CName "struct fregs_state");
    fld "fxsave" (CName "struct fxregs_state");
    fld "soft" (CName "struct swregs_state");
    fld "xsave" (CName "struct xregs_state");
    fld "__padding" (CArr (CName "u8") 4096)].

Definition struct_fpstate : decl :=
  DComp "struct fpstate" CStruct false [
    fld "size" (CInt IUInt);
    fld "user_size" (CInt IUInt);
    fld "xfeatures" (CName "u64");
    fld "user_xfeatures" (CName "u64");
    fld "xfd" (CName "u64");
    bit "is_valloc" (CInt IUInt) 1;
    bit "is_guest" (CInt IUInt) 1;
    bit "is_confidential" (CInt IUInt) 1;
    bit "in_use" (CInt IUInt) 1;
    bit "" (CInt ILong) 64;
    bit "" (CInt ILong) 64;
    bit "" (CInt ILong) 64;
    fld "regs" (CName "union fpregs_state")].

Definition struct_fpu_state_perm : decl :=
  DComp "struct fpu_state_perm" CStruct false [
    fld "__state_perm" (CName "u64");
    fld "__state_size" (CInt IUInt);
    fld "__user_state_size" (CInt IUInt)].

Definition struct_fpu : decl :=
  DComp "struct fpu" CStruct false [
    fld "last_cpu" (CInt IUInt);
    fld "avx512_timestamp" (CInt IULong);
    fld "fpstate" (CPtr (CName "struct fpstate"));
    fld "__task_fpstate" (CPtr (CName "struct fpstate"));
    fld "perm" (CName "struct fpu_state_perm");
    fld "guest_perm" (CName "struct fpu_state_perm");
    fld "__fpstate" (CName "struct fpstate")].

Definition struct_kmap_ctrl : decl :=
  DComp "struct kmap_ctrl" CStruct false [].

Definition struct_latency_record : decl :=
  DComp "struct latency_record" CStruct false [
    fld "backtrace" (CArr (CInt IULong) 12);
    fld "count" (CInt IUInt);
    fld "time" (CInt IULong);
    fld "max" (CInt IULong)].

Definition struct_maple_tree : decl :=
  DComp "struct maple_tree" CStruct false [
    fld "" (CComp CUnion false [
      fld "ma_lock" (CName "spinlock_t");
      fld "ma_external_lock" (CName "lockdep_map_p")]);
    fld "ma_flags" (CInt IUInt);
    fld "ma_root" (CPtr CVoid)].

Definition struct_uprobes_state : decl :=
  DComp "struct uprobes_state" CStruct false [
    fld "xol_area" (CPtr (CName "struct xol_area"))].

Definition struct_mm_struct : decl :=
  DComp "struct mm_struct" CStruct false [
    fld "" (CComp CStruct false [
      fld "" (CComp CStruct false [
        fld "mm_count" (CName "atomic_t");
        bit "" (CInt ILong) 64;
        bit "" (CInt ILong) 64;
        bit "" (CInt ILong) 64;
        bit "" (CInt ILong) 64;
        bit "" (CInt ILong) 64;
        bit "" (CInt ILong) 64;
        bit "" (CInt ILong) 64]);
      fld "mm_mt" (CName "struct maple_tree");
      fld "get_unmapped_area" (CPtr (CFun (CInt IULong) [CPtr (CName "struct file"); CInt IULong; CInt IULong; CInt IULong; CInt IULong]));
      fld "mmap_base" (CInt IULong);
      fld "mmap_legacy_base" (CInt IULong);
      fld "mmap_compat_base" (CInt IULong);
      fld "mmap_compat_legacy_base" (CInt IULong);
      fld "task_size" (CInt IULong);
      fld "pgd" (CPtr (CName "pgd_t"));
      fld "membarrier_state" (CName "atomic_t");
      fld "mm_users" (CName "atomic_t");
      fld "pcpu_cid" (CPtr (CName "struct mm_cid"));
      fld "mm_cid_next_scan" (CInt IULong);
      fld "pgtables_bytes" (CName "atomic_long_t");
      fld "map_count" (CInt IInt);
      fld "page_table_lock" (CName "spinlock_t");
      fld "mmap_lock" (CName "struct rw_semaphore");
      fld "mmlist" (CName "struct list_head");
      fld "mm_lock_seq" (CInt IInt);
      fld "hiwater_rss" (CInt IULong);
      fld "hiwater_vm" (CInt IULong);
      fld "total_vm" (CInt IULong);
      fld "locked_vm" (CInt IULong);
      fld "pinned_vm" (CName "atomic64_t");
      fld "data_vm" (CInt IULong);
      fld "exec_vm" (CInt IULong);
      fld "stack_vm" (CInt IULong);
      fld "def_flags" (CInt IULong);
      fld "write_protect_seq" (CName "seqcount_t");
      fld "arg_lock" (CName "spinlock_t");
      fld "start_code" (CInt IULong);
      fld "end_code" (CInt IULong);
      fld "start_data" (CInt IULong);
      fld "end_data" (CInt IULong);
      fld "start_brk" (CInt IULong);
      fld "brk" (CInt IULong);
      fld "start_stack" (CInt IULong);
      fld "arg_start" (CInt IULong);
      fld "arg_end" (CInt IULong);
      fld "env_start" (CInt IULong);
      fld "env_end" (CInt IULong);
      fld "saved_auxv" (CArr (CInt IULong) 52);
      fld "rss_stat" (CArr (CName "struct percpu_counter") 4);
      fld "binfmt" (CPtr (CName "struct linux_binfmt"));
      fld "context" (CName "mm_context_t");
      fld "flags" (CInt IULong);
      fld "ioctx_lock" (CName "spinlock_t");
      fld "ioctx_table" (CPtr (CName "struct kioctx_table"));
      fld "owner" (CPtr (CName "struct task_struct"));
      fld "user_ns" (CPtr (CName "struct user_namespace"));
      fld "exe_file" (CPtr (CName "struct file"));
      fld "notifier_subscriptions" (CPtr (CName "struct mmu_notifier_subscriptions"));
      fld "tlb_flush_pending" (CName "atomic_t");
      fld "tlb_flush_batched" (CName "atomic_t");
      fld "uprobes_state" (CName "struct uprobes_state");
      fld "hugetlb_usage" (CName "atomic_long_t");
      fld "async_put_work" (CName "struct work_struct");
      fld "pasid" (CName "u32");
      fld "ksm_merging_pages" (CInt IULong);
      fld "ksm_rmap_items" (CInt IULong);
      fld "ksm_zero_pages" (CName "atomic_long_t");
      bit "" (CInt ILong) 64]);
    fld "cpu_bitmap" (CArr (CInt IULong) 0)].

Definition struct_nsproxy : decl :=
  DComp "struct nsproxy" CStruct false [
    fld "count" (CName "refcount_t");
    fld "uts_ns" (CPtr (CName "struct uts_namespace"));
    fld "ipc_ns" (CPtr (CName "struct ipc_namespace"));
    fld "mnt_ns" (CPtr (CName "struct mnt_namespace"));
    fld "pid_ns_for_children" (CPtr (CName "struct pid_namespace"));
    fld "net_ns" (CPtr (CName "struct net"));
    fld "time_ns" (CPtr (CName "struct time_namespace"));
    fld "time_ns_for_children" (CPtr (CName "struct time_namespace"));
    fld "cgroup_ns" (CPtr (CName "struct cgroup_namespace"))].

Definition struct_pacct_struct : decl :=
  DComp "struct pacct_struct" CStruct false [
    fld "ac_flag" (CInt IInt);
    fld "ac_exitcode" (CInt ILong);
    fld "ac_mem" (CInt IULong);
    fld "ac_utime" (CName "u64");
    fld "ac_stime" (CName "u64");
    fld "ac_minflt" (CInt IULong);
    fld "ac_majflt" (CInt IULong)].

Definition struct_upid : decl :=
  DComp "struct upid" CStruct false [
    fld "nr" (CInt IInt);
    fld "ns" (CPtr (CName "struct pid_namespace"))].

Definition struct_pid : decl :=
  DComp "struct pid" CStruct false [
    fld "count" (CName "refcount_t");
    fld "level" (CInt IUInt);
    fld "lock" (CName "spinlock_t");
    fld "tasks" (CArr (CName "struct hlist_head") 4);
    fld "inodes" (CName "struct hlist_head");
    fld "wait_pidfd" (CName "wait_queue_head_t");
    fld "rcu" (CName "struct callback_head");
    fld "numbers" (CArr (CName "struct upid") 0)].

Definition struct_posix_cputimer_base : decl :=
  DComp "struct posix_cputimer_base" CStruct false [
    fld "nextevt" (CName "u64");
    fld "tqhead" (CName "struct timerqueue_head")].

Definition struct_posix_cputimers : decl :=
  DComp "struct posix_cputimers" CStruct false [
    fld "bases" (CArr (CName "struct posix_cputimer_base") 3);
    fld "timers_active" (CInt IUInt);
    fld "expiry_active" (CInt IUInt)].

Definition struct_posix_cputimers_work : decl :=
  DComp "struct posix_cputimers_work" CStruct false [
    fld "work" (CName "struct callback_head");
    fld "mutex" (CName "struct mutex");
    fld "scheduled" (CInt IUInt)].

Definition union_rcu_special : decl :=
  DComp "union rcu_special" CUnion false [
    fld "b" (CComp CStruct false [
      fld "blocked" (CName "u8");
      fld "need_qs" (CName "u8");
      fld "exp_hint" (CName "u8");
      fld "need_mb" (CName "u8")]);
    fld "s" (CName "u32")].

Definition struct_restart_block : decl :=
  DComp "struct restart_block" CStruct false [
    fld "arch_data" (CInt IULong);
    fld "fn" (CPtr (CFun (CInt ILong) [CPtr (CName "struct restart_block")]));
    fld "" (CComp CUnion false [
      fld "futex" (CComp CStruct false [
        fld "uaddr" (CPtr (CName "u32"));
        fld "val" (CName "u32");
        fld "flags" (CName "u32");
        fld "bitset" (CName "u32");
        fld "time" (CName "u64");
        fld "uaddr2" (CPtr (CName "u32"))]);
      fld "nanosleep" (CComp CStruct false [
        fld "clockid" (CName "clockid_t");
        fld "type" (CName "enum timespec_type");
        fld "" (CComp CUnion false [
          fld "rmtp" (CPtr (CName "struct __kernel_timespec"));
          fld "compat_rmtp" (CPtr (CName "struct old_timespec32"))]);
        fld "expires" (CName "u64")]);
      fld "poll" (CComp CStruct false [
        fld "ufds" (CPtr (CName "struct pollfd"));
        fld "nfds" (CInt IInt);
        fld "has_timeout" (CInt IInt);
        fld "tv_sec" (CInt IULong);
        fld "tv_nsec" (CInt IULong)])])].

Definition struct_sched_info : decl :=
  DComp "struct sched_info" CStruct false [
    fld "pcount" (CInt IULong);
    fld "run_delay" (CInt IULLong);
    fld "last_arrival" (CInt IULLong);
    fld "last_queued" (CInt IULLong)].

Definition struct_sched_dl_entity : decl :=
  DComp "struct sched_dl_entity" CStruct false [
    fld "rb_node" (CName "struct rb_node");
    fld "dl_runtime" (CName "u64");
    fld "dl_deadline" (CName "u64");
    fld "dl_period" (CName "u64");
    fld "dl_bw" (CName "u64");
    fld "dl_density" (CName "u64");
    fld "runtime" (CName "s64");
    fld "deadline" (CName "u64");
    fld "flags" (CInt IUInt);
    bit "dl_throttled" (CInt IUInt) 1;
    bit "dl_yielded" (CInt IUInt) 1;
    bit "dl_non_contending" (CInt IUInt) 1;
    bit "dl_overrun" (CInt IUInt) 1;
    fld "dl_timer" (CName "struct hrtimer");
    fld "inactive_timer" (CName "struct hrtimer");
    fld "pi_se" (CPtr (CName "struct sched_dl_entity"))].

Definition struct_sched_entity : decl :=
  DComp "struct sched_entity" CStruct false [
    fld "load" (CName "struct load_weight");
    fld "run_node" (CName "struct rb_node");
    fld "deadline" (CName "u64");
    fld "min_deadline" (CName "u64");
    fld "group_node" (CName "struct list_head");
    fld "on_rq" (CInt IUInt);
    fld "exec_start" (CName "u64");
    fld "sum_exec_runtime" (CName "u64");
    fld "prev_sum_exec_runtime" (CName "u64");
    fld "vruntime" (CName "u64");
    fld "vlag" (CName "s64");
    fld "slice" (CName "u64");
    fld "nr_migrations" (CName "u64");
    fld "depth" (CInt IInt);
    fld "parent" (CPtr (CName "struct sched_entity"));
    fld "cfs_rq" (CPtr (CName "struct cfs_rq"));
    fld "my_q" (CPtr (CName "struct cfs_rq"));
    fld "runnable_weight" (CInt IULong);
    bit "" (CInt ILong) 64;
    bit "" (CInt ILong) 64;
    fld "avg" (CName "struct sched_avg")].

Definition struct_sched_statistics : decl :=
  DComp "struct sched_statistics" CStruct false [
    fld "wait_start" (CName "u64");
    fld "wait_max" (CName "u64");
    fld "wait_count" (CName "u64");
    fld "wait_sum" (CName "u64");
    fld "iowait_count" (CName "u64");
    fld "iowait_sum" (CName "u64");
    fld "sleep_start" (CName "u64");
    fld "sleep_max" (CName "u64");
    fld "sum_sleep_runtime" (CName "s64");
    fld "block_start" (CName "u64");
    fld "block_max" (CName "u64");
    fld "sum_block_runtime" (CName "s64");
    fld "exec_max" (CName "s64");
    fld "slice_max" (CName "u64");
    fld "nr_migrations_cold" (CName "u64");
    fld "nr_failed_migrations_affine" (CName "u64");
    fld "nr_failed_migrations_running" (CName "u64");
    fld "nr_failed_migrations_hot" (CName "u64");
    fld "nr_forced_migrations" (CName "u64");
    fld "nr_wakeups" (CName "u64");
    fld "nr_wakeups_sync" (CName "u64");
    fld "nr_wakeups_migrate" (CName "u64");
    fld "nr_wakeups_local" (CName "u64");
    fld "nr_wakeups_remote" (CName "u64");
    fld "nr_wakeups_affine" (CName "u64");
    fld "nr_wakeups_affine_attempts" (CName "u64");
    fld "nr_wakeups_passive" (CName "u64");
    fld "nr_wakeups_idle" (CName "u64");
    bit "" (CInt ILong) 64;
    bit "" (CInt ILong) 64;
    bit "" (CInt ILong) 64;
    bit "" (CInt ILong) 64].

Definition struct_sched_rt_entity : decl :=
  DComp "struct sched_rt_entity" CStruct false [
    fld "run_list" (CName "struct list_head");
    fld "timeout" (CInt IULong);
    fld "watchdog_stamp" (CInt IULong);
    fld "time_slice" (CInt IUInt);
    fld "on_rq" (CInt IUShort);
    fld "on_list" (CInt IUShort);
    fld "back" (CPtr (CName "struct sched_rt_entity"))].

Definition struct_seccomp : decl :=
  DComp "struct seccomp" CStruct false [
    fld "mode" (CInt IInt);
    fld "filter_count" (CName "atomic_t");
    fld "filter" (CPtr (CName "struct seccomp_filter"))].

Definition struct_sigpending : decl :=
  DComp "struct sigpending" CStruct false [
    fld "list" (CName "struct list_head");
    fld "signal" (CName "sigset_t")].

Definition struct_task_cputime_atomic : decl :=
  DComp "struct task_cputime_atomic" CStruct false [
    fld "utime" (CName "atomic64_t");
    fld "stime" (CName "atomic64_t");
    fld "sum_exec_runtime" (CName "atomic64_t")].

Definition struct_thread_group_cputimer : decl :=
  DComp "struct thread_group_cputimer" CStruct false [
    fld "cputime_atomic" (CName "struct task_cputime_atomic")].

Definition struct_task_io_accounting : decl :=
  DComp "struct task_io_accounting" CStruct false [
    fld "rchar" (CName "u64");
    fld "wchar" (CName "u64");
    fld "syscr" (CName "u64");
    fld "syscw" (CName "u64");
    fld "read_bytes" (CName "u64");
    fld "write_bytes" (CName "u64");
    fld "cancelled_write_bytes" (CName "u64")].

Definition struct_signal_struct : decl :=
  DComp "struct signal_struct" CStruct false [
    fld "sigcnt" (CName "refcount_t");
    fld "live" (CName "atomic_t");
    fld "nr_threads" (CInt IInt);
    fld "quick_threads" (CInt IInt);
    fld "thread_head" (CName "struct list_head");
    fld "wait_chldexit" (CName "wait_queue_head_t");
    fld "curr_target" (CPtr (CName "struct task_struct"));
    fld "shared_pending" (CName "struct sigpending");
    fld "multiprocess" (CName "struct hlist_head");
    fld "group_exit_code" (CInt IInt);
    fld "notify_count" (CInt IInt);
    fld "group_exec_task" (CPtr (CName "struct task_struct"));
    fld "group_stop_count" (CInt IInt);
    fld "flags" (CInt IUInt);
    fld "core_state" (CPtr (CName "struct core_state"));
    bit "is_child_subreaper" (CInt IUInt) 1;
    bit "has_child_subreaper" (CInt IUInt) 1;
    fld "next_posix_timer_id" (CInt IUInt);
    fld "posix_timers" (CName "struct list_head");
    fld "real_timer" (CName "struct hrtimer");
    fld "it_real_incr" (CName "ktime_t");
    fld "it" (CArr (CName "struct cpu_itimer") 2);
    fld "cputimer" (CName "struct thread_group_cputimer");
    fld "posix_cputimers" (CName "struct posix_cputimers");
    fld "pids" (CArr (CPtr (CName "struct pid")) 4);
    fld "tty_old_pgrp" (CPtr (CName "struct pid"));
    fld "leader" (CInt IInt);
    fld "tty" (CPtr (CName "struct tty_struct"));
    fld "stats_lock" (CName "seqlock_t");
    fld "utime" (CName "u64");
    fld "stime" (CName "u64");
    fld "cutime" (CName "u64");
    fld "cstime" (CName "u64");
    fld "gtime" (CName "u64");
    fld "cgtime" (CName "u64");
    fld "prev_cputime" (CName "struct prev_cputime");
    fld "nvcsw" (CInt IULong);
    fld "nivcsw" (CInt IULong);
    fld "cnvcsw" (CInt IULong);
    fld "cnivcsw" (CInt IULong);
    fld "min_flt" (CInt IULong);
    fld "maj_flt" (CInt IULong);
    fld "cmin_flt" (CInt IULong);
    fld "cmaj_flt" (CInt IULong);
    fld "inblock" (CInt IULong);
    fld "oublock" (CInt IULong);
    fld "cinblock" (CInt IULong);
    fld "coublock" (CInt IULong);
    fld "maxrss" (CInt IULong);
    fld "cmaxrss" (CInt IULong);
    fld "ioac" (CName "struct task_io_accounting");
    fld "sum_sched_runtime" (CInt IULLong);
    fld "rlim" (CArr (CName "struct rlimit") 16);
    fld "pacct" (CName "struct pacct_struct");
    fld "stats" (CPtr (CName "struct taskstats"));
    fld "audit_tty" (CInt IUInt);
    fld "tty_audit_buf" (CPtr (CName "struct tty_audit_buf"));
    fld "oom_flag_origin" (CName "bool");
    fld "oom_score_adj" (CInt IShort);
    fld "oom_score_adj_min" (CInt IShort);
    fld "oom_mm" (CPtr (CName "struct mm_struct"));
    fld "cred_guard_mutex" (CName "struct mutex");
    fld "exec_update_lock" (CName "struct rw_semaphore")].

Definition struct_syscall_user_dispatch : decl :=
  DComp "struct syscall_user_dispatch" CStruct false [
    fld "selector" (CPtr (CInt IChar));
    fld "offset" (CInt IULong);
    fld "len" (CInt IULong);
    fld "on_dispatch" (CName "bool")].

Definition struct_sysv_sem : decl :=
  DComp "struct sysv_sem" CStruct false [
    fld "undo_list" (CPtr (CName "struct sem_undo_list"))].

Definition struct_sysv_shm : decl :=
  DComp "struct sysv_shm" CStruct false [
    fld "shm_clist" (CName "struct list_head")].

Definition struct_thread_info : decl :=
  DComp "struct thread_info" CStruct false [
    fld "flags" (CInt IULong);
    fld "syscall_work" (CInt IULong);
    fld "status" (CName "u32");
    fld "cpu" (CName "u32")].

Definition struct_wake_q_node : decl :=
  DComp "struct wake_q_node" CStruct false [
    fld "next" (CPtr (CName "struct wake_q_node"))].

Definition struct_tlbflush_unmap_batch : decl :=
  DComp "struct tlbflush_unmap_batch" CStruct false [
    fld "arch" (CName "struct arch_tlbflush_unmap_batch");
    fld "flush_required" (CName "bool");
    fld "writable" (CName "bool")].

Definition struct_thread_struct : decl :=
  DComp "struct thread_struct" CStruct false [
    fld "tls_array" (CArr (CName "struct desc_struct") 3);
    fld "sp" (CInt IULong);
    fld "es" (CInt IUShort);
    fld "ds" (CInt IUShort);
    fld "fsindex" (CInt IUShort);
    fld "gsindex" (CInt IUShort);
    fld "fsbase" (CInt IULong);
    fld "gsbase" (CInt IULong);
    fld "ptrace_bps" (CArr (CPtr (CName "struct perf_event")) 4);
    fld "virtual_dr6" (CInt IULong);
    fld "ptrace_dr7" (CInt IULong);
    fld "cr2" (CInt IULong);
    fld "trap_nr" (CInt IULong);
    fld "error_code" (CInt IULong);
    fld "io_bitmap" (CPtr (CName "struct io_bitmap"));
    fld "iopl_emul" (CInt IULong);
    bit "iopl_warn" (CInt IUInt) 1;
    fld "pkru" (CName "u32");
    bit "" (CInt ILong) 64;
    bit "" (CInt ILong) 64;
    bit "" (CInt ILong) 64;
    bit "" (CInt ILong) 64;
    bit "" (CInt ILong) 64;
    fld "fpu" (CName "struct fpu")].

Definition struct_task_struct : decl :=
  DComp "struct task_struct" CStruct false [
    fld "thread_info" (CName "struct thread_info");
    fld "__state" (CInt IUInt);
    fld "saved_state" (CInt IUInt);
    fld "stack" (CPtr CVoid);
    fld "usage" (CName "refcount_t");
    fld "flags" (CInt IUInt);
    fld "ptrace" (CInt IUInt);
    fld "on_cpu" (CInt IInt);
    fld "wake_entry" (CName "struct __call_single_node");
    fld "wakee_flips" (CInt IUInt);
    fld "wakee_flip_decay_ts" (CInt IULong);
    fld "last_wakee" (CPtr (CName "struct task_struct"));
    fld "recent_used_cpu" (CInt IInt);
    fld "wake_cpu" (CInt IInt);
    fld "on_rq" (CInt IInt);
    fld "prio" (CInt IInt);
    fld "static_prio" (CInt IInt);
    fld "normal_prio" (CInt IInt);
    fld "rt_priority" (CInt IUInt);
    fld "se" (CName "struct sched_entity");
    fld "rt" (CName "struct sched_rt_entity");
    fld "dl" (CName "struct sched_dl_entity");
    fld "sched_class" (CPtr (CName "struct sched_class"));
    fld "sched_task_group" (CPtr (CName "struct task_group"));
    bit "" (CInt ILong) 64;
    bit "" (CInt ILong) 64;
    bit "" (CInt ILong) 64;
    bit "" (CInt ILong) 64;
    fld "stats" (CName "struct sched_statistics");
    fld "preempt_notifiers" (CName "struct hlist_head");
    fld "btrace_seq" (CInt IUInt);
    fld "policy" (CInt IUInt);
    fld "nr_cpus_allowed" (CInt IInt);
    fld "cpus_ptr" (CPtr (CName "cpumask_t"));
    fld "user_cpus_ptr" (CPtr (CName "cpumask_t"));
    fld "cpus_mask" (CName "cpumask_t");
    fld "migration_pending" (CPtr CVoid);
    fld "migration_disabled" (CInt IUShort);
    fld "migration_flags" (CInt IUShort);
    fld "rcu_read_lock_nesting" (CInt IInt);
    fld "rcu_read_unlock_special" (CName "union rcu_special");
    fld "rcu_node_entry" (CName "struct list_head");
    fld "rcu_blocked_node" (CPtr (CName "struct rcu_node"));
    fld "rcu_tasks_nvcsw" (CInt IULong);
    fld "rcu_tasks_holdout" (CName "u8");
    fld "rcu_tasks_idx" (CName "u8");
    fld "rcu_tasks_idle_cpu" (CInt IInt);
    fld "rcu_tasks_holdout_list" (CName "struct list_head");
    fld "rcu_tasks_exit_cpu" (CInt IInt);
    fld "rcu_tasks_exit_list" (CName "struct list_head");
    fld "trc_reader_nesting" (CInt IInt);
    fld "trc_ipi_to_cpu" (CInt IInt);
    fld "trc_reader_special" (CName "union rcu_special");
    fld "trc_holdout_list" (CName "struct list_head");
    fld "trc_blkd_node" (CName "struct list_head");
    fld "trc_blkd_cpu" (CInt IInt);
    fld "sched_info" (CName "struct sched_info");
    fld "tasks" (CName "struct list_head");
    fld "pushable_tasks" (CName "struct plist_node");
    fld "pushable_dl_tasks" (CName "struct rb_node");
    fld "mm" (CPtr (CName "struct mm_struct"));
    fld "active_mm" (CPtr (CName "struct mm_struct"));
    fld "exit_state" (CInt IInt);
    fld "exit_code" (CInt IInt);
    fld "exit_signal" (CInt IInt);
    fld "pdeath_signal" (CInt IInt);
    fld "jobctl" (CInt IULong);
    fld "personality" (CInt IUInt);
    bit "sched_reset_on_fork" (CInt IUInt) 1;
    bit "sched_contributes_to_load" (CInt IUInt) 1;
    bit "sched_migrated" (CInt IUInt) 1;
    bit "sched_task_hot" (CInt IUInt) 1;
    bit "" (CInt ILong) 28;
    bit "sched_remote_wakeup" (CInt IUInt) 1;
    bit "in_execve" (CInt IUInt) 1;
    bit "in_iowait" (CInt IUInt) 1;
    bit "restore_sigmask" (CInt IUInt) 1;
    bit "in_user_fault" (CInt IUInt) 1;
    bit "no_cgroup_migration" (CInt IUInt) 1;
    bit "frozen" (CInt IUInt) 1;
    bit "use_memdelay" (CInt IUInt) 1;
    bit "in_memstall" (CInt IUInt) 1;
    bit "in_eventfd" (CInt IUInt) 1;
    bit "pasid_activated" (CInt IUInt) 1;
    bit "reported_split_lock" (CInt IUInt) 1;
    bit "in_thrashing" (CInt IUInt) 1;
    fld "atomic_flags" (CInt IULong);
    fld "restart_block" (CName "struct restart_block");
    fld "pid" (CName "pid_t");
    fld "tgid" (CName "pid_t");
    fld "stack_canary" (CInt IULong);
    fld "real_parent" (CPtr (CName "struct task_struct"));
    fld "parent" (CPtr (CName "struct task_struct"));
    fld "children" (CName "struct list_head");
    fld "sibling" (CName "struct list_head");
    fld "group_leader" (CPtr (CName "struct task_struct"));
    fld "ptraced" (CName "struct list_head");
    fld "ptrace_entry" (CName "struct list_head");
    fld "thread_pid" (CPtr (CName "struct pid"));
    fld "pid_links" (CArr (CName "struct hlist_node") 4);
    fld "thread_group" (CName "struct list_head");
    fld "thread_node" (CName "struct list_head");
    fld "vfork_done" (CPtr (CName "struct completion"));
    fld "set_child_tid" (CPtr (CInt IInt));
    fld "clear_child_tid" (CPtr (CInt IInt));
    fld "worker_private" (CPtr CVoid);
    fld "utime" (CName "u64");
    fld "stime" (CName "u64");
    fld "gtime" (CName "u64");
    fld "prev_cputime" (CName "struct prev_cputime");
    fld "nvcsw" (CInt IULong);
    fld "nivcsw" (CInt IULong);
    fld "start_time" (CName "u64");
    fld "start_boottime" (CName "u64");
    fld "min_flt" (CInt IULong);
    fld "maj_flt" (CInt IULong);
    fld "posix_cputimers" (CName "struct posix_cputimers");
    fld "posix_cputimers_work" (CName "struct posix_cputimers_work");
    fld "ptracer_cred" (CPtr (CName "struct cred"));
    fld "real_cred" (CPtr (CName "struct cred"));
    fld "cred" (CPtr (CName "struct cred"));
    fld "cached_requested_key" (CPtr (CName "struct key"));
    fld "comm" (CArr (CInt IChar) 16);
    fld "nameidata" (CPtr (CName "struct nameidata"));
    fld "sysvsem" (CName "struct sysv_sem");
    fld "sysvshm" (CName "struct sysv_shm");
    fld "last_switch_count" (CInt IULong);
    fld "last_switch_time" (CInt IULong);
    fld "fs" (CPtr (CName "struct fs_struct"));
    fld "files" (CPtr (CName "struct files_struct"));
    fld "io_uring" (CPtr (CName "struct io_uring_task"));
    fld "nsproxy" (CPtr (CName "struct nsproxy"));
    fld "signal" (CPtr (CName "struct signal_struct"));
    fld "sighand" (CPtr (CName "struct sighand_struct"));
    fld "blocked" (CName "sigset_t");
    fld "real_blocked" (CName "sigset_t");
    fld "saved_sigmask" (CName "sigset_t");
    fld "pending" (CName "struct sigpending");
    fld "sas_ss_sp" (CInt IULong);
    fld "sas_ss_size" (CName "size_t");
    fld "sas_ss_flags" (CInt IUInt);
    fld "task_works" (CPtr (CName "struct callback_head"));
    fld "audit_context" (CPtr (CName "struct audit_context"));
    fld "loginuid" (CName "kuid_t");
    fld "sessionid" (CInt IUInt);
    fld "seccomp" (CName "struct seccomp");
    fld "syscall_dispatch" (CName "struct syscall_user_dispatch");
    fld "parent_exec_id" (CName "u64");
    fld "self_exec_id" (CName "u64");
    fld "alloc_lock" (CName "spinlock_t");
    fld "pi_lock" (CName "raw_spinlock_t");
    fld "wake_q" (CName "struct wake_q_node");
    fld "pi_waiters" (CName "struct rb_root_cached");
    fld "pi_top_task" (CPtr (CName "struct task_struct"));
    fld "pi_blocked_on" (CPtr (CName "struct rt_mutex_waiter"));
    fld "journal_info" (CPtr CVoid);
    fld "bio_list" (CPtr (CName "struct bio_list"));
    fld "plug" (CPtr (CName "struct blk_plug"));
    fld "reclaim_state" (CPtr (CName "struct reclaim_state"));
    fld "io_context" (CPtr (CName "struct io_context"));
    fld "capture_control" (CPtr (CName "struct capture_control"));
    fld "ptrace_message" (CInt IULong);
    fld "last_siginfo" (CPtr (CName "kernel_siginfo_t"));
    fld "ioac" (CName "struct task_io_accounting");
    fld "psi_flags" (CInt IUInt);
    fld "acct_rss_mem1" (CName "u64");
    fld "acct_vm_mem1" (CName "u64");
    fld "acct_timexpd" (CName "u64");
    fld "mems_allowed" (CName "nodemask_t");
    fld "mems_allowed_seq" (CName "seqcount_spinlock_t");
    fld "cpuset_mem_spread_rotor" (CInt IInt);
    fld "cpuset_slab_spread_rotor" (CInt IInt);
    fld "cgroups" (CPtr (CName "struct css_set"));
    fld "cg_list" (CName "struct list_head");
    fld "robust_list" (CPtr (CName "struct robust_list_head"));
    fld "compat_robust_list" (CPtr (CName "struct compat_robust_list_head"));
    fld "pi_state_list" (CName "struct list_head");
    fld "pi_state_cache" (CPtr (CName "struct futex_pi_state"));
    fld "futex_exit_mutex" (CName "struct mutex");
    fld "futex_state" (CInt IUInt);
    fld "perf_event_ctxp" (CPtr (CName "struct perf_event_context"));
    fld "perf_event_mutex" (CName "struct mutex");
    fld "perf_event_list" (CName "struct list_head");
    fld "mempolicy" (CPtr (CName "struct mempolicy"));
    fld "il_prev" (CInt IShort);
    fld "pref_node_fork" (CInt IShort);
    fld "rseq" (CPtr (CName "struct rseq"));
    fld "rseq_len" (CName "u32");
    fld "rseq_sig" (CName "u32");
    fld "rseq_event_mask" (CInt IULong);
    fld "mm_cid" (CInt IInt);
    fld "last_mm_cid" (CInt IInt);
    fld "migrate_from_cpu" (CInt IInt);
    fld "mm_cid_active" (CInt IInt);
    fld "cid_work" (CName "struct callback_head");
    fld "tlb_ubc" (CName "struct tlbflush_unmap_batch");
    fld "splice_pipe" (CPtr (CName "struct pipe_inode_info"));
    fld "task_frag" (CName "struct page_frag");
    fld "delays" (CPtr (CName "struct task_delay_info"));
    fld "nr_dirtied" (CInt IInt);
    fld "nr_dirtied_pause" (CInt IInt);
    fld "dirty_paused_when" (CInt IULong);
    fld "latency_record_count" (CInt IInt);
    fld "latency_record" (CArr (CName "struct latency_record") 32);
    fld "timer_slack_ns" (CName "u64");
    fld "default_timer_slack_ns" (CName "u64");
    fld "curr_ret_stack" (CInt IInt);
    fld "curr_ret_depth" (CInt IInt);
    fld "ret_stack" (CPtr (CName "struct ftrace_ret_stack"));
    fld "ftrace_timestamp" (CInt IULLong);
    fld "trace_overrun" (CName "atomic_t");
    fld "tracing_graph_pause" (CName "atomic_t");
    fld "trace_recursion" (CInt IULong);
    fld "memcg_in_oom" (CPtr (CName "struct mem_cgroup"));
    fld "memcg_oom_gfp_mask" (CName "gfp_t");
    fld "memcg_oom_order" (CInt IInt);
    fld "memcg_nr_pages_over_high" (CInt IUInt);
    fld "active_memcg" (CPtr (CName "struct mem_cgroup"));
    fld "throttle_disk" (CPtr (CName "struct gendisk"));
    fld "utask" (CPtr (CName "struct uprobe_task"));
    fld "kmap_ctrl" (CName "struct kmap_ctrl");
    fld "rcu" (CName "struct callback_head");
    fld "rcu_users" (CName "refcount_t");
    fld "pagefault_disabled" (CInt IInt);
    fld "oom_reaper_list" (CPtr (CName "struct task_struct"));
    fld "oom_reaper_timer" (CName "struct timer_list");
    fld "stack_vm_area" (CPtr (CName "struct vm_struct"));
    fld "stack_refcount" (CName "refcount_t");
    fld "patch_state" (CInt IInt);
    fld "security" (CPtr CVoid);
    fld "bpf_storage" (CPtr (CName "struct bpf_local_storage"));
    fld "bpf_ctx" (CPtr (CName "struct bpf_run_ctx"));
    fld "mce_vaddr" (CPtr CVoid);
    fld "mce_kflags" (CName "__u64");
    fld "mce_addr" (CName "u64");
    bit "mce_ripv" (CName "__u64") 1;
    bit "mce_whole_page" (CName "__u64") 1;
    bit "__mce_reserved" (CName "__u64") 62;
    fld "mce_kill_me" (CName "struct callback_head");
    fld "mce_count" (CInt IInt);
    fld "kretprobe_instances" (CName "struct llist_head");
    fld "rethooks" (CName "struct llist_head");
    fld "l1d_flush_kill" (CName "struct callback_head");
    fld "user_event_mm" (CPtr (CName "struct user_event_mm"));
    bit "" (CInt ILong) 64;
    bit "" (CInt ILong) 64;
    fld "thread" (CName "struct thread_struct")].

Definition struct_user_struct : decl :=
  DComp "struct user_struct" CStruct false [
    fld "__count" (CName "refcount_t");
    fld "epoll_watches" (CName "struct percpu_counter");
    fld "unix_inflight" (CInt IULong);
    fld "pipe_bufs" (CName "atomic_long_t");
    fld "uidhash_node" (CName "struct hlist_node");
    fld "uid" (CName "kuid_t");
    fld "locked_vm" (CName "atomic_long_t");
    fld "ratelimit" (CName "struct ratelimit_state")].

(** The declarations of this file, in order. *)
Definition task_decls : list decl := [
  enum_timespec_type; typedef___kernel_clockid_t; typedef___kernel_pid_t; typedef_clockid_t;
  typedef_pid_t; typedef_kernel_cap_t; typedef_lockdep_map_p; typedef_mm_context_t;
  typedef_nodemask_t; typedef_sigset_t; struct_rlimit; struct_plist_node;
  struct_rb_root_cached; struct_timerqueue_head; struct_llist_head; struct_cpumask;
  typedef_cpumask_t; struct_arch_tlbflush_unmap_batch; struct_fred_cs; struct_fred_ss;
  struct_pt_regs; struct_load_weight; struct_util_est; struct_sched_avg; struct_prev_cputime;
  struct_cpu_itimer; struct_cred; struct_desc_struct; struct_ratelimit_state; struct_fdtable;
  struct_files_struct; struct_fregs_state; struct_fxregs_state; struct_swregs_state;
  struct_xstate_header; struct_xregs_state; union_fpregs_state; struct_fpstate;
  struct_fpu_state_perm; struct_fpu; struct_kmap_ctrl; struct_latency_record;
  struct_maple_tree; struct_uprobes_state; struct_mm_struct; struct_nsproxy;
  struct_pacct_struct; struct_upid; struct_pid; struct_posix_cputimer_base;
  struct_posix_cputimers; struct_posix_cputimers_work; union_rcu_special; struct_restart_block;
  struct_sched_info; struct_sched_dl_entity; struct_sched_entity; struct_sched_statistics;
  struct_sched_rt_entity; struct_seccomp; struct_sigpending; struct_task_cputime_atomic;
  struct_thread_group_cputimer; struct_task_io_accounting; struct_signal_struct;
  struct_syscall_user_dispatch; struct_sysv_sem; struct_sysv_shm; struct_thread_info;
  struct_wake_q_node; struct_tlbflush_unmap_batch; struct_thread_struct; struct_task_struct;
  struct_user_struct].
