(* ===== verification/VmlinuxBpf.v ===== *)
(** * Kernel types: BPF maps, ring buffers, programs, links, kprobes and the
    enumerations of the BPF ABI.

    Transcribed from [vmlinux.h], declaration by declaration, in an order in
    which the types a declaration holds by value come before it. *)

From S2P Require Import Prelude CLayout.

#[local] Open Scope string_scope.
#[local] Open Scope list_scope.
#[local] Open Scope Z_scope.

Definition enum_BPF_ANY : list (string * Z) := [
  ("BPF_ANY", 0);
  ("BPF_NOEXIST", 1);
  ("BPF_EXIST", 2);
  ("BPF_F_LOCK", 4)].

Definition enum_BPF_F_NO_PREALLOC : list (string * Z) := [
  ("BPF_F_NO_PREALLOC", 1);
  ("BPF_F_NO_COMMON_LRU", 2);
  ("BPF_F_NUMA_NODE", 4);
  ("BPF_F_RDONLY", 8);
  ("BPF_F_WRONLY", 16);
  ("BPF_F_STACK_BUILD_ID", 32);
  ("BPF_F_ZERO_SEED", 64);
  ("BPF_F_RDONLY_PROG", 128);
  ("BPF_F_WRONLY_PROG", 256);
  ("BPF_F_CLONE", 512);
  ("BPF_F_MMAPABLE", 1024);
  ("BPF_F_PRESERVE_ELEMS", 2048);
  ("BPF_F_INNER_MAP", 4096);
  ("BPF_F_LINK", 8192);
  ("BPF_F_PATH_FD", 16384)].

Definition enum_BPF_RB_NO_WAKEUP : list (string * Z) := [
  ("BPF_RB_NO_WAKEUP", 1);
  ("BPF_RB_FORCE_WAKEUP", 2)].

Definition enum_BPF_RINGBUF_BUSY_BIT : list (string * Z) := [
  ("BPF_RINGBUF_BUSY_BIT", 2147483648);
  ("BPF_RINGBUF_DISCARD_BIT", 1073741824);
  ("BPF_RINGBUF_HDR_SZ", 8)].

Definition enum_BPF_TCP_STATES : list (string * Z) := [
  ("BPF_TCP_ESTABLISHED", 1);
  ("BPF_TCP_SYN_SENT", 2);
  ("BPF_TCP_SYN_RECV", 3);
  ("BPF_TCP_FIN_WAIT1", 4);
  ("BPF_TCP_FIN_WAIT2", 5);
  ("BPF_TCP_TIME_WAIT", 6);
  ("BPF_TCP_CLOSE", 7);
  ("BPF_TCP_CLOSE_WAIT", 8);
  ("BPF_TCP_LAST_ACK", 9);
  ("BPF_TCP_LISTEN", 10);
  ("BPF_TCP_CLOSING", 11);
  ("BPF_TCP_NEW_SYN_RECV", 12);
  ("BPF_TCP_MAX_STATES", 13)].

Definition enum_bpf_arg_type : decl :=
  DEnum "enum bpf_arg_type" false [
    ("ARG_DONTCARE", 0);
    ("ARG_CONST_MAP_PTR", 1);
    ("ARG_PTR_TO_MAP_KEY", 2);
    ("ARG_PTR_TO_MAP_VALUE", 3);
    ("ARG_PTR_TO_MEM", 4);
    ("ARG_CONST_SIZE", 5);
    ("ARG_CONST_SIZE_OR_ZERO", 6);
    ("ARG_PTR_TO_CTX", 7);
    ("ARG_ANYTHING", 8);
    ("ARG_PTR_TO_SPIN_LOCK", 9);
    ("ARG_PTR_TO_SOCK_COMMON", 10);
    ("ARG_PTR_TO_SOCKET", 11);
    ("ARG_PTR_TO_BTF_ID", 12);
    ("ARG_PTR_TO_RINGBUF_MEM", 13);
    ("ARG_CONST_ALLOC_SIZE_OR_ZERO", 14);
    ("ARG_PTR_TO_BTF_ID_SOCK_COMMON", 15);
    ("ARG_PTR_TO_PERCPU_BTF_ID", 16);
    ("ARG_PTR_TO_FUNC", 17);
    ("ARG_PTR_TO_STACK", 18);
    ("ARG_PTR_TO_CONST_STR", 19);
    ("ARG_PTR_TO_TIMER", 20);
    ("ARG_PTR_TO_KPTR", 21);
    ("ARG_PTR_TO_DYNPTR", 22);
    ("__BPF_ARG_TYPE_MAX", 23);
    ("ARG_PTR_TO_MAP_VALUE_OR_NULL", 259);
    ("ARG_PTR_TO_MEM_OR_NULL", 260);
    ("ARG_PTR_TO_CTX_OR_NULL", 263);
    ("ARG_PTR_TO_SOCKET_OR_NULL", 267);
    ("ARG_PTR_TO_STACK_OR_NULL", 274);
    ("ARG_PTR_TO_BTF_ID_OR_NULL", 268);
    ("ARG_PTR_TO_UNINIT_MEM", 67141636);
    ("ARG_PTR_TO_FIXED_SIZE_MEM", 262148);
    ("__BPF_ARG_TYPE_LIMIT", 134217727)].

Definition enum_bpf_attach_type : decl :=
  DEnum "enum bpf_attach_type" false [
    ("BPF_CGROUP_INET_INGRESS", 0);
    ("BPF_CGROUP_INET_EGRESS", 1);
    ("BPF_CGROUP_INET_SOCK_CREATE", 2);
    ("BPF_CGROUP_SOCK_OPS", 3);
    ("BPF_SK_SKB_STREAM_PARSER", 4);
    ("BPF_SK_SKB_STREAM_VERDICT", 5);
    ("BPF_CGROUP_DEVICE", 6);
    ("BPF_SK_MSG_VERDICT", 7);
    ("BPF_CGROUP_INET4_BIND", 8);
    ("BPF_CGROUP_INET6_BIND", 9);
    ("BPF_CGROUP_INET4_CONNECT", 10);
    ("BPF_CGROUP_INET6_CONNECT", 11);
    ("BPF_CGROUP_INET4_POST_BIND", 12);
    ("BPF_CGROUP_INET6_POST_BIND", 13);
    ("BPF_CGROUP_UDP4_SENDMSG", 14);
    ("BPF_CGROUP_UDP6_SENDMSG", 15);
    ("BPF_LIRC_MODE2", 16);
    ("BPF_FLOW_DISSECTOR", 17);
    ("BPF_CGROUP_SYSCTL", 18);
    ("BPF_CGROUP_UDP4_RECVMSG", 19);
    ("BPF_CGROUP_UDP6_RECVMSG", 20);
    ("BPF_CGROUP_GETSOCKOPT", 21);
    ("BPF_CGROUP_SETSOCKOPT", 22);
    ("BPF_TRACE_RAW_TP", 23);
    ("BPF_TRACE_FENTRY", 24);
    ("BPF_TRACE_FEXIT", 25);
    ("BPF_MODIFY_RETURN", 26);
    ("BPF_LSM_MAC", 27);
    ("BPF_TRACE_ITER", 28);
    ("BPF_CGROUP_INET4_GETPEERNAME", 29);
    ("BPF_CGROUP_INET6_GETPEERNAME", 30);
    ("BPF_CGROUP_INET4_GETSOCKNAME", 31);
    ("BPF_CGROUP_INET6_GETSOCKNAME", 32);
    ("BPF_XDP_DEVMAP", 33);
    ("BPF_CGROUP_INET_SOCK_RELEASE", 34);
    ("BPF_XDP_CPUMAP", 35);
    ("BPF_SK_LOOKUP", 36);
    ("BPF_XDP", 37);
    ("BPF_SK_SKB_VERDICT", 38);
    ("BPF_SK_REUSEPORT_SELECT", 39);
    ("BPF_SK_REUSEPORT_SELECT_OR_MIGRATE", 40);
    ("BPF_PERF_EVENT", 41);
    ("BPF_TRACE_KPROBE_MULTI", 42);
    ("BPF_LSM_CGROUP", 43);
    ("BPF_STRUCT_OPS", 44);
    ("BPF_NETFILTER", 45);
    ("BPF_TCX_INGRESS", 46);
    ("BPF_TCX_EGRESS", 47);
    ("BPF_TRACE_UPROBE_MULTI", 48);
    ("__MAX_BPF_ATTACH_TYPE", 49)].

Definition enum_bpf_cmd : decl :=
  DEnum "enum bpf_cmd" false [
    ("BPF_MAP_CREATE", 0);
    ("BPF_MAP_LOOKUP_ELEM", 1);
    ("BPF_MAP_UPDATE_ELEM", 2);
    ("BPF_MAP_DELETE_ELEM", 3);
    ("BPF_MAP_GET_NEXT_KEY", 4);
    ("BPF_PROG_LOAD", 5);
    ("BPF_OBJ_PIN", 6);
    ("BPF_OBJ_GET", 7);
    ("BPF_PROG_ATTACH", 8);
    ("BPF_PROG_DETACH", 9);
    ("BPF_PROG_TEST_RUN", 10);
    ("BPF_PROG_RUN", 10);
    ("BPF_PROG_GET_NEXT_ID", 11);
    ("BPF_MAP_GET_NEXT_ID", 12);
    ("BPF_PROG_GET_FD_BY_ID", 13);
    ("BPF_MAP_GET_FD_BY_ID", 14);
    ("BPF_OBJ_GET_INFO_BY_FD", 15);
    ("BPF_PROG_QUERY", 16);
    ("BPF_RAW_TRACEPOINT_OPEN", 17);
    ("BPF_BTF_LOAD", 18);
    ("BPF_BTF_GET_FD_BY_ID", 19);
    ("BPF_TASK_FD_QUERY", 20);
    ("BPF_MAP_LOOKUP_AND_DELETE_ELEM", 21);
    ("BPF_MAP_FREEZE", 22);
    ("BPF_BTF_GET_NEXT_ID", 23);
    ("BPF_MAP_LOOKUP_BATCH", 24);
    ("BPF_MAP_LOOKUP_AND_DELETE_BATCH", 25);
    ("BPF_MAP_UPDATE_BATCH", 26);
    ("BPF_MAP_DELETE_BATCH", 27);
    ("BPF_LINK_CREATE", 28);
    ("BPF_LINK_UPDATE", 29);
    ("BPF_LINK_GET_FD_BY_ID", 30);
    ("BPF_LINK_GET_NEXT_ID", 31);
    ("BPF_ENABLE_STATS", 32);
    ("BPF_ITER_CREATE", 33);
    ("BPF_LINK_DETACH", 34);
    ("BPF_PROG_BIND_MAP", 35)].

Definition enum_bpf_core_relo_kind : decl :=
  DEnum "enum bpf_core_relo_kind" false [
    ("BPF_CORE_FIELD_BYTE_OFFSET", 0);
    ("BPF_CORE_FIELD_BYTE_SIZE", 1);
    ("BPF_CORE_FIELD_EXISTS", 2);
    ("BPF_CORE_FIELD_SIGNED", 3);
    ("BPF_CORE_FIELD_LSHIFT_U64", 4);
    ("BPF_CORE_FIELD_RSHIFT_U64", 5);
    ("BPF_CORE_TYPE_ID_LOCAL", 6);
    ("BPF_CORE_TYPE_ID_TARGET", 7);
    ("BPF_CORE_TYPE_EXISTS", 8);
    ("BPF_CORE_TYPE_SIZE", 9);
    ("BPF_CORE_ENUMVAL_EXISTS", 10);
    ("BPF_CORE_ENUMVAL_VALUE", 11);
    ("BPF_CORE_TYPE_MATCHES", 12)].

Definition enum_bpf_func_id : decl :=
  DEnum "enum bpf_func_id" false [
    ("BPF_FUNC_unspec", 0);
    ("BPF_FUNC_map_lookup_elem", 1);
    ("BPF_FUNC_map_update_elem", 2);
    ("BPF_FUNC_map_delete_elem", 3);
    ("BPF_FUNC_probe_read", 4);
    ("BPF_FUNC_ktime_get_ns", 5);
    ("BPF_FUNC_trace_printk", 6);
    ("BPF_FUNC_get_prandom_u32", 7);
    ("BPF_FUNC_get_smp_processor_id", 8);
    ("BPF_FUNC_skb_store_bytes", 9);
    ("BPF_FUNC_l3_csum_replace", 10);
    ("BPF_FUNC_l4_csum_replace", 11);
    ("BPF_FUNC_tail_call", 12);
    ("BPF_FUNC_clone_redirect", 13);
    ("BPF_FUNC_get_current_pid_tgid", 14);
    ("BPF_FUNC_get_current_uid_gid", 15);
    ("BPF_FUNC_get_current_comm", 16);
    ("BPF_FUNC_get_cgroup_classid", 17);
    ("BPF_FUNC_skb_vlan_push", 18);
    ("BPF_FUNC_skb_vlan_pop", 19);
    ("BPF_FUNC_skb_get_tunnel_key", 20);
    ("BPF_FUNC_skb_set_tunnel_key", 21);
    ("BPF_FUNC_perf_event_read", 22);
    ("BPF_FUNC_redirect", 23);
    ("BPF_FUNC_get_route_realm", 24);
    ("BPF_FUNC_perf_event_output", 25);
    ("BPF_FUNC_skb_load_bytes", 26);
    ("BPF_FUNC_get_stackid", 27);
    ("BPF_FUNC_csum_diff", 28);
    ("BPF_FUNC_skb_get_tunnel_opt", 29);
    ("BPF_FUNC_skb_set_tunnel_opt", 30);
    ("BPF_FUNC_skb_change_proto", 31);
    ("BPF_FUNC_skb_change_type", 32);
    ("BPF_FUNC_skb_under_cgroup", 33);
    ("BPF_FUNC_get_hash_recalc", 34);
    ("BPF_FUNC_get_current_task", 35);
    ("BPF_FUNC_probe_write_user", 36);
    ("BPF_FUNC_current_task_under_cgroup", 37);
    ("BPF_FUNC_skb_change_tail", 38);
    ("BPF_FUNC_skb_pull_data", 39);
    ("BPF_FUNC_csum_update", 40);
    ("BPF_FUNC_set_hash_invalid", 41);
    ("BPF_FUNC_get_numa_node_id", 42);
    ("BPF_FUNC_skb_change_head", 43);
    ("BPF_FUNC_xdp_adjust_head", 44);
    ("BPF_FUNC_probe_read_str", 45);
    ("BPF_FUNC_get_socket_cookie", 46);
    ("BPF_FUNC_get_socket_uid", 47);
    ("BPF_FUNC_set_hash", 48);
    ("BPF_FUNC_setsockopt", 49);
    ("BPF_FUNC_skb_adjust_room", 50);
    ("BPF_FUNC_redirect_map", 51);
    ("BPF_FUNC_sk_redirect_map", 52);
    ("BPF_FUNC_sock_map_update", 53);
    ("BPF_FUNC_xdp_adjust_meta", 54);
    ("BPF_FUNC_perf_event_read_value", 55);
    ("BPF_FUNC_perf_prog_read_value", 56);
    ("BPF_FUNC_getsockopt", 57);
    ("BPF_FUNC_override_return", 58);
    ("BPF_FUNC_sock_ops_cb_flags_set", 59);
    ("BPF_FUNC_msg_redirect_map", 60);
    ("BPF_FUNC_msg_apply_bytes", 61);
    ("BPF_FUNC_msg_cork_bytes", 62);
    ("BPF_FUNC_msg_pull_data", 63);
    ("BPF_FUNC_bind", 64);
    ("BPF_FUNC_xdp_adjust_tail", 65);
    ("BPF_FUNC_skb_get_xfrm_state", 66);
    ("BPF_FUNC_get_stack", 67);
    ("BPF_FUNC_skb_load_bytes_relative", 68);
    ("BPF_FUNC_fib_lookup", 69);
    ("BPF_FUNC_sock_hash_update", 70);
    ("BPF_FUNC_msg_redirect_hash", 71);
    ("BPF_FUNC_sk_redirect_hash", 72);
    ("BPF_FUNC_lwt_push_encap", 73);
    ("BPF_FUNC_lwt_seg6_store_bytes", 74);
    ("BPF_FUNC_lwt_seg6_adjust_srh", 75);
    ("BPF_FUNC_lwt_seg6_action", 76);
    ("BPF_FUNC_rc_repeat", 77);
    ("BPF_FUNC_rc_keydown", 78);
    ("BPF_FUNC_skb_cgroup_id", 79);
    ("BPF_FUNC_get_current_cgroup_id", 80);
    ("BPF_FUNC_get_local_storage", 81);
    ("BPF_FUNC_sk_select_reuseport", 82);
    ("BPF_FUNC_skb_ancestor_cgroup_id", 83);
    ("BPF_FUNC_sk_lookup_tcp", 84);
    ("BPF_FUNC_sk_lookup_udp", 85);
    ("BPF_FUNC_sk_release", 86);
    ("BPF_FUNC_map_push_elem", 87);
    ("BPF_FUNC_map_pop_elem", 88);
    ("BPF_FUNC_map_peek_elem", 89);
    ("BPF_FUNC_msg_push_data", 90);
    ("BPF_FUNC_msg_pop_data", 91);
    ("BPF_FUNC_rc_pointer_rel", 92);
    ("BPF_FUNC_spin_lock", 93);
    ("BPF_FUNC_spin_unlock", 94);
    ("BPF_FUNC_sk_fullsock", 95);
    ("BPF_FUNC_tcp_sock", 96);
    ("BPF_FUNC_skb_ecn_set_ce", 97);
    ("BPF_FUNC_get_listener_sock", 98);
    ("BPF_FUNC_skc_lookup_tcp", 99);
    ("BPF_FUNC_tcp_check_syncookie", 100);
    ("BPF_FUNC_sysctl_get_name", 101);
    ("BPF_FUNC_sysctl_get_current_value", 102);
    ("BPF_FUNC_sysctl_get_new_value", 103);
    ("BPF_FUNC_sysctl_set_new_value", 104);
    ("BPF_FUNC_strtol", 105);
    ("BPF_FUNC_strtoul", 106);
    ("BPF_FUNC_sk_storage_get", 107);
    ("BPF_FUNC_sk_storage_delete", 108);
    ("BPF_FUNC_send_signal", 109);
    ("BPF_FUNC_tcp_gen_syncookie", 110);
    ("BPF_FUNC_skb_output", 111);
    ("BPF_FUNC_probe_read_user", 112);
    ("BPF_FUNC_probe_read_kernel", 113);
    ("BPF_FUNC_probe_read_user_str", 114);
    ("BPF_FUNC_probe_read_kernel_str", 115);
    ("BPF_FUNC_tcp_send_ack", 116);
    ("BPF_FUNC_send_signal_thread", 117);
    ("BPF_FUNC_jiffies64", 118);
    ("BPF_FUNC_read_branch_records", 119);
    ("BPF_FUNC_get_ns_current_pid_tgid", 120);
    ("BPF_FUNC_xdp_output", 121);
    ("BPF_FUNC_get_netns_cookie", 122);
    ("BPF_FUNC_get_current_ancestor_cgroup_id", 123);
    ("BPF_FUNC_sk_assign", 124);
    ("BPF_FUNC_ktime_get_boot_ns", 125);
    ("BPF_FUNC_seq_printf", 126);
    ("BPF_FUNC_seq_write", 127);
    ("BPF_FUNC_sk_cgroup_id", 128);
    ("BPF_FUNC_sk_ancestor_cgroup_id", 129);
    ("BPF_FUNC_ringbuf_output", 130);
    ("BPF_FUNC_ringbuf_reserve", 131);
    ("BPF_FUNC_ringbuf_submit", 132);
    ("BPF_FUNC_ringbuf_discard", 133);
    ("BPF_FUNC_ringbuf_query", 134);
    ("BPF_FUNC_csum_level", 135);
    ("BPF_FUNC_skc_to_tcp6_sock", 136);
    ("BPF_FUNC_skc_to_tcp_sock", 137);
    ("BPF_FUNC_skc_to_tcp_timewait_sock", 138);
    ("BPF_FUNC_skc_to_tcp_request_sock", 139);
    ("BPF_FUNC_skc_to_udp6_sock", 140);
    ("BPF_FUNC_get_task_stack", 141);
    ("BPF_FUNC_load_hdr_opt", 142);
    ("BPF_FUNC_store_hdr_opt", 143);
    ("BPF_FUNC_reserve_hdr_opt", 144);
    ("BPF_FUNC_inode_storage_get", 145);
    ("BPF_FUNC_inode_storage_delete", 146);
    ("BPF_FUNC_d_path", 147);
    ("BPF_FUNC_copy_from_user", 148);
    ("BPF_FUNC_snprintf_btf", 149);
    ("BPF_FUNC_seq_printf_btf", 150);
    ("BPF_FUNC_skb_cgroup_classid", 151);
    ("BPF_FUNC_redirect_neigh", 152);
    ("BPF_FUNC_per_cpu_ptr", 153);
    ("BPF_FUNC_this_cpu_ptr", 154);
    ("BPF_FUNC_redirect_peer", 155);
    ("BPF_FUNC_task_storage_get", 156);
    ("BPF_FUNC_task_storage_delete", 157);
    ("BPF_FUNC_get_current_task_btf", 158);
    ("BPF_FUNC_bprm_opts_set", 159);
    ("BPF_FUNC_ktime_get_coarse_ns", 160);
    ("BPF_FUNC_ima_inode_hash", 161);
    ("BPF_FUNC_sock_from_file", 162);
    ("BPF_FUNC_check_mtu", 163);
    ("BPF_FUNC_for_each_map_elem", 164);
    ("BPF_FUNC_snprintf", 165);
    ("BPF_FUNC_sys_bpf", 166);
    ("BPF_FUNC_btf_find_by_name_kind", 167);
    ("BPF_FUNC_sys_close", 168);
    ("BPF_FUNC_timer_init", 169);
    ("BPF_FUNC_timer_set_callback", 170);
    ("BPF_FUNC_timer_start", 171);
    ("BPF_FUNC_timer_cancel", 172);
    ("BPF_FUNC_get_func_ip", 173);
    ("BPF_FUNC_get_attach_cookie", 174);
    ("BPF_FUNC_task_pt_regs", 175);
    ("BPF_FUNC_get_branch_snapshot", 176);
    ("BPF_FUNC_trace_vprintk", 177);
    ("BPF_FUNC_skc_to_unix_sock", 178);
    ("BPF_FUNC_kallsyms_lookup_name", 179);
    ("BPF_FUNC_find_vma", 180);
    ("BPF_FUNC_loop", 181);
    ("BPF_FUNC_strncmp", 182);
    ("BPF_FUNC_get_func_arg", 183);
    ("BPF_FUNC_get_func_ret", 184);
    ("BPF_FUNC_get_func_arg_cnt", 185);
    ("BPF_FUNC_get_retval", 186);
    ("BPF_FUNC_set_retval", 187);
    ("BPF_FUNC_xdp_get_buff_len", 188);
    ("BPF_FUNC_xdp_load_bytes", 189);
    ("BPF_FUNC_xdp_store_bytes", 190);
    ("BPF_FUNC_copy_from_user_task", 191);
    ("BPF_FUNC_skb_set_tstamp", 192);
    ("BPF_FUNC_ima_file_hash", 193);
    ("BPF_FUNC_kptr_xchg", 194);
    ("BPF_FUNC_map_lookup_percpu_elem", 195);
    ("BPF_FUNC_skc_to_mptcp_sock", 196);
    ("BPF_FUNC_dynptr_from_mem", 197);
    ("BPF_FUNC_ringbuf_reserve_dynptr", 198);
    ("BPF_FUNC_ringbuf_submit_dynptr", 199);
    ("BPF_FUNC_ringbuf_discard_dynptr", 200);
    ("BPF_FUNC_dynptr_read", 201);
    ("BPF_FUNC_dynptr_write", 202);
    ("BPF_FUNC_dynptr_data", 203);
    ("BPF_FUNC_tcp_raw_gen_syncookie_ipv4", 204);
    ("BPF_FUNC_tcp_raw_gen_syncookie_ipv6", 205);
    ("BPF_FUNC_tcp_raw_check_syncookie_ipv4", 206);
    ("BPF_FUNC_tcp_raw_check_syncookie_ipv6", 207);
    ("BPF_FUNC_ktime_get_tai_ns", 208);
    ("BPF_FUNC_user_ringbuf_drain", 209);
    ("BPF_FUNC_cgrp_storage_get", 210);
    ("BPF_FUNC_cgrp_storage_delete", 211);
    ("__BPF_FUNC_MAX_ID", 212)].

Definition enum_bpf_link_type : decl :=
  DEnum "enum bpf_link_type" false [
    ("BPF_LINK_TYPE_UNSPEC", 0);
    ("BPF_LINK_TYPE_RAW_TRACEPOINT", 1);
    ("BPF_LINK_TYPE_TRACING", 2);
    ("BPF_LINK_TYPE_CGROUP", 3);
    ("BPF_LINK_TYPE_ITER", 4);
    ("BPF_LINK_TYPE_NETNS", 5);
    ("BPF_LINK_TYPE_XDP", 6);
    ("BPF_LINK_TYPE_PERF_EVENT", 7);
    ("BPF_LINK_TYPE_KPROBE_MULTI", 8);
    ("BPF_LINK_TYPE_STRUCT_OPS", 9);
    ("BPF_LINK_TYPE_NETFILTER", 10);
    ("BPF_LINK_TYPE_TCX", 11);
    ("BPF_LINK_TYPE_UPROBE_MULTI", 12);
    ("MAX_BPF_LINK_TYPE", 13)].

Definition enum_bpf_map_type : decl :=
  DEnum "enum bpf_map_type" false [
    ("BPF_MAP_TYPE_UNSPEC", 0);
    ("BPF_MAP_TYPE_HASH", 1);
    ("BPF_MAP_TYPE_ARRAY", 2);
    ("BPF_MAP_TYPE_PROG_ARRAY", 3);
    ("BPF_MAP_TYPE_PERF_EVENT_ARRAY", 4);
    ("BPF_MAP_TYPE_PERCPU_HASH", 5);
    ("BPF_MAP_TYPE_PERCPU_ARRAY", 6);
    ("BPF_MAP_TYPE_STACK_TRACE", 7);
    ("BPF_MAP_TYPE_CGROUP_ARRAY", 8);
    ("BPF_MAP_TYPE_LRU_HASH", 9);
    ("BPF_MAP_TYPE_LRU_PERCPU_HASH", 10);
    ("BPF_MAP_TYPE_LPM_TRIE", 11);
    ("BPF_MAP_TYPE_ARRAY_OF_MAPS", 12);
    ("BPF_MAP_TYPE_HASH_OF_MAPS", 13);
    ("BPF_MAP_TYPE_DEVMAP", 14);
    ("BPF_MAP_TYPE_SOCKMAP", 15);
    ("BPF_MAP_TYPE_CPUMAP", 16);
    ("BPF_MAP_TYPE_XSKMAP", 17);
    ("BPF_MAP_TYPE_SOCKHASH", 18);
    ("BPF_MAP_TYPE_CGROUP_STORAGE_DEPRECATED", 19);
    ("BPF_MAP_TYPE_CGROUP_STORAGE", 19);
    ("BPF_MAP_TYPE_REUSEPORT_SOCKARRAY", 20);
    ("BPF_MAP_TYPE_PERCPU_CGROUP_STORAGE", 21);
    ("BPF_MAP_TYPE_QUEUE", 22);
    ("BPF_MAP_TYPE_STACK", 23);
    ("BPF_MAP_TYPE_SK_STORAGE", 24);
    ("BPF_MAP_TYPE_DEVMAP_HASH", 25);
    ("BPF_MAP_TYPE_STRUCT_OPS", 26);
    ("BPF_MAP_TYPE_RINGBUF", 27);
    ("BPF_MAP_TYPE_INODE_STORAGE", 28);
    ("BPF_MAP_TYPE_TASK_STORAGE", 29);
    ("BPF_MAP_TYPE_BLOOM_FILTER", 30);
    ("BPF_MAP_TYPE_USER_RINGBUF", 31);
    ("BPF_MAP_TYPE_CGRP_STORAGE", 32)].

Definition enum_bpf_prog_type : decl :=
  DEnum "enum bpf_prog_type" false [
    ("BPF_PROG_TYPE_UNSPEC", 0);
    ("BPF_PROG_TYPE_SOCKET_FILTER", 1);
    ("BPF_PROG_TYPE_KPROBE", 2);
    ("BPF_PROG_TYPE_SCHED_CLS", 3);
    ("BPF_PROG_TYPE_SCHED_ACT", 4);
    ("BPF_PROG_TYPE_TRACEPOINT", 5);
    ("BPF_PROG_TYPE_XDP", 6);
    ("BPF_PROG_TYPE_PERF_EVENT", 7);
    ("BPF_PROG_TYPE_CGROUP_SKB", 8);
    ("BPF_PROG_TYPE_CGROUP_SOCK", 9);
    ("BPF_PROG_TYPE_LWT_IN", 10);
    ("BPF_PROG_TYPE_LWT_OUT", 11);
    ("BPF_PROG_TYPE_LWT_XMIT", 12);
    ("BPF_PROG_TYPE_SOCK_OPS", 13);
    ("BPF_PROG_TYPE_SK_SKB", 14);
    ("BPF_PROG_TYPE_CGROUP_DEVICE", 15);
    ("BPF_PROG_TYPE_SK_MSG", 16);
    ("BPF_PROG_TYPE_RAW_TRACEPOINT", 17);
    ("BPF_PROG_TYPE_CGROUP_SOCK_ADDR", 18);
    ("BPF_PROG_TYPE_LWT_SEG6LOCAL", 19);
    ("BPF_PROG_TYPE_LIRC_MODE2", 20);
    ("BPF_PROG_TYPE_SK_REUSEPORT", 21);
    ("BPF_PROG_TYPE_FLOW_DISSECTOR", 22);
    ("BPF_PROG_TYPE_CGROUP_SYSCTL", 23);
    ("BPF_PROG_TYPE_RAW_TRACEPOINT_WRITABLE", 24);
    ("BPF_PROG_TYPE_CGROUP_SOCKOPT", 25);
    ("BPF_PROG_TYPE_TRACING", 26);
    ("BPF_PROG_TYPE_STRUCT_OPS", 27);
    ("BPF_PROG_TYPE_EXT", 28);
    ("BPF_PROG_TYPE_LSM", 29);
    ("BPF_PROG_TYPE_SK_LOOKUP", 30);
    ("BPF_PROG_TYPE_SYSCALL", 31);
    ("BPF_PROG_TYPE_NETFILTER", 32)].

Definition enum_bpf_return_type : decl :=
  DEnum "enum bpf_return_type" false [
    ("RET_INTEGER", 0);
    ("RET_VOID", 1);
    ("RET_PTR_TO_MAP_VALUE", 2);
    ("RET_PTR_TO_SOCKET", 3);
    ("RET_PTR_TO_TCP_SOCK", 4);
    ("RET_PTR_TO_SOCK_COMMON", 5);
    ("RET_PTR_TO_MEM", 6);
    ("RET_PTR_TO_MEM_OR_BTF_ID", 7);
    ("RET_PTR_TO_BTF_ID", 8);
    ("__BPF_RET_TYPE_MAX", 9);
    ("RET_PTR_TO_MAP_VALUE_OR_NULL", 258);
    ("RET_PTR_TO_SOCKET_OR_NULL", 259);
    ("RET_PTR_TO_TCP_SOCK_OR_NULL", 260);
    ("RET_PTR_TO_SOCK_COMMON_OR_NULL", 261);
    ("RET_PTR_TO_RINGBUF_MEM_OR_NULL", 1286);
    ("RET_PTR_TO_DYNPTR_MEM_OR_NULL", 262);
    ("RET_PTR_TO_BTF_ID_OR_NULL", 264);
    ("RET_PTR_TO_BTF_ID_TRUSTED", 1048584);
    ("__BPF_RET_TYPE_LIMIT", 134217727)].

Definition enum_perf_event_state : decl :=
  DEnum "enum perf_event_state" false [
    ("PERF_EVENT_STATE_DEAD", (-4));
    ("PERF_EVENT_STATE_EXIT", (-3));
    ("PERF_EVENT_STATE_ERROR", (-2));
    ("PERF_EVENT_STATE_OFF", (-1));
    ("PERF_EVENT_STATE_INACTIVE", 0);
    ("PERF_EVENT_STATE_ACTIVE", 1)].

Definition typedef_s32 : decl := DTypedef "s32" (CName "__s32").

Definition typedef_kprobe_opcode_t : decl := DTypedef "kprobe_opcode_t" (CName "u8").

Definition typedef_local_t : decl := DTypedef "local_t" (CComp CStruct false [
      fld "a" (CName "atomic_long_t")]).

Definition typedef_local64_t : decl := DTypedef "local64_t" (CComp CStruct false [
      fld "a" (CName "local_t")]).

Definition struct_lock_class_key : decl :=
  DComp "struct lock_class_key" CStruct false [].

Definition struct_arch_hw_breakpoint : decl :=
  DComp "struct arch_hw_breakpoint" CStruct false [
    fld "address" (CInt IULong);
    fld "mask" (CInt IULong);
    fld "len" (CName "u8");
    fld "type" (CName "u8")].

Definition struct_arch_specific_insn : decl :=
  DComp "struct arch_specific_insn" CStruct false [
    fld "insn" (CPtr (CName "kprobe_opcode_t"));
    bit "boostable" (CInt IUInt) 1;
    fld "size" (CInt IUChar);
    fld "" (CComp CUnion false [
      fld "opcode" (CInt IUChar);
      fld "jcc" (CComp CStruct false [
        fld "type" (CInt IUChar)]);
      fld "loop" (CComp CStruct false [
        fld "type" (CInt IUChar);
        fld "asize" (CInt IUChar)]);
      fld "indirect" (CComp CStruct false [
        fld "reg" (CInt IUChar)])]);
    fld "rel32" (CName "s32");
    fld "emulate_op" (CPtr (CFun CVoid [CPtr (CName "struct kprobe"); CPtr (CName "struct pt_regs")]));
    fld "tp_len" (CInt IInt)].

Definition struct_bpf_map : decl :=
  DComp "struct bpf_map" CStruct false [
    fld "ops" (CPtr (CName "struct bpf_map_ops"));
    fld "inner_map_meta" (CPtr (CName "struct bpf_map"));
    fld "security" (CPtr CVoid);
    fld "map_type" (CName "enum bpf_map_type");
    fld "key_size" (CName "u32");
    fld "value_size" (CName "u32");
    fld "max_entries" (CName "u32");
    fld "map_extra" (CName "u64");
    fld "map_flags" (CName "u32");
    fld "id" (CName "u32");
    fld "record" (CPtr (CName "struct btf_record"));
    fld "numa_node" (CInt IInt);
    fld "btf_key_type_id" (CName "u32");
    fld "btf_value_type_id" (CName "u32");
    fld "btf_vmlinux_value_type_id" (CName "u32");
    fld "btf" (CPtr (CName "struct btf"));
    fld "objcg" (CPtr (CName "struct obj_cgroup"));
    fld "name" (CArr (CInt IChar) 16);
    bit "" (CInt ILong) 64;
    bit "" (CInt ILong) 64;
    fld "refcnt" (CName "atomic64_t");
    fld "usercnt" (CName "atomic64_t");
    fld "" (CComp CUnion false [
      fld "work" (CName "struct work_struct");
      fld "rcu" (CName "struct callback_head")]);
    fld "freeze_mutex" (CName "struct mutex");
    fld "writecnt" (CName "atomic64_t");
    fld "owner_lock" (CName "spinlock_t");
    fld "owner" (CPtr (CName "struct bpf_map_owner"));
    fld "bypass_spec_v1" (CName "bool");
    fld "frozen" (CName "bool");
    fld "free_after_mult_rcu_gp" (CName "bool");
    fld "free_after_rcu_gp" (CName "bool");
    fld "sleepable_refcnt" (CName "atomic64_t");
    fld "elem_count" (CPtr (CName "s64"));
    fld "cookie" (CName "u64");
    bit "" (CInt ILong) 64;
    bit "" (CInt ILong) 64;
    bit "" (CInt ILong) 64;
    bit "" (CInt ILong) 64;
    bit "" (CInt ILong) 64;
    bit "" (CInt ILong) 64;
    bit "" (CInt ILong) 64].

Definition union_bpf_attr : decl :=
  DComp "union bpf_attr" CUnion false [
    fld "" (CComp CStruct false [
      fld "map_type" (CName "__u32");
      fld "key_size" (CName "__u32");
      fld "value_size" (CName "__u32");
      fld "max_entries" (CName "__u32");
      fld "map_flags" (CName "__u32");
      fld "inner_map_fd" (CName "__u32");
      fld "numa_node" (CName "__u32");
      fld "map_name" (CArr (CInt IChar) 16);
      fld "map_ifindex" (CName "__u32");
      fld "btf_fd" (CName "__u32");
      fld "btf_key_type_id" (CName "__u32");
      fld "btf_value_type_id" (CName "__u32");
      fld "btf_vmlinux_value_type_id" (CName "__u32");
      fld "map_extra" (CName "__u64")]);
    fld "" (CComp CStruct false [
      fld "map_fd" (CName "__u32");
      fld "key" (CName "__u64");
      fld "" (CComp CUnion false [
        fld "value" (CName "__u64");
        fld "next_key" (CName "__u64")]);
      fld "flags" (CName "__u64")]);
    fld "batch" (CComp CStruct false [
      fld "in_batch" (CName "__u64");
      fld "out_batch" (CName "__u64");
      fld "keys" (CName "__u64");
      fld "values" (CName "__u64");
      fld "count" (CName "__u32");
      fld "map_fd" (CName "__u32");
      fld "elem_flags" (CName "__u64");
      fld "flags" (CName "__u64")]);
    fld "" (CComp CStruct false [
      fld "prog_type" (CName "__u32");
      fld "insn_cnt" (CName "__u32");
      fld "insns" (CName "__u64");
      fld "license" (CName "__u64");
      fld "log_level" (CName "__u32");
      fld "log_size" (CName "__u32");
      fld "log_buf" (CName "__u64");
      fld "kern_version" (CName "__u32");
      fld "prog_flags" (CName "__u32");
      fld "prog_name" (CArr (CInt IChar) 16);
      fld "prog_ifindex" (CName "__u32");
      fld "expected_attach_type" (CName "__u32");
      fld "prog_btf_fd" (CName "__u32");
      fld "func_info_rec_size" (CName "__u32");
      fld "func_info" (CName "__u64");
      fld "func_info_cnt" (CName "__u32");
      fld "line_info_rec_size" (CName "__u32");
      fld "line_info" (CName "__u64");
      fld "line_info_cnt" (CName "__u32");
      fld "attach_btf_id" (CName "__u32");
      fld "" (CComp CUnion false [
        fld "attach_prog_fd" (CName "__u32");
        fld "attach_btf_obj_fd" (CName "__u32")]);
      fld "core_relo_cnt" (CName "__u32");
      fld "fd_array" (CName "__u64");
      fld "core_relos" (CName "__u64");
      fld "core_relo_rec_size" (CName "__u32");
      fld "log_true_size" (CName "__u32")]);
    fld "" (CComp CStruct false [
      fld "pathname" (CName "__u64");
      fld "bpf_fd" (CName "__u32");
      fld "file_flags" (CName "__u32");
      fld "path_fd" (CName "__s32")]);
    fld "" (CComp CStruct false [
      fld "" (CComp CUnion false [
        fld "target_fd" (CName "__u32");
        fld "target_ifindex" (CName "__u32")]);
      fld "attach_bpf_fd" (CName "__u32");
      fld "attach_type" (CName "__u32");
      fld "attach_flags" (CName "__u32");
      fld "replace_bpf_fd" (CName "__u32");
      fld "" (CComp CUnion false [
        fld "relative_fd" (CName "__u32");
        fld "relative_id" (CName "__u32")]);
      fld "expected_revision" (CName "__u64")]);
    fld "test" (CComp CStruct false [
      fld "prog_fd" (CName "__u32");
      fld "retval" (CName "__u32");
      fld "data_size_in" (CName "__u32");
      fld "data_size_out" (CName "__u32");
      fld "data_in" (CName "__u64");
      fld "data_out" (CName "__u64");
      fld "repeat" (CName "__u32");
      fld "duration" (CName "__u32");
      fld "ctx_size_in" (CName "__u32");
      fld "ctx_size_out" (CName "__u32");
      fld "ctx_in" (CName "__u64");
      fld "ctx_out" (CName "__u64");
      fld "flags" (CName "__u32");
      fld "cpu" (CName "__u32");
      fld "batch_size" (CName "__u32")]);
    fld "" (CComp CStruct false [
      fld "" (CComp CUnion false [
        fld "start_id" (CName "__u32");
        fld "prog_id" (CName "__u32");
        fld "map_id" (CName "__u32");
        fld "btf_id" (CName "__u32");
        fld "link_id" (CName "__u32")]);
      fld "next_id" (CName "__u32");
      fld "open_flags" (CName "__u32")]);
    fld "info" (CComp CStruct false [
      fld "bpf_fd" (CName "__u32");
      fld "info_len" (CName "__u32");
      fld "info" (CName "__u64")]);
    fld "query" (CComp CStruct false [
      fld "" (CComp CUnion false [
        fld "target_fd" (CName "__u32");
        fld "target_ifindex" (CName "__u32")]);
      fld "attach_type" (CName "__u32");
      fld "query_flags" (CName "__u32");
      fld "attach_flags" (CName "__u32");
      fld "prog_ids" (CName "__u64");
      fld "" (CComp CUnion false [
        fld "prog_cnt" (CName "__u32");
        fld "count" (CName "__u32")]);
      fld "prog_attach_flags" (CName "__u64");
      fld "link_ids" (CName "__u64");
      fld "link_attach_flags" (CName "__u64");
      fld "revision" (CName "__u64")]);
    fld "raw_tracepoint" (CComp CStruct false [
      fld "name" (CName "__u64");
      fld "prog_fd" (CName "__u32")]);
    fld "" (CComp CStruct false [
      fld "btf" (CName "__u64");
      fld "btf_log_buf" (CName "__u64");
      fld "btf_size" (CName "__u32");
      fld "btf_log_size" (CName "__u32");
      fld "btf_log_level" (CName "__u32");
      fld "btf_log_true_size" (CName "__u32")]);
    fld "task_fd_query" (CComp CStruct false [
      fld "pid" (CName "__u32");
      fld "fd" (CName "__u32");
      fld "flags" (CName "__u32");
      fld "buf_len" (CName "__u32");
      fld "buf" (CName "__u64");
      fld "prog_id" (CName "__u32");
      fld "fd_type" (CName "__u32");
      fld "probe_offset" (CName "__u64");
      fld "probe_addr" (CName "__u64")]);
    fld "link_create" (CComp CStruct false [
      fld "" (CComp CUnion false [
        fld "prog_fd" (CName "__u32");
        fld "map_fd" (CName "__u32")]);
      fld "" (CComp CUnion false [
        fld "target_fd" (CName "__u32");
        fld "target_ifindex" (CName "__u32")]);
      fld "attach_type" (CName "__u32");
      fld "flags" (CName "__u32");
      fld "" (CComp CUnion false [
        fld "target_btf_id" (CName "__u32");
        fld "" (CComp CStruct false [
          fld "iter_info" (CName "__u64");
          fld "iter_info_len" (CName "__u32")]);
        fld "perf_event" (CComp CStruct false [
          fld "bpf_cookie" (CName "__u64")]);
        fld "kprobe_multi" (CComp CStruct false [
          fld "flags" (CName "__u32");
          fld "cnt" (CName "__u32");
          fld "syms" (CName "__u64");
          fld "addrs" (CName "__u64");
          fld "cookies" (CName "__u64")]);
        fld "tracing" (CComp CStruct false [
          fld "target_btf_id" (CName "__u32");
          fld "cookie" (CName "__u64")]);
        fld "netfilter" (CComp CStruct false [
          fld "pf" (CName "__u32");
          fld "hooknum" (CName "__u32");
          fld "priority" (CName "__s32");
          fld "flags" (CName "__u32")]);
        fld "tcx" (CComp CStruct false [
          fld "" (CComp CUnion false [
            fld "relative_fd" (CName "__u32");
            fld "relative_id" (CName "__u32")]);
          fld "expected_revision" (CName "__u64")]);
        fld "uprobe_multi" (CComp CStruct false [
          fld "path" (CName "__u64");
          fld "offsets" (CName "__u64");
          fld "ref_ctr_offsets" (CName "__u64");
          fld "cookies" (CName "__u64");
          fld "cnt" (CName "__u32");
          fld "flags" (CName "__u32");
          fld "pid" (CName "__u32")])])]);
    fld "link_update" (CComp CStruct false [
      fld "link_fd" (CName "__u32");
      fld "" (CComp CUnion false [
        fld "new_prog_fd" (CName "__u32");
        fld "new_map_fd" (CName "__u32")]);
      fld "flags" (CName "__u32");
      fld "" (CComp CUnion false [
        fld "old_prog_fd" (CName "__u32");
        fld "old_map_fd" (CName "__u32")])]);
    fld "link_detach" (CComp CStruct false [
      fld "link_fd" (CName "__u32")]);
    fld "enable_stats" (CComp CStruct false [
      fld "type" (CName "__u32")]);
    fld "iter_create" (CComp CStruct false [
      fld "link_fd" (CName "__u32");
      fld "flags" (CName "__u32")]);
    fld "prog_bind_map" (CComp CStruct false [
      fld "prog_fd" (CName "__u32");
      fld "map_fd" (CName "__u32");
      fld "flags" (CName "__u32")])].

Definition struct_bpf_run_ctx : decl :=
  DComp "struct bpf_run_ctx" CStruct false [].

Definition struct_bpf_link : decl :=
  DComp "struct bpf_link" CStruct false [
    fld "refcnt" (CName "atomic64_t");
    fld "id" (CName "u32");
    fld "type" (CName "enum bpf_link_type");
    fld "ops" (CPtr (CName "struct bpf_link_ops"));
    fld "prog" (CPtr (CName "struct bpf_prog"));
    fld "" (CComp CUnion false [
      fld "rcu" (CName "struct callback_head");
      fld "work" (CName "struct work_struct")])].

Definition struct_bpf_lru_list : decl :=
  DComp "struct bpf_lru_list" CStruct false [
    fld "lists" (CArr (CName "struct list_head") 3);
    fld "counts" (CArr (CInt IUInt) 2);
    fld "next_inactive_rotation" (CPtr (CName "struct list_head"));
    fld "lock" (CName "raw_spinlock_t");
    bit "" (CInt ILong) 64;
    bit "" (CInt ILong) 64;
    bit "" (CInt ILong) 64;
    bit "" (CInt ILong) 64;
    bit "" (CInt ILong) 64;
    bit "" (CInt ILong) 64;
    bit "" (CInt ILong) 64].

Definition struct_bpf_common_lru : decl :=
  DComp "struct bpf_common_lru" CStruct false [
    fld "lru_list" (CName "struct bpf_lru_list");
    fld "local_list" (CPtr (CName "struct bpf_lru_locallist"));
    bit "" (CInt ILong) 64;
    bit "" (CInt ILong) 64;
    bit "" (CInt ILong) 64;
    bit "" (CInt ILong) 64;
    bit "" (CInt ILong) 64;
    bit "" (CInt ILong) 64;
    bit "" (CInt ILong) 64].

Definition struct_bpf_core_relo : decl :=
  DComp "struct bpf_core_relo" CStruct false [
    fld "insn_off" (CName "__u32");
    fld "type_id" (CName "__u32");
    fld "access_str_off" (CName "__u32");
    fld "kind" (CName "enum bpf_core_relo_kind")].

Definition struct_bpf_sock : decl :=
  DComp "struct bpf_sock" CStruct false [
    fld "bound_dev_if" (CName "__u32");
    fld "family" (CName "__u32");
    fld "type" (CName "__u32");
    fld "protocol" (CName "__u32");
    fld "mark" (CName "__u32");
    fld "priority" (CName "__u32");
    fld "src_ip4" (CName "__u32");
    fld "src_ip6" (CArr (CName "__u32") 4);
    fld "src_port" (CName "__u32");
    fld "dst_port" (CName "__be16");
    fld "dst_ip4" (CName "__u32");
    fld "dst_ip6" (CArr (CName "__u32") 4);
    fld "state" (CName "__u32");
    fld "rx_queue_mapping" (CName "__s32")].

Definition struct_bpf_sock_addr : decl :=
  DComp "struct bpf_sock_addr" CStruct false [
    fld "user_family" (CName "__u32");
    fld "user_ip4" (CName "__u32");
    fld "user_ip6" (CArr (CName "__u32") 4);
    fld "user_port" (CName "__u32");
    fld "family" (CName "__u32");
    fld "type" (CName "__u32");
    fld "protocol" (CName "__u32");
    fld "msg_src_ip4" (CName "__u32");
    fld "msg_src_ip6" (CArr (CName "__u32") 4);
    fld "" (CComp CUnion false [
      fld "sk" (CPtr (CName "struct bpf_sock"))])].

Definition struct_bpf_sock_ops : decl :=
  DComp "struct bpf_sock_ops" CStruct false [
    fld "op" (CName "__u32");
    fld "" (CComp CUnion false [
      fld "args" (CArr (CName "__u32") 4);
      fld "reply" (CName "__u32");
      fld "replylong" (CArr (CName "__u32") 4)]);
    fld "family" (CName "__u32");
    fld "remote_ip4" (CName "__u32");
    fld "local_ip4" (CName "__u32");
    fld "remote_ip6" (CArr (CName "__u32") 4);
    fld "local_ip6" (CArr (CName "__u32") 4);
    fld "remote_port" (CName "__u32");
    fld "local_port" (CName "__u32");
    fld "is_fullsock" (CName "__u32");
    fld "snd_cwnd" (CName "__u32");
    fld "srtt_us" (CName "__u32");
    fld "bpf_sock_ops_cb_flags" (CName "__u32");
    fld "state" (CName "__u32");
    fld "rtt_min" (CName "__u32");
    fld "snd_ssthresh" (CName "__u32");
    fld "rcv_nxt" (CName "__u32");
    fld "snd_nxt" (CName "__u32");
    fld "snd_una" (CName "__u32");
    fld "mss_cache" (CName "__u32");
    fld "ecn_flags" (CName "__u32");
    fld "rate_delivered" (CName "__u32");
    fld "rate_interval_us" (CName "__u32");
    fld "packets_out" (CName "__u32");
    fld "retrans_out" (CName "__u32");
    fld "total_retrans" (CName "__u32");
    fld "segs_in" (CName "__u32");
    fld "data_segs_in" (CName "__u32");
    fld "segs_out" (CName "__u32");
    fld "data_segs_out" (CName "__u32");
    fld "lost_out" (CName "__u32");
    fld "sacked_out" (CName "__u32");
    fld "sk_txhash" (CName "__u32");
    fld "bytes_received" (CName "__u64");
    fld "bytes_acked" (CName "__u64");
    fld "" (CComp CUnion false [
      fld "sk" (CPtr (CName "struct bpf_sock"))]);
    fld "" (CComp CUnion false [
      fld "skb_data" (CPtr CVoid)]);
    fld "" (CComp CUnion false [
      fld "skb_data_end" (CPtr CVoid)]);
    fld "skb_len" (CName "__u32");
    fld "skb_tcp_flags" (CName "__u32");
    fld "skb_hwtstamp" (CName "__u64")].

Definition struct_latch_tree_node : decl :=
  DComp "struct latch_tree_node" CStruct false [
    fld "node" (CArr (CName "struct rb_node") 2)].

Definition struct_bpf_ksym : decl :=
  DComp "struct bpf_ksym" CStruct false [
    fld "start" (CInt IULong);
    fld "end" (CInt IULong);
    fld "name" (CArr (CInt IChar) 512);
    fld "lnode" (CName "struct list_head");
    fld "tnode" (CName "struct latch_tree_node");
    fld "prog" (CName "bool")].

Definition struct_bpf_func_proto : decl :=
  DComp "struct bpf_func_proto" CStruct false [
    fld "func" (CPtr (CFun (CName "u64") [CName "u64"; CName "u64"; CName "u64"; CName "u64"; CName "u64"]));
    fld "gpl_only" (CName "bool");
    fld "pkt_access" (CName "bool");
    fld "might_sleep" (CName "bool");
    fld "ret_type" (CName "enum bpf_return_type");
    fld "" (CComp CUnion false [
      fld "" (CComp CStruct false [
        fld "arg1_type" (CName "enum bpf_arg_type");
        fld "arg2_type" (CName "enum bpf_arg_type");
        fld "arg3_type" (CName "enum bpf_arg_type");
        fld "arg4_type" (CName "enum bpf_arg_type");
        fld "arg5_type" (CName "enum bpf_arg_type")]);
      fld "arg_type" (CArr (CName "enum bpf_arg_type") 5)]);
    fld "" (CComp CUnion false [
      fld "" (CComp CStruct false [
        fld "arg1_btf_id" (CPtr (CName "u32"));
        fld "arg2_btf_id" (CPtr (CName "u32"));
        fld "arg3_btf_id" (CPtr (CName "u32"));
        fld "arg4_btf_id" (CPtr (CName "u32"));
        fld "arg5_btf_id" (CPtr (CName "u32"))]);
      fld "arg_btf_id" (CArr (CPtr (CName "u32")) 5);
      fld "" (CComp CStruct false [
        fld "arg1_size" (CName "size_t");
        fld "arg2_size" (CName "size_t");
        fld "arg3_size" (CName "size_t");
        fld "arg4_size" (CName "size_t");
        fld "arg5_size" (CName "size_t")]);
      fld "arg_size" (CArr (CName "size_t") 5)]);
    fld "ret_btf_id" (CPtr (CInt IInt));
    fld "allowed" (CPtr (CFun (CName "bool") [CPtr (CName "struct bpf_prog")]))].

Definition struct_bpf_mem_alloc : decl :=
  DComp "struct bpf_mem_alloc" CStruct false [
    fld "caches" (CPtr (CName "struct bpf_mem_caches"));
    fld "cache" (CPtr (CName "struct bpf_mem_cache"));
    fld "percpu" (CName "bool");
    fld "work" (CName "struct work_struct")].

Definition struct_pcpu_freelist_head : decl :=
  DComp "struct pcpu_freelist_head" CStruct false [
    fld "first" (CPtr (CName "struct pcpu_freelist_node"));
    fld "lock" (CName "raw_spinlock_t")].

Definition struct_pcpu_freelist : decl :=
  DComp "struct pcpu_freelist" CStruct false [
    fld "freelist" (CPtr (CName "struct pcpu_freelist_head"));
    fld "extralist" (CName "struct pcpu_freelist_head")].

Definition typedef_del_from_htab_func : decl := DTypedef "del_from_htab_func" (CPtr (CFun (CName "bool") [CPtr CVoid; CPtr (CName "struct bpf_lru_node")])).

Definition struct_bpf_lru : decl :=
  DComp "struct bpf_lru" CStruct false [
    fld "" (CComp CUnion false [
      fld "common_lru" (CName "struct bpf_common_lru");
      fld "percpu_lru" (CPtr (CName "struct bpf_lru_list"))]);
    fld "del_from_htab" (CName "del_from_htab_func");
    fld "del_arg" (CPtr CVoid);
    fld "hash_offset" (CInt IUInt);
    fld "target_free" (CInt IUInt);
    fld "nr_scans" (CInt IUInt);
    fld "percpu" (CName "bool");
    bit "" (CInt ILong) 64;
    bit "" (CInt ILong) 64;
    bit "" (CInt ILong) 64;
    bit "" (CInt ILong) 64].

Definition struct_bpf_htab : decl :=
  DComp "struct bpf_htab" CStruct false [
    fld "map" (CName "struct bpf_map");
    fld "ma" (CName "struct bpf_mem_alloc");
    fld "pcpu_ma" (CName "struct bpf_mem_alloc");
    fld "buckets" (CPtr (CName "struct bucket"));
    fld "elems" (CPtr CVoid);
    fld "" (CComp CUnion false [
      fld "freelist" (CName "struct pcpu_freelist");
      fld "lru" (CName "struct bpf_lru")]);
    fld "extra_elems" (CPtr (CPtr (CName "struct htab_elem")));
    fld "pcount" (CName "struct percpu_counter");
    fld "count" (CName "atomic_t");
    fld "use_percpu_counter" (CName "bool");
    fld "n_buckets" (CName "u32");
    fld "elem_size" (CName "u32");
    fld "hashrnd" (CName "u32");
    fld "lockdep_key" (CName "struct lock_class_key");
    fld "map_locked" (CArr (CPtr (CInt IInt)) 8);
    bit "" (CInt ILong) 64;
    bit "" (CInt ILong) 64;
    bit "" (CInt ILong) 64;
    bit "" (CInt ILong) 64;
    bit "" (CInt ILong) 64;
    bit "" (CInt ILong) 64;
    bit "" (CInt ILong) 64].

Definition struct_bpf_insn : decl :=
  DComp "struct bpf_insn" CStruct false [
    fld "code" (CName "__u8");
    bit "dst_reg" (CName "__u8") 4;
    bit "src_reg" (CName "__u8") 4;
    fld "off" (CName "__s16");
    fld "imm" (CName "__s32")].

Definition struct_bpf_lru_node : decl :=
  DComp "struct bpf_lru_node" CStruct false [
    fld "list" (CName "struct list_head");
    fld "cpu" (CName "u16");
    fld "type" (CName "u8");
    fld "ref" (CName "u8")].

Definition struct_bpf_map_ops : decl :=
  DComp "struct bpf_map_ops" CStruct false [
    fld "map_alloc_check" (CPtr (CFun (CInt IInt) [CPtr (CName "union bpf_attr")]));
    fld "map_alloc" (CPtr (CFun (CPtr (CName "struct bpf_map")) [CPtr (CName "union bpf_attr")]));
    fld "map_release" (CPtr (CFun CVoid [CPtr (CName "struct bpf_map"); CPtr (CName "struct file")]));
    fld "map_free" (CPtr (CFun CVoid [CPtr (CName "struct bpf_map")]));
    fld "map_get_next_key" (CPtr (CFun (CInt IInt) [CPtr (CName "struct bpf_map"); CPtr CVoid; CPtr CVoid]));
    fld "map_release_uref" (CPtr (CFun CVoid [CPtr (CName "struct bpf_map")]));
    fld "map_lookup_elem_sys_only" (CPtr (CFun (CPtr CVoid) [CPtr (CName "struct bpf_map"); CPtr CVoid]));
    fld "map_lookup_batch" (CPtr (CFun (CInt IInt) [CPtr (CName "struct bpf_map"); CPtr (CName "union bpf_attr"); CPtr (CName "union bpf_attr")]));
    fld "map_lookup_and_delete_elem" (CPtr (CFun (CInt IInt) [CPtr (CName "struct bpf_map"); CPtr CVoid; CPtr CVoid; CName "u64"]));
    fld "map_lookup_and_delete_batch" (CPtr (CFun (CInt IInt) [CPtr (CName "struct bpf_map"); CPtr (CName "union bpf_attr"); CPtr (CName "union bpf_attr")]));
    fld "map_update_batch" (CPtr (CFun (CInt IInt) [CPtr (CName "struct bpf_map"); CPtr (CName "struct file"); CPtr (CName "union bpf_attr"); CPtr (CName "union bpf_attr")]));
    fld "map_delete_batch" (CPtr (CFun (CInt IInt) [CPtr (CName "struct bpf_map"); CPtr (CName "union bpf_attr"); CPtr (CName "union bpf_attr")]));
    fld "map_lookup_elem" (CPtr (CFun (CPtr CVoid) [CPtr (CName "struct bpf_map"); CPtr CVoid]));
    fld "map_update_elem" (CPtr (CFun (CInt ILong) [CPtr (CName "struct bpf_map"); CPtr CVoid; CPtr CVoid; CName "u64"]));
    fld "map_delete_elem" (CPtr (CFun (CInt ILong) [CPtr (CName "struct bpf_map"); CPtr CVoid]));
    fld "map_push_elem" (CPtr (CFun (CInt ILong) [CPtr (CName "struct bpf_map"); CPtr CVoid; CName "u64"]));
    fld "map_pop_elem" (CPtr (CFun (CInt ILong) [CPtr (CName "struct bpf_map"); CPtr CVoid]));
    fld "map_peek_elem" (CPtr (CFun (CInt ILong) [CPtr (CName "struct bpf_map"); CPtr CVoid]));
    fld "map_lookup_percpu_elem" (CPtr (CFun (CPtr CVoid) [CPtr (CName "struct bpf_map"); CPtr CVoid; CName "u32"]));
    fld "map_fd_get_ptr" (CPtr (CFun (CPtr CVoid) [CPtr (CName "struct bpf_map"); CPtr (CName "struct file"); CInt IInt]));
    fld "map_fd_put_ptr" (CPtr (CFun CVoid [CPtr (CName "struct bpf_map"); CPtr CVoid; CName "bool"]));
    fld "map_gen_lookup" (CPtr (CFun (CInt IInt) [CPtr (CName "struct bpf_map"); CPtr (CName "struct bpf_insn")]));
    fld "map_fd_sys_lookup_elem" (CPtr (CFun (CName "u32") [CPtr CVoid]));
    fld "map_seq_show_elem" (CPtr (CFun CVoid [CPtr (CName "struct bpf_map"); CPtr CVoid; CPtr (CName "struct seq_file")]));
    fld "map_check_btf" (CPtr (CFun (CInt IInt) [CPtr (CName "struct bpf_map"); CPtr (CName "struct btf"); CPtr (CName "struct btf_type"); CPtr (CName "struct btf_type")]));
    fld "map_poke_track" (CPtr (CFun (CInt IInt) [CPtr (CName "struct bpf_map"); CPtr (CName "struct bpf_prog_aux")]));
    fld "map_poke_untrack" (CPtr (CFun CVoid [CPtr (CName "struct bpf_map"); CPtr (CName "struct bpf_prog_aux")]));
    fld "map_poke_run" (CPtr (CFun CVoid [CPtr (CName "struct bpf_map"); CName "u32"; CPtr (CName "struct bpf_prog"); CPtr (CName "struct bpf_prog")]));
    fld "map_direct_value_addr" (CPtr (CFun (CInt IInt) [CPtr (CName "struct bpf_map"); CPtr (CName "u64"); CName "u32"]));
    fld "map_direct_value_meta" (CPtr (CFun (CInt IInt) [CPtr (CName "struct bpf_map"); CName "u64"; CPtr (CName "u32")]));
    fld "map_mmap" (CPtr (CFun (CInt IInt) [CPtr (CName "struct bpf_map"); CPtr (CName "struct vm_area_struct")]));
    fld "map_poll" (CPtr (CFun (CName "__poll_t") [CPtr (CName "struct bpf_map"); CPtr (CName "struct file"); CPtr (CName "struct poll_table_struct")]));
    fld "map_local_storage_charge" (CPtr (CFun (CInt IInt) [CPtr (CName "struct bpf_local_storage_map"); CPtr CVoid; CName "u32"]));
    fld "map_local_storage_uncharge" (CPtr (CFun CVoid [CPtr (CName "struct bpf_local_storage_map"); CPtr CVoid; CName "u32"]));
    fld "map_owner_storage_ptr" (CPtr (CFun (CPtr (CPtr (CName "struct bpf_local_storage"))) [CPtr CVoid]));
    fld "map_redirect" (CPtr (CFun (CInt ILong) [CPtr (CName "struct bpf_map"); CName "u64"; CName "u64"]));
    fld "map_meta_equal" (CPtr (CFun (CName "bool") [CPtr (CName "struct bpf_map"); CPtr (CName "struct bpf_map")]));
    fld "map_set_for_each_callback_args" (CPtr (CFun (CInt IInt) [CPtr (CName "struct bpf_verifier_env"); CPtr (CName "struct bpf_func_state"); CPtr (CName "struct bpf_func_state")]));
    fld "map_for_each_callback" (CPtr (CFun (CInt ILong) [CPtr (CName "struct bpf_map"); CName "bpf_callback_t"; CPtr CVoid; CName "u64"]));
    fld "map_mem_usage" (CPtr (CFun (CName "u64") [CPtr (CName "struct bpf_map")]));
    fld "map_btf_id" (CPtr (CInt IInt));
    fld "iter_seq_info" (CPtr (CName "struct bpf_iter_seq_info"))].

Definition struct_rcuwait : decl :=
  DComp "struct rcuwait" CStruct false [
    fld "task" (CPtr (CName "struct task_struct"))].

Definition struct_irq_work : decl :=
  DComp "struct irq_work" CStruct false [
    fld "node" (CName "struct __call_single_node");
    fld "func" (CPtr (CFun CVoid [CPtr (CName "struct irq_work")]));
    fld "irqwait" (CName "struct rcuwait")].

Definition struct_bpf_perf_link : decl :=
  DComp "struct bpf_perf_link" CStruct false [
    fld "link" (CName "struct bpf_link");
    fld "perf_file" (CPtr (CName "struct file"))].

Definition struct_sock_filter : decl :=
  DComp "struct sock_filter" CStruct false [
    fld "code" (CName "__u16");
    fld "jt" (CName "__u8");
    fld "jf" (CName "__u8");
    fld "k" (CName "__u32")].

Definition struct_bpf_prog : decl :=
  DComp "struct bpf_prog" CStruct false [
    fld "pages" (CName "u16");
    bit "jited" (CName "u16") 1;
    bit "jit_requested" (CName "u16") 1;
    bit "gpl_compatible" (CName "u16") 1;
    bit "cb_access" (CName "u16") 1;
    bit "dst_needed" (CName "u16") 1;
    bit "blinding_requested" (CName "u16") 1;
    bit "blinded" (CName "u16") 1;
    bit "is_func" (CName "u16") 1;
    bit "kprobe_override" (CName "u16") 1;
    bit "has_callchain_buf" (CName "u16") 1;
    bit "enforce_expected_attach_type" (CName "u16") 1;
    bit "call_get_stack" (CName "u16") 1;
    bit "call_get_func_ip" (CName "u16") 1;
    bit "tstamp_type_access" (CName "u16") 1;
    fld "type" (CName "enum bpf_prog_type");
    fld "expected_attach_type" (CName "enum bpf_attach_type");
    fld "len" (CName "u32");
    fld "jited_len" (CName "u32");
    fld "tag" (CArr (CName "u8") 8);
    fld "stats" (CPtr (CName "struct bpf_prog_stats"));
    fld "active" (CPtr (CInt IInt));
    fld "bpf_func" (CPtr (CFun (CInt IUInt) [CPtr CVoid; CPtr (CName "struct bpf_insn")]));
    fld "aux" (CPtr (CName "struct bpf_prog_aux"));
    fld "orig_prog" (CPtr (CName "struct sock_fprog_kern"));
    fld "" (CComp CUnion false [
      fld "" (CComp CStruct false [
        fld "__empty_insns" (CComp CStruct false []);
        fld "insns" (CArr (CName "struct sock_filter") 0)]);
      fld "" (CComp CStruct false [
        fld "__empty_insnsi" (CComp CStruct false []);
        fld "insnsi" (CArr (CName "struct bpf_insn") 0)])])].

Definition struct_bpf_prog_aux : decl :=
  DComp "struct bpf_prog_aux" CStruct false [
    fld "refcnt" (CName "atomic64_t");
    fld "used_map_cnt" (CName "u32");
    fld "used_btf_cnt" (CName "u32");
    fld "max_ctx_offset" (CName "u32");
    fld "max_pkt_offset" (CName "u32");
    fld "max_tp_access" (CName "u32");
    fld "stack_depth" (CName "u32");
    fld "id" (CName "u32");
    fld "func_cnt" (CName "u32");
    fld "func_idx" (CName "u32");
    fld "attach_btf_id" (CName "u32");
    fld "ctx_arg_info_size" (CName "u32");
    fld "max_rdonly_access" (CName "u32");
    fld "max_rdwr_access" (CName "u32");
    fld "attach_btf" (CPtr (CName "struct btf"));
    fld "ctx_arg_info" (CPtr (CName "struct bpf_ctx_arg_aux"));
    fld "dst_mutex" (CName "struct mutex");
    fld "dst_prog" (CPtr (CName "struct bpf_prog"));
    fld "dst_trampoline" (CPtr (CName "struct bpf_trampoline"));
    fld "saved_dst_prog_type" (CName "enum bpf_prog_type");
    fld "saved_dst_attach_type" (CName "enum bpf_attach_type");
    fld "verifier_zext" (CName "bool");
    fld "dev_bound" (CName "bool");
    fld "offload_requested" (CName "bool");
    fld "attach_btf_trace" (CName "bool");
    fld "func_proto_unreliable" (CName "bool");
    fld "sleepable" (CName "bool");
    fld "tail_call_reachable" (CName "bool");
    fld "xdp_has_frags" (CName "bool");
    fld "changes_pkt_data" (CName "bool");
    fld "attach_func_proto" (CPtr (CName "struct btf_type"));
    fld "attach_func_name" (CPtr (CInt IChar));
    fld "func" (CPtr (CPtr (CName "struct bpf_prog")));
    fld "jit_data" (CPtr CVoid);
    fld "poke_tab" (CPtr (CName "struct bpf_jit_poke_descriptor"));
    fld "kfunc_tab" (CPtr (CName "struct bpf_kfunc_desc_tab"));
    fld "kfunc_btf_tab" (CPtr (CName "struct bpf_kfunc_btf_tab"));
    fld "size_poke_tab" (CName "u32");
    fld "ksym" (CName "struct bpf_ksym");
    fld "ops" (CPtr (CName "struct bpf_prog_ops"));
    fld "used_maps" (CPtr (CPtr (CName "struct bpf_map")));
    fld "used_maps_mutex" (CName "struct mutex");
    fld "used_btfs" (CPtr (CName "struct btf_mod_pair"));
    fld "prog" (CPtr (CName "struct bpf_prog"));
    fld "user" (CPtr (CName "struct user_struct"));
    fld "load_time" (CName "u64");
    fld "verified_insns" (CName "u32");
    fld "cgroup_atype" (CInt IInt);
    fld "cgroup_storage" (CArr (CPtr (CName "struct bpf_map")) 2);
    fld "name" (CArr (CInt IChar) 16);
    fld "security" (CPtr CVoid);
    fld "offload" (CPtr (CName "struct bpf_prog_offload"));
    fld "btf" (CPtr (CName "struct btf"));
    fld "func_info" (CPtr (CName "struct bpf_func_info"));
    fld "func_info_aux" (CPtr (CName "struct bpf_func_info_aux"));
    fld "linfo" (CPtr (CName "struct bpf_line_info"));
    fld "jited_linfo" (CPtr (CPtr CVoid));
    fld "func_info_cnt" (CName "u32");
    fld "nr_linfo" (CName "u32");
    fld "linfo_idx" (CName "u32");
    fld "mod" (CPtr (CName "struct module"));
    fld "num_exentries" (CName "u32");
    fld "extable" (CPtr (CName "struct exception_table_entry"));
    fld "" (CComp CUnion false [
      fld "work" (CName "struct work_struct");
      fld "rcu" (CName "struct callback_head")])].

Definition struct_bpf_ringbuf_hdr : decl :=
  DComp "struct bpf_ringbuf_hdr" CStruct false [
    fld "len" (CName "u32");
    fld "pg_off" (CName "u32")].

Definition struct_bpf_ringbuf_map : decl :=
  DComp "struct bpf_ringbuf_map" CStruct false [
    fld "map" (CName "struct bpf_map");
    fld "rb" (CPtr (CName "struct bpf_ringbuf"));
    bit "" (CInt ILong) 64;
    bit "" (CInt ILong) 64;
    bit "" (CInt ILong) 64;
    bit "" (CInt ILong) 64;
    bit "" (CInt ILong) 64;
    bit "" (CInt ILong) 64;
    bit "" (CInt ILong) 64].

Definition struct_bpf_tramp_link : decl :=
  DComp "struct bpf_tramp_link" CStruct false [
    fld "link" (CName "struct bpf_link");
    fld "tramp_hlist" (CName "struct hlist_node");
    fld "cookie" (CName "u64")].

Definition struct_bpf_trace_run_ctx : decl :=
  DComp "struct bpf_trace_run_ctx" CStruct false [
    fld "run_ctx" (CName "struct bpf_run_ctx");
    fld "bpf_cookie" (CName "u64");
    fld "is_uprobe" (CName "bool")].

Definition struct_bpf_tracing_link : decl :=
  DComp "struct bpf_tracing_link" CStruct false [
    fld "link" (CName "struct bpf_tramp_link");
    fld "attach_type" (CName "enum bpf_attach_type");
    fld "trampoline" (CPtr (CName "struct bpf_trampoline"));
    fld "tgt_prog" (CPtr (CName "struct bpf_prog"))].

Definition struct_btf_header : decl :=
  DComp "struct btf_header" CStruct false [
    fld "magic" (CName "__u16");
    fld "version" (CName "__u8");
    fld "flags" (CName "__u8");
    fld "hdr_len" (CName "__u32");
    fld "type_off" (CName "__u32");
    fld "type_len" (CName "__u32");
    fld "str_off" (CName "__u32");
    fld "str_len" (CName "__u32")].

Definition struct_btf_type : decl :=
  DComp "struct btf_type" CStruct false [
    fld "name_off" (CName "__u32");
    fld "info" (CName "__u32");
    fld "" (CComp CUnion false [
      fld "size" (CName "__u32");
      fld "type" (CName "__u32")])].

Definition struct_freelist_node : decl :=
  DComp "struct freelist_node" CStruct false [
    fld "refs" (CName "atomic_t");
    fld "next" (CPtr (CName "struct freelist_node"))].

Definition typedef_ftrace_func_t : decl := DTypedef "ftrace_func_t" (CPtr (CFun CVoid [CInt IULong; CInt IULong; CPtr (CName "struct ftrace_ops"); CPtr (CName "struct ftrace_regs")])).

Definition struct_ftrace_ops_hash : decl :=
  DComp "struct ftrace_ops_hash" CStruct false [
    fld "notrace_hash" (CPtr (CName "struct ftrace_hash"));
    fld "filter_hash" (CPtr (CName "struct ftrace_hash"));
    fld "regex_lock" (CName "struct mutex")].

Definition typedef_ftrace_ops_func_t : decl := DTypedef "ftrace_ops_func_t" (CPtr (CFun (CInt IInt) [CPtr (CName "struct ftrace_ops"); CName "enum ftrace_ops_cmd"])).

Definition struct_ftrace_ops : decl :=
  DComp "struct ftrace_ops" CStruct false [
    fld "func" (CName "ftrace_func_t");
    fld "next" (CPtr (CName "struct ftrace_ops"));
    fld "flags" (CInt IULong);
    fld "private" (CPtr CVoid);
    fld "saved_func" (CName "ftrace_func_t");
    fld "local_hash" (CName "struct ftrace_ops_hash");
    fld "func_hash" (CPtr (CName "struct ftrace_ops_hash"));
    fld "old_hash" (CName "struct ftrace_ops_hash");
    fld "trampoline" (CInt IULong);
    fld "trampoline_size" (CInt IULong);
    fld "list" (CName "struct list_head");
    fld "ops_func" (CName "ftrace_ops_func_t");
    fld "direct_call" (CInt IULong)].

Definition struct_pcpu_freelist_node : decl :=
  DComp "struct pcpu_freelist_node" CStruct false [
    fld "next" (CPtr (CName "struct pcpu_freelist_node"))].

Definition struct_htab_elem : decl :=
  DComp "struct htab_elem" CStruct false [
    fld "" (CComp CUnion false [
      fld "hash_node" (CName "struct hlist_nulls_node");
      fld "" (CComp CStruct false [
        fld "padding" (CPtr CVoid);
        fld "" (CComp CUnion false [
          fld "fnode" (CName "struct pcpu_freelist_node");
          fld "batch_flink" (CPtr (CName "struct htab_elem"))])])]);
    fld "" (CComp CUnion false [
      fld "ptr_to_pptr" (CPtr CVoid);
      fld "lru_node" (CName "struct bpf_lru_node")]);
    fld "hash" (CName "u32");
    bit "" (CInt ILong) 0;
    fld "key" (CArr (CInt IChar) 0)].

Definition struct_hw_perf_event_extra : decl :=
  DComp "struct hw_perf_event_extra" CStruct false [
    fld "config" (CName "u64");
    fld "reg" (CInt IUInt);
    fld "alloc" (CInt IInt);
    fld "idx" (CInt IInt)].

Definition struct_rhlist_head : decl :=
  DComp "struct rhlist_head" CStruct false [
    fld "rhead" (CName "struct rhash_head");
    fld "next" (CPtr (CName "struct rhlist_head"))].

Definition struct_hw_perf_event : decl :=
  DComp "struct hw_perf_event" CStruct false [
    fld "" (CComp CUnion false [
      fld "" (CComp CStruct false [
        fld "config" (CName "u64");
        fld "last_tag" (CName "u64");
        fld "config_base" (CInt IULong);
        fld "event_base" (CInt IULong);
        fld "event_base_rdpmc" (CInt IInt);
        fld "idx" (CInt IInt);
        fld "last_cpu" (CInt IInt);
        fld "flags" (CInt IInt);
        fld "extra_reg" (CName "struct hw_perf_event_extra");
        fld "branch_reg" (CName "struct hw_perf_event_extra")]);
      fld "" (CComp CStruct false [
        fld "hrtimer" (CName "struct hrtimer")]);
      fld "" (CComp CStruct false [
        fld "tp_list" (CName "struct list_head")]);
      fld "" (CComp CStruct false [
        fld "pwr_acc" (CName "u64");
        fld "ptsc" (CName "u64")]);
      fld "" (CComp CStruct false [
        fld "info" (CName "struct arch_hw_breakpoint");
        fld "bp_list" (CName "struct rhlist_head")]);
      fld "" (CComp CStruct false [
        fld "iommu_bank" (CName "u8");
        fld "iommu_cntr" (CName "u8");
        fld "padding" (CName "u16");
        fld "conf" (CName "u64");
        fld "conf1" (CName "u64")])]);
    fld "target" (CPtr (CName "struct task_struct"));
    fld "addr_filters" (CPtr CVoid);
    fld "addr_filters_gen" (CInt IULong);
    fld "state" (CInt IInt);
    fld "prev_count" (CName "local64_t");
    fld "sample_period" (CName "u64");
    fld "" (CComp CUnion false [
      fld "" (CComp CStruct false [
        fld "last_period" (CName "u64");
        fld "period_left" (CName "local64_t")]);
      fld "" (CComp CStruct false [
        fld "saved_metric" (CName "u64");
        fld "saved_slots" (CName "u64")])]);
    fld "interrupts_seq" (CName "u64");
    fld "interrupts" (CName "u64");
    fld "freq_time_stamp" (CName "u64");
    fld "freq_count_stamp" (CName "u64")].

Definition typedef_kprobe_pre_handler_t : decl := DTypedef "kprobe_pre_handler_t" (CPtr (CFun (CInt IInt) [CPtr (CName "struct kprobe"); CPtr (CName "struct pt_regs")])).

Definition typedef_kprobe_post_handler_t : decl := DTypedef "kprobe_post_handler_t" (CPtr (CFun CVoid [CPtr (CName "struct kprobe"); CPtr (CName "struct pt_regs"); CInt IULong])).

Definition struct_kprobe : decl :=
  DComp "struct kprobe" CStruct false [
    fld "hlist" (CName "struct hlist_node");
    fld "list" (CName "struct list_head");
    fld "nmissed" (CInt IULong);
    fld "addr" (CPtr (CName "kprobe_opcode_t"));
    fld "symbol_name" (CPtr (CInt IChar));
    fld "offset" (CInt IUInt);
    fld "pre_handler" (CName "kprobe_pre_handler_t");
    fld "post_handler" (CName "kprobe_post_handler_t");
    fld "opcode" (CName "kprobe_opcode_t");
    fld "ainsn" (CName "struct arch_specific_insn");
    fld "flags" (CName "u32")].

Definition typedef_kretprobe_handler_t : decl := DTypedef "kretprobe_handler_t" (CPtr (CFun (CInt IInt) [CPtr (CName "struct kretprobe_instance"); CPtr (CName "struct pt_regs")])).

Definition struct_kretprobe : decl :=
  DComp "struct kretprobe" CStruct false [
    fld "kp" (CName "struct kprobe");
    fld "handler" (CName "kretprobe_handler_t");
    fld "entry_handler" (CName "kretprobe_handler_t");
    fld "maxactive" (CInt IInt);
    fld "nmissed" (CInt IInt);
    fld "data_size" (CName "size_t");
    fld "rh" (CPtr (CName "struct rethook"))].

Definition struct_rethook_node : decl :=
  DComp "struct rethook_node" CStruct false [
    fld "" (CComp CUnion false [
      fld "freelist" (CName "struct freelist_node");
      fld "rcu" (CName "struct callback_head")]);
    fld "llist" (CName "struct llist_node");
    fld "rethook" (CPtr (CName "struct rethook"));
    fld "ret_addr" (CInt IULong);
    fld "frame" (CInt IULong)].

Definition struct_kretprobe_instance : decl :=
  DComp "struct kretprobe_instance" CStruct false [
    fld "node" (CName "struct rethook_node");
    fld "data" (CArr (CInt IChar) 0)].

Definition struct_perf_addr_filters_head : decl :=
  DComp "struct perf_addr_filters_head" CStruct false [
    fld "list" (CName "struct list_head");
    fld "lock" (CName "raw_spinlock_t");
    fld "nr_file_filters" (CInt IUInt)].

Definition struct_perf_event_attr : decl :=
  DComp "struct perf_event_attr" CStruct false [
    fld "type" (CName "__u32");
    fld "size" (CName "__u32");
    fld "config" (CName "__u64");
    fld "" (CComp CUnion false [
      fld "sample_period" (CName "__u64");
      fld "sample_freq" (CName "__u64")]);
    fld "sample_type" (CName "__u64");
    fld "read_format" (CName "__u64");
    bit "disabled" (CName "__u64") 1;
    bit "inherit" (CName "__u64") 1;
    bit "pinned" (CName "__u64") 1;
    bit "exclusive" (CName "__u64") 1;
    bit "exclude_user" (CName "__u64") 1;
    bit "exclude_kernel" (CName "__u64") 1;
    bit "exclude_hv" (CName "__u64") 1;
    bit "exclude_idle" (CName "__u64") 1;
    bit "mmap" (CName "__u64") 1;
    bit "comm" (CName "__u64") 1;
    bit "freq" (CName "__u64") 1;
    bit "inherit_stat" (CName "__u64") 1;
    bit "enable_on_exec" (CName "__u64") 1;
    bit "task" (CName "__u64") 1;
    bit "watermark" (CName "__u64") 1;
    bit "precise_ip" (CName "__u64") 2;
    bit "mmap_data" (CName "__u64") 1;
    bit "sample_id_all" (CName "__u64") 1;
    bit "exclude_host" (CName "__u64") 1;
    bit "exclude_guest" (CName "__u64") 1;
    bit "exclude_callchain_kernel" (CName "__u64") 1;
    bit "exclude_callchain_user" (CName "__u64") 1;
    bit "mmap2" (CName "__u64") 1;
    bit "comm_exec" (CName "__u64") 1;
    bit "use_clockid" (CName "__u64") 1;
    bit "context_switch" (CName "__u64") 1;
    bit "write_backward" (CName "__u64") 1;
    bit "namespaces" (CName "__u64") 1;
    bit "ksymbol" (CName "__u64") 1;
    bit "bpf_event" (CName "__u64") 1;
    bit "aux_output" (CName "__u64") 1;
    bit "cgroup" (CName "__u64") 1;
    bit "text_poke" (CName "__u64") 1;
    bit "build_id" (CName "__u64") 1;
    bit "inherit_thread" (CName "__u64") 1;
    bit "remove_on_exec" (CName "__u64") 1;
    bit "sigtrap" (CName "__u64") 1;
    bit "__reserved_1" (CName "__u64") 26;
    fld "" (CComp CUnion false [
      fld "wakeup_events" (CName "__u32");
      fld "wakeup_watermark" (CName "__u32")]);
    fld "bp_type" (CName "__u32");
    fld "" (CComp CUnion false [
      fld "bp_addr" (CName "__u64");
      fld "kprobe_func" (CName "__u64");
      fld "uprobe_path" (CName "__u64");
      fld "config1" (CName "__u64")]);
    fld "" (CComp CUnion false [
      fld "bp_len" (CName "__u64");
      fld "kprobe_addr" (CName "__u64");
      fld "probe_offset" (CName "__u64");
      fld "config2" (CName "__u64")]);
    fld "branch_sample_type" (CName "__u64");
    fld "sample_regs_user" (CName "__u64");
    fld "sample_stack_user" (CName "__u32");
    fld "clockid" (CName "__s32");
    fld "sample_regs_intr" (CName "__u64");
    fld "aux_watermark" (CName "__u32");
    fld "sample_max_stack" (CName "__u16");
    fld "__reserved_2" (CName "__u16");
    fld "aux_sample_size" (CName "__u32");
    fld "__reserved_3" (CName "__u32");
    fld "sig_data" (CName "__u64");
    fld "config3" (CName "__u64")].

Definition typedef_perf_overflow_handler_t : decl := DTypedef "perf_overflow_handler_t" (CPtr (CFun CVoid [CPtr (CName "struct perf_event"); CPtr (CName "struct perf_sample_data"); CPtr (CName "struct pt_regs")])).

Definition struct_perf_event : decl :=
  DComp "struct perf_event" CStruct false [
    fld "event_entry" (CName "struct list_head");
    fld "sibling_list" (CName "struct list_head");
    fld "active_list" (CName "struct list_head");
    fld "group_node" (CName "struct rb_node");
    fld "group_index" (CName "u64");
    fld "migrate_entry" (CName "struct list_head");
    fld "hlist_entry" (CName "struct hlist_node");
    fld "active_entry" (CName "struct list_head");
    fld "nr_siblings" (CInt IInt);
    fld "event_caps" (CInt IInt);
    fld "group_caps" (CInt IInt);
    fld "group_generation" (CInt IUInt);
    fld "group_leader" (CPtr (CName "struct perf_event"));
    fld "pmu" (CPtr (CName "struct pmu"));
    fld "pmu_private" (CPtr CVoid);
    fld "state" (CName "enum perf_event_state");
    fld "attach_state" (CInt IUInt);
    fld "count" (CName "local64_t");
    fld "child_count" (CName "atomic64_t");
    fld "total_time_enabled" (CName "u64");
    fld "total_time_running" (CName "u64");
    fld "tstamp" (CName "u64");
    fld "attr" (CName "struct perf_event_attr");
    fld "header_size" (CName "u16");
    fld "id_header_size" (CName "u16");
    fld "read_size" (CName "u16");
    fld "hw" (CName "struct hw_perf_event");
    fld "ctx" (CPtr (CName "struct perf_event_context"));
    fld "pmu_ctx" (CPtr (CName "struct perf_event_pmu_context"));
    fld "refcount" (CName "atomic_long_t");
    fld "child_total_time_enabled" (CName "atomic64_t");
    fld "child_total_time_running" (CName "atomic64_t");
    fld "child_mutex" (CName "struct mutex");
    fld "child_list" (CName "struct list_head");
    fld "parent" (CPtr (CName "struct perf_event"));
    fld "oncpu" (CInt IInt);
    fld "cpu" (CInt IInt);
    fld "owner_entry" (CName "struct list_head");
    fld "owner" (CPtr (CName "struct task_struct"));
    fld "mmap_mutex" (CName "struct mutex");
    fld "mmap_count" (CName "atomic_t");
    fld "rb" (CPtr (CName "struct perf_buffer"));
    fld "rb_entry" (CName "struct list_head");
    fld "rcu_batches" (CInt IULong);
    fld "rcu_pending" (CInt IInt);
    fld "waitq" (CName "wait_queue_head_t");
    fld "fasync" (CPtr (CName "struct fasync_struct"));
    fld "pending_wakeup" (CInt IUInt);
    fld "pending_kill" (CInt IUInt);
    fld "pending_disable" (CInt IUInt);
    fld "pending_sigtrap" (CInt IUInt);
    fld "pending_addr" (CInt IULong);
    fld "pending_irq" (CName "struct irq_work");
    fld "pending_task" (CName "struct callback_head");
    fld "pending_work" (CInt IUInt);
    fld "pending_work_wait" (CName "struct rcuwait");
    fld "event_limit" (CName "atomic_t");
    fld "addr_filters" (CName "struct perf_addr_filters_head");
    fld "addr_filter_ranges" (CPtr (CName "struct perf_addr_filter_range"));
    fld "addr_filters_gen" (CInt IULong);
    fld "aux_event" (CPtr (CName "struct perf_event"));
    fld "destroy" (CPtr (CFun CVoid [CPtr (CName "struct perf_event")]));
    fld "callback_head" (CName "struct callback_head");
    fld "ns" (CPtr (CName "struct pid_namespace"));
    fld "id" (CName "u64");
    fld "lost_samples" (CName "atomic64_t");
    fld "clock" (CPtr (CFun (CName "u64") []));
    fld "overflow_handler" (CName "perf_overflow_handler_t");
    fld "overflow_handler_context" (CPtr CVoid);
    fld "orig_overflow_handler" (CName "perf_overflow_handler_t");
    fld "prog" (CPtr (CName "struct bpf_prog"));
    fld "bpf_cookie" (CName "u64");
    fld "tp_event" (CPtr (CName "struct trace_event_call"));
    fld "filter" (CPtr (CName "struct event_filter"));
    fld "ftrace_ops" (CName "struct ftrace_ops");
    fld "cgrp" (CPtr (CName "struct perf_cgroup"));
    fld "security" (CPtr CVoid);
    fld "sb_list" (CName "struct list_head");
    fld "orig_type" (CName "__u32")].

Definition struct_trace_event : decl :=
  DComp "struct trace_event" CStruct false [
    fld "node" (CName "struct hlist_node");
    fld "type" (CInt IInt);
    fld "funcs" (CPtr (CName "struct trace_event_functions"))].

Definition struct_trace_event_call : decl :=
  DComp "struct trace_event_call" CStruct false [
    fld "list" (CName "struct list_head");
    fld "class" (CPtr (CName "struct trace_event_class"));
    fld "" (CComp CUnion false [
      fld "name" (CPtr (CInt IChar));
      fld "tp" (CPtr (CName "struct tracepoint"))]);
    fld "event" (CName "struct trace_event");
    fld "print_fmt" (CPtr (CInt IChar));
    fld "filter" (CPtr (CName "struct event_filter"));
    fld "" (CComp CUnion false [
      fld "module" (CPtr CVoid);
      fld "refcnt" (CName "atomic_t")]);
    fld "data" (CPtr CVoid);
    fld "flags" (CInt IInt);
    fld "perf_refcount" (CInt IInt);
    fld "perf_events" (CPtr (CName "struct hlist_head"));
    fld "prog_array" (CPtr (CName "struct bpf_prog_array"));
    fld "perf_perm" (CPtr (CFun (CInt IInt) [CPtr (CName "struct trace_event_call"); CPtr (CName "struct perf_event")]))].

(** The declarations of this file, in order. *)
Definition bpf_decls : list decl := [
  enum_bpf_arg_type; enum_bpf_attach_type; enum_bpf_cmd; enum_bpf_core_relo_kind;
  enum_bpf_func_id; enum_bpf_link_type; enum_bpf_map_type; enum_bpf_prog_type;
  enum_bpf_return_type; enum_perf_event_state; typedef_s32; typedef_kprobe_opcode_t;
  typedef_local_t; typedef_local64_t; struct_lock_class_key; struct_arch_hw_breakpoint;
  struct_arch_specific_insn; struct_bpf_map; union_bpf_attr; struct_bpf_run_ctx;
  struct_bpf_link; struct_bpf_lru_list; struct_bpf_common_lru; struct_bpf_core_relo;
  struct_bpf_sock; struct_bpf_sock_addr; struct_bpf_sock_ops; struct_latch_tree_node;
  struct_bpf_ksym; struct_bpf_func_proto; struct_bpf_mem_alloc; struct_pcpu_freelist_head;
  struct_pcpu_freelist; typedef_del_from_htab_func; struct_bpf_lru; struct_bpf_htab;
  struct_bpf_insn; struct_bpf_lru_node; struct_bpf_map_ops; struct_rcuwait; struct_irq_work;
  struct_bpf_perf_link; struct_sock_filter; struct_bpf_prog; struct_bpf_prog_aux;
  struct_bpf_ringbuf_hdr; struct_bpf_ringbuf_map; struct_bpf_tramp_link;
  struct_bpf_trace_run_ctx; struct_bpf_tracing_link; struct_btf_header; struct_btf_type;
  struct_freelist_node; typedef_ftrace_func_t; struct_ftrace_ops_hash;
  typedef_ftrace_ops_func_t; struct_ftrace_ops; struct_pcpu_freelist_node; struct_htab_elem;
  struct_hw_perf_event_extra; struct_rhlist_head; struct_hw_perf_event;
  typedef_kprobe_pre_handler_t; typedef_kprobe_post_handler_t; struct_kprobe;
  typedef_kretprobe_handler_t; struct_kretprobe; struct_rethook_node;
  struct_kretprobe_instance; struct_perf_addr_filters_head; struct_perf_event_attr;
  typedef_perf_overflow_handler_t; struct_perf_event; struct_trace_event;
  struct_trace_event_call].
