(* ===== verification/Vmlinux.v ===== *)
(** * The layout of the kernel types

    All declarations transcribed from [vmlinux.h], laid out.  This is the
    type information the CO-RE reads of the probes are resolved against. *)

From S2P Require Import Prelude CLayout.
From S2P Require Import VmlinuxBase VmlinuxNet VmlinuxNetNs VmlinuxTask VmlinuxBpf.

#[local] Open Scope string_scope.
#[local] Open Scope list_scope.
#[local] Open Scope Z_scope.

Definition vmlinux_decls : list decl :=
  base_decls ++ net_decls ++ netns_decls ++ task_decls ++ bpf_decls.

Definition vmlinux : layouts := default ∅ (layout_decls vmlinux_decls ∅).

(** Every declaration is complete: no type is used by value before it is
    declared and none is declared twice. *)
Lemma vmlinux_complete : layout_decls vmlinux_decls ∅ = Some vmlinux.
Proof.
  assert (match layout_decls vmlinux_decls ∅ with Some _ => true | None => false end = true)
    as H by (vm_compute; reflexivity).
  unfold vmlinux. revert H. by destruct (layout_decls vmlinux_decls ∅).
Qed.

Lemma vmlinux_wf : wf_env vmlinux.
Proof. eapply layout_decls_env; [apply wf_env_empty|apply vmlinux_complete]. Qed.

(** The socket objects a [struct sock *] of the hooked functions points to,
    with the members that lead to the embedded [struct sock]. *)
Definition sock_objects : list (string * list string) := [
  ("struct inet_sock", ["sk"]);
  ("struct inet_connection_sock", ["icsk_inet"; "sk"]);
  ("struct tcp_sock", ["inet_conn"; "icsk_inet"; "sk"]);
  ("struct tcp6_sock", ["tcp"; "inet_conn"; "icsk_inet"; "sk"]);
  ("struct udp_sock", ["inet"; "sk"]);
  ("struct udp6_sock", ["udp"; "inet"; "sk"]);
  ("struct raw_sock", ["inet"; "sk"]);
  ("struct unix_sock", ["sk"]);
  ("struct netlink_sock", ["sk"])].

(** The socket-like objects that only share [struct sock_common]. *)
Definition sock_common_objects : list (string * list string) := [
  ("struct sock", ["__sk_common"]);
  ("struct request_sock", ["__req_common"]);
  ("struct tcp_request_sock", ["req"; "req"; "__req_common"]);
  ("struct inet_timewait_sock", ["__tw_common"]);
  ("struct tcp_timewait_sock", ["tw_sk"; "__tw_common"])].

(** The object designated by [chain] in [T] is at the start of [T]. *)
Definition embeds (T : string) (chain : list string) (S : string) : bool :=
  match resolve vmlinux (CName T) chain with
  | Some lv => (lv_off lv =? 0) && negb (lv_bits lv) &&
      match lv_type lv with CName n => bool_decide (n = S) | _ => false end
  | None => false
  end.

Lemma forall_pairs_bool {A B} (f : A -> B -> bool) (l : list (A * B)) :
  forallb (λ '(a, b), f a b) l = true -> Forall (λ '(a, b), f a b = true) l.
Proof. induction l as [|[a b] l IH]; simpl; [constructor|]. intros [? ?]%andb_true_iff. auto. Qed.

Lemma sock_objects_embed :
  Forall (λ '(T, chain), embeds T chain "struct sock" = true) sock_objects.
Proof. apply forall_pairs_bool. vm_compute. reflexivity. Qed.

Lemma sock_common_objects_embed :
  Forall (λ '(T, chain), embeds T chain "struct sock_common" = true) sock_common_objects.
Proof. apply forall_pairs_bool. vm_compute. reflexivity. Qed.

Lemma embeds_resolve T chain S path lv :
  embeds T chain S = true -> resolve vmlinux (CName S) path = Some lv ->
  resolve vmlinux (CName T) (chain ++ path) = Some lv.
Proof.
  unfold embeds. destruct (resolve vmlinux (CName T) chain) as [lv0|] eqn:H0; [|done].
  intros H Hr. destruct lv0 as [o w t b]. simpl in H.
  destruct t; try (rewrite andb_false_r in H; done).
  apply andb_true_iff in H as [H Hn%bool_decide_eq_true]. subst.
  destruct b; [by rewrite andb_false_r in H|]. bool_to_prop.
  rewrite (resolve_app _ _ _ _ _ _ H0 eq_refl Hr). simpl in *. subst. by destruct lv.
Qed.

(** ** Where the probes read *)

Lemma skc_daddr_at :
  object_at vmlinux (CName "struct sock") ["__sk_common"; "skc_daddr"] = Some (0, 4).
Proof. vm_compute. reflexivity. Qed.
Lemma skc_rcv_saddr_at :
  object_at vmlinux (CName "struct sock") ["__sk_common"; "skc_rcv_saddr"] = Some (4, 4).
Proof. vm_compute. reflexivity. Qed.
Lemma skc_dport_at :
  object_at vmlinux (CName "struct sock") ["__sk_common"; "skc_dport"] = Some (12, 2).
Proof. vm_compute. reflexivity. Qed.
Lemma skc_num_at :
  object_at vmlinux (CName "struct sock") ["__sk_common"; "skc_num"] = Some (14, 2).
Proof. vm_compute. reflexivity. Qed.
