(* ===== verification/Common.v ===== *)
(** * The event structures of [common.h]

    The limits, event and protocol codes, TCP states and the four event
    structures the BPF programs send to userspace, as records; their C
    declarations, whose layout is computed; and the object representation
    (the bytes [__builtin_memcpy] puts in the ring buffer). *)

From S2P Require Import Prelude Bytes CLayout CObject Vmlinux.

#[local] Open Scope string_scope.
#[local] Open Scope list_scope.
#[local] Open Scope Z_scope.

(** ** Limits and codes *)

Definition MAX_COMM_LEN : Z := 16.
Definition MAX_DOMAIN_LEN : Z := 256.
Definition MAX_HTTP_PATH_LEN : Z := 128.
Definition MAX_HTTP_HOST_LEN : Z := 128.
Definition MAX_DB_PAYLOAD_LEN : Z := 256.
Definition RING_BUFFER_SIZE : Z := 256 * 1024.

Inductive event_type :=
  | EVENT_TCP_CONNECT | EVENT_TCP_ACCEPT | EVENT_TCP_CLOSE | EVENT_DNS_QUERY
  | EVENT_HTTP_REQUEST | EVENT_HTTPS_SNI | EVENT_DB_QUERY.

#[global] Instance event_type_eq_dec : EqDecision event_type.
Proof. solve_decision. Defined.

(** The value an enumerator has when it is stored in a [__u32]. *)
Definition event_code (t : event_type) : Z :=
  match t with
  | EVENT_TCP_CONNECT => 1
  | EVENT_TCP_ACCEPT => 2
  | EVENT_TCP_CLOSE => 3
  | EVENT_DNS_QUERY => 4
  | EVENT_HTTP_REQUEST => 5
  | EVENT_HTTPS_SNI => 6
  | EVENT_DB_QUERY => 7
  end.

Definition DB_PROTO_UNKNOWN : Z := 0.
Definition DB_PROTO_PG : Z := 1.
Definition DB_PROTO_MYSQL : Z := 2.
Definition DB_PROTO_REDIS : Z := 3.
Definition DB_PROTO_ENCRYPTED : Z := 4.

Definition TCP_ESTABLISHED : Z := 1.
Definition TCP_SYN_SENT : Z := 2.
Definition TCP_FIN_WAIT1 : Z := 4.
Definition TCP_FIN_WAIT2 : Z := 5.
Definition TCP_TIME_WAIT : Z := 6.
Definition TCP_CLOSE_WAIT : Z := 7.
Definition TCP_CLOSE : Z := 7.

(** ** Event structures *)

Record tcp_event := {
  te_timestamp_ns : Z;
  te_event_type : Z;
  te_pid : Z;
  te_tid : Z;
  te_src_ip : Z;
  te_dst_ip : Z;
  te_src_port : Z;
  te_dst_port : Z;
  te_tcp_state : Z;
  te_bytes_sent : Z;
  te_bytes_recv : Z;
  te_comm : list byte;
}.

Record dns_event := {
  de_timestamp_ns : Z;
  de_event_type : Z;
  de_pid : Z;
  de_src_ip : Z;
  de_dst_ip : Z;
  de_src_port : Z;
  de_dst_port : Z;
  de_query_id : Z;
  de_qtype : Z;
  de_domain : list byte;
}.

Record http_event := {
  he_timestamp_ns : Z;
  he_event_type : Z;
  he_pid : Z;
  he_src_ip : Z;
  he_dst_ip : Z;
  he_src_port : Z;
  he_dst_port : Z;
  he_status_code : Z;
  he_method : Z;
  he_pad : Z;
  he_host : list byte;
  he_path : list byte;
}.

Record db_event := {
  dbe_timestamp_ns : Z;
  dbe_event_type : Z;
  dbe_pid : Z;
  dbe_src_ip : Z;
  dbe_dst_ip : Z;
  dbe_src_port : Z;
  dbe_dst_port : Z;
  dbe_protocol : Z;
  dbe_pad : Z;
  dbe_payload_len : Z;
  dbe_response_bytes : Z;
  dbe_payload : list byte;
  dbe_comm : list byte;
}.

(** ** Their declarations *)

Definition U (w : Z) : ctype :=
  CName (if w =? 64 then "__u64" else if w =? 32 then "__u32" else if w =? 16 then "__u16" else "__u8").
Definition chars (n : Z) : ctype := CArr (CInt IChar) n.

Definition struct_tcp_event : decl :=
  DComp "struct tcp_event" CStruct true [
    fld "timestamp_ns" (U 64);
    fld "event_type" (U 32);
    fld "pid" (U 32);
    fld "tid" (U 32);
    fld "src_ip" (U 32);
    fld "dst_ip" (U 32);
    fld "src_port" (U 16);
    fld "dst_port" (U 16);
    fld "tcp_state" (U 32);
    fld "bytes_sent" (U 64);
    fld "bytes_recv" (U 64);
    fld "comm" (chars MAX_COMM_LEN)].

Definition struct_dns_event : decl :=
  DComp "struct dns_event" CStruct true [
    fld "timestamp_ns" (U 64);
    fld "event_type" (U 32);
    fld "pid" (U 32);
    fld "src_ip" (U 32);
    fld "dst_ip" (U 32);
    fld "src_port" (U 16);
    fld "dst_port" (U 16);
    fld "query_id" (U 16);
    fld "qtype" (U 16);
    fld "domain" (chars MAX_DOMAIN_LEN)].

Definition struct_http_event : decl :=
  DComp "struct http_event" CStruct true [
    fld "timestamp_ns" (U 64);
    fld "event_type" (U 32);
    fld "pid" (U 32);
    fld "src_ip" (U 32);
    fld "dst_ip" (U 32);
    fld "src_port" (U 16);
    fld "dst_port" (U 16);
    fld "status_code" (U 16);
    fld "method" (U 8);
    fld "_pad" (U 8);
    fld "host" (chars MAX_HTTP_HOST_LEN);
    fld "path" (chars MAX_HTTP_PATH_LEN)].

Definition struct_db_event : decl :=
  DComp "struct db_event" CStruct true [
    fld "timestamp_ns" (U 64);
    fld "event_type" (U 32);
    fld "pid" (U 32);
    fld "src_ip" (U 32);
    fld "dst_ip" (U 32);
    fld "src_port" (U 16);
    fld "dst_port" (U 16);
    fld "protocol" (U 8);
    fld "_pad" (U 8);
    fld "payload_len" (U 32);
    fld "response_bytes" (U 32);
    fld "payload" (chars MAX_DB_PAYLOAD_LEN);
    fld "comm" (chars MAX_COMM_LEN)].

Definition common_decls : list decl :=
  [struct_tcp_event; struct_dns_event; struct_http_event; struct_db_event].

(** [common.h] is included after [vmlinux.h]. *)
Definition common : layouts := default ∅ (layout_decls common_decls vmlinux).

(** ** Object representation *)

Lemma common_complete : layout_decls common_decls vmlinux = Some common.
Proof.
  assert (match layout_decls common_decls vmlinux with Some _ => true | None => false end = true)
    as H by (vm_compute; reflexivity).
  unfold common. revert H. by destruct (layout_decls common_decls vmlinux).
Qed.

Lemma common_wf : wf_env common.
Proof. eapply layout_decls_env; [apply vmlinux_wf|apply common_complete]. Qed.

(** The values a member of each width can hold. *)
Record tcp_event_wf (e : tcp_event) : Prop := {
  tw_timestamp_ns : in_range 64 (te_timestamp_ns e);
  tw_event_type : in_range 32 (te_event_type e);
  tw_pid : in_range 32 (te_pid e);
  tw_tid : in_range 32 (te_tid e);
  tw_src_ip : in_range 32 (te_src_ip e);
  tw_dst_ip : in_range 32 (te_dst_ip e);
  tw_src_port : in_range 16 (te_src_port e);
  tw_dst_port : in_range 16 (te_dst_port e);
  tw_tcp_state : in_range 32 (te_tcp_state e);
  tw_bytes_sent : in_range 64 (te_bytes_sent e);
  tw_bytes_recv : in_range 64 (te_bytes_recv e);
  tw_comm : length (te_comm e) = Z.to_nat MAX_COMM_LEN;
}.

Record dns_event_wf (e : dns_event) : Prop := {
  dw_timestamp_ns : in_range 64 (de_timestamp_ns e);
  dw_event_type : in_range 32 (de_event_type e);
  dw_pid : in_range 32 (de_pid e);
  dw_src_ip : in_range 32 (de_src_ip e);
  dw_dst_ip : in_range 32 (de_dst_ip e);
  dw_src_port : in_range 16 (de_src_port e);
  dw_dst_port : in_range 16 (de_dst_port e);
  dw_query_id : in_range 16 (de_query_id e);
  dw_qtype : in_range 16 (de_qtype e);
  dw_domain : length (de_domain e) = Z.to_nat MAX_DOMAIN_LEN;
}.

Record http_event_wf (e : http_event) : Prop := {
  hw_timestamp_ns : in_range 64 (he_timestamp_ns e);
  hw_event_type : in_range 32 (he_event_type e);
  hw_pid : in_range 32 (he_pid e);
  hw_src_ip : in_range 32 (he_src_ip e);
  hw_dst_ip : in_range 32 (he_dst_ip e);
  hw_src_port : in_range 16 (he_src_port e);
  hw_dst_port : in_range 16 (he_dst_port e);
  hw_status_code : in_range 16 (he_status_code e);
  hw_method : in_range 8 (he_method e);
  hw_pad : in_range 8 (he_pad e);
  hw_host : length (he_host e) = Z.to_nat MAX_HTTP_HOST_LEN;
  hw_path : length (he_path e) = Z.to_nat MAX_HTTP_PATH_LEN;
}.

Record db_event_wf (e : db_event) : Prop := {
  bw_timestamp_ns : in_range 64 (dbe_timestamp_ns e);
  bw_event_type : in_range 32 (dbe_event_type e);
  bw_pid : in_range 32 (dbe_pid e);
  bw_src_ip : in_range 32 (dbe_src_ip e);
  bw_dst_ip : in_range 32 (dbe_dst_ip e);
  bw_src_port : in_range 16 (dbe_src_port e);
  bw_dst_port : in_range 16 (dbe_dst_port e);
  bw_protocol : in_range 8 (dbe_protocol e);
  bw_pad : in_range 8 (dbe_pad e);
  bw_payload_len : in_range 32 (dbe_payload_len e);
  bw_response_bytes : in_range 32 (dbe_response_bytes e);
  bw_payload : length (dbe_payload e) = Z.to_nat MAX_DB_PAYLOAD_LEN;
  bw_comm : length (dbe_comm e) = Z.to_nat MAX_COMM_LEN;
}.

(** Members of an event, with their sizes and representations. *)
Definition int_field {A} (name : string) (n : nat) (get : A -> Z) : string * nat * (A -> list byte) :=
  (name, n, λ e, le_bytes n (get e)).

Definition tcp_event_fields : list (string * nat * (tcp_event -> list byte)) := [
  int_field "timestamp_ns" 8 te_timestamp_ns;
  int_field "event_type" 4 te_event_type;
  int_field "pid" 4 te_pid;
  int_field "tid" 4 te_tid;
  int_field "src_ip" 4 te_src_ip;
  int_field "dst_ip" 4 te_dst_ip;
  int_field "src_port" 2 te_src_port;
  int_field "dst_port" 2 te_dst_port;
  int_field "tcp_state" 4 te_tcp_state;
  int_field "bytes_sent" 8 te_bytes_sent;
  int_field "bytes_recv" 8 te_bytes_recv;
  ("comm", 16%nat, te_comm)].

Definition dns_event_fields : list (string * nat * (dns_event -> list byte)) := [
  int_field "timestamp_ns" 8 de_timestamp_ns;
  int_field "event_type" 4 de_event_type;
  int_field "pid" 4 de_pid;
  int_field "src_ip" 4 de_src_ip;
  int_field "dst_ip" 4 de_dst_ip;
  int_field "src_port" 2 de_src_port;
  int_field "dst_port" 2 de_dst_port;
  int_field "query_id" 2 de_query_id;
  int_field "qtype" 2 de_qtype;
  ("domain", 256%nat, de_domain)].

Definition http_event_fields : list (string * nat * (http_event -> list byte)) := [
  int_field "timestamp_ns" 8 he_timestamp_ns;
  int_field "event_type" 4 he_event_type;
  int_field "pid" 4 he_pid;
  int_field "src_ip" 4 he_src_ip;
  int_field "dst_ip" 4 he_dst_ip;
  int_field "src_port" 2 he_src_port;
  int_field "dst_port" 2 he_dst_port;
  int_field "status_code" 2 he_status_code;
  int_field "method" 1 he_method;
  int_field "_pad" 1 he_pad;
  ("host", 128%nat, he_host);
  ("path", 128%nat, he_path)].

Definition db_event_fields : list (string * nat * (db_event -> list byte)) := [
  int_field "timestamp_ns" 8 dbe_timestamp_ns;
  int_field "event_type" 4 dbe_event_type;
  int_field "pid" 4 dbe_pid;
  int_field "src_ip" 4 dbe_src_ip;
  int_field "dst_ip" 4 dbe_dst_ip;
  int_field "src_port" 2 dbe_src_port;
  int_field "dst_port" 2 dbe_dst_port;
  int_field "protocol" 1 dbe_protocol;
  int_field "_pad" 1 dbe_pad;
  int_field "payload_len" 4 dbe_payload_len;
  int_field "response_bytes" 4 dbe_response_bytes;
  ("payload", 256%nat, dbe_payload);
  ("comm", 16%nat, dbe_comm)].

Ltac solve_sized :=
  intros [] Hin;
  repeat (apply elem_of_cons in Hin as [[= -> -> ->]|Hin];
          [by rewrite ?length_le_bytes|]); by apply elem_of_nil in Hin.

Lemma tcp_event_sized e n k g :
  tcp_event_wf e -> (n, k, g) ∈ tcp_event_fields -> length (g e) = k.
Proof. solve_sized. Qed.

Lemma tcp_event_layout :
  fields_at common (CName "struct tcp_event") 0 (tcp_event_fields.*1) = true.
Proof. vm_compute. reflexivity. Qed.

#[export] Instance tcp_event_object : CObject tcp_event := {|
  co_env := common; co_type := CName "struct tcp_event";
  co_fields := tcp_event_fields; co_wf := tcp_event_wf;
  co_sized := tcp_event_sized; co_layout := tcp_event_layout |}.

Lemma dns_event_sized e n k g :
  dns_event_wf e -> (n, k, g) ∈ dns_event_fields -> length (g e) = k.
Proof. solve_sized. Qed.

Lemma dns_event_layout :
  fields_at common (CName "struct dns_event") 0 (dns_event_fields.*1) = true.
Proof. vm_compute. reflexivity. Qed.

#[export] Instance dns_event_object : CObject dns_event := {|
  co_env := common; co_type := CName "struct dns_event";
  co_fields := dns_event_fields; co_wf := dns_event_wf;
  co_sized := dns_event_sized; co_layout := dns_event_layout |}.

Lemma http_event_sized e n k g :
  http_event_wf e -> (n, k, g) ∈ http_event_fields -> length (g e) = k.
Proof. solve_sized. Qed.

Lemma http_event_layout :
  fields_at common (CName "struct http_event") 0 (http_event_fields.*1) = true.
Proof. vm_compute. reflexivity. Qed.

#[export] Instance http_event_object : CObject http_event := {|
  co_env := common; co_type := CName "struct http_event";
  co_fields := http_event_fields; co_wf := http_event_wf;
  co_sized := http_event_sized; co_layout := http_event_layout |}.

Lemma db_event_sized e n k g :
  db_event_wf e -> (n, k, g) ∈ db_event_fields -> length (g e) = k.
Proof. solve_sized. Qed.

Lemma db_event_layout :
  fields_at common (CName "struct db_event") 0 (db_event_fields.*1) = true.
Proof. vm_compute. reflexivity. Qed.

#[export] Instance db_event_object : CObject db_event := {|
  co_env := common; co_type := CName "struct db_event";
  co_fields := db_event_fields; co_wf := db_event_wf;
  co_sized := db_event_sized; co_layout := db_event_layout |}.

