(* ===== verification/Bpf.v ===== *)
(** * BPF programs and the runtime they call

    A probe handler is a finite program over the BPF helpers ([prog]): its
    control flow is ordinary Rocq, each helper call, each access through a map
    element pointer and each step of a ring buffer record is one [Vis] node.
    The runtime (kernel helpers, hash maps, ring buffers, libbpf's CO-RE macros)
    is not part of the repository: [Helpers], [BpfHash] and [Ringbuf] are the
    interfaces the handlers are proved against, their laws the documented
    behaviour of the runtime.  [run] executes a handler alone on its CPU,
    [run_pool] interleaves the steps of handlers that run on several CPUs. *)

From S2P Require Import Prelude Bytes CLayout Vmlinux VmlinuxBpf.

(** ** Memory *)

Fixpoint read_mem (m : Z -> option byte) (a : Z) (n : nat) : option (list byte) :=
  match n with
  | O => Some []
  | S n => b ← m a; bs ← read_mem m (a + 1) n; Some (b :: bs)
  end.

Lemma read_mem_length m a n bs : read_mem m a n = Some bs -> length bs = n.
Proof.
  revert a bs. induction n as [|n IH]; intros a bs H; simpl in H; [by injection H as <-|].
  apply bind_Some in H as (b & _ & H). apply bind_Some in H as (bs' & H & [= <-]).
  simpl. f_equal. by eapply IH.
Qed.

(** ** Helpers

    [world] is what one invocation of a program sees of the machine: the
    current task, the clock, kernel and user memory. *)
Class Helpers := {
  world : Type;
  w_pid_tgid : world -> Z;
  w_ktime_ns : world -> Z;
  w_comm : world -> nat -> list byte;
  w_kmem : world -> Z -> option byte;
  w_umem : world -> Z -> option byte;
  w_core_read : world -> string -> Z -> list string -> Z;
  w_probe_read_user : world -> nat -> Z -> Z * list byte;
  bpf_ntohs : Z -> Z;
  pid_tgid_range w : in_range 64 (w_pid_tgid w);
  ktime_range w : in_range 64 (w_ktime_ns w);
  comm_length w n : length (w_comm w n) = n;
  (** BPF_CORE_READ(p, f1.f2): the member found with the type information of
      the running kernel, zero when the memory cannot be read. *)
  core_read_ok w ty base path o n bs :
    object_at vmlinux (CName ty) path = Some (o, n) ->
    read_mem (w_kmem w) (base + o) (Z.to_nat n) = Some bs ->
    w_core_read w ty base path = le_val bs;
  core_read_fault w ty base path o n :
    object_at vmlinux (CName ty) path = Some (o, n) ->
    read_mem (w_kmem w) (base + o) (Z.to_nat n) = None ->
    w_core_read w ty base path = 0;
  (** bpf_probe_read_user: all the bytes, or an error and a zeroed buffer. *)
  probe_read_user_ok w n a bs :
    read_mem (w_umem w) a n = Some bs -> w_probe_read_user w n a = (0, bs);
  probe_read_user_fault w n a :
    read_mem (w_umem w) a n = None ->
    exists e, e < 0 /\ w_probe_read_user w n a = (e, repeat x00 n);
  (** bpf_ntohs: the 16-bit object's bytes read most significant first. *)
  ntohs_spec hi lo : bpf_ntohs (le_val [hi; lo]) = Z_of_byte hi * 256 + Z_of_byte lo;
}.

Lemma core_read_range `{!Helpers} w ty base path o n :
  object_at vmlinux (CName ty) path = Some (o, n) -> 0 <= n ->
  in_range (8 * n) (w_core_read w ty base path).
Proof.
  intros Ho Hn. destruct (read_mem (w_kmem w) (base + o) (Z.to_nat n)) as [bs|] eqn:Hm.
  - rewrite (core_read_ok _ _ _ _ _ _ _ Ho Hm). pose proof (le_val_in_range bs) as Hr.
    by rewrite (read_mem_length _ _ _ _ Hm), Z2Nat.id in Hr.
  - rewrite (core_read_fault _ _ _ _ _ _ Ho Hm). apply in_range_0. lia.
Qed.

Lemma ntohs_range `{!Helpers} x : in_range 16 x -> in_range 16 (bpf_ntohs x).
Proof.
  intros Hx. rewrite <- (le_val_le_bytes_id 2 16 x eq_refl Hx). simpl le_bytes.
  rewrite ntohs_spec. pose proof (Z_of_byte_range (byte_of_Z x)).
  pose proof (Z_of_byte_range (byte_of_Z (x / 256))). unfold in_range. lia.
Qed.

(** Members of [sk->__sk_common]. *)
Definition skc_read `{!Helpers} (w : world) (sk : Z) (f : string) : Z :=
  w_core_read w "struct sock" sk ["__sk_common"%string; f].

Section skc.
Context `{!Helpers}.

Lemma skc_rcv_saddr_range w sk : in_range 32 (skc_read w sk "skc_rcv_saddr").
Proof using Type. by apply (core_read_range w _ sk _ _ _ skc_rcv_saddr_at). Qed.
Lemma skc_daddr_range w sk : in_range 32 (skc_read w sk "skc_daddr").
Proof using Type. by apply (core_read_range w _ sk _ _ _ skc_daddr_at). Qed.
Lemma skc_num_range w sk : in_range 16 (skc_read w sk "skc_num").
Proof using Type. by apply (core_read_range w _ sk _ _ _ skc_num_at). Qed.
Lemma skc_dport_range w sk : in_range 16 (bpf_ntohs (skc_read w sk "skc_dport")).
Proof using Type. by apply ntohs_range, (core_read_range w _ sk _ _ _ skc_dport_at). Qed.

(** [(__u32)(tid >> 32)] is the process, [(__u32)tid] the thread. *)
Lemma pid_tgid_hi w : wrap 32 (Z.shiftr (w_pid_tgid w) 32) = w_pid_tgid w / 2 ^ 32.
Proof using Type.
  pose proof (pid_tgid_range w) as [? ?]. rewrite wrap_id.
  - apply Z.shiftr_div_pow2. lia.
  - by apply (shiftr_in_range 32 32), pid_tgid_range.
Qed.

Lemma pid_range w : in_range 32 (w_pid_tgid w / 2 ^ 32).
Proof using Type. rewrite <- pid_tgid_hi. by apply wrap_in_range. Qed.
Lemma tid_range w : in_range 32 (w_pid_tgid w mod 2 ^ 32).
Proof using Type. by apply wrap_in_range. Qed.
End skc.

#[export] Hint Resolve ktime_range comm_length skc_rcv_saddr_range skc_daddr_range skc_num_range
  skc_dport_range pid_range tid_range : paryty.

(** ** Hash maps

    A lookup returns a pointer to the element; programs load and store through
    it.  [hm_abs] is the dictionary a map stands for. *)
Definition BPF_ANY : Z := default (-1) (list_to_map (M := gmap string Z) enum_BPF_ANY !! "BPF_ANY"%string).

Class BpfHash (V : Type) := {
  hmap : Type;
  hm_max_entries : Z;
  hm_empty : hmap;
  hm_lookup : Z -> hmap -> option Z;
  hm_load : Z -> hmap -> V;
  hm_store : Z -> V -> hmap -> hmap;
  hm_update : Z -> V -> Z -> hmap -> Z * hmap;
  hm_delete : Z -> hmap -> Z * hmap;
  hm_wf : hmap -> Prop;
  hm_abs : hmap -> gmap Z V;
  hm_empty_wf : hm_wf hm_empty;
  hm_empty_abs : hm_abs hm_empty = ∅;
  hm_lookup_abs m k : hm_wf m -> hm_abs m !! k = (λ p, hm_load p m) <$> hm_lookup k m;
  hm_store_wf m k p v : hm_wf m -> hm_lookup k m = Some p -> hm_wf (hm_store p v m);
  hm_store_abs m k p v :
    hm_wf m -> hm_lookup k m = Some p -> hm_abs (hm_store p v m) = <[k := v]> (hm_abs m);
  hm_store_lookup m p v k : hm_wf m -> hm_lookup k (hm_store p v m) = hm_lookup k m;
  hm_update_wf m k v : hm_wf m -> hm_wf (hm_update k v BPF_ANY m).2;
  hm_update_abs m k v :
    hm_wf m ->
    ((hm_update k v BPF_ANY m).1 = 0 /\ hm_abs (hm_update k v BPF_ANY m).2 = <[k := v]> (hm_abs m)) \/
    ((hm_update k v BPF_ANY m).1 < 0 /\ hm_abs (hm_update k v BPF_ANY m).2 = hm_abs m);
  hm_update_room m k v :
    hm_wf m -> is_Some (hm_abs m !! k) \/ Z.of_nat (size (hm_abs m)) < hm_max_entries ->
    (hm_update k v BPF_ANY m).1 = 0;
  hm_update_other m k v k' :
    hm_wf m -> k <> k' -> hm_lookup k' (hm_update k v BPF_ANY m).2 = hm_lookup k' m;
  hm_delete_wf m k : hm_wf m -> hm_wf (hm_delete k m).2;
  hm_delete_abs m k : hm_wf m -> hm_abs (hm_delete k m).2 = delete k (hm_abs m);
  hm_delete_other m k k' :
    hm_wf m -> k <> k' -> hm_lookup k' (hm_delete k m).2 = hm_lookup k' m;
  (** Deleting an element leaves its memory as it is. *)
  hm_delete_load m k p : hm_wf m -> hm_load p (hm_delete k m).2 = hm_load p m;
}.

Section hash_facts.
Context {V : Type} {HM : BpfHash V}.

Lemma hm_lookup_load m k p v :
  hm_wf m -> hm_lookup k m = Some p -> hm_abs m !! k = Some v -> hm_load p m = v.
Proof using Type. intros Hm Hk Hv. rewrite hm_lookup_abs, Hk in Hv by done. by injection Hv. Qed.

Lemma hm_load_store m k p v :
  hm_wf m -> hm_lookup k m = Some p -> hm_load p (hm_store p v m) = v.
Proof using Type.
  intros Hm Hk. apply (hm_lookup_load _ k).
  - by eapply hm_store_wf.
  - by rewrite hm_store_lookup.
  - rewrite (hm_store_abs _ k) by done. apply lookup_insert_eq.
Qed.

Lemma hm_lookup_none m k : hm_wf m -> hm_lookup k m = None <-> hm_abs m !! k = None.
Proof using Type. intros Hm. rewrite hm_lookup_abs by done. by destruct (hm_lookup k m). Qed.

Lemma hm_lookup_some m k v :
  hm_wf m -> hm_abs m !! k = Some v -> exists p, hm_lookup k m = Some p /\ hm_load p m = v.
Proof using Type.
  intros Hm Hv. rewrite hm_lookup_abs in Hv by done.
  by apply fmap_Some in Hv as (p & ? & ->); eauto.
Qed.
End hash_facts.

(** A map that recycles elements: the memory of a deleted element is given to
    the next insertion, as the free lists of preallocated maps do. *)
Class Recycling {V : Type} (HM : BpfHash V) : Prop :=
  recycled : forall m k k' p v,
    hm_wf m -> hm_lookup k m = Some p -> hm_lookup k' m = None ->
    hm_lookup k' (hm_update k' v BPF_ANY (hm_delete k m).2).2 = Some p.

(** So a pointer kept over the deletion then leads to the new element. *)
Lemma recycled_update {V : Type} {HM : BpfHash V} {RM : Recycling HM} m k k' p v :
  hm_wf m -> hm_lookup k m = Some p -> hm_lookup k' m = None ->
  let m' := (hm_update k' v BPF_ANY (hm_delete k m).2).2 in
  hm_wf m' /\ hm_load p m' = v /\ hm_abs m' = <[k' := v]> (delete k (hm_abs m)).
Proof.
  intros Hm Hk Hk' m'. pose proof (recycled m k k' p v Hm Hk Hk') as Hp. fold m' in Hp.
  pose proof (hm_delete_wf m k Hm) as Hd. pose proof (hm_update_wf _ k' v Hd) as Hm'. fold m' in Hm'.
  assert (hm_abs m' = <[k' := v]> (delete k (hm_abs m))) as Habs.
  { rewrite <- hm_delete_abs by done. destruct (hm_update_abs _ k' v Hd) as [[_ H]|[_ H]]; [exact H|].
    fold m' in H. pose proof (hm_lookup_abs m' k' Hm') as He. rewrite H, Hp, hm_delete_abs in He by done.
    rewrite lookup_delete_ne, hm_lookup_abs, Hk' in He by (done || (intros ->; congruence)). done. }
  split_and!; [done| |done]. apply (hm_lookup_load m' k'); [done..|]. by rewrite Habs, lookup_insert_eq.
Qed.

(** The hash map of a program object that declares none: every lookup misses. *)
Definition no_map : BpfHash unit.
Proof.
  refine {|
    hmap := unit;
    hm_max_entries := 0;
    hm_empty := tt;
    hm_lookup _ _ := None;
    hm_load _ _ := tt;
    hm_store _ _ m := m;
    hm_update _ _ _ m := (-7, m);
    hm_delete _ m := (-2, m);
    hm_wf _ := True;
    hm_abs _ := ∅ |}; try done.
  - intros m k v _. by right.
  - intros m k v _ [H|H]; [|done]. rewrite lookup_empty in H. by destruct H.
Defined.

(** ** Ring buffers

    The records between the consumer and the producer position, in order of
    reservation; a record is delivered once it and all before it are submitted. *)
Record rrec := RRec { rr_slot : Z; rr_data : list byte; rr_ready : bool }.

(** A record takes an 8-byte header and is padded to 8 bytes. *)
Definition ring_len (n : Z) : Z := align_up (n + 8) 8.

Lemma ring_len_nonneg n : 0 <= n -> 0 <= ring_len n.
Proof. intros. unfold ring_len, align_up. assert (0 <= (n + 8 + 8 - 1) / 8) by (apply Z.div_pos; lia). lia. Qed.

Definition ring_used (l : list (list byte)) : Z :=
  foldr (λ bs s, ring_len (Z.of_nat (length bs)) + s) 0 l.

Lemma ring_used_same n l :
  Forall (λ bs, Z.of_nat (length bs) = n) l -> ring_used l = ring_len n * Z.of_nat (length l).
Proof. induction 1 as [|bs l Hb _ IH]; simpl; [lia|]. rewrite Hb, IH. lia. Qed.

Class Ringbuf := {
  ringbuf : Type;
  rb_size : Z;
  rb_empty : ringbuf;
  rb_reserve : Z -> Z -> ringbuf -> option (Z * ringbuf);
  rb_write : Z -> list byte -> ringbuf -> ringbuf;
  rb_submit : Z -> Z -> ringbuf -> ringbuf;
  rb_consume : ringbuf -> option (list byte * ringbuf);
  rb_wf : ringbuf -> Prop;
  rb_view : ringbuf -> list rrec;
  rb_empty_wf : rb_wf rb_empty;
  rb_empty_view : rb_view rb_empty = [];
  rb_slots b : rb_wf b -> NoDup (rr_slot <$> rb_view b);
  rb_reserve_some b n s b' :
    rb_wf b -> 0 <= n -> rb_reserve n 0 b = Some (s, b') ->
    rb_wf b' /\ exists junk, Z.of_nat (length junk) = n /\ rb_view b' = rb_view b ++ [RRec s junk false];
  rb_reserve_room b n :
    rb_wf b -> 0 <= n -> ring_used (rr_data <$> rb_view b) + ring_len n < rb_size -> is_Some (rb_reserve n 0 b);
  rb_write_spec b s l1 l2 d bs :
    rb_wf b -> rb_view b = l1 ++ RRec s d false :: l2 -> length bs = length d ->
    rb_wf (rb_write s bs b) /\ rb_view (rb_write s bs b) = l1 ++ RRec s bs false :: l2;
  rb_submit_spec b s l1 l2 d :
    rb_wf b -> rb_view b = l1 ++ RRec s d false :: l2 ->
    rb_wf (rb_submit s 0 b) /\ rb_view (rb_submit s 0 b) = l1 ++ RRec s d true :: l2;
  rb_consume_ready b s d l :
    rb_wf b -> rb_view b = RRec s d true :: l ->
    exists b', rb_consume b = Some (d, b') /\ rb_wf b' /\ rb_view b' = l;
  rb_consume_stop b :
    rb_wf b -> (forall s d l, rb_view b <> RRec s d true :: l) -> rb_consume b = None;
}.

(** ** Programs *)

Section prog.
Context {V : Type}.

(** [Load] and [Store] go through an element pointer; an assignment
    [p->field = x] is a [Store] of the function that changes that field. *)
Inductive bpf_op : Type -> Type :=
  | GetCurrentPidTgid : bpf_op Z
  | KtimeGetNs : bpf_op Z
  | GetCurrentComm (size : nat) : bpf_op (list byte)
  | CoreRead (ty : string) (base : Z) (path : list string) : bpf_op Z
  | ProbeReadUser (n : nat) (a : Z) : bpf_op (Z * list byte)
  | MapLookupElem (k : Z) : bpf_op (option Z)
  | MapUpdateElem (k : Z) (v : V) (flags : Z) : bpf_op Z
  | MapDeleteElem (k : Z) : bpf_op Z
  | Load (p : Z) : bpf_op V
  | Store (p : Z) (f : V -> V) : bpf_op unit
  | RingbufReserve (n flags : Z) : bpf_op (option Z)
  | RingbufWrite (s : Z) (bs : list byte) : bpf_op unit
  | RingbufSubmit (s flags : Z) : bpf_op unit.

Inductive prog (A : Type) : Type :=
  | Ret (a : A)
  | Vis {X : Type} (o : bpf_op X) (k : X -> prog A).
End prog.
Arguments bpf_op : clear implicits.
Arguments prog : clear implicits.
Arguments Ret {V A} a.
Arguments Vis {V A X} o k.

Definition call {V X} (o : bpf_op V X) : prog V X := Vis o Ret.

#[global] Instance prog_ret V : MRet (prog V) := λ A a, Ret a.
#[global] Instance prog_bind V : MBind (prog V) := λ A B f,
  fix go m := match m with Ret a => f a | Vis o k => Vis o (λ x, go (k x)) end.

Declare Scope prog_scope.
Delimit Scope prog_scope with prog.
Bind Scope prog_scope with prog.
(** [x <- helper(..); k] and the early [return]. *)
Notation "x <- o ;; k" := (call o ≫= λ x, k%prog)
  (at level 100, o at next level, right associativity) : prog_scope.
Notation "o ;;; k" := (call o ≫= λ _, k%prog)
  (at level 100, right associativity) : prog_scope.

(** A map of a program object: its type and number of entries (bytes, for a
    ring buffer). *)
Record map_def := MapDef { md_type : string; md_max_entries : Z }.

(** [BPF_CORE_READ(sk, __sk_common.f)] *)
Definition read_skc {V} (sk : Z) (f : string) : bpf_op V Z :=
  CoreRead "struct sock" sk ["__sk_common"%string; f].

(** ** Running a program *)

Record pstate (V : Type) `{!BpfHash V, !Ringbuf} := PState { ps_map : hmap; ps_ring : ringbuf }.
Arguments PState {V _ _} _ _.
Arguments ps_map {V _ _} _.
Arguments ps_ring {V _ _} _.

Section run.
Context {V : Type} {HW : Helpers} {HM : BpfHash V} {HR : Ringbuf}.
Implicit Types st : pstate V.

Definition with_map st (r : hmap) : pstate V := PState r (ps_ring st).
Definition with_ring st (r : ringbuf) : pstate V := PState (ps_map st) r.

(** One helper call or memory access of an invocation that sees [w]. *)
Definition exec (w : world) {X} (o : bpf_op V X) st : X * pstate V :=
  match o in bpf_op _ X return X * pstate V with
  | GetCurrentPidTgid => (w_pid_tgid w, st)
  | KtimeGetNs => (w_ktime_ns w, st)
  | GetCurrentComm size => (w_comm w size, st)
  | CoreRead ty base path => (w_core_read w ty base path, st)
  | ProbeReadUser n a => (w_probe_read_user w n a, st)
  | MapLookupElem k => (hm_lookup k (ps_map st), st)
  | MapUpdateElem k v flags =>
      let r := hm_update k v flags (ps_map st) in (r.1, with_map st r.2)
  | MapDeleteElem k => let r := hm_delete k (ps_map st) in (r.1, with_map st r.2)
  | Load p => (hm_load p (ps_map st), st)
  | Store p f => (tt, with_map st (hm_store p (f (hm_load p (ps_map st))) (ps_map st)))
  | RingbufReserve n flags =>
      match rb_reserve n flags (ps_ring st) with
      | Some (s, r) => (Some s, with_ring st r)
      | None => (None, st)
      end
  | RingbufWrite s bs => (tt, with_ring st (rb_write s bs (ps_ring st)))
  | RingbufSubmit s flags => (tt, with_ring st (rb_submit s flags (ps_ring st)))
  end.

Fixpoint run (w : world) {A} (p : prog V A) st : A * pstate V :=
  match p with
  | Ret a => (a, st)
  | Vis o k => let r := exec w o st in run w (k r.1) r.2
  end.

Lemma run_bind w {A B} (p : prog V A) (f : A -> prog V B) st :
  run w (p ≫= f) st = run w (f (run w p st).1) (run w p st).2.
Proof using Type. revert st. induction p as [a|X o k IH]; intros st; simpl; [done|apply IH]. Qed.

(** ** The invariant of the runtime state *)

Definition ps_wf st : Prop := hm_wf (ps_map st) /\ rb_wf (ps_ring st).

(** No record is left reserved: what the verifier asks of every path. *)
Definition settled st : Prop := Forall (λ r, rr_ready r = true) (rb_view (ps_ring st)).

(** The submitted records, oldest first. *)
Definition records st : list (list byte) := rr_data <$> rb_view (ps_ring st).

Definition ring_full st (n : Z) : Prop := rb_size <= ring_used (records st) + ring_len n.

#[global] Instance ring_full_dec st n : Decision (ring_full st n).
Proof using Type. unfold ring_full. apply _. Defined.

Lemma not_ring_full st n : bool_decide (ring_full st n) = false -> ~ ring_full st n.
Proof using Type. apply bool_decide_eq_false_1. Qed.

(** Reserve, copy, submit: the way every handler emits a record.  [src] is
    the object [memcpy] copies from. *)
Definition emit {A B} (src : prog V B) (repr : B -> list byte) (n : Z) (failed done : A) : prog V A :=
  (r <- RingbufReserve n 0;;
   match r with
   | None => mret failed
   | Some s => src ≫= λ b, RingbufWrite s (repr b);;; RingbufSubmit s 0;;; mret done
   end)%prog.

(** What emitting the bytes [bs] does to the state: the record is appended,
    or, when the ring buffer has no room, nothing happens. *)
Definition emitted (bs : list byte) st st' : Prop :=
  ps_wf st' /\ settled st' /\ ps_map st' = ps_map st /\
  (records st' = records st ++ [bs] \/
   records st' = records st /\ ring_full st (Z.of_nat (length bs))).

Lemma run_emit w {A B} (src : prog V B) repr b n (failed don : A) st :
  ps_wf st -> settled st -> Z.of_nat (length (repr b)) = n ->
  (forall st', ps_map st' = ps_map st -> run w src st' = (b, st')) ->
  emitted (repr b) st (run w (emit src repr n failed don) st).2 /\
  (run w (emit src repr n failed don) st).1 =
    (if decide (records (run w (emit src repr n failed don) st).2 = records st)
     then failed else don).
Proof using Type.
  intros [Hm Hr] Hset Hn Hsrc. unfold emit, emitted. simpl.
  destruct (rb_reserve n 0 (ps_ring st)) as [[s rb]|] eqn:Hres; simpl.
  - rewrite run_bind, Hsrc by done. simpl.
    destruct (rb_reserve_some _ n _ _ Hr ltac:(lia) Hres) as (Hb & junk & Hjunk & Hv).
    assert (length (repr b) = length junk) as Hlen by lia.
    destruct (rb_write_spec rb s (rb_view (ps_ring st)) [] junk (repr b) Hb Hv Hlen) as [Hb2 Hv2].
    destruct (rb_submit_spec _ s _ [] (repr b) Hb2 Hv2) as [Hb3 Hv3].
    unfold ps_wf, settled, records, with_ring. simpl. rewrite Hv3, fmap_app. simpl.
    split_and!; [done|done| |done|by left|].
    + by apply Forall_app_2; [|repeat constructor].
    + rewrite decide_False; [done|]. intros He%(f_equal length).
      rewrite length_app in He. simpl in He. lia.
  - rewrite decide_True by done. split_and!; [done..| |done]. right. split; [done|].
    unfold ring_full, records. rewrite Hn.
    destruct (decide (ring_used (rr_data <$> rb_view (ps_ring st)) + ring_len n < rb_size))
      as [Hlt|]; [|lia].
    destruct (rb_reserve_room (ps_ring st) n Hr ltac:(lia) Hlt) as [? Hs]. by rewrite Hs in Hres.
Qed.

(** The userspace side takes the oldest record. *)
Definition consume st : pstate V :=
  match rb_consume (ps_ring st) with
  | Some (_, r) => with_ring st r
  | None => st
  end.

Lemma consume_spec st :
  ps_wf st -> settled st ->
  ps_wf (consume st) /\ settled (consume st) /\ ps_map (consume st) = ps_map st /\
  records (consume st) = tail (records st).
Proof using Type.
  intros [Hm Hr] Hset. unfold consume, records, settled, ps_wf in *.
  destruct (rb_view (ps_ring st)) as [|[s d ready] l] eqn:Hv.
  - rewrite rb_consume_stop by (done || by rewrite Hv). rewrite Hv. done.
  - apply Forall_cons in Hset as [Hready Hset]. simpl in Hready. subst ready.
    destruct (rb_consume_ready _ _ _ _ Hr Hv) as (b' & -> & Hb' & Hv'). simpl.
    by rewrite Hv'.
Qed.

(** ** Several CPUs

    Handlers in progress on the CPUs; a schedule says which CPU makes the
    next step.  A finished handler keeps its result. *)
Definition pool_step (i : nat) (cfg : list (world * prog V Z) * pstate V) :
    list (world * prog V Z) * pstate V :=
  match cfg.1 !! i with
  | Some (w, Vis o k) =>
      let r := exec w o cfg.2 in (<[i := (w, k r.1)]> cfg.1, r.2)
  | _ => cfg
  end.

Definition run_pool (sched : list nat) (cfg : list (world * prog V Z) * pstate V) :
    list (world * prog V Z) * pstate V :=
  foldl (λ c i, pool_step i c) cfg sched.
End run.
