(* ===== verification/BpfRef.v ===== *)
(** * A reference runtime

    Executable instances of the runtime interfaces of [Bpf]: they show the
    interfaces' laws can hold together and let the handlers be run on concrete
    inputs.  The hash map keeps its elements in preallocated slots recycled
    through a free list, so a deleted element's memory is reused by the next
    insertion; the ring buffer has a fixed size in bytes. *)

From S2P Require Import Prelude Bytes CLayout Vmlinux Common Bpf.

#[local] Set Warnings "-clear-no-such-hyp".

(** ** Helpers *)

Record ref_world := RefWorld {
  rw_pid_tgid : Z;
  rw_ktime : Z;
  rw_comm : list byte;
  rw_kmem : gmap Z byte;
  rw_umem : gmap Z byte;
}.

Definition ref_core_read (w : ref_world) (ty : string) (base : Z) (path : list string) : Z :=
  match object_at vmlinux (CName ty) path with
  | Some (o, n) =>
      match read_mem (λ a, rw_kmem w !! a) (base + o) (Z.to_nat n) with
      | Some bs => le_val bs
      | None => 0
      end
  | None => 0
  end.

Definition ref_probe_read_user (w : ref_world) (n : nat) (a : Z) : Z * list byte :=
  match read_mem (λ a, rw_umem w !! a) a n with
  | Some bs => (0, bs)
  | None => (-14, repeat x00 n)
  end.

Definition bswap16 (x : Z) : Z :=
  Z.lor (Z.shiftl (Z.land x 255) 8) (Z.land (Z.shiftr x 8) 255).

Lemma bswap16_arith x : bswap16 x = x mod 256 * 256 + x / 256 mod 256.
Proof.
  unfold bswap16. rewrite Z.shiftl_mul_pow2, Z.shiftr_div_pow2 by lia.
  change 255 with (Z.ones 8). rewrite !Z.land_ones by lia. change (2 ^ 8) with 256.
  rewrite <- Z.add_lor_land.
  enough (Z.land (x mod 256 * 256) ((x / 256) mod 256) = 0) as -> by lia.
  apply Z.bits_inj'. intros i Hi. rewrite Z.land_spec, Z.bits_0.
  change 256 with (2 ^ 8).
  destruct (decide (i < 8)).
  - by rewrite Z.mul_pow2_bits_low by lia.
  - rewrite (Z.mod_pow2_bits_high _ 8 i) by lia. apply andb_false_r.
Qed.

Lemma bswap16_spec hi lo : bswap16 (le_val [hi; lo]) = Z_of_byte hi * 256 + Z_of_byte lo.
Proof.
  rewrite bswap16_arith. simpl. pose proof (Z_of_byte_range hi). pose proof (Z_of_byte_range lo).
  replace (Z_of_byte hi + 256 * (Z_of_byte lo + 256 * 0))
    with (Z_of_byte hi + Z_of_byte lo * 256) by lia.
  rewrite Z.mod_add, Z.div_add by lia.
  rewrite (Z.mod_small (Z_of_byte hi)), (Z.div_small (Z_of_byte hi)) by lia.
  rewrite Z.add_0_l, Z.mod_small by lia. lia.
Qed.

Definition ref_helpers : Helpers.
Proof.
  refine {|
    world := ref_world;
    w_pid_tgid w := wrap 64 (rw_pid_tgid w);
    w_ktime_ns w := wrap 64 (rw_ktime w);
    w_comm w n := take n (rw_comm w ++ repeat x00 n);
    w_kmem w a := rw_kmem w !! a;
    w_umem w a := rw_umem w !! a;
    w_core_read := ref_core_read;
    w_probe_read_user := ref_probe_read_user;
    bpf_ntohs := bswap16 |}.
  - intros. by apply wrap_in_range.
  - intros. by apply wrap_in_range.
  - intros. rewrite length_take, length_app, repeat_length. lia.
  - intros * Ho Hm. unfold ref_core_read. by rewrite Ho, Hm.
  - intros * Ho Hm. unfold ref_core_read. by rewrite Ho, Hm.
  - intros * Hm. unfold ref_probe_read_user. by rewrite Hm.
  - intros * Hm. unfold ref_probe_read_user. rewrite Hm. by exists (-14).
  - apply bswap16_spec.
Defined.

(** ** Hash maps *)

Record ref_hmap (V : Type) := RefHmap {
  rh_idx : gmap Z Z;
  rh_mem : gmap Z V;
  rh_free : list Z;
  rh_next : Z;
}.
Arguments RefHmap {V}. Arguments rh_idx {V}. Arguments rh_mem {V}.
Arguments rh_free {V}. Arguments rh_next {V}.

Section ref_hash.
Context {V : Type} `{!Inhabited V} (max : Z).
Implicit Types m : ref_hmap V.

Definition rh_load (p : Z) m : V := default inhabitant (rh_mem m !! p).
Definition rh_store (p : Z) (v : V) m : ref_hmap V :=
  RefHmap (rh_idx m) (<[p := v]> (rh_mem m)) (rh_free m) (rh_next m).
Definition rh_lookup (k : Z) m : option Z := rh_idx m !! k.

Definition rh_update (k : Z) (v : V) (flags : Z) m : Z * ref_hmap V :=
  match rh_idx m !! k with
  | Some p => (0, rh_store p v m)
  | None =>
      match rh_free m with
      | p :: fr => (0, RefHmap (<[k := p]> (rh_idx m)) (<[p := v]> (rh_mem m)) fr (rh_next m))
      | [] =>
          if rh_next m <? max
          then (0, RefHmap (<[k := rh_next m]> (rh_idx m)) (<[rh_next m := v]> (rh_mem m)) []
                     (rh_next m + 1))
          else (-7, m)
      end
  end.

Definition rh_delete (k : Z) m : Z * ref_hmap V :=
  match rh_idx m !! k with
  | Some p => (0, RefHmap (delete k (rh_idx m)) (rh_mem m) (p :: rh_free m) (rh_next m))
  | None => (-2, m)
  end.

Definition rh_abs m : gmap Z V := (λ p, rh_load p m) <$> rh_idx m.

Record rh_wf m : Prop := {
  rh_idx_lt k p : rh_idx m !! k = Some p -> p < rh_next m /\ p ∉ rh_free m;
  rh_inj k k' p : rh_idx m !! k = Some p -> rh_idx m !! k' = Some p -> k = k';
  rh_nodup : NoDup (rh_free m);
  rh_free_lt p : p ∈ rh_free m -> p < rh_next m;
  rh_count : rh_next m = Z.of_nat (size (rh_idx m)) + Z.of_nat (length (rh_free m));
}.

Lemma rh_empty_wf : rh_wf (RefHmap ∅ ∅ [] 0).
Proof using Type. split; simpl; [done|done|constructor|by intros ? ?%elem_of_nil|done]. Qed.

Lemma rh_store_wf m p v : rh_wf m -> rh_wf (rh_store p v m).
Proof using Type. by intros []. Qed.

Lemma rh_load_insert k p v m :
  rh_wf m -> rh_idx m !! k = Some p ->
  rh_abs (rh_store p v m) = <[k := v]> (rh_abs m).
Proof using Type.
  intros Hwf Hk. apply map_eq. intros k'. unfold rh_abs, rh_load. simpl.
  rewrite lookup_fmap. destruct (decide (k' = k)) as [->|Hne].
  - by rewrite Hk, lookup_insert_eq; simpl; rewrite lookup_insert_eq.
  - rewrite lookup_insert_ne by done. rewrite lookup_fmap.
    destruct (rh_idx m !! k') as [p'|] eqn:Hk'; [|done]. simpl.
    rewrite lookup_insert_ne; [done|]. intros ->. by apply Hne, (rh_inj _ Hwf k' k p').
Qed.

(** Linking a fresh slot. *)
Lemma rh_abs_link k p v m fr next :
  rh_idx m !! k = None -> (forall k' p', rh_idx m !! k' = Some p' -> p' <> p) ->
  rh_abs (RefHmap (<[k := p]> (rh_idx m)) (<[p := v]> (rh_mem m)) fr next) = <[k := v]> (rh_abs m).
Proof using Type.
  intros Hk Hfresh. apply map_eq. intros k'. unfold rh_abs, rh_load. simpl.
  rewrite lookup_fmap. destruct (decide (k' = k)) as [->|Hne].
  - rewrite !lookup_insert_eq. simpl. by rewrite lookup_insert_eq.
  - rewrite !lookup_insert_ne by done. rewrite lookup_fmap.
    destruct (rh_idx m !! k') as [p'|] eqn:Hk'; [|done]. simpl.
    rewrite lookup_insert_ne; [done|]. intros ->. by apply (Hfresh k' p').
Qed.

Lemma rh_link_wf k p v m fr :
  rh_wf m -> rh_idx m !! k = None -> rh_free m = p :: fr ->
  rh_wf (RefHmap (<[k := p]> (rh_idx m)) (<[p := v]> (rh_mem m)) fr (rh_next m)).
Proof using Type.
  intros [Hlt Hinj Hnd Hf Hc] Hk Hfr. rewrite Hfr in *. apply NoDup_cons in Hnd as [Hp Hnd].
  assert (forall k' p', rh_idx m !! k' = Some p' -> p' <> p) as Hfresh.
  { intros k' p' H' ->. destruct (Hlt _ _ H') as [_ Hn]. set_solver. }
  split; simpl; [| |done| |].
  - intros k' p' [[<- <-]|[_ H']]%lookup_insert_Some; [split; [apply Hf; set_solver|done]|].
    destruct (Hlt _ _ H'). split; [done|set_solver].
  - intros k1 k2 p'. rewrite !lookup_insert_Some. naive_solver.
  - intros p' ?. apply Hf. set_solver.
  - rewrite map_size_insert_None by done. simpl in Hc. lia.
Qed.

Lemma rh_extend_wf k v m :
  rh_wf m -> rh_idx m !! k = None -> rh_free m = [] ->
  rh_wf (RefHmap (<[k := rh_next m]> (rh_idx m)) (<[rh_next m := v]> (rh_mem m)) []
           (rh_next m + 1)).
Proof using Type.
  intros [Hlt Hinj Hnd Hf Hc] Hk Hfr. rewrite Hfr in *.
  assert (forall k' p', rh_idx m !! k' = Some p' -> p' <> rh_next m) as Hfresh.
  { intros k' p' H' ->. destruct (Hlt _ _ H') as [? _]. lia. }
  split; simpl; [| |constructor| |].
  - intros k' p' [[<- <-]|[_ H']]%lookup_insert_Some; [split; [lia|set_solver]|].
    destruct (Hlt _ _ H'). split; [lia|set_solver].
  - intros k1 k2 p'. rewrite !lookup_insert_Some. naive_solver.
  - by intros p' ?%elem_of_nil.
  - rewrite map_size_insert_None by done. simpl in Hc. lia.
Qed.

Lemma rh_delete_wf k m : rh_wf m -> rh_wf (rh_delete k m).2.
Proof using Type.
  intros [Hlt Hinj Hnd Hf Hc]. unfold rh_delete.
  destruct (rh_idx m !! k) as [p|] eqn:Hk; [|by split].
  destruct (Hlt _ _ Hk). split; simpl.
  - intros k' p' [Hne H']%lookup_delete_Some. destruct (Hlt _ _ H'). split; [done|].
    intros [->|?]%elem_of_cons; [|done]. by apply Hne, (Hinj _ _ p).
  - intros k1 k2 p'. rewrite !lookup_delete_Some. naive_solver.
  - by constructor.
  - intros p' [->|?]%elem_of_cons; auto.
  - rewrite map_size_delete_Some by eauto.
    assert (size (rh_idx m) <> 0%nat) by (intros He%map_size_empty_inv; by rewrite He in Hk). lia.
Qed.
End ref_hash.

Lemma BPF_ANY_eq : BPF_ANY = 0.
Proof. vm_compute. reflexivity. Qed.

Definition ref_hash (V : Type) `{!Inhabited V} (max : Z) : BpfHash V.
Proof.
  refine {|
    hmap := ref_hmap V;
    hm_max_entries := max;
    hm_empty := RefHmap ∅ ∅ [] 0;
    hm_lookup := rh_lookup;
    hm_load := rh_load;
    hm_store := rh_store;
    hm_update := rh_update max;
    hm_delete := rh_delete;
    hm_wf := rh_wf;
    hm_abs := rh_abs |}.
  - apply rh_empty_wf.
  - unfold rh_abs. simpl. apply fmap_empty.
  - intros. unfold rh_abs, rh_lookup. by rewrite lookup_fmap.
  - intros. by apply rh_store_wf.
  - intros m k p v Hwf Hk. by apply rh_load_insert.
  - done.
  - intros m k v Hwf. unfold rh_update. destruct (rh_idx m !! k) eqn:Hk; [by apply rh_store_wf|].
    destruct (rh_free m) eqn:Hf; [|by apply rh_link_wf].
    destruct (rh_next m <? max); [by apply rh_extend_wf|done].
  - intros m k v Hwf. unfold rh_update. destruct (rh_idx m !! k) eqn:Hk.
    { left. split; [done|]. by apply rh_load_insert. }
    destruct (rh_free m) eqn:Hf.
    + destruct (rh_next m <? max); [left|by right]. split; [done|].
      apply rh_abs_link; [done|]. intros k' p' H' ->. destruct (rh_idx_lt _ Hwf _ _ H'). lia.
    + left. split; [done|]. apply rh_abs_link; [done|]. intros k' p' H' ->.
      destruct (rh_idx_lt _ Hwf _ _ H') as [_ Hn]. rewrite Hf in Hn. set_solver.
  - intros m k v Hwf Hroom. unfold rh_update. destruct (rh_idx m !! k) eqn:Hk; [done|].
    destruct (rh_free m) eqn:Hf; [|done]. destruct (Z.ltb_spec (rh_next m) max); [done|].
    unfold rh_abs in Hroom. rewrite lookup_fmap, Hk, map_size_fmap in Hroom.
    pose proof (rh_count _ Hwf) as Hc. rewrite Hf in Hc. simpl in Hc.
    destruct Hroom as [[? ?]|?]; [done|lia].
  - intros m k v k' Hwf Hne. unfold rh_update, rh_lookup. destruct (rh_idx m !! k); [done|].
    destruct (rh_free m); [destruct (rh_next m <? max); [|done]|]; simpl; by apply lookup_insert_ne.
  - intros. by apply rh_delete_wf.
  - intros m k Hwf. unfold rh_delete, rh_abs. destruct (rh_idx m !! k) eqn:Hk; simpl.
    + by rewrite fmap_delete.
    + rewrite delete_id; [done|]. by rewrite lookup_fmap, Hk.
  - intros m k k' Hwf Hne. unfold rh_delete, rh_lookup. destruct (rh_idx m !! k); [|done].
    simpl. by apply lookup_delete_ne.
  - intros m k p Hwf. unfold rh_delete. by destruct (rh_idx m !! k).
Defined.

#[export] Instance ref_hash_recycling (V : Type) `{!Inhabited V} (max : Z) : Recycling (ref_hash V max).
Proof.
  intros m k k' p v _ Hk Hk'. change (rh_idx m !! k = Some p) in Hk. change (rh_idx m !! k' = None) in Hk'.
  change (rh_idx (rh_update max k' v BPF_ANY (rh_delete k m).2).2 !! k' = Some p).
  unfold rh_delete. rewrite Hk. unfold rh_update. simpl.
  rewrite lookup_delete_ne, Hk' by (intros ->; congruence). simpl. apply lookup_insert_eq.
Qed.

(** ** Ring buffers *)

Record ref_ring := RefRing { rg_recs : list rrec; rg_next : Z }.

Definition set_rec (s : Z) (f : rrec -> rrec) (l : list rrec) : list rrec :=
  (λ r, if decide (rr_slot r = s) then f r else r) <$> l.

Definition rg_reserve (size n flags : Z) (b : ref_ring) : option (Z * ref_ring) :=
  if ring_used (rr_data <$> rg_recs b) + ring_len n <? size
  then Some (rg_next b,
             RefRing (rg_recs b ++ [RRec (rg_next b) (repeat x00 (Z.to_nat n)) false])
               (rg_next b + 1))
  else None.
Definition rg_write (s : Z) (bs : list byte) (b : ref_ring) : ref_ring :=
  RefRing (set_rec s (λ r, RRec (rr_slot r) bs (rr_ready r)) (rg_recs b)) (rg_next b).
Definition rg_submit (s flags : Z) (b : ref_ring) : ref_ring :=
  RefRing (set_rec s (λ r, RRec (rr_slot r) (rr_data r) true) (rg_recs b)) (rg_next b).
Definition rg_consume (b : ref_ring) : option (list byte * ref_ring) :=
  match rg_recs b with
  | RRec _ d true :: l => Some (d, RefRing l (rg_next b))
  | _ => None
  end.

Definition rg_wf (b : ref_ring) : Prop :=
  NoDup (rr_slot <$> rg_recs b) /\ Forall (λ r, rr_slot r < rg_next b) (rg_recs b).

Lemma set_rec_slots s f l :
  (forall r, rr_slot (f r) = rr_slot r) -> rr_slot <$> set_rec s f l = rr_slot <$> l.
Proof.
  intros Hf. unfold set_rec. rewrite <- list_fmap_compose. apply list_fmap_ext.
  intros _ r _. simpl. by case_decide.
Qed.

Lemma set_rec_mid s f l1 r l2 :
  NoDup (rr_slot <$> l1 ++ r :: l2) -> rr_slot r = s ->
  set_rec s f (l1 ++ r :: l2) = l1 ++ f r :: l2.
Proof.
  intros Hnd <-. unfold set_rec. rewrite fmap_app, fmap_cons.
  rewrite fmap_app, fmap_cons in Hnd. apply NoDup_app in Hnd as (_ & H1 & H2). apply NoDup_cons in H2 as [H2 _].
  rewrite decide_True by done. f_equal; [|f_equal].
  - rewrite <- (list_fmap_id l1) at 2. apply list_fmap_ext. intros i x Hx.
    rewrite decide_False; [done|]. intros He. apply (H1 (rr_slot x)).
    + apply list_elem_of_fmap. eauto using list_elem_of_lookup_2.
    + rewrite He. set_solver.
  - rewrite <- (list_fmap_id l2) at 2. apply list_fmap_ext. intros i x Hx.
    rewrite decide_False; [done|]. intros He. apply H2. rewrite <- He.
    apply list_elem_of_fmap. eauto using list_elem_of_lookup_2.
Qed.

Lemma rg_set_wf s f b :
  (forall r, rr_slot (f r) = rr_slot r) -> rg_wf b -> rg_wf (RefRing (set_rec s f (rg_recs b)) (rg_next b)).
Proof.
  intros Hf [Hnd Hlt]. split; simpl; [by rewrite set_rec_slots|].
  apply Forall_fmap. eapply Forall_impl; [exact Hlt|]. intros r Hr. simpl.
  case_decide; [by rewrite Hf|done].
Qed.

Definition ref_ringbuf (size : Z) : Ringbuf.
Proof.
  refine {|
    ringbuf := ref_ring;
    rb_size := size;
    rb_empty := RefRing [] 0;
    rb_reserve := rg_reserve size;
    rb_write := rg_write;
    rb_submit := rg_submit;
    rb_consume := rg_consume;
    rb_wf := rg_wf;
    rb_view := rg_recs |}.
  - split; constructor.
  - done.
  - by intros b [].
  - intros b n s b' [Hnd Hlt] Hn. unfold rg_reserve. destruct (_ <? _); [|done].
    intros [= <- <-]. split.
    + split; simpl.
      * rewrite fmap_app. apply NoDup_app. split_and!; [done| |apply NoDup_singleton].
        intros x (r & -> & Hr)%list_elem_of_fmap Hx. rewrite Forall_forall in Hlt.
        apply Hlt in Hr. apply list_elem_of_singleton in Hx. simpl in Hx. lia.
      * apply Forall_app_2; [|repeat constructor; simpl; lia].
        eapply Forall_impl; [exact Hlt|]. simpl. lia.
    + eexists. split; [|done]. rewrite repeat_length. lia.
  - intros b n [Hnd Hlt] Hn Hroom. unfold rg_reserve.
    rewrite (proj2 (Z.ltb_lt _ _) Hroom). eauto.
  - intros b s l1 l2 d bs [Hnd Hlt] Hv Hlen. split; [by apply rg_set_wf|].
    unfold rg_write. simpl. rewrite Hv in *. by rewrite set_rec_mid.
  - intros b s l1 l2 d [Hnd Hlt] Hv. split; [by apply rg_set_wf|].
    unfold rg_submit. simpl. rewrite Hv in *. by rewrite set_rec_mid.
  - intros b s d l [Hnd Hlt] Hv. unfold rg_consume. rewrite Hv in *.
    eexists. split_and!; [done| |done]. inversion Hlt. apply NoDup_cons in Hnd as [_ Hnd].
    by split.
  - intros b _ Hno. unfold rg_consume.
    destruct (rg_recs b) as [|[s d []] l] eqn:Hv; [done| |done]. by destruct (Hno s d l).
Defined.

(** ** A concrete machine

    Used by the witnesses: the reference runtime with the map and ring sizes of
    the programs, and worlds whose kernel memory holds sockets. *)

Definition mem_at (a : Z) (bs : list byte) : gmap Z byte :=
  list_to_map (imap (λ i b, (a + Z.of_nat i, b)) bs).

(** The first 16 bytes of [struct sock_common]: addresses and ports as the
    kernel keeps them (network order, except the local port). *)
Definition sock_image (daddr saddr : list Z) (dport num : Z) : list byte :=
  (byte_of_Z <$> daddr) ++ (byte_of_Z <$> saddr) ++ le_bytes 4 0 ++
  [byte_of_Z (dport / 256); byte_of_Z dport] ++ le_bytes 2 num.

Definition comm_of (s : string) : list byte :=
  take 16 (ascii_bytes s ++ repeat x00 16).

(** The socket 10.0.0.1:54321 -> 93.184.216.34:[dport] at address 4096. *)
Definition world_at (pid_tgid ktime dport : Z) : ref_world :=
  RefWorld pid_tgid ktime (comm_of "curl")
    (mem_at 4096 (sock_image [93; 184; 216; 34] [10; 0; 0; 1] dport 54321)) ∅.

#[export] Instance tcp_event_inhabited : Inhabited tcp_event :=
  populate {| te_timestamp_ns := 0; te_event_type := 0; te_pid := 0; te_tid := 0;
    te_src_ip := 0; te_dst_ip := 0; te_src_port := 0; te_dst_port := 0; te_tcp_state := 0;
    te_bytes_sent := 0; te_bytes_recv := 0; te_comm := [] |}.

Definition ref_tcp_hash : BpfHash tcp_event := ref_hash tcp_event 10240.
Definition ref_ring256 : Ringbuf := ref_ringbuf RING_BUFFER_SIZE.
