(* ===== verification/LayoutFacts.v ===== *)
(** * What the declared layouts guarantee

    Properties of the layouts computed from [vmlinux.h] and [common.h]: fields
    do not overlap, designators stay inside their object, every socket type
    the hooked functions are called with has the members the probes read at
    the same place, the events are laid out without holes. *)

From S2P Require Import Prelude Bytes CLayout CObject VmlinuxBase VmlinuxNet Vmlinux Common Bpf BpfRef.

#[local] Open Scope string_scope.
#[local] Open Scope list_scope.
#[local] Open Scope Z_scope.

(** ** Lemmas *)

Lemma layout_decls_lookup ds E E' k n packed fs :
  layout_decls ds E = Some E' -> DComp n k packed fs ∈ ds ->
  exists pfs, layout_fields E' fs = Some pfs /\ E' !! n = Some (layout_comp k packed pfs).
Proof.
  revert E. induction ds as [|d ds IH]; simpl; intros E H Hin; [by apply elem_of_nil in Hin|].
  apply bind_Some in H as (E1 & Hd & H). apply elem_of_cons in Hin as [<-|Hin]; [|by eapply IH].
  pose proof (layout_decls_mono _ _ _ H) as Hm1. pose proof (layout_decl_mono _ _ _ Hd) as Hm.
  unfold layout_decl in Hd. cbn [decl_name] in Hd. destruct (E !! n); [done|].
  apply bind_Some in Hd as (ti & Hti & [= <-]).
  apply (layout_type_mono _ E') in Hti; [|by etrans].
  rewrite layout_type_comp in Hti. apply fmap_Some in Hti as (pfs & Hpfs & ->).
  exists pfs. split; [done|]. eapply lookup_weaken, Hm1. apply lookup_insert_eq.
Qed.

Lemma layout_fields_wf E fs pfs : wf_env E -> layout_fields E fs = Some pfs -> Forall wf_pfield pfs.
Proof.
  intros HE Hfs%layout_fields_Forall2. induction Hfs as [|f pf fs pfs (_ & _ & Hb & Ht & Hok) _ IH];
    constructor; [|done].
  split; [by eapply layout_type_wf; [apply wf_env_layouts|]|by rewrite Hb].
Qed.

Lemma placed_bits_unit fs o f w cur :
  Forall wf_pfield fs -> 0 <= cur -> (o, f) ∈ (place_all false cur fs).1 ->
  pf_bits f = Some w -> 0 < w ->
  o mod (8 * ti_size (pf_info f)) + w <= 8 * ti_size (pf_info f).
Proof.
  intros Hfs. revert cur. induction Hfs as [|g fs Hg Hfs IH]; intros cur Hc; simpl.
  { by intros ?%elem_of_nil. }
  pose proof (place_ge false cur g Hg Hc). pose proof (pf_width_nonneg g Hg).
  specialize (IH (place false cur g + pf_width g) ltac:(lia)). destruct (place_all _ _ fs).
  simpl in *. intros [[= -> ->]|?]%elem_of_cons Hb Hw; [|by apply IH].
  by apply place_bits_unit.
Qed.

Lemma object_at_embeds T chain S path o n :
  embeds T chain S = true -> object_at vmlinux (CName S) path = Some (o, n) ->
  object_at vmlinux (CName T) (chain ++ path) = Some (o, n).
Proof.
  unfold object_at. intros He (lv & Hlv & H)%bind_Some.
  by rewrite (embeds_resolve _ _ _ _ _ He Hlv).
Qed.

(** A read depends only on where the designated object is. *)
Lemma core_read_same `{!Helpers} w T T' base path path' o n :
  object_at vmlinux (CName T) path = Some (o, n) ->
  object_at vmlinux (CName T') path' = Some (o, n) ->
  w_core_read w T base path = w_core_read w T' base path'.
Proof.
  intros Ho Ho'. destruct (read_mem (w_kmem w) (base + o) (Z.to_nat n)) eqn:Hm.
  - by rewrite (core_read_ok _ _ _ _ _ _ _ Ho Hm), (core_read_ok _ _ _ _ _ _ _ Ho' Hm).
  - by rewrite (core_read_fault _ _ _ _ _ _ Ho Hm), (core_read_fault _ _ _ _ _ _ Ho' Hm).
Qed.

Lemma read_mem_prefix m a n bs k :
  read_mem m a n = Some bs -> (k <= n)%nat -> read_mem m a k = Some (take k bs).
Proof.
  revert a n bs. induction k as [|k IH]; intros a [|n] bs H Hk; try done; [lia|]. simpl in *.
  apply bind_Some in H as (b & -> & (bs' & H' & [= <-])%bind_Some). simpl.
  by rewrite (IH _ _ _ H') by lia.
Qed.

Lemma read_mem_slice m a n bs o k :
  read_mem m a n = Some bs -> (o + k <= n)%nat ->
  read_mem m (a + Z.of_nat o) k = Some (slice o k bs).
Proof.
  revert a n bs. induction o as [|o IH]; intros a n bs H Hk.
  - rewrite Z.add_0_r. by apply (read_mem_prefix _ _ n); [|lia].
  - destruct n as [|n]; [lia|]. simpl in H.
    apply bind_Some in H as (b & _ & (bs' & H' & [= <-])%bind_Some).
    replace (a + Z.of_nat (S o)) with (a + 1 + Z.of_nat o) by lia. by apply (IH _ n); [|lia].
Qed.

Lemma skc_reads_slices `{!Helpers} w sk bs :
  read_mem (w_kmem w) sk 16 = Some bs ->
  skc_read w sk "skc_daddr" = le_val (slice 0 4 bs) /\
  skc_read w sk "skc_rcv_saddr" = le_val (slice 4 4 bs) /\
  skc_read w sk "skc_num" = le_val (slice 14 2 bs) /\
  exists hi lo, slice 12 2 bs = [hi; lo] /\
    bpf_ntohs (skc_read w sk "skc_dport") = Z_of_byte hi * 256 + Z_of_byte lo.
Proof.
  intros Hm. pose proof (read_mem_length _ _ _ _ Hm) as Hlen. unfold skc_read.
  assert (forall o k, (o + k <= 16)%nat ->
    read_mem (w_kmem w) (sk + Z.of_nat o) k = Some (slice o k bs)) as Hr.
  { intros. by eapply read_mem_slice. }
  rewrite (core_read_ok _ _ _ _ _ _ _ skc_daddr_at (Hr 0%nat 4%nat ltac:(lia))).
  rewrite (core_read_ok _ _ _ _ _ _ _ skc_rcv_saddr_at (Hr 4%nat 4%nat ltac:(lia))).
  rewrite (core_read_ok _ _ _ _ _ _ _ skc_num_at (Hr 14%nat 2%nat ltac:(lia))).
  rewrite (core_read_ok _ _ _ _ _ _ _ skc_dport_at (Hr 12%nat 2%nat ltac:(lia))).
  split_and!; [done..|].
  do 17 (destruct bs as [|? bs]; try discriminate Hlen).
  eexists _, _. split; [reflexivity|]. apply ntohs_spec.
Qed.

(** ** Properties *)

(** In every structure of the kernel types the fields do not overlap and
    lie inside the object, a field that is not a bit-field is at a multiple of
    its alignment, and a bit-field does not cross a storage unit of its type. *)
Theorem vmlinux_fields_sound n packed fs :
  DComp n CStruct packed fs ∈ vmlinux_decls ->
  exists pfs ti, layout_fields vmlinux fs = Some pfs /\ vmlinux !! n = Some ti /\
    let l := (place_all packed 0 pfs).1 in
    l.*2 = pfs /\ disjoint_spans (span <$> l) /\
    forall o f, (o, f) ∈ l ->
      0 <= o /\ o + pf_width f <= 8 * ti_size ti /\
      (pf_bits f = None -> (8 * pf_align packed f | o)) /\
      (forall w, packed = false -> pf_bits f = Some w -> 0 < w ->
        o mod (8 * ti_size (pf_info f)) + w <= 8 * ti_size (pf_info f)).
Proof.
  intros Hin. destruct (layout_decls_lookup _ _ _ _ _ _ _ vmlinux_complete Hin) as (pfs & Hpfs & Hn).
  pose proof (layout_fields_wf _ _ _ vmlinux_wf Hpfs) as Hwf.
  exists pfs, (layout_comp CStruct packed pfs). split; [done|]. split; [done|].
  cbv zeta. split; [apply place_all_fields|].
  split; [by eapply ordered_spans_disjoint, place_all_ordered|].
  intros o f Hf. destruct (placed_spec CStruct packed pfs o f Hwf Hf) as (_ & _ & Ho & He & Ha).
  split_and!; [done| |done|].
  - rewrite (layout_comp_size CStruct packed pfs Hwf).
    pose proof (pow2_pos _ (agg_align_pow2 packed pfs Hwf)).
    pose proof (align_up_ge (8 * agg_align packed pfs) ltac:(lia) (placed CStruct packed pfs).2). lia.
  - intros w -> Hb Hw. exact (placed_bits_unit pfs o f w 0 Hwf ltac:(lia) Hf Hb Hw).
Qed.

(** Every member designator that the kernel types accept denotes bits
    inside the object it starts from; unless it is a bit-field it starts at a
    byte boundary and is as wide as its type. *)
Theorem vmlinux_designators_in_bounds T path lv ti :
  resolve vmlinux (CName T) path = Some lv -> vmlinux !! T = Some ti ->
  0 <= lv_off lv /\ 0 <= lv_width lv /\ lv_off lv + lv_width lv <= 8 * ti_size ti /\
  (lv_bits lv = false ->
    (8 | lv_off lv) /\ sizeof vmlinux (lv_type lv) = Some (lv_width lv / 8) /\ (8 | lv_width lv)).
Proof. intros Hr Ht. exact (resolve_spec vmlinux vmlinux_wf _ _ _ _ Hr Ht). Qed.

(** [C36] The probes read a [struct sock *] whatever socket it points to: each
    member they could name is at the same address in a TCP, UDP, raw, Unix or
    netlink socket, through the members that embed the [struct sock]. *)
Theorem sock_reads_any_socket `{!Helpers} w T chain path o n base :
  (T, chain) ∈ sock_objects -> object_at vmlinux (CName "struct sock") path = Some (o, n) ->
  w_core_read w "struct sock" base path = w_core_read w T base (chain ++ path).
Proof.
  intros Hin Ho. pose proof (proj1 (Forall_forall _ _) sock_objects_embed _ Hin) as He.
  cbv beta iota in He. exact (core_read_same w _ _ base _ _ o n Ho (object_at_embeds _ _ _ _ _ _ He Ho)).
Qed.

(** [C35] What the probes take from kernel memory: when the 16 bytes at [sk] are
    readable, the remote and local address are their bytes 0-3 and 4-7 as
    little-endian integers (the addresses stay in network byte order), the
    remote port is bytes 12-13 most significant first and the local port bytes
    14-15 least significant first. *)
Theorem skc_reads_memory `{!Helpers} w sk bs :
  read_mem (w_kmem w) sk 16 = Some bs ->
  skc_read w sk "skc_daddr" = le_val (slice 0 4 bs) /\
  skc_read w sk "skc_rcv_saddr" = le_val (slice 4 4 bs) /\
  skc_read w sk "skc_num" = le_val (slice 14 2 bs) /\
  exists hi lo, slice 12 2 bs = [hi; lo] /\
    bpf_ntohs (skc_read w sk "skc_dport") = Z_of_byte hi * 256 + Z_of_byte lo.
Proof. exact (skc_reads_slices w sk bs). Qed.

(** Offsets and sizes in declaration order. *)
Definition member_table (T : string) (names : list string) : list (option (Z * Z)) :=
  (λ f, object_at common (CName T) [f]) <$> names.

(** The events as C lays them out: 68, 288, 288 and 310 bytes, the members
    at these offsets with these sizes. *)
Theorem event_layouts :
  (λ T, sizeof common (CName T)) <$>
    ["struct tcp_event"; "struct dns_event"; "struct http_event"; "struct db_event"] =
    [Some 68; Some 288; Some 288; Some 310] /\
  member_table "struct tcp_event" ["timestamp_ns"; "event_type"; "pid"; "tid"; "src_ip"; "dst_ip";
      "src_port"; "dst_port"; "tcp_state"; "bytes_sent"; "bytes_recv"; "comm"] =
    Some <$> [(0, 8); (8, 4); (12, 4); (16, 4); (20, 4); (24, 4); (28, 2); (30, 2); (32, 4);
      (36, 8); (44, 8); (52, 16)] /\
  member_table "struct dns_event" ["timestamp_ns"; "event_type"; "pid"; "src_ip"; "dst_ip";
      "src_port"; "dst_port"; "query_id"; "qtype"; "domain"] =
    Some <$> [(0, 8); (8, 4); (12, 4); (16, 4); (20, 4); (24, 2); (26, 2); (28, 2); (30, 2); (32, 256)] /\
  member_table "struct http_event" ["timestamp_ns"; "event_type"; "pid"; "src_ip"; "dst_ip";
      "src_port"; "dst_port"; "status_code"; "method"; "_pad"; "host"; "path"] =
    Some <$> [(0, 8); (8, 4); (12, 4); (16, 4); (20, 4); (24, 2); (26, 2); (28, 2); (30, 1); (31, 1);
      (32, 128); (160, 128)] /\
  member_table "struct db_event" ["timestamp_ns"; "event_type"; "pid"; "src_ip"; "dst_ip";
      "src_port"; "dst_port"; "protocol"; "_pad"; "payload_len"; "response_bytes"; "payload"; "comm"] =
    Some <$> [(0, 8); (8, 4); (12, 4); (16, 4); (20, 4); (24, 2); (26, 2); (28, 1); (29, 1); (30, 4);
      (34, 4); (38, 256); (294, 16)].
Proof. vm_compute. split_and!; reflexivity. Qed.

(** ** Witnesses *)

Lemma vmlinux_fields_sound_witness :
  exists fs pfs ti, struct_sock_common = DComp "struct sock_common" CStruct false fs /\
    layout_fields vmlinux fs = Some pfs /\ vmlinux !! "struct sock_common" = Some ti /\
    let l := (place_all false 0 pfs).1 in
    l.*2 = pfs /\ disjoint_spans (span <$> l) /\
    forall o f, (o, f) ∈ l ->
      0 <= o /\ o + pf_width f <= 8 * ti_size ti /\
      (pf_bits f = None -> (8 * pf_align false f | o)) /\
      (forall w, false = false -> pf_bits f = Some w -> 0 < w ->
        o mod (8 * ti_size (pf_info f)) + w <= 8 * ti_size (pf_info f)).
Proof.
  unshelve epose proof (vmlinux_fields_sound "struct sock_common" false _ _) as (pfs & ti & H);
    [..|eexists _, pfs, ti; split; [reflexivity|exact H]].
  unfold vmlinux_decls. apply elem_of_app. right. apply elem_of_app. left.
  unfold net_decls. do 28 apply list_elem_of_further. apply list_elem_of_here.
Defined.

Lemma vmlinux_designators_in_bounds_witness :
  exists lv ti, resolve vmlinux (CName "struct sock") ["__sk_common"; "skc_dport"] = Some lv /\
    vmlinux !! "struct sock" = Some ti /\
    0 <= lv_off lv /\ 0 <= lv_width lv /\ lv_off lv + lv_width lv <= 8 * ti_size ti /\
    (lv_bits lv = false ->
      (8 | lv_off lv) /\ sizeof vmlinux (lv_type lv) = Some (lv_width lv / 8) /\ (8 | lv_width lv)).
Proof.
  assert (exists lv ti, resolve vmlinux (CName "struct sock") ["__sk_common"; "skc_dport"] = Some lv /\
    vmlinux !! "struct sock" = Some ti) as (lv & ti & Hlv & Hti).
  { eexists _, _. split; vm_compute; reflexivity. }
  exists lv, ti. split; [exact Hlv|]. split; [exact Hti|].
  exact (vmlinux_designators_in_bounds _ _ _ _ Hlv Hti).
Defined.

Lemma sock_reads_any_socket_witness :
  w_core_read (Helpers := ref_helpers) (world_at 7 1000 443) "struct sock" 4096 ["__sk_common"; "skc_dport"] =
  w_core_read (Helpers := ref_helpers) (world_at 7 1000 443) "struct tcp_sock" 4096
    ["inet_conn"; "icsk_inet"; "sk"; "__sk_common"; "skc_dport"].
Proof.
  apply (@sock_reads_any_socket ref_helpers (world_at 7 1000 443) "struct tcp_sock"
    ["inet_conn"; "icsk_inet"; "sk"] ["__sk_common"; "skc_dport"] 12 2).
  - do 2 apply list_elem_of_further. apply list_elem_of_here.
  - exact skc_dport_at.
Defined.

Lemma skc_reads_memory_witness :
  let bs := sock_image [93; 184; 216; 34] [10; 0; 0; 1] 443 54321 in
  let w := world_at 7 1000 443 in
  skc_read (H := ref_helpers) w 4096 "skc_daddr" = le_val (slice 0 4 bs) /\
  skc_read (H := ref_helpers) w 4096 "skc_rcv_saddr" = le_val (slice 4 4 bs) /\
  skc_read (H := ref_helpers) w 4096 "skc_num" = le_val (slice 14 2 bs) /\
  exists hi lo, slice 12 2 bs = [hi; lo] /\
    @bpf_ntohs ref_helpers (skc_read (H := ref_helpers) w 4096 "skc_dport") = Z_of_byte hi * 256 + Z_of_byte lo.
Proof.
  apply (@skc_reads_memory ref_helpers (world_at 7 1000 443) 4096
    (sock_image [93; 184; 216; 34] [10; 0; 0; 1] 443 54321)).
  vm_compute. reflexivity.
Defined.
