(* ===== verification/ProbeObject.v ===== *)
(** * Program objects and their specifications

    The programs of one [.bpf.c] file share a hash map and a ring buffer.
    Seen from outside such an object is a dictionary and a log of events that
    were not read yet ([abs]); [obj_rel] relates it to the runtime state.
    [Probes] is the interface of an object: its entry points, what each does to
    the abstract state, and that the program text does just that.  Against it
    are proved, once for all objects, the refinement of whole traces (programs
    fired in any order, records read in between) and the invariance lemmas the
    objects' theorems need. *)

From S2P Require Import Prelude Bytes CLayout CObject Bpf.

(** ** Simulation of traces *)

Section simulation.
Context {L C S : Type} (cstep : L -> C -> C) (sstep : L -> S -> S -> Prop).

Definition trace_run (ls : list L) (c : C) : C := foldl (λ c l, cstep l c) c ls.

Inductive spec_run : list L -> S -> S -> Prop :=
  | spec_run_nil s : spec_run [] s s
  | spec_run_snoc ls l s s' s'' :
      spec_run ls s s' -> sstep l s' s'' -> spec_run (ls ++ [l]) s s''.

Lemma trace_run_snoc ls l c : trace_run (ls ++ [l]) c = cstep l (trace_run ls c).
Proof using Type. unfold trace_run. by rewrite foldl_app. Qed.

Lemma simulation (R : C -> S -> Prop) ls c s :
  (forall l c s, R c s -> exists s', sstep l s s' /\ R (cstep l c) s') ->
  R c s -> exists s', spec_run ls s s' /\ R (trace_run ls c) s'.
Proof using Type.
  intros Hsim Hrel. induction ls as [|l ls (s' & Hrun & Hrel')] using rev_ind.
  - exists s. split; [constructor|done].
  - destruct (Hsim l _ _ Hrel') as (s'' & Hstep & Hrel'').
    exists s''. rewrite trace_run_snoc. split; [by econstructor|done].
Qed.

(** What no step changes, no trace changes. *)
Lemma spec_run_unchanged {X} (f : S -> X) (ok : L -> Prop) ls s s' :
  (forall l s s', sstep l s s' -> ok l -> f s' = f s) ->
  spec_run ls s s' -> Forall ok ls -> f s' = f s.
Proof using Type.
  intros Hstep. induction 1 as [|ls l s s' s'' _ IH Hl]; [done|].
  intros [Hls Hok]%Forall_app. rewrite (Hstep _ _ _ Hl); [by apply IH|]. by inversion Hok.
Qed.

(** Induction on the history: [I] says what the state owes to the past. *)
Lemma spec_run_invariant (I : list L -> S -> Prop) s0 ls s :
  I [] s0 -> (forall ls l s s', I ls s -> sstep l s s' -> I (ls ++ [l]) s') ->
  spec_run ls s0 s -> I ls s.
Proof using Type. intros H0 Hstep. induction 1 as [|ls l s s' s'' _ IH Hl]; eauto. Qed.
End simulation.

(** ** Abstract state *)

Record abs (V E : Type) := Abs { ab_map : gmap Z V; ab_log : list E }.
Arguments Abs {V E}. Arguments ab_map {V E}. Arguments ab_log {V E}.

(** [sizeof] of the event structure. *)
Definition event_size (E : Type) `{!CObject E} : Z := default 0 (sizeof co_env co_type).

#[global] Arguments event_size : simpl never.

Lemma event_size_nonneg E `{!CObject E} : 0 <= event_size E.
Proof.
  unfold event_size. destruct (sizeof co_env co_type) as [z|] eqn:Hs; [|done].
  rewrite (fields_at_size _ _ _ _ co_layout) in Hs. injection Hs as <-. apply Nat2Z.is_nonneg.
Qed.

Section obj_rel.
Context {V E : Type} `{!CObject E} {HW : Helpers} {HM : BpfHash V} {HR : Ringbuf}.
Context (val_wf : V -> Prop).
Implicit Types (M : gmap Z V) (L : list E) (st : pstate V).

(** The log has no room for one more event. *)
Definition log_full L : Prop := rb_size <= ring_len (event_size E) * (Z.of_nat (length L) + 1).

(** The state of the object stands for the abstract state. *)
Record obj_rel st (s : abs V E) : Prop := {
  or_wf : ps_wf st;
  or_settled : settled st;
  or_map : hm_abs (ps_map st) = ab_map s;
  or_records : records st = to_bytes <$> ab_log s;
  or_map_wf : map_Forall (λ _, val_wf) (ab_map s);
  or_log_wf : Forall co_wf (ab_log s);
}.

Definition obj_init : pstate V := PState hm_empty rb_empty.

Lemma obj_init_rel : obj_rel obj_init (Abs ∅ []).
Proof using Type.
  split; simpl.
  - split; [apply hm_empty_wf|apply rb_empty_wf].
  - unfold settled. simpl. by rewrite rb_empty_view.
  - apply hm_empty_abs.
  - unfold records. simpl. by rewrite rb_empty_view.
  - apply map_Forall_empty.
  - constructor.
Qed.

Lemma length_event e : co_wf e -> Z.of_nat (length (to_bytes e)) = event_size E.
Proof using Type. intros Hwf. unfold event_size. by rewrite (length_to_bytes e Hwf). Qed.

Lemma log_full_iff st s : obj_rel st s -> ring_full st (event_size E) <-> log_full (ab_log s).
Proof using Type.
  intros [_ _ _ Hrec _ HL]. unfold ring_full, log_full.
  rewrite Hrec, (ring_used_same (event_size E)).
  - rewrite length_fmap. lia.
  - apply Forall_fmap. eapply Forall_impl; [exact HL|]. apply length_event.
Qed.

(** A ring that is not full gives the abstract log room. *)
Lemma obj_room st s : obj_rel st s -> ~ ring_full st (event_size E) -> ~ log_full (ab_log s).
Proof using Type. intros Hrel Hn Hf. by apply Hn, (log_full_iff _ _ Hrel). Qed.

(** *** Preservation *)

(** An emission seen from the abstract log. *)
Lemma emitted_rel st st' M L e :
  obj_rel st (Abs M L) -> co_wf e -> emitted (to_bytes e) st st' ->
  obj_rel st' (Abs M (L ++ [e])) \/ (obj_rel st' (Abs M L) /\ log_full L).
Proof using Type.
  intros Hrel He (Hwf' & Hset' & Hm & [Hr|[Hr Hf]]);
    destruct (Hrel) as [Hwf Hset Hmap Hrec HP HL]; simpl in *.
  - left. split; simpl; try done; [by rewrite Hm|by rewrite Hr, Hrec, fmap_app|].
    by apply Forall_app_2; [|constructor].
  - right. split; [split; simpl; try done; [by rewrite Hm|by rewrite Hr]|].
    apply (log_full_iff _ _ Hrel). by rewrite <- (length_event e).
Qed.

Lemma emit_rel w (src : prog V E) (failed don : Z) st M L e :
  obj_rel st (Abs M L) -> co_wf e ->
  (forall st', ps_map st' = ps_map st -> run w src st' = (e, st')) ->
  let st' := (run w (emit src to_bytes (event_size E) failed don) st).2 in
  obj_rel st' (Abs M (L ++ [e])) \/ (obj_rel st' (Abs M L) /\ log_full L).
Proof using Type.
  intros Hrel He Hsrc. apply (emitted_rel st); [done..|].
  apply run_emit; [exact (or_wf _ _ Hrel)|exact (or_settled _ _ Hrel)|by apply length_event|done].
Qed.

Lemma rel_with_map st M M' L m :
  obj_rel st (Abs M L) -> hm_wf m -> hm_abs m = M' -> map_Forall (λ _, val_wf) M' ->
  obj_rel (with_map st m) (Abs M' L).
Proof using Type. intros [[? ?] ? ? ? ? ?] ? ? ?. by split. Qed.

Lemma delete_rel st M L k :
  obj_rel st (Abs M L) ->
  obj_rel (with_map st (hm_delete k (ps_map st)).2) (Abs (delete k M) L).
Proof using Type.
  intros Hrel. destruct (Hrel) as [[Hm ?] ? Hmap ? HP ?]. simpl in *.
  apply (rel_with_map _ M); [done|by apply hm_delete_wf| |by apply map_Forall_delete].
  rewrite hm_delete_abs by done. by rewrite Hmap.
Qed.

(** [bpf_map_update_elem(.., BPF_ANY)] stores the element, unless the map is
    full and has no element with that key. *)
Lemma update_rel st M L k v :
  obj_rel st (Abs M L) -> val_wf v ->
  let st' := with_map st (hm_update k v BPF_ANY (ps_map st)).2 in
  obj_rel st' (Abs (<[k := v]> M) L) \/
  (obj_rel st' (Abs M L) /\ M !! k = None /\ hm_max_entries <= Z.of_nat (size M)).
Proof using Type.
  intros Hrel Hv. destruct (Hrel) as [[Hm ?] ? Hmap ? HP ?]. simpl in *.
  pose proof (hm_update_wf _ k v Hm) as Hm'.
  destruct (hm_update_abs _ k v Hm) as [[Hrc Habs]|[Hrc Habs]]; rewrite Hmap in Habs.
  - left. apply (rel_with_map _ M); [done..|]. by apply map_Forall_insert_2.
  - right. split; [by apply (rel_with_map _ M)|].
    destruct (decide (is_Some (M !! k) \/ Z.of_nat (size M) < hm_max_entries)) as [Hroom|Hno].
    + rewrite <- Hmap in Hroom. apply (hm_update_room _ _ v) in Hroom; [lia|done].
    + rewrite eq_None_not_Some. split; [tauto|lia].
Qed.

Lemma read_rel st M L : obj_rel st (Abs M L) -> obj_rel (consume st) (Abs M (tail L)).
Proof using Type.
  intros [Hwf Hset Hmap Hrec HP HL]. destruct (consume_spec st Hwf Hset) as (? & ? & Hm & Hr).
  split; simpl in *; try done.
  - by rewrite Hm.
  - rewrite Hr, Hrec. by destruct L.
  - destruct L; [done|]. by inversion HL.
Qed.
End obj_rel.

(** ** The interface of an object *)

Class Probes (V E : Type) `{!CObject E} {HW : Helpers} {HM : BpfHash V} {HR : Ringbuf} := {
  pb_call : Type;
  pb_exec : pb_call -> prog V Z;
  pb_val_wf : V -> Prop;
  pb_spec : world -> pb_call -> abs V E -> abs V E -> Prop;
  pb_refines w c st s :
    obj_rel pb_val_wf st s ->
    exists s', pb_spec w c s s' /\ obj_rel pb_val_wf (run w (pb_exec c) st).2 s';
}.

Inductive label {HW : Helpers} (C : Type) :=
  | Invoke (w : world) (c : C)
  | Read.
Arguments Invoke {HW C} w c.
Arguments Read {HW C}.

Section object.
Context {V E : Type} `{!CObject E} {HW : Helpers} {HM : BpfHash V} {HR : Ringbuf}.
Context {PB : Probes V E}.

(** A program fires, or userspace reads one record. *)
Definition obj_step (l : label pb_call) (st : pstate V) : pstate V :=
  match l with
  | Invoke w c => (run w (pb_exec c) st).2
  | Read => consume st
  end.

Inductive obj_spec_step : label pb_call -> abs V E -> abs V E -> Prop :=
  | spec_invoke w c s s' : pb_spec w c s s' -> obj_spec_step (Invoke w c) s s'
  | spec_read M L : obj_spec_step Read (Abs M L) (Abs M (tail L)).

Definition obj_run : list (label pb_call) -> pstate V -> pstate V := trace_run obj_step.
Definition obj_spec_run : list (label pb_call) -> abs V E -> abs V E -> Prop :=
  spec_run obj_spec_step.

(** The relation at the values the object stores. *)
Definition obj_sim : pstate V -> abs V E -> Prop := obj_rel pb_val_wf.

Lemma obj_step_refines l st s :
  obj_sim st s -> exists s', obj_spec_step l s s' /\ obj_sim (obj_step l st) s'.
Proof using Type.
  destruct l as [w c|]; intros Hrel.
  - destruct (pb_refines w c st s Hrel) as (s' & ? & ?). exists s'. by split; [constructor|].
  - destruct s as [M L]. eexists. split; [constructor|]. by apply read_rel.
Qed.

Lemma obj_run_refines ls st s :
  obj_sim st s -> exists s', obj_spec_run ls s s' /\ obj_sim (obj_run ls st) s'.
Proof using Type. apply (simulation obj_step obj_spec_step obj_sim). apply obj_step_refines. Qed.

Lemma obj_reachable ls :
  exists s, obj_spec_run ls (Abs ∅ []) s /\ obj_sim (obj_run ls obj_init) s.
Proof using Type. apply obj_run_refines, obj_init_rel. Qed.

(** Every record in a reachable ring is the image of a well-formed event that
    the abstract log holds. *)
Lemma obj_record ls bs :
  bs ∈ records (obj_run ls obj_init) ->
  exists s e, obj_spec_run ls (Abs ∅ []) s /\ e ∈ ab_log s /\ bs = to_bytes e /\ co_wf e.
Proof using Type.
  intros Hbs. destruct (obj_reachable ls) as (s & Hrun & [_ _ _ Hrec _ HL]).
  rewrite Hrec in Hbs. apply list_elem_of_fmap in Hbs as (e & -> & He).
  rewrite Forall_forall in HL. eauto 10.
Qed.

(** Fewer unread records than fit leave room for one more. *)
Lemma obj_capacity ls n :
  ring_len (event_size E) * n < rb_size ->
  Z.of_nat (length (records (obj_run ls obj_init))) < n ->
  ~ ring_full (obj_run ls obj_init) (event_size E).
Proof using Type.
  intros Hn Hlen. destruct (obj_reachable ls) as (s & _ & Hrel).
  rewrite (log_full_iff _ _ _ Hrel). unfold log_full.
  rewrite (or_records _ _ _ Hrel), length_fmap in Hlen.
  pose proof (ring_len_nonneg _ (event_size_nonneg E)). nia.
Qed.
End object.
