(* ===== verification/TcpTracker.v ===== *)
(** * tcp_tracker.bpf.c

    The TCP connection tracker: [handle_tcp_connect] parks a half-filled event
    under the thread's pid_tgid in [connect_info], [handle_tcp_v4_connect_ret]
    completes and emits it, [handle_tcp_set_state] reports accepts and closes. *)

From S2P Require Import Prelude Bytes CLayout CObject Vmlinux Common Bpf BpfRef ProbeObject.

#[local] Open Scope string_scope.
#[local] Open Scope list_scope.
#[local] Open Scope Z_scope.

(** ** Maps *)

Definition tcp_events : map_def := MapDef "BPF_MAP_TYPE_RINGBUF" RING_BUFFER_SIZE.
Definition connect_info : map_def := MapDef "BPF_MAP_TYPE_HASH" 10240.

(** ** Members of [struct tcp_event] that are assigned through a pointer *)

Definition te_set_state (x : Z) (e : tcp_event) : tcp_event :=
  {| te_timestamp_ns := te_timestamp_ns e; te_event_type := te_event_type e;
     te_pid := te_pid e; te_tid := te_tid e; te_src_ip := te_src_ip e; te_dst_ip := te_dst_ip e;
     te_src_port := te_src_port e; te_dst_port := te_dst_port e; te_tcp_state := x;
     te_bytes_sent := te_bytes_sent e; te_bytes_recv := te_bytes_recv e; te_comm := te_comm e |}.

Definition te_set_type (x : Z) (e : tcp_event) : tcp_event :=
  {| te_timestamp_ns := te_timestamp_ns e; te_event_type := x;
     te_pid := te_pid e; te_tid := te_tid e; te_src_ip := te_src_ip e; te_dst_ip := te_dst_ip e;
     te_src_port := te_src_port e; te_dst_port := te_dst_port e; te_tcp_state := te_tcp_state e;
     te_bytes_sent := te_bytes_sent e; te_bytes_recv := te_bytes_recv e; te_comm := te_comm e |}.

Definition te_set_timestamp (x : Z) (e : tcp_event) : tcp_event :=
  {| te_timestamp_ns := x; te_event_type := te_event_type e;
     te_pid := te_pid e; te_tid := te_tid e; te_src_ip := te_src_ip e; te_dst_ip := te_dst_ip e;
     te_src_port := te_src_port e; te_dst_port := te_dst_port e; te_tcp_state := te_tcp_state e;
     te_bytes_sent := te_bytes_sent e; te_bytes_recv := te_bytes_recv e; te_comm := te_comm e |}.

Definition sizeof_tcp_event : Z := default 0 (sizeof common (CName "struct tcp_event")).

Abbreviation tcp_prog := (prog tcp_event).

(** ** Helper *)

(** [evt] is the lvalue the C pointer designates: a local event, or a map
    element read when the record is filled. *)
Definition emit_event (evt : tcp_prog tcp_event) : tcp_prog Z :=
  (ring_evt <- RingbufReserve sizeof_tcp_event 0;;
   match ring_evt with
   | None => mret (-1)
   | Some s =>
       evt ≫= λ e,
       RingbufWrite s (to_bytes e);;;
       RingbufSubmit s 0;;;
       mret 0
   end)%prog.

Section handlers.
Context {HW : Helpers}.

(** ** Programs *)

(** kprobe/tcp_connect *)
Definition handle_tcp_connect (sk : Z) : tcp_prog Z :=
  (tid <- GetCurrentPidTgid;;
   saddr <- read_skc sk "skc_rcv_saddr";;
   daddr <- read_skc sk "skc_daddr";;
   sport <- read_skc sk "skc_num";;
   dport <- read_skc sk "skc_dport";;
   ts <- KtimeGetNs;;
   comm <- GetCurrentComm (Z.to_nat MAX_COMM_LEN);;
   let evt := {|
     te_timestamp_ns := ts; te_event_type := 0;
     te_pid := wrap 32 (Z.shiftr tid 32); te_tid := wrap 32 tid;
     te_src_ip := saddr; te_dst_ip := daddr; te_src_port := sport;
     te_dst_port := bpf_ntohs dport; te_tcp_state := 0;
     te_bytes_sent := 0; te_bytes_recv := 0; te_comm := comm |} in
   MapUpdateElem tid evt BPF_ANY;;;
   mret 0)%prog.

(** kretprobe/tcp_v4_connect *)
Definition handle_tcp_v4_connect_ret (ret : Z) : tcp_prog Z :=
  (tid <- GetCurrentPidTgid;;
   evt <- MapLookupElem tid;;
   match evt with
   | None => mret 0
   | Some p =>
       (if ret =? 0 then
          Store p (te_set_state TCP_ESTABLISHED);;;
          Store p (te_set_type (event_code EVENT_TCP_CONNECT));;;
          ts <- KtimeGetNs;;
          Store p (te_set_timestamp ts);;;
          emit_event (call (Load p))
        else mret 0) ≫= λ _,
       MapDeleteElem tid;;;
       mret 0
   end)%prog.

(** kprobe/tcp_set_state *)
Definition handle_tcp_set_state (sk state : Z) : tcp_prog Z :=
  (if negb (state =? TCP_ESTABLISHED) && negb (state =? TCP_TIME_WAIT) &&
      negb (state =? TCP_CLOSE)
   then mret 0
   else
     tid <- GetCurrentPidTgid;;
     saddr <- read_skc sk "skc_rcv_saddr";;
     daddr <- read_skc sk "skc_daddr";;
     sport <- read_skc sk "skc_num";;
     dport <- read_skc sk "skc_dport";;
     ts <- KtimeGetNs;;
     comm <- GetCurrentComm (Z.to_nat MAX_COMM_LEN);;
     let evt := {|
       te_timestamp_ns := ts;
       te_event_type :=
         event_code (if state =? TCP_ESTABLISHED then EVENT_TCP_ACCEPT else EVENT_TCP_CLOSE);
       te_pid := wrap 32 (Z.shiftr tid 32); te_tid := wrap 32 tid;
       te_src_ip := saddr; te_dst_ip := daddr; te_src_port := sport;
       te_dst_port := bpf_ntohs dport; te_tcp_state := wrap 32 state;
       te_bytes_sent := 0; te_bytes_recv := 0; te_comm := comm |} in
     emit_event (mret evt) ≫= λ _,
     mret 0)%prog.
End handlers.

(** ** Specification

    The tracker as a dictionary of connects in progress, one per thread, and
    the log of events not read yet. *)

Inductive tcp_call :=
  | Connect (sk : Z)
  | ConnectRet (ret : Z)
  | SetState (sk state : Z).

Definition tcp_exec `{!Helpers} (c : tcp_call) : tcp_prog Z :=
  match c with
  | Connect sk => handle_tcp_connect sk
  | ConnectRet ret => handle_tcp_v4_connect_ret ret
  | SetState sk state => handle_tcp_set_state sk state
  end.

Abbreviation tcp_abs := (abs tcp_event tcp_event).
Abbreviation tcp_rel := (obj_rel (E := tcp_event) tcp_event_wf).
Abbreviation tcp_label := (label tcp_call).

Section spec.
Context {HW : Helpers} {HM : BpfHash tcp_event} {HR : Ringbuf}.

(** The event describing socket [sk] as an invocation sees it. *)
Definition sock_event (w : world) (sk ty state : Z) : tcp_event := {|
  te_timestamp_ns := w_ktime_ns w;
  te_event_type := ty;
  te_pid := w_pid_tgid w / 2 ^ 32;
  te_tid := w_pid_tgid w mod 2 ^ 32;
  te_src_ip := skc_read w sk "skc_rcv_saddr";
  te_dst_ip := skc_read w sk "skc_daddr";
  te_src_port := skc_read w sk "skc_num";
  te_dst_port := bpf_ntohs (skc_read w sk "skc_dport");
  te_tcp_state := state;
  te_bytes_sent := 0;
  te_bytes_recv := 0;
  te_comm := w_comm w (Z.to_nat MAX_COMM_LEN) |}.

(** A parked event, completed when the connect has succeeded. *)
Definition established (w : world) (e : tcp_event) : tcp_event :=
  te_set_timestamp (w_ktime_ns w)
    (te_set_type (event_code EVENT_TCP_CONNECT) (te_set_state TCP_ESTABLISHED e)).

Definition reported (state : Z) : Prop :=
  state = TCP_ESTABLISHED \/ state = TCP_TIME_WAIT \/ state = TCP_CLOSE.

Definition state_event_type (state : Z) : Z :=
  event_code (if decide (state = TCP_ESTABLISHED) then EVENT_TCP_ACCEPT else EVENT_TCP_CLOSE).

Inductive tcp_spec (w : world) : tcp_call -> tcp_abs -> tcp_abs -> Prop :=
  | connect_stored sk P L :
      tcp_spec w (Connect sk) (Abs P L) (Abs (<[w_pid_tgid w := sock_event w sk 0 0]> P) L)
  | connect_refused sk P L :
      P !! w_pid_tgid w = None -> hm_max_entries <= Z.of_nat (size P) ->
      tcp_spec w (Connect sk) (Abs P L) (Abs P L)
  | ret_unknown ret P L :
      P !! w_pid_tgid w = None -> tcp_spec w (ConnectRet ret) (Abs P L) (Abs P L)
  | ret_failed ret P L :
      is_Some (P !! w_pid_tgid w) -> ret <> 0 ->
      tcp_spec w (ConnectRet ret) (Abs P L) (Abs (delete (w_pid_tgid w) P) L)
  | ret_emitted e P L :
      P !! w_pid_tgid w = Some e ->
      tcp_spec w (ConnectRet 0) (Abs P L) (Abs (delete (w_pid_tgid w) P) (L ++ [established w e]))
  | ret_dropped P L :
      is_Some (P !! w_pid_tgid w) -> log_full L ->
      tcp_spec w (ConnectRet 0) (Abs P L) (Abs (delete (w_pid_tgid w) P) L)
  | state_ignored sk state P L :
      ~ reported state -> tcp_spec w (SetState sk state) (Abs P L) (Abs P L)
  | state_emitted sk state P L :
      reported state ->
      tcp_spec w (SetState sk state) (Abs P L)
        (Abs P (L ++ [sock_event w sk (state_event_type state) state]))
  | state_dropped sk state P L :
      reported state -> log_full L -> tcp_spec w (SetState sk state) (Abs P L) (Abs P L).

(** *** Lemmas *)

Lemma sock_event_wf w sk ty state :
  in_range 32 ty -> in_range 32 state -> tcp_event_wf (sock_event w sk ty state).
Proof using Type.
  intros Hty Hst. split; simpl; try done; eauto with paryty.
Qed.

Lemma established_wf w e : tcp_event_wf e -> tcp_event_wf (established w e).
Proof using Type. intros []. split; simpl; try done. apply ktime_range. Qed.

(** *** The handlers *)

Lemma run_connect w sk st :
  run w (handle_tcp_connect sk) st =
    (0, with_map st (hm_update (w_pid_tgid w) (sock_event w sk 0 0) BPF_ANY (ps_map st)).2).
Proof using Type. unfold sock_event. by rewrite <- pid_tgid_hi. Qed.

Lemma run_set_state w sk state st :
  reported state -> in_range 32 state ->
  run w (handle_tcp_set_state sk state) st =
    (0, (run w (emit_event (mret (sock_event w sk (state_event_type state) state))) st).2).
Proof using Type.
  intros Hr Hs. unfold handle_tcp_set_state, state_event_type.
  assert (negb (state =? TCP_ESTABLISHED) && negb (state =? TCP_TIME_WAIT) &&
          negb (state =? TCP_CLOSE) = false) as ->.
  { destruct Hr as [->|[->| ->]]; reflexivity. }
  assert ((if state =? TCP_ESTABLISHED then EVENT_TCP_ACCEPT else EVENT_TCP_CLOSE) =
          (if decide (state = TCP_ESTABLISHED) then EVENT_TCP_ACCEPT else EVENT_TCP_CLOSE)) as ->.
  { destruct (Z.eqb_spec state TCP_ESTABLISHED), (decide (state = TCP_ESTABLISHED)); done. }
  unfold sock_event. rewrite <- pid_tgid_hi. cbn -[emit_event]. rewrite run_bind. simpl.
  by rewrite (wrap_id 32 state).
Qed.

Lemma run_set_state_ignored w sk state st :
  ~ reported state -> run w (handle_tcp_set_state sk state) st = (0, st).
Proof using Type.
  intros Hr. unfold handle_tcp_set_state, reported in *.
  destruct (Z.eqb_spec state TCP_ESTABLISHED), (Z.eqb_spec state TCP_TIME_WAIT),
    (Z.eqb_spec state TCP_CLOSE); simpl; tauto.
Qed.

Lemma run_ret_unknown w ret st :
  hm_lookup (w_pid_tgid w) (ps_map st) = None ->
  run w (handle_tcp_v4_connect_ret ret) st = (0, st).
Proof using Type. intros Hk. unfold handle_tcp_v4_connect_ret. simpl. by rewrite Hk. Qed.

Lemma run_ret_failed w ret p st :
  hm_lookup (w_pid_tgid w) (ps_map st) = Some p -> ret <> 0 ->
  run w (handle_tcp_v4_connect_ret ret) st =
    (0, with_map st (hm_delete (w_pid_tgid w) (ps_map st)).2).
Proof using Type.
  intros Hk Hret. unfold handle_tcp_v4_connect_ret. simpl. rewrite Hk.
  by destruct (Z.eqb_spec ret 0).
Qed.

(** The map after the three assignments through the element pointer. *)
Definition complete (w : world) (p : Z) (m : hmap) : hmap :=
  let m1 := hm_store p (te_set_state TCP_ESTABLISHED (hm_load p m)) m in
  let m2 := hm_store p (te_set_type (event_code EVENT_TCP_CONNECT) (hm_load p m1)) m1 in
  hm_store p (te_set_timestamp (w_ktime_ns w) (hm_load p m2)) m2.

Lemma run_ret_ok w p st :
  hm_lookup (w_pid_tgid w) (ps_map st) = Some p ->
  run w (handle_tcp_v4_connect_ret 0) st =
    (let st' := (run w (emit_event (call (Load p))) (with_map st (complete w p (ps_map st)))).2 in
     (0, with_map st' (hm_delete (w_pid_tgid w) (ps_map st')).2)).
Proof using Type.
  intros Hk. unfold handle_tcp_v4_connect_ret. cbn -[emit_event complete]. rewrite Hk.
  cbn -[emit_event complete]. by rewrite run_bind.
Qed.

Lemma complete_spec w p m k e :
  hm_wf m -> hm_lookup k m = Some p -> hm_load p m = e ->
  hm_wf (complete w p m) /\ hm_abs (complete w p m) = <[k := established w e]> (hm_abs m) /\
  hm_load p (complete w p m) = established w e.
Proof using Type.
  intros Hm Hk <-. unfold complete.
  set (v1 := te_set_state _ _). set (m1 := hm_store p v1 m).
  assert (hm_wf m1) as Hm1 by (by eapply hm_store_wf).
  assert (hm_lookup k m1 = Some p) as Hk1 by (by unfold m1; rewrite hm_store_lookup).
  assert (hm_load p m1 = v1) as Hl1 by (by eapply hm_load_store). rewrite Hl1.
  set (v2 := te_set_type _ _). set (m2 := hm_store p v2 m1).
  assert (hm_wf m2) as Hm2 by (by eapply hm_store_wf).
  assert (hm_lookup k m2 = Some p) as Hk2 by (by unfold m2; rewrite hm_store_lookup).
  assert (hm_load p m2 = v2) as Hl2 by (by eapply hm_load_store). rewrite Hl2.
  split_and!; [by eapply hm_store_wf| |by eapply hm_load_store].
  rewrite (hm_store_abs m2 k) by done. unfold m2. rewrite (hm_store_abs m1 k) by done.
  unfold m1. rewrite (hm_store_abs m k) by done. by rewrite !insert_insert_eq.
Qed.

(** *** Refinement *)

Lemma connect_refines w sk st s :
  tcp_rel st s ->
  exists s', tcp_spec w (Connect sk) s s' /\ tcp_rel (run w (tcp_exec (Connect sk)) st).2 s'.
Proof using Type.
  destruct s as [P L]. intros Hrel. cbn [tcp_exec]. rewrite run_connect. cbn [snd].
  destruct (update_rel _ st P L (w_pid_tgid w) (sock_event w sk 0 0) Hrel) as [H|(H & ? & ?)].
  - by apply sock_event_wf.
  - eexists. split; [apply connect_stored|done].
  - eexists. split; [by apply connect_refused|done].
Qed.

Lemma ret_refines w ret st s :
  tcp_rel st s ->
  exists s', tcp_spec w (ConnectRet ret) s s' /\ tcp_rel (run w (tcp_exec (ConnectRet ret)) st).2 s'.
Proof using Type.
  destruct s as [P L]. intros Hrel. destruct (Hrel) as [[Hm ?] Hset Hmap ? HP ?]. cbn [tcp_exec ab_map ab_log] in *.
  destruct (P !! w_pid_tgid w) as [e|] eqn:Hk.
  - assert (hm_abs (ps_map st) !! w_pid_tgid w = Some e) as Hk' by (by rewrite Hmap).
    destruct (hm_lookup_some _ _ _ Hm Hk') as (p & Hp & Hl).
    destruct (decide (ret = 0)) as [->|Hret].
    + rewrite (run_ret_ok _ p) by done. cbn [fst snd].
      destruct (complete_spec w p _ _ e Hm Hp Hl) as (Hm' & Habs & Hload).
      assert (tcp_event_wf (established w e)) as He by (by eapply established_wf, HP).
      assert (tcp_rel (with_map st (complete w p (ps_map st)))
                (Abs (<[w_pid_tgid w := established w e]> P) L)) as Hrel'.
      { apply (rel_with_map _ _ P); [done..|by rewrite Habs, Hmap|by apply map_Forall_insert_2]. }
      destruct (emit_rel _ w (call (Load p)) (-1) 0 _ _ _ _ Hrel' He
        ltac:(intros st' Hst'; simpl in *; by rewrite Hst', Hload)) as [Hr|[Hr Hfull]];
        eexists; (split; [|eapply delete_rel; exact Hr]); rewrite delete_insert_eq.
      * by apply ret_emitted.
      * by apply ret_dropped.
    + rewrite (run_ret_failed _ _ p) by done. eexists. split; [by apply ret_failed|].
      by apply delete_rel.
  - rewrite run_ret_unknown; [|apply hm_lookup_none; [done|by rewrite Hmap]].
    eexists. split; [by apply ret_unknown|done].
Qed.

Lemma reported_in_range state : reported state -> in_range 32 state.
Proof using Type. intros [->|[->| ->]]; by split. Qed.

#[global] Instance reported_dec state : Decision (reported state).
Proof using Type. unfold reported. apply _. Defined.

Lemma set_state_refines w sk state st s :
  tcp_rel st s ->
  exists s', tcp_spec w (SetState sk state) s s' /\
    tcp_rel (run w (tcp_exec (SetState sk state)) st).2 s'.
Proof using Type.
  destruct s as [P L]. intros Hrel. cbn [tcp_exec]. destruct (decide (reported state)) as [Hr|Hr].
  - pose proof (reported_in_range _ Hr). rewrite run_set_state by done.
    assert (tcp_event_wf (sock_event w sk (state_event_type state) state)) as He.
    { apply sock_event_wf; [|done]. unfold state_event_type. by case_decide. }
    destruct (emit_rel _ w (mret _) (-1) 0 _ _ _ _ Hrel He ltac:(done)) as [Hrel'|[Hrel' Hfull]];
      eexists; (split; [|exact Hrel']).
    + by apply state_emitted.
    + by apply state_dropped.
  - rewrite run_set_state_ignored by done. eexists. split; [by apply state_ignored|done].
Qed.

#[global] Instance tcp_probes : Probes tcp_event tcp_event := {|
  pb_call := tcp_call;
  pb_exec := tcp_exec;
  pb_val_wf := tcp_event_wf;
  pb_spec := tcp_spec;
  pb_refines w c := match c with
    | Connect sk => connect_refines w sk
    | ConnectRet ret => ret_refines w ret
    | SetState sk state => set_state_refines w sk state
    end |}.

(** *** Traces *)

Definition tcp_init : pstate tcp_event := obj_init.
Definition tcp_step : tcp_label -> pstate tcp_event -> pstate tcp_event := obj_step.
Definition tcp_run : list tcp_label -> pstate tcp_event -> pstate tcp_event := obj_run.
Definition tcp_spec_run : list tcp_label -> tcp_abs -> tcp_abs -> Prop := obj_spec_run.

#[global] Arguments tcp_step : simpl never.
#[global] Arguments tcp_run : simpl never.

Lemma tcp_reachable ls :
  exists s, tcp_spec_run ls (Abs ∅ []) s /\ tcp_rel (tcp_run ls tcp_init) s.
Proof using Type. exact (obj_reachable (PB := tcp_probes) ls). Qed.

Lemma tcp_run_refines ls st s :
  tcp_rel st s -> exists s', tcp_spec_run ls s s' /\ tcp_rel (tcp_run ls st) s'.
Proof using Type. exact (obj_run_refines (PB := tcp_probes) ls st s). Qed.

Lemma tcp_step_refines w c st s :
  tcp_rel st s -> exists s', tcp_spec w c s s' /\ tcp_rel (tcp_step (Invoke w c) st) s'.
Proof using Type. exact (pb_refines w c st s). Qed.

(** The label is not a connect or a return from connect of thread [t]. *)
Definition not_by (t : Z) (l : tcp_label) : Prop :=
  match l with
  | Invoke w (Connect _) | Invoke w (ConnectRet _) => w_pid_tgid w <> t
  | _ => True
  end.

Lemma not_by_pending t l s s' :
  obj_spec_step l s s' -> not_by t l -> ab_map s' !! t = ab_map s !! t.
Proof using Type.
  destruct 1 as [w c s s' Hs|]; [|done].
  destruct Hs; simpl; intros Hne; try done; by rewrite ?lookup_insert_ne, ?lookup_delete_ne.
Qed.

Lemma not_by_run t ls s s' :
  tcp_spec_run ls s s' -> Forall (not_by t) ls -> ab_map s' !! t = ab_map s !! t.
Proof using Type. apply (spec_run_unchanged _ (λ s, ab_map s !! t)), not_by_pending. Qed.

(** A connect that finds room parks the event. *)
Lemma connect_parked w sk st s :
  tcp_rel st s -> Z.of_nat (size (hm_abs (ps_map st))) < hm_max_entries ->
  exists s', tcp_rel (tcp_step (Invoke w (Connect sk)) st) s' /\
    ab_map s' !! w_pid_tgid w = Some (sock_event w sk 0 0).
Proof using Type.
  intros Hrel Hroom. destruct (tcp_step_refines w (Connect sk) st s Hrel) as (s' & Hs & Hrel').
  exists s'. split; [done|]. rewrite (or_map _ _ _ Hrel) in Hroom.
  inversion Hs; subst; simpl in *; [apply lookup_insert_eq|lia].
Qed.

Lemma connect_fires ls w0 sk mid w1 :
  let st0 := tcp_run ls tcp_init in
  let st1 := tcp_run mid (tcp_step (Invoke w0 (Connect sk)) st0) in
  Z.of_nat (size (hm_abs (ps_map st0))) < hm_max_entries ->
  w_pid_tgid w1 = w_pid_tgid w0 ->
  Forall (not_by (w_pid_tgid w0)) mid ->
  ~ ring_full st1 sizeof_tcp_event ->
  let st2 := tcp_step (Invoke w1 (ConnectRet 0)) st1 in
  records st2 = records st1 ++ [to_bytes (established w1 (sock_event w0 sk 0 0))] /\
  hm_abs (ps_map st2) !! w_pid_tgid w0 = None.
Proof using Type.
  intros st0 st1 Hroom Ht Hmid Hring st2.
  destruct (tcp_reachable ls) as (s0 & _ & Hrel0).
  destruct (connect_parked w0 sk st0 s0 Hrel0 Hroom) as (s1 & Hrel1 & Hp).
  destruct (tcp_run_refines mid _ _ Hrel1) as ([P2 L2] & Hrun & Hrel2).
  fold st1 in Hrel2. rewrite <- (not_by_run _ _ _ _ Hrun Hmid) in Hp. simpl in Hp.
  apply (obj_room _ _ _ Hrel2) in Hring.
  destruct (tcp_step_refines w1 (ConnectRet 0) st1 _ Hrel2) as (s3 & Hs3 & [_ _ Hmap Hrec _ _]).
  fold st2 in Hmap, Hrec.
  rewrite <- Ht in *. inversion Hs3; subst; simpl in *; try (congruence || contradiction).
  simplify_eq. rewrite Hmap, Hrec, (or_records _ _ _ Hrel2), fmap_app, lookup_delete_eq. done.
Qed.

(** Where a parked event and a logged CONNECT event come from. *)
Definition parked_by (ls : list tcp_label) (t : Z) (e : tcp_event) : Prop :=
  exists ls1 w sk ls2, ls = ls1 ++ Invoke w (Connect sk) :: ls2 /\
    w_pid_tgid w = t /\ e = sock_event w sk 0 0 /\ Forall (not_by t) ls2.

Definition connected_by (ls : list tcp_label) (e : tcp_event) : Prop :=
  exists ls1 w sk ls2 w' ls3,
    ls = ls1 ++ Invoke w (Connect sk) :: ls2 ++ Invoke w' (ConnectRet 0) :: ls3 /\
    w_pid_tgid w' = w_pid_tgid w /\ Forall (not_by (w_pid_tgid w)) ls2 /\
    e = established w' (sock_event w sk 0 0).

Lemma parked_by_snoc ls l t e : not_by t l -> parked_by ls t e -> parked_by (ls ++ [l]) t e.
Proof using Type.
  intros Hl (ls1 & w & sk & ls2 & -> & Ht & He & H2).
  exists ls1, w, sk, (ls2 ++ [l]). rewrite <- app_assoc. split_and!; try done.
  by apply Forall_app_2; [|constructor].
Qed.

Lemma connected_by_snoc ls l e : connected_by ls e -> connected_by (ls ++ [l]) e.
Proof using Type.
  intros (ls1 & w & sk & ls2 & w' & ls3 & -> & H).
  exists ls1, w, sk, ls2, w', (ls3 ++ [l]). split; [|done].
  rewrite <- app_assoc. simpl. by rewrite <- app_assoc.
Qed.

(** The kinds of event the tracker emits. *)
Definition event_kind_ok (e : tcp_event) : Prop :=
  (te_event_type e, te_tcp_state e) ∈
    [(event_code EVENT_TCP_CONNECT, TCP_ESTABLISHED);
     (event_code EVENT_TCP_ACCEPT, TCP_ESTABLISHED);
     (event_code EVENT_TCP_CLOSE, TCP_TIME_WAIT);
     (event_code EVENT_TCP_CLOSE, TCP_CLOSE)].

Record trace_inv (ls : list tcp_label) (s : tcp_abs) : Prop := {
  ti_pending t e : ab_map s !! t = Some e -> parked_by ls t e;
  ti_log e : e ∈ ab_log s -> event_kind_ok e /\
    (te_event_type e = event_code EVENT_TCP_CONNECT -> connected_by ls e);
}.

Lemma state_event_kind w sk state :
  reported state -> event_kind_ok (sock_event w sk (state_event_type state) state) /\
  state_event_type state <> event_code EVENT_TCP_CONNECT.
Proof using Type.
  unfold event_kind_ok. intros [->|[->| ->]]; (split; [|done]); simpl; set_solver.
Qed.

Lemma established_kind w e : event_kind_ok (established w e).
Proof using Type. unfold event_kind_ok. simpl. set_solver. Qed.

Lemma trace_inv_step ls l s s' :
  trace_inv ls s -> obj_spec_step l s s' -> trace_inv (ls ++ [l]) s'.
Proof using Type.
  intros [HP HL] Hstep.
  assert (forall t e, not_by t l -> ab_map s !! t = Some e -> parked_by (ls ++ [l]) t e) as HP'.
  { intros. apply parked_by_snoc; auto. }
  assert (forall e, e ∈ ab_log s -> event_kind_ok e /\
    (te_event_type e = event_code EVENT_TCP_CONNECT -> connected_by (ls ++ [l]) e)) as HL'.
  { intros e [? H']%HL. split; [done|]. intros. by apply connected_by_snoc, H'. }
  clear HL. destruct Hstep as [w c s s' Hs|M L].
  2: { split; simpl; [intros; by apply HP'|]. intros e' He'. apply HL'. destruct L; [done|]. by right. }
  destruct Hs; simpl in *; split; simpl; try done.
  - intros t e [[<- <-]|[? ?]]%lookup_insert_Some; [|by apply HP'].
    exists ls, w, sk, []. split_and!; [done..|constructor].
  - intros t e Ht. apply HP'; [|done]. simpl. congruence.
  - intros t e Ht. apply HP'; [|done]. simpl. congruence.
  - intros t e [? ?]%lookup_delete_Some. by apply HP'.
  - intros t e' [? ?]%lookup_delete_Some. by apply HP'.
  - intros e' [He'|He']%elem_of_app; [by apply HL'|].
    apply list_elem_of_singleton in He' as ->. split; [apply established_kind|]. intros _.
    match goal with Hp : P !! _ = Some _ |- _ => apply HP in Hp as (ls1 & w0 & sk & ls2 & -> & Ht & -> & H2) end.
    exists ls1, w0, sk, ls2, w, []. rewrite <- app_assoc, Ht. split_and!; done.
  - intros t e' [? ?]%lookup_delete_Some. by apply HP'.
  - intros t e' Ht. by apply HP'.
  - intros t e' Ht. by apply HP'.
  - intros e' [He'|He']%elem_of_app; [by apply HL'|].
    apply list_elem_of_singleton in He' as ->. by destruct (state_event_kind w sk state).
  - intros t e' Ht. by apply HP'.
Qed.

Lemma trace_inv_run ls s : tcp_spec_run ls (Abs ∅ []) s -> trace_inv ls s.
Proof using Type.
  apply (spec_run_invariant _ trace_inv); [|intros *; apply trace_inv_step].
  split; simpl; [by intros t e|by intros e ?%elem_of_nil].
Qed.

(** ** Properties *)

(** [C1] Refinement: after any sequence of probe firings and reads from the
    fresh state, the program object stands for a state that the
    specification (pending connects per thread, log of unread events) can
    reach by the same sequence; nothing is left reserved in the ring. *)
Theorem tracker_refines_spec ls :
  exists s, tcp_spec_run ls (Abs ∅ []) s /\ tcp_rel (tcp_run ls tcp_init) s.
Proof using Type. apply tcp_reachable. Qed.

(** [C3] A connect that succeeds is reported: if thread t starts a connect
    when the map has room, other threads then do anything, and the connect of
    t returns 0 when the ring has room, exactly the event describing the
    socket at connect time, completed with ESTABLISHED, EVENT_TCP_CONNECT and
    the time of return, is appended, and the thread's entry is gone. *)
Theorem successful_connect_reported ls w0 sk mid w1 :
  let st0 := tcp_run ls tcp_init in
  let st1 := tcp_run mid (tcp_step (Invoke w0 (Connect sk)) st0) in
  Z.of_nat (size (hm_abs (ps_map st0))) < hm_max_entries ->
  w_pid_tgid w1 = w_pid_tgid w0 ->
  Forall (not_by (w_pid_tgid w0)) mid ->
  ~ ring_full st1 sizeof_tcp_event ->
  let st2 := tcp_step (Invoke w1 (ConnectRet 0)) st1 in
  records st2 = records st1 ++ [to_bytes (established w1 (sock_event w0 sk 0 0))] /\
  hm_abs (ps_map st2) !! w_pid_tgid w0 = None.
Proof using Type.
  exact (connect_fires ls w0 sk mid w1).
Qed.

(** [C2] No CONNECT event out of thin air: every record in the ring at any
    reachable state is the 68-byte image of a well-formed event of one of the
    four kinds; an EVENT_TCP_CONNECT was started by a connect of some thread
    on the described socket and completed by the next return, with value 0,
    of that same thread. *)
Theorem connect_event_provenance ls bs :
  bs ∈ records (tcp_run ls tcp_init) ->
  exists e, bs = to_bytes e /\ Z.of_nat (length bs) = 68 /\ tcp_event_wf e /\ event_kind_ok e /\
    (te_event_type e = event_code EVENT_TCP_CONNECT -> connected_by ls e).
Proof using Type.
  intros (s & e & Hrun & He & -> & Hwf)%(obj_record (PB := tcp_probes)).
  destruct (ti_log _ _ (trace_inv_run _ _ Hrun) e He) as [Hk Hc].
  exists e. split_and!; auto. by rewrite length_event.
Qed.

(** Every return from tcp_v4_connect removes the thread's entry,
    whatever the return value and whether or not the event could be emitted,
    and touches no other thread's entry; a failed connect, or one whose start
    was not seen, is not reported. *)
Theorem connect_ret_always_cleans ls w ret :
  let st := tcp_run ls tcp_init in
  let st' := tcp_step (Invoke w (ConnectRet ret)) st in
  hm_abs (ps_map st') = delete (w_pid_tgid w) (hm_abs (ps_map st)) /\
  (ret <> 0 \/ hm_abs (ps_map st) !! w_pid_tgid w = None -> records st' = records st).
Proof using Type.
  intros st st'. destruct (tcp_reachable ls) as (s & _ & Hrel). fold st in Hrel.
  destruct (tcp_step_refines w (ConnectRet ret) st s Hrel) as (s' & Hs & Hrel'). fold st' in Hrel'.
  rewrite (or_map _ _ _ Hrel), (or_map _ _ _ Hrel'), (or_records _ _ _ Hrel), (or_records _ _ _ Hrel').
  inversion Hs; subst; simpl; (split; [try done; by rewrite delete_id|]); try done.
  intros [?|?]; congruence.
Qed.

(** The entry of a thread that starts a connect stays in connect_info
    until a later connect or tcp_v4_connect return of that thread: nothing
    else ever removes it.  (tcp_connect is also on the path of IPv6 connects,
    whose return is not hooked.) *)
Theorem unreturned_connect_stays ls w sk rest :
  let st := tcp_run ls tcp_init in
  Z.of_nat (size (hm_abs (ps_map st))) < hm_max_entries ->
  Forall (not_by (w_pid_tgid w)) rest ->
  hm_abs (ps_map (tcp_run rest (tcp_step (Invoke w (Connect sk)) st))) !! w_pid_tgid w =
  Some (sock_event w sk 0 0).
Proof using Type.
  intros st Hroom Hrest. destruct (tcp_reachable ls) as (s & _ & Hrel). fold st in Hrel.
  destruct (connect_parked w sk st s Hrel Hroom) as (s1 & Hrel1 & Hp).
  destruct (tcp_run_refines rest _ _ Hrel1) as (s2 & Hrun & Hrel2).
  by rewrite (or_map _ _ _ Hrel2), (not_by_run _ _ _ _ Hrun Hrest).
Qed.

(** A state change is reported exactly when the new state is
    ESTABLISHED, TIME_WAIT or CLOSE; the event is ACCEPT for ESTABLISHED
    (for every socket, the ones this host is connecting included) and CLOSE
    otherwise, and carries the socket's addresses and the state. *)
Theorem set_state_reports ls w sk state :
  let st := tcp_run ls tcp_init in
  ~ ring_full st sizeof_tcp_event ->
  let st' := tcp_step (Invoke w (SetState sk state)) st in
  hm_abs (ps_map st') = hm_abs (ps_map st) /\
  records st' = records st ++
    (if decide (reported state)
     then [to_bytes (sock_event w sk (state_event_type state) state)] else []).
Proof using Type.
  intros st Hring st'. destruct (tcp_reachable ls) as (s & _ & Hrel). fold st in Hrel.
  apply (obj_room _ _ _ Hrel) in Hring.
  destruct (tcp_step_refines w (SetState sk state) st s Hrel) as (s' & Hs & Hrel'). fold st' in Hrel'.
  rewrite (or_map _ _ _ Hrel), (or_map _ _ _ Hrel'), (or_records _ _ _ Hrel), (or_records _ _ _ Hrel').
  inversion Hs; subst; simpl; (split; [done|]); case_decide; try done.
  - by rewrite app_nil_r.
  - by rewrite fmap_app.
Qed.

(** The 256 KiB ring holds 3276 unread events before one is dropped. *)
Theorem ring_holds_3276_events ls :
  rb_size = RING_BUFFER_SIZE ->
  (length (records (tcp_run ls tcp_init)) < 3276)%nat ->
  ~ ring_full (tcp_run ls tcp_init) sizeof_tcp_event.
Proof using Type.
  intros Hsz Hlen. apply (obj_capacity (PB := tcp_probes) ls 3276); [by rewrite Hsz|].
  by apply (Nat2Z.inj_lt _ 3276).
Qed.
End spec.

(** ** On the reference runtime *)

Section witnesses.
#[local] Existing Instances ref_helpers ref_tcp_hash ref_ring256.

(** Thread 7 of process 42 and thread 8 of process 43 connect to port 443. *)
Definition w_a (ktime : Z) : world := world_at (42 * 2 ^ 32 + 7) ktime 443.
Definition w_b (ktime : Z) : world := world_at (43 * 2 ^ 32 + 8) ktime 443.

Example connect_a_bytes :
  records (tcp_run [Invoke (w_a 1000) (Connect 4096); Invoke (w_a 2000) (ConnectRet 0)] tcp_init) =
  [to_bytes {| te_timestamp_ns := 2000; te_event_type := 1; te_pid := 42; te_tid := 7;
     te_src_ip := 16777226; te_dst_ip := 584628317; te_src_port := 54321; te_dst_port := 443;
     te_tcp_state := 1; te_bytes_sent := 0; te_bytes_recv := 0; te_comm := comm_of "curl" |}].
Proof. vm_compute. reflexivity. Qed.

Lemma successful_connect_reported_witness :
  let st1 := tcp_run [Invoke (w_b 1500) (Connect 4096)]
    (tcp_step (Invoke (w_a 1000) (Connect 4096)) (tcp_run [] tcp_init)) in
  let st2 := tcp_step (Invoke (w_a 2000) (ConnectRet 0)) st1 in
  records st2 = records st1 ++ [to_bytes (established (w_a 2000) (sock_event (w_a 1000) 4096 0 0))] /\
  hm_abs (ps_map st2) !! w_pid_tgid (w_a 1000) = None.
Proof.
  apply (successful_connect_reported [] (w_a 1000) 4096 [Invoke (w_b 1500) (Connect 4096)] (w_a 2000)).
  - vm_compute. reflexivity.
  - reflexivity.
  - repeat constructor. vm_compute. discriminate.
  - apply not_ring_full. vm_compute. reflexivity.
Defined.

Lemma connect_event_provenance_witness :
  exists e, to_bytes (established (w_a 2000) (sock_event (w_a 1000) 4096 0 0)) = to_bytes e /\
    Z.of_nat (length (to_bytes (established (w_a 2000) (sock_event (w_a 1000) 4096 0 0)))) = 68 /\
    tcp_event_wf e /\ event_kind_ok e /\
    (te_event_type e = event_code EVENT_TCP_CONNECT ->
     connected_by [Invoke (w_a 1000) (Connect 4096); Invoke (w_a 2000) (ConnectRet 0)] e).
Proof.
  apply (connect_event_provenance [Invoke (w_a 1000) (Connect 4096); Invoke (w_a 2000) (ConnectRet 0)]).
  vm_compute. constructor.
Defined.

Lemma unreturned_connect_stays_witness :
  hm_abs (ps_map (tcp_run [Invoke (w_b 1500) (Connect 4096); Invoke (w_b 1600) (ConnectRet 0); Read]
    (tcp_step (Invoke (w_a 1000) (Connect 4096)) (tcp_run [] tcp_init)))) !! w_pid_tgid (w_a 1000) =
  Some (sock_event (w_a 1000) 4096 0 0).
Proof.
  apply (unreturned_connect_stays [] (w_a 1000) 4096
    [Invoke (w_b 1500) (Connect 4096); Invoke (w_b 1600) (ConnectRet 0); Read]).
  - vm_compute. reflexivity.
  - repeat constructor; vm_compute; discriminate.
Defined.

Lemma set_state_reports_witness :
  let st := tcp_run [] tcp_init in
  let st' := tcp_step (Invoke (w_a 3000) (SetState 4096 6)) st in
  hm_abs (ps_map st') = hm_abs (ps_map st) /\
  records st' = records st ++
    (if decide (reported 6) then [to_bytes (sock_event (w_a 3000) 4096 (state_event_type 6) 6)] else []).
Proof.
  apply (set_state_reports [] (w_a 3000) 4096 6).
  apply not_ring_full. vm_compute. reflexivity.
Defined.

Lemma ring_holds_3276_events_witness :
  ~ ring_full (tcp_run [Invoke (w_a 3000) (SetState 4096 6)] tcp_init) sizeof_tcp_event.
Proof.
  apply (ring_holds_3276_events [Invoke (w_a 3000) (SetState 4096 6)]).
  - reflexivity.
  - vm_compute. repeat constructor.
Defined.

Lemma tracker_refines_spec_witness :
  exists s, tcp_spec_run [Invoke (w_a 1000) (Connect 4096)] (Abs ∅ []) s /\
    obj_rel tcp_event_wf (tcp_run [Invoke (w_a 1000) (Connect 4096)] tcp_init) s.
Proof. apply (tracker_refines_spec [Invoke (w_a 1000) (Connect 4096)]). Defined.

Lemma connect_ret_always_cleans_witness :
  let st := tcp_run [Invoke (w_a 1000) (Connect 4096)] tcp_init in
  let st' := tcp_step (Invoke (w_a 2000) (ConnectRet (-111))) st in
  hm_abs (ps_map st') = delete (w_pid_tgid (w_a 2000)) (hm_abs (ps_map st)) /\
  (-111 <> 0 \/ hm_abs (ps_map st) !! w_pid_tgid (w_a 2000) = None -> records st' = records st).
Proof. apply (connect_ret_always_cleans [Invoke (w_a 1000) (Connect 4096)] (w_a 2000) (-111)). Defined.
End witnesses.
