(* ===== verification/Emitter.v ===== *)
(** * Probes that emit one event per call

    The DNS mapper and the HTTP inspector have one program each and no hash
    map: the program decides from the socket whether it emits an event, and
    which.  [Emitter] is that contract; what follows from it for traces is
    proved here for both. *)

From S2P Require Import Prelude Bytes CLayout CObject Bpf ProbeObject.

Class Emitter (E : Type) `{!CObject E} {HW : Helpers} := {
  em_handler : Z -> Z -> Z -> prog unit Z;
  em_event : world -> Z -> option E;
  em_event_wf w sk e : em_event w sk = Some e -> co_wf e;
  (** All the program does is to emit that event, if there is one. *)
  em_run (HR : Ringbuf) w sk msg len (st : @pstate unit no_map HR) :
    run (HM := no_map) w (em_handler sk msg len) st =
      (0, match em_event w sk with
          | Some e => (run (HM := no_map) w (emit (mret e) to_bytes (event_size E) 0 0) st).2
          | None => st
          end);
}.

(** The hooked functions' arguments: [sk], [msg], [len]. *)
Record send_call := SendMsg { sm_sk : Z; sm_msg : Z; sm_len : Z }.

Abbreviation send_label := (label send_call).

Section emitter.
Context {E : Type} `{!CObject E} {HW : Helpers} {HR : Ringbuf} {EM : Emitter E}.
#[local] Existing Instance no_map.

Inductive emit_spec (w : world) (c : send_call) : abs unit E -> abs unit E -> Prop :=
  | emit_ignored P L : em_event w (sm_sk c) = None -> emit_spec w c (Abs P L) (Abs P L)
  | emit_logged e P L :
      em_event w (sm_sk c) = Some e -> emit_spec w c (Abs P L) (Abs P (L ++ [e]))
  | emit_dropped e P L :
      em_event w (sm_sk c) = Some e -> log_full L -> emit_spec w c (Abs P L) (Abs P L).

Abbreviation em_rel := (obj_rel (E := E) (λ _ : unit, True)).

Lemma emit_refines w c st s :
  em_rel st s ->
  exists s', emit_spec w c s s' /\
    em_rel (run w (em_handler (sm_sk c) (sm_msg c) (sm_len c)) st).2 s'.
Proof using Type.
  destruct s as [P L]. intros Hrel. rewrite em_run. simpl.
  destruct (em_event w (sm_sk c)) as [e|] eqn:He.
  - destruct (emit_rel _ w (mret e) 0 0 _ _ _ e Hrel (em_event_wf _ _ _ He) ltac:(done))
      as [H|[H ?]]; eexists; (split; [|exact H]).
    + by apply emit_logged.
    + by eapply emit_dropped.
  - eexists. split; [by apply emit_ignored|done].
Qed.

#[export] Instance emitter_probes : Probes unit E := {|
  pb_call := send_call;
  pb_exec c := em_handler (sm_sk c) (sm_msg c) (sm_len c);
  pb_val_wf _ := True;
  pb_spec := emit_spec;
  pb_refines := emit_refines |}.

Definition em_init : pstate unit := obj_init.
Definition em_step : send_label -> pstate unit -> pstate unit := obj_step.
Definition em_trace : list send_label -> pstate unit -> pstate unit := obj_run.
Definition em_spec_run : list send_label -> abs unit E -> abs unit E -> Prop := obj_spec_run.

Lemma em_step_refines w c st s :
  em_rel st s -> exists s', emit_spec w c s s' /\ em_rel (em_step (Invoke w c) st) s'.
Proof using Type. exact (pb_refines w c st s). Qed.

Lemma em_reachable ls :
  exists s, em_spec_run ls (Abs ∅ []) s /\ em_rel (em_trace ls em_init) s.
Proof using Type. exact (obj_reachable (PB := emitter_probes) ls). Qed.

(** One firing, with room in the ring. *)
Lemma em_fires ls w c :
  ~ ring_full (em_trace ls em_init) (event_size E) ->
  records (em_step (Invoke w c) (em_trace ls em_init)) =
    records (em_trace ls em_init) ++
    match em_event w (sm_sk c) with Some e => [to_bytes e] | None => [] end.
Proof using Type.
  intros Hring. destruct (em_reachable ls) as (s & _ & Hrel).
  apply (obj_room _ _ _ Hrel) in Hring.
  destruct (em_step_refines w c _ s Hrel) as (s' & Hs & Hrel').
  rewrite (or_records _ _ _ Hrel), (or_records _ _ _ Hrel').
  destruct Hs as [P L ->|e P L ->|e P L -> Hf]; simpl in *.
  - by rewrite app_nil_r.
  - by rewrite fmap_app.
  - done.
Qed.

(** Every record was emitted by some firing of the trace. *)
Definition emitted_by (ls : list send_label) (e : E) : Prop :=
  exists w c, Invoke w c ∈ ls /\ em_event w (sm_sk c) = Some e.

Lemma emitted_by_snoc ls l e : emitted_by ls e -> emitted_by (ls ++ [l]) e.
Proof using Type. intros (w & c & ? & ?). exists w, c. split; [set_solver|done]. Qed.

Lemma em_log_provenance ls s :
  em_spec_run ls (Abs ∅ []) s -> forall e, e ∈ ab_log s -> emitted_by ls e.
Proof using Type.
  apply (spec_run_invariant _ (λ ls s, forall e, e ∈ ab_log s -> emitted_by ls e)).
  { by intros e ?%elem_of_nil. }
  clear ls s. intros ls l s s' IH Hstep e He. destruct Hstep as [w c s1 s2 Hs|P L].
  - destruct Hs as [P L Hn|e' P L Hs|e' P L Hs Hf]; simpl in *; try by apply emitted_by_snoc, IH.
    apply elem_of_app in He as [He| ->%list_elem_of_singleton]; [by apply emitted_by_snoc, IH|].
    exists w, c. split; [set_solver|done].
  - apply emitted_by_snoc, IH. destruct L; [done|]. by right.
Qed.

Lemma em_provenance ls bs :
  bs ∈ records (em_trace ls em_init) ->
  exists e, emitted_by ls e /\ bs = to_bytes e /\ co_wf e.
Proof using Type.
  intros (s & e & Hrun & He & -> & Hwf)%(obj_record (PB := emitter_probes)).
  exists e. split_and!; [|done..]. by apply (em_log_provenance _ _ Hrun).
Qed.
End emitter.
