(* ===== verification/DnsMapper.v ===== *)
(** * dns_mapper.bpf.c

    The DNS mapper: [handle_udp_sendmsg] emits a [dns_event] for every UDP
    send on a socket connected to port 53, with the domain left pending. *)

From S2P Require Import Prelude Bytes CLayout CObject Vmlinux Common Bpf BpfRef ProbeObject Emitter.

#[local] Open Scope string_scope.
#[local] Open Scope list_scope.
#[local] Open Scope Z_scope.

(** ** Maps and constants *)

Definition dns_events : map_def := MapDef "BPF_MAP_TYPE_RINGBUF" RING_BUFFER_SIZE.
Definition DNS_PORT : Z := 53.

(** A [char] array initialised by a string literal: its characters and the NUL. *)
Definition pending_domain : list byte := ascii_bytes "<pending>" ++ [x00].

(** ** Helper *)

(** The loop, from iteration [i]; [None] is an access out of bounds or a loop
    that has not ended after [fuel] tests of its condition. *)
Fixpoint copy_pending_loop (fuel : nat) (i : Z) (dst : list byte) (dst_len : Z) : option (list byte) :=
  match fuel with
  | O => None
  | S fuel =>
      if (i <? 10) && (i <? dst_len) then
        c ← pending_domain !! Z.to_nat i;
        _ ← dst !! Z.to_nat i;
        copy_pending_loop fuel (i + 1) (<[Z.to_nat i := c]> dst) dst_len
      else Some dst
  end.

Definition copy_pending (dst : list byte) (dst_len : Z) : option (list byte) :=
  copy_pending_loop 11 0 dst dst_len.

Definition sizeof_dns_event : Z := default 0 (sizeof common (CName "struct dns_event")).

(** ** Program *)

Section handler.
Context {HW : Helpers}.

(** kprobe/udp_sendmsg *)
Definition handle_udp_sendmsg (sk msg len : Z) : prog unit Z :=
  (dport_be <- read_skc sk "skc_dport";;
   let dport := bpf_ntohs dport_be in
   if negb (dport =? DNS_PORT) then mret 0
   else
     tid <- GetCurrentPidTgid;;
     saddr <- read_skc sk "skc_rcv_saddr";;
     daddr <- read_skc sk "skc_daddr";;
     sport <- read_skc sk "skc_num";;
     ts <- KtimeGetNs;;
     let evt := {|
       de_timestamp_ns := ts; de_event_type := event_code EVENT_DNS_QUERY;
       de_pid := wrap 32 (Z.shiftr tid 32);
       de_src_ip := saddr; de_dst_ip := daddr; de_src_port := sport; de_dst_port := dport;
       de_query_id := 0; de_qtype := 0;
       de_domain :=
         default [] (copy_pending (repeat x00 (Z.to_nat MAX_DOMAIN_LEN)) MAX_DOMAIN_LEN) |} in
     ring_evt <- RingbufReserve sizeof_dns_event 0;;
     match ring_evt with
     | None => mret 0
     | Some s =>
         RingbufWrite s (to_bytes evt);;;
         RingbufSubmit s 0;;;
         mret 0
     end)%prog.
End handler.

(** ** Specification *)

Lemma length_pending_domain : length pending_domain = 10%nat.
Proof. reflexivity. Qed.

(** [copy_pending] from iteration [i] on, [m] being the number of iterations. *)
Lemma copy_pending_loop_spec fuel i rest n m :
  m = Z.to_nat (Z.min n 10) -> (i <= m)%nat -> (m < fuel + i)%nat -> (m <= i + length rest)%nat ->
  copy_pending_loop fuel (Z.of_nat i) (take i pending_domain ++ rest) n =
    Some (take m pending_domain ++ drop (m - i) rest).
Proof.
  pose proof length_pending_domain as Hlen. intros Hm.
  revert i rest. induction fuel as [|fuel IH]; intros i rest Hi Hf Hr; [lia|]. simpl.
  assert (length (take i pending_domain) = i) as Hpre by (rewrite length_take; lia).
  destruct (decide (i < m)%nat) as [Hlt|Hge].
  - assert ((Z.of_nat i <? 10) && (Z.of_nat i <? n) = true) as -> by lia.
    destruct (lookup_lt_is_Some_2 pending_domain i ltac:(lia)) as [c Hc].
    destruct rest as [|d rest]; simpl in Hr; [lia|].
    rewrite Nat2Z.id, Hc, (list_lookup_middle _ _ _ _ (eq_sym Hpre)). simpl.
    rewrite insert_app_r_alt, Hpre, Nat.sub_diag by lia. simpl.
    replace (Z.of_nat i + 1) with (Z.of_nat (S i)) by lia.
    replace (take i pending_domain ++ c :: rest) with (take (S i) pending_domain ++ rest).
    + rewrite IH by lia. by replace (m - i)%nat with (S (m - S i)) by lia.
    + by rewrite (take_S_r _ _ _ Hc), <- app_assoc.
  - assert ((Z.of_nat i <? 10) && (Z.of_nat i <? n) = false) as -> by lia.
    replace i with m by lia. by rewrite Nat.sub_diag, drop_0.
Qed.

Lemma copy_pending_eq dst n :
  n <= Z.of_nat (length dst) ->
  copy_pending dst n =
    Some (take (Z.to_nat (Z.min n 10)) pending_domain ++ drop (Z.to_nat (Z.min n 10)) dst).
Proof.
  intros Hn. unfold copy_pending.
  etrans; [apply (copy_pending_loop_spec 11 0 dst n (Z.to_nat (Z.min n 10))); lia|].
  by rewrite Nat.sub_0_r.
Qed.

Section spec.
Context {HW : Helpers}.

(** The event of a send on socket [sk]: everything but the query itself. *)
Definition dns_query (w : world) (sk : Z) : dns_event := {|
  de_timestamp_ns := w_ktime_ns w;
  de_event_type := 4;
  de_pid := w_pid_tgid w / 2 ^ 32;
  de_src_ip := skc_read w sk "skc_rcv_saddr";
  de_dst_ip := skc_read w sk "skc_daddr";
  de_src_port := skc_read w sk "skc_num";
  de_dst_port := 53;
  de_query_id := 0;
  de_qtype := 0;
  de_domain := ascii_bytes "<pending>" ++ repeat x00 247 |}.

Definition dns_observed (w : world) (sk : Z) : option dns_event :=
  if decide (bpf_ntohs (skc_read w sk "skc_dport") = 53) then Some (dns_query w sk) else None.

Lemma dns_query_wf w sk : dns_event_wf (dns_query w sk).
Proof using Type. split; simpl; try done; eauto with paryty. Qed.

Lemma dns_observed_wf w sk e : dns_observed w sk = Some e -> co_wf e.
Proof using Type. unfold dns_observed. case_decide; [|done]. intros [= <-]. apply dns_query_wf. Qed.

Lemma pending_buffer :
  default [] (copy_pending (repeat x00 (Z.to_nat MAX_DOMAIN_LEN)) MAX_DOMAIN_LEN) =
  ascii_bytes "<pending>" ++ repeat x00 247.
Proof using Type. reflexivity. Qed.

Lemma run_udp_sendmsg (HR : Ringbuf) w sk msg len (st : @pstate unit no_map HR) :
  run (HM := no_map) w (handle_udp_sendmsg sk msg len) st =
    (0, match dns_observed w sk with
        | Some e => (run (HM := no_map) w (emit (mret e) to_bytes (event_size dns_event) 0 0) st).2
        | None => st
        end).
Proof using Type.
  unfold handle_udp_sendmsg, dns_observed. cbn -[copy_pending sizeof_dns_event].
  rewrite pending_buffer.
  fold (skc_read w sk "skc_dport") (skc_read w sk "skc_num").
  destruct (Z.eqb_spec (bpf_ntohs (skc_read w sk "skc_dport")) DNS_PORT) as [He|He].
  - rewrite decide_True by done. cbn -[sizeof_dns_event]. unfold dns_query. rewrite He, pid_tgid_hi.
    change (event_size dns_event) with sizeof_dns_event.
    by destruct (rb_reserve sizeof_dns_event 0 (ps_ring st)) as [[s r]|].
  - by rewrite decide_False.
Qed.

#[global] Instance dns_emitter : Emitter dns_event := {|
  em_handler := handle_udp_sendmsg;
  em_event := dns_observed;
  em_event_wf := dns_observed_wf;
  em_run := run_udp_sendmsg |}.
End spec.

(** ** Properties *)

Section properties.
Context {HW : Helpers} {HR : Ringbuf}.

Definition dns_step : send_label -> @pstate unit no_map HR -> @pstate unit no_map HR :=
  em_step (E := dns_event).
Definition dns_run : list send_label -> @pstate unit no_map HR -> @pstate unit no_map HR :=
  em_trace (E := dns_event).

(** The loop ends, reads only the literal and writes only the first
    [dst_len] bytes of the destination: for every buffer that has them, its
    first [min dst_len 10] bytes become those of "<pending>" with its NUL and
    the others stay. *)
Theorem copy_pending_spec (dst : list byte) (dst_len : Z) :
  dst_len <= Z.of_nat (length dst) ->
  let n := Z.to_nat (Z.min dst_len 10) in
  copy_pending dst dst_len = Some (take n (ascii_bytes "<pending>" ++ [x00]) ++ drop n dst).
Proof using Type. apply copy_pending_eq. Qed.

(** Whatever was sent and read before, a UDP send with room in the ring
    appends exactly the event that describes the socket when its destination
    port, in host order, is 53, and nothing when it is not. *)
Theorem dns_query_reported ls w sk msg len :
  let st := dns_run ls em_init in
  ~ ring_full st sizeof_dns_event ->
  records (dns_step (Invoke w (SendMsg sk msg len)) st) =
    records st ++
    (if decide (bpf_ntohs (skc_read w sk "skc_dport") = 53) then [to_bytes (dns_query w sk)] else []).
Proof using Type.
  intros st Hring. etrans; [apply (em_fires (E := dns_event) ls w (SendMsg sk msg len) Hring)|].
  f_equal. simpl. unfold dns_observed. by case_decide.
Qed.

(** Every record in the ring is the 288-byte image of the event of some
    UDP send to port 53 of the trace; the domain of every such event reads
    "<pending>", its query id and type are 0. *)
Theorem dns_event_provenance ls bs :
  bs ∈ records (dns_run ls em_init) ->
  exists w sk msg len, Invoke w (SendMsg sk msg len) ∈ ls /\
    bpf_ntohs (skc_read w sk "skc_dport") = 53 /\
    bs = to_bytes (dns_query w sk) /\ Z.of_nat (length bs) = 288 /\
    dns_event_wf (dns_query w sk) /\ cstr (de_domain (dns_query w sk)) = ascii_bytes "<pending>".
Proof using Type.
  intros (e & (w & [sk msg len] & Hin & He) & -> & Hwf)%(em_provenance (E := dns_event)).
  exists w, sk, msg, len. simpl in He. unfold dns_observed in He. case_decide; [|done].
  injection He as <-. rewrite length_event by done. by split_and!.
Qed.
End properties.

(** ** On the reference runtime *)

Section witnesses.
#[local] Existing Instances ref_helpers ref_ring256.

(** Thread 7 of process 42 sends to 93.184.216.34, port 53. *)
Definition w_dns (dport : Z) : world := world_at (42 * 2 ^ 32 + 7) 1000 dport.

Lemma copy_pending_spec_witness :
  copy_pending (repeat x00 256) 256 =
    Some (take 10 (ascii_bytes "<pending>" ++ [x00]) ++ drop 10 (repeat x00 256)).
Proof. apply (copy_pending_spec (repeat x00 256) 256). vm_compute. discriminate. Defined.

Lemma dns_query_reported_witness :
  let st := dns_run [Invoke (w_dns 443) (SendMsg 4096 0 64)] em_init in
  records (dns_step (Invoke (w_dns 53) (SendMsg 4096 0 64)) st) =
    records st ++
    (if decide (bpf_ntohs (skc_read (w_dns 53) 4096 "skc_dport") = 53)
     then [to_bytes (dns_query (w_dns 53) 4096)] else []).
Proof.
  apply (dns_query_reported [Invoke (w_dns 443) (SendMsg 4096 0 64)] (w_dns 53) 4096 0 64).
  apply (not_ring_full (HM := no_map)). vm_compute. reflexivity.
Defined.

Lemma dns_event_provenance_witness :
  exists w sk msg len, Invoke w (SendMsg sk msg len) ∈ [Invoke (w_dns 53) (SendMsg 4096 0 64)] /\
    bpf_ntohs (skc_read w sk "skc_dport") = 53 /\
    to_bytes (dns_query (w_dns 53) 4096) = to_bytes (dns_query w sk) /\
    Z.of_nat (length (to_bytes (dns_query (w_dns 53) 4096))) = 288 /\
    dns_event_wf (dns_query w sk) /\ cstr (de_domain (dns_query w sk)) = ascii_bytes "<pending>".
Proof.
  apply (dns_event_provenance [Invoke (w_dns 53) (SendMsg 4096 0 64)]).
  vm_compute. constructor.
Defined.
End witnesses.
