(* ===== verification/HttpInspector.v ===== *)
(** * http_inspector.bpf.c

    The HTTP inspector: [handle_tcp_sendmsg] emits an [http_event] for every
    TCP send on a socket connected to a well-known HTTP or HTTPS port; the
    payload itself is not captured. *)

From S2P Require Import Prelude Bytes CLayout CObject Vmlinux Common Bpf BpfRef ProbeObject Emitter.

#[local] Set Warnings "-clear-no-such-hyp".
#[local] Open Scope string_scope.
#[local] Open Scope list_scope.
#[local] Open Scope Z_scope.

(** ** Maps *)

Definition http_events : map_def := MapDef "BPF_MAP_TYPE_RINGBUF" RING_BUFFER_SIZE.

(** ** Port helpers *)

Definition is_http_port (port : Z) : Z :=
  Z.b2z ((port =? 80) || (port =? 8080) || (port =? 8000) || (port =? 3000) || (port =? 5000)).

Definition is_https_port (port : Z) : Z := Z.b2z ((port =? 443) || (port =? 8443)).

Definition sizeof_http_event : Z := default 0 (sizeof common (CName "struct http_event")).

(** ** Program *)

Section handler.
Context {HW : Helpers}.

(** kprobe/tcp_sendmsg *)
Definition handle_tcp_sendmsg (sk msg size : Z) : prog unit Z :=
  (dport_be <- read_skc sk "skc_dport";;
   let dport := bpf_ntohs dport_be in
   let is_http := is_http_port dport in
   let is_https := is_https_port dport in
   if (is_http =? 0) && (is_https =? 0) then mret 0
   else
     tid <- GetCurrentPidTgid;;
     saddr <- read_skc sk "skc_rcv_saddr";;
     daddr <- read_skc sk "skc_daddr";;
     sport <- read_skc sk "skc_num";;
     ts <- KtimeGetNs;;
     let evt := {|
       he_timestamp_ns := ts;
       he_event_type := event_code (if negb (is_https =? 0) then EVENT_HTTPS_SNI else EVENT_HTTP_REQUEST);
       he_pid := wrap 32 (Z.shiftr tid 32);
       he_src_ip := saddr; he_dst_ip := daddr; he_src_port := sport; he_dst_port := dport;
       he_status_code := 0; he_method := 0; he_pad := 0;
       he_host := repeat x00 (Z.to_nat MAX_HTTP_HOST_LEN);
       he_path := repeat x00 (Z.to_nat MAX_HTTP_PATH_LEN) |} in
     ring_evt <- RingbufReserve sizeof_http_event 0;;
     match ring_evt with
     | None => mret 0
     | Some s =>
         RingbufWrite s (to_bytes evt);;;
         RingbufSubmit s 0;;;
         mret 0
     end)%prog.
End handler.

(** ** Specification *)

(** The flows that are reported, and as what. *)
Inductive flow := Http | Https | Other.

Definition flow_of (port : Z) : flow :=
  if decide (port ∈ [443; 8443]) then Https
  else if decide (port ∈ [80; 8080; 8000; 3000; 5000]) then Http
  else Other.

Lemma is_https_port_true port : is_https_port port = 1 <-> port ∈ [443; 8443].
Proof.
  unfold is_https_port. rewrite !elem_of_cons, elem_of_nil.
  destruct (Z.eqb_spec port 443), (Z.eqb_spec port 8443); simpl; naive_solver.
Qed.

Lemma is_http_port_true port : is_http_port port = 1 <-> port ∈ [80; 8080; 8000; 3000; 5000].
Proof.
  unfold is_http_port. rewrite !elem_of_cons, elem_of_nil.
  destruct (Z.eqb_spec port 80), (Z.eqb_spec port 8080), (Z.eqb_spec port 8000),
    (Z.eqb_spec port 3000), (Z.eqb_spec port 5000); simpl; naive_solver.
Qed.

(** A C truth value. *)
Lemma b2z_not_1 b : Z.b2z b <> 1 -> Z.b2z b = 0.
Proof. by destruct b. Qed.

Lemma port_flow port :
  match flow_of port with
  | Https => is_https_port port = 1
  | Http => is_https_port port = 0 /\ is_http_port port = 1
  | Other => is_https_port port = 0 /\ is_http_port port = 0
  end.
Proof.
  unfold flow_of. pose proof (is_https_port_true port) as [_ Hs].
  pose proof (is_http_port_true port) as [_ Hh].
  case_decide as H1; [auto|]. rewrite <- is_https_port_true in H1. apply b2z_not_1 in H1.
  case_decide as H2; [auto|]. rewrite <- is_http_port_true in H2. by apply b2z_not_1 in H2.
Qed.

Section spec.
Context {HW : Helpers}.

Definition http_send (w : world) (sk ty : Z) : http_event := {|
  he_timestamp_ns := w_ktime_ns w;
  he_event_type := ty;
  he_pid := w_pid_tgid w / 2 ^ 32;
  he_src_ip := skc_read w sk "skc_rcv_saddr";
  he_dst_ip := skc_read w sk "skc_daddr";
  he_src_port := skc_read w sk "skc_num";
  he_dst_port := bpf_ntohs (skc_read w sk "skc_dport");
  he_status_code := 0;
  he_method := 0;
  he_pad := 0;
  he_host := repeat x00 128;
  he_path := repeat x00 128 |}.

Definition http_observed (w : world) (sk : Z) : option http_event :=
  match flow_of (bpf_ntohs (skc_read w sk "skc_dport")) with
  | Https => Some (http_send w sk (event_code EVENT_HTTPS_SNI))
  | Http => Some (http_send w sk (event_code EVENT_HTTP_REQUEST))
  | Other => None
  end.

Lemma http_send_wf w sk ty : in_range 32 ty -> http_event_wf (http_send w sk ty).
Proof using Type. intros Hty. split; simpl; try done; eauto with paryty. Qed.

Lemma http_observed_wf w sk e : http_observed w sk = Some e -> co_wf e.
Proof using Type.
  unfold http_observed. destruct (flow_of _); intros [= <-]; by apply http_send_wf.
Qed.

Lemma run_tcp_sendmsg (HR : Ringbuf) w sk msg len (st : @pstate unit no_map HR) :
  run (HM := no_map) w (handle_tcp_sendmsg sk msg len) st =
    (0, match http_observed w sk with
        | Some e => (run (HM := no_map) w (emit (mret e) to_bytes (event_size http_event) 0 0) st).2
        | None => st
        end).
Proof using Type.
  unfold handle_tcp_sendmsg, http_observed. cbn -[sizeof_http_event is_http_port is_https_port].
  fold (skc_read w sk "skc_dport") (skc_read w sk "skc_num") (skc_read w sk "skc_daddr")
    (skc_read w sk "skc_rcv_saddr").
  pose proof (port_flow (bpf_ntohs (skc_read w sk "skc_dport"))) as Hp.
  change (event_size http_event) with sizeof_http_event. unfold http_send.
  destruct (flow_of _); [destruct Hp as [-> ->]|rewrite Hp, andb_false_r|by destruct Hp as [-> ->]];
    cbn -[sizeof_http_event]; rewrite pid_tgid_hi;
    by destruct (rb_reserve sizeof_http_event 0 (ps_ring st)) as [[s r]|].
Qed.

#[global] Instance http_emitter : Emitter http_event := {|
  em_handler := handle_tcp_sendmsg;
  em_event := http_observed;
  em_event_wf := http_observed_wf;
  em_run := run_tcp_sendmsg |}.
End spec.

(** ** Properties *)

Section properties.
Context {HW : Helpers} {HR : Ringbuf}.

Definition http_step : send_label -> @pstate unit no_map HR -> @pstate unit no_map HR :=
  em_step (E := http_event).
Definition http_run : list send_label -> @pstate unit no_map HR -> @pstate unit no_map HR :=
  em_trace (E := http_event).

(** A TCP send with room in the ring appends exactly one event when the
    destination port is an HTTPS port (as HTTPS_SNI) or an HTTP port (as
    HTTP_REQUEST), and nothing otherwise; the port lists do not overlap. *)
Theorem http_send_reported ls w sk msg size :
  let st := http_run ls em_init in
  ~ ring_full st sizeof_http_event ->
  records (http_step (Invoke w (SendMsg sk msg size)) st) =
    records st ++
    match flow_of (bpf_ntohs (skc_read w sk "skc_dport")) with
    | Https => [to_bytes (http_send w sk 6)]
    | Http => [to_bytes (http_send w sk 5)]
    | Other => []
    end.
Proof using Type.
  intros st Hring. etrans; [apply (em_fires (E := http_event) ls w (SendMsg sk msg size) Hring)|].
  f_equal. simpl. unfold http_observed. by destruct (flow_of _).
Qed.

(** Every record in the ring is the 288-byte image of the event of some
    TCP send of the trace on an HTTP or HTTPS flow; its host and path are all
    zero and its method and status 0, whatever was sent. *)
Theorem http_event_provenance ls bs :
  bs ∈ records (http_run ls em_init) ->
  exists w sk msg size ty, Invoke w (SendMsg sk msg size) ∈ ls /\
    (ty, flow_of (bpf_ntohs (skc_read w sk "skc_dport"))) ∈ [(6, Https); (5, Http)] /\
    bs = to_bytes (http_send w sk ty) /\ Z.of_nat (length bs) = 288 /\
    http_event_wf (http_send w sk ty) /\
    he_host (http_send w sk ty) = repeat x00 128 /\ he_path (http_send w sk ty) = repeat x00 128.
Proof using Type.
  intros (e & (w & [sk msg size] & Hin & He) & -> & Hwf)%(em_provenance (E := http_event)).
  simpl in He. unfold http_observed in He.
  destruct (flow_of _) eqn:Hfl; try discriminate He; injection He as <-;
    rewrite length_event by done.
  - exists w, sk, msg, size, 5. rewrite Hfl. split_and!; try done. set_solver.
  - exists w, sk, msg, size, 6. rewrite Hfl. split_and!; try done. set_solver.
Qed.
End properties.

(** ** On the reference runtime *)

Section witnesses.
#[local] Existing Instances ref_helpers ref_ring256.

Definition w_http (dport : Z) : world := world_at (42 * 2 ^ 32 + 7) 1000 dport.

Lemma http_send_reported_witness :
  let st := http_run [Invoke (w_http 80) (SendMsg 4096 0 64)] em_init in
  records (http_step (Invoke (w_http 8443) (SendMsg 4096 0 64)) st) =
    records st ++
    match flow_of (bpf_ntohs (skc_read (w_http 8443) 4096 "skc_dport")) with
    | Https => [to_bytes (http_send (w_http 8443) 4096 6)]
    | Http => [to_bytes (http_send (w_http 8443) 4096 5)]
    | Other => []
    end.
Proof.
  apply (http_send_reported [Invoke (w_http 80) (SendMsg 4096 0 64)] (w_http 8443) 4096 0 64).
  apply (not_ring_full (HM := no_map)). vm_compute. reflexivity.
Defined.

Lemma http_event_provenance_witness :
  exists w sk msg size ty, Invoke w (SendMsg sk msg size) ∈ [Invoke (w_http 80) (SendMsg 4096 0 64)] /\
    (ty, flow_of (bpf_ntohs (skc_read w sk "skc_dport"))) ∈ [(6, Https); (5, Http)] /\
    to_bytes (http_send (w_http 80) 4096 5) = to_bytes (http_send w sk ty) /\
    Z.of_nat (length (to_bytes (http_send (w_http 80) 4096 5))) = 288 /\
    http_event_wf (http_send w sk ty) /\
    he_host (http_send w sk ty) = repeat x00 128 /\ he_path (http_send w sk ty) = repeat x00 128.
Proof.
  apply (http_event_provenance [Invoke (w_http 80) (SendMsg 4096 0 64)]).
  vm_compute. constructor.
Defined.
End witnesses.
