(* ===== verification/DbProbe.v ===== *)
(** * db_probe.bpf.c

    The database probe: [handle_tcp_recvmsg] parks the socket of a receive on a
    database port in [recv_info], [handle_tcp_recvmsg_ret] emits a [db_event]
    with the first bytes that were received, classified by [detect_protocol]. *)

From S2P Require Import Prelude Bytes CLayout CObject Vmlinux Common Bpf BpfRef ProbeObject.

#[local] Set Warnings "-clear-no-such-hyp".
#[local] Open Scope string_scope.
#[local] Open Scope list_scope.
#[local] Open Scope Z_scope.

(** ** Constants and maps *)

Definition PG_PORT : Z := 5432.
Definition MYSQL_PORT : Z := 3306.
Definition REDIS_PORT : Z := 6379.
Definition REDIS_SENTINEL_PORT : Z := 26379.
Definition DETECT_LEN : Z := 8.

Definition db_events : map_def := MapDef "BPF_MAP_TYPE_RINGBUF" RING_BUFFER_SIZE.

Record recvmsg_args := { sock_ptr : Z; buf_ptr : Z; dst_port : Z }.

Definition recv_info : map_def := MapDef "BPF_MAP_TYPE_HASH" 10240.

(** ** Port filter *)

Definition is_db_port (port : Z) : Z :=
  Z.b2z ((port =? PG_PORT) || (port =? MYSQL_PORT) || (port =? REDIS_PORT) ||
         (port =? REDIS_SENTINEL_PORT)).

(** ** Protocol detection *)

(** The value of a character constant. *)
Definition chr (c : byte) : Z := Z_of_byte c.
Arguments chr c%_byte_scope.

(** [None]: a read outside [buf]. *)
Definition detect_protocol (buf : list byte) (len port : Z) : option Z :=
  if len <? 2 then Some DB_PROTO_UNKNOWN
  else
    b0 ← Z_of_byte <$> buf !! 0%nat;
    b1 ← Z_of_byte <$> buf !! 1%nat;
    if (b0 =? 0x16) && (b1 =? 0x03) then Some DB_PROTO_ENCRYPTED
    else if (port =? PG_PORT) &&
      ((b0 =? chr "R") || (b0 =? chr "K") || (b0 =? chr "T") || (b0 =? chr "D") ||
       (b0 =? chr "C") || (b0 =? chr "E") || (b0 =? chr "Z") || (b0 =? chr "N") ||
       (b0 =? chr "S") || (b0 =? chr "Q") || (b0 =? chr "P") || (b0 =? chr "B"))
    then Some DB_PROTO_PG
    else
      mysql ← (if (port =? MYSQL_PORT) && (5 <=? len) then
                 b4 ← Z_of_byte <$> buf !! 4%nat;
                 Some ((b4 =? 0x0a) || (b4 =? 0x00) || (b4 =? 0xff) || (b4 =? 0x03) ||
                       (b4 =? 0x17))
               else Some false);
      if (mysql : bool) then Some DB_PROTO_MYSQL
      else if ((port =? REDIS_PORT) || (port =? REDIS_SENTINEL_PORT)) &&
        ((b0 =? chr "*") || (b0 =? chr "+") || (b0 =? chr "-") || (b0 =? chr ":") ||
         (b0 =? chr "$") ||
         ((chr "A" <=? b0) && (b0 <=? chr "Z")) || ((chr "a" <=? b0) && (b0 <=? chr "z")))
      then Some DB_PROTO_REDIS
      else Some DB_PROTO_UNKNOWN.

Definition sizeof_db_event : Z := default 0 (sizeof common (CName "struct db_event")).

Abbreviation db_prog := (prog recvmsg_args).

Section handlers.
Context {HW : Helpers}.

(** ** Programs *)

(** kprobe/tcp_recvmsg *)
Definition handle_tcp_recvmsg (sk msg len flags addr_len : Z) : db_prog Z :=
  (dport_be <- read_skc sk "skc_dport";;
   let dport := bpf_ntohs dport_be in
   if is_db_port dport =? 0 then mret 0
   else
     tid <- GetCurrentPidTgid;;
     let args := {| sock_ptr := sk; buf_ptr := 0; dst_port := dport |} in
     MapUpdateElem tid args BPF_ANY;;;
     mret 0)%prog.

(** kretprobe/tcp_recvmsg.  [args->f] reads the element each time; [None] in
    [protocol] is the early return when the buffer cannot be read. *)
Definition handle_tcp_recvmsg_ret (ret : Z) : db_prog Z :=
  (tid <- GetCurrentPidTgid;;
   args <- MapLookupElem tid;;
   match args with
   | None => mret 0
   | Some args =>
     MapDeleteElem tid;;;
     if ret <=? 0 then mret 0
     else
       let copy_len := wrap 32 ret in
       let copy_len := if MAX_DB_PAYLOAD_LEN <? copy_len then MAX_DB_PAYLOAD_LEN else copy_len in
       a <- Load args;;
       (if negb (buf_ptr a =? 0) then
          a <- Load args;;
          r <- ProbeReadUser (Z.to_nat DETECT_LEN) (buf_ptr a);;
          if r.1 <? 0 then mret None
          else
            a <- Load args;;
            mret (detect_protocol r.2 DETECT_LEN (dst_port a))
        else mret (Some DB_PROTO_UNKNOWN)) ≫= λ protocol,
       match protocol with
       | None => mret 0
       | Some protocol =>
         ts <- KtimeGetNs;;
         a <- Load args;;
         let dport := dst_port a in
         a <- Load args;;
         (if negb (sock_ptr a =? 0) then
            a <- Load args;;
            let sk := sock_ptr a in
            saddr <- read_skc sk "skc_rcv_saddr";;
            daddr <- read_skc sk "skc_daddr";;
            sport <- read_skc sk "skc_num";;
            mret (saddr, daddr, sport)
          else mret (0, 0, 0)) ≫= λ '(saddr, daddr, sport),
         comm <- GetCurrentComm (Z.to_nat MAX_COMM_LEN);;
         a <- Load args;;
         (if negb (buf_ptr a =? 0) && (0 <? copy_len) then
            a <- Load args;;
            r <- ProbeReadUser (Z.to_nat copy_len) (buf_ptr a);;
            mret (r.2 ++ repeat x00 (Z.to_nat (MAX_DB_PAYLOAD_LEN - copy_len)))
          else mret (repeat x00 (Z.to_nat MAX_DB_PAYLOAD_LEN))) ≫= λ payload,
         let evt := {|
           dbe_timestamp_ns := ts; dbe_event_type := event_code EVENT_DB_QUERY;
           dbe_pid := wrap 32 (Z.shiftr tid 32);
           dbe_src_ip := saddr; dbe_dst_ip := daddr; dbe_src_port := sport; dbe_dst_port := dport;
           dbe_protocol := protocol; dbe_pad := 0;
           dbe_payload_len := copy_len; dbe_response_bytes := wrap 32 ret;
           dbe_payload := payload; dbe_comm := comm |} in
         ring_evt <- RingbufReserve sizeof_db_event 0;;
         match ring_evt with
         | None => mret 0
         | Some s =>
             RingbufWrite s (to_bytes evt);;;
             RingbufSubmit s 0;;;
             mret 0
         end
       end
   end)%prog.
End handlers.

(** ** What [detect_protocol] decides *)

(** The [i]-th byte exists and is one of those [ok] describes. *)
Definition byte_at (buf : list byte) (i : nat) (ok : byte -> Prop) : Prop :=
  exists b, buf !! i = Some b /\ ok b.

Definition starts_tls (buf : list byte) : Prop := byte_at buf 0 (.= x16) /\ byte_at buf 1 (.= x03).
Definition is_pg (b : byte) : Prop := b ∈ ascii_bytes "RKTDCEZNSQPB".
Definition is_mysql (b : byte) : Prop := b ∈ [x0a; x00; xff; x03; x17].
Definition is_redis (b : byte) : Prop :=
  b ∈ ascii_bytes "*+-:$" \/ 65 <= Z_of_byte b <= 90 \/ 97 <= Z_of_byte b <= 122.

#[global] Instance is_pg_dec b : Decision (is_pg b).
Proof. unfold is_pg. apply _. Defined.
#[global] Instance is_mysql_dec b : Decision (is_mysql b).
Proof. unfold is_mysql. apply _. Defined.
#[global] Instance is_redis_dec b : Decision (is_redis b).
Proof. unfold is_redis. apply _. Defined.

(** The chains of comparisons, checked on each of the 256 bytes. *)
Lemma pg_chain b :
  (let b0 := Z_of_byte b in
   (b0 =? chr "R") || (b0 =? chr "K") || (b0 =? chr "T") || (b0 =? chr "D") ||
   (b0 =? chr "C") || (b0 =? chr "E") || (b0 =? chr "Z") || (b0 =? chr "N") ||
   (b0 =? chr "S") || (b0 =? chr "Q") || (b0 =? chr "P") || (b0 =? chr "B")) = bool_decide (is_pg b).
Proof. destruct b; reflexivity. Qed.

Lemma mysql_chain b :
  (let b4 := Z_of_byte b in
   (b4 =? 0x0a) || (b4 =? 0x00) || (b4 =? 0xff) || (b4 =? 0x03) || (b4 =? 0x17)) =
  bool_decide (is_mysql b).
Proof. destruct b; reflexivity. Qed.

Lemma redis_chain b :
  (let b0 := Z_of_byte b in
   (b0 =? chr "*") || (b0 =? chr "+") || (b0 =? chr "-") || (b0 =? chr ":") || (b0 =? chr "$") ||
   ((chr "A" <=? b0) && (b0 <=? chr "Z")) || ((chr "a" <=? b0) && (b0 <=? chr "z"))) =
  bool_decide (is_redis b).
Proof. destruct b; reflexivity. Qed.

Lemma tls_chain b c :
  (Z_of_byte b =? 0x16) && (Z_of_byte c =? 0x03) = bool_decide (b = x16 /\ c = x03).
Proof. destruct b; try reflexivity. by destruct c. Qed.

Lemma byte_at_some buf i b ok : buf !! i = Some b -> byte_at buf i ok <-> ok b.
Proof. intros Hb. unfold byte_at. rewrite Hb. naive_solver. Qed.

Lemma byte_at_0 b buf ok : byte_at (b :: buf) 0 ok <-> ok b.
Proof. by apply byte_at_some. Qed.
Lemma byte_at_1 b c buf ok : byte_at (b :: c :: buf) 1 ok <-> ok c.
Proof. by apply byte_at_some. Qed.

(** The outcome [p] for a buffer of [len] bytes sent from [port], case by
    case; in all others the protocol is unknown. *)
Definition detects (buf : list byte) (len port p : Z) : Prop :=
  (p = DB_PROTO_ENCRYPTED <-> 2 <= len /\ starts_tls buf) /\
  (p = DB_PROTO_PG <-> 2 <= len /\ ~ starts_tls buf /\ port = 5432 /\ byte_at buf 0 is_pg) /\
  (p = DB_PROTO_MYSQL <-> 5 <= len /\ ~ starts_tls buf /\ port = 3306 /\ byte_at buf 4 is_mysql) /\
  (p = DB_PROTO_REDIS <->
    2 <= len /\ ~ starts_tls buf /\ port ∈ [6379; 26379] /\ byte_at buf 0 is_redis) /\
  p ∈ [DB_PROTO_UNKNOWN; DB_PROTO_PG; DB_PROTO_MYSQL; DB_PROTO_REDIS; DB_PROTO_ENCRYPTED].

Lemma redis_port port :
  (port =? REDIS_PORT) || (port =? REDIS_SENTINEL_PORT) = true <-> port ∈ [6379; 26379].
Proof. rewrite orb_true_iff, !Z.eqb_eq, !elem_of_cons, elem_of_nil. tauto. Qed.

(** A decision list over exclusive conditions. *)
Lemma detects_intro buf len port (tls pg mysql redis : bool) :
  2 <= len ->
  (tls = true <-> starts_tls buf) ->
  (pg = true <-> port = 5432 /\ byte_at buf 0 is_pg) ->
  (mysql = true <-> 5 <= len /\ port = 3306 /\ byte_at buf 4 is_mysql) ->
  (redis = true <-> port ∈ [6379; 26379] /\ byte_at buf 0 is_redis) ->
  detects buf len port
    (if tls then DB_PROTO_ENCRYPTED else if pg then DB_PROTO_PG else if mysql then DB_PROTO_MYSQL
     else if redis then DB_PROTO_REDIS else DB_PROTO_UNKNOWN).
Proof.
  intros Hlen Ht Hp Hm Hr. unfold detects.
  assert (pg = true -> mysql = true -> False) as Hpm by (rewrite Hp, Hm; lia).
  assert (redis = true -> port <> 5432 /\ port <> 3306) as Hport.
  { rewrite Hr, !elem_of_cons, elem_of_nil. lia. }
  assert (redis = true -> pg = true -> False) as Hrp by (intros ?%Hport ?%Hp; lia).
  assert (redis = true -> mysql = true -> False) as Hrm by (intros ?%Hport ?%Hm; lia).
  clear Hport.
  assert (2 <= len /\ starts_tls buf <-> tls = true) as -> by tauto.
  assert (2 <= len /\ ~ starts_tls buf /\ port = 5432 /\ byte_at buf 0 is_pg <->
    tls <> true /\ pg = true) as -> by tauto.
  assert (5 <= len /\ ~ starts_tls buf /\ port = 3306 /\ byte_at buf 4 is_mysql <->
    tls <> true /\ mysql = true) as -> by tauto.
  assert (2 <= len /\ ~ starts_tls buf /\ port ∈ [6379; 26379] /\ byte_at buf 0 is_redis <->
    tls <> true /\ redis = true) as -> by tauto.
  clear - Hpm Hrp Hrm.
  destruct tls, pg, mysql, redis; try (exfalso; by auto);
    (split_and!; [split; intros; try done; by destruct_and?..|
      rewrite !elem_of_cons; tauto]).
Qed.

Lemma detect_protocol_detects buf len port :
  len <= Z.of_nat (length buf) ->
  exists p, detect_protocol buf len port = Some p /\ detects buf len port p.
Proof.
  intros Hlen. unfold detect_protocol. destruct (Z.ltb_spec len 2).
  { eexists. split; [done|]. split_and!; [split; [done|lia]..|]. by left. }
  destruct buf as [|b0 [|b1 buf]]; simpl in Hlen; [lia..|].
  assert (exists mysql, (if (port =? MYSQL_PORT) && (5 <=? len) then
      b4 ← Z_of_byte <$> (b0 :: b1 :: buf) !! 4%nat;
      Some ((b4 =? 0x0a) || (b4 =? 0x00) || (b4 =? 0xff) || (b4 =? 0x03) || (b4 =? 0x17))
    else Some false) = Some mysql /\
    (mysql = true <-> 5 <= len /\ port = 3306 /\ byte_at (b0 :: b1 :: buf) 4 is_mysql))
    as (mysql & Hm & Hmysql).
  { destruct (Z.eqb_spec port MYSQL_PORT) as [->|]; [|exists false; naive_solver].
    destruct (Z.leb_spec 5 len); [|exists false; split; [done|split; [done|lia]]].
    destruct (lookup_lt_is_Some_2 (b0 :: b1 :: buf) 4 ltac:(simpl; lia)) as [b4 Hb4].
    rewrite Hb4. simpl. eexists. split; [done|]. rewrite (byte_at_some _ _ _ _ Hb4).
    pose proof (mysql_chain b4) as Hc. simpl in Hc. rewrite Hc, bool_decide_eq_true. naive_solver. }
  rewrite Hm. simpl. rewrite tls_chain.
  pose proof (pg_chain b0) as Hpg. pose proof (redis_chain b0) as Hr. cbv zeta in Hpg, Hr.
  rewrite Hpg, Hr. clear Hm Hpg Hr.
  set (tls := bool_decide _). set (pg := (port =? PG_PORT) && _). set (redis := (_ || _) && _).
  eexists. split; [|apply (detects_intro _ _ _ tls pg mysql redis); [done| | |done|]].
  - by destruct tls, pg, mysql, redis.
  - unfold starts_tls, tls. rewrite bool_decide_eq_true.
    by rewrite byte_at_0, byte_at_1.
  - unfold pg. rewrite andb_true_iff, Z.eqb_eq, bool_decide_eq_true.
    by rewrite byte_at_0.
  - unfold redis. rewrite andb_true_iff, redis_port, bool_decide_eq_true.
    by rewrite byte_at_0.
Qed.
(** ** Specification *)

Inductive db_call :=
  | Recv (sk msg len flags addr_len : Z)
  | RecvRet (ret : Z).

Definition db_exec `{!Helpers} (c : db_call) : db_prog Z :=
  match c with
  | Recv sk msg len flags addr_len => handle_tcp_recvmsg sk msg len flags addr_len
  | RecvRet ret => handle_tcp_recvmsg_ret ret
  end.

Definition db_ports : list Z := [5432; 3306; 6379; 26379].

Lemma is_db_port_zero port : is_db_port port = 0 <-> port ∉ db_ports.
Proof.
  unfold is_db_port, db_ports. rewrite !not_elem_of_cons.
  destruct (Z.eqb_spec port PG_PORT), (Z.eqb_spec port MYSQL_PORT), (Z.eqb_spec port REDIS_PORT),
    (Z.eqb_spec port REDIS_SENTINEL_PORT); simpl; split; try done; try naive_solver.
  intros _. split_and!; try done. apply not_elem_of_nil.
Qed.

Abbreviation db_abs := (abs recvmsg_args db_event).

(** What an entry of [recv_info] satisfies: the buffer pointer is never
    recorded. *)
Definition args_wf (a : recvmsg_args) : Prop := buf_ptr a = 0 /\ dst_port a ∈ db_ports.

Abbreviation db_rel := (obj_rel (E := db_event) args_wf).
Abbreviation db_label := (label db_call).

Section spec.
Context {HW : Helpers} {HM : BpfHash recvmsg_args} {HR : Ringbuf}.

Definition recv_args (w : world) (sk : Z) : recvmsg_args :=
  {| sock_ptr := sk; buf_ptr := 0; dst_port := bpf_ntohs (skc_read w sk "skc_dport") |}.

(** A member of the parked socket, when there is one. *)
Definition parked_read (w : world) (a : recvmsg_args) (f : string) : Z :=
  if decide (sock_ptr a = 0) then 0 else skc_read w (sock_ptr a) f.

(** The event of a receive of [n] bytes: no protocol, no payload. *)
Definition recv_event (w : world) (a : recvmsg_args) (n : Z) : db_event := {|
  dbe_timestamp_ns := w_ktime_ns w;
  dbe_event_type := 7;
  dbe_pid := w_pid_tgid w / 2 ^ 32;
  dbe_src_ip := parked_read w a "skc_rcv_saddr";
  dbe_dst_ip := parked_read w a "skc_daddr";
  dbe_src_port := parked_read w a "skc_num";
  dbe_dst_port := dst_port a;
  dbe_protocol := 0;
  dbe_pad := 0;
  dbe_payload_len := Z.min n 256;
  dbe_response_bytes := n;
  dbe_payload := repeat x00 256;
  dbe_comm := w_comm w 16 |}.

Inductive db_spec (w : world) : db_call -> db_abs -> db_abs -> Prop :=
  | recv_ignored sk msg len flags addr_len P L :
      dst_port (recv_args w sk) ∉ db_ports ->
      db_spec w (Recv sk msg len flags addr_len) (Abs P L) (Abs P L)
  | recv_parked sk msg len flags addr_len P L :
      dst_port (recv_args w sk) ∈ db_ports ->
      db_spec w (Recv sk msg len flags addr_len) (Abs P L)
        (Abs (<[w_pid_tgid w := recv_args w sk]> P) L)
  | recv_refused sk msg len flags addr_len P L :
      P !! w_pid_tgid w = None -> hm_max_entries <= Z.of_nat (size P) ->
      db_spec w (Recv sk msg len flags addr_len) (Abs P L) (Abs P L)
  | recv_ret_unknown ret P L :
      P !! w_pid_tgid w = None -> db_spec w (RecvRet ret) (Abs P L) (Abs P L)
  | recv_ret_error ret P L :
      is_Some (P !! w_pid_tgid w) -> ret <= 0 ->
      db_spec w (RecvRet ret) (Abs P L) (Abs (delete (w_pid_tgid w) P) L)
  | recv_ret_emitted ret a P L :
      P !! w_pid_tgid w = Some a -> 0 < ret ->
      db_spec w (RecvRet ret) (Abs P L)
        (Abs (delete (w_pid_tgid w) P) (L ++ [recv_event w a (wrap 32 ret)]))
  | recv_ret_dropped ret P L :
      is_Some (P !! w_pid_tgid w) -> 0 < ret -> log_full L ->
      db_spec w (RecvRet ret) (Abs P L) (Abs (delete (w_pid_tgid w) P) L).

(** *** Lemmas *)

Lemma parked_read_range w a f k :
  0 <= k -> in_range k (skc_read w (sock_ptr a) f) -> in_range k (parked_read w a f).
Proof using Type. intros. unfold parked_read. case_decide; [by apply in_range_0|done]. Qed.

Lemma db_port_range a : args_wf a -> in_range 16 (dst_port a).
Proof using Type.
  intros [_ Hp]. unfold db_ports in Hp. by repeat (apply elem_of_cons in Hp as [->|Hp]);
    [..|apply elem_of_nil in Hp].
Qed.

Lemma recv_event_wf w a n : args_wf a -> in_range 32 n -> db_event_wf (recv_event w a n).
Proof using Type.
  intros Ha Hn. split; simpl; try done; eauto with paryty.
  - by apply parked_read_range; [|eauto with paryty].
  - by apply parked_read_range; [|eauto with paryty].
  - by apply parked_read_range; [|eauto with paryty].
  - by apply db_port_range.
  - unfold in_range in *. lia.
Qed.

(** *** The handlers *)

Lemma run_recv w sk msg len flags addr_len st :
  run w (handle_tcp_recvmsg sk msg len flags addr_len) st =
    (0, if decide (dst_port (recv_args w sk) ∈ db_ports)
        then with_map st (hm_update (w_pid_tgid w) (recv_args w sk) BPF_ANY (ps_map st)).2
        else st).
Proof using Type.
  unfold handle_tcp_recvmsg. cbn -[is_db_port db_ports].
  fold (skc_read w sk "skc_dport"). case_decide as Hp; case_match eqn:Hz; bool_to_prop; try done.
  - by apply is_db_port_zero in Hz.
  - by apply is_db_port_zero in Hp.
Qed.

Lemma run_recv_ret_unknown w ret st :
  hm_lookup (w_pid_tgid w) (ps_map st) = None ->
  run w (handle_tcp_recvmsg_ret ret) st = (0, st).
Proof using Type. intros Hk. unfold handle_tcp_recvmsg_ret. simpl. by rewrite Hk. Qed.

Lemma run_recv_ret_error w ret p st :
  hm_lookup (w_pid_tgid w) (ps_map st) = Some p -> ret <= 0 ->
  run w (handle_tcp_recvmsg_ret ret) st =
    (0, with_map st (hm_delete (w_pid_tgid w) (ps_map st)).2).
Proof using Type.
  intros Hk Hret. unfold handle_tcp_recvmsg_ret. simpl. rewrite Hk.
  by destruct (Z.leb_spec ret 0); [|lia].
Qed.

Lemma copy_len_min n :
  (if MAX_DB_PAYLOAD_LEN <? n then MAX_DB_PAYLOAD_LEN else n) = Z.min n 256.
Proof using Type. unfold MAX_DB_PAYLOAD_LEN. destruct (Z.ltb_spec 256 n); lia. Qed.

(** What is left to do once the element is deleted reads the memory it had. *)
Lemma recv_ret_tail w ret p :
  0 < ret -> exists k : db_prog Z,
    (forall rest st, hm_lookup (w_pid_tgid w) (ps_map st) = Some p ->
      let st' := with_map st (hm_delete (w_pid_tgid w) (ps_map st)).2 in
      run_pool (repeat 0%nat 3) ((w, handle_tcp_recvmsg_ret ret) :: rest, st) = ((w, k) :: rest, st') /\
      run w (handle_tcp_recvmsg_ret ret) st = run w k st') /\
    (forall st a, hm_load p (ps_map st) = a -> args_wf a ->
      run w k st = (0, (run w (emit (mret (recv_event w a (wrap 32 ret))) to_bytes sizeof_db_event 0 0) st).2)).
Proof using Type.
  intros Hret. eexists. split.
  - intros rest st Hk. unfold handle_tcp_recvmsg_ret. cbn -[sizeof_db_event wrap Z.min].
    unfold pool_step. cbn -[sizeof_db_event wrap Z.min]. rewrite Hk. cbn -[sizeof_db_event wrap Z.min].
    destruct (Z.leb_spec ret 0); [lia|]. by split.
  - intros st a Hl [Hb Hp]. rewrite copy_len_min. cbn -[sizeof_db_event wrap Z.min].
    rewrite Hl, Hb. cbn -[sizeof_db_event wrap Z.min]. rewrite Hl.
    unfold recv_event, parked_read. rewrite <- pid_tgid_hi.
    destruct (Z.eqb_spec (sock_ptr a) 0) as [Hs|Hs];
      [rewrite !decide_True by done|rewrite !decide_False by done];
      cbn -[sizeof_db_event wrap Z.min]; rewrite Hl, ?Hb; cbn -[sizeof_db_event wrap Z.min];
      by destruct (rb_reserve sizeof_db_event 0 (ps_ring st)) as [[s r]|].
Qed.

Lemma run_recv_ret_ok w ret p a st :
  hm_wf (ps_map st) -> hm_lookup (w_pid_tgid w) (ps_map st) = Some p ->
  hm_load p (ps_map st) = a -> args_wf a -> 0 < ret ->
  let st' := with_map st (hm_delete (w_pid_tgid w) (ps_map st)).2 in
  run w (handle_tcp_recvmsg_ret ret) st =
    (0, (run w (emit (mret (recv_event w a (wrap 32 ret))) to_bytes sizeof_db_event 0 0) st').2).
Proof using Type.
  intros Hm Hk Hl Ha Hret st'. destruct (recv_ret_tail w ret p Hret) as (k & Hrun & Hk').
  rewrite (proj2 (Hrun [] st Hk)). apply Hk'; [|done]. unfold st'. cbn [ps_map with_map].
  by rewrite hm_delete_load.
Qed.

(** *** Refinement *)

Lemma recv_refines w sk msg len flags addr_len st s :
  db_rel st s ->
  exists s', db_spec w (Recv sk msg len flags addr_len) s s' /\
    db_rel (run w (db_exec (Recv sk msg len flags addr_len)) st).2 s'.
Proof using Type.
  destruct s as [P L]. intros Hrel. cbn [db_exec]. rewrite run_recv. cbn [snd].
  case_decide as Hp; [|eexists; split; [by apply recv_ignored|done]].
  destruct (update_rel _ st P L (w_pid_tgid w) (recv_args w sk) Hrel) as [H|(H & ? & ?)].
  - by split.
  - eexists. split; [by apply recv_parked|done].
  - eexists. split; [by apply recv_refused|done].
Qed.

Lemma recv_ret_refines w ret st s :
  db_rel st s ->
  exists s', db_spec w (RecvRet ret) s s' /\ db_rel (run w (db_exec (RecvRet ret)) st).2 s'.
Proof using Type.
  destruct s as [P L]. intros Hrel. destruct (Hrel) as [[Hm ?] Hset Hmap ? HP ?].
  cbn [db_exec ab_map ab_log] in *. destruct (P !! w_pid_tgid w) as [a|] eqn:Hk.
  - assert (hm_abs (ps_map st) !! w_pid_tgid w = Some a) as Hk' by (by rewrite Hmap).
    destruct (hm_lookup_some _ _ _ Hm Hk') as (p & Hp & Hl).
    destruct (decide (ret <= 0)) as [Hret|Hret].
    + rewrite (run_recv_ret_error _ _ p) by done. eexists. split; [by apply recv_ret_error|].
      by apply delete_rel.
    + assert (args_wf a) as Ha by (by eapply HP).
      rewrite (run_recv_ret_ok _ _ p a) by (done || lia). cbn [fst snd].
      assert (db_event_wf (recv_event w a (wrap 32 ret))) as He.
      { apply recv_event_wf; [done|by apply wrap_in_range]. }
      destruct (emit_rel _ w (mret _) 0 0 _ _ _ _ (delete_rel _ _ _ _ (w_pid_tgid w) Hrel) He
        ltac:(done)) as [Hr|[Hr Hfull]]; eexists; (split; [|exact Hr]).
      * apply recv_ret_emitted; [done|lia].
      * apply recv_ret_dropped; [done|lia|done].
  - rewrite run_recv_ret_unknown; [|apply hm_lookup_none; [done|by rewrite Hmap]].
    eexists. split; [by apply recv_ret_unknown|done].
Qed.

#[global] Instance db_probes : Probes recvmsg_args db_event := {|
  pb_call := db_call;
  pb_exec := db_exec;
  pb_val_wf := args_wf;
  pb_spec := db_spec;
  pb_refines w c := match c with
    | Recv sk msg len flags addr_len => recv_refines w sk msg len flags addr_len
    | RecvRet ret => recv_ret_refines w ret
    end |}.

(** *** Traces *)

Definition db_init : pstate recvmsg_args := obj_init.
Definition db_step : db_label -> pstate recvmsg_args -> pstate recvmsg_args := obj_step.
Definition db_run : list db_label -> pstate recvmsg_args -> pstate recvmsg_args := obj_run.
Definition db_spec_run : list db_label -> db_abs -> db_abs -> Prop := obj_spec_run.

#[global] Arguments db_step : simpl never.
#[global] Arguments db_run : simpl never.

Lemma db_reachable ls :
  exists s, db_spec_run ls (Abs ∅ []) s /\ db_rel (db_run ls db_init) s.
Proof using Type. exact (obj_reachable (PB := db_probes) ls). Qed.

Lemma db_run_refines ls st s :
  db_rel st s -> exists s', db_spec_run ls s s' /\ db_rel (db_run ls st) s'.
Proof using Type. exact (obj_run_refines (PB := db_probes) ls st s). Qed.

Lemma db_step_refines w c st s :
  db_rel st s -> exists s', db_spec w c s s' /\ db_rel (db_step (Invoke w c) st) s'.
Proof using Type. exact (pb_refines w c st s). Qed.

(** The label is not an entry to or a return from tcp_recvmsg of thread [t]. *)
Definition recv_not_by (t : Z) (l : db_label) : Prop :=
  match l with Invoke w _ => w_pid_tgid w <> t | Read => True end.

Lemma recv_not_by_pending t l s s' :
  obj_spec_step l s s' -> recv_not_by t l -> ab_map s' !! t = ab_map s !! t.
Proof using Type.
  destruct 1 as [w c s s' Hs|]; [|done].
  destruct Hs; simpl; intros Hne; try done; by rewrite ?lookup_insert_ne, ?lookup_delete_ne.
Qed.

Lemma recv_not_by_run t ls s s' :
  db_spec_run ls s s' -> Forall (recv_not_by t) ls -> ab_map s' !! t = ab_map s !! t.
Proof using Type. apply (spec_run_unchanged _ (λ s, ab_map s !! t)), recv_not_by_pending. Qed.

(** The logged event was emitted by a return of the trace. *)
Definition received_by (ls : list db_label) (e : db_event) : Prop :=
  exists w ret a, Invoke w (RecvRet ret) ∈ ls /\ 0 < ret /\ args_wf a /\
    e = recv_event w a (wrap 32 ret).

Record db_inv (ls : list db_label) (s : db_abs) : Prop := {
  di_map : map_Forall (λ _, args_wf) (ab_map s);
  di_log e : e ∈ ab_log s -> received_by ls e;
}.

Lemma db_inv_step ls l s s' : db_inv ls s -> obj_spec_step l s s' -> db_inv (ls ++ [l]) s'.
Proof using Type.
  intros [HP HL] Hstep.
  assert (forall e, e ∈ ab_log s -> received_by (ls ++ [l]) e) as HL'.
  { intros e (w & ret & a & ? & ?)%HL. exists w, ret, a. split; [set_solver|done]. }
  clear HL. destruct Hstep as [w c s s' Hs|M L].
  2: { split; [done|]. intros e He. apply HL'. destruct L; [done|]. by right. }
  destruct Hs; simpl in *; split; simpl; try done.
  - by apply map_Forall_insert_2.
  - by apply map_Forall_delete.
  - by apply map_Forall_delete.
  - intros e [He| ->%list_elem_of_singleton]%elem_of_app; [by apply HL'|].
    exists w, ret, a. split_and!; [set_solver|done|by eapply HP|done].
  - by apply map_Forall_delete.
Qed.

Lemma db_inv_run ls s : db_spec_run ls (Abs ∅ []) s -> db_inv ls s.
Proof using Type.
  apply (spec_run_invariant _ db_inv); [|intros *; apply db_inv_step].
  split; simpl; [apply map_Forall_empty|by intros e ?%elem_of_nil].
Qed.

(** ** Properties *)

(** [C7] Refinement: after any sequence of probe firings and reads from the
    fresh state, the program object stands for a state its specification
    (receives in progress per thread, log of unread events) can reach by the
    same sequence. *)
Theorem db_probe_refines_spec ls :
  exists s, db_spec_run ls (Abs ∅ []) s /\ db_rel (db_run ls db_init) s.
Proof using Type. apply db_reachable. Qed.

(** A receive on a database port is reported: if thread t enters
    tcp_recvmsg on such a socket when the map has room, other threads then do
    anything, and t returns with [ret] bytes when the ring has room, exactly
    one event is appended, with the parked port, the addresses of the socket
    at the time of the return and [ret] as response size; the entry is gone. *)
Theorem db_receive_reported ls w0 sk msg len flags addr_len mid w1 ret :
  let st0 := db_run ls db_init in
  let st1 := db_run mid (db_step (Invoke w0 (Recv sk msg len flags addr_len)) st0) in
  bpf_ntohs (skc_read w0 sk "skc_dport") ∈ db_ports ->
  Z.of_nat (size (hm_abs (ps_map st0))) < hm_max_entries ->
  w_pid_tgid w1 = w_pid_tgid w0 ->
  Forall (recv_not_by (w_pid_tgid w0)) mid ->
  0 < ret < 2 ^ 31 ->
  ~ ring_full st1 sizeof_db_event ->
  let st2 := db_step (Invoke w1 (RecvRet ret)) st1 in
  records st2 = records st1 ++ [to_bytes (recv_event w1 (recv_args w0 sk) ret)] /\
  hm_abs (ps_map st2) !! w_pid_tgid w0 = None.
Proof using Type.
  intros st0 st1 Hport Hroom Ht Hmid Hret Hring st2.
  destruct (db_reachable ls) as (s0 & _ & Hrel0). fold st0 in Hrel0.
  destruct (db_step_refines w0 (Recv sk msg len flags addr_len) st0 s0 Hrel0) as (s1 & Hs1 & Hrel1).
  assert (ab_map s1 !! w_pid_tgid w0 = Some (recv_args w0 sk)) as Hp.
  { rewrite (or_map _ _ _ Hrel0) in Hroom. inversion Hs1; subst; simpl in *; [done| |lia].
    apply lookup_insert_eq. }
  destruct (db_run_refines mid _ _ Hrel1) as ([P2 L2] & Hrun & Hrel2). fold st1 in Hrel2.
  rewrite <- (recv_not_by_run _ _ _ _ Hrun Hmid) in Hp. simpl in Hp.
  apply (obj_room _ _ _ Hrel2) in Hring.
  destruct (db_step_refines w1 (RecvRet ret) st1 _ Hrel2) as (s3 & Hs3 & [_ _ Hmap Hrec _ _]).
  fold st2 in Hmap, Hrec. rewrite <- Ht in *.
  assert (wrap 32 ret = ret) as Hw by (apply wrap_id; unfold in_range; lia).
  inversion Hs3; subst; simpl in *; try (congruence || contradiction || lia).
  simplify_eq. rewrite Hmap, Hrec, (or_records _ _ _ Hrel2), fmap_app, lookup_delete_eq, Hw. done.
Qed.

(** [C8] No event is ever classified and no payload is ever captured: the
    entry probe always parks a null buffer pointer, so every record in the
    ring at any reachable state is the 310-byte image of an event of protocol
    UNKNOWN with an all-zero payload, although its payload_len says that
    between 1 and 256 bytes were captured. *)
Theorem db_events_unclassified ls bs :
  (forall w ret, Invoke w (RecvRet ret) ∈ ls -> ret < 2 ^ 31) ->
  bs ∈ records (db_run ls db_init) ->
  exists e, bs = to_bytes e /\ Z.of_nat (length bs) = 310 /\ db_event_wf e /\
    dbe_event_type e = 7 /\ dbe_dst_port e ∈ db_ports /\
    dbe_protocol e = DB_PROTO_UNKNOWN /\ dbe_payload e = repeat x00 256 /\
    1 <= dbe_payload_len e <= 256 /\ dbe_payload_len e = Z.min (dbe_response_bytes e) 256.
Proof using Type.
  intros Hls (s & e & Hrun & He & -> & Hwf)%(obj_record (PB := db_probes)).
  destruct (di_log _ _ (db_inv_run _ _ Hrun) e He) as (w & ret & a & Hin & Hret & [Hb Hp] & ->).
  apply Hls in Hin. assert (wrap 32 ret = ret) as Hw by (apply wrap_id; unfold in_range; lia).
  exists (recv_event w a (wrap 32 ret)). rewrite Hw, length_event by (by rewrite <- Hw).
  split_and!; try done; [by rewrite <- Hw|simpl; lia..].
Qed.

(** Every return from tcp_recvmsg removes the thread's entry and no
    other, whatever the return value and whether or not the event could be
    emitted; a failed or empty receive, or one that was not parked, is not
    reported. *)
Theorem recv_ret_always_cleans ls w ret :
  let st := db_run ls db_init in
  let st' := db_step (Invoke w (RecvRet ret)) st in
  hm_abs (ps_map st') = delete (w_pid_tgid w) (hm_abs (ps_map st)) /\
  (ret <= 0 \/ hm_abs (ps_map st) !! w_pid_tgid w = None -> records st' = records st).
Proof using Type.
  intros st st'. destruct (db_reachable ls) as (s & _ & Hrel). fold st in Hrel.
  destruct (db_step_refines w (RecvRet ret) st s Hrel) as (s' & Hs & Hrel'). fold st' in Hrel'.
  rewrite (or_map _ _ _ Hrel), (or_map _ _ _ Hrel'), (or_records _ _ _ Hrel), (or_records _ _ _ Hrel').
  inversion Hs; subst; simpl; (split; [try done; by rewrite delete_id|]); try done.
  intros [?|?]; [lia|congruence].
Qed.
End spec.

(** [C9] Detection reads only bytes the buffer has and decides: TLS records
    first, on any port; then PostgreSQL, MySQL and Redis by their first bytes
    (MySQL by its fifth, when there are five), each only on its own ports;
    UNKNOWN in all other cases. *)
Theorem detect_protocol_spec (buf : list byte) (len port : Z) :
  len <= Z.of_nat (length buf) ->
  exists p, detect_protocol buf len port = Some p /\ detects buf len port p.
Proof. apply detect_protocol_detects. Qed.

(** ** On the reference runtime *)

#[export] Instance recvmsg_args_inhabited : Inhabited recvmsg_args :=
  populate {| sock_ptr := 0; buf_ptr := 0; dst_port := 0 |}.

Definition ref_recv_hash : BpfHash recvmsg_args := ref_hash recvmsg_args 10240.

Section witnesses.
#[local] Existing Instances ref_helpers ref_recv_hash ref_ring256.

(** Kernel memory with a socket to a PostgreSQL server at 4096 and one to a
    Redis server at 8192. *)
Definition db_kmem : gmap Z byte :=
  mem_at 4096 (sock_image [10; 0; 0; 9] [10; 0; 0; 1] 5432 40001) ∪
  mem_at 8192 (sock_image [10; 0; 0; 7] [10; 0; 0; 1] 6379 40002).

(** Thread 7 of process 42 and thread 8 of process 43. *)
Definition w_pg : world := RefWorld (42 * 2 ^ 32 + 7) 1000 (comm_of "psql") db_kmem ∅.
Definition w_redis : world := RefWorld (43 * 2 ^ 32 + 8) 1100 (comm_of "redis-cli") db_kmem ∅.

Lemma detect_protocol_spec_witness :
  exists p, detect_protocol (ascii_bytes "*1..PING") 8 6379 = Some p /\
    detects (ascii_bytes "*1..PING") 8 6379 p.
Proof. apply (detect_protocol_spec (ascii_bytes "*1..PING") 8 6379). vm_compute. discriminate. Defined.

Lemma db_probe_refines_spec_witness :
  exists s, db_spec_run [Invoke w_pg (Recv 4096 0 0 0 0)] (Abs ∅ []) s /\
    obj_rel args_wf (db_run [Invoke w_pg (Recv 4096 0 0 0 0)] db_init) s.
Proof. apply (db_probe_refines_spec [Invoke w_pg (Recv 4096 0 0 0 0)]). Defined.

Lemma db_receive_reported_witness :
  let st1 := db_run [Invoke w_redis (Recv 8192 0 0 0 0)]
    (db_step (Invoke w_pg (Recv 4096 0 0 0 0)) (db_run [] db_init)) in
  let st2 := db_step (Invoke w_pg (RecvRet 300)) st1 in
  records st2 = records st1 ++ [to_bytes (recv_event w_pg (recv_args w_pg 4096) 300)] /\
  hm_abs (ps_map st2) !! w_pid_tgid w_pg = None.
Proof.
  apply (db_receive_reported [] w_pg 4096 0 0 0 0 [Invoke w_redis (Recv 8192 0 0 0 0)] w_pg 300).
  - vm_compute. constructor.
  - vm_compute. reflexivity.
  - reflexivity.
  - repeat constructor. vm_compute. discriminate.
  - split; reflexivity.
  - apply not_ring_full. vm_compute. reflexivity.
Defined.

Lemma db_events_unclassified_witness :
  exists e, to_bytes (recv_event w_pg (recv_args w_pg 4096) 300) = to_bytes e /\
    Z.of_nat (length (to_bytes (recv_event w_pg (recv_args w_pg 4096) 300))) = 310 /\
    db_event_wf e /\ dbe_event_type e = 7 /\ dbe_dst_port e ∈ db_ports /\
    dbe_protocol e = DB_PROTO_UNKNOWN /\ dbe_payload e = repeat x00 256 /\
    1 <= dbe_payload_len e <= 256 /\ dbe_payload_len e = Z.min (dbe_response_bytes e) 256.
Proof.
  apply (db_events_unclassified [Invoke w_pg (Recv 4096 0 0 0 0); Invoke w_pg (RecvRet 300)]).
  - intros w ret [[=]|[[= -> ->]|[]%elem_of_nil]%elem_of_cons]%elem_of_cons. reflexivity.
  - vm_compute. constructor.
Defined.

Lemma recv_ret_always_cleans_witness :
  let st := db_run [Invoke w_pg (Recv 4096 0 0 0 0)] db_init in
  let st' := db_step (Invoke w_pg (RecvRet (-104))) st in
  hm_abs (ps_map st') = delete (w_pid_tgid w_pg) (hm_abs (ps_map st)) /\
  (-104 <= 0 \/ hm_abs (ps_map st) !! w_pid_tgid w_pg = None -> records st' = records st).
Proof. apply (recv_ret_always_cleans [Invoke w_pg (Recv 4096 0 0 0 0)] w_pg (-104)). Defined.
End witnesses.
