(* ===== verification/Interleaving.v ===== *)
(** * Programs interleaved on several CPUs

    [run_pool] interleaves the steps of programs; this file has what can be
    said of any schedule.  [finishes] bounds the steps of a program, and a
    schedule that gives every CPU that many steps lets all of them finish.
    [owned] is a discipline in the manner of separation logic: a program may
    touch only the map entry of its own thread and the record it reserved, and
    what it leaves behind is described by a postcondition.  Where the memory of
    the map is frozen, nobody writes it and everybody may read all of it, also
    what was deleted.  Programs of different threads that respect this cannot
    disturb each other ([pool_sound]). *)

From S2P Require Import Prelude Bytes Bpf.

#[local] Set Warnings "-clear-no-such-hyp".
#[local] Open Scope list_scope.
#[local] Open Scope Z_scope.

(** ** Termination *)

Section steps.
Context {V : Type}.

(** At most [n] steps, whatever they answer, and the result is 0. *)
Fixpoint finishes (n : nat) (p : prog V Z) {struct p} : Prop :=
  match p with
  | Ret a => a = 0
  | Vis _ k => match n with O => False | S n => forall x, finishes n (k x) end
  end.


Context {HW : Helpers} {HM : BpfHash V} {HR : Ringbuf}.
Implicit Types cfg : list (world * prog V Z) * pstate V.

Lemma finishes_le n n' p : (n <= n')%nat -> finishes n p -> finishes n' p.
Proof using Type.
  revert n n'. induction p as [a|X o k IH]; intros [|n] [|n'] Hn; simpl; try done; [lia|].
  intros Hk x. apply (IH x n); [lia|apply Hk].
Qed.

Lemma pool_step_lookup i j cfg w p :
  cfg.1 !! j = Some (w, p) ->
  exists p', (pool_step i cfg).1 !! j = Some (w, p') /\
    forall n, finishes n p -> finishes (if decide (i = j) then pred n else n) p'.
Proof using Type.
  intros Hj. unfold pool_step. destruct (decide (i = j)) as [<-|Hij].
  - rewrite Hj. destruct p as [a|X o k].
    + by exists (Ret a).
    + eexists. simpl. rewrite list_lookup_insert_eq by (by eapply lookup_lt_Some).
      split; [done|]. intros [|n]; [done|]. simpl. intros Hk. apply Hk.
  - exists p. split; [|done]. destruct (cfg.1 !! i) as [[wi [a|X o k]]|]; [done| |done].
    simpl. by rewrite list_lookup_insert_ne.
Qed.

Lemma run_pool_steps sched cfg j w p n :
  cfg.1 !! j = Some (w, p) -> finishes n p ->
  exists p', (run_pool sched cfg).1 !! j = Some (w, p') /\
    finishes (n - count_occ Nat.eq_dec sched j) p'.
Proof using Type.
  revert cfg p n. induction sched as [|i sched IH]; intros cfg p n Hj Hn.
  { exists p. by rewrite Nat.sub_0_r. }
  destruct (pool_step_lookup i j cfg w p Hj) as (p1 & Hj1 & Hn1). apply Hn1 in Hn.
  destruct (IH _ _ _ Hj1 Hn) as (p' & Hj' & Hn'). exists p'. split; [done|].
  simpl. destruct (Nat.eq_dec i j); case_decide; try done.
  by replace (n - S _)%nat with (pred n - count_occ Nat.eq_dec sched j)%nat by lia.
Qed.

Lemma length_pool_step i cfg : length (pool_step i cfg).1 = length cfg.1.
Proof using Type.
  unfold pool_step. destruct (cfg.1 !! i) as [[w [a|X o k]]|]; simpl; [done| |done].
  apply length_insert.
Qed.

Lemma length_run_pool sched cfg : length (run_pool sched cfg).1 = length cfg.1.
Proof using Type.
  revert cfg. induction sched as [|i sched IH]; intros cfg; [done|].
  simpl. rewrite IH. apply length_pool_step.
Qed.

(** Enough steps for everyone let everyone finish. *)
Lemma pool_finishes sched cfg n :
  Forall (λ wp, finishes n wp.2) cfg.1 ->
  (forall j, (j < length cfg.1)%nat -> (n <= count_occ Nat.eq_dec sched j)%nat) ->
  Forall (λ wp, wp.2 = Ret 0) (run_pool sched cfg).1.
Proof using Type.
  intros Hn Hsched. apply Forall_lookup_2. intros j [w p'] Hj'.
  pose proof (lookup_lt_Some _ _ _ Hj') as Hlt. rewrite length_run_pool in Hlt.
  destruct (lookup_lt_is_Some_2 cfg.1 j Hlt) as [[w0 p] Hj].
  apply Forall_lookup_1 with (1 := Hn) in Hj as Hp. simpl in Hp.
  destruct (run_pool_steps sched cfg j w0 p n Hj Hp) as (p1 & Hj1 & Hn1).
  rewrite Hj1 in Hj'. injection Hj' as _ <-. specialize (Hsched j Hlt).
  replace (n - _)%nat with 0%nat in Hn1 by lia. destruct p1 as [a|X o k]; [|done].
  simpl in *. by subst.
Qed.

(** Running a program alone is one of the schedules. *)
Lemma run_alone w p c1 c2 st :
  exists n, run_pool (repeat (length c1) n) (c1 ++ (w, p) :: c2, st) =
    (c1 ++ (w, Ret (run w p st).1) :: c2, (run w p st).2).
Proof using Type.
  revert st. induction p as [a|X o k IH]; intros st; [by exists 0%nat|].
  destruct (IH (exec w o st).1 (exec w o st).2) as [n Hn]. exists (S n). cbn [run].
  rewrite <- Hn. unfold run_pool. cbn [repeat foldl]. f_equal. unfold pool_step. cbn [fst snd].
  rewrite list_lookup_middle by done. by rewrite insert_app_r_alt, Nat.sub_diag by lia.
Qed.
End steps.

(** ** Ownership *)

(** What a thread owns: its map entry (element pointer and value), the record
    it reserved, whether it may still insert and reserve; and the records it
    has submitted. *)
Record tres (V : Type) := TRes {
  tr_elem : option (Z * V);
  tr_slot : option (Z * list byte);
  tr_insert : bool;
  tr_record : bool;
  tr_out : list (list byte);
}.
Arguments TRes {V}. Arguments tr_elem {V}. Arguments tr_slot {V}. Arguments tr_insert {V}.
Arguments tr_record {V}. Arguments tr_out {V}.

Section owned.
Context {V : Type} {HW : Helpers}.
(** The size of the records of the program object. *)
Context (N : Z).
(** The memory of the map, where the pool leaves it as it is. *)
Context (frozen : option (Z -> V)).
Implicit Types r : tres V.

Definition set_elem r e : tres V := TRes e (tr_slot r) (tr_insert r) (tr_record r) (tr_out r).
Definition set_slot r s : tres V := TRes (tr_elem r) s (tr_insert r) (tr_record r) (tr_out r).

Definition owned_op (w : world) {X} (o : bpf_op V X) r : (X -> tres V -> Prop) -> Prop :=
  match o in bpf_op _ X return (X -> tres V -> Prop) -> Prop with
  | GetCurrentPidTgid => λ K, K (w_pid_tgid w) r
  | KtimeGetNs => λ K, K (w_ktime_ns w) r
  | GetCurrentComm size => λ K, K (w_comm w size) r
  | CoreRead ty base path => λ K, K (w_core_read w ty base path) r
  | ProbeReadUser n a => λ K, K (w_probe_read_user w n a) r
  | MapLookupElem k => λ K, k = w_pid_tgid w /\ K (fst <$> tr_elem r) r
  | MapUpdateElem k v flags => λ K, frozen = None /\ k = w_pid_tgid w /\ flags = BPF_ANY /\
      tr_insert r = true /\
      forall p, K 0 (TRes (Some (p, v)) (tr_slot r) false (tr_record r) (tr_out r))
  | MapDeleteElem k => λ K, k = w_pid_tgid w /\ forall x, K x (set_elem r None)
  | Load p => λ K,
      match frozen with
      | Some μ => K (μ p) r
      | None => exists v, tr_elem r = Some (p, v) /\ K v r
      end
  | Store p f => λ K, frozen = None /\ exists v, tr_elem r = Some (p, v) /\ K tt (set_elem r (Some (p, f v)))
  | RingbufReserve n flags => λ K, n = N /\ flags = 0 /\ tr_slot r = None /\ tr_record r = true /\
      forall s junk, Z.of_nat (length junk) = n ->
        K (Some s) (TRes (tr_elem r) (Some (s, junk)) (tr_insert r) false (tr_out r))
  | RingbufWrite s bs => λ K, exists d, tr_slot r = Some (s, d) /\ length bs = length d /\
      K tt (set_slot r (Some (s, bs)))
  | RingbufSubmit s flags => λ K, exists d, tr_slot r = Some (s, d) /\ flags = 0 /\
      K tt (TRes (tr_elem r) None (tr_insert r) (tr_record r) (tr_out r ++ [d]))
  end.

(** [p], run by the thread of [w] from the resources [r], keeps to what it owns
    and ends with the result and the resources [Q] allows. *)
Fixpoint owned (w : world) (p : prog V Z) r (Q : Z -> tres V -> Prop) {struct p} : Prop :=
  match p with
  | Ret a => tr_slot r = None /\ Q a r
  | Vis o k => owned_op w o r (λ x r', owned w (k x) r' Q)
  end.

(** ** What the threads of a pool own together *)

Context {HM : BpfHash V} {HR : Ringbuf}.
Context (P0 : gmap Z V) (L0 : list (list byte)).
Implicit Types rs : list (Z * tres V).
Implicit Types st : pstate V.

Definition credits (f : tres V -> bool) rs : Z :=
  Z.of_nat (sum_list_with (λ tr : Z * tres V, if f tr.2 then 1 else 0)%nat rs).

Definition frozen_mem (m : hmap) : Prop :=
  match frozen with Some μ => forall p, hm_load p m = μ p | None => True end.

Record map_inv rs (m : hmap) : Prop := {
  mi_wf : hm_wf m;
  mi_frozen : frozen_mem m;
  mi_elem t r : (t, r) ∈ rs ->
    hm_lookup t m = fst <$> tr_elem r /\ hm_abs m !! t = snd <$> tr_elem r;
  mi_frame k : k ∉ rs.*1 -> hm_abs m !! k = P0 !! k;
  mi_room : Z.of_nat (size (hm_abs m)) + credits tr_insert rs <= hm_max_entries;
}.

Definition held (sd : Z * list byte) : rrec := RRec sd.1 sd.2 false.

Definition slots rs : list rrec := held <$> omap (λ tr : Z * tres V, tr_slot tr.2) rs.
Definition outs rs : list (list byte) := concat ((λ tr : Z * tres V, tr_out tr.2) <$> rs).

Record ring_inv rs (b : ringbuf) : Prop := {
  ri_wf : rb_wf b;
  ri_view : exists rdy, rb_view b ≡ₚ slots rs ++ rdy /\
    Forall (λ x : rrec, rr_ready x = true) rdy /\ rr_data <$> rdy ≡ₚ L0 ++ outs rs;
  ri_room : ring_used (rr_data <$> rb_view b) + ring_len N * credits tr_record rs < rb_size;
}.

Lemma credits_middle f rs1 rs2 t r :
  credits f (rs1 ++ (t, r) :: rs2) = credits f (rs1 ++ rs2) + (if f r then 1 else 0).
Proof using Type.
  unfold credits. rewrite !sum_list_with_app. simpl. destruct (f r); lia.
Qed.

Lemma credits_nonneg f rs : 0 <= credits f rs.
Proof using Type. unfold credits. lia. Qed.

Lemma slots_middle rs1 rs2 t r :
  slots (rs1 ++ (t, r) :: rs2) ≡ₚ
    (match tr_slot r with Some sd => [held sd] | None => [] end) ++ slots (rs1 ++ rs2).
Proof using Type.
  unfold slots. rewrite !omap_app. simpl. destruct (tr_slot r) as [sd|]; [|done].
  rewrite !fmap_app. simpl. by rewrite Permutation_middle.
Qed.

Lemma outs_middle rs1 rs2 t r : outs (rs1 ++ (t, r) :: rs2) ≡ₚ tr_out r ++ outs (rs1 ++ rs2).
Proof using Type.
  unfold outs. rewrite !fmap_app, !concat_app. simpl.
  by rewrite !app_assoc, (Permutation_app_comm (concat _) (tr_out r)).
Qed.

(** *** Map operations of the thread [t] *)

Lemma others_differ rs1 rs2 t r t' r' :
  NoDup (rs1 ++ (t, r) :: rs2).*1 -> (t', r') ∈ rs1 ++ rs2 -> t' <> t.
Proof using Type.
  rewrite fmap_app. intros Hnd Hin ->.
  apply (list_elem_of_fmap_2 fst) in Hin. rewrite fmap_app in Hin.
  apply NoDup_app in Hnd as (_ & Hd & Hnd). apply NoDup_cons in Hnd as [Hn _].
  apply elem_of_app in Hin as [Hin|Hin]; [|done]. apply (Hd _ Hin). by left.
Qed.

Lemma elem_of_middle {A} (x y : A) l1 l2 : x ∈ l1 ++ y :: l2 <-> x = y \/ x ∈ l1 ++ l2.
Proof using Type. rewrite !elem_of_app, elem_of_cons. tauto. Qed.

Lemma keys_middle rs1 rs2 t (r r' : tres V) :
  (rs1 ++ (t, r) :: rs2).*1 = (rs1 ++ (t, r') :: rs2).*1.
Proof using Type. by rewrite !fmap_app. Qed.

(** What changes the thread's own entry only. *)
Lemma map_inv_own rs1 rs2 t r r' m m' :
  NoDup (rs1 ++ (t, r) :: rs2).*1 -> map_inv (rs1 ++ (t, r) :: rs2) m -> hm_wf m' ->
  frozen_mem m' ->
  (forall k, k <> t -> hm_lookup k m' = hm_lookup k m /\ hm_abs m' !! k = hm_abs m !! k) ->
  hm_lookup t m' = fst <$> tr_elem r' -> hm_abs m' !! t = snd <$> tr_elem r' ->
  Z.of_nat (size (hm_abs m')) + (if tr_insert r' then 1 else 0) <=
    Z.of_nat (size (hm_abs m)) + (if tr_insert r then 1 else 0) ->
  map_inv (rs1 ++ (t, r') :: rs2) m'.
Proof using Type.
  intros Hnd [Hm Hfr He Hf Hroom] Hm' Hfr' Ho Hl Ha Hs. split; [done|done|..].
  - intros t0 r0 [[= -> ->]|Hin]%elem_of_middle; [done|].
    destruct (Ho t0) as [-> ->]; [by eapply others_differ|]. apply He, elem_of_middle. by right.
  - intros k Hk. rewrite (keys_middle _ _ _ r' r) in Hk. rewrite <- (Hf k Hk). apply Ho. intros ->.
    apply Hk. rewrite fmap_app. apply elem_of_app. right. by left.
  - rewrite credits_middle in *. lia.
Qed.

Lemma map_inv_thread rs1 rs2 t r m :
  map_inv (rs1 ++ (t, r) :: rs2) m ->
  hm_lookup t m = fst <$> tr_elem r /\ hm_abs m !! t = snd <$> tr_elem r.
Proof using Type. intros Hi. apply (mi_elem _ _ Hi), elem_of_middle. by left. Qed.

Lemma map_inv_same rs1 rs2 t r r' m :
  map_inv (rs1 ++ (t, r) :: rs2) m -> tr_elem r' = tr_elem r -> tr_insert r' = tr_insert r ->
  map_inv (rs1 ++ (t, r') :: rs2) m.
Proof using Type.
  intros [Hm Hfr He Hf Hroom] He' Hi'. split; [done|done|..].
  - intros t0 r0 [[= -> ->]|Hin]%elem_of_middle.
    + rewrite He'. apply He, elem_of_middle. by left.
    + apply He, elem_of_middle. by right.
  - intros k. rewrite (keys_middle _ _ _ r' r). apply Hf.
  - rewrite credits_middle in *. by rewrite Hi'.
Qed.

Lemma map_inv_update rs1 rs2 t r v m :
  NoDup (rs1 ++ (t, r) :: rs2).*1 -> map_inv (rs1 ++ (t, r) :: rs2) m -> frozen = None ->
  tr_insert r = true ->
  (hm_update t v BPF_ANY m).1 = 0 /\
  exists p, map_inv (rs1 ++ (t, TRes (Some (p, v)) (tr_slot r) false (tr_record r) (tr_out r)) :: rs2)
    (hm_update t v BPF_ANY m).2.
Proof using Type.
  intros Hnd Hi Hfr Hins. pose proof (mi_wf _ _ Hi) as Hm. pose proof (mi_room _ _ Hi) as Hroom.
  rewrite credits_middle, Hins in Hroom. pose proof (credits_nonneg tr_insert (rs1 ++ rs2)).
  assert ((hm_update t v BPF_ANY m).1 = 0) as H0 by (apply hm_update_room; [done|right; lia]).
  split; [done|]. destruct (hm_update_abs m t v Hm) as [[_ Ha]|[? _]]; [|lia].
  assert (hm_wf (hm_update t v BPF_ANY m).2) as Hm' by by apply hm_update_wf.
  pose proof (hm_lookup_abs _ t Hm') as Hl. rewrite Ha, lookup_insert_eq in Hl.
  destruct (hm_lookup t (hm_update t v BPF_ANY m).2) as [p|] eqn:Hp; [|done]. exists p.
  eapply map_inv_own; [done..| | | | |].
  - unfold frozen_mem. by rewrite Hfr.
  - intros k Hk. rewrite hm_update_other, Ha, lookup_insert_ne by done. done.
  - done.
  - by rewrite Ha, lookup_insert_eq.
  - simpl. rewrite Ha, Hins, map_size_insert. destruct (hm_abs m !! t); simpl; lia.
Qed.

Lemma map_inv_delete rs1 rs2 t r m :
  NoDup (rs1 ++ (t, r) :: rs2).*1 -> map_inv (rs1 ++ (t, r) :: rs2) m ->
  map_inv (rs1 ++ (t, set_elem r None) :: rs2) (hm_delete t m).2.
Proof using Type.
  intros Hnd Hi. pose proof (mi_wf _ _ Hi) as Hm.
  assert (hm_wf (hm_delete t m).2) as Hm' by by apply hm_delete_wf.
  assert (hm_abs (hm_delete t m).2 = delete t (hm_abs m)) as Ha by by apply hm_delete_abs.
  eapply map_inv_own; [done..| | | | |].
  - pose proof (mi_frozen _ _ Hi) as Hfr. unfold frozen_mem in *. destruct frozen as [μ|]; [|done].
    intros p. rewrite hm_delete_load by done. apply Hfr.
  - intros k Hk. rewrite hm_delete_other, Ha, lookup_delete_ne by done. done.
  - simpl. apply hm_lookup_none; [done|]. by rewrite Ha, lookup_delete_eq.
  - simpl. by rewrite Ha, lookup_delete_eq.
  - simpl. rewrite Ha, map_size_delete. destruct (hm_abs m !! t); simpl; lia.
Qed.

Lemma map_inv_load rs1 rs2 t r m p v :
  map_inv (rs1 ++ (t, r) :: rs2) m -> tr_elem r = Some (p, v) ->
  hm_lookup t m = Some p /\ hm_load p m = v.
Proof using Type.
  intros Hi He. destruct (map_inv_thread _ _ _ _ _ Hi) as [Hl Ha]. rewrite He in Hl, Ha. simpl in *.
  split; [done|]. by apply (hm_lookup_load m t p v (mi_wf _ _ Hi)).
Qed.

Lemma map_inv_store rs1 rs2 t r m p v v' :
  NoDup (rs1 ++ (t, r) :: rs2).*1 -> map_inv (rs1 ++ (t, r) :: rs2) m -> frozen = None ->
  tr_elem r = Some (p, v) ->
  map_inv (rs1 ++ (t, set_elem r (Some (p, v'))) :: rs2) (hm_store p v' m).
Proof using Type.
  intros Hnd Hi Hfr He. destruct (map_inv_load _ _ _ _ _ _ _ Hi He) as [Hl Hv].
  pose proof (mi_wf _ _ Hi) as Hm. destruct (map_inv_thread _ _ _ _ _ Hi) as [_ Ha].
  rewrite He in Ha. simpl in Ha.
  eapply map_inv_own; [done..| | | | | |].
  - by eapply hm_store_wf.
  - unfold frozen_mem. by rewrite Hfr.
  - intros k Hk. rewrite hm_store_lookup, (hm_store_abs _ t), lookup_insert_ne by done. done.
  - by rewrite hm_store_lookup.
  - rewrite (hm_store_abs _ t) by done. apply lookup_insert_eq.
  - simpl. rewrite (hm_store_abs _ t), map_size_insert, Ha by done. simpl. lia.
Qed.

(** *** Ring buffer operations of the thread [t] *)

Lemma ring_used_app l1 l2 : ring_used (l1 ++ l2) = ring_used l1 + ring_used l2.
Proof using Type. induction l1 as [|x l1 IH]; simpl; [done|]. rewrite IH. lia. Qed.

Lemma ring_inv_same rs1 rs2 t r r' b :
  ring_inv (rs1 ++ (t, r) :: rs2) b -> tr_slot r' = tr_slot r -> tr_record r' = tr_record r ->
  tr_out r' = tr_out r -> ring_inv (rs1 ++ (t, r') :: rs2) b.
Proof using Type.
  intros [Hb (rdy & Hv & Hr & Ho) Hroom] Hs Hc Hout. split; [done| |].
  - exists rdy. by rewrite slots_middle, Hs, <- slots_middle, outs_middle, Hout, <- outs_middle.
  - rewrite credits_middle in *. by rewrite Hc.
Qed.

Lemma ring_inv_reserve rs1 rs2 t r b :
  ring_inv (rs1 ++ (t, r) :: rs2) b -> 0 <= N -> tr_slot r = None -> tr_record r = true ->
  exists s b' junk, rb_reserve N 0 b = Some (s, b') /\ Z.of_nat (length junk) = N /\
    ring_inv (rs1 ++ (t, TRes (tr_elem r) (Some (s, junk)) (tr_insert r) false (tr_out r)) :: rs2) b'.
Proof using Type.
  intros [Hb (rdy & Hv & Hr & Ho) Hroom] HN Hs Hc. rewrite credits_middle, Hc in Hroom.
  pose proof (credits_nonneg tr_record (rs1 ++ rs2)). pose proof (ring_len_nonneg N HN).
  destruct (rb_reserve_room b N Hb HN) as [[s b'] Hres]; [nia|].
  destruct (rb_reserve_some _ _ _ _ Hb HN Hres) as (Hb' & junk & Hj & Hv').
  exists s, b', junk. split_and!; [done..|]. split; [done| |].
  - exists rdy. rewrite outs_middle, <- (outs_middle rs1 rs2 t r). split_and!; [|done..].
    rewrite Hv', slots_middle, Hv, slots_middle, Hs. simpl.
    by rewrite (Permutation_app_comm _ [_]).
  - rewrite Hv', fmap_app, ring_used_app, credits_middle. simpl. rewrite Hj. lia.
Qed.

(** A record that the thread holds is in the ring, between others. *)
Lemma ring_inv_held rs1 rs2 t r b s d :
  ring_inv (rs1 ++ (t, r) :: rs2) b -> tr_slot r = Some (s, d) ->
  exists v1 v2 rdy, rb_view b = v1 ++ RRec s d false :: v2 /\
    v1 ++ v2 ≡ₚ slots (rs1 ++ rs2) ++ rdy /\ Forall (λ x, rr_ready x = true) rdy /\
    rr_data <$> rdy ≡ₚ L0 ++ tr_out r ++ outs (rs1 ++ rs2).
Proof using Type.
  intros [Hb (rdy & Hv & Hr & Ho) Hroom] Hs. rewrite slots_middle, Hs in Hv. simpl in Hv.
  assert (RRec s d false ∈ rb_view b) as (v1 & v2 & Hsplit)%list_elem_of_split
    by (rewrite Hv; by left).
  exists v1, v2, rdy. rewrite outs_middle in Ho. split_and!; try done.
  rewrite Hsplit in Hv. change (held (s, d)) with (RRec s d false) in Hv.
  apply (Permutation_cons_inv (a := RRec s d false)). by rewrite Permutation_middle.
Qed.

Lemma ring_inv_write rs1 rs2 t r b s d bs :
  ring_inv (rs1 ++ (t, r) :: rs2) b -> tr_slot r = Some (s, d) -> length bs = length d ->
  ring_inv (rs1 ++ (t, set_slot r (Some (s, bs))) :: rs2) (rb_write s bs b).
Proof using Type.
  intros Hi Hs Hlen. destruct (ring_inv_held _ _ _ _ _ _ _ Hi Hs) as (v1 & v2 & rdy & Hv & Hp & Hr & Ho).
  destruct (rb_write_spec b s v1 v2 d bs (ri_wf _ _ Hi) Hv Hlen) as [Hb' Hv'].
  pose proof (ri_room _ _ Hi) as Hroom. split; [done| |].
  - exists rdy. rewrite Hv', slots_middle, outs_middle. split_and!; [|done..]. simpl.
    by rewrite <- Permutation_middle, Hp.
  - rewrite credits_middle in *. rewrite Hv in Hroom. rewrite Hv'.
    rewrite fmap_app, ring_used_app in *. simpl in *. rewrite Hlen. lia.
Qed.

Lemma ring_inv_submit rs1 rs2 t r b s d :
  ring_inv (rs1 ++ (t, r) :: rs2) b -> tr_slot r = Some (s, d) ->
  ring_inv (rs1 ++ (t, TRes (tr_elem r) None (tr_insert r) (tr_record r) (tr_out r ++ [d])) :: rs2)
    (rb_submit s 0 b).
Proof using Type.
  intros Hi Hs. destruct (ring_inv_held _ _ _ _ _ _ _ Hi Hs) as (v1 & v2 & rdy & Hv & Hp & Hr & Ho).
  destruct (rb_submit_spec b s v1 v2 d (ri_wf _ _ Hi) Hv) as [Hb' Hv'].
  pose proof (ri_room _ _ Hi) as Hroom. split; [done| |].
  - exists (RRec s d true :: rdy). rewrite Hv', slots_middle, outs_middle. split_and!.
    + simpl. rewrite <- Permutation_middle, Hp. by rewrite Permutation_middle.
    + by constructor.
    + simpl. rewrite Ho. by rewrite <- !app_assoc, !Permutation_middle.
  - rewrite credits_middle in *. rewrite Hv in Hroom. rewrite Hv'.
    rewrite fmap_app, ring_used_app in *. simpl in *. lia.
Qed.

(** ** Soundness *)

Definition pool_inv rs st : Prop := map_inv rs (ps_map st) /\ ring_inv rs (ps_ring st).

Lemma owned_op_sound rs1 rs2 w r st {X} (o : bpf_op V X) K :
  0 <= N -> NoDup (rs1 ++ (w_pid_tgid w, r) :: rs2).*1 ->
  pool_inv (rs1 ++ (w_pid_tgid w, r) :: rs2) st -> owned_op w o r K ->
  exists r', K (exec w o st).1 r' /\
    pool_inv (rs1 ++ (w_pid_tgid w, r') :: rs2) (exec w o st).2.
Proof using Type.
  intros HN Hnd [Hm Hr]. destruct o; simpl; intros HK; try by exists r.
  - destruct HK as [-> HK]. exists r. by rewrite (proj1 (map_inv_thread _ _ _ _ _ Hm)).
  - destruct HK as (Hfr & -> & -> & Hins & HK).
    destruct (map_inv_update _ _ _ _ v _ Hnd Hm Hfr Hins) as (-> & p & Hm').
    eexists. split; [apply (HK p)|]. split; [done|]. by eapply ring_inv_same.
  - destruct HK as [-> HK]. eexists. split; [apply HK|]. split; [by apply map_inv_delete|].
    by eapply ring_inv_same.
  - pose proof (mi_frozen _ _ Hm) as Hfr. unfold frozen_mem in Hfr. destruct frozen as [μ|].
    + exists r. by rewrite Hfr.
    + destruct HK as (v & He & HK). exists r. by rewrite (proj2 (map_inv_load _ _ _ _ _ _ _ Hm He)).
  - destruct HK as (Hfr & v & He & HK). eexists. split; [apply HK|].
    rewrite (proj2 (map_inv_load _ _ _ _ _ _ _ Hm He)).
    split; [by eapply map_inv_store|by eapply ring_inv_same].
  - destruct HK as (-> & -> & Hs & Hc & HK).
    destruct (ring_inv_reserve _ _ _ _ _ Hr HN Hs Hc) as (s & b' & junk & -> & Hj & Hr').
    eexists. split; [by apply (HK s junk)|]. split; [|done]. by eapply map_inv_same.
  - destruct HK as (d & Hs & Hlen & HK). eexists. split; [apply HK|].
    split; [by eapply map_inv_same|by eapply ring_inv_write].
  - destruct HK as (d & Hs & -> & HK). eexists. split; [apply HK|].
    split; [by eapply map_inv_same|by eapply ring_inv_submit].
Qed.

(** A thread of the pool: what it sees, what is left of its program, what it
    owns, and what it is to end with. *)
Record thread := Thread {
  th_world : world;
  th_prog : prog V Z;
  th_res : tres V;
  th_post : Z -> tres V -> Prop;
}.

Definition th_ok (th : thread) : Prop := owned (th_world th) (th_prog th) (th_res th) (th_post th).
Definition th_key (th : thread) : Z := w_pid_tgid (th_world th).
Definition code (ths : list thread) : list (world * prog V Z) := (λ th, (th_world th, th_prog th)) <$> ths.
Definition res (ths : list thread) : list (Z * tres V) := (λ th, (th_key th, th_res th)) <$> ths.

(** The same thread, further on. *)
Definition continues (th th' : thread) : Prop :=
  th_world th' = th_world th /\ th_post th' = th_post th.

Lemma res_keys ths : (res ths).*1 = th_key <$> ths.
Proof using Type. unfold res. by rewrite <- list_fmap_compose. Qed.

Lemma continues_keys ths ths' : Forall2 continues ths ths' -> th_key <$> ths' = th_key <$> ths.
Proof using Type.
  induction 1 as [|th th' ths ths' [Hw _] _ IH]; [done|]. rewrite !fmap_cons, IH.
  unfold th_key at 1 3. by rewrite Hw.
Qed.

Lemma continues_refl ths : Forall2 continues ths ths.
Proof using Type. by induction ths; constructor. Qed.

Lemma pool_step_sound i ths st :
  0 <= N -> NoDup (th_key <$> ths) -> Forall th_ok ths -> pool_inv (res ths) st ->
  exists ths', (pool_step i (code ths, st)).1 = code ths' /\ Forall2 continues ths ths' /\
    Forall th_ok ths' /\ pool_inv (res ths') (pool_step i (code ths, st)).2.
Proof using Type.
  intros HN Hnd Hok Hinv. unfold pool_step. cbn [fst snd].
  replace (code ths !! i) with ((λ th, (th_world th, th_prog th)) <$> ths !! i)
    by (symmetry; apply list_lookup_fmap).
  destruct (ths !! i) as [[w p r Q]|] eqn:Hi; simpl.
  2: { exists ths. split_and!; [done|apply continues_refl|done..]. }
  destruct p as [a|X o k]; simpl.
  { exists ths. split_and!; [done|apply continues_refl|done..]. }
  apply list_elem_of_split_length in Hi as (l1 & l2 & -> & ->).
  apply Forall_app in Hok as [Hok1 [Hok Hok2]%Forall_cons]. unfold th_ok in Hok. simpl in Hok.
  rewrite <- res_keys in Hnd. unfold res in Hnd, Hinv. rewrite fmap_app, fmap_cons in Hnd, Hinv.
  destruct (owned_op_sound _ _ w r st o _ HN Hnd Hinv Hok) as (r' & Hk & Hinv').
  exists (l1 ++ Thread w (k (exec w o st).1) r' Q :: l2). split_and!.
  - unfold code. rewrite !fmap_app, insert_app_r_alt, length_fmap, Nat.sub_diag by (by rewrite length_fmap).
    done.
  - apply Forall2_app; [apply continues_refl|]. constructor; [done|apply continues_refl].
  - apply Forall_app_2; [done|]. by constructor.
  - unfold res. by rewrite fmap_app, fmap_cons.
Qed.

Lemma continues_trans ths1 ths2 ths3 :
  Forall2 continues ths1 ths2 -> Forall2 continues ths2 ths3 -> Forall2 continues ths1 ths3.
Proof using Type.
  intros H. revert ths3. induction H as [|a b ths1 ths2 [Ha Hb] _ IH]; intros ths3;
    inversion 1 as [|b' c l l' [Hc Hd]]; subst; constructor; [|by apply IH]. split; congruence.
Qed.

Lemma pool_sound sched ths st :
  0 <= N -> NoDup (th_key <$> ths) -> Forall th_ok ths -> pool_inv (res ths) st ->
  exists ths', (run_pool sched (code ths, st)).1 = code ths' /\ Forall2 continues ths ths' /\
    Forall th_ok ths' /\ pool_inv (res ths') (run_pool sched (code ths, st)).2.
Proof using Type.
  revert ths st. induction sched as [|i sched IH]; intros ths st HN Hnd Hok Hinv.
  { exists ths. split_and!; [done|apply continues_refl|done..]. }
  destruct (pool_step_sound i ths st HN Hnd Hok Hinv) as (ths1 & Hc1 & Hs1 & Hok1 & Hinv1).
  unfold run_pool. cbn [foldl]. destruct (pool_step i (code ths, st)) as [c1 st1]. cbn [fst snd] in *. subst c1.
  rewrite <- (continues_keys _ _ Hs1) in Hnd.
  destruct (IH ths1 st1 HN Hnd Hok1 Hinv1) as (ths' & ? & ? & ? & ?).
  exists ths'. split_and!; try done. by eapply continues_trans.
Qed.

(** Nothing is reserved any more once all the programs have returned. *)
Lemma slots_finished ths :
  Forall (λ wp, exists a, wp.2 = Ret a) (code ths) -> Forall th_ok ths -> slots (res ths) = [].
Proof using Type.
  induction ths as [|[w p r Q] ths IH]; [done|]. intros [[a Ha] Hf]%Forall_cons [Hok Hoks]%Forall_cons.
  simpl in Ha. subst p. destruct Hok as [Hs _]. simpl in Hs.
  unfold slots, res in *. simpl. rewrite Hs. by apply IH.
Qed.
End owned.
