(* ===== verification/Verifier.v ===== *)
(** * A verifier for BPF programs

    The kernel loads a program only after its verifier has accepted it.
    [verified n p c] is that discipline for [prog]: with at most [n] helper
    calls and memory accesses left, and knowing [c] of the pointers and the
    reservation it holds, [p] reads only members that the kernel types have,
    follows an element pointer only after a lookup returned one, stores only
    well-formed values, writes a ring buffer record with exactly the bytes it
    reserved, and submits it before it returns 0.  As in the kernel, an element
    may still be read after it was deleted; it may not be written, and no
    insertion may happen while a pointer is held. *)

From S2P Require Import Prelude Bytes CLayout CObject Vmlinux Common Bpf BpfRef ProbeObject TcpTracker DnsMapper HttpInspector DbProbe.

#[local] Set Warnings "-clear-no-such-hyp".
#[local] Open Scope string_scope.
#[local] Open Scope list_scope.
#[local] Open Scope Z_scope.

(** ** The discipline *)

(** What a program holds: the live element it looked up (key and pointer), the
    elements it deleted since, the record it reserved (slot and size). *)
Record vctx := VCtx {
  vc_elem : option (Z * Z);
  vc_stale : list Z;
  vc_slot : option (Z * Z);
}.

Definition vc_empty : vctx := VCtx None [] None.

Definition vc_release (k : Z) (c : vctx) : vctx :=
  match vc_elem c with
  | Some (k', p) => if decide (k = k') then VCtx None (p :: vc_stale c) (vc_slot c) else c
  | None => c
  end.

Section discipline.
Context {V : Type} (val_ok : V -> Prop).

Definition readable (c : vctx) (p : Z) : Prop := snd <$> vc_elem c = Some p \/ p ∈ vc_stale c.

(** One operation: its side conditions, and what its result may be. *)
Definition check {X} (o : bpf_op V X) (c : vctx) : (X -> vctx -> Prop) -> Prop :=
  match o in bpf_op _ X return (X -> vctx -> Prop) -> Prop with
  | GetCurrentPidTgid | KtimeGetNs => λ K, forall x, in_range 64 x -> K x c
  | GetCurrentComm size => λ K, forall bs, length bs = size -> K bs c
  | CoreRead ty _ path => λ K, exists off n,
      object_at vmlinux (CName ty) path = Some (off, n) /\ n ∈ [1; 2; 4; 8] /\
      forall x, in_range (8 * n) x -> K x c
  | ProbeReadUser n _ => λ K, forall e bs, length bs = n -> K (e, bs) c
  | MapLookupElem k => λ K, vc_elem c = None /\ K None c /\
      forall p, K (Some p) (VCtx (Some (k, p)) (vc_stale c) (vc_slot c))
  | MapUpdateElem _ v flags => λ K,
      flags = BPF_ANY /\ val_ok v /\ vc_elem c = None /\ vc_stale c = [] /\ forall r, K r c
  | MapDeleteElem k => λ K, forall r, K r (vc_release k c)
  | Load p => λ K, readable c p /\ forall v, val_ok v -> K v c
  | Store p f => λ K,
      snd <$> vc_elem c = Some p /\ vc_stale c = [] /\ (forall v, val_ok v -> val_ok (f v)) /\ K tt c
  | RingbufReserve n flags => λ K, vc_slot c = None /\ flags = 0 /\ 0 <= n /\ K None c /\
      forall s, K (Some s) (VCtx (vc_elem c) (vc_stale c) (Some (s, n)))
  | RingbufWrite s bs => λ K, vc_slot c = Some (s, Z.of_nat (length bs)) /\ K tt c
  | RingbufSubmit s flags => λ K, fst <$> vc_slot c = Some s /\ flags = 0 /\
      K tt (VCtx (vc_elem c) (vc_stale c) None)
  end.

Fixpoint verified (n : nat) (p : prog V Z) (c : vctx) {struct p} : Prop :=
  match p with
  | Ret a => a = 0 /\ vc_slot c = None
  | Vis o k =>
      match n with
      | O => False
      | S n => check o c (λ x c', verified n (k x) c')
      end
  end.

Lemma check_mono {X} (o : bpf_op V X) c (K K' : X -> vctx -> Prop) :
  (forall x c', K x c' -> K' x c') -> check o c K -> check o c K'.
Proof using Type. intros HK. destruct o; simpl; naive_solver. Qed.

Lemma verified_le n n' p c : (n <= n')%nat -> verified n p c -> verified n' p c.
Proof using Type.
  revert n n' c. induction p as [a|X o k IH]; intros [|n] [|n'] c Hn; simpl; try done; [lia|].
  apply check_mono. intros x c'. apply IH. lia.
Qed.

(** ** What it guarantees *)

Section soundness.
Context {HW : Helpers} {HM : BpfHash V} {HR : Ringbuf}.
Implicit Types st : pstate V.

(** The state is as the context describes it. *)
Record ctx_ok (c : vctx) st : Prop := {
  ck_wf : ps_wf st;
  ck_vals : map_Forall (λ _, val_ok) (hm_abs (ps_map st));
  ck_elem k p : vc_elem c = Some (k, p) -> hm_lookup k (ps_map st) = Some p;
  ck_stale p : p ∈ vc_stale c -> val_ok (hm_load p (ps_map st));
  ck_slot :
    match vc_slot c with
    | None => settled st
    | Some (s, n) => exists l d, rb_view (ps_ring st) = l ++ [RRec s d false] /\
        Forall (λ r, rr_ready r = true) l /\ Z.of_nat (length d) = n
    end;
}.

Lemma ctx_elem_val c st k p :
  ctx_ok c st -> vc_elem c = Some (k, p) ->
  hm_lookup k (ps_map st) = Some p /\ hm_abs (ps_map st) !! k = Some (hm_load p (ps_map st)) /\
  val_ok (hm_load p (ps_map st)).
Proof using Type.
  intros [[Hm _] Hv He _ _] Hc. specialize (He _ _ Hc).
  assert (hm_abs (ps_map st) !! k = Some (hm_load p (ps_map st))) as Hk
    by (by rewrite hm_lookup_abs, He).
  split_and!; [done..|]. by apply (Hv k).
Qed.

Lemma ctx_readable c st p : ctx_ok c st -> readable c p -> val_ok (hm_load p (ps_map st)).
Proof using Type.
  intros Hc [Hp|Hp]; [|by apply (ck_stale _ _ Hc)].
  destruct (vc_elem c) as [[k q]|] eqn:He; [|done]. injection Hp as ->.
  by destruct (ctx_elem_val _ _ _ _ Hc He) as (_ & _ & ?).
Qed.

(** Operations on the map leave the ring alone, and the other way round. *)
Lemma ctx_with_map c c' st m :
  ctx_ok c st -> vc_slot c' = vc_slot c -> hm_wf m -> map_Forall (λ _, val_ok) (hm_abs m) ->
  (forall k p, vc_elem c' = Some (k, p) -> hm_lookup k m = Some p) ->
  (forall p, p ∈ vc_stale c' -> val_ok (hm_load p m)) ->
  ctx_ok c' (with_map st m).
Proof using Type. intros [[_ Hr] _ _ _ Hs] Hslot Hm Hv He Hp. split; try done. by rewrite Hslot. Qed.

Lemma ctx_with_ring c st r slot :
  ctx_ok c st -> rb_wf r ->
  match slot with
  | None => settled (with_ring st r)
  | Some (s, n) => exists l d, rb_view r = l ++ [RRec s d false] /\
      Forall (λ r, rr_ready r = true) l /\ Z.of_nat (length d) = n
  end ->
  ctx_ok (VCtx (vc_elem c) (vc_stale c) slot) (with_ring st r).
Proof using Type. by intros [[Hm _] Hv He Hp _] Hr Hs. Qed.

Lemma probe_read_user_length w n a : length (w_probe_read_user w n a).2 = n.
Proof using Type.
  destruct (read_mem (w_umem w) a n) as [bs|] eqn:Hm.
  - rewrite (probe_read_user_ok _ _ _ _ Hm). by apply read_mem_length in Hm.
  - destruct (probe_read_user_fault _ _ _ Hm) as (e & _ & ->). apply repeat_length.
Qed.

Lemma delete_ok c st k :
  ctx_ok c st -> ctx_ok (vc_release k c) (with_map st (hm_delete k (ps_map st)).2).
Proof using Type.
  intros Hc. pose proof (ck_wf _ _ Hc) as [Hm _]. unfold vc_release.
  assert (hm_wf (hm_delete k (ps_map st)).2) as Hm' by by apply hm_delete_wf.
  assert (map_Forall (λ _, val_ok) (hm_abs (hm_delete k (ps_map st)).2)) as Hv'.
  { rewrite hm_delete_abs by done. by apply map_Forall_delete, (ck_vals _ _ Hc). }
  assert (forall p, p ∈ vc_stale c -> val_ok (hm_load p (hm_delete k (ps_map st)).2)) as Hp'.
  { intros p Hp. rewrite hm_delete_load by done. by apply (ck_stale _ _ Hc). }
  destruct (vc_elem c) as [[k' q]|] eqn:He; [case_decide as Hk|].
  - apply (ctx_with_map c); try done. simpl. intros p [->|Hp]%elem_of_cons; [|by apply Hp'].
    rewrite hm_delete_load by done. by destruct (ctx_elem_val _ _ _ _ Hc He) as (_ & _ & ?).
  - apply (ctx_with_map c); try done. intros k0 p [= <- <-]%(eq_trans (eq_sym He)).
    rewrite hm_delete_other by done. by apply (ck_elem _ _ Hc).
  - apply (ctx_with_map c); try done. by rewrite He.
Qed.

Lemma store_ok c st p f :
  ctx_ok c st -> snd <$> vc_elem c = Some p -> vc_stale c = [] ->
  (forall v, val_ok v -> val_ok (f v)) ->
  ctx_ok c (with_map st (hm_store p (f (hm_load p (ps_map st))) (ps_map st))).
Proof using Type.
  intros Hc Hp Hst Hf. pose proof (ck_wf _ _ Hc) as [Hm _].
  destruct (vc_elem c) as [[k q]|] eqn:He; [|done]. injection Hp as ->.
  destruct (ctx_elem_val _ _ _ _ Hc He) as (Hl & _ & Hv).
  apply (ctx_with_map c); try done.
  - by eapply hm_store_wf.
  - erewrite hm_store_abs by done. apply map_Forall_insert_2; [by apply Hf|apply (ck_vals _ _ Hc)].
  - intros k0 p0 [= <- <-]%(eq_trans (eq_sym He)). by rewrite hm_store_lookup.
  - intros p0. rewrite Hst. by intros ?%elem_of_nil.
Qed.

Lemma update_ok c st k v :
  ctx_ok c st -> val_ok v -> vc_elem c = None -> vc_stale c = [] ->
  ctx_ok c (with_map st (hm_update k v BPF_ANY (ps_map st)).2).
Proof using Type.
  intros Hc Hv He Hst. pose proof (ck_wf _ _ Hc) as [Hm _]. apply (ctx_with_map c); try done.
  - by apply hm_update_wf.
  - destruct (hm_update_abs (ps_map st) k v Hm) as [[_ ->]|[_ ->]]; [|apply (ck_vals _ _ Hc)].
    apply map_Forall_insert_2; [done|apply (ck_vals _ _ Hc)].
  - by rewrite He.
  - intros p. rewrite Hst. by intros ?%elem_of_nil.
Qed.

Lemma reserve_ok c st n s r :
  ctx_ok c st -> vc_slot c = None -> 0 <= n -> rb_reserve n 0 (ps_ring st) = Some (s, r) ->
  ctx_ok (VCtx (vc_elem c) (vc_stale c) (Some (s, n))) (with_ring st r).
Proof using Type.
  intros Hc Hs Hn Hres. pose proof (ck_wf _ _ Hc) as [_ Hr]. pose proof (ck_slot _ _ Hc) as Hset.
  rewrite Hs in Hset. destruct (rb_reserve_some _ _ _ _ Hr Hn Hres) as (Hr' & junk & Hj & Hv).
  apply ctx_with_ring; [done..|]. by exists (rb_view (ps_ring st)), junk.
Qed.

Lemma write_ok c st s bs :
  ctx_ok c st -> vc_slot c = Some (s, Z.of_nat (length bs)) ->
  ctx_ok c (with_ring st (rb_write s bs (ps_ring st))).
Proof using Type.
  intros Hc Hs. pose proof (ck_wf _ _ Hc) as [_ Hr]. pose proof (ck_slot _ _ Hc) as Hsl.
  rewrite Hs in Hsl. destruct Hsl as (l & d & Hv & Hl & Hd).
  destruct (rb_write_spec _ s l [] d bs Hr Hv ltac:(lia)) as [Hr' Hv'].
  destruct c as [el stl sl]. simpl in Hs. subst sl.
  apply (ctx_with_ring (VCtx el stl (Some (s, Z.of_nat (length bs)))) st _ (Some (s, Z.of_nat (length bs))));
    [done..|]. by exists l, bs.
Qed.

Lemma submit_ok c st s :
  ctx_ok c st -> fst <$> vc_slot c = Some s ->
  ctx_ok (VCtx (vc_elem c) (vc_stale c) None) (with_ring st (rb_submit s 0 (ps_ring st))).
Proof using Type.
  intros Hc Hs. pose proof (ck_wf _ _ Hc) as [_ Hr]. pose proof (ck_slot _ _ Hc) as Hsl.
  destruct (vc_slot c) as [[s' n]|]; [|done]. injection Hs as ->.
  destruct Hsl as (l & d & Hv & Hl & Hd). destruct (rb_submit_spec _ s l [] d Hr Hv) as [Hr' Hv'].
  apply ctx_with_ring; [done..|]. unfold settled. simpl. rewrite Hv'.
  by apply Forall_app_2; [|repeat constructor].
Qed.

Lemma lookup_ok c st k p :
  ctx_ok c st -> hm_lookup k (ps_map st) = Some p ->
  ctx_ok (VCtx (Some (k, p)) (vc_stale c) (vc_slot c)) st.
Proof using Type.
  intros [Hw Hv _ Hp Hs] Hk. split; try done. simpl. by intros k0 p0 [= <- <-].
Qed.

(** One operation that passes the check keeps the state as described. *)
Lemma check_sound w {X} (o : bpf_op V X) c st K :
  ctx_ok c st -> check o c K ->
  exists c', K (exec w o st).1 c' /\ ctx_ok c' (exec w o st).2.
Proof using Type.
  intros Hc. destruct o; simpl; intros HK.
  - exists c. split; [apply HK, pid_tgid_range|done].
  - exists c. split; [apply HK, ktime_range|done].
  - exists c. split; [apply HK, comm_length|done].
  - destruct HK as (off & n & Ho & Hn & HK). exists c. split; [|done].
    apply HK, (core_read_range _ _ _ _ _ _ Ho). set_unfold in Hn. lia.
  - exists c. split; [|done]. destruct (w_probe_read_user w n a) as [e bs] eqn:Hr.
    apply HK. pose proof (probe_read_user_length w n a) as Hl. by rewrite Hr in Hl.
  - destruct HK as (He & Hnone & Hsome). destruct (hm_lookup k (ps_map st)) as [p|] eqn:Hk; simpl.
    + eexists. split; [apply Hsome|by apply lookup_ok].
    + by exists c.
  - destruct HK as (-> & Hv & He & Hst & HK). exists c. split; [apply HK|by apply update_ok].
  - eexists. split; [apply HK|by apply delete_ok].
  - destruct HK as [Hp HK]. exists c. split; [apply HK; by eapply ctx_readable|done].
  - destruct HK as (Hp & Hst & Hf & HK). exists c. split; [done|by apply store_ok].
  - destruct HK as (Hs & -> & Hn & Hnone & Hsome).
    destruct (rb_reserve n 0 (ps_ring st)) as [[s r]|] eqn:Hr; simpl.
    + eexists. split; [apply Hsome|by apply reserve_ok].
    + by exists c.
  - destruct HK as [Hs HK]. exists c. split; [done|by apply write_ok].
  - destruct HK as (Hs & -> & HK). eexists. split; [done|by apply submit_ok].
Qed.

Lemma verified_run n w p c st :
  verified n p c -> ctx_ok c st ->
  exists c', (run w p st).1 = 0 /\ vc_slot c' = None /\ ctx_ok c' (run w p st).2.
Proof using Type.
  revert n c st. induction p as [a|X o k IH]; intros [|n] c st Hp Hc; simpl in Hp; try done.
  1, 2: destruct Hp as [-> Hs]; by exists c.
  destruct (check_sound w o c st _ Hc Hp) as (c' & Hk & Hc'). simpl. by eapply IH.
Qed.
End soundness.
End discipline.

(** ** The handlers pass *)

(** Ranges of what the handlers compute from typed answers. *)
Lemma ntohs_skc_range `{!Helpers} x : in_range (8 * 2) x -> in_range 16 (bpf_ntohs x).
Proof. apply ntohs_range. Qed.

#[export] Hint Resolve ntohs_skc_range : paryty.

Ltac solve_range := first
  [ done | apply in_range_0; done | apply wrap_in_range; done | by eauto with paryty ].

(** Where a member of the socket is: offset, size. *)
Ltac at_member off n H := exists off, n; split; [exact H|split; [apply (bool_decide_unpack _); exact I|]].

Lemma slot_event {E} `{!CObject E} (s : Z) (e : E) :
  co_wf e -> Some (s, event_size E) = Some (s, Z.of_nat (length (to_bytes e))).
Proof. intros Hwf. by rewrite length_event. Qed.

Ltac verify_op :=
  cbn [call mbind prog_bind mret prog_ret verified check read_skc vc_elem vc_stale vc_slot vc_empty
       fst snd fmap option_fmap option_map];
  match goal with
  | |- forall _, _ => intros
  | |- _ /\ _ => split
  | |- exists _ _, object_at _ _ [_; "skc_daddr"] = _ /\ _ => at_member 0 4 skc_daddr_at
  | |- exists _ _, object_at _ _ [_; "skc_rcv_saddr"] = _ /\ _ => at_member 4 4 skc_rcv_saddr_at
  | |- exists _ _, object_at _ _ [_; "skc_dport"] = _ /\ _ => at_member 12 2 skc_dport_at
  | |- exists _ _, object_at _ _ [_; "skc_num"] = _ /\ _ => at_member 14 2 skc_num_at
  | |- 0 <= event_size _ => apply event_size_nonneg
  | |- Some _ = Some (_, Z.of_nat (length (to_bytes _))) => apply slot_event
  | |- context [vc_release ?k (VCtx (Some (?k, ?p)) _ _)] =>
      unfold vc_release; cbn [vc_elem]; rewrite decide_True by reflexivity
  | |- readable _ _ => first [left; reflexivity | right; apply list_elem_of_here]
  | |- ?x = ?x => reflexivity
  end.

Section handlers.
Context {HW : Helpers}.

Lemma connect_verified sk : verified tcp_event_wf 8 (handle_tcp_connect sk) vc_empty.
Proof using Type.
  unfold handle_tcp_connect. repeat verify_op. split; simpl; solve_range.
Qed.

Lemma connect_ret_verified ret : verified tcp_event_wf 11 (handle_tcp_v4_connect_ret ret) vc_empty.
Proof using Type.
  unfold handle_tcp_v4_connect_ret, emit_event. change sizeof_tcp_event with (event_size tcp_event).
  repeat verify_op. destruct (ret =? 0); repeat verify_op; try done;
    match goal with H : tcp_event_wf _ |- _ => destruct H end; split; simpl; solve_range.
Qed.

Lemma set_state_verified sk state : verified tcp_event_wf 10 (handle_tcp_set_state sk state) vc_empty.
Proof using Type.
  unfold handle_tcp_set_state, emit_event. change sizeof_tcp_event with (event_size tcp_event).
  destruct (_ && _); repeat verify_op.
  split; simpl; try solve_range. by destruct (state =? TCP_ESTABLISHED).
Qed.

Lemma sendmsg_dns_verified sk msg len : verified (λ _, True) 9 (handle_udp_sendmsg sk msg len) vc_empty.
Proof using Type.
  unfold handle_udp_sendmsg. change sizeof_dns_event with (event_size dns_event).
  repeat verify_op. destruct (negb _); repeat verify_op.
  split; simpl; solve_range.
Qed.

Lemma sendmsg_http_verified sk msg size : verified (λ _, True) 9 (handle_tcp_sendmsg sk msg size) vc_empty.
Proof using Type.
  unfold handle_tcp_sendmsg. change sizeof_http_event with (event_size http_event).
  repeat verify_op. destruct (_ && _); repeat verify_op.
  split; simpl; try solve_range. by destruct (negb _).
Qed.

Lemma recv_verified sk msg len flags addr_len :
  verified args_wf 3 (handle_tcp_recvmsg sk msg len flags addr_len) vc_empty.
Proof using Type.
  unfold handle_tcp_recvmsg. repeat verify_op. destruct (Z.eqb_spec (is_db_port (bpf_ntohs x)) 0) as [|Hp]; repeat verify_op.
  split; [done|]. simpl. destruct (decide (bpf_ntohs x ∈ db_ports)) as [|Hn]; [done|].
  by apply is_db_port_zero in Hn.
Qed.

Lemma recv_ret_verified ret : verified args_wf 16 (handle_tcp_recvmsg_ret ret) vc_empty.
Proof using Type.
  unfold handle_tcp_recvmsg_ret. change sizeof_db_event with (event_size db_event).
  repeat verify_op. destruct (ret <=? 0); repeat verify_op.
  repeat match goal with
    | H : args_wf ?a |- context [buf_ptr ?a] => rewrite (proj1 H); cbn [Z.eqb negb andb]
    | |- context [sock_ptr ?a =? 0] => destruct (sock_ptr a =? 0); cbn [negb]
    | _ => verify_op
    end.
  all: split; simpl; try solve_range.
  all: first [by apply db_port_range | by case_match; [|apply wrap_in_range]].
Qed.
End handlers.

(** The programs of the object files, each with what its map's values are. *)
Inductive program `{Helpers} : forall V, (V -> Prop) -> prog V Z -> Prop :=
  | P_handle_tcp_connect sk : program tcp_event tcp_event_wf (handle_tcp_connect sk)
  | P_handle_tcp_v4_connect_ret ret : program tcp_event tcp_event_wf (handle_tcp_v4_connect_ret ret)
  | P_handle_tcp_set_state sk state : program tcp_event tcp_event_wf (handle_tcp_set_state sk state)
  | P_handle_udp_sendmsg sk msg len : program unit (λ _, True) (handle_udp_sendmsg sk msg len)
  | P_handle_tcp_sendmsg sk msg size : program unit (λ _, True) (handle_tcp_sendmsg sk msg size)
  | P_handle_tcp_recvmsg sk msg len flags addr_len :
      program recvmsg_args args_wf (handle_tcp_recvmsg sk msg len flags addr_len)
  | P_handle_tcp_recvmsg_ret ret : program recvmsg_args args_wf (handle_tcp_recvmsg_ret ret).

#[export] Hint Resolve connect_verified connect_ret_verified set_state_verified sendmsg_dns_verified
  sendmsg_http_verified recv_verified recv_ret_verified : paryty.

Ltac program_verified Hp := destruct Hp; (eapply verified_le; [|by eauto with paryty]; lia).

(** [C11] Every program of the four object files passes the verifier within 16
    helper calls and memory accesses: it reads only members the kernel types
    have, dereferences only pointers a lookup returned, never inserts or writes
    while it holds a deleted element, writes exactly the bytes it reserved, and
    returns 0 with no record left reserved. *)
Theorem handlers_verified `{Helpers} V val_ok (p : prog V Z) :
  program V val_ok p -> verified val_ok 16 p vc_empty.
Proof. intros Hp. program_verified Hp. Qed.

(** [C12] On any runtime and in any state - full map, full ring, faulting reads
    included - every program of the object files returns 0, leaves the map and
    the ring well-formed with every reserved record submitted, and every map
    value well-formed. *)
Theorem handlers_safe `{HW : Helpers} {V} `{HM : BpfHash V} {HR : Ringbuf} val_ok (p : prog V Z) w st :
  program V val_ok p ->
  ps_wf st -> settled st -> map_Forall (λ _, val_ok) (hm_abs (ps_map st)) ->
  (run w p st).1 = 0 /\ ps_wf (run w p st).2 /\ settled (run w p st).2 /\
  map_Forall (λ _, val_ok) (hm_abs (ps_map (run w p st).2)).
Proof.
  intros Hp Hwf Hs Hv.
  assert (verified val_ok 16 p vc_empty) as Hver by program_verified Hp.
  destruct (verified_run val_ok 16 w p vc_empty st Hver) as (c' & H0 & Hslot & Hc').
  { split; simpl; try done. by intros ? ?%elem_of_nil. }
  pose proof (ck_slot _ _ _ Hc') as Hset. rewrite Hslot in Hset.
  split_and!; [done|apply (ck_wf _ _ _ Hc')|done|apply (ck_vals _ _ _ Hc')].
Qed.


Section witnesses.
#[local] Existing Instances ref_helpers ref_recv_hash ref_ring256.

Lemma handlers_verified_witness :
  program recvmsg_args args_wf (handle_tcp_recvmsg_ret 40) /\
  verified args_wf 16 (handle_tcp_recvmsg_ret 40) vc_empty.
Proof.
  split; [exact (P_handle_tcp_recvmsg_ret 40)|].
  exact (handlers_verified _ _ _ (P_handle_tcp_recvmsg_ret 40)).
Defined.

Lemma handlers_safe_witness :
  let st := db_run [Invoke w_pg (Recv 4096 0 0 0 0)] db_init in
  let st' := run w_pg (handle_tcp_recvmsg_ret 300) st in
  st'.1 = 0 /\ ps_wf st'.2 /\ settled st'.2 /\ map_Forall (λ _, args_wf) (hm_abs (ps_map st'.2)).
Proof.
  destruct (db_reachable [Invoke w_pg (Recv 4096 0 0 0 0)]) as (s & _ & Hrel).
  apply (handlers_safe args_wf (handle_tcp_recvmsg_ret 300) w_pg).
  - exact (P_handle_tcp_recvmsg_ret 300).
  - exact (or_wf _ _ _ Hrel).
  - exact (or_settled _ _ _ Hrel).
  - rewrite (or_map _ _ _ Hrel). exact (or_map_wf _ _ _ Hrel).
Defined.
End witnesses.
