(* ===== verification/Serializable.v ===== *)
(** * Concurrent invocations that might as well run one after the other

    [Concurrent] is what an object's programs promise: each is bounded, keeps
    to what its thread owns, and has the effect [cc_alone] on its entry and on
    the ring.  The promise may be about some of the invocations only
    ([cc_admits]), and for a pool that leaves the memory of the map as it is
    ([cc_frozen]).  Then any schedule that lets a pool of invocations of different
    threads finish has the outcome of running them one by one, but for the
    order of the records ([pool_outcome], [outcomes_agree]). *)

From S2P Require Import Prelude Bytes Bpf Interleaving.

#[local] Set Warnings "-clear-no-such-hyp".
#[local] Open Scope list_scope.
#[local] Open Scope Z_scope.

(** What an invocation may use when it starts, its entry being [e]. *)
Definition fresh_res {V} (e : option (Z * V)) (inserts : bool) : tres V := TRes e None inserts true [].

(** What it ends with: 0, the entry and the records of [alone]. *)
Definition alone_post {V} (alone : option V * list (list byte)) (a : Z) (r : tres V) : Prop :=
  a = 0 /\ snd <$> tr_elem r = alone.1 /\ tr_out r = alone.2.

(** The memory [μ], when nobody is to change it. *)
Definition snapshot {V} (frozen : bool) (μ : Z -> V) : option (Z -> V) := if frozen then Some μ else None.

Class Concurrent (V C : Type) {HW : Helpers} := {
  cc_exec : C -> prog V Z;
  cc_size : Z;
  cc_steps : nat;
  cc_inserts : world -> C -> bool;
  cc_val_wf : V -> Prop;
  cc_frozen : bool;
  cc_admits : world -> C -> Prop;
  cc_alone : world -> C -> option V -> option V * list (list byte);
  cc_size_nonneg : 0 <= cc_size;
  cc_finishes c : finishes cc_steps (cc_exec c);
  cc_owned w c e μ :
    cc_admits w c ->
    (forall p v, e = Some (p, v) -> cc_val_wf v /\ μ p = v) ->
    owned cc_size (snapshot cc_frozen μ) w (cc_exec c) (fresh_res e (cc_inserts w c)) (alone_post (cc_alone w c (snd <$> e)));
}.

Section serial.
Context {V C : Type} {HW : Helpers} {HM : BpfHash V} {HR : Ringbuf} {CC : Concurrent V C}.
Implicit Types st : pstate V.
Implicit Types calls : list (world * C).

Definition pids calls : list Z := (λ wc, w_pid_tgid wc.1) <$> calls.
Definition pool calls : list (world * prog V Z) := (λ wc, (wc.1, cc_exec wc.2)) <$> calls.

(** One invocation after the other. *)
Definition one_by_one calls st : pstate V := foldl (λ st wc, (run wc.1 (cc_exec wc.2) st).2) st calls.

Definition inserting calls : list (world * C) := filter (λ wc, cc_inserts wc.1 wc.2 = true) calls.

(** [calls] can run on [st]: one thread each, entries and records for all. *)
Record startable calls st : Prop := {
  sb_wf : ps_wf st;
  sb_settled : settled st;
  sb_vals : map_Forall (λ _, cc_val_wf) (hm_abs (ps_map st));
  sb_admits : Forall (λ wc, cc_admits wc.1 wc.2) calls;
  sb_threads : NoDup (pids calls);
  sb_entries : Z.of_nat (size (hm_abs (ps_map st)) + length (inserting calls)) <= hm_max_entries;
  sb_records : ring_used (records st) + ring_len cc_size * Z.of_nat (length calls) < rb_size;
}.

(** What the calls leave of [st]. *)
Record outcome calls st st' : Prop := {
  oc_settled : settled st';
  oc_own w c : (w, c) ∈ calls ->
    hm_abs (ps_map st') !! w_pid_tgid w = (cc_alone w c (hm_abs (ps_map st) !! w_pid_tgid w)).1;
  oc_others k : k ∉ pids calls -> hm_abs (ps_map st') !! k = hm_abs (ps_map st) !! k;
  oc_records : records st' ≡ₚ records st ++
    concat ((λ wc, (cc_alone wc.1 wc.2 (hm_abs (ps_map st) !! w_pid_tgid wc.1)).2) <$> calls);
}.

Lemma outcomes_agree calls st st1 st2 :
  outcome calls st st1 -> outcome calls st st2 ->
  hm_abs (ps_map st1) = hm_abs (ps_map st2) /\ records st1 ≡ₚ records st2.
Proof using Type.
  intros [_ Ho1 Hf1 Hr1] [_ Ho2 Hf2 Hr2]. split; [|by rewrite Hr1, Hr2].
  apply map_eq. intros k. destruct (decide (k ∈ pids calls)) as [Hk|Hk].
  - apply list_elem_of_fmap in Hk as ([w c] & -> & Hin). simpl. by rewrite (Ho1 w c), (Ho2 w c).
  - by rewrite Hf1, Hf2.
Qed.

(** The threads of the pool, before they start. *)
Definition entry_of st (t : Z) : option (Z * V) :=
  (λ p, (p, hm_load p (ps_map st))) <$> hm_lookup t (ps_map st).

(** The memory of the map when they start. *)
Definition memory st : option (Z -> V) := snapshot cc_frozen (λ p, hm_load p (ps_map st)).

Definition start st (wc : world * C) : thread :=
  Thread wc.1 (cc_exec wc.2) (fresh_res (entry_of st (w_pid_tgid wc.1)) (cc_inserts wc.1 wc.2))
    (alone_post (cc_alone wc.1 wc.2 (hm_abs (ps_map st) !! w_pid_tgid wc.1))).

Lemma entry_of_abs st t : ps_wf st -> snd <$> entry_of st t = hm_abs (ps_map st) !! t.
Proof using Type.
  intros [Hm _]. unfold entry_of. rewrite hm_lookup_abs by done. by destruct (hm_lookup t (ps_map st)).
Qed.

Lemma start_ok calls st : startable calls st -> Forall (th_ok cc_size (memory st)) (start st <$> calls).
Proof using Type.
  intros Hs. apply Forall_fmap, Forall_forall. intros [w c] Hin. unfold th_ok. simpl.
  pose proof (entry_of_abs st (w_pid_tgid w) (sb_wf _ _ Hs)) as He. rewrite <- He.
  apply cc_owned.
  { pose proof (sb_admits _ _ Hs) as Ha. rewrite Forall_forall in Ha. apply (Ha _ Hin). }
  intros p v Hv. split; [rewrite Hv in He; by eapply (sb_vals _ _ Hs)|].
  unfold entry_of in Hv. by destruct (hm_lookup _ _) as [p'|]; [injection Hv as <- <-|].
Qed.

Lemma start_keys calls st : th_key <$> (start st <$> calls) = pids calls.
Proof using Type. unfold pids. by rewrite <- list_fmap_compose. Qed.

Lemma start_res calls st :
  res (start st <$> calls) =
    (λ wc, (w_pid_tgid wc.1, fresh_res (entry_of st (w_pid_tgid wc.1)) (cc_inserts wc.1 wc.2))) <$> calls.
Proof using Type. unfold res. by rewrite <- list_fmap_compose. Qed.

Lemma start_code calls st : code (start st <$> calls) = pool calls.
Proof using Type. unfold code, pool. by rewrite <- list_fmap_compose. Qed.

Lemma start_credits calls st :
  credits tr_insert (res (start st <$> calls)) = Z.of_nat (length (inserting calls)) /\
  credits tr_record (res (start st <$> calls)) = Z.of_nat (length calls) /\
  slots (res (start st <$> calls)) = [] /\ outs (res (start st <$> calls)) = [].
Proof using Type.
  rewrite start_res. unfold credits, slots, outs, inserting.
  induction calls as [|[w c] calls (IH1 & IH2 & IH3 & IH4)]; [done|].
  rewrite fmap_cons, filter_cons. cbn [sum_list_with omap list_omap snd fst tr_insert tr_record tr_slot fresh_res].
  rewrite fmap_cons. cbn [concat tr_out fresh_res fst snd app]. rewrite IH3, IH4.
  destruct (cc_inserts w c); [rewrite decide_True by done|rewrite decide_False by done];
    cbn [length]; split_and!; lia || done.
Qed.

Lemma start_inv calls st :
  startable calls st ->
  pool_inv cc_size (memory st) (hm_abs (ps_map st)) (records st) (res (start st <$> calls)) st.
Proof using Type.
  intros Hs. destruct (start_credits calls st) as (Hi & Hr & Hsl & Ho).
  pose proof (sb_wf _ _ Hs) as [Hm Hb]. split.
  - split; [done|unfold frozen_mem, memory; by destruct cc_frozen| |done|rewrite Hi; pose proof (sb_entries _ _ Hs); lia].
    intros t r. rewrite start_res. intros ([w c] & [= -> ->] & _)%list_elem_of_fmap. simpl.
    rewrite entry_of_abs by done. split; [|done]. unfold entry_of. by destruct (hm_lookup _ _).
  - split; [done| |rewrite Hr; apply (sb_records _ _ Hs)].
    exists (rb_view (ps_ring st)). rewrite Hsl, Ho, app_nil_r. split_and!; [done|apply (sb_settled _ _ Hs)|done].
Qed.

(** What the finished threads own is what [alone] says. *)
Lemma finished_thread calls st ths' w c :
  Forall2 continues (start st <$> calls) ths' -> Forall (th_ok cc_size (memory st)) ths' ->
  Forall (λ wp, exists a, wp.2 = Ret a) (code ths') -> (w, c) ∈ calls ->
  exists r, (w_pid_tgid w, r) ∈ res ths' /\
    snd <$> tr_elem r = (cc_alone w c (hm_abs (ps_map st) !! w_pid_tgid w)).1.
Proof using Type.
  intros Hc Hok Hf (i & Hi)%list_elem_of_lookup.
  destruct (Forall2_lookup_l _ _ _ i (start st (w, c)) Hc) as (th & Hth & Hw & Hq).
  { by rewrite list_lookup_fmap, Hi. }
  apply (Forall_lookup_1 _ _ _ _ Hok) in Hth as Hokth.
  assert (exists a, th_prog th = Ret a) as [a Ha].
  { apply (Forall_lookup_1 _ _ i (th_world th, th_prog th) Hf). unfold code. by rewrite list_lookup_fmap, Hth. }
  destruct th as [w' p r Q]. simpl in *. subst. destruct Hokth as (_ & _ & He & _).
  exists r. split; [|done]. apply list_elem_of_fmap. eexists. split; [|by apply list_elem_of_lookup_2 in Hth].
  done.
Qed.

Lemma finished_outs calls st ths' :
  Forall2 continues (start st <$> calls) ths' -> Forall (th_ok cc_size (memory st)) ths' ->
  Forall (λ wp, exists a, wp.2 = Ret a) (code ths') ->
  Forall (λ wp, wp.2 = Ret 0) (code ths') /\
  outs (res ths') =
    concat ((λ wc, (cc_alone wc.1 wc.2 (hm_abs (ps_map st) !! w_pid_tgid wc.1)).2) <$> calls).
Proof using Type.
  revert ths'. induction calls as [|[w c] calls IH]; intros ths' Hc Hok Hf.
  { apply Forall2_nil_inv_l in Hc as ->. by split. }
  rewrite fmap_cons in Hc. apply Forall2_cons_inv_l in Hc as (th & ths & [Hw Hq] & Hc & ->).
  apply Forall_cons in Hok as [Hokth Hok]. unfold code in Hf. rewrite fmap_cons in Hf.
  apply Forall_cons in Hf as [[a Ha] Hf]. destruct (IH _ Hc Hok Hf) as [IH1 IH2].
  destruct th as [w' p r Q]. simpl in *. subst. destruct Hokth as (_ & -> & _ & Ho). simpl in Ho.
  split; [by constructor|]. unfold outs, res in *. rewrite !fmap_cons. cbn [concat fst snd th_res].
  by rewrite IH2, Ho.
Qed.

(** A pool that has finished, under whatever schedule. *)
Lemma pool_outcome calls st sched :
  startable calls st -> Forall (λ wp, exists a, wp.2 = Ret a) (run_pool sched (pool calls, st)).1 ->
  Forall (λ wp, wp.2 = Ret 0) (run_pool sched (pool calls, st)).1 /\
  ps_wf (run_pool sched (pool calls, st)).2 /\ outcome calls st (run_pool sched (pool calls, st)).2.
Proof using Type.
  intros Hs. rewrite <- (start_code calls st). intros Hf.
  destruct (pool_sound cc_size (memory st) (hm_abs (ps_map st)) (records st) sched (start st <$> calls) st
    cc_size_nonneg) as (ths' & Hcode & Hc & Hok & Hm & Hr).
  { rewrite start_keys. apply (sb_threads _ _ Hs). }
  { by apply start_ok. }
  { by apply start_inv. }
  rewrite Hcode in *. destruct (finished_outs _ _ _ Hc Hok Hf) as [H0 Houts].
  destruct (ri_view _ _ _ _ Hr) as (rdy & Hv & Hrdy & Hdata).
  rewrite (slots_finished cc_size (memory st)) in Hv by done. simpl in Hv.
  split; [done|]. split; [split; [apply (mi_wf _ _ _ _ Hm)|apply (ri_wf _ _ _ _ Hr)]|]. split.
  - unfold settled. by rewrite Hv.
  - intros w c Hin. destruct (finished_thread _ _ _ _ _ Hc Hok Hf Hin) as (r & Hin' & <-).
    by apply (mi_elem _ _ _ _ Hm) in Hin' as [_ ?].
  - intros k Hk. apply (mi_frame _ _ _ _ Hm). by rewrite res_keys, (continues_keys _ _ Hc), start_keys.
  - unfold records. rewrite Hv, Hdata. by rewrite Houts.
Qed.

(** Running the calls one by one is one of the schedules. *)
Lemma one_by_one_schedule calls st :
  exists sched, (run_pool sched (pool calls, st)).2 = one_by_one calls st /\
    Forall (λ wp, exists a, wp.2 = Ret a) (run_pool sched (pool calls, st)).1.
Proof using Type.
  enough (forall c1 st, Forall (λ wp : world * prog V Z, exists a, wp.2 = Ret a) c1 ->
    exists sched, (run_pool sched (c1 ++ pool calls, st)).2 = one_by_one calls st /\
      Forall (λ wp, exists a, wp.2 = Ret a) (run_pool sched (c1 ++ pool calls, st)).1) as H.
  { destruct (H [] st (Forall_nil_2 _)) as (sched & ? & ?). by exists sched. }
  induction calls as [|[w c] calls IH]; intros c1 st0 Hc1.
  { exists []. simpl. by rewrite app_nil_r. }
  destruct (run_alone w (cc_exec c) c1 (pool calls) st0) as [n Hn].
  destruct (IH (c1 ++ [(w, Ret (run w (cc_exec c) st0).1)]) (run w (cc_exec c) st0).2) as (sched & H1 & H2).
  { apply Forall_app_2; [done|]. constructor; [by eexists|done]. }
  rewrite <- app_assoc in H1, H2. simpl in H1, H2.
  exists (repeat (length c1) n ++ sched). unfold run_pool in *. rewrite foldl_app.
  change (pool ((w, c) :: calls)) with ((w, cc_exec c) :: pool calls). by rewrite Hn.
Qed.

Lemma pool_steps calls : Forall (λ wp, finishes cc_steps wp.2) (pool calls).
Proof using Type. apply Forall_fmap, Forall_forall. intros [w c] _. apply cc_finishes. Qed.

(** Every schedule with enough steps for each has the outcome of one by one. *)
Lemma serializable calls st sched :
  startable calls st ->
  (forall j, (j < length calls)%nat -> (cc_steps <= count_occ Nat.eq_dec sched j)%nat) ->
  Forall (λ wp, wp.2 = Ret 0) (run_pool sched (pool calls, st)).1 /\
  settled (run_pool sched (pool calls, st)).2 /\
  hm_abs (ps_map (run_pool sched (pool calls, st)).2) = hm_abs (ps_map (one_by_one calls st)) /\
  records (run_pool sched (pool calls, st)).2 ≡ₚ records (one_by_one calls st).
Proof using Type.
  intros Hs Hsched.
  destruct (pool_outcome calls st sched Hs) as (H0 & _ & Hout).
  { refine (Forall_impl _ _ _ _ (λ wp Hwp, ex_intro _ 0 Hwp)).
    apply (pool_finishes _ _ cc_steps); [apply pool_steps|].
    intros j. cbn [fst]. unfold pool. rewrite length_fmap. apply Hsched. }
  destruct (one_by_one_schedule calls st) as (sched1 & <- & Hf1).
  destruct (pool_outcome calls st sched1 Hs Hf1) as (_ & _ & Hout1).
  split; [done|]. split; [apply (oc_settled _ _ _ Hout)|]. by apply (outcomes_agree calls st).
Qed.
End serial.
