(* ===== verification/Races.v ===== *)
(** * Which programs are free of races

    The TCP tracker, the DNS mapper and the HTTP inspector keep the promise of
    [Concurrent], so that invocations on several CPUs have the outcome of
    running them one by one.  The return probe of the database probe keeps it
    only while nobody inserts: it reads its element after deleting it ([DbRaces]). *)

From S2P Require Import Prelude Bytes CLayout CObject Vmlinux Common Bpf BpfRef ProbeObject TcpTracker Emitter DnsMapper HttpInspector DbProbe Interleaving Verifier Serializable.

#[local] Set Warnings "-clear-no-such-hyp".
#[local] Open Scope string_scope.
#[local] Open Scope list_scope.
#[local] Open Scope Z_scope.

(** ** Bounds on the number of steps *)

Ltac bound_steps :=
  repeat (cbn [call mbind prog_bind mret prog_ret finishes fst snd];
    match goal with
    | |- forall _, _ => intro
    | |- ?x = ?x => reflexivity
    | |- context [match ?x with Some _ => _ | None => _ end] => destruct x
    | |- context [let '(_, _) := ?x in _] => destruct x
    | |- context [if ?b then _ else _] => destruct b
    end).

Section steps.
Context {HW : Helpers}.

Lemma tcp_steps c : finishes 11 (tcp_exec c).
Proof using Type.
  destruct c as [sk|ret|sk state]; unfold tcp_exec, handle_tcp_connect, handle_tcp_v4_connect_ret,
    handle_tcp_set_state, emit_event; bound_steps.
Qed.

Lemma dns_steps sk msg len : finishes 9 (handle_udp_sendmsg sk msg len).
Proof using Type. unfold handle_udp_sendmsg. bound_steps. Qed.

Lemma http_steps sk msg size : finishes 9 (handle_tcp_sendmsg sk msg size).
Proof using Type. unfold handle_tcp_sendmsg. bound_steps. Qed.

Lemma db_steps c : finishes 21 (db_exec c).
Proof using Type.
  destruct c as [sk msg len flags addr_len|ret]; unfold db_exec, handle_tcp_recvmsg, handle_tcp_recvmsg_ret;
    bound_steps.
Qed.
End steps.

(** ** What the programs leave, run alone *)

Section alone.
Context {HW : Helpers}.

Definition tcp_alone (w : world) (c : tcp_call) (e : option tcp_event)
    : option tcp_event * list (list byte) :=
  match c with
  | Connect sk => (Some (sock_event w sk 0 0), [])
  | ConnectRet ret =>
      (None, if decide (ret = 0) then option_list (to_bytes ∘ established w <$> e) else [])
  | SetState sk state =>
      (e, if (state =? TCP_ESTABLISHED) || (state =? TCP_TIME_WAIT) || (state =? TCP_CLOSE)
          then [to_bytes (sock_event w sk (state_event_type state) state)] else [])
  end.

Definition tcp_inserts (c : tcp_call) : bool := match c with Connect _ => true | _ => false end.

(** One step of a program whose resources are known. *)
Ltac owned_cbn :=
  cbn [call mbind prog_bind mret prog_ret owned owned_op read_skc fst snd fmap option_fmap option_map
       tr_elem tr_slot tr_insert tr_record tr_out fresh_res set_elem set_slot app].

Ltac owned_step :=
  owned_cbn;
  match goal with
  | |- forall _, _ => intros
  | H : Z.of_nat (length ?junk) = event_size ?E |- length (to_bytes ?e) = length ?junk /\ _ =>
      split; [apply Nat2Z.inj; rewrite H; apply length_event|]
  | |- ?x = ?x /\ _ => split; [reflexivity|]
  | |- exists v, Some (?p, ?e) = Some (?p, v) /\ _ => exists e
  | |- exists d, Some (?s, ?e) = Some (?s, d) /\ _ => exists e
  | |- owned_op _ _ _ _ => unfold owned_op
  end.

Lemma tcp_size : sizeof_tcp_event = event_size tcp_event.
Proof using Type. reflexivity. Qed.

Lemma dns_size : sizeof_dns_event = event_size dns_event.
Proof using Type. reflexivity. Qed.

Lemma http_size : sizeof_http_event = event_size http_event.
Proof using Type. reflexivity. Qed.

Lemma alone_emitted {V E} `{!CObject E} (el : option V) el' b1 b2 (e e' : E) :
  snd <$> el' = el -> e = e' ->
  alone_post (el, [to_bytes e]) 0 (TRes el' None b1 b2 [to_bytes e']).
Proof using Type. by intros <- <-. Qed.

Lemma tcp_owned w c e :
  (forall p v, e = Some (p, v) -> tcp_event_wf v) ->
  owned (event_size tcp_event) None w (tcp_exec c) (fresh_res e (tcp_inserts c))
    (alone_post (tcp_alone w c (snd <$> e))).
Proof using Type.
  intros Hv. destruct c as [sk|ret|sk state]; cbn [tcp_exec tcp_inserts tcp_alone].
  - unfold handle_tcp_connect. repeat owned_step. repeat split. cbn. unfold sock_event.
    by rewrite <- pid_tgid_hi.
  - unfold handle_tcp_v4_connect_ret, emit_event. rewrite tcp_size.
    destruct e as [[p v]|]; repeat owned_step; [|by case_decide].
    pose proof (established_wf w _ (Hv p v eq_refl)) as He.
    destruct (Z.eqb_spec ret 0) as [->|Hret]; [|rewrite decide_False by done]; repeat owned_step.
    + exact He.
    + by repeat split.
    + by repeat split.
  - unfold handle_tcp_set_state, emit_event, state_event_type. rewrite tcp_size.
    rewrite <- !negb_orb. destruct (_ || _) eqn:Hr; cbn [negb]; [|by repeat split].
    assert (reported state) as Hrep by (unfold reported; lia). apply reported_in_range in Hrep as Hst.
    pose proof (λ ty H, sock_event_wf w sk ty state H Hst) as Hwf. rewrite (wrap_id 32 state) by done.
    unfold sock_event in *. rewrite <- pid_tgid_hi in *.
    destruct (Z.eqb_spec state TCP_ESTABLISHED), (decide (state = TCP_ESTABLISHED)); try (exfalso; congruence);
      repeat owned_step;
      match goal with
      | |- co_wf _ => apply Hwf; split; [discriminate|reflexivity]
      | |- alone_post _ _ _ => apply alone_emitted; reflexivity
      end.
Qed.

(** A program that emits one event, or none. *)
Definition em_alone {E} `{!CObject E} {EM : Emitter E} (w : world) (c : send_call) (e : option unit)
    : option unit * list (list byte) :=
  (e, option_list (to_bytes <$> em_event w (sm_sk c))).

Lemma dns_owned w sk msg len e :
  owned (event_size dns_event) None w (handle_udp_sendmsg sk msg len) (fresh_res e false)
    (alone_post (em_alone (E := dns_event) w (SendMsg sk msg len) (snd <$> e))).
Proof using Type.
  unfold handle_udp_sendmsg. rewrite dns_size.
  unfold em_alone. change (em_event w (sm_sk (SendMsg sk msg len))) with (dns_observed w sk).
  pose proof (dns_query_wf w sk) as Hwf. unfold dns_observed.
  assert (dns_query w sk = dns_query w sk) as He by reflexivity.
  unfold dns_query at 2 in He. rewrite <- pid_tgid_hi in He.
  owned_cbn. fold (skc_read w sk "skc_dport").
  destruct (Z.eqb_spec (bpf_ntohs (skc_read w sk "skc_dport")) DNS_PORT) as [Hp|Hp]; cbn [negb].
  2: { rewrite decide_False by exact Hp. by repeat split. }
  rewrite decide_True by exact Hp. rewrite Hp, pending_buffer. rewrite He in *. repeat owned_step.
  - exact Hwf.
  - apply alone_emitted; reflexivity.
Qed.

Lemma http_owned w sk msg len e :
  owned (event_size http_event) None w (handle_tcp_sendmsg sk msg len) (fresh_res e false)
    (alone_post (em_alone (E := http_event) w (SendMsg sk msg len) (snd <$> e))).
Proof using Type.
  unfold handle_tcp_sendmsg. rewrite http_size.
  unfold em_alone. change (em_event w (sm_sk (SendMsg sk msg len))) with (http_observed w sk).
  pose proof (http_send_wf w sk) as Hwf. unfold http_observed, http_send in *.
  rewrite <- pid_tgid_hi in *. owned_cbn. fold (skc_read w sk "skc_dport").
  pose proof (port_flow (bpf_ntohs (skc_read w sk "skc_dport"))) as Hp.
  destruct (flow_of _); [destruct Hp as [-> ->]|rewrite Hp, andb_false_r|destruct Hp as [-> ->]; by repeat split];
    cbn [Z.eqb negb andb]; repeat owned_step;
    match goal with
    | |- co_wf _ => apply Hwf; split; [discriminate|reflexivity]
    | |- alone_post _ _ _ => apply alone_emitted; reflexivity
    end.
Qed.

(** ** The promise kept *)

#[export] Program Instance tcp_concurrent : Concurrent tcp_event tcp_call := {|
  cc_exec := tcp_exec;
  cc_size := event_size tcp_event;
  cc_steps := 11;
  cc_inserts _ := tcp_inserts;
  cc_val_wf := tcp_event_wf;
  cc_frozen := false;
  cc_admits _ _ := True;
  cc_alone := tcp_alone;
  cc_size_nonneg := event_size_nonneg _;
  cc_finishes := tcp_steps |}.
Next Obligation. intros w c e μ _ He. apply tcp_owned. intros p v Hv. by apply (He p v). Qed.

(** The programs that only emit. *)
Class ConcurrentEmitter (E : Type) `{!CObject E} {EM : Emitter E} := {
  ce_finishes sk msg len : finishes 9 (em_handler (E := E) sk msg len);
  ce_owned w sk msg len e :
    owned (event_size E) None w (em_handler (E := E) sk msg len) (fresh_res e false)
      (alone_post (em_alone (E := E) w (SendMsg sk msg len) (snd <$> e)));
}.

#[export] Instance dns_concurrent : ConcurrentEmitter dns_event.
Proof using Type. split; [exact dns_steps|exact dns_owned]. Qed.
#[export] Instance http_concurrent : ConcurrentEmitter http_event.
Proof using Type. split; [exact http_steps|exact http_owned]. Qed.

#[export] Program Instance emitter_concurrent {E} `{!CObject E} {EM : Emitter E}
    {CE : ConcurrentEmitter E} : Concurrent unit send_call := {|
  cc_exec c := em_handler (E := E) (sm_sk c) (sm_msg c) (sm_len c);
  cc_size := event_size E;
  cc_steps := 9;
  cc_inserts _ _ := false;
  cc_val_wf _ := True;
  cc_frozen := false;
  cc_admits _ _ := True;
  cc_alone := em_alone (E := E);
  cc_size_nonneg := event_size_nonneg E;
  cc_finishes c := ce_finishes (E := E) (sm_sk c) (sm_msg c) (sm_len c) |}.
Next Obligation. intros E ? ? ? w [sk msg len] e μ _ _. apply (ce_owned (E := E)). Qed.
End alone.

(** ** Properties *)

Section tracker.
Context {HW : Helpers} {HM : BpfHash tcp_event} {HR : Ringbuf}.

(** The threads' own invocations, interleaved and one by one. *)
Definition tcp_pool (calls : list (world * tcp_call)) : list (world * prog tcp_event Z) := pool calls.
Definition tcp_one_by_one (calls : list (world * tcp_call)) st : pstate tcp_event := one_by_one calls st.

Lemma tcp_startable ls calls :
  NoDup (pids calls) ->
  Z.of_nat (size (hm_abs (ps_map (tcp_run ls tcp_init))) + length (inserting calls)) <= hm_max_entries ->
  ring_used (records (tcp_run ls tcp_init)) + ring_len sizeof_tcp_event * Z.of_nat (length calls) < rb_size ->
  startable calls (tcp_run ls tcp_init).
Proof using Type.
  intros Hn He Hr. destruct (tcp_reachable ls) as (s & _ & Hrel). split; try done.
  - apply (or_wf _ _ _ Hrel).
  - apply (or_settled _ _ _ Hrel).
  - rewrite (or_map _ _ _ Hrel). apply (or_map_wf _ _ _ Hrel).
  - by apply Forall_true.
Qed.

(** [C10] Connects, returns of connects and state changes of different threads
    may be interleaved on several CPUs in any way: from any state of the
    tracker with room for them, every schedule that gives each program its 11
    steps ends with all of them having returned 0, no record half-written,
    [connect_info] as if they had run one by one, and the same records as then
    up to their order. *)
Theorem tracker_serializable ls calls sched :
  let st := tcp_run ls tcp_init in
  let end_ := run_pool sched (tcp_pool calls, st) in
  NoDup (pids calls) ->
  Z.of_nat (size (hm_abs (ps_map st)) + length (inserting calls)) <= hm_max_entries ->
  ring_used (records st) + ring_len sizeof_tcp_event * Z.of_nat (length calls) < rb_size ->
  (forall j, (j < length calls)%nat -> (11 <= count_occ Nat.eq_dec sched j)%nat) ->
  Forall (λ wp, wp.2 = Ret 0) end_.1 /\ settled end_.2 /\
  hm_abs (ps_map end_.2) = hm_abs (ps_map (tcp_one_by_one calls st)) /\
  records end_.2 ≡ₚ records (tcp_one_by_one calls st).
Proof using Type.
  intros st end_ Hn He Hr Hs. by apply (serializable (CC := tcp_concurrent)); [apply tcp_startable|].
Qed.
End tracker.

Section senders.
Context {HW : Helpers} {HR : Ringbuf}.
#[local] Existing Instance no_map.

Definition send_pool (E : Type) `{!CObject E} {EM : Emitter E} (calls : list (world * send_call))
    : list (world * prog unit Z) :=
  (λ wc, (wc.1, em_handler (E := E) (sm_sk wc.2) (sm_msg wc.2) (sm_len wc.2))) <$> calls.

(** The records of the sends, in the order of the calls. *)
Definition send_records (E : Type) `{!CObject E} {EM : Emitter E} (calls : list (world * send_call))
    : list (list byte) :=
  concat ((λ wc, option_list (to_bytes <$> em_event (E := E) wc.1 (sm_sk wc.2))) <$> calls).

(** [C34] UDP sends under the DNS mapper, and TCP sends under the HTTP
    inspector, may be interleaved on several CPUs in any way: with room in the
    ring, every schedule that gives each send its 9 steps logs, besides what was
    there, exactly the event of each send that has one, whole and once. *)
Theorem sends_concurrent {E} `{!CObject E} {EM : Emitter E} {CE : ConcurrentEmitter E} ls calls sched :
  let st := em_trace (E := E) ls em_init in
  let end_ := run_pool sched (send_pool E calls, st) in
  NoDup (pids calls) ->
  ring_used (records st) + ring_len (event_size E) * Z.of_nat (length calls) < rb_size ->
  (forall j, (j < length calls)%nat -> (9 <= count_occ Nat.eq_dec sched j)%nat) ->
  Forall (λ wp, wp.2 = Ret 0) end_.1 /\ settled end_.2 /\
  records end_.2 ≡ₚ records st ++ send_records E calls.
Proof using Type.
  intros st end_ Hn Hr Hs. destruct (em_reachable (E := E) ls) as (s & _ & Hrel). fold st in Hrel.
  assert (startable (CC := emitter_concurrent (E := E)) calls st) as Hst.
  { split; [apply (or_wf _ _ _ Hrel)|apply (or_settled _ _ _ Hrel)|by intros|by apply Forall_true|done| |done].
    unfold inserting. cbn [cc_inserts emitter_concurrent].
    replace (filter _ calls) with ([] : list (world * send_call)); [done|].
    clear. induction calls as [|wc calls IH]; [done|]. by rewrite filter_cons_False. }
  assert (Forall (λ wp, wp.2 = Ret 0) end_.1) as H0.
  { apply (pool_finishes _ _ 9).
    - apply Forall_fmap, Forall_forall. intros wc _. apply (ce_finishes (E := E)).
    - intros j. cbn [fst]. unfold send_pool. rewrite length_fmap. apply Hs. }
  destruct (pool_outcome (CC := emitter_concurrent (E := E)) calls st sched Hst) as (_ & _ & Ho).
  { refine (Forall_impl _ _ _ _ (λ wp Hwp, ex_intro _ 0 Hwp)). exact H0. }
  split; [done|]. split; [apply (oc_settled _ _ _ Ho)|]. apply (oc_records _ _ _ Ho).
Qed.

End senders.

(** ** On the reference runtime *)

(** [n] rounds of one step for each of [m] CPUs. *)
Definition round_robin (n m : nat) : list nat := concat (repeat (seq 0 m) n).

Lemma round_robin_fair n m j : (j < m)%nat -> (n <= count_occ Nat.eq_dec (round_robin n m) j)%nat.
Proof.
  intros Hj. unfold round_robin. induction n as [|n IH]; [lia|]. cbn [repeat concat].
  rewrite count_occ_app.
  assert (0 < count_occ Nat.eq_dec (seq 0 m) j)%nat; [|lia].
  apply count_occ_In, in_seq. lia.
Qed.

Section tcp_witnesses.
#[local] Existing Instances ref_helpers ref_tcp_hash ref_ring256.

(** The connect of thread 7 returns on one CPU while thread 8 starts one. *)
Definition racing_connects : list (world * tcp_call) :=
  [(w_a 2000, ConnectRet 0); (w_b 2001, Connect 4096)].

Lemma tracker_serializable_witness :
  let st := tcp_run [Invoke (w_a 1000) (Connect 4096)] tcp_init in
  let end_ := run_pool (round_robin 11 2) (tcp_pool racing_connects, st) in
  Forall (λ wp, wp.2 = Ret 0) end_.1 /\ settled end_.2 /\
  hm_abs (ps_map end_.2) = hm_abs (ps_map (tcp_one_by_one racing_connects st)) /\
  records end_.2 ≡ₚ records (tcp_one_by_one racing_connects st).
Proof.
  apply (tracker_serializable [Invoke (w_a 1000) (Connect 4096)] racing_connects (round_robin 11 2)).
  - apply (bool_decide_unpack _). vm_compute. exact I.
  - vm_compute. discriminate.
  - vm_compute. reflexivity.
  - intros j. apply (round_robin_fair 11 2).
Defined.
End tcp_witnesses.

Section send_witnesses.
#[local] Existing Instances ref_helpers ref_ring256.

(** Two threads send at once. *)
Definition racing_sends (port : Z) : list (world * send_call) :=
  [(world_at (42 * 2 ^ 32 + 7) 1000 port, SendMsg 4096 0 64);
   (world_at (43 * 2 ^ 32 + 8) 1001 port, SendMsg 4096 0 80)].

(** UDP sends to port 53, and TCP sends to port 443. *)
Lemma sends_concurrent_witness :
  (let st := em_trace (E := dns_event) [] em_init in
   let end_ := run_pool (HM := no_map) (round_robin 9 2) (send_pool dns_event (racing_sends 53), st) in
   Forall (λ wp, wp.2 = Ret 0) end_.1 /\ settled (HM := no_map) end_.2 /\
   records (HM := no_map) end_.2 ≡ₚ
     records (HM := no_map) st ++ send_records dns_event (racing_sends 53)) /\
  (let st := em_trace (E := http_event) [] em_init in
   let end_ := run_pool (HM := no_map) (round_robin 9 2) (send_pool http_event (racing_sends 443), st) in
   Forall (λ wp, wp.2 = Ret 0) end_.1 /\ settled (HM := no_map) end_.2 /\
   records (HM := no_map) end_.2 ≡ₚ
     records (HM := no_map) st ++ send_records http_event (racing_sends 443)).
Proof.
  split.
  - apply (sends_concurrent (E := dns_event) [] (racing_sends 53) (round_robin 9 2)).
    + apply (bool_decide_unpack _). vm_compute. exact I.
    + vm_compute. reflexivity.
    + intros j. apply (round_robin_fair 9 2).
  - apply (sends_concurrent (E := http_event) [] (racing_sends 443) (round_robin 9 2)).
    + apply (bool_decide_unpack _). vm_compute. exact I.
    + vm_compute. reflexivity.
    + intros j. apply (round_robin_fair 9 2).
Defined.
End send_witnesses.
