(* ===== verification/DbRaces.v ===== *)
(** * How far the database probe is free of races

    [handle_tcp_recvmsg_ret] reads its element of [recv_info] after deleting
    it.  Where deleted elements are recycled, a receive of another thread that
    starts in between takes over the memory, and the return reports that
    thread's connection ([args_read_after_delete]).  That is the only race:
    receives that start, and returns that read nothing, do not disturb each
    other, and neither do returns among themselves ([db_probe_serializable]). *)

From S2P Require Import Prelude Bytes CLayout CObject Vmlinux Common Bpf BpfRef ProbeObject DbProbe Interleaving Serializable Races.

#[local] Set Warnings "-clear-no-such-hyp".
#[local] Open Scope string_scope.
#[local] Open Scope list_scope.
#[local] Open Scope Z_scope.

Section alone.
Context {HW : Helpers}.

(** The receive starts on a database port: an element is inserted. *)
Definition db_parks (w : world) (c : db_call) : bool :=
  match c with
  | Recv sk _ _ _ _ => negb (is_db_port (bpf_ntohs (skc_read w sk "skc_dport")) =? 0)
  | RecvRet _ => false
  end.

(** The receive returned bytes: the element, if any, is read once deleted. *)
Definition db_reports (c : db_call) : bool :=
  match c with Recv _ _ _ _ _ => false | RecvRet ret => negb (ret <=? 0) end.

Definition db_alone (w : world) (c : db_call) (e : option recvmsg_args)
    : option recvmsg_args * list (list byte) :=
  match c with
  | Recv sk _ _ _ _ => (if db_parks w c then Some (recv_args w sk) else e, [])
  | RecvRet ret =>
      (None, if db_reports c then option_list ((λ a, to_bytes (recv_event w a (wrap 32 ret))) <$> e)
             else [])
  end.

(** Starts, ignored or parked, whether or not the memory of the map is frozen;
    only who parks must be free to write it. *)
Lemma recv_owned frozen w sk msg len flags addr_len e :
  (frozen = None \/ db_parks w (Recv sk msg len flags addr_len) = false) ->
  owned (event_size db_event) frozen w (handle_tcp_recvmsg sk msg len flags addr_len)
    (fresh_res e (db_parks w (Recv sk msg len flags addr_len)))
    (alone_post (db_alone w (Recv sk msg len flags addr_len) (snd <$> e))).
Proof using Type.
  intros Hf. unfold handle_tcp_recvmsg, db_alone, db_parks in *. cbn -[is_db_port].
  fold (skc_read w sk "skc_dport"). destruct (is_db_port _ =? 0) eqn:Hz; simpl in *; [by repeat split|].
  destruct Hf as [->|]; [|done]. by repeat split.
Qed.

(** Returns that have nothing to report. *)
Lemma ret_quiet_owned frozen w ret e :
  db_reports (RecvRet ret) = false ->
  owned (event_size db_event) frozen w (handle_tcp_recvmsg_ret ret) (fresh_res e false)
    (alone_post (db_alone w (RecvRet ret) (snd <$> e))).
Proof using Type.
  unfold db_alone, db_reports. intros Hr. apply negb_false_iff in Hr as Hret.
  unfold handle_tcp_recvmsg_ret. cbn. rewrite Hr, Hret.
  by destruct e as [[p a]|]; cbn; repeat split.
Qed.

(** The return of [n] bytes, once its fields have been read from memory. *)
Definition report_tail (e : db_event) : db_prog Z :=
  (ring_evt <- RingbufReserve sizeof_db_event 0;;
   match ring_evt with
   | None => mret 0
   | Some s => RingbufWrite s (to_bytes e);;; RingbufSubmit s 0;;; mret 0
   end)%prog.

Ltac report_cbn :=
  cbn [call mbind prog_bind mret prog_ret owned owned_op read_skc fst snd fmap option_fmap option_map
       tr_elem tr_slot tr_insert tr_record tr_out fresh_res set_elem set_slot app].

Lemma db_size : sizeof_db_event = event_size db_event.
Proof using Type. reflexivity. Qed.

Lemma report_tail_owned frozen w e : db_event_wf e ->
  owned (event_size db_event) frozen w (report_tail e) (fresh_res None false)
    (alone_post (None, [to_bytes e])).
Proof using Type.
  intros He. unfold report_tail. rewrite db_size. report_cbn. split_and!; [reflexivity..|].
  intros s junk Hj. exists junk. split; [reflexivity|]. split.
  { apply Nat2Z.inj. rewrite Hj. apply length_event. exact He. }
  exists (to_bytes e). split; [reflexivity|]. split; [reflexivity|]. split; [reflexivity|].
  split; [reflexivity|]. split; reflexivity.
Qed.

(** Every return, where nobody writes the memory of the map. *)
Lemma ret_frozen_owned μ w ret e :
  (forall p a, e = Some (p, a) -> args_wf a /\ μ p = a) ->
  owned (event_size db_event) (Some μ) w (handle_tcp_recvmsg_ret ret) (fresh_res e false)
    (alone_post (db_alone w (RecvRet ret) (snd <$> e))).
Proof using Type.
  intros He. destruct (db_reports (RecvRet ret)) eqn:Hr; [|by apply ret_quiet_owned].
  destruct e as [[p a]|].
  2: { unfold db_alone. rewrite Hr. unfold handle_tcp_recvmsg_ret. cbn. repeat split. }
  destruct (He p a eq_refl) as [[Hb Hp] Hμ]. unfold db_alone. rewrite Hr.
  assert (0 < ret) as Hret by (unfold db_reports in Hr; lia).
  pose proof (report_tail_owned (Some μ) w (recv_event w a (wrap 32 ret))
    (recv_event_wf w a _ (conj Hb Hp) (wrap_in_range 32 ret ltac:(done)))) as Htail.
  unfold handle_tcp_recvmsg_ret. rewrite copy_len_min. report_cbn. split; [reflexivity|].
  report_cbn. split; [reflexivity|]. intros x.
  destruct (Z.leb_spec ret 0); [lia|]. report_cbn. rewrite Hμ, Hb. cbn [Z.eqb negb andb]. report_cbn.
  rewrite Hμ. unfold recv_event, parked_read in *. rewrite <- pid_tgid_hi in *.
  destruct (Z.eqb_spec (sock_ptr a) 0) as [Hs|Hs];
    [rewrite !decide_True in * by done|rewrite !decide_False in * by done];
    cbn [negb]; report_cbn; rewrite ?Hμ, ?Hb; cbn [Z.eqb negb andb]; report_cbn; exact Htail.
Qed.
End alone.

(** ** The two promises *)

Section promises.
Context {HW : Helpers}.

(** Nobody reads what it deleted. *)
#[export] Program Instance db_quiet : Concurrent recvmsg_args db_call := {|
  cc_exec := db_exec;
  cc_size := event_size db_event;
  cc_steps := 21;
  cc_inserts := db_parks;
  cc_val_wf := args_wf;
  cc_frozen := false;
  cc_admits _ c := db_reports c = false;
  cc_alone := db_alone;
  cc_size_nonneg := event_size_nonneg _;
  cc_finishes := db_steps |}.
Next Obligation.
  intros w [sk msg len flags addr_len|ret] e μ Hc _; [apply recv_owned; by left|by apply ret_quiet_owned].
Qed.

(** Nobody inserts. *)
#[export] Program Instance db_frozen : Concurrent recvmsg_args db_call := {|
  cc_exec := db_exec;
  cc_size := event_size db_event;
  cc_steps := 21;
  cc_inserts := db_parks;
  cc_val_wf := args_wf;
  cc_frozen := true;
  cc_admits w c := db_parks w c = false;
  cc_alone := db_alone;
  cc_size_nonneg := event_size_nonneg _;
  cc_finishes := db_steps |}.
Next Obligation.
  intros w [sk msg len flags addr_len|ret] e μ Hc He; [apply recv_owned; by right|by apply ret_frozen_owned].
Qed.
End promises.

(** ** Property *)

Section probe.
Context {HW : Helpers} {HM : BpfHash recvmsg_args} {HR : Ringbuf}.

(** The threads' own invocations, interleaved and one by one. *)
Definition db_pool (calls : list (world * db_call)) : list (world * prog recvmsg_args Z) :=
  (λ wc, (wc.1, db_exec wc.2)) <$> calls.
Definition db_one_by_one (calls : list (world * db_call)) st : pstate recvmsg_args :=
  foldl (λ st wc, (run wc.1 (db_exec wc.2) st).2) st calls.

(** No element that is read once deleted can have been taken over: nobody
    reads, or nobody inserts. *)
Definition no_takeover (calls : list (world * db_call)) : Prop :=
  Forall (λ wc, db_reports wc.2 = false) calls \/ Forall (λ wc, db_parks wc.1 wc.2 = false) calls.

Lemma db_startable (CC : Concurrent recvmsg_args db_call) ls calls :
  cc_size = event_size db_event -> cc_inserts = db_parks -> cc_val_wf = args_wf ->
  Forall (λ wc, cc_admits wc.1 wc.2) calls ->
  NoDup (pids calls) ->
  Z.of_nat (size (hm_abs (ps_map (db_run ls db_init))) +
    length (filter (λ wc, db_parks wc.1 wc.2 = true) calls)) <= hm_max_entries ->
  ring_used (records (db_run ls db_init)) + ring_len sizeof_db_event * Z.of_nat (length calls) < rb_size ->
  startable (CC := CC) calls (db_run ls db_init).
Proof using Type.
  intros Hsz Hin Hwf Ha Hn He Hr. destruct (db_reachable ls) as (s & _ & Hrel). split.
  - apply (or_wf _ _ _ Hrel).
  - apply (or_settled _ _ _ Hrel).
  - rewrite (or_map _ _ _ Hrel), Hwf. apply (or_map_wf _ _ _ Hrel).
  - exact Ha.
  - exact Hn.
  - unfold inserting. rewrite Hin. exact He.
  - rewrite Hsz, <- db_size. exact Hr.
Qed.

(** [C13] Receives of different threads, starting and returning on several CPUs,
    may be interleaved in any way as long as no return reads its element while
    a receive on a database port starts: from any state of the probe with room
    for them, every schedule that gives each its 21 steps ends with all of them
    having returned 0, no record half-written, [recv_info] as if they had run
    one by one, and the same records as then up to their order. *)
Theorem db_probe_serializable ls calls sched :
  let st := db_run ls db_init in
  let end_ := run_pool sched (db_pool calls, st) in
  no_takeover calls -> NoDup (pids calls) ->
  Z.of_nat (size (hm_abs (ps_map st)) + length (filter (λ wc, db_parks wc.1 wc.2 = true) calls))
    <= hm_max_entries ->
  ring_used (records st) + ring_len sizeof_db_event * Z.of_nat (length calls) < rb_size ->
  (forall j, (j < length calls)%nat -> (21 <= count_occ Nat.eq_dec sched j)%nat) ->
  Forall (λ wp, wp.2 = Ret 0) end_.1 /\ settled end_.2 /\
  hm_abs (ps_map end_.2) = hm_abs (ps_map (db_one_by_one calls st)) /\
  records end_.2 ≡ₚ records (db_one_by_one calls st).
Proof using Type.
  intros st end_ [Ha|Ha] Hn He Hr Hs.
  - apply (serializable (CC := db_quiet)); [exact (db_startable db_quiet ls calls eq_refl eq_refl eq_refl Ha Hn He Hr)|exact Hs].
  - apply (serializable (CC := db_frozen)); [exact (db_startable db_frozen ls calls eq_refl eq_refl eq_refl Ha Hn He Hr)|exact Hs].
Qed.
End probe.

(** ** The race *)

Section takeover.
Context {HW : Helpers} {HM : BpfHash recvmsg_args} {HR : Ringbuf} {RM : Recycling HM}.

(** A start between the deletion of an element and the first read of it. *)
Lemma start_in_between wa ret k rest wb sk msg len flags addr_len st st' :
  run_pool (repeat 0%nat 3) ((wa, handle_tcp_recvmsg_ret ret) :: rest, st) = ((wa, k) :: rest, st') ->
  rest = [(wb, handle_tcp_recvmsg sk msg len flags addr_len)] ->
  let st2 := (run wb (handle_tcp_recvmsg sk msg len flags addr_len) st').2 in
  exists sched, run_pool sched ((wa, handle_tcp_recvmsg_ret ret) :: rest, st) =
    ([(wa, Ret (run wa k st2).1); (wb, Ret 0)], (run wa k st2).2).
Proof using Type.
  intros Hstart -> st2.
  destruct (run_alone wb (handle_tcp_recvmsg sk msg len flags addr_len) [(wa, k)] [] st') as [n Hn].
  destruct (run_alone wa k [] [(wb, Ret 0)] st2) as [n' Hn'].
  exists (repeat 0%nat 3 ++ repeat 1%nat n ++ repeat 0%nat n').
  unfold run_pool in *. rewrite !foldl_app, Hstart.
  cbn [app length] in Hn, Hn'. rewrite Hn, run_recv. rewrite <- Hn'. unfold st2. by rewrite run_recv.
Qed.

(** A pending receive's return with bytes to report appends one event of [a],
    provided [k] is what is left of it and the memory at [p] holds [a]. *)
Lemma tail_reports w ret p k a st :
  (forall st a, hm_load p (ps_map st) = a -> args_wf a ->
    run w k st = (0, (run w (emit (mret (recv_event w a (wrap 32 ret))) to_bytes sizeof_db_event 0 0) st).2)) ->
  ps_wf st -> settled st -> hm_load p (ps_map st) = a -> args_wf a -> ~ ring_full st sizeof_db_event ->
  (run w k st).1 = 0 /\ ps_map (run w k st).2 = ps_map st /\
  records (run w k st).2 = records st ++ [to_bytes (recv_event w a (wrap 32 ret))].
Proof using Type.
  intros Hk Hwf Hset Hl Ha Hroom. rewrite (Hk st a Hl Ha). split; [done|]. cbn [snd].
  assert (db_event_wf (recv_event w a (wrap 32 ret))) as He by (by apply recv_event_wf, wrap_in_range).
  pose proof (length_event _ He) as Hlen. rewrite <- db_size in Hlen.
  destruct (run_emit w (mret (recv_event w a (wrap 32 ret))) to_bytes _ sizeof_db_event 0 0 st Hwf Hset Hlen
    ltac:(done)) as [(_ & _ & Hm & [Hr|[_ Hfull]]) _]; [by split|].
  rewrite Hlen in Hfull. destruct (Hroom Hfull).
Qed.

(** [C14] The element is read after it was deleted.  On every runtime that
    recycles elements and in every state the probe can reach: when a thread
    with a receive in progress returns from it with bytes, and a thread without
    one starts to receive from a database, they can be interleaved so that the
    first reports the port, the addresses and the local port of the second
    one's socket under its own process; run one by one it reports its own. *)
Theorem args_read_after_delete ls wa a ret wb sk msg len flags addr_len :
  let st := db_run ls db_init in
  hm_abs (ps_map st) !! w_pid_tgid wa = Some a -> 0 < ret ->
  hm_abs (ps_map st) !! w_pid_tgid wb = None -> dst_port (recv_args wb sk) ∈ db_ports ->
  ~ ring_full st sizeof_db_event ->
  records (run wa (handle_tcp_recvmsg_ret ret) st).2 =
    records st ++ [to_bytes (recv_event wa a (wrap 32 ret))] /\
  exists sched,
    let r := run_pool sched ([(wa, handle_tcp_recvmsg_ret ret);
                              (wb, handle_tcp_recvmsg sk msg len flags addr_len)], st) in
    snd <$> r.1 = [Ret 0; Ret 0] /\
    records r.2 = records st ++ [to_bytes (recv_event wa (recv_args wb sk) (wrap 32 ret))] /\
    hm_abs (ps_map r.2) = <[w_pid_tgid wb := recv_args wb sk]> (delete (w_pid_tgid wa) (hm_abs (ps_map st))).
Proof using RM.
  intros st Ha Hret Hb Hport Hring. destruct (db_reachable ls) as (s & _ & Hrel). fold st in Hrel.
  pose proof (or_wf _ _ _ Hrel) as [Hm Hr]. pose proof (or_settled _ _ _ Hrel) as Hset.
  assert (args_wf a) as Hwf by (rewrite (or_map _ _ _ Hrel) in Ha; exact (or_map_wf _ _ _ Hrel _ _ Ha)).
  destruct (hm_lookup_some _ _ _ Hm Ha) as (p & Hp & Hl). apply hm_lookup_none in Hb; [|done].
  destruct (recv_ret_tail wa ret p Hret) as (k & Hrun & Hk).
  destruct (Hrun [(wb, handle_tcp_recvmsg sk msg len flags addr_len)] st Hp) as [Hstart Halone].
  destruct (start_in_between wa ret k _ wb sk msg len flags addr_len st _ Hstart eq_refl) as [sched Hs].
  destruct (recycled_update _ _ _ p (recv_args wb sk) Hm Hp Hb) as (Hm' & Hl' & Habs).
  split.
  - rewrite Halone.
    destruct (tail_reports wa ret p k a (with_map st (hm_delete (w_pid_tgid wa) (ps_map st)).2) Hk)
      as (_ & _ & Hrec); [|exact Hset| |exact Hwf|exact Hring|exact Hrec].
    + split; [by apply hm_delete_wf|exact Hr].
    + cbn [ps_map with_map]. by rewrite hm_delete_load.
  - exists sched. cbv zeta. rewrite Hs, run_recv, decide_True by done. cbn [fst snd fmap list_fmap].
    destruct (tail_reports wa ret p k (recv_args wb sk)
      (with_map (with_map st (hm_delete (w_pid_tgid wa) (ps_map st)).2)
        (hm_update (w_pid_tgid wb) (recv_args wb sk) BPF_ANY (hm_delete (w_pid_tgid wa) (ps_map st)).2).2) Hk)
      as (Hrc & Hmap & Hrec); [by split|exact Hset|exact Hl'|by split|exact Hring|].
    cbn [ps_map with_map] in *. rewrite Hrc, Hmap, Hrec. by split_and!.
Qed.
End takeover.

Section witnesses.
#[local] Existing Instances ref_helpers ref_recv_hash ref_ring256.

(** The receives of two threads return at once. *)
Definition racing_returns : list (world * db_call) := [(w_pg, RecvRet 10); (w_redis, RecvRet 20)].

Lemma db_probe_serializable_witness :
  let st := db_run [Invoke w_pg (Recv 4096 0 0 0 0); Invoke w_redis (Recv 8192 0 0 0 0)] db_init in
  let end_ := run_pool (round_robin 21 2) (db_pool racing_returns, st) in
  Forall (λ wp, wp.2 = Ret 0) end_.1 /\ settled end_.2 /\
  hm_abs (ps_map end_.2) = hm_abs (ps_map (db_one_by_one racing_returns st)) /\
  records end_.2 ≡ₚ records (db_one_by_one racing_returns st).
Proof.
  apply (db_probe_serializable [Invoke w_pg (Recv 4096 0 0 0 0); Invoke w_redis (Recv 8192 0 0 0 0)]
    racing_returns (round_robin 21 2)).
  - right. repeat constructor.
  - apply (bool_decide_unpack _). vm_compute. exact I.
  - vm_compute. discriminate.
  - vm_compute. reflexivity.
  - intros j. apply (round_robin_fair 21 2).
Defined.

(** The return of process 42 from a PostgreSQL server, and a receive of process
    43 from a Redis server: the event has port 6379 instead of 5432. *)
Lemma args_read_after_delete_witness :
  let st := db_run [Invoke w_pg (Recv 4096 0 0 0 0)] db_init in
  records (run w_pg (handle_tcp_recvmsg_ret 10) st).2 =
    records st ++ [to_bytes (recv_event w_pg (recv_args w_pg 4096) (wrap 32 10))] /\
  exists sched,
    let r := run_pool sched ([(w_pg, handle_tcp_recvmsg_ret 10);
                              (w_redis, handle_tcp_recvmsg 8192 0 0 0 0)], st) in
    snd <$> r.1 = [Ret 0; Ret 0] /\
    records r.2 = records st ++ [to_bytes (recv_event w_pg (recv_args w_redis 8192) (wrap 32 10))] /\
    hm_abs (ps_map r.2) = <[w_pid_tgid w_redis := recv_args w_redis 8192]>
      (delete (w_pid_tgid w_pg) (hm_abs (ps_map st))).
Proof.
  apply (args_read_after_delete (RM := ref_hash_recycling recvmsg_args 10240)
    [Invoke w_pg (Recv 4096 0 0 0 0)] w_pg (recv_args w_pg 4096) 10 w_redis 8192 0 0 0 0).
  - vm_compute. reflexivity.
  - reflexivity.
  - vm_compute. reflexivity.
  - apply (bool_decide_unpack _). vm_compute. exact I.
  - apply not_ring_full. vm_compute. reflexivity.
Defined.
Example race_ports : dst_port (recv_args w_pg 4096) = 5432 /\ dst_port (recv_args w_redis 8192) = 6379.
Proof. split; vm_compute; reflexivity. Qed.
End witnesses.
