(* ===== verification/RustSlice.v ===== *)
(** * Slices of the userspace side

    What the consumers use of Rust's byte slices and of [Result].  An index or
    a range outside a slice panics; functions that index return [None] for a
    panic (or for a loop that has not ended within its fuel), so that "never
    [None]" says both that they do not panic and that they terminate. *)

From S2P Require Import Prelude Bytes.

#[local] Open Scope list_scope.
#[local] Open Scope Z_scope.

Abbreviation panics A := (option A).

Inductive result (A : Type) := Ok (a : A) | Err (context : list byte).
Arguments Ok {A}. Arguments Err {A}.

Definition len (data : list byte) : Z := Z.of_nat (length data).

Lemma len_nonneg data : 0 <= len data.
Proof. unfold len. lia. Qed.

(** [data[i]] *)
Definition idx (data : list byte) (i : Z) : panics Z :=
  if i <? 0 then None else Z_of_byte <$> data !! Z.to_nat i.

(** [&data[a..b]] *)
Definition range (data : list byte) (a b : Z) : panics (list byte) :=
  if (0 <=? a) && (a <=? b) && (b <=? len data)
  then Some (slice (Z.to_nat a) (Z.to_nat (b - a)) data) else None.

(** [&data[a..]] *)
Definition range_from (data : list byte) (a : Z) : panics (list byte) :=
  if (0 <=? a) && (a <=? len data) then Some (drop (Z.to_nat a) data) else None.

(** [data.iter().position(|&b| b == x)] *)
Fixpoint position (x : byte) (data : list byte) : option nat :=
  match data with
  | [] => None
  | b :: data => if bool_decide (b = x) then Some 0%nat else S <$> position x data
  end.

(** ** Indexing succeeds inside the slice *)

Lemma idx_in data i :
  0 <= i < len data -> exists b, data !! Z.to_nat i = Some b /\ idx data i = Some (Z_of_byte b).
Proof.
  unfold len, idx. intros Hi. destruct (lookup_lt_is_Some_2 data (Z.to_nat i) ltac:(lia)) as [b Hb].
  exists b. split; [done|]. rewrite (proj2 (Z.ltb_ge _ _)) by lia. by rewrite Hb.
Qed.

Lemma idx_some data i : 0 <= i < len data -> exists z, idx data i = Some z /\ 0 <= z < 256.
Proof. intros (b & _ & ->)%idx_in. eexists. split; [done|]. apply Z_of_byte_range. Qed.

Lemma range_some data a b :
  0 <= a <= b -> b <= len data ->
  range data a b = Some (slice (Z.to_nat a) (Z.to_nat (b - a)) data).
Proof.
  intros. unfold range.
  destruct (Z.leb_spec 0 a), (Z.leb_spec a b), (Z.leb_spec b (len data)); simpl; done || lia.
Qed.

Lemma range_from_some data a : 0 <= a <= len data -> range_from data a = Some (drop (Z.to_nat a) data).
Proof. intros. unfold range_from. destruct (Z.leb_spec 0 a), (Z.leb_spec a (len data)); simpl; done || lia. Qed.

Lemma range_from_app pre post : range_from (pre ++ post) (len pre) = Some post.
Proof.
  rewrite range_from_some by (unfold len; rewrite length_app; lia). f_equal.
  unfold len. by rewrite Nat2Z.id, drop_app_length.
Qed.

Lemma idx_app_cons pre b post : idx (pre ++ b :: post) (len pre) = Some (Z_of_byte b).
Proof.
  unfold idx, len. rewrite (proj2 (Z.ltb_ge _ _)) by lia. by rewrite Nat2Z.id, list_lookup_middle.
Qed.

Lemma position_none x data : x ∉ data -> position x data = None.
Proof.
  induction data as [|b data IH]; [done|]. intros [Hb Hd]%not_elem_of_cons. simpl.
  rewrite bool_decide_false by done. by rewrite IH.
Qed.

Lemma position_app x pre post : x ∉ pre -> position x (pre ++ x :: post) = Some (length pre).
Proof.
  induction pre as [|b pre IH]; intros Hx; simpl.
  - by rewrite bool_decide_true.
  - apply not_elem_of_cons in Hx as [Hb Hd]. rewrite bool_decide_false by done. by rewrite IH.
Qed.

Lemma position_lt x data i : position x data = Some i -> (i < length data)%nat.
Proof.
  revert i. induction data as [|b data IH]; intros i; [done|]. simpl. case_bool_decide.
  - intros [= <-]. lia.
  - destruct (position x data) as [j|]; [|done]. intros [= <-]. specialize (IH j eq_refl). lia.
Qed.

(** ** Bytes of integers *)

Lemma lor_shiftl a b n : 0 <= n -> 0 <= b < 2 ^ n -> Z.lor (Z.shiftl a n) b = a * 2 ^ n + b.
Proof.
  intros Hn Hb. rewrite Z.shiftl_mul_pow2 by done.
  enough (Z.land (a * 2 ^ n) b = 0) as H0 by (pose proof (Z.add_lor_land (a * 2 ^ n) b); lia).
  apply Z.bits_inj'. intros i Hi. rewrite Z.land_spec, Z.bits_0.
  destruct (decide (i < n)).
  - by rewrite Z.mul_pow2_bits_low by lia.
  - rewrite <- (Z.mod_small b (2 ^ n)) by lia. rewrite Z.mod_pow2_bits_high by lia. apply andb_false_r.
Qed.

Lemma lor_shiftl_r a b n : 0 <= n -> 0 <= b < 2 ^ n -> Z.lor b (Z.shiftl a n) = a * 2 ^ n + b.
Proof. intros. rewrite Z.lor_comm. by apply lor_shiftl. Qed.
