(* ===== verification/RustStr.v ===== *)
(** * Strings of the userspace side

    What the consumers use of Rust's strings: UTF-8 validation and lossy
    conversion of byte slices ([from_utf8], [from_utf8_lossy]), the splitting
    functions [lines], [split_whitespace], [trim], [split_byte] and [split_crlf],
    decimal formatting and parsing, upper case.  A string is its list of UTF-8
    bytes. *)

From Stdlib Require Import DecimalString DecimalZ DecimalFacts.
From S2P Require Import Prelude Bytes.

#[local] Open Scope list_scope.
#[local] Open Scope Z_scope.

(** ** UTF-8 *)

Definition is_cont (z : Z) : bool := (128 <=? z) && (z <=? 191).
Definition between (lo hi z : Z) : bool := (lo <=? z) && (z <=? hi).

(** The character, or the maximal invalid sequence, that a non-empty slice
    starts with: whether it is a character, and its length. *)
Definition utf8_next (bs : list byte) : bool * nat :=
  let at_ i := default 0 (Z_of_byte <$> bs !! i) in
  let b0 := at_ 0%nat in let b1 := at_ 1%nat in let b2 := at_ 2%nat in let b3 := at_ 3%nat in
  if b0 <? 128 then (true, 1%nat)
  else if between 0xc2 0xdf b0 then if is_cont b1 then (true, 2%nat) else (false, 1%nat)
  else if between 0xe0 0xef b0 then
    if (if b0 =? 0xe0 then between 0xa0 0xbf b1
        else if b0 =? 0xed then between 0x80 0x9f b1 else is_cont b1)
    then if is_cont b2 then (true, 3%nat) else (false, 2%nat)
    else (false, 1%nat)
  else if between 0xf0 0xf4 b0 then
    if (if b0 =? 0xf0 then between 0x90 0xbf b1
        else if b0 =? 0xf4 then between 0x80 0x8f b1 else is_cont b1)
    then if is_cont b2 then if is_cont b3 then (true, 4%nat) else (false, 3%nat) else (false, 2%nat)
    else (false, 1%nat)
  else (false, 1%nat).

Fixpoint utf8_split (fuel : nat) (bs : list byte) : list (bool * list byte) :=
  match fuel, bs with
  | O, _ | _, [] => []
  | S fuel, _ =>
      let '(ok, n) := utf8_next bs in (ok, take n bs) :: utf8_split fuel (drop n bs)
  end.

(** One step per byte is enough: each takes at least one. *)
Definition utf8_units (bs : list byte) : list (bool * list byte) := utf8_split (length bs) bs.

(** [std::str::from_utf8(bs).is_ok()] *)
Definition utf8_valid (bs : list byte) : bool := forallb fst (utf8_units bs).

(** [String::from_utf8_lossy] *)
Definition replacement : list byte := [xef; xbf; xbd].
Definition from_utf8_lossy (bs : list byte) : list byte :=
  concat ((λ u : bool * list byte, if u.1 then u.2 else replacement) <$> utf8_units bs).

Lemma utf8_next_pos bs : exists n, (utf8_next bs).2 = S n.
Proof. unfold utf8_next. repeat case_match; simpl; eauto. Qed.

Lemma utf8_split_concat fuel bs :
  (length bs <= fuel)%nat -> concat ((utf8_split fuel bs).*2) = bs.
Proof.
  revert bs. induction fuel as [|fuel IH]; intros [|b bs] Hf; try done; [simpl in Hf; lia|].
  cbn [utf8_split]. destruct (utf8_next_pos (b :: bs)) as [n Hn].
  destruct (utf8_next (b :: bs)) as [ok k]. simpl in Hn. subst k. csimpl.
  rewrite IH; [by rewrite take_drop|]. rewrite length_drop. simpl in Hf. lia.
Qed.

Lemma utf8_units_concat bs : concat ((utf8_units bs).*2) = bs.
Proof. by apply utf8_split_concat. Qed.

(** A valid slice is converted as it is. *)
Lemma from_utf8_lossy_valid bs : utf8_valid bs = true -> from_utf8_lossy bs = bs.
Proof.
  unfold utf8_valid, from_utf8_lossy. intros H. rewrite <- (utf8_units_concat bs) at 2. f_equal.
  induction (utf8_units bs) as [|[ok u] us IH]; [done|]. simpl in H.
  apply andb_true_iff in H as [-> H]. csimpl. by rewrite IH.
Qed.

Definition is_ascii (bs : list byte) : Prop := Forall (λ b, Z_of_byte b < 128) bs.

#[global] Instance is_ascii_dec bs : Decision (is_ascii bs).
Proof. unfold is_ascii. apply _. Defined.

Lemma utf8_next_ascii b bs : Z_of_byte b < 128 -> utf8_next (b :: bs) = (true, 1%nat).
Proof. intros Hb. unfold utf8_next. simpl. by rewrite (proj2 (Z.ltb_lt _ _) Hb). Qed.

Lemma utf8_split_ascii fuel bs :
  is_ascii bs -> (length bs <= fuel)%nat -> utf8_split fuel bs = (λ b, (true, [b])) <$> bs.
Proof.
  intros Ha. revert fuel. induction Ha as [|b bs Hb _ IH]; intros [|fuel] Hf; try done.
  { simpl in Hf. lia. }
  cbn [utf8_split]. rewrite utf8_next_ascii by done. cbn [take drop]. simpl in Hf.
  rewrite drop_0, take_0, IH by lia. done.
Qed.

Lemma utf8_valid_ascii bs : is_ascii bs -> utf8_valid bs = true.
Proof.
  intros Ha. unfold utf8_valid, utf8_units. rewrite utf8_split_ascii by done. clear Ha.
  induction bs; simpl; done.
Qed.

Lemma from_utf8_lossy_ascii bs : is_ascii bs -> from_utf8_lossy bs = bs.
Proof. intros. by apply from_utf8_lossy_valid, utf8_valid_ascii. Qed.

(** ** Decimal formatting *)

(** [format!("{}", n)] *)
Definition dec (n : Z) : list byte := ascii_bytes (NilZero.string_of_int (Z.to_int n)).

(** ** Splitting *)

(** [char::is_whitespace], on the bytes of one character. *)
Definition is_whitespace (u : list byte) : bool :=
  match u with
  | [b] => between 9 13 (Z_of_byte b) || (Z_of_byte b =? 32)
  | [xc2; b] => (Z_of_byte b =? 0x85) || (Z_of_byte b =? 0xa0)
  | [xe1; x9a; x80] => true
  | [xe2; x80; b] =>
      between 0x80 0x8a (Z_of_byte b) || (Z_of_byte b =? 0xa8) || (Z_of_byte b =? 0xa9) ||
      (Z_of_byte b =? 0xaf)
  | [xe2; x81; x9f] => true
  | [xe3; x80; x80] => true
  | _ => false
  end.

Definition chars_of (s : list byte) : list (list byte) := (utf8_units s).*2.

Fixpoint split_ws (us : list (list byte)) (word : list byte) : list (list byte) :=
  let flush rest := match word with [] => rest | _ => word :: rest end in
  match us with
  | [] => flush []
  | u :: us => if is_whitespace u then flush (split_ws us []) else split_ws us (word ++ u)
  end.

Definition split_whitespace (s : list byte) : list (list byte) := split_ws (chars_of s) [].

Fixpoint trim_start_chars (us : list (list byte)) : list (list byte) :=
  match us with
  | u :: us' => if is_whitespace u then trim_start_chars us' else us
  | [] => []
  end.

Definition trim (s : list byte) : list byte :=
  concat (rev (trim_start_chars (rev (trim_start_chars (chars_of s))))).

(** [str::lines]: a line ends with LF or CR LF, which are not part of it; what
    follows the last LF is a line unless it is empty. *)
Definition strip_cr (rline : list byte) : list byte :=
  match rline with x0d :: l => rev l | _ => rev rline end.

(** [rline] is the current line, last byte first. *)
Fixpoint lines_from (rline bs : list byte) : list (list byte) :=
  match bs with
  | [] => match rline with [] => [] | _ => [rev rline] end
  | b :: bs =>
      if bool_decide (b = x0a) then strip_cr rline :: lines_from [] bs
      else lines_from (b :: rline) bs
  end.

Definition lines (s : list byte) : list (list byte) := lines_from [] s.

(** ** Characters *)

(** The bytes of one character. *)
Definition is_char (u : list byte) : Prop := u <> [] /\ utf8_next u = (true, length u).

(** Byte [i] of a slice, 0 past its end. *)
Definition at_or_0 (bs : list byte) (i : nat) : Z := default 0 (Z_of_byte <$> bs !! i).

Lemma at_or_0_app u v i : at_or_0 u i <> 0 \/ (i < length u)%nat -> at_or_0 (u ++ v) i = at_or_0 u i.
Proof.
  unfold at_or_0. intros Hi. rewrite lookup_app.
  destruct (u !! i) eqn:Hu; [done|]. apply lookup_ge_None in Hu. destruct Hi as [[]|]; [done|lia].
Qed.

Lemma at_or_0_in bs i : at_or_0 bs i <> 0 -> (i < length bs)%nat.
Proof. unfold at_or_0. destruct (bs !! i) eqn:Hb; [|done]. intros _. by eapply lookup_lt_Some. Qed.

Lemma at_or_0_take n bs i : (i < n)%nat -> at_or_0 (take n bs) i = at_or_0 bs i.
Proof. intros Hi. unfold at_or_0. by rewrite lookup_take_lt. Qed.

(** What the second byte of a character of three or four bytes may be. *)
Definition second3 (b0 b1 : Z) : bool :=
  if b0 =? 0xe0 then between 0xa0 0xbf b1 else if b0 =? 0xed then between 0x80 0x9f b1 else is_cont b1.
Definition second4 (b0 b1 : Z) : bool :=
  if b0 =? 0xf0 then between 0x90 0xbf b1 else if b0 =? 0xf4 then between 0x80 0x8f b1 else is_cont b1.

(** The table of well-formed byte sequences of the Unicode standard. *)
Inductive char_shape (at_ : nat -> Z) : nat -> Prop :=
  | Shape1 : (at_ 0%nat <? 128) = true -> char_shape at_ 1
  | Shape2 : between 0xc2 0xdf (at_ 0%nat) = true -> is_cont (at_ 1%nat) = true -> char_shape at_ 2
  | Shape3 : between 0xe0 0xef (at_ 0%nat) = true -> second3 (at_ 0%nat) (at_ 1%nat) = true ->
      is_cont (at_ 2%nat) = true -> char_shape at_ 3
  | Shape4 : between 0xf0 0xf4 (at_ 0%nat) = true -> second4 (at_ 0%nat) (at_ 1%nat) = true ->
      is_cont (at_ 2%nat) = true -> is_cont (at_ 3%nat) = true -> char_shape at_ 4.

Lemma utf8_next_shape bs n : utf8_next bs = (true, n) <-> char_shape (at_or_0 bs) n.
Proof.
  unfold utf8_next. cbv zeta.
  change (default 0 (Z_of_byte <$> bs !! 0%nat)) with (at_or_0 bs 0).
  change (default 0 (Z_of_byte <$> bs !! 1%nat)) with (at_or_0 bs 1).
  change (default 0 (Z_of_byte <$> bs !! 2%nat)) with (at_or_0 bs 2).
  change (default 0 (Z_of_byte <$> bs !! 3%nat)) with (at_or_0 bs 3).
  generalize (at_or_0 bs) as at_. intros at_.
  change (if at_ 0%nat =? 0xe0 then between 0xa0 0xbf (at_ 1%nat) else
    if at_ 0%nat =? 0xed then between 0x80 0x9f (at_ 1%nat) else is_cont (at_ 1%nat))
    with (second3 (at_ 0%nat) (at_ 1%nat)).
  change (if at_ 0%nat =? 0xf0 then between 0x90 0xbf (at_ 1%nat) else
    if at_ 0%nat =? 0xf4 then between 0x80 0x8f (at_ 1%nat) else is_cont (at_ 1%nat))
    with (second4 (at_ 0%nat) (at_ 1%nat)).
  split.
  - repeat case_match; intros [= <-]; by econstructor.
  - destruct 1 as [H0|H0 H1|H0 H1 H2|H0 H1 H2 H3]; rewrite ?H1, ?H2, ?H3; unfold between in *;
      repeat case_match; done || (exfalso; lia).
Qed.

Lemma second_nonzero b0 b1 : second3 b0 b1 = true \/ second4 b0 b1 = true -> b1 <> 0.
Proof. intros [H|H] ->; revert H; unfold second3, second4; by repeat case_match. Qed.

Lemma is_cont_nonzero z : is_cont z = true -> z <> 0.
Proof. by intros H ->. Qed.

#[local] Hint Resolve second_nonzero is_cont_nonzero : core.

Lemma char_shape_ext at_ at' n :
  char_shape at_ n -> (forall i, i = 0%nat \/ (at_ i <> 0 /\ (i < n)%nat) -> at' i = at_ i) -> char_shape at' n.
Proof.
  intros Hs Hat. destruct Hs as [H0|H0 H1|H0 H1 H2|H0 H1 H2 H3]; rewrite <- (Hat 0%nat) in * by auto.
  - by constructor.
  - apply Shape2; [done|]. rewrite (Hat 1%nat) by eauto. done.
  - apply Shape3; [done|rewrite (Hat 1%nat)|rewrite (Hat 2%nat)]; try done; right; split; (lia || eauto).
  - apply Shape4; [done|rewrite (Hat 1%nat)|rewrite (Hat 2%nat)|rewrite (Hat 3%nat)]; try done;
      right; split; (lia || eauto).
Qed.

Lemma utf8_next_app u v n : u <> [] -> utf8_next u = (true, n) -> utf8_next (u ++ v) = (true, n).
Proof.
  intros Hu. rewrite !utf8_next_shape. intros Hs. apply (char_shape_ext _ _ _ Hs).
  intros i Hi. apply at_or_0_app. destruct Hi as [->|[Hi _]]; [right; by destruct u; simpl; [|lia]|by left].
Qed.

Lemma utf8_next_take bs n :
  bs <> [] -> utf8_next bs = (true, n) -> is_char (take n bs) /\ (n <= length bs)%nat.
Proof.
  intros Hbs Hn. apply utf8_next_shape in Hn as Hs.
  assert (0 < n <= length bs)%nat as Hle.
  { destruct Hs; (split; [lia|]); [destruct bs; simpl; done || lia|..]; apply at_or_0_in; eauto. }
  split; [|lia]. split; [destruct bs, n; simpl in *; done || lia|].
  rewrite length_take_le by lia. apply utf8_next_shape, (char_shape_ext _ _ _ Hs).
  intros i Hi. apply at_or_0_take. lia.
Qed.

Lemma utf8_split_fuel f f' bs :
  (length bs <= f)%nat -> (length bs <= f')%nat -> utf8_split f bs = utf8_split f' bs.
Proof.
  revert f' bs. induction f as [|f IH]; intros [|f'] [|b bs] Hf Hf'; try done; try (simpl in *; lia).
  cbn [utf8_split]. destruct (utf8_next_pos (b :: bs)) as [n Hn].
  destruct (utf8_next (b :: bs)) as [ok k]. simpl in Hn. subst k. f_equal.
  apply IH; rewrite length_drop; simpl in *; lia.
Qed.

Lemma utf8_units_char u v : is_char u -> utf8_units (u ++ v) = (true, u) :: utf8_units v.
Proof.
  intros [Hu Hn]. unfold utf8_units. destruct u as [|b u]; [done|]. cbn [length app utf8_split].
  change (b :: u ++ v) with ((b :: u) ++ v).
  rewrite (utf8_next_app (b :: u) v _ Hu Hn), take_app_length, drop_app_length. f_equal.
  apply utf8_split_fuel; rewrite ?length_app; lia.
Qed.

Lemma utf8_units_chars us : Forall is_char us -> utf8_units (concat us) = (λ u, (true, u)) <$> us.
Proof.
  induction 1 as [|u us Hu _ IH]; [done|]. cbn [concat]. by rewrite utf8_units_char, IH.
Qed.

Lemma chars_of_concat us : Forall is_char us -> chars_of (concat us) = us.
Proof.
  intros Hus. unfold chars_of. rewrite utf8_units_chars by done.
  rewrite <- list_fmap_compose. by apply list_fmap_id.
Qed.

Lemma utf8_valid_concat us : Forall is_char us -> utf8_valid (concat us) = true.
Proof.
  intros Hus. unfold utf8_valid. rewrite utf8_units_chars by done. clear Hus.
  by induction us.
Qed.

Lemma chars_of_valid s : utf8_valid s = true -> Forall is_char (chars_of s).
Proof.
  unfold utf8_valid, chars_of, utf8_units. generalize (length s) as f. intros f. revert s.
  induction f as [|f IH]; intros [|b s]; [constructor..|]. cbn [utf8_split].
  destruct (utf8_next (b :: s)) as [ok n] eqn:Hn. simpl. intros [-> Hv]%andb_true_iff.
  apply utf8_next_take in Hn as [Hc _]; [|done]. constructor; [done|by apply IH].
Qed.

Lemma chars_of_char u : is_char u -> chars_of u = [u].
Proof.
  intros Hu. rewrite <- (app_nil_r u) at 1. change (u ++ []) with (concat [u]).
  apply chars_of_concat. by constructor.
Qed.

Lemma char_valid u : is_char u -> utf8_valid u = true.
Proof.
  intros Hu. rewrite <- (app_nil_r u). change (u ++ []) with (concat [u]).
  apply utf8_valid_concat. by constructor.
Qed.

Lemma concat_chars_of s : concat (chars_of s) = s.
Proof. apply utf8_units_concat. Qed.

(** A valid string is a sequence of characters. *)
Lemma valid_chars s : utf8_valid s = true -> exists us, Forall is_char us /\ s = concat us.
Proof. intros Hs. exists (chars_of s). by rewrite concat_chars_of; split; [apply chars_of_valid|]. Qed.

Lemma replacement_char : is_char replacement.
Proof. by split. Qed.

(** A lossy conversion is a valid string. *)
Lemma from_utf8_lossy_is_valid bs : utf8_valid (from_utf8_lossy bs) = true.
Proof.
  unfold from_utf8_lossy. apply utf8_valid_concat, Forall_fmap. unfold utf8_units.
  generalize (length bs) as f. intros f. revert bs.
  induction f as [|f IH]; intros [|b s]; [constructor..|]. cbn [utf8_split].
  destruct (utf8_next (b :: s)) as [[] n] eqn:Hn; constructor; simpl; try apply IH.
  - by apply utf8_next_take in Hn as [Hc _].
  - apply replacement_char.
Qed.

Lemma utf8_valid_app s t : utf8_valid s = true -> utf8_valid t = true -> utf8_valid (s ++ t) = true.
Proof.
  intros (us & Hus & ->)%valid_chars (vs & Hvs & ->)%valid_chars.
  rewrite <- concat_app. by apply utf8_valid_concat, Forall_app_2.
Qed.

Lemma chars_of_app s t :
  utf8_valid s = true -> utf8_valid t = true -> chars_of (s ++ t) = chars_of s ++ chars_of t.
Proof.
  intros (us & Hus & ->)%valid_chars (vs & Hvs & ->)%valid_chars.
  by rewrite <- concat_app, !chars_of_concat by (try apply Forall_app_2; done).
Qed.

Lemma is_char_ascii b : Z_of_byte b < 128 -> is_char [b].
Proof. intros Hb. split; [done|]. by rewrite utf8_next_ascii. Qed.

(** ** Words *)

Lemma split_ws_space u us acc :
  is_whitespace u = true -> split_ws (u :: us) acc =
    match acc with [] => split_ws us [] | _ => acc :: split_ws us [] end.
Proof. intros Hu. simpl. by rewrite Hu. Qed.

Lemma split_ws_word w us acc :
  Forall (λ u, is_whitespace u = false) w -> split_ws (w ++ us) acc = split_ws us (acc ++ concat w).
Proof.
  intros Hw. revert acc. induction Hw as [|u w Hu _ IH]; intros acc; [by rewrite app_nil_r|].
  simpl. by rewrite Hu, IH, <- app_assoc.
Qed.

Lemma trim_start_split us : split_ws (trim_start_chars us) [] = split_ws us [].
Proof.
  induction us as [|u us IH]; [done|]. simpl. destruct (is_whitespace u) eqn:Hu; [done|].
  simpl. by rewrite Hu.
Qed.

Lemma split_ws_trailing us ws acc :
  Forall (λ u, is_whitespace u = true) ws -> split_ws (us ++ ws) acc = split_ws us acc.
Proof.
  intros Hws. revert acc. induction us as [|u us IH]; intros acc; simpl; [|by rewrite !IH].
  revert acc. induction Hws as [|u ws Hu _ IH]; intros acc; [done|]. simpl. rewrite Hu, (IH []).
  by destruct acc.
Qed.

Lemma trim_start_suffix us : exists ws, us = ws ++ trim_start_chars us /\ Forall (λ u, is_whitespace u = true) ws.
Proof.
  induction us as [|u us (ws & Hus & Hws)]; [by exists []|]. simpl. destruct (is_whitespace u) eqn:Hu.
  - exists (u :: ws). split; [by rewrite Hus at 1|by constructor].
  - by exists [].
Qed.

(** The characters of a trimmed string. *)
Definition trim_chars (us : list (list byte)) : list (list byte) :=
  rev (trim_start_chars (rev (trim_start_chars us))).

Lemma trim_end_split vs :
  split_ws (rev (trim_start_chars (rev vs))) [] = split_ws vs [].
Proof.
  destruct (trim_start_suffix (rev vs)) as (ws & Hvs & Hws).
  transitivity (split_ws (rev (trim_start_chars (rev vs)) ++ rev ws) []).
  { symmetry. apply split_ws_trailing. by apply Forall_rev. }
  by rewrite <- rev_app_distr, <- Hvs, rev_involutive.
Qed.

Lemma trim_chars_split us : split_ws (trim_chars us) [] = split_ws us [].
Proof. unfold trim_chars. by rewrite trim_end_split, trim_start_split. Qed.

Lemma trim_chars_ok us : Forall is_char us -> Forall is_char (trim_chars us).
Proof.
  assert (forall vs, Forall is_char vs -> Forall is_char (trim_start_chars vs)) as H.
  { intros vs Hvs. destruct (trim_start_suffix vs) as (ws & Heq & _). rewrite Heq in Hvs.
    by apply Forall_app in Hvs as [_ ?]. }
  intros Hus. by apply Forall_rev, H, Forall_rev, H.
Qed.

Lemma trim_valid s : utf8_valid s = true -> utf8_valid (trim s) = true.
Proof. intros Hs. by apply utf8_valid_concat, trim_chars_ok, chars_of_valid. Qed.

(** Trimming keeps the words. *)
Lemma split_whitespace_trim s : utf8_valid s = true -> split_whitespace (trim s) = split_whitespace s.
Proof.
  intros Hs. unfold split_whitespace, trim.
  rewrite chars_of_concat by (by apply trim_chars_ok, chars_of_valid). apply trim_chars_split.
Qed.

(** ** Upper case *)

Definition ascii_upper (b : byte) : byte :=
  let z := Z_of_byte b in if between 97 122 z then byte_of_Z (z - 32) else b.

(** The lower case of an ASCII letter, and of the ASCII letters of a string. *)
Definition ascii_lower (b : byte) : byte :=
  let z := Z_of_byte b in if between 65 90 z then byte_of_Z (z + 32) else b.
Definition ascii_lowercase (s : list byte) : list byte := ascii_lower <$> s.

(** [s.contains(p)] *)
Fixpoint starts_with (p s : list byte) : bool :=
  match p, s with
  | [], _ => true
  | _ :: _, [] => false
  | x :: p, y :: s => bool_decide (x = y) && starts_with p s
  end.
Fixpoint contains (p s : list byte) : bool :=
  starts_with p s || match s with [] => false | _ :: s => contains p s end.

(** [char::to_uppercase], by the Unicode tables: ASCII letters map to ASCII
    letters, white space stays, and no other character becomes white space or
    disappears. *)
Class Unicode := {
  upper_char : list byte -> list byte;
  upper_ascii b : Z_of_byte b < 128 -> upper_char [b] = [ascii_upper b];
  upper_valid u : is_char u -> utf8_valid (upper_char u) = true;
  upper_space u : is_whitespace u = true -> upper_char u = u;
  upper_word u : is_char u -> is_whitespace u = false ->
    upper_char u <> [] /\ Forall (λ v, is_whitespace v = false) (chars_of (upper_char u));
}.

Definition to_uppercase `{Unicode} (s : list byte) : list byte := concat (upper_char <$> chars_of s).

Section uppercase.
Context {U : Unicode}.

Lemma to_uppercase_concat us : Forall is_char us -> to_uppercase (concat us) = concat (upper_char <$> us).
Proof using Type. intros Hus. unfold to_uppercase. by rewrite chars_of_concat. Qed.

Lemma chars_of_upper us :
  Forall is_char us -> chars_of (concat (upper_char <$> us)) = concat ((λ u, chars_of (upper_char u)) <$> us).
Proof using Type.
  induction 1 as [|u us Hu Hus IH]; [done|]. rewrite !fmap_cons. cbn [concat].
  rewrite chars_of_app, IH; [done|by apply upper_valid|].
  clear IH. induction Hus as [|v us Hv _ IH]; [done|]. rewrite fmap_cons. cbn [concat].
  apply utf8_valid_app; [by apply upper_valid|done].
Qed.

Lemma split_ws_upper us acc :
  Forall is_char us -> Forall is_char acc ->
  (forall u, u ∈ acc -> is_whitespace u = false) ->
  split_ws (concat ((λ u, chars_of (upper_char u)) <$> us)) (concat (upper_char <$> acc)) =
    to_uppercase <$> split_ws us (concat acc).
Proof using Type.
  intros Hus. revert acc. induction Hus as [|u us Hu _ IH]; intros acc Hacc Hws.
  - simpl. destruct acc as [|a acc]; [done|]. apply Forall_cons in Hacc as [Ha Hacc].
    destruct (upper_word a Ha (Hws a ltac:(set_solver))) as [Hne _].
    rewrite <- (to_uppercase_concat (a :: acc)) by by constructor.
    destruct (to_uppercase (concat (a :: acc))) eqn:E.
    { rewrite to_uppercase_concat in E by by constructor. simpl in E. by destruct (upper_char a). }
    destruct Ha as [Ha _]. destruct (concat (a :: acc)) eqn:E'; [|by rewrite <- E, <- E'].
    simpl in E'. by destruct a.
  - rewrite fmap_cons. cbn [concat split_ws]. destruct (is_whitespace u) eqn:Hw.
    + rewrite (upper_space u Hw), (chars_of_char u Hu).
      cbn [app split_ws]. rewrite Hw. specialize (IH [] (Forall_nil_2 _) ltac:(set_solver)).
      simpl in IH. rewrite IH. destruct acc as [|a acc]; [done|].
      apply Forall_cons in Hacc as [Ha Hacc].
      destruct (upper_word a Ha (Hws a ltac:(set_solver))) as [Hne _].
      assert (concat (a :: acc) <> []) as Hc by (destruct Ha as [Ha _]; simpl; by destruct a).
      assert (concat (upper_char <$> a :: acc) <> []) as Hc' by (simpl; by destruct (upper_char a)).
      rewrite <- to_uppercase_concat in * by by constructor.
      destruct (concat (a :: acc)); [done|]. destruct (to_uppercase _) eqn:E; [done|].
      rewrite fmap_cons. by rewrite E.
    + destruct (upper_word u Hu Hw) as [_ Hall]. rewrite split_ws_word by done.
      rewrite concat_chars_of.
      replace (concat (upper_char <$> acc) ++ upper_char u) with (concat (upper_char <$> (acc ++ [u])))
        by (rewrite fmap_app, concat_app; simpl; by rewrite app_nil_r).
      rewrite IH.
      * f_equal. f_equal. rewrite concat_app. simpl. by rewrite app_nil_r.
      * apply Forall_app_2; [done|by constructor].
      * intros v [Hv| ->%list_elem_of_singleton]%elem_of_app; [by apply Hws|done].
Qed.

(** The words of the upper case are the upper cases of the words. *)
Lemma split_whitespace_upper s :
  utf8_valid s = true -> split_whitespace (to_uppercase s) = to_uppercase <$> split_whitespace s.
Proof using Type.
  intros Hs. unfold split_whitespace, to_uppercase at 1.
  rewrite chars_of_upper by by apply chars_of_valid.
  apply (split_ws_upper (chars_of s) []); [by apply chars_of_valid|constructor|set_solver].
Qed.
End uppercase.

(** The upper case that leaves all but ASCII letters alone. *)
Definition ascii_upper_char (u : list byte) : list byte :=
  match u with [b] => if Z_of_byte b <? 128 then [ascii_upper b] else u | _ => u end.

Lemma ascii_upper_char_cases u :
  ascii_upper_char u = u \/ exists b, u = [b] /\ Z_of_byte b < 128 /\ ascii_upper_char u = [ascii_upper b].
Proof.
  destruct u as [|b [|c u]]; [by left| |by left]. simpl.
  destruct (Z.ltb_spec (Z_of_byte b) 128); [right; by exists b|by left].
Qed.

Lemma ascii_upper_ascii b : Z_of_byte b < 128 -> Z_of_byte (ascii_upper b) < 128.
Proof. revert b. by intros []. Qed.

Lemma ascii_upper_space b : is_whitespace [ascii_upper b] = is_whitespace [b].
Proof. by destruct b. Qed.

Lemma ascii_upper_space_id b : is_whitespace [b] = true -> ascii_upper b = b.
Proof. by destruct b. Qed.

Definition ascii_unicode : Unicode.
Proof.
  refine {| upper_char := ascii_upper_char |}.
  - intros b Hb. simpl. by rewrite (proj2 (Z.ltb_lt _ _) Hb).
  - intros u Hu. destruct (ascii_upper_char_cases u) as [->|(b & -> & Hb & ->)]; [by apply char_valid|].
    apply char_valid, is_char_ascii. by apply ascii_upper_ascii.
  - intros u Hu. destruct (ascii_upper_char_cases u) as [->|(b & -> & _ & ->)]; [done|].
    by rewrite ascii_upper_space_id.
  - intros u Hu Hw. destruct (ascii_upper_char_cases u) as [->|(b & -> & Hb & ->)].
    + split; [apply Hu|]. rewrite chars_of_char by done. by constructor.
    + split; [done|]. rewrite chars_of_char by by apply is_char_ascii, ascii_upper_ascii.
      constructor; [|constructor]. by rewrite ascii_upper_space.
Defined.

(** ** Patterns *)

Definition is_ascii_digit (z : Z) : bool := between 48 57 z.

(** [s.split(c)] for an ASCII character: the parts between its occurrences, of
    which there is at least one.  [part] is the current part, last byte first. *)
Fixpoint split_byte_from (x : byte) (part s : list byte) : list (list byte) :=
  match s with
  | [] => [rev part]
  | b :: s =>
      if bool_decide (b = x) then rev part :: split_byte_from x [] s
      else split_byte_from x (b :: part) s
  end.

Definition split_byte (x : byte) (s : list byte) : list (list byte) := split_byte_from x [] s.

(** [s.split("\r\n")] *)
Fixpoint split_crlf_from (part s : list byte) : list (list byte) :=
  match s with
  | [] => [rev part]
  | b :: s1 =>
      match s1 with
      | c :: s2 =>
          if bool_decide (b = x0d /\ c = x0a) then rev part :: split_crlf_from [] s2
          else split_crlf_from (b :: part) s1
      | [] => [rev (b :: part)]
      end
  end.

Definition split_crlf (s : list byte) : list (list byte) := split_crlf_from [] s.

Fixpoint drop_while (f : byte -> bool) (s : list byte) : list byte :=
  match s with b :: s' => if f b then drop_while f s' else s | [] => [] end.

(** [s.trim_matches(f)] for a test on ASCII characters. *)
Definition trim_matches (f : byte -> bool) (s : list byte) : list byte :=
  rev (drop_while f (rev (drop_while f s))).

(** [s.trim_end_matches('\n')] and [s.trim_end_matches("\r\n")] *)
Definition trim_end_lf (s : list byte) : list byte := rev (drop_while (λ b, bool_decide (b = x0a)) (rev s)).

Fixpoint drop_lfcr (r : list byte) : list byte :=
  match r with
  | a :: r1 =>
      match r1 with
      | b :: r2 => if bool_decide (a = x0a /\ b = x0d) then drop_lfcr r2 else r
      | [] => r
      end
  | [] => []
  end.

Definition trim_end_crlf (s : list byte) : list byte := rev (drop_lfcr (rev s)).

(** [s.strip_prefix(c)] *)
Definition strip_prefix (x : byte) (s : list byte) : option (list byte) :=
  match s with b :: s => if bool_decide (b = x) then Some s else None | [] => None end.

(** [s.parse::<u64>()]: digits after an optional plus sign, checked for overflow. *)
Fixpoint parse_digits (acc : Z) (s : list byte) : option Z :=
  match s with
  | [] => Some acc
  | b :: s =>
      if is_ascii_digit (Z_of_byte b) then
        let v := 10 * acc + (Z_of_byte b - 48) in
        if v <? 2 ^ 64 then parse_digits v s else None
      else None
  end.

Definition parse_u64 (s : list byte) : option Z :=
  let digits := match s with b :: s' => if bool_decide (b = x2b) then s' else s | [] => [] end in
  match digits with [] => None | _ => parse_digits 0 digits end.

Lemma split_byte_from_app x part s t :
  x ∉ s -> split_byte_from x part (s ++ t) = split_byte_from x (rev s ++ part) t.
Proof.
  revert part. induction s as [|b s IH]; intros part Hs; [done|].
  apply not_elem_of_cons in Hs as [Hb Hs]. simpl. rewrite bool_decide_false by done.
  by rewrite IH, <- app_assoc.
Qed.

Lemma split_byte_none x s : x ∉ s -> split_byte x s = [s].
Proof.
  intros Hs. unfold split_byte. rewrite <- (app_nil_r s) at 1. rewrite split_byte_from_app by done.
  simpl. by rewrite app_nil_r, rev_involutive.
Qed.

Lemma split_byte_cons x s t : x ∉ s -> split_byte x (s ++ x :: t) = s :: split_byte x t.
Proof.
  intros Hs. unfold split_byte. rewrite split_byte_from_app by done. simpl.
  rewrite bool_decide_true by done. by rewrite app_nil_r, rev_involutive.
Qed.

Definition crlf : list byte := [x0d; x0a].

Lemma split_crlf_from_step part b s :
  b <> x0d -> split_crlf_from part (b :: s) = split_crlf_from (b :: part) s.
Proof. intros Hb. destruct s as [|c s]; [done|]. cbn [split_crlf_from]. rewrite bool_decide_false; [done|by intros []]. Qed.

(** A part without CR, up to a CR LF. *)
Lemma split_crlf_from_app part s t :
  x0d ∉ s -> split_crlf_from part (s ++ crlf ++ t) = (rev part ++ s) :: split_crlf t.
Proof.
  revert part. induction s as [|b s IH]; intros part Hs.
  - cbn [app crlf split_crlf_from]. rewrite bool_decide_true by done. by rewrite app_nil_r.
  - apply not_elem_of_cons in Hs as [Hb Hs]. cbn [app]. rewrite split_crlf_from_step by done.
    rewrite IH by done. simpl. by rewrite <- app_assoc.
Qed.

Lemma split_crlf_line s t : x0d ∉ s -> split_crlf (s ++ crlf ++ t) = s :: split_crlf t.
Proof. apply (split_crlf_from_app []). Qed.

Lemma split_crlf_last s : x0d ∉ s -> split_crlf s = [s].
Proof.
  unfold split_crlf. enough (forall part, x0d ∉ s -> split_crlf_from part s = [rev part ++ s]) as H by apply (H []).
  induction s as [|b s IH]; intros part Hs; [by rewrite app_nil_r|].
  apply not_elem_of_cons in Hs as [Hb Hs]. rewrite split_crlf_from_step, IH by done.
  simpl. by rewrite <- app_assoc.
Qed.

(** *** Words in ASCII *)

(** A non-empty ASCII string without white space. *)
Definition word (w : list byte) : Prop :=
  w <> [] /\ is_ascii w /\ Forall (λ b, is_whitespace [b] = false) w.

Definition space : list byte := ascii_bytes " ".

Lemma chars_of_ascii s : is_ascii s -> chars_of s = (λ b, [b]) <$> s.
Proof.
  intros Hs. unfold chars_of, utf8_units. rewrite utf8_split_ascii by done.
  by rewrite <- list_fmap_compose.
Qed.

Lemma ascii_word_split w us acc :
  Forall (λ b, is_whitespace [b] = false) w ->
  split_ws (((λ b, [b]) <$> w) ++ us) acc = split_ws us (acc ++ w).
Proof.
  intros Hw. revert acc. induction Hw as [|b w Hb _ IH]; intros acc; [by rewrite app_nil_r|].
  rewrite fmap_cons. cbn [app split_ws]. rewrite Hb, IH, <- app_assoc. done.
Qed.

Lemma ascii_space_split w us : w <> [] -> split_ws ([x20] :: us) w = w :: split_ws us [].
Proof. by destruct w. Qed.

Lemma split_two a b : word a -> word b -> split_whitespace (a ++ space ++ b) = [a; b].
Proof.
  intros (Ha & Ha1 & Ha2) (Hb & Hb1 & Hb2). assert (is_ascii space) as Hsp by (repeat constructor).
  unfold split_whitespace. rewrite chars_of_ascii by (repeat apply Forall_app_2; done).
  rewrite !fmap_app. change ((λ b0 : byte, [b0]) <$> space) with [[x20]].
  rewrite ascii_word_split, app_nil_l by done. cbn [app].
  rewrite ascii_space_split by done. rewrite <- (app_nil_r ((λ b0 : byte, [b0]) <$> b)).
  rewrite ascii_word_split, app_nil_l by done. by destruct b.
Qed.

(** *** Numbers *)

(** The value of decimal digits that follow [acc]. *)
Fixpoint digits_value (acc : Z) (d : Decimal.uint) : Z :=
  match d with
  | Decimal.Nil => acc
  | Decimal.D0 d => digits_value (10 * acc + 0) d
  | Decimal.D1 d => digits_value (10 * acc + 1) d
  | Decimal.D2 d => digits_value (10 * acc + 2) d
  | Decimal.D3 d => digits_value (10 * acc + 3) d
  | Decimal.D4 d => digits_value (10 * acc + 4) d
  | Decimal.D5 d => digits_value (10 * acc + 5) d
  | Decimal.D6 d => digits_value (10 * acc + 6) d
  | Decimal.D7 d => digits_value (10 * acc + 7) d
  | Decimal.D8 d => digits_value (10 * acc + 8) d
  | Decimal.D9 d => digits_value (10 * acc + 9) d
  end.

Lemma digits_value_pos d acc : digits_value (Z.pos acc) d = Z.pos (Pos.of_uint_acc d acc).
Proof.
  revert acc. induction d as [|d IH|d IH|d IH|d IH|d IH|d IH|d IH|d IH|d IH|d IH]; intros acc; [done|..];
    simpl Pos.of_uint_acc; cbn [digits_value]; rewrite <- IH; f_equal; lia.
Qed.

Lemma digits_value_of_uint d : digits_value 0 d = Z.of_uint d.
Proof.
  unfold Z.of_uint. induction d as [|d IH|d IH|d IH|d IH|d IH|d IH|d IH|d IH|d IH|d IH]; [done|exact IH|..];
    cbn [digits_value Pos.of_uint Z.of_N];
    (etransitivity; [|apply digits_value_pos]); reflexivity.
Qed.

Lemma digits_value_ge acc d : 0 <= acc -> acc <= digits_value acc d.
Proof.
  revert acc. induction d as [|d IH|d IH|d IH|d IH|d IH|d IH|d IH|d IH|d IH|d IH]; intros acc Hacc;
    cbn [digits_value]; [lia|..];
    match goal with |- _ <= digits_value ?a d => specialize (IH a ltac:(lia)); lia end.
Qed.

Lemma parse_digits_step acc b k s :
  Z_of_byte b = 48 + k -> 0 <= k <= 9 -> 10 * acc + k < 2 ^ 64 ->
  parse_digits acc (b :: s) = parse_digits (10 * acc + k) s.
Proof.
  intros Hb Hk Hlt. cbn [parse_digits]. rewrite Hb. unfold is_ascii_digit, between.
  replace (48 + k - 48) with k by lia. rewrite (proj2 (Z.ltb_lt _ _) Hlt).
  destruct (Z.leb_spec 48 (48 + k)), (Z.leb_spec (48 + k) 57); simpl; done || lia.
Qed.

Lemma parse_digits_uint acc d :
  0 <= acc -> digits_value acc d < 2 ^ 64 ->
  parse_digits acc (ascii_bytes (NilEmpty.string_of_uint d)) = Some (digits_value acc d).
Proof.
  revert acc. induction d as [|d IH|d IH|d IH|d IH|d IH|d IH|d IH|d IH|d IH|d IH]; intros acc Hacc Hlt;
    [done|..]; cbn [digits_value] in *;
    match type of Hlt with digits_value (10 * acc + ?k) d < _ =>
      pose proof (digits_value_ge (10 * acc + k) d ltac:(lia));
      rewrite <- (IH (10 * acc + k)) by lia; apply (parse_digits_step acc _ k); [reflexivity|lia|lia]
    end.
Qed.

Lemma uint_bytes_digits d b s : ascii_bytes (NilEmpty.string_of_uint d) = b :: s -> b <> x2b.
Proof. by destruct d; intros [= <- _]. Qed.

(** Parsing what was formatted. *)
Lemma parse_dec n : 0 <= n < 2 ^ 64 -> parse_u64 (dec n) = Some n.
Proof.
  intros Hn. unfold dec.
  assert (Z.of_uint (match Z.to_int n with Decimal.Pos d => d | Decimal.Neg d => d end) = n /\
    exists d, Z.to_int n = Decimal.Pos d /\ d <> Decimal.Nil) as [Hv (d & Hd & Hne)].
  { pose proof (DecimalZ.of_to n) as Ho. destruct (Z.to_int n) as [d|d] eqn:Hd.
    - split; [exact Ho|]. exists d. split; [done|]. intros ->. by destruct n.
    - destruct n; simpl in Hd; (discriminate || lia). }
  rewrite Hd in *. cbn [NilZero.string_of_int]. simpl in Hv.
  replace (NilZero.string_of_uint d) with (NilEmpty.string_of_uint d) by by destruct d.
  unfold parse_u64. destruct (ascii_bytes (NilEmpty.string_of_uint d)) as [|b s] eqn:Hs; [by destruct d|].
  rewrite bool_decide_false by by eapply uint_bytes_digits. rewrite <- Hs.
  rewrite parse_digits_uint; rewrite ?digits_value_of_uint, ?Hv; lia || done.
Qed.

Lemma dec_ne n : dec n <> [].
Proof. unfold dec. destruct (Z.to_int n) as [[]|[]]; done. Qed.

Lemma dec_digits n : 0 <= n -> Forall (λ b, is_ascii_digit (Z_of_byte b) = true) (dec n).
Proof.
  intros Hn. unfold dec.
  assert (exists d, Z.to_int n = Decimal.Pos d) as [d ->] by (destruct n; [by eexists..|lia]).
  cbn [NilZero.string_of_int].
  assert (forall d, Forall (λ b, is_ascii_digit (Z_of_byte b) = true) (ascii_bytes (NilEmpty.string_of_uint d))) as H.
  { clear. induction d; simpl; constructor; done. }
  destruct d; try apply H. simpl. by repeat constructor.
Qed.

Example lines_ex : lines (ascii_bytes "a" ++ [x0d; x0a; x0a] ++ ascii_bytes "b") =
  [ascii_bytes "a"; []; ascii_bytes "b"].
Proof. reflexivity. Qed.

Example split_ex : split_whitespace (ascii_bytes " GET  /x HTTP/1.1") =
  [ascii_bytes "GET"; ascii_bytes "/x"; ascii_bytes "HTTP/1.1"].
Proof. reflexivity. Qed.

Example lossy_ex : from_utf8_lossy [x41; xf0; x9f; x41; xe2; x82; xac] =
  [x41] ++ replacement ++ [x41; xe2; x82; xac].
Proof. reflexivity. Qed.
