(* ===== verification/Consumer.v ===== *)
(** * The userspace side of the ring buffers

    What the Rust consumers share: the [#[repr(C, packed)]] structures they
    view the records as, the cast of a byte slice to such a structure (crate
    [plain], an interface here), the printed form of addresses and the events
    they produce. *)

From Stdlib Require Import SpecFloat.
From S2P Require Import Prelude Bytes CLayout CObject Common RustStr.

#[local] Open Scope string_scope.
#[local] Open Scope list_scope.
#[local] Open Scope Z_scope.

(** ** Wire structures

    [u64], [u32], [u16] and [u8] have the layout of the C types of their size;
    [repr(C, packed)] is a packed C structure. *)

Definition u64 : ctype := CInt IULong.
Definition u32 : ctype := CInt IUInt.
Definition u16 : ctype := CInt IUShort.
Definition u8 : ctype := CInt IUChar.

Definition TcpEvent : decl :=
  DComp "TcpEvent" CStruct true [
    fld "timestamp_ns" u64; fld "event_type" u32; fld "pid" u32; fld "tid" u32;
    fld "src_ip" u32; fld "dst_ip" u32; fld "src_port" u16; fld "dst_port" u16;
    fld "tcp_state" u32; fld "bytes_sent" u64; fld "bytes_recv" u64; fld "comm" (CArr u8 16)].

Definition DnsEventRaw : decl :=
  DComp "DnsEventRaw" CStruct true [
    fld "timestamp_ns" u64; fld "event_type" u32; fld "pid" u32; fld "src_ip" u32;
    fld "dst_ip" u32; fld "src_port" u16; fld "dst_port" u16; fld "query_id" u16;
    fld "qtype" u16; fld "domain" (CArr u8 256)].

Definition HttpEventRaw : decl :=
  DComp "HttpEventRaw" CStruct true [
    fld "timestamp_ns" u64; fld "event_type" u32; fld "pid" u32; fld "src_ip" u32;
    fld "dst_ip" u32; fld "src_port" u16; fld "dst_port" u16; fld "status_code" u16;
    fld "method" u8; fld "_pad" u8; fld "host" (CArr u8 128); fld "path" (CArr u8 128)].

Definition DbEvent : decl :=
  DComp "DbEvent" CStruct true [
    fld "timestamp_ns" u64; fld "event_type" u32; fld "pid" u32; fld "src_ip" u32;
    fld "dst_ip" u32; fld "src_port" u16; fld "dst_port" u16; fld "protocol" u8;
    fld "_pad" u8; fld "payload_len" u32; fld "response_bytes" u32;
    fld "payload" (CArr u8 256); fld "comm" (CArr u8 16)].

Definition rust : layouts :=
  default ∅ (layout_decls [TcpEvent; DnsEventRaw; HttpEventRaw; DbEvent] ∅).

Definition size_of (T : string) : Z := default 0 (sizeof rust (CName T)).

(** A member of a structure viewed at the bytes [bs]. *)
Definition get (T f : string) (bs : list byte) : list byte := load rust (CName T) f bs.
Definition get_int (T f : string) (bs : list byte) : Z := le_val (get T f bs).

Lemma tcp_same_fields : same_fields tcp_event rust (CName "TcpEvent").
Proof. vm_compute. reflexivity. Qed.
Lemma dns_same_fields : same_fields dns_event rust (CName "DnsEventRaw").
Proof. vm_compute. reflexivity. Qed.
Lemma http_same_fields : same_fields http_event rust (CName "HttpEventRaw").
Proof. vm_compute. reflexivity. Qed.
Lemma db_same_fields : same_fields db_event rust (CName "DbEvent").
Proof. vm_compute. reflexivity. Qed.

(** The values of the structures: the Rust members carry the C ones' names. *)
Definition view_tcp (bs : list byte) : tcp_event :=
  let i f := get_int "TcpEvent" f bs in {|
    te_timestamp_ns := i "timestamp_ns"; te_event_type := i "event_type"; te_pid := i "pid";
    te_tid := i "tid"; te_src_ip := i "src_ip"; te_dst_ip := i "dst_ip";
    te_src_port := i "src_port"; te_dst_port := i "dst_port"; te_tcp_state := i "tcp_state";
    te_bytes_sent := i "bytes_sent"; te_bytes_recv := i "bytes_recv";
    te_comm := get "TcpEvent" "comm" bs |}.

Definition view_dns (bs : list byte) : dns_event :=
  let i f := get_int "DnsEventRaw" f bs in {|
    de_timestamp_ns := i "timestamp_ns"; de_event_type := i "event_type"; de_pid := i "pid";
    de_src_ip := i "src_ip"; de_dst_ip := i "dst_ip"; de_src_port := i "src_port";
    de_dst_port := i "dst_port"; de_query_id := i "query_id"; de_qtype := i "qtype";
    de_domain := get "DnsEventRaw" "domain" bs |}.

Definition view_http (bs : list byte) : http_event :=
  let i f := get_int "HttpEventRaw" f bs in {|
    he_timestamp_ns := i "timestamp_ns"; he_event_type := i "event_type"; he_pid := i "pid";
    he_src_ip := i "src_ip"; he_dst_ip := i "dst_ip"; he_src_port := i "src_port";
    he_dst_port := i "dst_port"; he_status_code := i "status_code"; he_method := i "method";
    he_pad := i "_pad"; he_host := get "HttpEventRaw" "host" bs;
    he_path := get "HttpEventRaw" "path" bs |}.

Definition view_db (bs : list byte) : db_event :=
  let i f := get_int "DbEvent" f bs in {|
    dbe_timestamp_ns := i "timestamp_ns"; dbe_event_type := i "event_type"; dbe_pid := i "pid";
    dbe_src_ip := i "src_ip"; dbe_dst_ip := i "dst_ip"; dbe_src_port := i "src_port";
    dbe_dst_port := i "dst_port"; dbe_protocol := i "protocol"; dbe_pad := i "_pad";
    dbe_payload_len := i "payload_len"; dbe_response_bytes := i "response_bytes";
    dbe_payload := get "DbEvent" "payload" bs; dbe_comm := get "DbEvent" "comm" bs |}.

(** [plain::from_bytes::<T>] for a type of alignment 1, which packed structures
    have: a view of the first [size_of::<T>()] bytes, or an error when the
    slice is shorter. *)
Class Plain := {
  plain_from_bytes : Z -> list byte -> option (list byte);
  plain_ok n bs :
    0 <= n <= Z.of_nat (length bs) -> plain_from_bytes n bs = Some (take (Z.to_nat n) bs);
  plain_short n bs : Z.of_nat (length bs) < n -> plain_from_bytes n bs = None;
}.

Definition ref_plain : Plain.
Proof.
  refine {| plain_from_bytes n bs :=
    if Z.of_nat (length bs) <? n then None else Some (take (Z.to_nat n) bs) |}.
  - intros n bs Hn. by rewrite (proj2 (Z.ltb_ge _ _)) by lia.
  - intros n bs Hn. by rewrite (proj2 (Z.ltb_lt _ _)) by lia.
Defined.

(** ** Reading back what the probes wrote *)

(** Rewrites every member of a view of [to_bytes e ++ post] to that of [e]. *)
Ltac solve_view Hs e :=
  let Hwf := fresh in
  intros Hwf; pose proof Hwf as Hrange; destruct Hrange; unfold get_int, get; cbv beta zeta;
  repeat match goal with
  | |- context [load rust ?T ?f (to_bytes e ++ ?post)] =>
      erewrite (load_to_bytes rust T e f _ _ post Hs Hwf);
      [|repeat (first [apply list_elem_of_here | apply list_elem_of_further])]
  end;
  cbv beta;
  repeat match goal with
  | |- context [le_val (le_bytes ?n ?z)] =>
      rewrite (le_val_le_bytes_id n (8 * Z.of_nat n) z eq_refl) by assumption
  end;
  by destruct e.

Lemma view_tcp_bytes e post : co_wf e -> view_tcp (to_bytes e ++ post) = e.
Proof. unfold view_tcp. solve_view tcp_same_fields e. Qed.

Lemma view_tcp_whole e : co_wf e -> view_tcp <$> Some (to_bytes e) = Some e.
Proof. intros Hwf. simpl. f_equal. rewrite <- (app_nil_r (to_bytes e)). by apply view_tcp_bytes. Qed.

Lemma view_dns_bytes e post : co_wf e -> view_dns (to_bytes e ++ post) = e.
Proof. unfold view_dns. solve_view dns_same_fields e. Qed.

Lemma view_dns_whole e : co_wf e -> view_dns <$> Some (to_bytes e) = Some e.
Proof. intros Hwf. simpl. f_equal. rewrite <- (app_nil_r (to_bytes e)). by apply view_dns_bytes. Qed.

Lemma view_http_bytes e post : co_wf e -> view_http (to_bytes e ++ post) = e.
Proof. unfold view_http. solve_view http_same_fields e. Qed.

Lemma view_http_whole e : co_wf e -> view_http <$> Some (to_bytes e) = Some e.
Proof. intros Hwf. simpl. f_equal. rewrite <- (app_nil_r (to_bytes e)). by apply view_http_bytes. Qed.

Lemma view_db_bytes e post : co_wf e -> view_db (to_bytes e ++ post) = e.
Proof. unfold view_db. solve_view db_same_fields e. Qed.

Lemma view_db_whole e : co_wf e -> view_db <$> Some (to_bytes e) = Some e.
Proof. intros Hwf. simpl. f_equal. rewrite <- (app_nil_r (to_bytes e)). by apply view_db_bytes. Qed.

Lemma size_of_event {A} `{!CObject A} T (e : A) :
  co_wf e -> same_fields A rust (CName T) -> size_of T = Z.of_nat (length (to_bytes e)).
Proof.
  intros Hwf Hs. unfold size_of. rewrite (sizeof_same _ _ Hs). by rewrite (length_to_bytes e Hwf).
Qed.

Lemma plain_whole {A} `{!CObject A, !Plain} T (e : A) :
  co_wf e -> same_fields A rust (CName T) ->
  plain_from_bytes (size_of T) (to_bytes e) = Some (to_bytes e).
Proof.
  intros Hwf Hs. rewrite (size_of_event T e Hwf Hs), plain_ok by lia.
  by rewrite Nat2Z.id, firstn_all.
Qed.

#[global] Arguments size_of : simpl never.

(** ** Addresses *)

Definition dot : list byte := ascii_bytes ".".

(** [format_ip]: the bytes of the integer, least significant first. *)
Definition format_ip (ip : Z) : list byte :=
  dec (Z.land ip 0xFF) ++ dot ++ dec (Z.land (Z.shiftr ip 8) 0xFF) ++ dot ++
  dec (Z.land (Z.shiftr ip 16) 0xFF) ++ dot ++ dec (Z.land (Z.shiftr ip 24) 0xFF).

(** Four bytes of memory, in order, as a dotted quad. *)
Definition dotted (a b c d : byte) : list byte :=
  dec (Z_of_byte a) ++ dot ++ dec (Z_of_byte b) ++ dot ++ dec (Z_of_byte c) ++ dot ++ dec (Z_of_byte d).

Lemma octet v i : 0 <= i -> Z.land (Z.shiftr v i) 0xFF = v / 2 ^ i mod 256.
Proof. intros. change 0xFF with (Z.ones 8). by rewrite Z.land_ones, Z.shiftr_div_pow2 by lia. Qed.

Lemma octets a b c d :
  0 <= a < 256 -> 0 <= b < 256 -> 0 <= c < 256 -> 0 <= d < 256 ->
  let v := a + 256 * (b + 256 * (c + 256 * (d + 256 * 0))) in
  v / 2 ^ 0 mod 256 = a /\ v / 2 ^ 8 mod 256 = b /\ v / 2 ^ 16 mod 256 = c /\ v / 2 ^ 24 mod 256 = d.
Proof.
  intros Ha Hb Hc Hd. change (2 ^ 0) with 1. change (2 ^ 8) with 256.
  change (2 ^ 16) with 65536. change (2 ^ 24) with 16777216.
  split_and!; Z.to_euclidean_division_equations; lia.
Qed.

Lemma format_ip_dotted a b c d : format_ip (le_val [a; b; c; d]) = dotted a b c d.
Proof.
  unfold format_ip, dotted. rewrite <- (Z.shiftr_0_r (le_val [a; b; c; d])) at 1.
  rewrite !octet by lia.
  change (le_val [a; b; c; d]) with (Z_of_byte a + 256 * (Z_of_byte b + 256 * (Z_of_byte c +
    256 * (Z_of_byte d + 256 * 0)))).
  destruct (octets _ _ _ _ (Z_of_byte_range a) (Z_of_byte_range b) (Z_of_byte_range c)
    (Z_of_byte_range d)) as (-> & -> & -> & ->). done.
Qed.

(** ** Network events *)

Abbreviation str := (list byte).

(** [NetworkEvent]; [f64] values as specified floats, [0.0] being the positive zero. *)
Definition f64 : Type := spec_float.
Definition f64_zero : f64 := S754_zero false.

Inductive NetworkEvent :=
  | TcpConnection (source_ip : str) (source_port : Z) (destination_ip : str)
      (destination_port : Z) (state : str) (pid : Z) (process_name : str)
  | DnsQuery (query_name : str) (resolved_ips : list str) (latency_ms : f64) (pid : Z)
  | HttpRequest (method path : str) (status_code : Z) (latency_ms : f64) (source_ip : str)
      (destination_ip : str) (destination_port pid : Z)
  | DbQuery (protocol query : str) (latency_ms : f64) (destination_ip : str)
      (destination_port pid : Z).

(** ** Properties *)

(** [C31] The wire format: whatever well-formed event a probe copies into the
    ring buffer, the userspace cast of the record succeeds and every member of
    the structure it views has the value the probe stored. *)
Theorem wire_roundtrip `{!Plain} :
  (forall e : tcp_event, co_wf e -> view_tcp <$> plain_from_bytes (size_of "TcpEvent") (to_bytes e) = Some e) /\
  (forall e : dns_event, co_wf e -> view_dns <$> plain_from_bytes (size_of "DnsEventRaw") (to_bytes e) = Some e) /\
  (forall e : http_event, co_wf e -> view_http <$> plain_from_bytes (size_of "HttpEventRaw") (to_bytes e) = Some e) /\
  (forall e : db_event, co_wf e -> view_db <$> plain_from_bytes (size_of "DbEvent") (to_bytes e) = Some e).
Proof.
  split_and!; intros e Hwf.
  - by rewrite (plain_whole _ _ Hwf tcp_same_fields), view_tcp_whole.
  - by rewrite (plain_whole _ _ Hwf dns_same_fields), view_dns_whole.
  - by rewrite (plain_whole _ _ Hwf http_same_fields), view_http_whole.
  - by rewrite (plain_whole _ _ Hwf db_same_fields), view_db_whole.
Qed.

(** 10.0.0.1:54321 -> 93.184.216.34:443, established by process 42. *)
Definition wire_sample : tcp_event := {|
  te_timestamp_ns := 2 ^ 63; te_event_type := 1; te_pid := 42; te_tid := 7;
  te_src_ip := 16777226; te_dst_ip := 584628317; te_src_port := 54321; te_dst_port := 443;
  te_tcp_state := 1; te_bytes_sent := 0; te_bytes_recv := 2 ^ 64 - 1;
  te_comm := ascii_bytes "curl" ++ repeat x00 12 |}.

Lemma wire_roundtrip_witness :
  view_tcp <$> @plain_from_bytes ref_plain (size_of "TcpEvent") (to_bytes wire_sample) = Some wire_sample.
Proof. apply (@wire_roundtrip ref_plain). by split. Defined.
