(* ===== verification/TcpConsumer.v ===== *)
(** * tcp_tracker.rs

    The consumer of [tcp_events]: [handle_tcp_event] folds each record into a
    map of connections keyed by the 4-tuple, [drain_events] turns the map into
    network events.  Times are nanoseconds of a monotonic clock; the map's
    iteration order is one of its enumerations. *)

From S2P Require Import Prelude Bytes CLayout CObject VmlinuxNet Common RustStr Consumer.

#[local] Set Warnings "-clear-no-such-hyp".
#[local] Open Scope string_scope.
#[local] Open Scope list_scope.
#[local] Open Scope Z_scope.

(** ** Data *)

Record ConnectionKey := {
  ck_src_ip : Z; ck_src_port : Z; ck_dst_ip : Z; ck_dst_port : Z }.

#[global] Instance ConnectionKey_eq_dec : EqDecision ConnectionKey.
Proof. solve_decision. Defined.

#[global] Instance ConnectionKey_countable : Countable ConnectionKey.
Proof.
  apply (inj_countable' (λ k, (ck_src_ip k, ck_src_port k, ck_dst_ip k, ck_dst_port k))
    (λ '(a, b, c, d), Build_ConnectionKey a b c d)). by intros [].
Defined.

Record TrackedConnection := {
  tc_pid : Z;
  tc_process_name : str;
  tc_state : str;
  tc_bytes_sent : Z;
  tc_bytes_recv : Z;
  tc_first_seen : Z;
  tc_last_seen : Z;
}.

Abbreviation connections := (gmap ConnectionKey TrackedConnection).

(** ** Helpers *)

Definition extract_comm (comm : list byte) : str := from_utf8_lossy (cstr comm).

Definition tcp_state_name (state : Z) : str :=
  ascii_bytes
    (match state with
     | 1 => "ESTABLISHED" | 2 => "SYN_SENT" | 3 => "SYN_RECV" | 4 => "FIN_WAIT1"
     | 5 => "FIN_WAIT2" | 6 => "TIME_WAIT" | 7 => "CLOSE_WAIT" | 8 => "LAST_ACK"
     | 9 => "CLOSING" | 10 => "LISTEN" | _ => "UNKNOWN"
     end).

Section consumer.
Context {PL : Plain} (exclude_ports : list Z).

(** ** Operations *)

(** One record at time [now]; the callback returns 0 in all cases. *)
Definition handle_tcp_event (now : Z) (data : list byte) (conns : connections) : Z * connections :=
  match plain_from_bytes (size_of "TcpEvent") data with
  | None => (0, conns)
  | Some view =>
      let event := view_tcp view in
      if bool_decide (te_src_port event ∈ exclude_ports) || bool_decide (te_dst_port event ∈ exclude_ports)
      then (0, conns)
      else
        let key := {| ck_src_ip := te_src_ip event; ck_src_port := te_src_port event;
                      ck_dst_ip := te_dst_ip event; ck_dst_port := te_dst_port event |} in
        let process_name := extract_comm (te_comm event) in
        let state := tcp_state_name (te_tcp_state event) in
        let tracked := default {|
          tc_pid := te_pid event; tc_process_name := process_name; tc_state := state;
          tc_bytes_sent := 0; tc_bytes_recv := 0; tc_first_seen := now; tc_last_seen := now |}
          (conns !! key) in
        (0, <[key := {|
          tc_pid := te_pid event; tc_process_name := process_name; tc_state := state;
          tc_bytes_sent := te_bytes_sent event; tc_bytes_recv := te_bytes_recv event;
          tc_first_seen := tc_first_seen tracked; tc_last_seen := now |}]> conns)
  end.

Definition stale_threshold : Z := 300 * 10 ^ 9.

(** [Instant::duration_since] saturates at zero. *)
Definition stale (now : Z) (conn : TrackedConnection) : Prop :=
  stale_threshold < Z.max 0 (now - tc_last_seen conn).

#[global] Instance stale_dec now conn : Decision (stale now conn).
Proof using Type. unfold stale. apply _. Defined.

Definition tcp_network_event (kc : ConnectionKey * TrackedConnection) : NetworkEvent :=
  TcpConnection (format_ip (ck_src_ip kc.1)) (ck_src_port kc.1) (format_ip (ck_dst_ip kc.1))
    (ck_dst_port kc.1) (tc_state kc.2) (tc_pid kc.2) (tc_process_name kc.2).

Definition drain_events (now : Z) (conns : connections) : list NetworkEvent * connections :=
  let kept := filter (λ kc, ~ stale now kc.2) conns in
  (tcp_network_event <$> map_to_list kept, ∅).

(** Records read at the given times, in order. *)
Definition handle_all (recs : list (Z * list byte)) (conns : connections) : connections :=
  foldl (λ c r, (handle_tcp_event r.1 r.2 c).2) conns recs.

(** ** Specification *)

Definition key_of (e : tcp_event) : ConnectionKey :=
  {| ck_src_ip := te_src_ip e; ck_src_port := te_src_port e;
     ck_dst_ip := te_dst_ip e; ck_dst_port := te_dst_port e |}.

Definition excluded (k : ConnectionKey) : Prop :=
  ck_src_port k ∈ exclude_ports \/ ck_dst_port k ∈ exclude_ports.

#[global] Instance excluded_dec k : Decision (excluded k).
Proof using Type. unfold excluded. apply _. Defined.

(** What is known of a connection after the events [evs], oldest first, all
    with its key: the last event and the times of the first and the last. *)
Definition summary (evs : list (Z * tcp_event)) : option TrackedConnection :=
  match head evs, last evs with
  | Some first, Some (now, e) => Some {|
      tc_pid := te_pid e; tc_process_name := from_utf8_lossy (cstr (te_comm e));
      tc_state := tcp_state_name (te_tcp_state e);
      tc_bytes_sent := te_bytes_sent e; tc_bytes_recv := te_bytes_recv e;
      tc_first_seen := first.1; tc_last_seen := now |}
  | _, _ => None
  end.

Definition with_key (k : ConnectionKey) (evs : list (Z * tcp_event)) : list (Z * tcp_event) :=
  filter (λ te, key_of te.2 = k) evs.

Lemma handle_event now e conns :
  co_wf e ->
  handle_tcp_event now (to_bytes e) conns =
    (0, if decide (excluded (key_of e)) then conns
        else <[key_of e := {|
          tc_pid := te_pid e; tc_process_name := from_utf8_lossy (cstr (te_comm e));
          tc_state := tcp_state_name (te_tcp_state e);
          tc_bytes_sent := te_bytes_sent e; tc_bytes_recv := te_bytes_recv e;
          tc_first_seen := default now (tc_first_seen <$> conns !! key_of e);
          tc_last_seen := now |}]> conns).
Proof using Type.
  intros Hwf. unfold handle_tcp_event. rewrite (plain_whole _ _ Hwf tcp_same_fields).
  pose proof (view_tcp_whole e Hwf) as [= ->]. fold (key_of e).
  unfold excluded. cbn [key_of ck_src_port ck_dst_port].
  rewrite <- bool_decide_or. case_bool_decide as H; case_decide; try done.
  f_equal. fold (key_of e). by destruct (conns !! key_of e).
Qed.

Lemma summary_snoc evs now e :
  summary (evs ++ [(now, e)]) = Some {|
    tc_pid := te_pid e; tc_process_name := from_utf8_lossy (cstr (te_comm e));
    tc_state := tcp_state_name (te_tcp_state e);
    tc_bytes_sent := te_bytes_sent e; tc_bytes_recv := te_bytes_recv e;
    tc_first_seen := default now (tc_first_seen <$> summary evs); tc_last_seen := now |}.
Proof using Type.
  unfold summary. rewrite last_snoc. destruct evs as [|[t e'] evs]; [done|]. simpl.
  destruct (last ((t, e') :: evs)) as [[]|] eqn:Hl; [done|].
  by apply last_None in Hl.
Qed.

Lemma handle_all_lookup evs k :
  Forall (λ te, co_wf te.2) evs ->
  handle_all ((λ te : Z * tcp_event, (te.1, to_bytes te.2)) <$> evs) ∅ !! k =
    if decide (excluded k) then None else summary (with_key k evs).
Proof using Type.
  induction evs as [|[now e] evs IH] using rev_ind; intros Hwf.
  { unfold handle_all. simpl. rewrite lookup_empty. by case_decide. }
  apply Forall_app in Hwf as [Hwf He]. apply Forall_cons in He as [He _]. simpl in He. specialize (IH Hwf).
  unfold handle_all in *. rewrite fmap_app, foldl_app. simpl. rewrite handle_event by done. simpl.
  set (c := foldl _ _ _) in *. unfold with_key in *. rewrite filter_app, filter_cons, filter_nil. simpl.
  destruct (decide (key_of e = k)) as [<-|Hne].
  - destruct (decide (excluded (key_of e))) as [|Hx]; [done|].
    by rewrite lookup_insert_eq, summary_snoc, IH.
  - rewrite app_nil_r. destruct (decide (excluded (key_of e))); [done|].
    by rewrite lookup_insert_ne.
Qed.

(** ** Properties *)

(** After any sequence of well-formed records, a connection is known
    exactly when its ports are not excluded and a record with its 4-tuple was
    read; its state, counters, process and last time are those of the last
    such record, its first time that of the first. *)
Theorem connections_summarise_events evs k :
  Forall (λ te, tcp_event_wf te.2) evs ->
  handle_all ((λ te : Z * tcp_event, (te.1, to_bytes te.2)) <$> evs) ∅ !! k =
    if decide (excluded k) then None else summary (with_key k evs).
Proof using Type. apply handle_all_lookup. Qed.

(** Draining reports every connection seen in the last five minutes, once,
    and nothing else, and forgets all of them. *)
Theorem drain_reports_live now conns :
  (drain_events now conns).2 = ∅ /\
  length (drain_events now conns).1 = size (filter (λ kc, ~ stale now kc.2) conns) /\
  forall ev, ev ∈ (drain_events now conns).1 <->
    exists k conn, conns !! k = Some conn /\ now - tc_last_seen conn <= 300 * 10 ^ 9 /\
      ev = tcp_network_event (k, conn).
Proof using Type.
  unfold drain_events. split_and!; [done|by simpl; rewrite length_fmap, length_map_to_list|]. intros ev. simpl.
  rewrite list_elem_of_fmap. split.
  - intros ([k conn] & -> & [Hk Hl]%elem_of_map_to_list%map_lookup_filter_Some).
    exists k, conn. split_and!; [done| |done]. unfold stale, stale_threshold in Hl. simpl in Hl. lia.
  - intros (k & conn & Hk & Hl & ->). exists (k, conn). split; [done|].
    apply elem_of_map_to_list, map_lookup_filter_Some. split; [done|].
    unfold stale, stale_threshold. simpl. lia.
Qed.

(** A record that is too short is ignored, a longer one is read as its
    first 68 bytes. *)
Theorem handle_any_length now data conns :
  (Z.of_nat (length data) < 68 -> handle_tcp_event now data conns = (0, conns)) /\
  (68 <= Z.of_nat (length data) ->
    handle_tcp_event now data conns = handle_tcp_event now (take 68 data) conns).
Proof using Type.
  assert (size_of "TcpEvent" = 68) as Hsz by (vm_compute; reflexivity).
  unfold handle_tcp_event. rewrite Hsz. split; intros Hlen.
  - by rewrite plain_short.
  - rewrite !plain_ok by (rewrite ?length_take; lia). by rewrite take_take.
Qed.
End consumer.

(** The printed state is the kernel's for ESTABLISHED to TIME_WAIT and for
    LISTEN, and for no other state: the kernel's CLOSE is printed CLOSE_WAIT,
    its CLOSE_WAIT LAST_ACK, its LAST_ACK CLOSING. *)
Theorem state_names_agree n c :
  (n, c) ∈ enum_TCP_STATES ->
  ascii_bytes n = ascii_bytes "TCP_" ++ tcp_state_name c <-> 1 <= c <= 6 \/ c = 10.
Proof.
  intros Hin. repeat (apply elem_of_cons in Hin as [[= -> ->]|Hin]);
    [..|by apply elem_of_nil in Hin]; (split; [intros H; (lia || discriminate H)|]);
    intros H; (reflexivity || lia).
Qed.

(** ** Witnesses *)

Section witnesses.
#[local] Existing Instance ref_plain.

(** 10.0.0.1:54321 -> 93.184.216.34:443, in state [s]. *)
Definition sample_event (s : Z) : tcp_event := {|
  te_timestamp_ns := 2000; te_event_type := 1; te_pid := 42; te_tid := 7;
  te_src_ip := 16777226; te_dst_ip := 584628317; te_src_port := 54321; te_dst_port := 443;
  te_tcp_state := s; te_bytes_sent := 0; te_bytes_recv := 0;
  te_comm := ascii_bytes "curl" ++ repeat x00 12 |}.

Example drain_sample :
  (drain_events 10 (handle_all [22] [(5, to_bytes (sample_event 1)); (6, to_bytes (sample_event 7))] ∅)).1 =
  [TcpConnection (ascii_bytes "10.0.0.1") 54321 (ascii_bytes "93.184.216.34") 443
     (ascii_bytes "CLOSE_WAIT") 42 (ascii_bytes "curl")].
Proof. vm_compute. reflexivity. Qed.

Lemma sample_event_wf s : in_range 32 s -> tcp_event_wf (sample_event s).
Proof. intros Hs. by split. Qed.

Lemma connections_summarise_events_witness :
  handle_all [22] ((λ te : Z * tcp_event, (te.1, to_bytes te.2)) <$>
      [(5, sample_event 1); (6, sample_event 7)]) ∅ !! key_of (sample_event 1) =
    if decide (excluded [22] (key_of (sample_event 1))) then None
    else summary (with_key (key_of (sample_event 1)) [(5, sample_event 1); (6, sample_event 7)]).
Proof.
  apply (connections_summarise_events [22] [(5, sample_event 1); (6, sample_event 7)]
    (key_of (sample_event 1))).
  repeat constructor; by apply sample_event_wf.
Defined.

Lemma handle_any_length_witness :
  handle_tcp_event [22] 5 [x01; x02] ∅ = (0, ∅).
Proof. apply (handle_any_length [22] 5 [x01; x02] ∅). reflexivity. Defined.

Lemma drain_reports_live_witness :
  (drain_events 10 (handle_all [22] [(5, to_bytes (sample_event 1))] ∅)).2 = ∅.
Proof. apply (drain_reports_live 10 (handle_all [22] [(5, to_bytes (sample_event 1))] ∅)). Defined.

Lemma state_names_agree_witness :
  ascii_bytes "TCP_CLOSE" = ascii_bytes "TCP_" ++ tcp_state_name 7 <-> 1 <= 7 <= 6 \/ 7 = 10.
Proof. apply (state_names_agree "TCP_CLOSE" 7). do 6 apply list_elem_of_further. apply list_elem_of_here. Defined.
End witnesses.
