(* ===== verification/DnsConsumer.v ===== *)
(** * dns_mapper.rs

    The consumer of [dns_events]: a cache of the domains that were queried,
    keyed by name.  The ring buffer callback repeats the code of
    [process_event]; both are modelled and proved to agree. *)

From S2P Require Import Prelude Bytes CLayout CObject Common Bpf BpfRef ProbeObject Emitter DnsMapper RustStr Consumer.

#[local] Set Warnings "-clear-no-such-hyp".
#[local] Open Scope string_scope.
#[local] Open Scope list_scope.
#[local] Open Scope Z_scope.

(** ** Data *)

Definition CACHE_TTL : Z := 300 * 10 ^ 9.

Record DnsEntry := {
  dn_domain : str;
  dn_ips : list str;
  dn_ttl : Z;
  dn_query_type : str;
  dn_last_seen : Z;
  dn_pid : Z;
  dn_process_name : str;
}.

Abbreviation dns_cache := (gmap str DnsEntry).

(** ** Helpers *)

Definition extract_domain (raw : list byte) : str := from_utf8_lossy (cstr raw).

Definition qtype_string (qtype : Z) : str :=
  ascii_bytes
    (match qtype with
     | 1 => "A" | 28 => "AAAA" | 5 => "CNAME" | 15 => "MX" | 16 => "TXT" | _ => "UNKNOWN"
     end).

Section mapper.
(** [proc_comm pid]: what reading /proc/<pid>/comm returns, [None] on error. *)
Context {PL : Plain} (exclude_ports : list Z) (proc_comm : Z -> option str).

Definition get_process_name (pid : Z) : str := default [] (trim <$> proc_comm pid).

(** ** Operations *)

Definition process_event (now : Z) (raw : dns_event) (cache : dns_cache) : dns_cache :=
  let domain := extract_domain (de_domain raw) in
  if bool_decide (domain = []) || bool_decide (domain = ascii_bytes "<pending>") then cache
  else
    let query_type := qtype_string (de_qtype raw) in
    let process_name := get_process_name (de_pid raw) in
    let entry := default {|
      dn_domain := domain; dn_ips := []; dn_ttl := 0; dn_query_type := query_type;
      dn_last_seen := now; dn_pid := de_pid raw; dn_process_name := process_name |}
      (cache !! domain) in
    <[domain := {|
      dn_domain := dn_domain entry; dn_ips := dn_ips entry; dn_ttl := dn_ttl entry;
      dn_query_type := dn_query_type entry; dn_last_seen := now;
      dn_pid := de_pid raw; dn_process_name := process_name |}]> cache.

(** The callback [setup_ring_buffer] registers. *)
Definition handle_dns_event (now : Z) (data : list byte) (cache : dns_cache) : Z * dns_cache :=
  if negb (Z.of_nat (length data) =? size_of "DnsEventRaw") then (0, cache)
  else
    match plain_from_bytes (size_of "DnsEventRaw") data with
    | Some view =>
        let raw := view_dns view in
        if bool_decide (de_dst_port raw ∈ exclude_ports) then (0, cache)
        else
          let domain := extract_domain (de_domain raw) in
          if bool_decide (domain = []) || bool_decide (domain = ascii_bytes "<pending>")
          then (0, cache)
          else
            let query_type := qtype_string (de_qtype raw) in
            let process_name := get_process_name (de_pid raw) in
            let entry := default {|
              dn_domain := domain; dn_ips := []; dn_ttl := 0; dn_query_type := query_type;
              dn_last_seen := now; dn_pid := de_pid raw; dn_process_name := process_name |}
              (cache !! domain) in
            (0, <[domain := {|
              dn_domain := dn_domain entry; dn_ips := dn_ips entry; dn_ttl := dn_ttl entry;
              dn_query_type := dn_query_type entry; dn_last_seen := now;
              dn_pid := de_pid raw; dn_process_name := process_name |}]> cache)
    | None => (0, cache)
    end.

Definition resolve (domain : str) (cache : dns_cache) : option DnsEntry := cache !! domain.

(** The first entry, in iteration order, that has the address. *)
Definition correlate_ip (ip : str) (cache : dns_cache) : option str :=
  (λ ke : str * DnsEntry, dn_domain ke.2) <$>
    head (filter (λ ke : str * DnsEntry, ip ∈ dn_ips ke.2) (map_to_list cache)).

Definition dns_network_event (entry : DnsEntry) : NetworkEvent :=
  DnsQuery (dn_domain entry) (dn_ips entry) f64_zero (dn_pid entry).

Definition dns_drain_events (now : Z) (cache : dns_cache) : list NetworkEvent * dns_cache :=
  let kept := filter (λ ke : str * DnsEntry, Z.max 0 (now - dn_last_seen ke.2) < CACHE_TTL) cache in
  ((λ ke : str * DnsEntry, dns_network_event ke.2) <$> map_to_list kept, kept).

(** ** Lemmas *)

Lemma handle_dns_record now e cache :
  co_wf e ->
  handle_dns_event now (to_bytes e) cache =
    (0, if decide (de_dst_port e ∈ exclude_ports) then cache else process_event now e cache).
Proof using Type.
  intros Hwf. unfold handle_dns_event, process_event. rewrite (plain_whole _ _ Hwf dns_same_fields).
  rewrite (size_of_event _ _ Hwf dns_same_fields), Z.eqb_refl. cbn [negb].
  pose proof (view_dns_whole e Hwf) as [= ->].
  case_bool_decide; case_decide; try done. by destruct (_ || _).
Qed.

(** What the mapper does between two looks at its cache. *)
Inductive dns_op :=
  | Query (now : Z) (raw : dns_event)
  | Drain (now : Z).

Definition dns_op_step (op : dns_op) (cache : dns_cache) : dns_cache :=
  match op with
  | Query now raw => process_event now raw cache
  | Drain now => (dns_drain_events now cache).2
  end.

Definition dns_ops (ops : list dns_op) : dns_cache :=
  foldl (λ cache op, dns_op_step op cache) ∅ ops.

(** Every entry is filed under its name, which is a real one, and has no address. *)
Definition cache_ok (d : str) (entry : DnsEntry) : Prop :=
  dn_domain entry = d /\ d <> [] /\ d <> ascii_bytes "<pending>" /\ dn_ips entry = [].

Lemma process_event_ok now raw cache :
  map_Forall cache_ok cache -> map_Forall cache_ok (process_event now raw cache).
Proof using Type.
  intros Hwf. unfold process_event.
  destruct (bool_decide (extract_domain _ = [])) eqn:H1; [done|].
  destruct (bool_decide (extract_domain _ = ascii_bytes _)) eqn:H2; [done|]. cbn [orb].
  apply bool_decide_eq_false in H1, H2. apply map_Forall_insert_2; [|done].
  unfold cache_ok. cbn [dn_domain dn_ips].
  destruct (cache !! extract_domain (de_domain raw)) eqn:Hc; [|done]. by apply Hwf in Hc as (? & ? & ? & ?).
Qed.

Lemma dns_ops_ok ops : map_Forall cache_ok (dns_ops ops).
Proof using Type.
  unfold dns_ops. induction ops as [|op ops IH] using rev_ind; [apply map_Forall_empty|].
  rewrite foldl_app. simpl. destruct op as [now raw|now]; simpl; [by apply process_event_ok|].
  intros d entry [Hd _]%map_lookup_filter_Some. by apply IH.
Qed.

(** ** Properties *)

(** The ring buffer callback and [process_event], which repeat the same
    code, agree: a record of a well-formed event has the effect of
    [process_event] on that event, unless its destination port is excluded;
    data of any other size than the structure's is ignored. *)
Theorem dns_callback_agrees now cache :
  (forall e, dns_event_wf e ->
    handle_dns_event now (to_bytes e) cache =
      (0, if decide (de_dst_port e ∈ exclude_ports) then cache else process_event now e cache)) /\
  (forall data, Z.of_nat (length data) <> 288 -> handle_dns_event now data cache = (0, cache)).
Proof using Type.
  split; [intros; by apply handle_dns_record|]. intros data Hlen. unfold handle_dns_event.
  assert (size_of "DnsEventRaw" = 288) as -> by (vm_compute; reflexivity).
  by rewrite (proj2 (Z.eqb_neq _ _) Hlen).
Qed.

(** A query for a domain makes that domain resolve, with the process and
    the time of the query and, when it was known already, the type and the
    addresses it had; other domains resolve as before.  Without a domain, or
    with the placeholder, nothing changes. *)
Theorem processed_domain_resolves now raw cache d :
  map_Forall cache_ok cache ->
  let domain := extract_domain (de_domain raw) in
  resolve d (process_event now raw cache) =
    if decide (d = domain /\ domain <> [] /\ domain <> ascii_bytes "<pending>") then
      Some {|
        dn_domain := domain;
        dn_ips := default [] (dn_ips <$> cache !! domain);
        dn_ttl := default 0 (dn_ttl <$> cache !! domain);
        dn_query_type := default (qtype_string (de_qtype raw)) (dn_query_type <$> cache !! domain);
        dn_last_seen := now; dn_pid := de_pid raw;
        dn_process_name := get_process_name (de_pid raw) |}
    else cache !! d.
Proof using Type.
  intros Hok domain. unfold resolve, process_event. fold domain.
  destruct (decide (domain = [])) as [H1|H1].
  { rewrite bool_decide_true by done. cbn [orb]. by rewrite decide_False by tauto. }
  destruct (decide (domain = ascii_bytes "<pending>")) as [H2|H2].
  { rewrite (bool_decide_true (domain = ascii_bytes _)), orb_true_r by done.
    by rewrite decide_False by tauto. }
  rewrite !bool_decide_false by done. cbn [orb]. destruct (decide (d = domain)) as [->|Hd].
  - rewrite decide_True, lookup_insert_eq by done. f_equal.
    destruct (cache !! domain) as [entry|] eqn:Hc; [|done]. simpl.
    by apply Hok in Hc as (<- & _).
  - rewrite decide_False by tauto. by rewrite lookup_insert_ne.
Qed.

(** No address is ever recorded, so no address is ever attributed to a
    domain: after any sequence of queries and drains the reverse lookup fails
    for every address. *)
Theorem correlate_ip_never_finds ops ip : correlate_ip ip (dns_ops ops) = None.
Proof using Type.
  unfold correlate_ip.
  destruct (filter _ _) as [|[d entry] l] eqn:Hf; [done|].
  assert ((d, entry) ∈ filter (λ ke : str * DnsEntry, ip ∈ dn_ips ke.2) (map_to_list (dns_ops ops)))
    as [Hip Hin]%list_elem_of_filter by (rewrite Hf; by left).
  apply elem_of_map_to_list in Hin. apply dns_ops_ok in Hin as (_ & _ & _ & Hn).
  simpl in Hip. rewrite Hn in Hip. by apply elem_of_nil in Hip.
Qed.
End mapper.

(** End to end, no DNS query is ever reported: every record the DNS mapper
    program puts in the ring carries the placeholder as its domain, and the
    consumer drops exactly that name, so handling the record leaves any cache
    as it was. *)
Theorem dns_pipeline_silent `{!Helpers, !Ringbuf, !Plain} ls bs exclude_ports proc_comm now cache :
  bs ∈ records (dns_run ls em_init) ->
  handle_dns_event exclude_ports proc_comm now bs cache = (0, cache).
Proof.
  intros (e & (w & [sk msg len] & _ & He) & -> & Hwf)%(em_provenance (E := dns_event)).
  rewrite handle_dns_record by done. simpl in He. unfold dns_observed in He.
  case_decide; [|done]. injection He as <-. by case_decide.
Qed.

(** ** Witnesses *)

Section witnesses.
#[local] Existing Instances ref_plain.

(** A query for [domain] by process 42. *)
Definition sample_query (domain : string) : dns_event := {|
  de_timestamp_ns := 1000; de_event_type := 4; de_pid := 42; de_src_ip := 16777226;
  de_dst_ip := 134744072; de_src_port := 54321; de_dst_port := 53; de_query_id := 7; de_qtype := 28;
  de_domain := take 256 (ascii_bytes domain ++ repeat x00 256) |}.

Definition sample_proc (pid : Z) : option str :=
  if pid =? 42 then Some (ascii_bytes "curl" ++ [x0a]) else None.

Example resolve_sample :
  resolve (ascii_bytes "a.io") (process_event sample_proc 5 (sample_query "a.io") ∅) =
  Some {| dn_domain := ascii_bytes "a.io"; dn_ips := []; dn_ttl := 0;
          dn_query_type := ascii_bytes "AAAA"; dn_last_seen := 5; dn_pid := 42;
          dn_process_name := ascii_bytes "curl" |}.
Proof. vm_compute. reflexivity. Qed.

Lemma dns_callback_agrees_witness :
  handle_dns_event [5353] sample_proc 5 (to_bytes (sample_query "a.io")) ∅ =
    (0, if decide (de_dst_port (sample_query "a.io") ∈ [5353]) then ∅
        else process_event sample_proc 5 (sample_query "a.io") ∅).
Proof. apply (dns_callback_agrees [5353] sample_proc 5 ∅). by split. Defined.

Lemma processed_domain_resolves_witness :
  resolve (ascii_bytes "b.io") (process_event sample_proc 5 (sample_query "a.io") ∅) =
    if decide (ascii_bytes "b.io" = extract_domain (de_domain (sample_query "a.io")) /\
               extract_domain (de_domain (sample_query "a.io")) <> [] /\
               extract_domain (de_domain (sample_query "a.io")) <> ascii_bytes "<pending>") then
      Some {|
        dn_domain := extract_domain (de_domain (sample_query "a.io"));
        dn_ips := default [] (dn_ips <$> (∅ : dns_cache) !! extract_domain (de_domain (sample_query "a.io")));
        dn_ttl := default 0 (dn_ttl <$> (∅ : dns_cache) !! extract_domain (de_domain (sample_query "a.io")));
        dn_query_type := default (qtype_string 28)
          (dn_query_type <$> (∅ : dns_cache) !! extract_domain (de_domain (sample_query "a.io")));
        dn_last_seen := 5; dn_pid := 42; dn_process_name := get_process_name sample_proc 42 |}
    else (∅ : dns_cache) !! ascii_bytes "b.io".
Proof.
  apply (processed_domain_resolves sample_proc 5 (sample_query "a.io") ∅ (ascii_bytes "b.io")).
  apply map_Forall_empty.
Defined.

Lemma dns_pipeline_silent_witness :
  handle_dns_event [] sample_proc 5
    (to_bytes (@dns_query ref_helpers (world_at (42 * 2 ^ 32 + 7) 1000 53) 4096)) ∅ = (0, ∅).
Proof.
  apply (@dns_pipeline_silent ref_helpers ref_ring256 ref_plain
    [@Invoke ref_helpers _ (world_at (42 * 2 ^ 32 + 7) 1000 53) (SendMsg 4096 0 64)]).
  vm_compute. constructor.
Defined.
End witnesses.
