(* ===== verification/HttpConsumer.v ===== *)
(** * http_inspector.rs

    The consumer of [http_events]: the TLS server name extractor, the HTTP/1.1
    request parser, [process_event] and the bounded event queue.  A slice index
    out of range panics in Rust: functions that index return [None] for a panic
    (or for a loop that has not ended within its fuel), so that "never [None]"
    says both that they do not panic and that they terminate. *)

From S2P Require Import Prelude Bytes CLayout CObject Common Bpf BpfRef ProbeObject Emitter HttpInspector RustSlice RustStr Consumer.

#[local] Set Warnings "-clear-no-such-hyp".
#[local] Open Scope string_scope.
#[local] Open Scope list_scope.
#[local] Open Scope Z_scope.

(** ** Bytes *)

(** [data.get(i).copied().unwrap_or(0)] *)
Definition get_or_0 (data : list byte) (i : Z) : Z := default 0 (idx data i).

Definition be16 (hi lo : Z) : Z := Z.lor (Z.shiftl hi 8) lo.
Definition be24 (a b c : Z) : Z := Z.lor (Z.lor (Z.shiftl a 16) (Z.shiftl b 8)) c.

(** An early [return None]. *)
Abbreviation ret_none := (Some None).

(** ** Server name *)

Definition parse_sni_extension (data : list byte) : panics (option str) :=
  if len data <? 5 then ret_none
  else
    d0 ← idx data 0; d1 ← idx data 1;
    let list_len := be16 d0 d1 in
    if len data <? list_len + 2 then ret_none
    else
      d2 ← idx data 2;
      if negb (d2 =? 0) then ret_none
      else
        d3 ← idx data 3; d4 ← idx data 4;
        let hostname_len := be16 d3 d4 in
        if len data <? 5 + hostname_len then ret_none
        else
          bs ← range data 5 (5 + hostname_len);
          if utf8_valid bs then Some (Some bs) else ret_none.

(** The loop over the extensions. *)
Fixpoint find_sni (fuel : nat) (data : list byte) (offset extensions_end : Z) : panics (option str) :=
  match fuel with
  | O => None
  | S fuel =>
      if offset + 4 <=? extensions_end then
        d ← idx data offset;
        let ext_type := be16 d (get_or_0 data (offset + 1)) in
        let ext_len := be16 (get_or_0 data (offset + 2)) (get_or_0 data (offset + 3)) in
        let offset := offset + 4 in
        let ext_end := offset + ext_len in
        if extensions_end <? ext_end then ret_none
        else if ext_type =? 0x0000 then
          bs ← range data offset ext_end;
          parse_sni_extension bs
        else find_sni fuel data ext_end extensions_end
      else ret_none
  end.

Definition extract_sni (data : list byte) : panics (option str) :=
  if len data <? 44 then ret_none else
  d0 ← idx data 0;
  if negb (d0 =? 0x16) then ret_none else
  d1 ← idx data 1; d2 ← idx data 2;
  if (d1 <? 0x03) || ((d1 =? 0x03) && (d2 <? 0x01)) then ret_none else
  d3 ← idx data 3; d4 ← idx data 4;
  let record_len := be16 d3 d4 in
  if len data <? 5 + record_len then ret_none else
  d5 ← idx data 5;
  if negb (d5 =? 0x01) then ret_none else
  d6 ← idx data 6; d7 ← idx data 7; d8 ← idx data 8;
  let handshake_len := be24 d6 d7 d8 in
  if len data <? 9 + handshake_len then ret_none else
  let offset := 43 in
  if len data <=? offset then ret_none else
  session_id_len ← idx data offset;
  let offset := offset + (1 + session_id_len) in
  if len data <? offset + 2 then ret_none else
  c ← idx data offset;
  let cipher_suites_len := be16 c (get_or_0 data (offset + 1)) in
  let offset := offset + (2 + cipher_suites_len) in
  if len data <=? offset then ret_none else
  compression_len ← idx data offset;
  let offset := offset + (1 + compression_len) in
  if len data <? offset + 2 then ret_none else
  e ← idx data offset;
  let extensions_len := be16 e (get_or_0 data (offset + 1)) in
  let offset := offset + 2 in
  let extensions_end := offset + extensions_len in
  if len data <? extensions_end then ret_none else
  find_sni (S (length data)) data offset extensions_end.

(** ** HTTP/1.1 requests *)

Record http_request := {
  rq_method : Z;
  rq_path : str;
  rq_host : str;
  rq_http_version : str;
}.

Definition method_code (m : str) : Z :=
  if decide (m = ascii_bytes "GET") then 1
  else if decide (m = ascii_bytes "POST") then 2
  else if decide (m = ascii_bytes "PUT") then 3
  else if decide (m = ascii_bytes "DELETE") then 4
  else if decide (m = ascii_bytes "PATCH") then 5
  else if decide (m = ascii_bytes "HEAD") then 6
  else if decide (m = ascii_bytes "OPTIONS") then 7
  else 0.

(** No character that is not ASCII has a lower case that contains one of the
    letters of ["host:"], so that looking at the bytes decides
    [line.to_lowercase().starts_with("host:")]. *)
Definition is_host_line (line : str) : bool :=
  bool_decide (ascii_lower <$> take 5 line = ascii_bytes "host:").

Definition parse_request (data : list byte) : option http_request :=
  if negb (utf8_valid data) then None
  else
    first_line ← head (lines data);
    let parts := split_whitespace first_line in
    if (length parts <? 3)%nat then None
    else
      let part i := default [] (parts !! i) in
      let host := default [] ((λ line, trim (drop 5 line)) <$>
        head (filter (λ line, is_host_line line = true) (lines data))) in
      Some {| rq_method := method_code (part 0%nat); rq_path := part 1%nat;
              rq_host := host; rq_http_version := part 2%nat |}.

(** ** Events *)

Definition method_name (method : Z) : str :=
  ascii_bytes
    (match method with
     | 1 => "GET" | 2 => "POST" | 3 => "PUT" | 4 => "DELETE" | 5 => "PATCH" | 6 => "HEAD"
     | 7 => "OPTIONS" | _ => "UNKNOWN"
     end).

Definition MAX_EVENT_QUEUE : nat := 4096.

Section inspector.
Context {PL : Plain} (exclude_ports : list Z).

Definition process_event (raw : http_event) (payload : list byte) : panics (option NetworkEvent) :=
  if bool_decide (he_src_port raw ∈ exclude_ports) then ret_none
  else if he_event_type raw =? 5 then
    match parse_request payload with
    | None => ret_none
    | Some req =>
        Some (Some (HttpRequest (method_name (rq_method req)) (rq_path req) 0 f64_zero
          (format_ip (he_src_ip raw)) (format_ip (he_dst_ip raw)) (he_dst_port raw) (he_pid raw)))
    end
  else if he_event_type raw =? 6 then
    hostname ← extract_sni payload;
    match hostname with
    | None => ret_none
    | Some _ =>
        Some (Some (HttpRequest (ascii_bytes "TLS") [] 0 f64_zero
          (format_ip (he_src_ip raw)) (format_ip (he_dst_ip raw)) (he_dst_port raw) (he_pid raw)))
    end
  else ret_none.

(** The queue, oldest event first. *)
Definition push_event (events : list NetworkEvent) (event : NetworkEvent) : list NetworkEvent :=
  (if (MAX_EVENT_QUEUE <=? length events)%nat then tail events else events) ++ [event].

Definition handle_http_event (events : list NetworkEvent) (data : list byte) :
    panics (Z * list NetworkEvent) :=
  let struct_size := size_of "HttpEventRaw" in
  if len data <? struct_size then Some (0, events)
  else
    match plain_from_bytes struct_size data with
    | None => Some (0, events)
    | Some view =>
        let raw := view_http view in
        if bool_decide (he_src_port raw ∈ exclude_ports) || bool_decide (he_dst_port raw ∈ exclude_ports)
        then Some (0, events)
        else
          payload ← (if struct_size <? len data then range data struct_size (len data) else Some []);
          result ← process_event raw payload;
          match result with
          | Some event => Some (0, push_event events event)
          | None => Some (0, events)
          end
    end.

Definition http_drain_events (events : list NetworkEvent) : list NetworkEvent * list NetworkEvent :=
  (events, []).
End inspector.

Example request_ex :
  parse_request (ascii_bytes "GET /a?b=1 HTTP/1.1" ++ [x0d; x0a] ++ ascii_bytes "HOST:  x.org " ++
    [x0d; x0a; x0d; x0a]) =
  Some {| rq_method := 1; rq_path := ascii_bytes "/a?b=1"; rq_host := ascii_bytes "x.org";
          rq_http_version := ascii_bytes "HTTP/1.1" |}.
Proof. vm_compute. reflexivity. Qed.

(** ** The extractor stays inside the slice *)

Lemma get_or_0_nonneg data i : 0 <= get_or_0 data i.
Proof.
  unfold get_or_0, idx. destruct (i <? 0); [done|].
  destruct (data !! Z.to_nat i) as [b|]; simpl; [|done]. pose proof (Z_of_byte_range b). lia.
Qed.

Lemma be16_nonneg a b : 0 <= a -> 0 <= b -> 0 <= be16 a b.
Proof. intros. unfold be16. rewrite Z.lor_nonneg, Z.shiftl_nonneg. done. Qed.

(** [h] is a part of [data]. *)
Definition part_of (h data : list byte) : Prop := exists i, h = slice i (length h) data /\ (i + length h <= length data)%nat.

Lemma part_of_slice h data i n :
  (i + n <= length data)%nat -> part_of h (slice i n data) -> part_of h data.
Proof.
  intros Hin (j & Hj & Hle). rewrite length_slice in Hle by lia.
  exists (i + j)%nat. split; [|lia]. rewrite Hj at 1. unfold slice.
  rewrite skipn_firstn_comm, take_take, drop_drop, Nat.min_l by lia. done.
Qed.

(** The outcome of a search in [data]: no panic, and a name that is a valid
    part of it. *)
Definition finds_part (data : list byte) (r : panics (option str)) : Prop :=
  r = Some None \/ exists h, r = Some (Some h) /\ utf8_valid h = true /\ part_of h data.

(** Resolves the next index or test of the goal. *)
Ltac sni_step :=
  match goal with
  | |- context [idx ?d ?i ≫= _] =>
      let z := fresh "z" in let Hz := fresh "Hz" in
      destruct (idx_some d i ltac:(unfold len in *; lia)) as (z & -> & Hz); cbn [mbind option_bind]
  | |- context [if ?a <? ?b then _ else _] => destruct (Z.ltb_spec a b); [by left|]
  | |- context [if ?a <=? ?b then _ else _] => destruct (Z.leb_spec a b); [by left|]
  | |- context [if negb ?b then _ else _] => destruct (negb b); [by left|]
  | |- context [if (?a || ?b) then _ else _] => destruct (a || b); [by left|]
  end.

Lemma parse_sni_extension_finds data : finds_part data (parse_sni_extension data).
Proof.
  unfold parse_sni_extension. repeat sni_step. cbv zeta in *. repeat sni_step.
  pose proof (be16_nonneg z2 z3 ltac:(lia) ltac:(lia)).
  rewrite range_some by lia. cbn [mbind option_bind].
  destruct (utf8_valid _) eqn:Hv; [|by left]. right. eexists. split_and!; [done..|].
  unfold len in *. eexists. rewrite length_slice by lia. split; [done|lia].
Qed.

Lemma find_sni_finds fuel data offset extensions_end :
  0 <= offset -> extensions_end <= len data -> extensions_end - offset < Z.of_nat fuel -> (0 < fuel)%nat ->
  finds_part data (find_sni fuel data offset extensions_end).
Proof.
  revert offset. induction fuel as [|fuel IH]; intros offset Ho He Hf Hpos; [lia|]. cbn [find_sni].
  destruct (Z.leb_spec (offset + 4) extensions_end); [|by left].
  sni_step. cbv zeta.
  pose proof (be16_nonneg _ _ (get_or_0_nonneg data (offset + 2)) (get_or_0_nonneg data (offset + 3))).
  sni_step. case_match; [|by apply IH; lia].
  rewrite range_some by lia. cbn [mbind option_bind].
  destruct (parse_sni_extension_finds (slice (Z.to_nat (offset + 4))
    (Z.to_nat (offset + 4 + be16 (get_or_0 data (offset + 2)) (get_or_0 data (offset + 3)) - (offset + 4)))
    data)) as [->|(h & -> & Hv & Hp)]; [by left|].
  right. exists h. split_and!; [done..|]. eapply part_of_slice, Hp. unfold len in *. lia.
Qed.

Lemma extract_sni_finds data : finds_part data (extract_sni data).
Proof.
  unfold extract_sni. repeat sni_step. cbv zeta. repeat sni_step.
  pose proof (be16_nonneg z9 _ ltac:(lia) (get_or_0_nonneg data (43 + (1 + z8) + 1))).
  repeat sni_step.
  match goal with
  | H : _ + be16 z11 ?g <= len data |- _ => pose proof (be16_nonneg z11 g ltac:(lia) (get_or_0_nonneg _ _))
  end.
  apply find_sni_finds; unfold len in *; lia.
Qed.

(** ** Client hellos *)

Definition u16_be (n : Z) : list byte := [byte_of_Z (n / 256); byte_of_Z n].
Definition u24_be (n : Z) : list byte := [byte_of_Z (n / 65536); byte_of_Z (n / 256); byte_of_Z n].

Definition extension (e : Z * list byte) : list byte := u16_be e.1 ++ u16_be (len e.2) ++ e.2.

(** RFC 6066: a list of one name of type host_name. *)
Definition server_name (host : str) : Z * list byte :=
  (0, u16_be (len host + 3) ++ [x00] ++ u16_be (len host) ++ host).

(** RFC 8446, section 4.1.2, in a record of version 3.[minor]. *)
Definition hello_body (random session ciphers compression : list byte)
    (extensions : list (Z * list byte)) : list byte :=
  let exts := concat (extension <$> extensions) in
  [x03; x03] ++ random ++ [byte_of_Z (len session)] ++ session ++ u16_be (len ciphers) ++ ciphers ++
  [byte_of_Z (len compression)] ++ compression ++ u16_be (len exts) ++ exts.

Definition client_hello (minor : byte) (body : list byte) : list byte :=
  [x16; x03; minor] ++ u16_be (len body + 4) ++ [x01] ++ u24_be (len body) ++ body.

(** *** Big-endian integers *)

Lemma be16_u16 n : 0 <= n < 2 ^ 16 ->
  be16 (Z_of_byte (byte_of_Z (n / 256))) (Z_of_byte (byte_of_Z n)) = n.
Proof.
  intros Hn. unfold be16. rewrite !Z_of_byte_of_Z, lor_shiftl by (apply Z.mod_pos_bound || lia; lia).
  change (2 ^ 8) with 256. Z.to_euclidean_division_equations. lia.
Qed.

Lemma be24_u24 n : 0 <= n < 2 ^ 24 ->
  be24 (Z_of_byte (byte_of_Z (n / 65536))) (Z_of_byte (byte_of_Z (n / 256))) (Z_of_byte (byte_of_Z n)) = n.
Proof.
  intros Hn. unfold be24. rewrite !Z_of_byte_of_Z, <- Z.lor_assoc.
  rewrite (lor_shiftl (n / 256 mod 256)) by (apply Z.mod_pos_bound || lia; lia).
  rewrite lor_shiftl; [|lia|].
  - change (2 ^ 8) with 256. change (2 ^ 16) with 65536. Z.to_euclidean_division_equations. lia.
  - change (2 ^ 8) with 256. change (2 ^ 16) with 65536. Z.to_euclidean_division_equations. lia.
Qed.

(** *** Reading at an offset *)

(** What is left of [data] from offset [o] on. *)
Definition at_ (data : list byte) (o : Z) (s : list byte) : Prop :=
  0 <= o /\ drop (Z.to_nat o) data = s /\ o + len s = len data.

Lemma at_start data : at_ data 0 data.
Proof. by split_and!. Qed.

Lemma len_app l s : len (l ++ s) = len l + len s.
Proof. unfold len. rewrite length_app. lia. Qed.

Lemma len_u16 n : len (u16_be n) = 2.
Proof. reflexivity. Qed.

Lemma at_skip data o l s : at_ data o (l ++ s) -> at_ data (o + len l) s.
Proof.
  intros (Ho & Hd & Hl). rewrite len_app in Hl. pose proof (len_nonneg l). split_and!; [lia| |lia].
  rewrite Z2Nat.inj_add, <- drop_drop, Hd by done. unfold len. rewrite Nat2Z.id. apply drop_app_length.
Qed.

Lemma at_next data o b s : at_ data o (b :: s) -> at_ data (o + 1) s.
Proof. apply (at_skip data o [b] s). Qed.

Lemma at_idx data o b s : at_ data o (b :: s) -> idx data o = Some (Z_of_byte b).
Proof.
  intros (Ho & Hd & _). unfold idx. rewrite (proj2 (Z.ltb_ge _ _)) by lia.
  rewrite <- (Nat.add_0_r (Z.to_nat o)), <- lookup_drop, Hd. done.
Qed.

Lemma at_get data o b s : at_ data o (b :: s) -> get_or_0 data o = Z_of_byte b.
Proof. intros H. unfold get_or_0. by rewrite (at_idx _ _ _ _ H). Qed.

Lemma at_range data o l s : at_ data o (l ++ s) -> range data o (o + len l) = Some l.
Proof.
  intros (Ho & Hd & Hl). pose proof (len_nonneg l). pose proof (len_nonneg s). rewrite len_app in Hl.
  rewrite range_some by lia. unfold slice. rewrite Hd. f_equal.
  replace (Z.to_nat (o + len l - o)) with (length l) by (unfold len; lia). apply take_app_length.
Qed.

(** Reads the next bytes of the goal with the fact [H] on the current offset. *)
Ltac read_next H :=
  match goal with
  | |- context [idx ?d ?i ≫= _] =>
      match type of H with
      | at_ d ?o (?b :: _) =>
          let E := fresh in
          assert (idx d i = Some (Z_of_byte b)) as E
            by (rewrite <- (at_idx _ _ _ _ H); f_equal; lia);
          rewrite E; clear E; cbn [mbind option_bind]; apply at_next in H
      end
  end.

Ltac read_get H :=
  match goal with
  | |- context [get_or_0 ?d ?i] =>
      match type of H with
      | at_ d ?o (?b :: _) =>
          let E := fresh in
          assert (get_or_0 d i = Z_of_byte b) as E
            by (rewrite <- (at_get _ _ _ _ H); f_equal; lia);
          rewrite E; clear E; apply at_next in H
      end
  end.

Lemma parse_server_name host :
  utf8_valid host = true -> len host + 3 < 2 ^ 16 ->
  parse_sni_extension (server_name host).2 = Some (Some host).
Proof.
  intros Hv Hlen. pose proof (len_nonneg host) as Hn. cbn [server_name snd].
  set (data := _ ++ _). unfold parse_sni_extension.
  assert (len data = 5 + len host) as Hd by 
    (unfold data; rewrite !len_app, !len_u16; change (len [x00]) with 1; lia).
  rewrite (proj2 (Z.ltb_ge (len data) 5)) by lia.
  assert (at_ data 0 (u16_be (len host + 3) ++ [x00] ++ u16_be (len host) ++ host)) as H by apply at_start.
  unfold u16_be in H. cbn [app] in H.
  read_next H. read_next H. rewrite be16_u16 by lia. rewrite (proj2 (Z.ltb_ge (len data) _)) by lia.
  read_next H. cbn [negb Z.eqb Z_of_byte]. read_next H. read_next H. rewrite be16_u16 by lia.
  rewrite (proj2 (Z.ltb_ge (len data) _)) by lia.
  rewrite <- (app_nil_r host) in H.
  change (range data 5 (5 + len host)) with (range data (0 + 1 + 1 + 1 + 1 + 1) (0 + 1 + 1 + 1 + 1 + 1 + len host)).
  rewrite (at_range _ _ _ _ H). cbn [mbind option_bind]. by rewrite Hv.
Qed.

(** Extensions of other types than [server_name], as long as their length says. *)
Definition other_extension (e : Z * list byte) : Prop := 0 < e.1 < 2 ^ 16 /\ len e.2 < 2 ^ 16.

Lemma len_server_name_body host : len (server_name host).2 = len host + 5.
Proof. cbn [server_name snd]. rewrite !len_app, !len_u16. change (len [x00]) with 1. lia. Qed.

Lemma len_extension t body : len (extension (t, body)) = 4 + len body.
Proof. unfold extension. rewrite !len_app, !len_u16. cbn [snd]. lia. Qed.

(** The loop reads one whole extension. *)
Lemma find_sni_extension fuel data o extensions_end t body rest :
  0 <= t < 2 ^ 16 -> len body < 2 ^ 16 ->
  at_ data o (extension (t, body) ++ rest) -> o + len (extension (t, body)) <= extensions_end ->
  find_sni (S fuel) data o extensions_end =
    if t =? 0 then parse_sni_extension body
    else find_sni fuel data (o + len (extension (t, body))) extensions_end.
Proof.
  intros Ht Hb A. rewrite len_extension. pose proof (len_nonneg body). intros He.
  unfold extension, u16_be in A. cbn [app fst snd] in A. cbn [find_sni].
  destruct (Z.leb_spec (o + 4) extensions_end); [|lia].
  pose proof A as A1. apply at_next in A1. pose proof A1 as A2. apply at_next in A2.
  pose proof A2 as A3. apply at_next in A3. pose proof A3 as A4. apply at_next in A4.
  rewrite (at_idx _ _ _ _ A), (at_get _ _ _ _ A1). cbn [mbind option_bind].
  replace (o + 2) with (o + 1 + 1) by lia. replace (o + 3) with (o + 1 + 1 + 1) by lia.
  rewrite (at_get _ _ _ _ A2), (at_get _ _ _ _ A3), !be16_u16 by lia.
  destruct (Z.ltb_spec extensions_end (o + 4 + len body)); [lia|].
  destruct (t =? 0); [|f_equal; lia].
  replace (o + 4) with (o + 1 + 1 + 1 + 1) by lia. by rewrite (at_range _ _ _ _ A4).
Qed.

Lemma find_sni_hit before host post data o extensions_end fuel :
  Forall other_extension before -> utf8_valid host = true -> len host + 5 < 2 ^ 16 ->
  at_ data o (concat (extension <$> before) ++ extension (server_name host) ++ post) ->
  o + len (concat (extension <$> before) ++ extension (server_name host)) <= extensions_end ->
  (length before < fuel)%nat ->
  find_sni fuel data o extensions_end = Some (Some host).
Proof.
  intros Hb Hv Hh. revert o fuel. induction Hb as [|[t body] before [Ht Hlb] Hb IH];
    intros o [|fuel] A He Hf; try (simpl in Hf; lia).
  - change (concat (extension <$> [])) with (@nil byte) in *. rewrite !app_nil_l in *.
    rewrite (surjective_pairing (server_name host)) in A, He. cbn [concat app] in A, He.
    pose proof (len_nonneg host). pose proof (len_server_name_body host).
    erewrite find_sni_extension; [| | |exact A|exact He]; [|by split|lia].
    apply parse_server_name; [done|lia].
  - cbn [fst snd] in Ht, Hlb. rewrite fmap_cons in A, He. cbn [concat] in A, He.
    rewrite <- app_assoc in A, He. rewrite len_app in He.
    pose proof (len_nonneg (concat (extension <$> before) ++ extension (server_name host))).
    erewrite find_sni_extension; [| | |exact A|]; [|lia|done|lia].
    rewrite (proj2 (Z.eqb_neq t 0)) by lia.
    apply IH; [by apply at_skip|lia|simpl in Hf; lia].
Qed.

Lemma length_others before :
  Forall other_extension before -> Z.of_nat (length before) <= len (concat (extension <$> before)).
Proof.
  induction 1 as [|e before _ _ IH]; [done|].
  rewrite fmap_cons. cbn [concat length]. rewrite len_app. unfold extension at 1.
  rewrite !len_app, !len_u16. pose proof (len_nonneg e.2). lia.
Qed.

Lemma byte_len l : len l < 256 -> Z_of_byte (byte_of_Z (len l)) = len l.
Proof. intros. rewrite Z_of_byte_of_Z. apply Z.mod_small. pose proof (len_nonneg l). lia. Qed.

Lemma len_server_name host : len (extension (server_name host)) = 9 + len host.
Proof. rewrite (surjective_pairing (server_name host)), len_extension, len_server_name_body. lia. Qed.

Lemma len_hello_body random session ciphers compression extensions :
  len random = 32 ->
  len (hello_body random session ciphers compression extensions) =
    40 + len session + len ciphers + len compression + len (concat (extension <$> extensions)).
Proof.
  intros Hr. unfold hello_body. rewrite !len_app, !len_u16, Hr.
  repeat match goal with |- context [len [?b]] => change (len [b]) with 1 end.
  change (len [x03; x03]) with 2. lia.
Qed.

Lemma len_client_hello minor body : len (client_hello minor body) = 9 + len body.
Proof.
  unfold client_hello. rewrite !len_app, len_u16. change (len (u24_be _)) with 3.
  change (len [_; _; _]) with 3. change (len [x01]) with 1. lia.
Qed.

Lemma extensions_around before host after :
  let es := concat (extension <$> before ++ server_name host :: after) in
  es = concat (extension <$> before) ++ extension (server_name host) ++ concat (extension <$> after) /\
  len es = len (concat (extension <$> before)) + (9 + len host) + len (concat (extension <$> after)).
Proof.
  intros es. assert (es = concat (extension <$> before) ++ extension (server_name host) ++
    concat (extension <$> after)) as Hes by (unfold es; by rewrite fmap_app, concat_app).
  split; [done|]. rewrite Hes, !len_app, len_server_name. lia.
Qed.

Lemma extract_sni_hello minor random session ciphers compression before host after :
  1 <= Z_of_byte minor -> len random = 32 -> len session < 256 -> len ciphers < 2 ^ 16 ->
  len compression < 256 -> Forall other_extension before -> utf8_valid host = true ->
  let exts := before ++ server_name host :: after in
  let body := hello_body random session ciphers compression exts in
  len body + 4 < 2 ^ 16 ->
  extract_sni (client_hello minor body) = Some (Some host).
Proof.
  intros Hminor Hr Hs Hc Hm Hb Hv exts body Hbody.
  set (data := client_hello minor body).
  pose proof (len_nonneg session). pose proof (len_nonneg ciphers). pose proof (len_nonneg compression).
  pose proof (len_nonneg host). pose proof (len_nonneg (concat (extension <$> before))).
  pose proof (len_nonneg (concat (extension <$> after))).
  destruct (extensions_around before host after) as [Hes Hle]. fold exts in Hes, Hle.
  pose proof (len_hello_body random session ciphers compression exts Hr) as Hlb. fold body in Hlb.
  pose proof (len_client_hello minor body) as Hd. fold data in Hd.
  set (es := concat (extension <$> exts)) in *.
  assert (at_ data 0 ([x16; x03; minor] ++ u16_be (len body + 4) ++ [x01] ++ u24_be (len body) ++ body))
    as A by apply at_start.
  unfold u16_be, u24_be in A. cbn [app] in A. unfold extract_sni.
  rewrite (proj2 (Z.ltb_ge (len data) 44)) by lia.
  read_next A. change (negb (Z_of_byte x16 =? 0x16)) with false. cbv iota.
  read_next A. read_next A. change (Z_of_byte x03 <? 3) with false. change (Z_of_byte x03 =? 3) with true.
  rewrite (proj2 (Z.ltb_ge (Z_of_byte minor) 1)) by lia. cbn [orb andb].
  read_next A. read_next A. rewrite be16_u16 by lia. rewrite (proj2 (Z.ltb_ge (len data) _)) by lia.
  read_next A. change (negb (Z_of_byte x01 =? 1)) with false. cbv iota.
  read_next A. read_next A. read_next A. rewrite be24_u24 by lia.
  rewrite (proj2 (Z.ltb_ge (len data) _)) by lia. rewrite (proj2 (Z.leb_gt (len data) _)) by lia.
  unfold body, hello_body in A. fold es in A. cbv zeta in A. cbn [app] in A.
  do 2 apply at_next in A. apply at_skip in A. rewrite Hr in A. cbn [app] in A.
  read_next A. rewrite byte_len by done. rewrite (proj2 (Z.ltb_ge (len data) _)) by lia.
  apply at_skip in A. unfold u16_be in A. cbn [app] in A. read_next A. read_get A.
  rewrite be16_u16 by lia. rewrite (proj2 (Z.leb_gt (len data) _)) by lia.
  apply at_skip in A. cbn [app] in A. read_next A. rewrite byte_len by done.
  rewrite (proj2 (Z.ltb_ge (len data) _)) by lia.
  apply at_skip in A. cbn [app] in A. read_next A. read_get A. rewrite be16_u16 by lia.
  rewrite (proj2 (Z.ltb_ge (len data) _)) by lia.
  match type of A with at_ _ ?o _ => match goal with |- find_sni _ _ ?o' _ = _ => replace o' with o by lia end end.
  rewrite Hes in A. eapply find_sni_hit; [done..|lia|exact A| |].
  - rewrite len_app, len_server_name. lia.
  - pose proof (length_others _ Hb). apply Nat.lt_succ_r, Nat2Z.inj_le.
    change (Z.of_nat (length data)) with (len data). lia.
Qed.

(** ** Requests *)


(** [Host] is the first header, others may follow. *)
Definition request (method path version host : str) (rest : list byte) : list byte :=
  (method ++ space ++ path ++ space ++ version) ++ crlf ++
  (ascii_bytes "Host:" ++ space ++ host) ++ crlf ++ rest.

Definition methods : list str := ascii_bytes <$>
  ["GET"; "POST"; "PUT"; "DELETE"; "PATCH"; "HEAD"; "OPTIONS"].

Lemma word_no_lf w : Forall (λ b, is_whitespace [b] = false) w -> x0a ∉ w.
Proof. rewrite Forall_forall. by intros H ?%H. Qed.

Lemma lines_crlf l rest : x0a ∉ l -> lines (l ++ crlf ++ rest) = l :: lines rest.
Proof.
  intros Hl. unfold lines.
  enough (forall r, lines_from r (l ++ crlf ++ rest) = (rev r ++ l) :: lines_from [] rest) as H by apply H.
  induction l as [|b l IH]; intros r; simpl.
  - by rewrite app_nil_r.
  - apply not_elem_of_cons in Hl as [Hb Hl]. rewrite bool_decide_false by congruence.
    rewrite IH by done. simpl. by rewrite <- app_assoc.
Qed.

Lemma split_three a b c :
  word a -> word b -> word c -> split_whitespace (a ++ space ++ b ++ space ++ c) = [a; b; c].
Proof.
  intros (Ha & Ha1 & Ha2) (Hb & Hb1 & Hb2) (Hc & Hc1 & Hc2).
  assert (is_ascii space) as Hsp by (repeat constructor).
  unfold split_whitespace. rewrite chars_of_ascii by (repeat apply Forall_app_2; done).
  rewrite !fmap_app. change ((λ b0 : byte, [b0]) <$> space) with [[x20]].
  rewrite ascii_word_split, app_nil_l by done. cbn [app].
  rewrite ascii_space_split, ascii_word_split, app_nil_l by done. cbn [app].
  rewrite ascii_space_split by done. rewrite <- (app_nil_r ((λ b0 : byte, [b0]) <$> c)).
  rewrite ascii_word_split, app_nil_l by done. by destruct c.
Qed.

Lemma trim_word w : word w -> trim (space ++ w) = w.
Proof.
  intros (Hw & Hw1 & Hw2). unfold trim.
  rewrite chars_of_ascii by (apply Forall_app_2; [by repeat constructor|done]).
  rewrite fmap_app. change ((λ b : byte, [b]) <$> space) with [[x20]]. cbn [app trim_start_chars is_whitespace].
  change (between 9 13 (Z_of_byte x20) || (Z_of_byte x20 =? 32)) with true. cbv iota.
  assert (forall v, Forall (λ b, is_whitespace [b] = false) v ->
    trim_start_chars ((λ b, [b]) <$> v) = (λ b, [b]) <$> v) as Ht.
  { intros v Hv. destruct Hv as [|b v Hb _]; [done|].
    rewrite fmap_cons. cbn [trim_start_chars]. by rewrite Hb. }
  assert (forall v : str, rev ((λ b : byte, [b]) <$> v) = (λ b, [b]) <$> rev v) as Hr
    by (intros v; symmetry; apply List.map_rev).
  rewrite Ht, Hr, Ht, Hr, rev_involutive by (done || by apply List.Forall_rev).
  clear. induction w as [|b w IH]; [done|]. rewrite fmap_cons. cbn [concat]. by rewrite IH.
Qed.

Lemma not_host_line b l : ascii_lower b <> x68 -> is_host_line (b :: l) = false.
Proof. intros Hb. apply bool_decide_eq_false_2. cbn [take]. rewrite fmap_cons. by intros [= ?]. Qed.

Lemma method_not_host m l : m ∈ methods -> is_host_line (m ++ l) = false.
Proof.
  unfold methods. rewrite list_elem_of_fmap. intros (y & -> & Hy).
  set_unfold in Hy. naive_solver (apply not_host_line; by vm_compute).
Qed.

Lemma parse_request_request m p v h rest :
  m ∈ methods -> word m -> word p -> word v -> word h -> is_ascii rest ->
  parse_request (request m p v h rest) =
    Some {| rq_method := method_code m; rq_path := p; rq_host := h; rq_http_version := v |}.
Proof.
  intros Hmeth Hm Hp Hv Hh Hr. unfold parse_request.
  destruct (Hm) as (_ & Hm1 & Hm2), (Hp) as (_ & Hp1 & Hp2), (Hv) as (_ & Hv1 & Hv2), (Hh) as (_ & Hh1 & Hh2).
  assert (is_ascii space) as Hsp by (repeat constructor).
  rewrite utf8_valid_ascii.
  2: { unfold request, crlf. repeat apply Forall_app_2; try done; by repeat constructor. }
  cbn [negb].
  assert (lines (request m p v h rest) =
    (m ++ space ++ p ++ space ++ v) :: (ascii_bytes "Host:" ++ space ++ h) :: lines rest) as ->.
  { unfold request. rewrite !lines_crlf; [done|..];
      rewrite !not_elem_of_app; split_and?; try (by apply word_no_lf); by apply (bool_decide_unpack _). }
  cbn [head mbind option_bind]. rewrite split_three by done.
  rewrite filter_cons_False by (by rewrite method_not_host).
  rewrite filter_cons_True by done.
  cbn [length Nat.ltb Nat.leb head option_fmap option_map default]. f_equal. f_equal.
  change (drop 5 (ascii_bytes "Host:" ++ space ++ h)) with (space ++ h). by apply trim_word.
Qed.

Lemma method_name_code m : m ∈ methods -> method_name (method_code m) = m.
Proof.
  unfold methods. rewrite list_elem_of_fmap. intros (y & -> & Hy). set_unfold in Hy.
  naive_solver (by vm_compute).
Qed.

(** ** The event queue *)

Section queue.
Context {PL : Plain} (exclude_ports : list Z).

(** The records in the order the ring delivers them. *)
Definition handle_http_events (events : list NetworkEvent) (datas : list (list byte)) :
    panics (list NetworkEvent) :=
  foldl (λ q data, events ← q; snd <$> handle_http_event exclude_ports events data) (Some events) datas.

Definition excluded (raw : http_event) : bool :=
  bool_decide (he_src_port raw ∈ exclude_ports) || bool_decide (he_dst_port raw ∈ exclude_ports).

(** A record with its payload. *)
Lemma handle_http_record events e payload :
  co_wf e -> excluded e = false ->
  handle_http_event exclude_ports events (to_bytes e ++ payload) =
    (result ← process_event exclude_ports e payload;
     Some (0, match result with Some event => push_event events event | None => events end)).
Proof using Type.
  intros Hwf Hex. unfold handle_http_event.
  pose proof (size_of_event _ e Hwf http_same_fields) as Hsz.
  assert (len (to_bytes e ++ payload) = size_of "HttpEventRaw" + len payload) as Hlen
    by (rewrite len_app, Hsz; done).
  pose proof (len_nonneg payload). rewrite (proj2 (Z.ltb_ge _ (size_of _))) by lia.
  assert (0 <= size_of "HttpEventRaw") as Hnn by lia.
  rewrite plain_ok by (fold (len (to_bytes e ++ payload)); lia).
  assert (take (Z.to_nat (size_of "HttpEventRaw")) (to_bytes e ++ payload) = to_bytes e) as ->
    by (rewrite Hsz, Nat2Z.id; apply take_app_length).
  pose proof (view_http_whole e Hwf) as [= ->].
  pose proof Hex as Hex'. unfold excluded in Hex'. rewrite Hex'. clear Hex'.
  assert ((if size_of "HttpEventRaw" <? len (to_bytes e ++ payload)
           then range (to_bytes e ++ payload) (size_of "HttpEventRaw") (len (to_bytes e ++ payload))
           else Some []) = Some payload) as ->.
  { destruct (Z.ltb_spec (size_of "HttpEventRaw") (len (to_bytes e ++ payload))).
    - pose proof (at_skip (to_bytes e ++ payload) 0 (to_bytes e) payload (at_start _)) as A.
      replace payload with (payload ++ []) in A at 2 by apply app_nil_r. apply at_range in A.
      rewrite Hlen, Hsz. exact A.
    - assert (payload = []) as -> by (apply length_zero_iff_nil; unfold len in *; lia). done. }
  cbn [mbind option_bind]. destruct (process_event _ _ _) as [[event|]|]; done.
Qed.

(** What a record adds to the queue. *)
Definition record_events (data : list byte) : list NetworkEvent :=
  default [] (snd <$> handle_http_event exclude_ports [] data).

Lemma process_event_some raw payload : exists r, process_event exclude_ports raw payload = Some r.
Proof using Type.
  unfold process_event. case_bool_decide; [eauto|]. case_match; [case_match; eauto|].
  case_match; [|eauto]. by destruct (extract_sni_finds payload) as [->|(h & -> & _)]; eexists.
Qed.

Lemma handle_http_event_pushes events data :
  (record_events data = [] /\ handle_http_event exclude_ports events data = Some (0, events)) \/
  exists event, record_events data = [event] /\
    handle_http_event exclude_ports events data = Some (0, push_event events event).
Proof using Type.
  unfold record_events, handle_http_event.
  destruct (Z.ltb_spec (len data) (size_of "HttpEventRaw")) as [|Hlen]; [by left|].
  destruct (plain_from_bytes _ _) as [view|]; [|by left].
  destruct (_ || _); [by left|].
  assert (exists payload : list byte, (if size_of "HttpEventRaw" <? len data
    then range data (size_of "HttpEventRaw") (len data) else Some []) = Some payload) as [payload ->].
  { case_match; [|eauto]. rewrite range_some; [eauto|split; [|lia]|lia].
    unfold size_of. by vm_compute. }
  cbn [mbind option_bind]. destruct (process_event_some (view_http view) payload) as [[event|] ->];
    [right; by exists event|by left].
Qed.

(** The newest [MAX_EVENT_QUEUE] events. *)
Definition newest (events : list NetworkEvent) : list NetworkEvent :=
  drop (length events - MAX_EVENT_QUEUE) events.

Lemma newest_push events event : push_event (newest events) event = newest (events ++ [event]).
Proof using Type.
  unfold push_event, newest. rewrite length_drop, length_app. cbn [length].
  assert (forall l : list NetworkEvent, tail l = drop 1 l) as Ht by (by intros []).
  destruct (Nat.leb_spec MAX_EVENT_QUEUE (length events - (length events - MAX_EVENT_QUEUE))).
  - rewrite Ht, drop_drop, <- drop_app_le by (unfold MAX_EVENT_QUEUE in *; lia). f_equal. lia.
  - rewrite <- drop_app_le by (unfold MAX_EVENT_QUEUE in *; lia). f_equal. lia.
Qed.

Lemma handle_http_events_newest datas :
  handle_http_events [] datas = Some (newest (concat (record_events <$> datas))).
Proof using Type.
  unfold handle_http_events. induction datas as [|data datas IH] using rev_ind; [done|].
  rewrite foldl_app, IH. cbn [foldl mbind option_bind].
  rewrite fmap_app, concat_app. change (concat (record_events <$> [data])) with (record_events data ++ []).
  rewrite app_nil_r.
  destruct (handle_http_event_pushes (newest (concat (record_events <$> datas))) data)
    as [[-> ->]|(event & -> & ->)]; cbn [fmap option_fmap option_map snd].
  - by rewrite app_nil_r.
  - by rewrite newest_push.
Qed.
End queue.

(** ** Properties *)

(** [C32] The server name extractor is safe on every input: it indexes only
    inside the slice, its loop ends, and a name that it returns is a valid
    UTF-8 part of the slice. *)
Theorem extract_sni_safe data :
  extract_sni data = Some None \/
  exists h, extract_sni data = Some (Some h) /\ utf8_valid h = true /\ part_of h data.
Proof. exact (extract_sni_finds data). Qed.

(** [C33] The server name of every client hello that fits in a TLS record is
    found, whatever the version, the session, the cipher suites and the
    extensions before and after it. *)
Theorem sni_roundtrip minor random session ciphers compression before host after :
  1 <= Z_of_byte minor -> len random = 32 -> len session < 256 -> len ciphers < 2 ^ 16 ->
  len compression < 256 -> Forall other_extension before -> utf8_valid host = true ->
  let body := hello_body random session ciphers compression (before ++ server_name host :: after) in
  len body + 4 < 2 ^ 16 ->
  extract_sni (client_hello minor body) = Some (Some host).
Proof. exact (extract_sni_hello minor random session ciphers compression before host after). Qed.

Section properties.
Context {PL : Plain} (exclude_ports : list Z).

(** A record of an HTTP event followed by the text of a request whose
    first header is its host is queued with the method and the path of the
    request and the addresses of the event. *)
Theorem request_reported events e method path version host rest :
  co_wf e -> excluded exclude_ports e = false -> he_event_type e = 5 ->
  method ∈ methods -> word method -> word path -> word version -> word host -> is_ascii rest ->
  let text := request method path version host rest in
  (rq_host <$> parse_request text) = Some host /\
  handle_http_event exclude_ports events (to_bytes e ++ text) =
    Some (0, push_event events (HttpRequest method path 0 f64_zero
      (format_ip (he_src_ip e)) (format_ip (he_dst_ip e)) (he_dst_port e) (he_pid e))).
Proof.
  intros Hwf Hex Hty Hm Hmw Hp Hv Hh Hr text.
  rewrite handle_http_record by done. unfold process_event. rewrite Hty.
  assert (he_src_port e ∉ exclude_ports) as Hsrc.
  { unfold excluded in Hex. apply orb_false_iff in Hex as [Hex _]. by apply bool_decide_eq_false in Hex. }
  rewrite (bool_decide_false _ Hsrc). cbn [Z.eqb Pos.eqb]. unfold text.
  rewrite parse_request_request by done. cbn [rq_method rq_path rq_host fmap option_fmap option_map].
  by rewrite method_name_code.
Qed.

(** The event queue is bounded: records never make the handler panic, and
    after any sequence of them the queue holds the newest
    [MAX_EVENT_QUEUE] of the events they carried, in order. *)
Theorem event_queue_bounded datas :
  exists events, handle_http_events exclude_ports [] datas = Some events /\
    events = newest (concat (record_events exclude_ports <$> datas)) /\
    (length events <= MAX_EVENT_QUEUE)%nat.
Proof using Type.
  eexists. split_and!; [apply handle_http_events_newest|done|].
  unfold newest. rewrite length_drop. lia.
Qed.
End properties.

(** End to end, no HTTP request and no TLS handshake is ever reported:
    the program sends the bare structure, the payload the consumer would parse
    is empty, and every record leaves the queue as it was. *)
Theorem http_pipeline_silent `{!Helpers, !Ringbuf, !Plain} ls bs exclude_ports events :
  bs ∈ records (http_run ls em_init) ->
  handle_http_event exclude_ports events bs = Some (0, events).
Proof.
  intros (e & _ & -> & Hwf)%(em_provenance (E := http_event)).
  destruct (excluded exclude_ports e) eqn:Hex.
  - unfold handle_http_event. rewrite (plain_whole _ _ Hwf http_same_fields).
    pose proof (view_http_whole e Hwf) as [= ->]. fold (excluded exclude_ports e). rewrite Hex.
    by destruct (_ <? _).
  - rewrite <- (app_nil_r (to_bytes e)), handle_http_record by done. unfold process_event.
    case_bool_decide; [done|]. repeat case_match; try done; by simplify_eq.
Qed.

(** ** Witnesses *)

Section witnesses.
#[local] Existing Instances ref_plain.

Lemma sni_roundtrip_witness :
  extract_sni (client_hello x03 (hello_body (repeat x07 32) [x01] [x13; x01] [x00]
    ([(43, [x02; x03; x04])] ++ server_name (ascii_bytes "x.org") :: [(0, [])]))) =
  Some (Some (ascii_bytes "x.org")).
Proof.
  apply (sni_roundtrip x03 (repeat x07 32) [x01] [x13; x01] [x00] [(43, [x02; x03; x04])]
    (ascii_bytes "x.org") [(0, [])]); try done; try (by vm_compute).
  by repeat constructor.
Defined.

Definition sample_http (ty : Z) : http_event := {|
  he_timestamp_ns := 1000; he_event_type := ty; he_pid := 42; he_src_ip := 16777226;
  he_dst_ip := 134744072; he_src_port := 54321; he_dst_port := 80; he_status_code := 0;
  he_method := 0; he_pad := 0; he_host := repeat x00 128; he_path := repeat x00 128 |}.

Lemma request_reported_witness :
  let text := request (ascii_bytes "GET") (ascii_bytes "/a") (ascii_bytes "HTTP/1.1")
    (ascii_bytes "x.org") crlf in
  (rq_host <$> parse_request text) = Some (ascii_bytes "x.org") /\
  handle_http_event [9090] [] (to_bytes (sample_http 5) ++ text) =
    Some (0, push_event [] (HttpRequest (ascii_bytes "GET") (ascii_bytes "/a") 0 f64_zero
      (format_ip 16777226) (format_ip 134744072) 80 42)).
Proof.
  apply (request_reported [9090] [] (sample_http 5)); try done; try by (apply (bool_decide_unpack _); vm_compute).
Defined.

Lemma http_pipeline_silent_witness :
  handle_http_event [] [] (to_bytes (@http_send ref_helpers (@w_http 443) 4096 6)) = Some (0, []).
Proof.
  apply (@http_pipeline_silent ref_helpers ref_ring256 ref_plain
    [@Invoke ref_helpers _ (w_http 443) (SendMsg 4096 0 64)]).
  vm_compute. constructor.
Defined.
End witnesses.
