(* ===== verification/DbText.v ===== *)
(** * Text of the database protocols

    The free functions of [db_inspector.rs]: tags and errors of PostgreSQL,
    length-encoded integers of MySQL, commands of Redis, statements of SQL, and
    the string helpers they share.  Strings are their UTF-8 bytes; a panic is
    [None]; [anyhow::Result] is [result]. *)

From S2P Require Import Prelude Bytes RustSlice RustStr Consumer.

#[local] Open Scope string_scope.
#[local] Open Scope list_scope.
#[local] Open Scope Z_scope.

(** ** Buffers *)

Definition read_null_string (data : list byte) : str :=
  from_utf8_lossy (take (default (length data) (position x00 data)) data).

Definition skip_null_string (data : list byte) : list byte :=
  match position x00 data with Some i => drop (S i) data | None => [] end.

Definition read_crlf_string (data : list byte) : str :=
  default [] (head (split_crlf (from_utf8_lossy data))).

Definition MAX_QUERY_LEN : Z := 1024.

(** [query.len()] counts bytes, [chars().take] characters. *)
Definition truncate_query (query : str) : str :=
  if len query <=? MAX_QUERY_LEN then query
  else concat (take (Z.to_nat MAX_QUERY_LEN) (chars_of query)) ++ ascii_bytes "...".

Definition socket_key (pid port : Z) : Z := Z.lor (Z.shiftl pid 16) port.

Definition format_redis_command (command key : str) : str :=
  match key with [] => command | _ => command ++ ascii_bytes " " ++ key end.

(** ** PostgreSQL *)

(** [parts.get(i).and_then(|s| s.parse().ok()).unwrap_or(0)] *)
Definition count_at (parts : list str) (i : nat) : Z := default 0 (parts !! i ≫= parse_u64).

Definition parse_pg_command_complete (tag : str) : Z :=
  let parts := split_whitespace tag in
  match parts with
  | [] => 0
  | verb :: _ =>
      if decide (verb = ascii_bytes "SELECT") then count_at parts 1
      else if decide (verb = ascii_bytes "INSERT") then count_at parts 2
      else if decide (verb = ascii_bytes "UPDATE") then count_at parts 1
      else if decide (verb = ascii_bytes "DELETE") then count_at parts 1
      else if decide (verb = ascii_bytes "COPY") then count_at parts 1
      else 0
  end.

(** The [while] loop; [Some None] when it ends without a result. *)
Fixpoint pg_error_fields (fuel : nat) (data : list byte) (i : Z) : panics (option str) :=
  match fuel with
  | O => None
  | S fuel =>
      if i <? len data then
        field_type ← idx data i;
        if field_type =? 0 then Some None
        else
          let i := i + 1 in
          if len data <=? i then Some None
          else
            rest ← range_from data i;
            let value := read_null_string rest in
            if field_type =? 77 (* 'M' *) then Some (Some value)
            else pg_error_fields fuel data (i + (len value + 1))
      else Some None
  end.

Definition parse_pg_error_response (payload : list byte) : panics str :=
  if len payload <? 6 then Some []
  else
    data ← range_from payload 5;
    found ← pg_error_fields (S (length data)) data 0;
    match found with
    | Some value => Some value
    | None => Some (from_utf8_lossy data)
    end.

(** ** MySQL *)

Definition read_lenenc_int (data : list byte) : panics Z :=
  if len data =? 0 then Some 0
  else
    v ← idx data 0;
    if v <=? 0xfb then Some v
    else if v =? 0xfc then
      if len data <? 3 then Some 0
      else d1 ← idx data 1; d2 ← idx data 2; Some (Z.lor d1 (Z.shiftl d2 8))
    else if v =? 0xfd then
      if len data <? 4 then Some 0
      else
        d1 ← idx data 1; d2 ← idx data 2; d3 ← idx data 3;
        Some (Z.lor (Z.lor d1 (Z.shiftl d2 8)) (Z.shiftl d3 16))
    else if v =? 0xfe then
      if len data <? 9 then Some 0
      else bs ← range data 1 9; Some (le_val bs)
    else Some 0.

(** ** Redis *)

(** The loop over the elements: a [$len] line is skipped, the next line is an
    argument.  It ends, at the latest, with the lines. *)
Fixpoint resp_args (count : Z) (lines : list str) : list str :=
  match lines with
  | [] => []
  | _ :: lines =>
      if count <=? 0 then []
      else match lines with val :: lines => val :: resp_args (count - 1) lines | [] => [] end
  end.

Definition parse_redis_resp_array (data : list byte) : result (str * str) :=
  let text := from_utf8_lossy data in
  match split_crlf text with
  | [] => Err (ascii_bytes "missing RESP array count")
  | count_line :: lines =>
      let count := default 0 (strip_prefix x2a count_line ≫= parse_u64) in
      if count =? 0 then Ok (ascii_bytes "UNKNOWN", [])
      else
        let args := resp_args count lines in
        Ok (default [] (args !! 0%nat), default [] (args !! 1%nat))
  end.

Definition parse_redis_inline_cmd (data : list byte) : result (str * str) :=
  let text := from_utf8_lossy data in
  let line := trim_end_lf (trim_end_crlf text) in
  let parts := split_whitespace line in
  Ok (default [] (parts !! 0%nat), default [] (parts !! 1%nat)).

Definition words_of (s : string) : list str := split_whitespace (ascii_bytes s).

Definition redis_read_commands : list str := Eval vm_compute in words_of
  "GET MGET HGET HGETALL HMGET HKEYS HVALS HLEN LINDEX LLEN LRANGE SCARD SISMEMBER SMEMBERS SRANDMEMBER SINTER SUNION SDIFF ZCARD ZSCORE ZRANK ZREVRANK ZRANGE ZREVRANGE ZRANGEBYSCORE ZREVRANGEBYSCORE ZCOUNT TYPE EXISTS TTL PTTL STRLEN GETRANGE KEYS SCAN SSCAN HSCAN ZSCAN RANDOMKEY DBSIZE OBJECT SUBSTR".

Definition redis_write_commands : list str := Eval vm_compute in words_of
  "SET MSET HSET HMSET HSETNX LPUSH RPUSH LPOP RPOP LSET LREM SADD SREM SPOP SMOVE ZADD ZREM ZINCRBY ZREMRANGEBYRANK ZREMRANGEBYSCORE APPEND INCR DECR INCRBY DECRBY INCRBYFLOAT SETNX SETEX PSETEX MSETNX DEL UNLINK RENAME RENAMENX EXPIRE EXPIREAT PEXPIRE PEXPIREAT PERSIST SORT BITOP SETBIT GETBIT BITCOUNT BITPOS PFADD PFMERGE".

Definition redis_key_commands : list str := Eval vm_compute in words_of
  "DUMP RESTORE MIGRATE WAIT DEBUG SWAPDB".

Definition redis_admin_commands : list str := Eval vm_compute in words_of
  "AUTH PING ECHO SELECT QUIT INFO CONFIG FLUSHDB FLUSHALL SAVE BGSAVE BGREWRITEAOF LASTSAVE SHUTDOWN SLOWLOG CLIENT MONITOR SYNC PSYNC REPLICAOF SLAVEOF CLUSTER SCRIPT EVAL EVALSHA SUBSCRIBE UNSUBSCRIBE PUBLISH PSUBSCRIBE PUNSUBSCRIBE WATCH UNWATCH MULTI EXEC DISCARD RESET ASKING READONLY READWRITE MEMORY MODULE LATENCY TIME COMMAND XADD XLEN XRANGE XREVRANGE XREAD XINFO XDEL XTRIM XREADGROUP XGROUP XACK XCLAIM XPENDING".

Section text.
Context {U : Unicode}.

Definition redis_command_type (command : str) : str :=
  let cmd := to_uppercase command in
  ascii_bytes
    (if bool_decide (cmd ∈ redis_read_commands) then "READ"
     else if bool_decide (cmd ∈ redis_write_commands) then "WRITE"
     else if bool_decide (cmd ∈ redis_key_commands) then "KEY"
     else if bool_decide (cmd ∈ redis_admin_commands) then "ADMIN"
     else "OTHER").

(** ** SQL *)

Definition strip_schema (t : str) : str := default t (last (split_byte x2e t)).

(** [t.trim_matches(|c| c == '(' || c == ')' || c == ',')] *)
Definition is_paren_or_comma (b : byte) : bool := bool_decide (b ∈ [x28; x29; x2c]).
Definition table_clean (t : str) : str := trim_matches is_paren_or_comma t.

(** [words.iter().position(|&w| w == kw)] *)
Fixpoint word_position (kw : str) (words : list str) : option nat :=
  match words with
  | [] => None
  | w :: words => if decide (w = kw) then Some 0%nat else S <$> word_position kw words
  end.

Definition starts_with_paren (t : str) : bool :=
  match t with b :: _ => bool_decide (b = x28) | [] => false end.

Definition sql_other_verbs : list str := Eval vm_compute in words_of
  "BEGIN COMMIT ROLLBACK SAVEPOINT SET SHOW EXPLAIN DESCRIBE DESC USE".

Definition parse_sql (query : str) : str * str :=
  let trimmed := trim query in
  match trimmed with
  | [] => (ascii_bytes "UNKNOWN", [])
  | _ =>
    let upper := to_uppercase trimmed in
    let words := split_whitespace upper in
    match words with
    | [] => (ascii_bytes "UNKNOWN", [])
    | verb :: _ =>
      let orig_words := split_whitespace trimmed in
      let verb_is kw := bool_decide (verb = ascii_bytes kw) in
      let named kw i :=
        match orig_words !! i with
        | Some name => (ascii_bytes kw, strip_schema name)
        | None => (ascii_bytes kw, [])
        end in
      let after_keyword kw sep :=
        match word_position (ascii_bytes sep) words with
        | Some i => match orig_words !! S i with
                    | Some table => (ascii_bytes kw, strip_schema (table_clean table))
                    | None => (ascii_bytes kw, [])
                    end
        | None => (ascii_bytes kw, [])
        end in
      if verb_is "SELECT" then
        match word_position (ascii_bytes "FROM") words with
        | Some from_idx =>
            match orig_words !! S from_idx with
            | Some table =>
                let table_clean := table_clean table in
                if bool_decide (table_clean <> []) && negb (starts_with_paren table_clean)
                then (ascii_bytes "SELECT", strip_schema table_clean)
                else (ascii_bytes "SELECT", [])
            | None => (ascii_bytes "SELECT", [])
            end
        | None => (ascii_bytes "SELECT", [])
        end
      else if verb_is "INSERT" then after_keyword "INSERT" "INTO"
      else if verb_is "UPDATE" then named "UPDATE" 1%nat
      else if verb_is "DELETE" then after_keyword "DELETE" "FROM"
      else if verb_is "CREATE" then named "CREATE" 2%nat
      else if verb_is "DROP" then named "DROP" 2%nat
      else if verb_is "ALTER" then named "ALTER" 2%nat
      else if verb_is "TRUNCATE" then
        named "TRUNCATE" (if bool_decide (words !! 1%nat = Some (ascii_bytes "TABLE")) then 2%nat else 1%nat)
      else if bool_decide (verb ∈ sql_other_verbs) then (verb, [])
      else (ascii_bytes "COMMAND", [])
    end
  end.
End text.

(** Examples of the repository's tests. *)
Section examples.
#[local] Existing Instance ascii_unicode.

Example sql_select :
  parse_sql (ascii_bytes "  select * From public.users where id = 1") = (ascii_bytes "SELECT", ascii_bytes "users").
Proof. vm_compute. reflexivity. Qed.

Example sql_insert :
  parse_sql (ascii_bytes "INSERT INTO orders (id) VALUES (1)") = (ascii_bytes "INSERT", ascii_bytes "orders").
Proof. vm_compute. reflexivity. Qed.

Example redis_set :
  parse_redis_resp_array (ascii_bytes "*2" ++ crlf ++ ascii_bytes "$3" ++ crlf ++ ascii_bytes "GET" ++ crlf ++
    ascii_bytes "$3" ++ crlf ++ ascii_bytes "key" ++ crlf) = Ok (ascii_bytes "GET", ascii_bytes "key").
Proof. vm_compute. reflexivity. Qed.
End examples.

(** ** Lemmas *)

Lemma read_null_string_valid s post :
  utf8_valid s = true -> x00 ∉ s -> read_null_string (s ++ x00 :: post) = s.
Proof.
  intros Hs H0. unfold read_null_string. rewrite position_app by done. simpl.
  rewrite take_app_length. by apply from_utf8_lossy_valid.
Qed.

Lemma read_null_string_is_valid data : utf8_valid (read_null_string data) = true.
Proof. apply from_utf8_lossy_is_valid. Qed.

Lemma socket_key_add pid port : in_range 16 port -> socket_key pid port = pid * 2 ^ 16 + port.
Proof. intros Hp. by apply lor_shiftl. Qed.

(** Keys of different pairs differ. *)
Lemma socket_key_inj pid port pid' port' :
  in_range 16 port -> in_range 16 port' ->
  socket_key pid port = socket_key pid' port' -> pid = pid' /\ port = port'.
Proof. intros Hp Hp'. rewrite !socket_key_add by done. unfold in_range in *. lia. Qed.

Lemma len_ge n l : n <= Z.of_nat (length l) -> (len l <? n) = false.
Proof. intros. by apply Z.ltb_ge. Qed.

Lemma len_nonempty b l : (len (b :: l) =? 0) = false.
Proof. by apply Z.eqb_neq. Qed.

(** *** Length-encoded integers *)

(** The encoding of the MySQL protocol. *)
Definition lenenc (n : Z) : list byte :=
  if n <? 0xfb then le_bytes 1 n
  else if n <? 2 ^ 16 then xfc :: le_bytes 2 n
  else if n <? 2 ^ 24 then xfd :: le_bytes 3 n
  else xfe :: le_bytes 8 n.

(** *** SQL *)

Section sql.
Context {U : Unicode}.

Lemma drop_while_suffix f s : exists pre, s = pre ++ drop_while f s.
Proof.
  induction s as [|b s [pre IH]]; simpl; [by exists []|]. destruct (f b); [|by exists []].
  exists (b :: pre). simpl. by rewrite <- IH.
Qed.

Lemma drop_while_head f s b t : drop_while f s = b :: t -> f b = false.
Proof. induction s as [|c s IH]; simpl; [done|]. destruct (f c) eqn:Hc; [done|]. by intros [= <- _]. Qed.

(** The word [w] is the keyword [k], in any case. *)
Definition keyword (w : str) (k : string) : bool := bool_decide (to_uppercase w = ascii_bytes k).

(** The word after the first [sep]. *)
Fixpoint word_after (sep : string) (ws : list str) : option str :=
  match ws with
  | [] => None
  | w :: ws => if keyword w sep then head ws else word_after sep ws
  end.

(** The reference: operation and table of a statement given by its words. *)
Definition sql_words (ws : list str) : str * str :=
  match ws with
  | [] => (ascii_bytes "UNKNOWN", [])
  | verb :: args =>
      let table kind t := (ascii_bytes kind, default [] (strip_schema <$> t)) in
      if keyword verb "SELECT" then table "SELECT" (table_clean <$> word_after "FROM" args)
      else if keyword verb "INSERT" then table "INSERT" (table_clean <$> word_after "INTO" args)
      else if keyword verb "UPDATE" then table "UPDATE" (args !! 0%nat)
      else if keyword verb "DELETE" then table "DELETE" (table_clean <$> word_after "FROM" args)
      else if keyword verb "CREATE" then table "CREATE" (args !! 1%nat)
      else if keyword verb "DROP" then table "DROP" (args !! 1%nat)
      else if keyword verb "ALTER" then table "ALTER" (args !! 1%nat)
      else if keyword verb "TRUNCATE" then
        table "TRUNCATE" (match args with
          | w :: args => if keyword w "TABLE" then head args else Some w
          | [] => None
          end)
      else if bool_decide (to_uppercase verb ∈ sql_other_verbs) then (to_uppercase verb, [])
      else (ascii_bytes "COMMAND", [])
  end.

Lemma word_after_position sep ws :
  match word_position (ascii_bytes sep) (to_uppercase <$> ws) with
  | Some i => ws !! S i
  | None => None
  end = word_after sep ws.
Proof using Type.
  induction ws as [|w ws IH]; [done|]. rewrite fmap_cons. cbn [word_position word_after].
  unfold keyword. destruct (decide (to_uppercase w = ascii_bytes sep)) as [Hw|Hw].
  - rewrite bool_decide_true by done. by destruct ws.
  - rewrite bool_decide_false by done. rewrite <- IH. by destruct (word_position _ _).
Qed.

Lemma keyword_other verb k k' :
  to_uppercase verb = ascii_bytes k -> ascii_bytes k <> ascii_bytes k' -> keyword verb k' = false.
Proof using Type. intros Hv Hk. apply bool_decide_false. by rewrite Hv. Qed.

Lemma clean_no_paren t : starts_with_paren (table_clean t) = false.
Proof using Type.
  unfold table_clean, trim_matches. set (s := drop_while is_paren_or_comma t).
  destruct (rev (drop_while is_paren_or_comma (rev s))) as [|b l] eqn:Hr; [done|]. simpl.
  assert (exists l', s = b :: l') as [l' Hs].
  { destruct (drop_while_suffix is_paren_or_comma (rev s)) as [pre Hpre].
    apply (f_equal (@rev byte)) in Hpre. rewrite rev_involutive, rev_app_distr, Hr in Hpre.
    rewrite Hpre. by eexists. }
  apply drop_while_head in Hs. unfold is_paren_or_comma in Hs. apply bool_decide_eq_false in Hs.
  apply bool_decide_false. intros ->. apply Hs. set_solver.
Qed.

(** What the code does with the word after [sep]. *)
Lemma after_keyword_word kind sep verb args k :
  to_uppercase verb = ascii_bytes k -> ascii_bytes k <> ascii_bytes sep ->
  match word_position (ascii_bytes sep) (to_uppercase <$> verb :: args) with
  | Some i => match (verb :: args) !! S i with
              | Some table => (ascii_bytes kind, strip_schema (table_clean table))
              | None => (ascii_bytes kind, [])
              end
  | None => (ascii_bytes kind, [])
  end = (ascii_bytes kind, default [] (strip_schema <$> (table_clean <$> word_after sep args))).
Proof using Type.
  intros Hv Hk. pose proof (word_after_position sep (verb :: args)) as Hw.
  cbn [word_after] in Hw. rewrite (keyword_other _ _ _ Hv Hk) in Hw. rewrite <- Hw.
  destruct (word_position _ _) as [i|]; [|done]. by destruct ((verb :: args) !! S i).
Qed.

Lemma nth_word kind (t : option str) :
  match t with
  | Some name => (ascii_bytes kind, strip_schema name)
  | None => (ascii_bytes kind, [])
  end = (ascii_bytes kind, default [] (strip_schema <$> t)).
Proof using Type. by destruct t. Qed.

Lemma select_word (o : option str) :
  match o with
  | Some table =>
      if bool_decide (table_clean table <> []) && negb (starts_with_paren (table_clean table))
      then (ascii_bytes "SELECT", strip_schema (table_clean table))
      else (ascii_bytes "SELECT", [])
  | None => (ascii_bytes "SELECT", [])
  end = match o with
  | Some table => (ascii_bytes "SELECT", strip_schema (table_clean table))
  | None => (ascii_bytes "SELECT", [])
  end.
Proof using Type.
  destruct o as [t|]; [|done]. rewrite clean_no_paren, andb_true_r.
  case_bool_decide as Ht; [done|]. by destruct (table_clean t).
Qed.

(** Best-effort SQL parsing looks at the words only: for every statement,
    in any mixture of cases, scripts and white space, the operation and table
    are those the reference finds in its words.  In particular upper-casing the
    statement never shifts its words. *)
Theorem parse_sql_words q : utf8_valid q = true -> parse_sql q = sql_words (split_whitespace q).
Proof using Type.
  intros Hq. unfold parse_sql. cbv zeta.
  rewrite split_whitespace_upper, split_whitespace_trim by (try apply trim_valid; done).
  destruct (trim q) as [|b t] eqn:Ht.
  { by rewrite <- (split_whitespace_trim q), Ht. }
  clear b t Ht. destruct (split_whitespace q) as [|verb args]; [done|].
  cbn [sql_words]. rewrite fmap_cons at 1.
  repeat match goal with
  | |- context [bool_decide (to_uppercase verb = ascii_bytes ?k)] =>
      change (bool_decide (to_uppercase verb = ascii_bytes k)) with (keyword verb k)
  end.
  destruct (keyword verb "SELECT") eqn:Hs; [apply bool_decide_eq_true in Hs|].
  { rewrite <- (after_keyword_word "SELECT" "FROM" verb args "SELECT") by done.
    destruct (word_position _ _) as [i|]; [|done]. apply select_word. }
  destruct (keyword verb "INSERT") eqn:Hi; [apply bool_decide_eq_true in Hi; by eapply after_keyword_word|].
  destruct (keyword verb "UPDATE"); [by apply nth_word|].
  destruct (keyword verb "DELETE") eqn:Hd; [apply bool_decide_eq_true in Hd; by eapply after_keyword_word|].
  destruct (keyword verb "CREATE"); [by apply nth_word|].
  destruct (keyword verb "DROP"); [by apply nth_word|].
  destruct (keyword verb "ALTER"); [by apply nth_word|].
  destruct (keyword verb "TRUNCATE"); [|done].
  rewrite nth_word. do 2 f_equal. destruct args as [|w args]; [by case_bool_decide|].
  rewrite !fmap_cons. cbn [lookup list_lookup]. unfold keyword. repeat case_bool_decide; try congruence.
  - by destruct args.
  - done.
Qed.
End sql.

Lemma read_lenenc_fc d1 d2 post : read_lenenc_int (xfc :: d1 :: d2 :: post) = Some (le_val [d1; d2]).
Proof.
  unfold read_lenenc_int. rewrite len_nonempty, len_ge by (simpl; lia).
  change (Some (Z.lor (Z_of_byte d1) (Z.shiftl (Z_of_byte d2) 8)) = Some (le_val [d1; d2])).
  pose proof (Z_of_byte_range d1). rewrite lor_shiftl_r by lia. f_equal.
  change (le_val [d1; d2]) with (Z_of_byte d1 + 256 * (Z_of_byte d2 + 256 * 0)). lia.
Qed.

Lemma read_lenenc_fd d1 d2 d3 post : read_lenenc_int (xfd :: d1 :: d2 :: d3 :: post) = Some (le_val [d1; d2; d3]).
Proof.
  unfold read_lenenc_int. rewrite len_nonempty, (len_ge 4) by (simpl; lia).
  change (Some (Z.lor (Z.lor (Z_of_byte d1) (Z.shiftl (Z_of_byte d2) 8)) (Z.shiftl (Z_of_byte d3) 16)) =
    Some (le_val [d1; d2; d3])).
  pose proof (Z_of_byte_range d1). pose proof (Z_of_byte_range d2).
  rewrite (lor_shiftl_r (Z_of_byte d2)), lor_shiftl_r by lia. f_equal.
  change (le_val [d1; d2; d3]) with (Z_of_byte d1 + 256 * (Z_of_byte d2 + 256 * (Z_of_byte d3 + 256 * 0))). lia.
Qed.

Lemma read_lenenc_fe bs post : length bs = 8%nat -> read_lenenc_int (xfe :: bs ++ post) = Some (le_val bs).
Proof.
  intros Hbs. unfold read_lenenc_int. rewrite len_nonempty, (len_ge 9) by (simpl; rewrite length_app; lia).
  change (idx (xfe :: bs ++ post) 0) with (Some 0xfe). cbn [mbind option_bind].
  change (0xfe <=? 0xfb) with false. change (0xfe =? 0xfc) with false. change (0xfe =? 0xfd) with false.
  change (0xfe =? 0xfe) with true. cbv iota.
  rewrite range_some by (unfold len; simpl; rewrite ?length_app; lia). cbn [mbind option_bind].
  unfold slice. change (Z.to_nat 1) with 1%nat. change (Z.to_nat (9 - 1)) with 8%nat.
  change (drop 1 (xfe :: bs ++ post)) with (bs ++ post). by rewrite <- Hbs, take_app_length.
Qed.

(** MySQL length-encoded integers read back what was written: the encoding
    of every 64-bit integer, whatever follows it. *)
Theorem lenenc_roundtrip n post :
  0 <= n < 2 ^ 64 -> read_lenenc_int (lenenc n ++ post) = Some n.
Proof.
  intros Hn. unfold lenenc.
  destruct (Z.ltb_spec n 0xfb); [|destruct (Z.ltb_spec n (2 ^ 16)); [|destruct (Z.ltb_spec n (2 ^ 24))]].
  - cbn [le_bytes app]. unfold read_lenenc_int. rewrite len_nonempty.
    change (idx (byte_of_Z n :: post) 0) with (Some (Z_of_byte (byte_of_Z n))). cbn [mbind option_bind].
    rewrite Z_of_byte_of_Z, Z.mod_small by lia. by rewrite (proj2 (Z.leb_le _ _)) by lia.
  - cbn [le_bytes app]. rewrite read_lenenc_fc. f_equal. apply (le_val_le_bytes_id 2 16); [done|by split; [lia|]].
  - cbn [le_bytes app]. rewrite read_lenenc_fd. f_equal. apply (le_val_le_bytes_id 3 24); [done|by split; [lia|]].
  - cbn [app]. rewrite read_lenenc_fe by apply length_le_bytes. f_equal. by apply (le_val_le_bytes_id 8 64).
Qed.

Lemma lenenc_roundtrip_witness : read_lenenc_int (lenenc 100000 ++ ascii_bytes "..") = Some 100000.
Proof. apply (lenenc_roundtrip 100000). split; [discriminate|reflexivity]. Defined.

Definition pg_field (f : byte * str) : list byte := f.1 :: f.2 ++ [x00].
Definition pg_error (length4 : list byte) (fields : list (byte * str)) : list byte :=
  ascii_bytes "E" ++ length4 ++ concat (pg_field <$> fields) ++ [x00].
Definition field_ok (f : byte * str) : Prop := f.1 <> x00 /\ utf8_valid f.2 = true /\ x00 ∉ f.2.

Lemma pg_error_fields_skip fuel pre fields post :
  Forall field_ok fields -> x4d ∉ fields.*1 ->
  pg_error_fields (length fields + fuel) (pre ++ concat (pg_field <$> fields) ++ post) (len pre) =
  pg_error_fields fuel (pre ++ concat (pg_field <$> fields) ++ post)
    (len (pre ++ concat (pg_field <$> fields))).
Proof.
  intros Hok. revert pre. induction Hok as [|[t v] fields (Ht & Hv & H0) Hok IH]; intros pre HM.
  - by rewrite app_nil_r.
  - rewrite fmap_cons in HM. apply not_elem_of_cons in HM as [Hm HM].
    assert (Z_of_byte t <> 0 /\ Z_of_byte t <> 77) as [Ht0 Ht77].
    { split; intros E; [apply Ht|apply Hm]; by apply Z_of_byte_inj. }
    rewrite !fmap_cons. cbn [concat length plus pg_error_fields].
    set (rest := concat (pg_field <$> fields) ++ post).
    assert (pre ++ (pg_field (t, v) ++ concat (pg_field <$> fields)) ++ post = pre ++ t :: v ++ x00 :: rest) as ->
      by (unfold pg_field; simpl; by rewrite <- !app_assoc).
    rewrite (proj2 (Z.ltb_lt (len pre) _)) by (unfold len; rewrite length_app; simpl; lia).
    rewrite idx_app_cons. cbn [mbind option_bind]. rewrite (proj2 (Z.eqb_neq _ _) Ht0).
    rewrite (proj2 (Z.leb_gt _ _)) by (unfold len; rewrite !length_app; simpl; rewrite length_app; simpl; lia).
    replace (len pre + 1) with (len (pre ++ [t])) by (unfold len; rewrite length_app; simpl; lia).
    replace (pre ++ t :: v ++ x00 :: rest) with ((pre ++ [t]) ++ v ++ x00 :: rest) by by rewrite <- app_assoc.
    rewrite range_from_app. cbn [mbind option_bind]. rewrite read_null_string_valid by done.
    rewrite (proj2 (Z.eqb_neq _ _) Ht77).
    specialize (IH (pre ++ pg_field (t, v)) HM).
    replace ((pre ++ pg_field (t, v)) ++ concat (pg_field <$> fields) ++ post)
      with ((pre ++ [t]) ++ v ++ x00 :: rest) in IH
      by (unfold pg_field, rest; rewrite <- !app_assoc; cbn [fst snd app]; by rewrite <- !app_assoc).
    rewrite <- (app_assoc pre (pg_field (t, v))) in IH. rewrite <- IH. f_equal.
    unfold len, pg_field. rewrite !length_app. simpl. rewrite length_app. simpl. lia.
Qed.

Lemma pg_error_fields_found fuel before v post :
  Forall field_ok before -> x4d ∉ before.*1 -> utf8_valid v = true -> x00 ∉ v ->
  (length before < fuel)%nat ->
  pg_error_fields fuel (concat (pg_field <$> before) ++ pg_field (x4d, v) ++ post) 0 = Some (Some v).
Proof.
  intros Hok HM Hv H0 Hf. replace fuel with (length before + S (fuel - S (length before)))%nat by lia.
  pose proof (pg_error_fields_skip (S (fuel - S (length before))) [] before (pg_field (x4d, v) ++ post) Hok HM) as Hskip.
  change (len []) with 0 in Hskip. rewrite !app_nil_l in Hskip. rewrite Hskip.
  set (pre := concat (pg_field <$> before)). cbn [pg_error_fields].
  change (pg_field (x4d, v) ++ post) with (x4d :: (v ++ [x00]) ++ post). rewrite <- (app_assoc v). cbn [app].
  rewrite (proj2 (Z.ltb_lt (len pre) _)) by (unfold len; rewrite length_app; simpl; lia).
  rewrite idx_app_cons. cbn [mbind option_bind]. change (Z_of_byte x4d =? 0) with false. cbv iota zeta.
  rewrite (proj2 (Z.leb_gt _ _)) by (unfold len; rewrite !length_app; simpl; rewrite length_app; simpl; lia).
  replace (len pre + 1) with (len (pre ++ [x4d])) by (unfold len; rewrite length_app; simpl; lia).
  replace (pre ++ x4d :: v ++ x00 :: post) with ((pre ++ [x4d]) ++ v ++ x00 :: post) by by rewrite <- app_assoc.
  rewrite range_from_app. cbn [mbind option_bind]. by rewrite read_null_string_valid.
Qed.

(** The message of a PostgreSQL error response is its first field of type
    M, whatever the other fields: for every response made of fields with valid
    values, and whatever follows the message. *)
Theorem pg_error_message length4 before v after rest :
  length length4 = 4%nat -> Forall field_ok (before ++ [(x4d, v)]) -> x4d ∉ before.*1 ->
  parse_pg_error_response (pg_error length4 (before ++ (x4d, v) :: after) ++ rest) = Some v.
Proof.
  intros H4 [Hok Hv]%Forall_app HM. apply Forall_singleton in Hv as (_ & Hv & H0). simpl in Hv, H0.
  unfold parse_pg_error_response, pg_error. rewrite fmap_app, fmap_cons, concat_app. cbn [concat].
  set (post := concat (pg_field <$> after) ++ [x00] ++ rest).
  replace ((ascii_bytes "E" ++ length4 ++ (concat (pg_field <$> before) ++ pg_field (x4d, v) ++
      concat (pg_field <$> after)) ++ [x00]) ++ rest)
    with ((ascii_bytes "E" ++ length4) ++ concat (pg_field <$> before) ++ pg_field (x4d, v) ++ post)
    by (unfold post; by rewrite <- !app_assoc).
  assert (len (ascii_bytes "E" ++ length4) = 5) as H5 by (unfold len; rewrite length_app, H4; done).
  rewrite len_ge by (rewrite !length_app, H4; simpl; lia).
  rewrite <- H5, range_from_app. cbn [mbind option_bind].
  rewrite pg_error_fields_found; try done.
  rewrite length_app. enough (length before <= length (concat (pg_field <$> before)))%nat by lia.
  clear. induction before as [|f before IH]; [done|]. rewrite fmap_cons. simpl. rewrite !length_app. simpl. lia.
Qed.

(** A severity and a message. *)
Lemma pg_error_message_witness :
  parse_pg_error_response (pg_error [x00; x00; x00; x20]
    ([(x53, ascii_bytes "ERROR")] ++ (x4d, ascii_bytes "relation missing") :: [(x43, ascii_bytes "42P01")]) ++ []) =
  Some (ascii_bytes "relation missing").
Proof.
  apply (pg_error_message [x00; x00; x00; x20] [(x53, ascii_bytes "ERROR")] _ [(x43, ascii_bytes "42P01")] []).
  - reflexivity.
  - repeat constructor; try discriminate; apply (bool_decide_unpack _); vm_compute; exact I.
  - apply (bool_decide_unpack _). vm_compute. exact I.
Defined.

(** The loop advances by the length of the converted value, not of the bytes it
    skips: a value that is not UTF-8 makes it jump over the message. *)
Example pg_error_skips_too_far :
  parse_pg_error_response (pg_error [x00; x00; x00; x20]
    [(x53, [xff]); (x4d, ascii_bytes "no"); (x43, ascii_bytes "42P01")]) <> Some (ascii_bytes "no").
Proof. vm_compute. discriminate. Qed.

(** *** Redis *)

Lemma from_utf8_lossy_app s t : utf8_valid s = true -> from_utf8_lossy (s ++ t) = s ++ from_utf8_lossy t.
Proof.
  intros (us & Hus & ->)%valid_chars. unfold from_utf8_lossy.
  assert (utf8_units (concat us ++ t) = ((λ u, (true, u)) <$> us) ++ utf8_units t) as ->.
  { induction Hus as [|u us Hu _ IH]; [done|]. cbn [concat]. by rewrite <- app_assoc, utf8_units_char, IH. }
  rewrite fmap_app, concat_app, <- list_fmap_compose. f_equal. f_equal.
  by apply list_fmap_id.
Qed.

(** A bulk string, and a command as an array of bulk strings (RESP). *)
Definition resp_bulk (a : str) : list byte := ascii_bytes "$" ++ dec (len a) ++ crlf ++ a ++ crlf.
Definition resp_command (args : list str) : list byte :=
  ascii_bytes "*" ++ dec (Z.of_nat (length args)) ++ crlf ++ concat (resp_bulk <$> args).

(** A valid string without carriage return. *)
Definition resp_arg (a : str) : Prop := utf8_valid a = true /\ x0d ∉ a.

Lemma dec_is_ascii n : 0 <= n -> is_ascii (dec n).
Proof.
  intros Hn. eapply Forall_impl; [by apply dec_digits|]. intros b Hb. unfold is_ascii_digit, between in Hb. lia.
Qed.

Lemma dec_no_cr n : 0 <= n -> x0d ∉ dec n.
Proof. intros Hn Hin. pose proof (dec_digits n Hn) as Hd. rewrite Forall_forall in Hd. by specialize (Hd _ Hin). Qed.

Lemma count_line_no_cr c n : 0 <= n -> x0d <> c -> x0d ∉ [c] ++ dec n.
Proof. intros Hn Hc. apply not_elem_of_cons. split; [done|by apply dec_no_cr]. Qed.

Lemma resp_bulk_valid args : Forall resp_arg args -> utf8_valid (concat (resp_bulk <$> args)) = true.
Proof.
  induction 1 as [|a args [Ha _] _ IH]; [done|]. rewrite fmap_cons. cbn [concat].
  apply utf8_valid_app; [|done]. unfold resp_bulk.
  repeat (apply utf8_valid_app; try done). apply utf8_valid_ascii, dec_is_ascii. unfold len. lia.
Qed.

Lemma split_resp args rest :
  Forall resp_arg args ->
  split_crlf (concat (resp_bulk <$> args) ++ rest) =
    concat ((λ a, [ascii_bytes "$" ++ dec (len a); a]) <$> args) ++ split_crlf rest.
Proof.
  induction 1 as [|a args [_ Ha] _ IH]; [done|]. rewrite !fmap_cons. cbn [concat].
  unfold resp_bulk at 1. rewrite <- !app_assoc, (app_assoc _ (dec _)).
  rewrite split_crlf_line by by apply (count_line_no_cr x24); [apply len_nonneg|].
  rewrite split_crlf_line by done. by rewrite IH.
Qed.

Lemma resp_args_all args more :
  resp_args (Z.of_nat (length args)) (concat ((λ a, [ascii_bytes "$" ++ dec (len a); a]) <$> args) ++ more) = args.
Proof.
  induction args as [|a args IH]; [by destruct more|]. rewrite fmap_cons. cbn [concat app resp_args].
  rewrite (proj2 (Z.leb_gt _ _)) by (cbn [length]; lia).
  replace (Z.of_nat (length (a :: args)) - 1) with (Z.of_nat (length args)) by (cbn [length]; lia).
  by rewrite IH.
Qed.

(** A Redis command sent as an array is recovered: for every list of
    arguments that are valid text without carriage returns, and whatever
    follows in the buffer, the parser returns its name and first key. *)
Theorem resp_roundtrip args rest :
  Forall resp_arg args -> 0 < Z.of_nat (length args) < 2 ^ 64 ->
  parse_redis_resp_array (resp_command args ++ rest) =
    Ok (default [] (args !! 0%nat), default [] (args !! 1%nat)).
Proof.
  intros Hargs Hn. unfold parse_redis_resp_array.
  assert (utf8_valid (resp_command args) = true) as Hv.
  { unfold resp_command. repeat (apply utf8_valid_app; try done); [|by apply resp_bulk_valid].
    apply utf8_valid_ascii, dec_is_ascii. lia. }
  rewrite from_utf8_lossy_app by done. unfold resp_command.
  rewrite <- !app_assoc, (app_assoc _ (dec _)).
  rewrite split_crlf_line by by apply (count_line_no_cr x2a); [lia|]. rewrite split_resp by done.
  change (strip_prefix x2a (ascii_bytes "*" ++ dec (Z.of_nat (length args))))
    with (Some (dec (Z.of_nat (length args)))).
  cbn [mbind option_bind]. rewrite parse_dec by lia. cbn [default]. cbv beta zeta delta [id].
  rewrite (proj2 (Z.eqb_neq (Z.of_nat (length args)) 0)) by lia. by rewrite resp_args_all.
Qed.

Lemma resp_roundtrip_witness :
  parse_redis_resp_array (resp_command [ascii_bytes "SET"; ascii_bytes "k"; ascii_bytes "v"] ++ [xff]) =
  Ok (ascii_bytes "SET", ascii_bytes "k").
Proof.
  apply (resp_roundtrip [ascii_bytes "SET"; ascii_bytes "k"; ascii_bytes "v"] [xff]).
  - repeat constructor; apply (bool_decide_unpack _); vm_compute; exact I.
  - simpl. split; reflexivity.
Defined.

(** *** Truncation *)

Lemma length_chars us : Forall is_char us -> (length us <= length (concat us))%nat.
Proof.
  induction 1 as [|u us [Hu _] _ IH]; [done|]. cbn [concat length]. rewrite length_app.
  destruct u; [done|simpl; lia].
Qed.

(** Queries are bounded: what is kept of a query is valid text of at most
    1027 characters, the query itself when it has at most 1024 bytes, and else
    its first 1024 characters followed by three dots. *)
Theorem truncate_query_bounds q :
  utf8_valid q = true ->
  utf8_valid (truncate_query q) = true /\
  (length (chars_of (truncate_query q)) <= 1027)%nat /\
  (len q <= 1024 -> truncate_query q = q) /\
  (1024 < len q -> exists p s, q = p ++ s /\ truncate_query q = p ++ ascii_bytes "..." /\
    chars_of p = take 1024 (chars_of q)).
Proof.
  intros Hq. unfold truncate_query, MAX_QUERY_LEN. change (Z.to_nat 1024) with 1024%nat.
  pose proof (chars_of_valid q Hq) as Hus. pose proof (concat_chars_of q) as Hc.
  assert (Forall is_char (take 1024 (chars_of q))) as Ht by by apply Forall_take.
  assert (utf8_valid (concat (take 1024 (chars_of q))) = true) as Hvt by by apply utf8_valid_concat.
  destruct (Z.leb_spec (len q) 1024) as [Hl|Hl]; split_and!; try (intros; lia || done).
  - assert (length (chars_of q) <= length q)%nat; [|unfold len in Hl; lia].
    rewrite <- Hc at 2. by apply length_chars.
  - by apply utf8_valid_app.
  - rewrite chars_of_app, chars_of_concat, length_app, length_take by done.
    change (length (chars_of (ascii_bytes "..."))) with 3%nat. lia.
  - intros _. exists (concat (take 1024 (chars_of q))), (concat (drop 1024 (chars_of q))).
    split_and!; [|done|by apply chars_of_concat]. by rewrite <- concat_app, take_drop.
Qed.

Lemma truncate_query_bounds_witness :
  let q := ascii_bytes "SELECT 1" in
  utf8_valid (truncate_query q) = true /\
  (length (chars_of (truncate_query q)) <= 1027)%nat /\
  (len q <= 1024 -> truncate_query q = q) /\
  (1024 < len q -> exists p s, q = p ++ s /\ truncate_query q = p ++ ascii_bytes "..." /\
    chars_of p = take 1024 (chars_of q)).
Proof. apply (truncate_query_bounds (ascii_bytes "SELECT 1")). reflexivity. Defined.

(** The test is on bytes: 600 characters of two bytes lose nothing and get the
    dots all the same. *)
Example truncate_marks_whole_query :
  let q := concat (repeat [xc3; xa9] 600) in
  length (chars_of q) = 600%nat /\ truncate_query q = q ++ ascii_bytes "...".
Proof. vm_compute. by split. Qed.

(** *** Nothing panics, nothing fails *)

Ltac index_step :=
  match goal with
  | |- context [idx ?d ?i ≫= _] =>
      let z := fresh "z" in let Hz := fresh "Hz" in
      destruct (idx_some d i ltac:(lia)) as (z & -> & Hz); cbn [mbind option_bind]
  | |- context [range_from ?d ?i ≫= _] =>
      rewrite (range_from_some d i) by lia; cbn [mbind option_bind]
  end.

Lemma read_lenenc_total data : exists n, read_lenenc_int data = Some n.
Proof.
  unfold read_lenenc_int. pose proof (len_nonneg data).
  destruct (Z.eqb_spec (len data) 0); [by eexists|]. index_step.
  repeat (case_match; try by eexists); repeat match goal with H : (_ <? _) = false |- _ => apply Z.ltb_ge in H end;
    repeat index_step; try by eexists.
  rewrite range_some by lia. by eexists.
Qed.

Lemma pg_error_fields_total fuel data i :
  0 <= i -> len data - i < Z.of_nat fuel -> (0 < fuel)%nat -> exists r, pg_error_fields fuel data i = Some r.
Proof.
  revert i. induction fuel as [|fuel IH]; intros i Hi Hf Hpos; [lia|]. cbn [pg_error_fields].
  destruct (Z.ltb_spec i (len data)); [|by eexists]. index_step.
  destruct (z =? 0); [by eexists|]. cbv zeta. destruct (Z.leb_spec (len data) (i + 1)); [by eexists|].
  index_step. destruct (z =? 77); [by eexists|].
  set (v := read_null_string _). pose proof (len_nonneg v). apply IH; lia.
Qed.

Lemma parse_pg_error_total payload : exists v, parse_pg_error_response payload = Some v.
Proof.
  unfold parse_pg_error_response. destruct (Z.ltb_spec (len payload) 6); [by eexists|]. index_step.
  set (data := drop _ payload).
  destruct (pg_error_fields_total (S (length data)) data 0) as [r ->]; [lia|unfold len; lia|lia|].
  destruct r; by eexists.
Qed.

Lemma split_crlf_cons s : exists l ls, split_crlf s = l :: ls.
Proof.
  unfold split_crlf. generalize (@nil byte) as part.
  induction s as [|b s IH]; intros part; [by eexists _, _|]. destruct s as [|c s]; [by eexists _, _|].
  cbn [split_crlf_from]. case_bool_decide; [by eexists _, _|]. apply IH.
Qed.

Lemma parse_resp_ok data : exists r, parse_redis_resp_array data = Ok r.
Proof.
  unfold parse_redis_resp_array. destruct (split_crlf_cons (from_utf8_lossy data)) as (l & ls & ->).
  cbv zeta. case_match; by eexists.
Qed.

(** *** Tags *)

(** The row count of a command tag. *)
Lemma pg_tag_count verb n :
  verb ∈ ascii_bytes <$> ["SELECT"; "UPDATE"; "DELETE"; "COPY"] -> 0 <= n < 2 ^ 64 ->
  parse_pg_command_complete (verb ++ ascii_bytes " " ++ dec n) = n.
Proof.
  intros Hv Hn. unfold parse_pg_command_complete. change (ascii_bytes " ") with space.
  assert (word (dec n)) as Hd.
  { split_and!; [apply dec_ne|apply dec_is_ascii; lia|]. eapply Forall_impl; [apply dec_digits; lia|].
    intros b Hb. unfold is_ascii_digit, is_whitespace, between in *. destruct b; done. }
  assert (verb ∈ ascii_bytes <$> ["SELECT"; "UPDATE"; "DELETE"; "COPY"] -> word verb) as Hw.
  { clear. intros Hv. repeat (apply elem_of_cons in Hv as [->|Hv]; [by repeat constructor|]).
    by apply elem_of_nil in Hv. }
  rewrite split_two by auto. unfold count_at. cbn [lookup list_lookup mbind option_bind].
  rewrite parse_dec by done.
  repeat (apply elem_of_cons in Hv as [->|Hv]; [by vm_compute|]). by apply elem_of_nil in Hv.
Qed.

Section witnesses.
#[local] Existing Instance ascii_unicode.

Lemma parse_sql_words_witness :
  parse_sql (ascii_bytes " delete  From Shop.orders WHERE id=1") = sql_words (split_whitespace (ascii_bytes " delete  From Shop.orders WHERE id=1")).
Proof. apply (parse_sql_words (ascii_bytes " delete  From Shop.orders WHERE id=1")). reflexivity. Defined.
End witnesses.
