(* ===== verification/DbInspector.v ===== *)
(** * db_inspector.rs

    The database inspector: the protocol classifier, which repeats
    [detect_protocol] of the kernel program, and [inspect], which turns captured
    payloads into query events.  A request is parked in [pending] under process
    and port until a response of the same process and port arrives; counters
    are kept in [stats].  [M] is the monad of its methods: the two maps behind
    the mutexes, a panic ([None]) and an error ([Err], Rust's [?]).  A poisoned
    mutex is not modelled.  The free functions are in [DbText]. *)

From Stdlib Require Import SpecFloat.
From S2P Require Import Prelude Bytes Common DbProbe RustSlice RustStr Consumer DbText.

#[local] Set Warnings "-clear-no-such-hyp".
#[local] Open Scope string_scope.
#[local] Open Scope list_scope.
#[local] Open Scope Z_scope.

(** ** Protocols *)

Inductive DbProtocol := Unknown | PostgreSQL | MySQL | Redis | Encrypted.

#[global] Instance DbProtocol_eq_dec : EqDecision DbProtocol.
Proof. solve_decision. Defined.

Definition from_u8 (v : Z) : DbProtocol :=
  match v with
  | 1 => PostgreSQL
  | 2 => MySQL
  | 3 => Redis
  | 4 => Encrypted
  | _ => Unknown
  end.

Definition is_ascii_uppercase (b : Z) : bool := between 65 90 b.
Definition is_ascii_lowercase (b : Z) : bool := between 97 122 b.

(** [b0 == b'R' || ...] *)
Definition one_of (b : Z) (letters : string) : bool :=
  existsb (λ c, b =? Z_of_byte c) (ascii_bytes letters).

Definition detect_protocol (payload : list byte) (port : Z) : option DbProtocol :=
  if Z.of_nat (length payload) <? 2 then Some Unknown
  else
    p0 ← Z_of_byte <$> payload !! 0%nat;
    p1 ← Z_of_byte <$> payload !! 1%nat;
    if (p0 =? 0x16) && (p1 =? 0x03) then Some Encrypted
    else if (port =? PG_PORT) && one_of p0 "RKTDCEZNSQPB" then Some PostgreSQL
    else
      mysql ← (if (port =? MYSQL_PORT) && (5 <=? Z.of_nat (length payload)) then
                 b4 ← Z_of_byte <$> payload !! 4%nat;
                 Some ((b4 =? 0x0a) || (b4 =? 0x00) || (b4 =? 0xff) || (b4 =? 0x03) || (b4 =? 0x17))
               else Some false);
      if (mysql : bool) then Some MySQL
      else if (port =? REDIS_PORT) || (port =? REDIS_SENTINEL_PORT) then
        if one_of p0 "*+-:$" then Some Redis
        else if is_ascii_uppercase p0 || is_ascii_lowercase p0 then Some Redis
        else Some Unknown
      else Some Unknown.

(** ** Events and state *)

Definition as_str (p : DbProtocol) : str :=
  ascii_bytes
    (match p with
     | Unknown => "unknown" | PostgreSQL => "postgresql" | MySQL => "mysql" | Redis => "redis"
     | Encrypted => "encrypted"
     end).

Record DbQueryEvent := {
  q_protocol : str;
  q_query : str;
  q_query_type : str;
  q_table_name : str;
  q_database : str;
  q_latency_ms : f64;
  q_row_count : Z;
  q_error_message : str;
  q_source_ip : str;
  q_destination_ip : str;
  q_destination_port : Z;
  q_pid : Z;
  q_process_name : str;
  q_is_encrypted : bool;
}.

(** Instants are nanoseconds of the monotonic clock. *)
Record PendingRequest := {
  pr_sent_at : Z;
  pr_protocol : DbProtocol;
  pr_query : str;
  pr_query_type : str;
  pr_table_name : str;
}.

Record InspectorStats := {
  total_events : Z;
  pg_queries : Z;
  mysql_queries : Z;
  redis_commands : Z;
  encrypted_events : Z;
  unknown_events : Z;
  parse_errors : Z;
}.

Record DbInspector := { pending : gmap Z PendingRequest; stats : InspectorStats }.

Definition stats_default : InspectorStats := {|
  total_events := 0; pg_queries := 0; mysql_queries := 0; redis_commands := 0;
  encrypted_events := 0; unknown_events := 0; parse_errors := 0 |}.

Definition inspector_new : DbInspector := {| pending := ∅; stats := stats_default |}.

(** The arguments of [inspect], and the instant it runs at. *)
Record capture := {
  cp_payload : list byte;
  cp_port : Z;
  cp_pid : Z;
  cp_process_name : str;
  cp_src_ip : Z;
  cp_dst_ip : Z;
  cp_timestamp_ns : Z;
  cp_now : Z;
}.

(** *** Methods *)

Definition M (A : Type) : Type := DbInspector -> panics (result A * DbInspector).

Definition m_ret {A} (a : A) : M A := λ s, Some (Ok a, s).
Definition m_bind {A B} (m : M A) (k : A -> M B) : M B := λ s,
  match m s with
  | None => None
  | Some (Err e, s) => Some (Err e, s)
  | Some (Ok a, s) => k a s
  end.
(** A function that may panic. *)
Definition m_lift {A} (p : panics A) : M A := λ s, (λ a, (Ok a, s)) <$> p.
(** [r?] *)
Definition m_try {A} (r : result A) : M A := λ s, Some (r, s).

Declare Scope inspector_scope.
Delimit Scope inspector_scope with insp.
Notation "x <- m ;; k" := (m_bind m (λ x, k)) (at level 100, m at next level, right associativity) : inspector_scope.
Notation "m ;;; k" := (m_bind m (λ _, k)) (at level 100, right associativity) : inspector_scope.
#[local] Open Scope inspector_scope.

(** [pending.insert(key, request)] and [pending.remove(&key)] *)
Definition pending_insert (key : Z) (r : PendingRequest) : M unit := λ s,
  Some (Ok tt, {| pending := <[key := r]> (pending s); stats := stats s |}).
Definition pending_remove (key : Z) : M (option PendingRequest) := λ s,
  Some (Ok (pending s !! key), {| pending := delete key (pending s); stats := stats s |}).

Definition with_stats (f : InspectorStats -> InspectorStats) : M unit := λ s,
  Some (Ok tt, {| pending := pending s; stats := f (stats s) |}).

(** [x += 1] on an unsigned 64-bit counter of a release build. *)
Definition incr (x : Z) : Z := wrap 64 (x + 1).

Definition count_protocol (protocol : DbProtocol) (s : InspectorStats) : InspectorStats :=
    let s := {| total_events := incr (total_events s); pg_queries := pg_queries s;
                mysql_queries := mysql_queries s; redis_commands := redis_commands s;
                encrypted_events := encrypted_events s; unknown_events := unknown_events s;
                parse_errors := parse_errors s |} in
    match protocol with
    | Unknown => {| total_events := total_events s; pg_queries := pg_queries s;
                    mysql_queries := mysql_queries s; redis_commands := redis_commands s;
                    encrypted_events := encrypted_events s; unknown_events := incr (unknown_events s);
                    parse_errors := parse_errors s |}
    | Encrypted => {| total_events := total_events s; pg_queries := pg_queries s;
                      mysql_queries := mysql_queries s; redis_commands := redis_commands s;
                      encrypted_events := incr (encrypted_events s); unknown_events := unknown_events s;
                      parse_errors := parse_errors s |}
    | _ => s
    end.

Definition record_protocol (protocol : DbProtocol) : M unit := with_stats (count_protocol protocol).

Definition count_pg (s : InspectorStats) : InspectorStats :=
  {| total_events := total_events s; pg_queries := incr (pg_queries s);
    mysql_queries := mysql_queries s; redis_commands := redis_commands s;
    encrypted_events := encrypted_events s; unknown_events := unknown_events s; parse_errors := parse_errors s |}.
Definition increment_pg : M unit := with_stats count_pg.

Definition count_mysql (s : InspectorStats) : InspectorStats :=
  {| total_events := total_events s; pg_queries := pg_queries s;
    mysql_queries := incr (mysql_queries s); redis_commands := redis_commands s;
    encrypted_events := encrypted_events s; unknown_events := unknown_events s; parse_errors := parse_errors s |}.
Definition increment_mysql : M unit := with_stats count_mysql.

Definition count_redis (s : InspectorStats) : InspectorStats :=
  {| total_events := total_events s; pg_queries := pg_queries s;
    mysql_queries := mysql_queries s; redis_commands := incr (redis_commands s);
    encrypted_events := encrypted_events s; unknown_events := unknown_events s; parse_errors := parse_errors s |}.
Definition increment_redis : M unit := with_stats count_redis.

(** *** Times *)

(** [n as f64], rounded to nearest; operations of [f64]. *)
Definition f64_of_Z (n : Z) : f64 := binary_normalize 53 1024 n 0 false.
Definition f64_add : f64 -> f64 -> f64 := SFadd 53 1024.
Definition f64_div : f64 -> f64 -> f64 := SFdiv 53 1024.
Definition f64_mul : f64 -> f64 -> f64 := SFmul 53 1024.

(** [Duration::as_secs_f64] *)
Definition as_secs_f64 (ns : Z) : f64 :=
  f64_add (f64_of_Z (ns / 10 ^ 9)) (f64_div (f64_of_Z (ns mod 10 ^ 9)) (f64_of_Z (10 ^ 9))).

(** [sent_at.elapsed()] saturates at zero. *)
Definition elapsed (sent_at now : Z) : Z := Z.max 0 (now - sent_at).

Definition latency_of (r : PendingRequest) (c : capture) : f64 :=
  f64_mul (as_secs_f64 (elapsed (pr_sent_at r) (cp_now c))) (f64_of_Z 1000).

(** ** Methods of the inspector *)

Section inspector.
Context {U : Unicode}.

(** The event of a response; [req] is what was pending, if anything. *)
Definition response_event (c : capture) (protocol : string) (req : option PendingRequest)
    (row_count : Z) (error_message : str) : DbQueryEvent := {|
  q_protocol := ascii_bytes protocol;
  q_query := default [] (pr_query <$> req);
  q_query_type := default (ascii_bytes "COMMAND") (pr_query_type <$> req);
  q_table_name := default [] (pr_table_name <$> req);
  q_database := [];
  q_latency_ms := default f64_zero ((λ r, latency_of r c) <$> req);
  q_row_count := row_count;
  q_error_message := error_message;
  q_source_ip := format_ip (cp_src_ip c);
  q_destination_ip := format_ip (cp_dst_ip c);
  q_destination_port := cp_port c;
  q_pid := cp_pid c;
  q_process_name := cp_process_name c;
  q_is_encrypted := false |}.

Definition capture_key (c : capture) : Z := socket_key (cp_pid c) (cp_port c).

Definition request_of (c : capture) (protocol : DbProtocol) (query query_type table_name : str) : PendingRequest := {|
  pr_sent_at := cp_now c; pr_protocol := protocol; pr_query := query;
  pr_query_type := query_type; pr_table_name := table_name |}.

Definition parse_postgresql (c : capture) : M (option DbQueryEvent) :=
  let payload := cp_payload c in
  if len payload =? 0 then m_ret None
  else
    msg_type <- m_lift (idx payload 0);;
    let key := capture_key c in
    if msg_type =? chr "Q" then
      query <- (if 5 <? len payload then
                  rest <- m_lift (range_from payload 5);;
                  m_ret (read_null_string rest)
                else m_ret []);;
      let '(query_type, table_name) := parse_sql query in
      let truncated := truncate_query query in
      pending_insert key (request_of c PostgreSQL truncated query_type table_name);;;
      m_ret None
    else if msg_type =? chr "P" then
      query <- (if 5 <? len payload then
                  rest <- m_lift (range_from payload 5);;
                  let after_name := skip_null_string rest in
                  m_ret (read_null_string after_name)
                else m_ret []);;
      let '(query_type, table_name) := parse_sql query in
      let truncated := truncate_query query in
      pending_insert key (request_of c PostgreSQL truncated query_type table_name);;;
      m_ret None
    else if msg_type =? chr "C" then
      tag <- (if 5 <? len payload then
                rest <- m_lift (range_from payload 5);;
                m_ret (read_null_string rest)
              else m_ret []);;
      let row_count := parse_pg_command_complete tag in
      req <- pending_remove key;;
      let event := response_event c "postgresql" req row_count [] in
      increment_pg;;;
      m_ret (Some event)
    else if msg_type =? chr "E" then
      error_msg <- m_lift (parse_pg_error_response payload);;
      req <- pending_remove key;;
      let event := response_event c "postgresql" req 0 error_msg in
      increment_pg;;;
      m_ret (Some event)
    else if msg_type =? chr "Z" then
      req <- pending_remove key;;
      match req with
      | Some req =>
          let event := response_event c "postgresql" (Some req) 0 [] in
          increment_pg;;;
          m_ret (Some event)
      | None => m_ret None
      end
    else m_ret None.

Definition parse_mysql (c : capture) : M (option DbQueryEvent) :=
  let payload := cp_payload c in
  if len payload <? 5 then m_ret None
  else
    pkt_type <- m_lift (idx payload 4);;
    let key := capture_key c in
    if pkt_type =? 0x03 then
      query_bytes <- m_lift (range_from payload 5);;
      let query := read_null_string query_bytes in
      let '(query_type, table_name) := parse_sql query in
      let truncated := truncate_query query in
      pending_insert key (request_of c MySQL truncated query_type table_name);;;
      m_ret None
    else if pkt_type =? 0x00 then
      req <- pending_remove key;;
      row_count <- (if 5 <? len payload then
                      rest <- m_lift (range_from payload 5);;
                      m_lift (read_lenenc_int rest)
                    else m_ret 0);;
      let event := response_event c "mysql" req row_count [] in
      increment_mysql;;;
      m_ret (Some event)
    else if pkt_type =? 0xff then
      error_msg <- (if 9 <? len payload then
                      rest <- m_lift (range_from payload 9);;
                      m_ret (from_utf8_lossy rest)
                    else m_ret (ascii_bytes "unknown error"));;
      req <- pending_remove key;;
      let event := response_event c "mysql" req 0 error_msg in
      increment_mysql;;;
      m_ret (Some event)
    else if pkt_type =? 0x0a then m_ret None
    else if pkt_type =? 0x17 then
      pending_insert key
        (request_of c MySQL (ascii_bytes "<prepared statement>") (ascii_bytes "EXECUTE") []);;;
      m_ret None
    else m_ret None.

Definition park_redis (c : capture) (command key : str) : M (option DbQueryEvent) :=
  let redis_type := redis_command_type command in
  let truncated_cmd := truncate_query (format_redis_command command key) in
  pending_insert (capture_key c) (request_of c Redis truncated_cmd redis_type key);;;
  m_ret None.

Definition parse_redis_resp (c : capture) : M (option DbQueryEvent) :=
  args <- m_try (parse_redis_resp_array (cp_payload c));;
  let '(command, key) := args in
  park_redis c command key.

Definition parse_redis_inline (c : capture) : M (option DbQueryEvent) :=
  args <- m_try (parse_redis_inline_cmd (cp_payload c));;
  let '(command, key) := args in
  park_redis c command key.

(** A response to whatever is pending; [row_count] and [error_message] are only
    looked at when something is. *)
Definition redis_response (c : capture) (row_count : Z) (error_message : str) : M (option DbQueryEvent) :=
  req <- pending_remove (capture_key c);;
  match req with
  | Some req =>
      let event := response_event c "redis" (Some req) row_count error_message in
      increment_redis;;;
      m_ret (Some event)
  | None => m_ret None
  end.

Definition parse_redis (c : capture) : M (option DbQueryEvent) :=
  let payload := cp_payload c in
  if len payload =? 0 then m_ret None
  else
    first <- m_lift (idx payload 0);;
    if first =? chr "*" then parse_redis_resp c
    else if first =? chr "+" then redis_response c 0 []
    else if first =? chr "-" then redis_response c 0 (read_crlf_string payload)
    else if first =? chr ":" then
      rest <- m_lift (range_from payload 1);;
      let msg := read_crlf_string rest in
      redis_response c (default 0 (parse_u64 (trim msg))) []
    else if is_ascii_uppercase first || is_ascii_lowercase first then parse_redis_inline c
    else if first =? chr "$" then redis_response c 0 []
    else m_ret None.

Definition encrypted_event (c : capture) : DbQueryEvent := {|
  q_protocol := ascii_bytes "encrypted"; q_query := []; q_query_type := []; q_table_name := [];
  q_database := []; q_latency_ms := f64_zero; q_row_count := 0; q_error_message := [];
  q_source_ip := format_ip (cp_src_ip c); q_destination_ip := format_ip (cp_dst_ip c);
  q_destination_port := cp_port c; q_pid := cp_pid c; q_process_name := cp_process_name c;
  q_is_encrypted := true |}.

Definition inspect (c : capture) : M (option DbQueryEvent) :=
  if len (cp_payload c) =? 0 then m_ret None
  else
    protocol <- m_lift (detect_protocol (cp_payload c) (cp_port c));;
    record_protocol protocol;;;
    match protocol with
    | Encrypted => m_ret (Some (encrypted_event c))
    | PostgreSQL => parse_postgresql c
    | MySQL => parse_mysql c
    | Redis => parse_redis c
    | Unknown => m_ret None
    end.
End inspector.

(** ** Letters *)

Lemma pg_letters c :
  one_of (Z_of_byte c) "RKTDCEZNSQPB" =
    ((Z_of_byte c =? chr "R") || (Z_of_byte c =? chr "K") || (Z_of_byte c =? chr "T") ||
     (Z_of_byte c =? chr "D") || (Z_of_byte c =? chr "C") || (Z_of_byte c =? chr "E") ||
     (Z_of_byte c =? chr "Z") || (Z_of_byte c =? chr "N") || (Z_of_byte c =? chr "S") ||
     (Z_of_byte c =? chr "Q") || (Z_of_byte c =? chr "P") || (Z_of_byte c =? chr "B")).
Proof. by destruct c. Qed.

Lemma redis_letters c :
  (one_of (Z_of_byte c) "*+-:$" || (is_ascii_uppercase (Z_of_byte c) || is_ascii_lowercase (Z_of_byte c))) =
    ((Z_of_byte c =? chr "*") || (Z_of_byte c =? chr "+") || (Z_of_byte c =? chr "-") ||
     (Z_of_byte c =? chr ":") || (Z_of_byte c =? chr "$") ||
     ((chr "A" <=? Z_of_byte c) && (Z_of_byte c <=? chr "Z")) ||
     ((chr "a" <=? Z_of_byte c) && (Z_of_byte c <=? chr "z"))).
Proof. by destruct c. Qed.

(** The two classifiers agree: on the bytes a receive returned, the kernel
    program's code, read back with [from_u8], is the protocol the inspector
    finds in the same bytes; neither reads outside them. *)
Theorem detect_protocols_agree buf len port :
  0 <= len <= Z.of_nat (length buf) ->
  exists p, detect_protocol (take (Z.to_nat len) buf) port = Some p /\
    from_u8 <$> DbProbe.detect_protocol buf len port = Some p.
Proof.
  intros Hlen. unfold detect_protocol, DbProbe.detect_protocol.
  rewrite length_take. replace (Z.of_nat (Z.to_nat len `min` length buf)) with len by lia.
  destruct (Z.ltb_spec len 2) as [|H2]; [by eexists|].
  rewrite !(lookup_take_lt _ _ 0), !(lookup_take_lt _ _ 1) by lia.
  destruct (lookup_lt_is_Some_2 buf 0%nat ltac:(lia)) as [b0 ->].
  destruct (lookup_lt_is_Some_2 buf 1%nat ltac:(lia)) as [b1 ->].
  cbn [fmap option_fmap option_map mbind option_bind].
  destruct (_ && (Z_of_byte b1 =? 3)); [by eexists|].
  rewrite pg_letters. destruct ((port =? PG_PORT) && _); [by eexists|].
  rewrite <- redis_letters. set (r := (port =? REDIS_PORT) || (port =? REDIS_SENTINEL_PORT)).
  set (x := one_of (Z_of_byte b0) "*+-:$"). set (y := is_ascii_uppercase _ || is_ascii_lowercase _).
  destruct ((port =? MYSQL_PORT) && (5 <=? len)) eqn:H5; cbn [mbind option_bind].
  - apply andb_true_iff in H5 as [_ H5%Z.leb_le]. rewrite (lookup_take_lt _ _ 4) by lia.
    destruct (lookup_lt_is_Some_2 buf 4%nat ltac:(lia)) as [b4 ->]. cbn [fmap option_fmap option_map mbind option_bind].
    destruct (_ || (Z_of_byte b4 =? 0x17)); [by eexists|]. destruct r, x, y; by eexists.
  - destruct r, x, y; by eexists.
Qed.

Lemma detect_protocols_agree_witness :
  exists p, detect_protocol (take (Z.to_nat 4) (ascii_bytes "PING..")) 6379 = Some p /\
    from_u8 <$> DbProbe.detect_protocol (ascii_bytes "PING..") 4 6379 = Some p.
Proof. apply (detect_protocols_agree (ascii_bytes "PING..") 4 6379). vm_compute. split; discriminate. Defined.

(** ** Specification

    What a capture does to the inspector, whatever its bytes: nothing but be
    counted, park a request of its process and port, answer the one parked
    there, or report an encrypted connection. *)

Section spec.
Context {U : Unicode}.

Inductive handler_spec (protocol : string) (count : InspectorStats -> InspectorStats)
    (c : capture) (s : DbInspector) : option DbQueryEvent -> DbInspector -> Prop :=
  | handler_ignored : handler_spec protocol count c s None s
  | handler_parked r :
      pr_sent_at r = cp_now c ->
      handler_spec protocol count c s None
        {| pending := <[capture_key c := r]> (pending s); stats := stats s |}
  | handler_answered row_count error_message :
      handler_spec protocol count c s
        (Some (response_event c protocol (pending s !! capture_key c) row_count error_message))
        {| pending := delete (capture_key c) (pending s); stats := count (stats s) |}.

Definition counted (p : DbProtocol) (s : DbInspector) : DbInspector :=
  {| pending := pending s; stats := count_protocol p (stats s) |}.

Inductive inspect_spec (c : capture) (s : DbInspector) : option DbQueryEvent -> DbInspector -> Prop :=
  | inspect_empty : cp_payload c = [] -> inspect_spec c s None s
  | inspect_unknown : cp_payload c <> [] -> inspect_spec c s None (counted Unknown s)
  | inspect_encrypted :
      cp_payload c <> [] -> inspect_spec c s (Some (encrypted_event c)) (counted Encrypted s)
  | inspect_postgresql r s' :
      cp_payload c <> [] -> handler_spec "postgresql" count_pg c (counted PostgreSQL s) r s' ->
      inspect_spec c s r s'
  | inspect_mysql r s' :
      cp_payload c <> [] -> handler_spec "mysql" count_mysql c (counted MySQL s) r s' ->
      inspect_spec c s r s'
  | inspect_redis r s' :
      cp_payload c <> [] -> handler_spec "redis" count_redis c (counted Redis s) r s' ->
      inspect_spec c s r s'.

(** [m] ends well from [s], with what [Q] allows. *)
Definition ends {A} (m : M A) (s : DbInspector) (Q : A -> DbInspector -> Prop) : Prop :=
  exists a s', m s = Some (Ok a, s') /\ Q a s'.

Lemma ends_ret {A} (a : A) s (Q : A -> DbInspector -> Prop) : Q a s -> ends (m_ret a) s Q.
Proof using Type. intros. by exists a, s. Qed.

Lemma ends_bind {A B} (m : M A) (k : A -> M B) s Q :
  ends m s (λ a s', ends (k a) s' Q) -> ends (m_bind m k) s Q.
Proof using Type. intros (a & s' & Hm & b & s'' & Hk & HQ). exists b, s''. unfold m_bind. by rewrite Hm. Qed.

Lemma ends_lift {A} (p : panics A) s (Q : A -> DbInspector -> Prop) :
  (exists a, p = Some a /\ Q a s) -> ends (m_lift p) s Q.
Proof using Type. intros (a & -> & HQ). by exists a, s. Qed.

Lemma ends_try {A} (r : result A) s (Q : A -> DbInspector -> Prop) :
  (exists a, r = Ok a /\ Q a s) -> ends (m_try r) s Q.
Proof using Type. intros (a & -> & HQ). by exists a, s. Qed.

Lemma ends_insert k r s (Q : unit -> DbInspector -> Prop) :
  Q tt {| pending := <[k := r]> (pending s); stats := stats s |} -> ends (pending_insert k r) s Q.
Proof using Type. intros. by exists tt; eexists. Qed.

Lemma ends_remove k s (Q : option PendingRequest -> DbInspector -> Prop) :
  Q (pending s !! k) {| pending := delete k (pending s); stats := stats s |} -> ends (pending_remove k) s Q.
Proof using Type. intros. by eexists _, _. Qed.

Lemma ends_stats f s (Q : unit -> DbInspector -> Prop) :
  Q tt {| pending := pending s; stats := f (stats s) |} -> ends (with_stats f) s Q.
Proof using Type. intros. by exists tt; eexists. Qed.

(** One statement of a method. *)
Ltac method_step :=
  lazymatch goal with
  | |- ends (m_bind _ _) _ _ => apply ends_bind
  | |- ends (m_ret _) _ _ => apply ends_ret
  | H : idx ?d ?i = Some ?z |- ends (m_lift (idx ?d ?i)) _ _ =>
      apply ends_lift; exists z; split; [exact H|]
  | |- ends (m_lift (range_from ?d ?i)) _ _ =>
      apply ends_lift; exists (drop (Z.to_nat i) d); split; [apply range_from_some; lia|]
  | |- ends (m_lift (parse_pg_error_response ?d)) _ _ =>
      let H := fresh in let v := fresh "v" in
      apply ends_lift; destruct (parse_pg_error_total d) as [v H]; exists v; split; [exact H|]
  | |- ends (m_lift (read_lenenc_int ?d)) _ _ =>
      let H := fresh in let v := fresh "v" in
      apply ends_lift; destruct (read_lenenc_total d) as [v H]; exists v; split; [exact H|]
  | |- ends (pending_insert _ _) _ _ => apply ends_insert
  | |- ends (pending_remove _) _ _ => apply ends_remove
  | |- ends (with_stats _) _ _ => apply ends_stats
  | |- ends (if ?b then _ else _) _ _ => destruct b eqn:?
  | |- ends (match ?o with Some _ => _ | None => _ end) _ _ => destruct o eqn:?
  | |- ends (let '(_, _) := ?p in _) _ _ => destruct p
  end.

Lemma handler_ignored_delete protocol count c s k :
  pending s !! k = None ->
  handler_spec protocol count c s None {| pending := delete k (pending s); stats := stats s |}.
Proof using Type. intros Hk. destruct s as [P st]. simpl in *. rewrite delete_id by done. constructor. Qed.

Ltac method_done :=
  cbn [pending stats];
  first [by apply handler_ignored | by apply handler_parked | by apply handler_ignored_delete
        | by apply handler_answered
        | match goal with
          | H : pending ?s !! capture_key ?c = Some ?r |- handler_spec _ _ _ _ (Some (response_event _ _ (Some ?r) _ _)) _ =>
              rewrite <- H; apply handler_answered
          end].

Lemma parse_postgresql_ends c s :
  0 < len (cp_payload c) -> ends (parse_postgresql c) s (handler_spec "postgresql" count_pg c s).
Proof using Type.
  intros Hlen. unfold parse_postgresql, increment_pg. cbv zeta.
  destruct (idx_some (cp_payload c) 0 ltac:(lia)) as (z & Hz & _).
  repeat (method_step; cbv beta zeta). all: method_done.
Qed.

Lemma parse_mysql_ends c s : ends (parse_mysql c) s (handler_spec "mysql" count_mysql c s).
Proof using Type.
  unfold parse_mysql, increment_mysql. cbv zeta.
  destruct (Z.ltb_spec (len (cp_payload c)) 5) as [|Hlen]; [by apply ends_ret, handler_ignored|].
  destruct (idx_some (cp_payload c) 4 ltac:(lia)) as (z & Hz & _).
  repeat (method_step; cbv beta zeta). all: method_done.
Qed.

Lemma park_redis_ends c command key s : ends (park_redis c command key) s (handler_spec "redis" count_redis c s).
Proof using Type. unfold park_redis. repeat (method_step; cbv beta zeta). method_done. Qed.

Lemma redis_response_ends c n e s : ends (redis_response c n e) s (handler_spec "redis" count_redis c s).
Proof using Type.
  unfold redis_response, increment_redis. repeat (method_step; cbv beta zeta). all: method_done.
Qed.

Lemma parse_redis_ends c s :
  0 < len (cp_payload c) -> ends (parse_redis c) s (handler_spec "redis" count_redis c s).
Proof using Type.
  intros Hlen. unfold parse_redis, parse_redis_resp, parse_redis_inline. cbv zeta.
  destruct (idx_some (cp_payload c) 0 ltac:(lia)) as (z & Hz & _).
  repeat (method_step; cbv beta zeta); try (apply redis_response_ends || method_done).
  - apply ends_try. destruct (parse_resp_ok (cp_payload c)) as [[command key] ->].
    eexists. split; [done|]. apply park_redis_ends.
  - apply ends_try. eexists. split; [done|]. apply park_redis_ends.
Qed.

Lemma detect_protocol_total payload port : exists p, detect_protocol payload port = Some p.
Proof using Type.
  unfold detect_protocol. destruct (Z.ltb_spec (Z.of_nat (length payload)) 2); [by eexists|].
  destruct (lookup_lt_is_Some_2 payload 0%nat ltac:(lia)) as [b0 ->].
  destruct (lookup_lt_is_Some_2 payload 1%nat ltac:(lia)) as [b1 ->].
  cbn [fmap option_fmap option_map mbind option_bind]. do 2 (case_match; [by eexists|]).
  destruct ((port =? MYSQL_PORT) && _) eqn:H5; cbn [mbind option_bind].
  - destruct (lookup_lt_is_Some_2 payload 4%nat ltac:(lia)) as [b4 ->].
    cbn [fmap option_fmap option_map mbind option_bind]. repeat case_match; by eexists.
  - repeat case_match; by eexists.
Qed.

Lemma inspect_ends c s : ends (inspect c) s (inspect_spec c s).
Proof using Type.
  unfold inspect, record_protocol. destruct (Z.eqb_spec (len (cp_payload c)) 0) as [H0|H0].
  { apply ends_ret, inspect_empty. by destruct (cp_payload c). }
  pose proof (len_nonneg (cp_payload c)).
  assert (cp_payload c <> []) as Hne by (intros Hp; by rewrite Hp in H0).
  apply ends_bind, ends_lift. destruct (detect_protocol_total (cp_payload c) (cp_port c)) as [p Hp].
  exists p. split; [done|]. apply ends_bind, ends_stats. fold (counted p s). destruct p.
  - by apply ends_ret, inspect_unknown.
  - destruct (parse_postgresql_ends c (counted PostgreSQL s) ltac:(lia)) as (r & s' & Hr & HQ).
    exists r, s'. split; [done|by apply inspect_postgresql].
  - destruct (parse_mysql_ends c (counted MySQL s)) as (r & s' & Hr & HQ).
    exists r, s'. split; [done|by apply inspect_mysql].
  - destruct (parse_redis_ends c (counted Redis s) ltac:(lia)) as (r & s' & Hr & HQ).
    exists r, s'. split; [done|by apply inspect_redis].
  - by apply ends_ret, inspect_encrypted.
Qed.

(** [C39] Whatever bytes are captured on whatever port, [inspect] neither panics
    nor returns an error, and what it does is what the specification allows:
    count the capture, park a request of its process and port, answer the one
    parked there and forget it, or report an encrypted connection. *)
Theorem inspect_refines_spec c s :
  exists r s', inspect c s = Some (Ok r, s') /\ inspect_spec c s r s'.
Proof using Type. apply inspect_ends. Qed.

(** ** Sequences of captures *)

Fixpoint inspect_all (cs : list capture) : M (list DbQueryEvent) :=
  match cs with
  | [] => m_ret []
  | c :: cs =>
      e <- inspect c;;
      es <- inspect_all cs;;
      m_ret (option_list e ++ es)
  end.

(** An invariant of the events seen so far and the state. *)
Lemma inspect_all_ends (Q : list capture -> list DbQueryEvent -> DbInspector -> Prop) cs0 es0 cs s :
  (forall cs es c s r s', Q cs es s -> inspect_spec c s r s' -> Q (cs ++ [c]) (es ++ option_list r) s') ->
  Q cs0 es0 s -> ends (inspect_all cs) s (λ es s', Q (cs0 ++ cs) (es0 ++ es) s').
Proof using Type.
  intros Hstep. revert cs0 es0 s. induction cs as [|c cs IH]; intros cs0 es0 s HQ.
  - apply ends_ret. by rewrite !app_nil_r.
  - cbn [inspect_all]. apply ends_bind. destruct (inspect_ends c s) as (r & s1 & Hr & Hspec).
    exists r, s1. split; [done|]. apply ends_bind.
    destruct (IH (cs0 ++ [c]) (es0 ++ option_list r) s1) as (es & s2 & Hes & HQ2); [by eapply Hstep|].
    exists es, s2. split; [done|]. apply ends_ret. by rewrite <- !app_assoc in HQ2.
Qed.

(** *** Statistics *)

Definition events_of (protocol : string) (es : list DbQueryEvent) : Z :=
  Z.of_nat (length (filter (λ e, q_protocol e = ascii_bytes protocol) es)).

Definition captured (cs : list capture) : Z := Z.of_nat (length (filter (λ c, cp_payload c <> []) cs)).

Record stats_ok (cs : list capture) (es : list DbQueryEvent) (s : DbInspector) : Prop := {
  so_total : total_events (stats s) = wrap 64 (captured cs);
  so_pg : pg_queries (stats s) = wrap 64 (events_of "postgresql" es);
  so_mysql : mysql_queries (stats s) = wrap 64 (events_of "mysql" es);
  so_redis : redis_commands (stats s) = wrap 64 (events_of "redis" es);
  so_encrypted : encrypted_events (stats s) = wrap 64 (events_of "encrypted" es);
  so_errors : parse_errors (stats s) = 0;
}.

Lemma incr_wrap n : incr (wrap 64 n) = wrap 64 (n + 1).
Proof using Type. unfold incr, wrap. apply Zplus_mod_idemp_l. Qed.

Lemma events_of_snoc p es e :
  events_of p (es ++ option_list (Some e)) = events_of p es + if decide (q_protocol e = ascii_bytes p) then 1 else 0.
Proof using Type.
  unfold events_of. change (option_list (Some e)) with [e].
  rewrite filter_app, length_app, filter_cons, filter_nil. case_decide; simpl; lia.
Qed.

Lemma captured_snoc cs c : cp_payload c <> [] -> captured (cs ++ [c]) = captured cs + 1.
Proof using Type. intros Hc. unfold captured. rewrite filter_app, length_app, filter_cons_True by done. simpl. lia. Qed.

Lemma captured_empty cs c : cp_payload c = [] -> captured (cs ++ [c]) = captured cs.
Proof using Type.
  intros Hc. unfold captured. rewrite filter_app, length_app, filter_cons_False by by intros [].
  simpl. lia.
Qed.

Lemma stats_step cs es c s r s' :
  stats_ok cs es s -> inspect_spec c s r s' -> stats_ok (cs ++ [c]) (es ++ option_list r) s'.
Proof using Type.
  intros [Ht Hp Hm Hr He Hpe] Hs.
  destruct Hs as [Hc|Hc|Hc|r s' Hc Hh|r s' Hc Hh|r s' Hc Hh]; try destruct Hh; cbn [option_list];
    rewrite ?app_nil_r; split; cbn [counted stats count_protocol count_pg count_mysql count_redis
      total_events pg_queries mysql_queries redis_commands encrypted_events unknown_events parse_errors];
    rewrite ?events_of_snoc, ?(captured_snoc _ _ Hc), ?(captured_empty _ _ Hc); try done;
    rewrite ?Ht, ?Hp, ?Hm, ?Hr, ?He, ?incr_wrap; try done; cbn [q_protocol response_event encrypted_event];
    first [rewrite decide_True by done; done | rewrite decide_False by done; by rewrite Z.add_0_r].
Qed.

(** The statistics count what was done: after any sequence of captures,
    with 64-bit wrap-around, [total_events] is the number of captures with a
    payload, and each protocol's counter the number of events returned for it;
    no capture is ever counted as a parsing error. *)
Theorem stats_count_events cs :
  exists es s, inspect_all cs inspector_new = Some (Ok es, s) /\ stats_ok cs es s.
Proof using Type.
  apply (inspect_all_ends stats_ok [] [] cs).
  - intros. by eapply stats_step.
  - by split.
Qed.

(** *** One request, its response, and what happens in between *)

Lemma inspect_other c s r s' k :
  inspect_spec c s r s' -> capture_key c <> k -> pending s' !! k = pending s !! k.
Proof using Type.
  intros Hs Hk. destruct Hs as [| | |? ? ? Hh|? ? ? Hh|? ? ? Hh]; try destruct Hh; simpl; try done;
    by rewrite ?lookup_insert_ne, ?lookup_delete_ne.
Qed.

Lemma inspect_all_other cs s k :
  Forall (λ c, capture_key c <> k) cs ->
  ends (inspect_all cs) s (λ _ s', pending s' !! k = pending s !! k).
Proof using Type.
  intros Hcs. revert s. induction Hcs as [|c cs Hc _ IH]; intros s; [by apply ends_ret|].
  cbn [inspect_all]. apply ends_bind. destruct (inspect_ends c s) as (r & s1 & Hr & Hspec).
  exists r, s1. split; [done|]. apply ends_bind. destruct (IH s1) as (es & s2 & Hes & Hk).
  exists es, s2. split; [done|]. apply ends_ret. by rewrite Hk, (inspect_other c s r s1).
Qed.

(** A PostgreSQL query message, and the completion of a command. *)
Definition pg_query (length4 : list byte) (q : str) (rest : list byte) : list byte :=
  ascii_bytes "Q" ++ length4 ++ q ++ x00 :: rest.
Definition pg_complete (length4 : list byte) (tag : str) (rest : list byte) : list byte :=
  ascii_bytes "C" ++ length4 ++ tag ++ x00 :: rest.

(** What a query leaves parked. *)
Definition parked_query (c : capture) (q : str) : PendingRequest :=
  request_of c PostgreSQL (truncate_query q) (parse_sql q).1 (parse_sql q).2.

Lemma detect_pg b0 b1 rest :
  one_of (Z_of_byte b0) "RKTDCEZNSQPB" = true -> (Z_of_byte b0 =? 0x16) = false ->
  detect_protocol (b0 :: b1 :: rest) PG_PORT = Some PostgreSQL.
Proof using Type.
  intros Hl Ht. unfold detect_protocol. rewrite (proj2 (Z.ltb_ge _ 2)) by (cbn [length]; lia).
  cbn [lookup list_lookup fmap option_fmap option_map mbind option_bind]. rewrite Ht, Hl. done.
Qed.

(** A message: its type, four bytes of length, a string and a NUL. *)
Lemma pg_body b0 l4 t rest :
  length l4 = 4%nat -> utf8_valid t = true -> x00 ∉ t ->
  exists b1 tail, b0 :: l4 ++ t ++ x00 :: rest = b0 :: b1 :: tail /\
    (len (b0 :: l4 ++ t ++ x00 :: rest) =? 0) = false /\
    (5 <? len (b0 :: l4 ++ t ++ x00 :: rest)) = true /\
    range_from (b0 :: l4 ++ t ++ x00 :: rest) 5 = Some (t ++ x00 :: rest) /\
    read_null_string (t ++ x00 :: rest) = t.
Proof using Type.
  intros H4 Ht H0. destruct l4 as [|b1 l4]; [done|]. exists b1, (l4 ++ t ++ x00 :: rest).
  assert (len (b0 :: b1 :: l4) = 5) as H5 by (unfold len; simpl in *; lia).
  assert (len (b0 :: (b1 :: l4) ++ t ++ x00 :: rest) = 5 + len (t ++ x00 :: rest)) as Hlen.
  { rewrite <- H5. unfold len. cbn [length app]. rewrite length_app. lia. }
  assert (0 < len (t ++ x00 :: rest)) by (unfold len; rewrite length_app; simpl; lia).
  rewrite Hlen. split_and!; [done|by apply Z.eqb_neq; lia|by apply Z.ltb_lt; lia| |by apply read_null_string_valid].
  rewrite <- H5. apply (range_from_app (b0 :: b1 :: l4)).
Qed.

Lemma inspect_pg_query c s l4 q rest :
  cp_payload c = pg_query l4 q rest -> cp_port c = PG_PORT -> length l4 = 4%nat ->
  utf8_valid q = true -> x00 ∉ q ->
  inspect c s = Some (Ok None,
    {| pending := <[capture_key c := parked_query c q]> (pending s);
       stats := count_protocol PostgreSQL (stats s) |}).
Proof using Type.
  intros Hp Hport H4 Hq H0. destruct (pg_body x51 l4 q rest H4 Hq H0) as (b1 & tail & Hb & Hne & H5 & Hr & Hs).
  change (pg_query l4 q rest) with (x51 :: l4 ++ q ++ x00 :: rest) in Hp.
  unfold inspect, parse_postgresql, parked_query. rewrite Hp, Hport, Hne. rewrite Hb at 1.
  rewrite (detect_pg x51) by done. unfold m_bind at 1, m_lift at 1. cbn [fmap option_fmap option_map].
  unfold m_bind at 1, record_protocol, with_stats. cbv zeta.
  change (idx (x51 :: l4 ++ q ++ x00 :: rest) 0) with (Some 0x51).
  unfold m_bind at 1, m_lift at 1. cbn [fmap option_fmap option_map].
  change (0x51 =? chr "Q") with true. cbv iota. rewrite H5, Hr. unfold m_bind, m_lift, m_ret. cbn [fmap option_fmap option_map].
  rewrite Hs. by destruct (parse_sql q).
Qed.

Lemma inspect_pg_complete c s l4 tag rest :
  cp_payload c = pg_complete l4 tag rest -> cp_port c = PG_PORT -> length l4 = 4%nat ->
  utf8_valid tag = true -> x00 ∉ tag ->
  inspect c s = Some (Ok (Some (response_event c "postgresql" (pending s !! capture_key c)
      (parse_pg_command_complete tag) [])),
    {| pending := delete (capture_key c) (pending s);
       stats := count_pg (count_protocol PostgreSQL (stats s)) |}).
Proof using Type.
  intros Hp Hport H4 Hq H0. destruct (pg_body x43 l4 tag rest H4 Hq H0) as (b1 & tail & Hb & Hne & H5 & Hr & Hs).
  change (pg_complete l4 tag rest) with (x43 :: l4 ++ tag ++ x00 :: rest) in Hp.
  unfold inspect, parse_postgresql. rewrite Hp, Hport, Hne. rewrite Hb at 1.
  rewrite (detect_pg x43) by done. unfold m_bind at 1, m_lift at 1. cbn [fmap option_fmap option_map].
  unfold m_bind at 1, record_protocol, with_stats. cbv zeta.
  change (idx (x43 :: l4 ++ tag ++ x00 :: rest) 0) with (Some 0x43).
  unfold m_bind at 1, m_lift at 1. cbn [fmap option_fmap option_map].
  change (0x43 =? chr "Q") with false. change (0x43 =? chr "P") with false. change (0x43 =? chr "C") with true.
  cbv iota. rewrite H5, Hr. unfold m_bind, m_lift, m_ret. cbn [fmap option_fmap option_map].
  by rewrite Hs.
Qed.

(** [C40] A PostgreSQL query is reported with its result: when a process sends
    query [q], then, after any captures of other processes and ports, the
    command completes with a tag, exactly one event comes out of the two, with
    the (truncated) text, operation and table of [q], the row count of the tag
    and the time between the two as latency; nothing stays parked. *)
Theorem pg_query_answered s c1 mid c2 l4 q rest l4' tag rest' :
  cp_payload c1 = pg_query l4 q rest -> length l4 = 4%nat -> utf8_valid q = true -> x00 ∉ q ->
  cp_payload c2 = pg_complete l4' tag rest' -> length l4' = 4%nat -> utf8_valid tag = true -> x00 ∉ tag ->
  cp_port c1 = PG_PORT -> cp_port c2 = PG_PORT -> cp_pid c2 = cp_pid c1 ->
  Forall (λ c, in_range 16 (cp_port c) /\ (cp_pid c, cp_port c) <> (cp_pid c1, PG_PORT)) mid ->
  exists s1 es s2 s3 e,
    inspect c1 s = Some (Ok None, s1) /\ inspect_all mid s1 = Some (Ok es, s2) /\
    inspect c2 s2 = Some (Ok (Some e), s3) /\
    q_query e = truncate_query q /\ (q_query_type e, q_table_name e) = parse_sql q /\
    q_row_count e = parse_pg_command_complete tag /\ q_error_message e = [] /\
    q_latency_ms e = f64_mul (as_secs_f64 (elapsed (cp_now c1) (cp_now c2))) (f64_of_Z 1000) /\
    pending s3 !! capture_key c1 = None.
Proof using Type.
  intros Hp1 H4 Hq H0 Hp2 H4' Ht Ht0 Hport1 Hport2 Hpid Hmid.
  assert (capture_key c2 = capture_key c1) as Hkey by (unfold capture_key; by rewrite Hport1, Hport2, Hpid).
  eexists. destruct (inspect_all_other mid
    {| pending := <[capture_key c1 := parked_query c1 q]> (pending s);
       stats := count_protocol PostgreSQL (stats s) |} (capture_key c1)) as (es & s2 & Hes & Hk).
  { eapply Forall_impl; [exact Hmid|]. intros c [Hr Hne] Hck. apply Hne.
    unfold capture_key in Hck. rewrite Hport1 in Hck.
    assert (in_range 16 PG_PORT) as Hpg by by split.
    destruct (socket_key_inj _ _ _ _ Hr Hpg Hck) as [Hcp ->]. by rewrite Hcp. }
  simpl in Hk. rewrite lookup_insert_eq in Hk.
  exists es, s2. eexists _, _. split; [by apply inspect_pg_query with l4 rest|]. split; [exact Hes|].
  split; [by apply inspect_pg_complete with l4' rest'|]. rewrite Hkey, Hk. simpl.
  split_and!; try done; [by destruct (parse_sql q)|]. apply lookup_delete_eq.
Qed.

(** Connections of one process to one server share a key: when two of them
    have a query each in flight, the first completion is reported with the
    second query's text, and the second completion with none. *)
Theorem pooled_connections_confused s c1 c2 c3 c4 l4 q1 rest1 q2 rest2 tag1 rest3 tag2 rest4 :
  length l4 = 4%nat ->
  cp_payload c1 = pg_query l4 q1 rest1 -> utf8_valid q1 = true -> x00 ∉ q1 ->
  cp_payload c2 = pg_query l4 q2 rest2 -> utf8_valid q2 = true -> x00 ∉ q2 ->
  cp_payload c3 = pg_complete l4 tag1 rest3 -> utf8_valid tag1 = true -> x00 ∉ tag1 ->
  cp_payload c4 = pg_complete l4 tag2 rest4 -> utf8_valid tag2 = true -> x00 ∉ tag2 ->
  Forall (λ c, cp_port c = PG_PORT /\ cp_pid c = cp_pid c1) [c1; c2; c3; c4] ->
  exists e1 e2 s', inspect_all [c1; c2; c3; c4] s = Some (Ok [e1; e2], s') /\
    q_query e1 = truncate_query q2 /\ q_row_count e1 = parse_pg_command_complete tag1 /\
    q_query e2 = [] /\ q_query_type e2 = ascii_bytes "COMMAND" /\ q_latency_ms e2 = f64_zero.
Proof using Type.
  intros H4 Hp1 Hq1 H01 Hp2 Hq2 H02 Hp3 Ht1 H03 Hp4 Ht2 H04 Hsame.
  assert (forall c, c ∈ [c1; c2; c3; c4] -> cp_port c = PG_PORT /\ capture_key c = capture_key c1) as Hk.
  { intros c Hc. rewrite Forall_forall in Hsame. destruct (Hsame c Hc) as [Hport Hpid].
    destruct (Hsame c1 ltac:(set_solver)) as [Hport1 _]. split; [done|].
    unfold capture_key. by rewrite Hport, Hpid, Hport1. }
  destruct (Hk c1 ltac:(set_solver)) as [Hport1 _]. destruct (Hk c2 ltac:(set_solver)) as [Hport2 Hk2].
  destruct (Hk c3 ltac:(set_solver)) as [Hport3 Hk3]. destruct (Hk c4 ltac:(set_solver)) as [Hport4 Hk4].
  eexists _, _, _. split.
  - cbn [inspect_all]. unfold m_bind, m_ret.
    rewrite (inspect_pg_query c1 s l4 q1 rest1) by done.
    rewrite (inspect_pg_query c2 _ l4 q2 rest2) by done.
    rewrite (inspect_pg_complete c3 _ l4 tag1 rest3) by done.
    rewrite (inspect_pg_complete c4 _ l4 tag2 rest4) by done. reflexivity.
  - cbn [pending]. rewrite Hk3, Hk4, Hk2, lookup_delete_eq, lookup_insert_eq. by simpl.
Qed.

Lemma detect_pg_error l4 fields rest :
  length l4 = 4%nat -> detect_protocol (pg_error l4 fields ++ rest) PG_PORT = Some PostgreSQL.
Proof using Type. intros H4. destruct l4 as [|b1 l4]; [done|]. by apply (detect_pg x45). Qed.

(** A failed PostgreSQL statement is reported with the server's message: an
    error response whose first field of type M has value [v] yields an event
    with error [v], no rows, and the text of what was parked, which is consumed. *)
Theorem pg_error_reported s c l4 before v after rest :
  cp_payload c = pg_error l4 (before ++ (x4d, v) :: after) ++ rest -> cp_port c = PG_PORT ->
  length l4 = 4%nat -> Forall field_ok (before ++ [(x4d, v)]) -> x4d ∉ before.*1 ->
  exists e s', inspect c s = Some (Ok (Some e), s') /\
    q_error_message e = v /\ q_row_count e = 0 /\
    q_query e = default [] (pr_query <$> pending s !! capture_key c) /\
    pending s' = delete (capture_key c) (pending s).
Proof using Type.
  intros Hp Hport H4 Hok HM. pose proof (pg_error_message l4 before v after rest H4 Hok HM) as Hmsg.
  assert (detect_protocol (cp_payload c) (cp_port c) = Some PostgreSQL) as Hd
    by (rewrite Hp, Hport; by apply detect_pg_error).
  assert (idx (cp_payload c) 0 = Some 0x45) as Hi by by rewrite Hp.
  assert ((len (cp_payload c) =? 0) = false) as Hl by by rewrite Hp.
  rewrite <- Hp in Hmsg. eexists _, _. split.
  - unfold inspect, parse_postgresql. rewrite Hl, Hd. unfold m_bind, m_lift, record_protocol, with_stats.
    cbn [fmap option_fmap option_map]. rewrite Hi. cbn [fmap option_fmap option_map].
    change (0x45 =? chr "Q") with false. change (0x45 =? chr "P") with false.
    change (0x45 =? chr "C") with false. change (0x45 =? chr "E") with true. cbv iota zeta.
    rewrite Hmsg. reflexivity.
  - by simpl.
Qed.

(** A request that is not answered stays parked: nothing ever evicts it. *)
Lemma unanswered_request_stays s c1 mid l4 q rest :
  cp_payload c1 = pg_query l4 q rest -> cp_port c1 = PG_PORT -> length l4 = 4%nat ->
  utf8_valid q = true -> x00 ∉ q -> Forall (λ c, capture_key c <> capture_key c1) mid ->
  exists es s', inspect_all (c1 :: mid) s = Some (Ok es, s') /\
    pending s' !! capture_key c1 = Some (parked_query c1 q).
Proof using Type.
  intros Hp Hport H4 Hq H0 Hmid. cbn [inspect_all]. unfold m_bind at 1.
  rewrite (inspect_pg_query c1 s l4 q rest) by done.
  destruct (inspect_all_other mid
    {| pending := <[capture_key c1 := parked_query c1 q]> (pending s);
       stats := count_protocol PostgreSQL (stats s) |} (capture_key c1) Hmid) as (es & s2 & Hes & Hk).
  exists es, s2. split; [unfold m_bind; by rewrite Hes|]. rewrite Hk. apply lookup_insert_eq.
Qed.
End spec.

(** ** On concrete captures *)

Section witnesses.
#[local] Existing Instance ascii_unicode.

Definition capture_of (payload : list byte) (port pid now : Z) : capture := {|
  cp_payload := payload; cp_port := port; cp_pid := pid; cp_process_name := ascii_bytes "psql";
  cp_src_ip := 16777343; cp_dst_ip := 16885952; cp_timestamp_ns := 0; cp_now := now |}.

Definition len4 : list byte := [x00; x00; x00; x0d].
Definition sample_query (q : string) (pid now : Z) : capture :=
  capture_of (pg_query len4 (ascii_bytes q) []) 5432 pid now.
Definition sample_tag (tag : string) (pid now : Z) : capture :=
  capture_of (pg_complete len4 (ascii_bytes tag) []) 5432 pid now.

(** 1.5 ms. *)
Example latency_ex : f64_mul (as_secs_f64 1500000) (f64_of_Z 1000) = S754_finite false 6755399441055744 (-52).
Proof. vm_compute. reflexivity. Qed.

Ltac by_computation := apply (bool_decide_unpack _); vm_compute; exact I.

Lemma pg_query_answered_witness :
  let c1 := sample_query "SELECT * FROM users" 42 1000 in
  let c2 := sample_tag "SELECT 3" 42 1501000 in
  let mid := [capture_of (ascii_bytes "PING") 6379 42 2000] in
  exists s1 es s2 s3 e,
    inspect c1 inspector_new = Some (Ok None, s1) /\ inspect_all mid s1 = Some (Ok es, s2) /\
    inspect c2 s2 = Some (Ok (Some e), s3) /\
    q_query e = truncate_query (ascii_bytes "SELECT * FROM users") /\
    (q_query_type e, q_table_name e) = parse_sql (ascii_bytes "SELECT * FROM users") /\
    q_row_count e = parse_pg_command_complete (ascii_bytes "SELECT 3") /\ q_error_message e = [] /\
    q_latency_ms e = f64_mul (as_secs_f64 (elapsed (cp_now c1) (cp_now c2))) (f64_of_Z 1000) /\
    pending s3 !! capture_key c1 = None.
Proof.
  intros c1 c2 mid.
  apply (pg_query_answered inspector_new c1 mid c2 len4 (ascii_bytes "SELECT * FROM users") []
    len4 (ascii_bytes "SELECT 3") []); try reflexivity; try by_computation.
Defined.

Lemma pooled_connections_confused_witness :
  let cs := [sample_query "SELECT 1" 42 1; sample_query "DELETE FROM t" 42 2; sample_tag "SELECT 1" 42 3; sample_tag "DELETE 9" 42 4] in
  exists e1 e2 s', inspect_all cs inspector_new = Some (Ok [e1; e2], s') /\
    q_query e1 = truncate_query (ascii_bytes "DELETE FROM t") /\
    q_row_count e1 = parse_pg_command_complete (ascii_bytes "SELECT 1") /\
    q_query e2 = [] /\ q_query_type e2 = ascii_bytes "COMMAND" /\ q_latency_ms e2 = f64_zero.
Proof.
  apply (pooled_connections_confused inspector_new (sample_query "SELECT 1" 42 1) (sample_query "DELETE FROM t" 42 2)
    (sample_tag "SELECT 1" 42 3) (sample_tag "DELETE 9" 42 4) len4 (ascii_bytes "SELECT 1") []
    (ascii_bytes "DELETE FROM t") [] (ascii_bytes "SELECT 1") [] (ascii_bytes "DELETE 9") []);
    try reflexivity; try by_computation.
Defined.

Lemma pg_error_reported_witness :
  let c := capture_of (pg_error len4 ([(x53, ascii_bytes "ERROR")] ++ (x4d, ascii_bytes "no such table") :: []) ++ []) 5432 42 5 in
  exists e s', inspect c inspector_new = Some (Ok (Some e), s') /\
    q_error_message e = ascii_bytes "no such table" /\ q_row_count e = 0 /\
    q_query e = default [] (pr_query <$> pending inspector_new !! capture_key c) /\
    pending s' = delete (capture_key c) (pending inspector_new).
Proof.
  intros c. apply (pg_error_reported inspector_new c len4 [(x53, ascii_bytes "ERROR")] _ [] []); try reflexivity.
  - repeat constructor; try discriminate; by_computation.
  - by_computation.
Defined.
End witnesses.
