(* ===== verification/EndToEnd.v ===== *)
(** * From the kernel to the observer

    The TCP tracker and its consumer together: probes fire, the observer polls
    one record at a time into its map of connections and drains the map.  The
    kernel side is the program object of [TcpTracker] with any hash map and
    ring buffer that keep their contracts, the userspace side [TcpConsumer]. *)

From S2P Require Import Prelude Bytes CLayout CObject Common Bpf BpfRef LayoutFacts ProbeObject TcpTracker RustStr Consumer TcpConsumer.

#[local] Set Warnings "-clear-no-such-hyp".
#[local] Open Scope string_scope.
#[local] Open Scope list_scope.
#[local] Open Scope Z_scope.

(** ** The system *)

Section system.
Context {HW : Helpers} {HM : BpfHash tcp_event} {HR : Ringbuf} {PL : Plain}.
Context (exclude_ports : list Z).

Inductive sys_label :=
  | Probe (w : world) (c : tcp_call)
  | Poll (now : Z)
  | Drain (now : Z).

Record sys := Sys { sys_kernel : pstate tcp_event; sys_conns : connections }.

Definition sys_step (l : sys_label) (s : sys) : sys :=
  match l with
  | Probe w c => Sys (tcp_step (Invoke w c) (sys_kernel s)) (sys_conns s)
  | Poll now =>
      Sys (tcp_step Read (sys_kernel s))
        (match head (records (sys_kernel s)) with
         | Some bs => (handle_tcp_event exclude_ports now bs (sys_conns s)).2
         | None => sys_conns s
         end)
  | Drain now => Sys (sys_kernel s) (drain_events now (sys_conns s)).2
  end.

Definition sys_run (ls : list sys_label) : sys := foldl (λ s l, sys_step l s) (Sys tcp_init ∅) ls.

(** What the kernel side sees of a trace. *)
Definition kernel_labels (ls : list sys_label) : list tcp_label :=
  concat ((λ l, match l with Probe w c => [Invoke w c] | Poll _ => [Read] | Drain _ => [] end) <$> ls).

Lemma kernel_labels_snoc ls l :
  kernel_labels (ls ++ [l]) = kernel_labels ls ++ kernel_labels [l].
Proof using Type. unfold kernel_labels. by rewrite fmap_app, concat_app. Qed.

Lemma sys_run_snoc ls l : sys_run (ls ++ [l]) = sys_step l (sys_run ls).
Proof using Type. unfold sys_run. by rewrite foldl_app. Qed.

Lemma sys_kernel_run ls : sys_kernel (sys_run ls) = tcp_run (kernel_labels ls) tcp_init.
Proof using Type.
  induction ls as [|l ls IH] using rev_ind; [done|].
  rewrite sys_run_snoc, kernel_labels_snoc. unfold tcp_run, obj_run, trace_run in *.
  rewrite foldl_app, <- IH. by destruct l.
Qed.

(** ** Where events come from *)

(** The event has the addresses of [sk] and the process as [w] shows them. *)
Definition describes (e : tcp_event) (w : world) (sk : Z) : Prop :=
  exists ty state, key_of e = key_of (sock_event w sk ty state) /\
    te_pid e = w_pid_tgid w / 2 ^ 32 /\ te_comm e = w_comm w (Z.to_nat MAX_COMM_LEN).

(** A probe that looks at [sk] fired. *)
Definition looked_at (ls : list tcp_label) (w : world) (sk : Z) : Prop :=
  Invoke w (Connect sk) ∈ ls \/ exists state, Invoke w (SetState sk state) ∈ ls.

Definition seen (ls : list tcp_label) (e : tcp_event) : Prop :=
  exists w sk, looked_at ls w sk /\ describes e w sk.

Lemma seen_snoc ls l e : seen ls e -> seen (ls ++ [l]) e.
Proof using Type.
  intros (w & sk & Hl & Hd). exists w, sk. split; [|done].
  destruct Hl as [?|[state ?]]; [left|right; exists state]; set_solver.
Qed.

Lemma seen_established ls w e : seen ls e -> seen ls (established w e).
Proof using Type. done. Qed.

Lemma sock_event_describes w sk ty state : describes (sock_event w sk ty state) w sk.
Proof using Type. by exists ty, state. Qed.

Definition seen_inv (ls : list tcp_label) (s : tcp_abs) : Prop :=
  (forall t e, ab_map s !! t = Some e -> seen ls e) /\
  (forall e, e ∈ ab_log s -> seen ls e /\ te_tcp_state e ∈ [TCP_ESTABLISHED; TCP_TIME_WAIT; TCP_CLOSE]).

Lemma seen_inv_step ls l s s' :
  seen_inv ls s -> obj_spec_step (PB := tcp_probes) l s s' -> seen_inv (ls ++ [l]) s'.
Proof using Type.
  intros [HP HL] Hstep.
  assert (forall t e, ab_map s !! t = Some e -> seen (ls ++ [l]) e) as HP'
    by (intros; eapply seen_snoc, HP; eauto).
  assert (forall e, e ∈ ab_log s -> seen (ls ++ [l]) e /\
    te_tcp_state e ∈ [TCP_ESTABLISHED; TCP_TIME_WAIT; TCP_CLOSE]) as HL'
    by (intros e [? ?]%HL; split; [by apply seen_snoc|done]).
  clear HP HL. destruct Hstep as [w c s s' Hs|M L].
  2: { split; [exact HP'|]. intros e He. apply HL'. destruct L; [done|]. by right. }
  destruct Hs; split; cbn [ab_map ab_log] in *; try done;
    try (intros t e' [_ Ht]%lookup_delete_Some; by apply (HP' t)).
  - intros t e [[<- <-]|[_ Ht]]%lookup_insert_Some; [|by apply (HP' t)].
    exists w, sk. split; [left; set_solver|apply sock_event_describes].
  - intros e' [He'|He'%list_elem_of_singleton]%elem_of_app; [by apply HL'|]. subst e'.
    split; [by eapply seen_established, (HP' (w_pid_tgid w))|apply list_elem_of_here].
  - intros e' [He'|He'%list_elem_of_singleton]%elem_of_app; [by apply HL'|]. subst e'.
    split; [exists w, sk; split; [right; exists state; set_solver|apply sock_event_describes]|].
    match goal with H : reported _ |- _ => destruct H as [->|[->| ->]] end; cbn; set_solver.
Qed.

Lemma record_seen ls bs :
  bs ∈ records (tcp_run ls tcp_init) ->
  exists e, bs = to_bytes e /\ co_wf e /\ seen ls e /\
    te_tcp_state e ∈ [TCP_ESTABLISHED; TCP_TIME_WAIT; TCP_CLOSE].
Proof using Type.
  intros (s & e & Hrun & He & -> & Hwf)%(obj_record (PB := tcp_probes)).
  exists e. split_and!; try done; eapply (spec_run_invariant _ seen_inv); try exact Hrun; try done;
    try (intros; by eapply seen_inv_step); split; simpl; try done; by intros ? ?%elem_of_nil.
Qed.

(** ** Polling *)

Lemma records_read ls :
  records (tcp_step Read (tcp_run ls tcp_init)) = tail (records (tcp_run ls tcp_init)).
Proof using Type.
  destruct (tcp_reachable ls) as ([P L] & _ & Hrel).
  pose proof (read_rel _ _ _ _ Hrel) as Hrel'.
  change (consume _) with (tcp_step Read (tcp_run ls tcp_init)) in Hrel'.
  rewrite (or_records _ _ _ Hrel), (or_records _ _ _ Hrel'). by destruct L.
Qed.

(** As many polls as there are records handle them all, in order. *)
Lemma polls_handle recs ls now :
  records (sys_kernel (sys_run ls)) = recs ->
  sys_conns (sys_run (ls ++ replicate (length recs) (Poll now))) =
    handle_all exclude_ports ((λ bs, (now, bs)) <$> recs) (sys_conns (sys_run ls)).
Proof using Type.
  revert ls. induction recs as [|bs recs IH]; intros ls Hr; [by rewrite app_nil_r|].
  cbn [length replicate]. rewrite cons_middle, app_assoc, IH.
  - rewrite sys_run_snoc. cbn [sys_step sys_conns]. by rewrite Hr.
  - rewrite sys_run_snoc. cbn [sys_step sys_kernel]. rewrite sys_kernel_run in *.
    by rewrite records_read, Hr.
Qed.

(** What the observer knows of a connection comes from a socket. *)
Definition known_from (ls : list tcp_label) (k : ConnectionKey) (conn : TrackedConnection) : Prop :=
  exists e, seen ls e /\ te_tcp_state e ∈ [TCP_ESTABLISHED; TCP_TIME_WAIT; TCP_CLOSE] /\
    key_of e = k /\ ~ excluded exclude_ports k /\ tc_pid conn = te_pid e /\
    tc_process_name conn = from_utf8_lossy (cstr (te_comm e)) /\
    tc_state conn = tcp_state_name (te_tcp_state e).

Lemma known_snoc ls l k conn :
  known_from (kernel_labels ls) k conn -> known_from (kernel_labels (ls ++ [l])) k conn.
Proof using Type.
  intros (e & Hs & He). exists e. split; [|done]. rewrite kernel_labels_snoc.
  destruct l; [by apply seen_snoc..|]. by rewrite app_nil_r.
Qed.

Lemma conns_known ls : map_Forall (known_from (kernel_labels ls)) (sys_conns (sys_run ls)).
Proof using Type.
  induction ls as [|l ls IH] using rev_ind; [apply map_Forall_empty|].
  apply (map_Forall_impl _ (known_from (kernel_labels (ls ++ [l])))) in IH;
    [|intros; by apply known_snoc].
  rewrite sys_run_snoc. destruct l as [w c|now|now]; cbn [sys_step sys_conns];
    [done| |by apply map_Forall_empty].
  destruct (head _) as [bs|] eqn:Hh; [|done].
  assert (bs ∈ records (tcp_run (kernel_labels ls) tcp_init)) as (e & -> & Hwf & Hseen & Hst)%record_seen.
  { rewrite <- sys_kernel_run. by apply head_Some_elem_of. }
  rewrite handle_event by done. cbn [snd]. case_decide as Hx; [done|].
  apply map_Forall_insert_2; [|done]. exists e. split_and!; try done.
  rewrite kernel_labels_snoc. by apply seen_snoc.
Qed.

(** ** Properties *)

(** The label does not involve thread [t]'s connects. *)
Definition quiet (t : Z) (l : sys_label) : Prop := Forall (not_by t) (kernel_labels [l]).

Lemma quiet_labels t ls : Forall (quiet t) ls -> Forall (not_by t) (kernel_labels ls).
Proof using Type.
  induction 1 as [|l ls Hl _ IH]; [constructor|].
  change (kernel_labels (l :: ls)) with (kernel_labels ([l] ++ ls)).
  unfold kernel_labels in *. rewrite fmap_app, concat_app. by apply Forall_app_2.
Qed.

(** What the 16 bytes at the socket say, as the observer prints it. *)
Definition connection_of (bs : list byte) (state : str) (pid : Z) (comm : list byte) : NetworkEvent :=
  match bs with
  | [d0; d1; d2; d3; s0; s1; s2; s3; _; _; _; _; r0; r1; l0; l1] =>
      TcpConnection (dotted s0 s1 s2 s3) (Z_of_byte l0 + 256 * Z_of_byte l1)
        (dotted d0 d1 d2 d3) (Z_of_byte r0 * 256 + Z_of_byte r1) state pid (from_utf8_lossy (cstr comm))
  | _ => TcpConnection [] 0 [] 0 [] 0 []
  end.

Lemma sock_event_connection w0 w1 sk bs conn :
  read_mem (w_kmem w0) sk 16 = Some bs ->
  tc_pid conn = w_pid_tgid w0 / 2 ^ 32 ->
  tc_process_name conn = from_utf8_lossy (cstr (w_comm w0 (Z.to_nat MAX_COMM_LEN))) ->
  tcp_network_event (key_of (established w1 (sock_event w0 sk 0 0)), conn) =
    connection_of bs (tc_state conn) (w_pid_tgid w0 / 2 ^ 32) (w_comm w0 (Z.to_nat MAX_COMM_LEN)).
Proof using Type.
  intros Hm Hp Hn. pose proof (read_mem_length _ _ _ _ Hm) as Hlen.
  destruct (skc_reads_slices w0 sk bs Hm) as (Hd & Hs & Hl & hi & lo & Hhl & Hr).
  unfold tcp_network_event. cbn -[skc_read bpf_ntohs]. rewrite Hd, Hs, Hl, Hr, Hp, Hn.
  do 17 (destruct bs as [|? bs]; try discriminate Hlen).
  injection Hhl as <- <-. unfold slice. cbn [drop take connection_of].
  rewrite !format_ip_dotted. f_equal. unfold le_val. cbn [foldr]. lia.
Qed.

(** End to end: when a thread starts a connect on a socket whose first 16
    bytes are [bs] and the connect returns 0 - with room in the map and the
    ring, whatever else happens in between, polls and drains included - and the
    observer then polls the backlog, its next drain within five minutes reports
    the connection: addresses and ports as the socket has them, in dotted and
    host order, ESTABLISHED, with the process and its name. *)
Theorem connect_reaches_observer ls w0 sk bs mid w1 now now' :
  let s0 := sys_run ls in
  let before := ls ++ Probe w0 (Connect sk) :: mid in
  let s1 := sys_run before in
  let after := before ++ [Probe w1 (ConnectRet 0)] in
  let backlog := length (records (sys_kernel (sys_run after))) in
  read_mem (w_kmem w0) sk 16 = Some bs ->
  Z.of_nat (size (hm_abs (ps_map (sys_kernel s0)))) < hm_max_entries ->
  w_pid_tgid w1 = w_pid_tgid w0 ->
  Forall (quiet (w_pid_tgid w0)) mid ->
  ~ ring_full (sys_kernel s1) sizeof_tcp_event ->
  ~ excluded exclude_ports (key_of (sock_event w0 sk 0 0)) ->
  now' - now <= 300 * 10 ^ 9 ->
  connection_of bs (ascii_bytes "ESTABLISHED") (w_pid_tgid w0 / 2 ^ 32) (w_comm w0 (Z.to_nat MAX_COMM_LEN)) ∈
    (drain_events now' (sys_conns (sys_run (after ++ replicate backlog (Poll now))))).1.
Proof using Type.
  intros s0 before s1 after backlog Hm Hroom Ht Hmid Hring Hx Hnow.
  set (e := established w1 (sock_event w0 sk 0 0)).
  assert (records (sys_kernel (sys_run after)) = records (sys_kernel s1) ++ [to_bytes e]) as Hr.
  { unfold after, s1, s0 in *. rewrite sys_run_snoc. cbn [sys_step sys_kernel].
    assert (sys_kernel (sys_run before) = tcp_run (kernel_labels mid)
      (tcp_step (Invoke w0 (Connect sk)) (tcp_run (kernel_labels ls) tcp_init))) as Hb.
    { unfold before. rewrite cons_middle, app_assoc, sys_kernel_run.
      unfold kernel_labels. rewrite !fmap_app, !concat_app. unfold tcp_run, obj_run, trace_run.
      by rewrite !foldl_app. }
    rewrite Hb in *. rewrite sys_kernel_run in Hroom.
    by apply (connect_fires (kernel_labels ls) w0 sk (kernel_labels mid) w1 Hroom Ht
      (quiet_labels _ _ Hmid)). }
  unfold backlog. rewrite (polls_handle _ _ _ eq_refl), Hr.
  unfold handle_all. rewrite fmap_app, foldl_app. cbn [foldl fmap list_fmap fst snd].
  assert (co_wf e) as Hwf by (apply established_wf, sock_event_wf; done).
  rewrite handle_event by done. cbn [snd]. rewrite decide_False by exact Hx.
  set (conns := foldl _ _ _). apply list_elem_of_fmap.
  match goal with |- context [<[key_of e := ?c]> conns] =>
    exists (key_of e, c); split; [exact (eq_sym (sock_event_connection w0 w1 sk bs c Hm eq_refl eq_refl))|]
  end.
  apply elem_of_map_to_list, map_lookup_filter_Some. split; [apply lookup_insert_eq|].
  unfold stale, stale_threshold. cbn [snd tc_last_seen]. lia.
Qed.

(** Nothing is made up: every connection a drain reports, after any
    sequence of probe firings, polls and drains, has the addresses and ports
    that a probe saw in a socket, the process that was running then, ports
    that are not excluded, and is ESTABLISHED, TIME_WAIT or CLOSE_WAIT. *)
Theorem reported_connections_are_real ls now ev :
  ev ∈ (drain_events now (sys_conns (sys_run ls))).1 ->
  exists w sk state, looked_at (kernel_labels ls) w sk /\
    (skc_read w sk "skc_num" ∉ exclude_ports) /\ (bpf_ntohs (skc_read w sk "skc_dport") ∉ exclude_ports) /\
    state ∈ (ascii_bytes <$> ["ESTABLISHED"; "TIME_WAIT"; "CLOSE_WAIT"]) /\
    ev = TcpConnection (format_ip (skc_read w sk "skc_rcv_saddr")) (skc_read w sk "skc_num")
      (format_ip (skc_read w sk "skc_daddr")) (bpf_ntohs (skc_read w sk "skc_dport")) state
      (w_pid_tgid w / 2 ^ 32) (from_utf8_lossy (cstr (w_comm w (Z.to_nat MAX_COMM_LEN)))).
Proof using Type.
  intros ([k conn] & -> & [Hk _]%elem_of_map_to_list%map_lookup_filter_Some)%list_elem_of_fmap.
  apply conns_known in Hk as (e & (w & sk & Hl & ty & st & Hkey & Hpid & Hcomm) & Hst & <- & Hx & Hp & Hn & Hs).
  exists w, sk, (tc_state conn). split; [done|].
  unfold tcp_network_event. cbn [fst snd]. rewrite Hkey in *. rewrite Hp, Hn, Hpid, Hcomm, Hs.
  split_and!; [intros ?; apply Hx; by left|intros ?; apply Hx; by right| |done].
  repeat (apply elem_of_cons in Hst as [->|Hst]); [..|by apply elem_of_nil in Hst];
    vm_compute; repeat constructor.
Qed.
End system.

(** ** On the reference runtime *)

Section witnesses.
#[local] Existing Instances ref_helpers ref_tcp_hash ref_ring256 ref_plain.

(** Process 42 connects; process 43 starts to, and the observer polls, in between. *)
Definition busy : list sys_label := [Probe (w_b 1500) (Connect 4096); Poll 5; Drain 6].
Definition sample_trace : list sys_label :=
  [Probe (w_b 900) (SetState 4096 7)] ++ Probe (w_a 1000) (Connect 4096) :: busy.

Lemma connect_reaches_observer_witness :
  connection_of (sock_image [93; 184; 216; 34] [10; 0; 0; 1] 443 54321) (ascii_bytes "ESTABLISHED")
    (w_pid_tgid (w_a 1000) / 2 ^ 32) (w_comm (w_a 1000) (Z.to_nat MAX_COMM_LEN)) ∈
  (drain_events 20 (sys_conns (sys_run [22] ((sample_trace ++ [Probe (w_a 2000) (ConnectRet 0)]) ++
    replicate (length (records (sys_kernel (sys_run [22]
      (sample_trace ++ [Probe (w_a 2000) (ConnectRet 0)]))))) (Poll 10))))).1.
Proof.
  apply (connect_reaches_observer [22] [Probe (w_b 900) (SetState 4096 7)] (w_a 1000) 4096
    (sock_image [93; 184; 216; 34] [10; 0; 0; 1] 443 54321) busy (w_a 2000) 10 20).
  - vm_compute. reflexivity.
  - vm_compute. reflexivity.
  - reflexivity.
  - repeat constructor. vm_compute. discriminate.
  - apply not_ring_full. vm_compute. reflexivity.
  - apply (bool_decide_unpack _). vm_compute. constructor.
  - vm_compute. discriminate.
Defined.

Example sample_drained :
  (drain_events 20 (sys_conns (sys_run [22]
    [Probe (w_a 1000) (Connect 4096); Probe (w_a 2000) (ConnectRet 0); Poll 10]))).1 =
  [TcpConnection (ascii_bytes "10.0.0.1") 54321 (ascii_bytes "93.184.216.34") 443
     (ascii_bytes "ESTABLISHED") 42 (ascii_bytes "curl")].
Proof. vm_compute. reflexivity. Qed.

Lemma reported_connections_are_real_witness :
  exists w sk state,
    looked_at (kernel_labels
      [Probe (w_a 1000) (Connect 4096); Probe (w_a 2000) (ConnectRet 0); Poll 10]) w sk /\
    (skc_read w sk "skc_num" ∉ [22]) /\ (bpf_ntohs (skc_read w sk "skc_dport") ∉ [22]) /\
    state ∈ (ascii_bytes <$> ["ESTABLISHED"; "TIME_WAIT"; "CLOSE_WAIT"]) /\
    TcpConnection (ascii_bytes "10.0.0.1") 54321 (ascii_bytes "93.184.216.34") 443
      (ascii_bytes "ESTABLISHED") 42 (ascii_bytes "curl") =
    TcpConnection (format_ip (skc_read w sk "skc_rcv_saddr")) (skc_read w sk "skc_num")
      (format_ip (skc_read w sk "skc_daddr")) (bpf_ntohs (skc_read w sk "skc_dport")) state
      (w_pid_tgid w / 2 ^ 32) (from_utf8_lossy (cstr (w_comm w (Z.to_nat MAX_COMM_LEN)))).
Proof.
  apply (reported_connections_are_real [22]
    [Probe (w_a 1000) (Connect 4096); Probe (w_a 2000) (ConnectRet 0); Poll 10] 20).
  vm_compute. constructor.
Defined.
End witnesses.
