(* ===== verification/ProcFs.v ===== *)
(** * Files of [/proc] and their text

    What the observer that works without eBPF and the choice of the observer
    share: the file system they read ([procfs]), hexadecimal numbers and the
    splitting of lines into fields, with the printed forms the kernel gives to
    them and the proofs that reading gives back what was printed. *)

From S2P Require Import Prelude Bytes RustSlice RustStr Consumer.

#[local] Open Scope list_scope.
#[local] Open Scope Z_scope.

(** ** The file system *)

(** The contents of files, the names in a directory ([None] for an entry that
    cannot be read), the targets of links; [None] for an error. *)
Record procfs := {
  fs_read : str -> option (list byte);
  fs_read_dir : str -> option (list (option (list byte)));
  fs_read_link : str -> option (list byte);
}.

(** [std::fs::read_to_string], an error when the file is not UTF-8. *)
Definition read_to_string (fs : procfs) (path : str) : option str :=
  bs ← fs_read fs path; if utf8_valid bs then Some bs else None.

Lemma read_to_string_valid fs path bs :
  fs_read fs path = Some bs -> utf8_valid bs = true -> read_to_string fs path = Some bs.
Proof. unfold read_to_string. intros -> Hv. simpl. by rewrite Hv. Qed.

(** ** Numbers *)

Definition hex_digit (z : Z) : option Z :=
  if between 48 57 z then Some (z - 48)
  else if between 65 70 z then Some (z - 55)
  else if between 97 102 z then Some (z - 87)
  else None.

Fixpoint parse_hex_digits (w acc : Z) (s : str) : option Z :=
  match s with
  | [] => Some acc
  | b :: s =>
      d ← hex_digit (Z_of_byte b);
      let v := 16 * acc + d in
      if v <? 2 ^ w then parse_hex_digits w v s else None
  end.

(** [from_str_radix(s, 16)] of the unsigned type of [w] bits. *)
Definition from_str_radix_16 (w : Z) (s : str) : option Z :=
  let digits := match s with b :: s' => if bool_decide (b = x2b) then s' else s | [] => [] end in
  match digits with [] => None | _ => parse_hex_digits w 0 digits end.

(** [s.parse::<u32>()] *)
Definition parse_u32 (s : str) : option Z := n ← parse_u64 s; if n <? 2 ^ 32 then Some n else None.

Lemma parse_u32_dec n : 0 <= n < 2 ^ 32 -> parse_u32 (dec n) = Some n.
Proof. intros Hn. unfold parse_u32. rewrite parse_dec by lia. simpl. by rewrite (proj2 (Z.ltb_lt _ _)) by lia. Qed.

(** The kernel's [%0nX]. *)
Definition hex_char (d : Z) : byte := byte_of_Z (if d <? 10 then 48 + d else 55 + d).

Definition is_hex (z : Z) : bool := between 48 57 z || between 65 70 z.

Fixpoint hex_upper (n : nat) (z : Z) : str :=
  match n with O => [] | S n => hex_upper n (z / 16) ++ [hex_char (z mod 16)] end.

Lemma digit_cases d : 0 <= d < 16 ->
  d ∈ [0; 1; 2; 3; 4; 5; 6; 7; 8; 9; 10; 11; 12; 13; 14; 15].
Proof. intros Hd. rewrite !elem_of_cons. lia. Qed.

(** A property of the sixteen digits is decided on each. *)
Ltac each_digit d H :=
  let Hc := fresh in
  pose proof (digit_cases d H) as Hc; clear H;
  repeat (apply elem_of_cons in Hc as [->|Hc]; [by vm_compute|]); by apply elem_of_nil in Hc.

Lemma hex_digit_char d : 0 <= d < 16 -> hex_digit (Z_of_byte (hex_char d)) = Some d.
Proof. intros H. each_digit d H. Qed.

Lemma hex_char_is_hex d : 0 <= d < 16 ->
  is_hex (Z_of_byte (hex_char d)) = true.
Proof. intros H. each_digit d H. Qed.

Lemma length_hex_upper n z : length (hex_upper n z) = n.
Proof. revert z. induction n as [|n IH]; intros z; [done|]. simpl. rewrite length_app, IH. simpl. lia. Qed.

Lemma hex_upper_is_hex n z : Forall (λ b, is_hex (Z_of_byte b) = true) (hex_upper n z).
Proof.
  revert z. induction n as [|n IH]; intros z; [constructor|]. simpl.
  apply Forall_app_2; [done|]. constructor; [|constructor]. apply hex_char_is_hex, Z.mod_pos_bound. lia.
Qed.

Lemma hex_upper_not_in n z x : is_hex (Z_of_byte x) = false -> x ∉ hex_upper n z.
Proof.
  intros Hx Hin. pose proof (hex_upper_is_hex n z) as H. rewrite Forall_forall in H.
  rewrite (H x Hin) in Hx. done.
Qed.

(** Reading what was printed, before what follows. *)
Lemma parse_hex_upper n w acc z s :
  0 <= w -> 0 <= acc -> 0 <= z < 16 ^ Z.of_nat n -> acc * 16 ^ Z.of_nat n + z < 2 ^ w ->
  parse_hex_digits w acc (hex_upper n z ++ s) = parse_hex_digits w (acc * 16 ^ Z.of_nat n + z) s.
Proof.
  intros Hw. revert acc z s. induction n as [|n IH]; intros acc z s Hacc Hz Hlt.
  { simpl in *. f_equal. lia. }
  rewrite Nat2Z.inj_succ, Z.pow_succ_r in * by lia. simpl. rewrite <- app_assoc.
  pose proof (Z.div_mod z 16 ltac:(lia)) as Hdm. pose proof (Z.mod_pos_bound z 16 ltac:(lia)) as Hm.
  assert (0 <= z / 16 < 16 ^ Z.of_nat n) as Hd.
  { split; [by apply Z.div_pos; lia|]. apply Z.div_lt_upper_bound; lia. }
  rewrite IH by lia. simpl. rewrite hex_digit_char by done. simpl.
  replace (16 * (acc * 16 ^ Z.of_nat n + z / 16) + z mod 16) with (acc * (16 * 16 ^ Z.of_nat n) + z) by lia.
  by rewrite (proj2 (Z.ltb_lt _ _)) by lia.
Qed.

Lemma from_hex_upper n w z :
  (0 < n)%nat -> 4 * Z.of_nat n <= w -> 0 <= z < 2 ^ (4 * Z.of_nat n) ->
  from_str_radix_16 w (hex_upper n z) = Some z.
Proof.
  intros Hn Hw Hz. pose proof (Z.pow_le_mono_r 2 (4 * Z.of_nat n) w ltac:(lia) Hw).
  rewrite Z.pow_mul_r in Hz by lia. change (2 ^ 4) with 16 in Hz.
  pose proof (parse_hex_upper n w 0 z [] ltac:(lia) ltac:(lia) Hz) as Hp.
  rewrite app_nil_r in Hp. rewrite Z.pow_mul_r in H by lia. change (2 ^ 4) with 16 in H.
  unfold from_str_radix_16. pose proof (hex_upper_is_hex n z) as Hb. pose proof (length_hex_upper n z) as Hl.
  destruct (hex_upper n z) as [|b s]; [simpl in Hl; lia|].
  rewrite bool_decide_false by (intros ->; by apply Forall_cons in Hb as [Hb _]).
  rewrite Hp by lia. simpl. f_equal; lia.
Qed.

(** ** Parts of a string *)

(** [s.split_once(c)] *)
Definition split_once (x : byte) (s : str) : option (str * str) :=
  (λ i, (take i s, drop (S i) s)) <$> position x s.

(** [&s[a..b]] of a string: both ends must be where a character starts. *)
Definition is_char_boundary (s : str) (i : Z) : bool :=
  match idx s i with Some z => negb (is_cont z) | None => i =? len s end.

Definition str_range (s : str) (a b : Z) : panics str :=
  if is_char_boundary s a && is_char_boundary s b then range s a b else None.

Lemma split_once_app x s t : x ∉ s -> split_once x (s ++ x :: t) = Some (s, t).
Proof.
  intros Hx. unfold split_once. rewrite position_app by done. simpl. f_equal. f_equal.
  - by rewrite take_app_length.
  - change (S (length s)) with (1 + length s)%nat. rewrite Nat.add_comm, <- drop_drop, drop_app_length. done.
Qed.

Lemma is_char_boundary_ascii s i : is_ascii s -> 0 <= i <= len s -> is_char_boundary s i = true.
Proof.
  intros Ha Hi. unfold is_char_boundary. destruct (decide (i = len s)) as [->|Hne].
  - destruct (idx s (len s)) as [z|] eqn:Hz; [|by apply Z.eqb_refl]. exfalso. unfold idx, len in Hz.
    rewrite Nat2Z.id, (lookup_ge_None_2 s) in Hz by done. by case_match.
  - destruct (idx_in s i ltac:(lia)) as (b & Hb & ->). unfold is_ascii in Ha. rewrite Forall_lookup in Ha.
    specialize (Ha _ _ Hb). unfold is_cont. by rewrite (proj2 (Z.leb_gt _ _)) by lia.
Qed.

Lemma str_range_ascii s a b :
  is_ascii s -> 0 <= a <= b -> b <= len s ->
  str_range s a b = Some (slice (Z.to_nat a) (Z.to_nat (b - a)) s).
Proof.
  intros Hs Ha Hb. unfold str_range. rewrite !is_char_boundary_ascii by (done || lia). by apply range_some.
Qed.

(** ** Lines of fields *)

(** A line that holds the fields [ws], with blanks before, between and after. *)
Inductive spaced : str -> list str -> Prop :=
  | spaced_nil : spaced [] []
  | spaced_blank l ws : spaced l ws -> spaced (x20 :: l) ws
  | spaced_last w : word w -> spaced w [w]
  | spaced_word w l ws : word w -> spaced l ws -> spaced (w ++ x20 :: l) (w :: ws).

Lemma word_ascii w : word w -> is_ascii w.
Proof. by intros (_ & H & _). Qed.

Lemma spaced_ascii l ws : spaced l ws -> is_ascii l.
Proof.
  induction 1 as [|l ws _ IH|w Hw|w l ws Hw _ IH].
  - constructor.
  - by constructor.
  - by apply word_ascii.
  - apply Forall_app_2; [by apply word_ascii|]. by constructor.
Qed.

Lemma split_spaced l ws : spaced l ws -> split_whitespace l = ws.
Proof.
  unfold split_whitespace. intros H. rewrite chars_of_ascii by by eapply spaced_ascii.
  induction H as [|l ws _ IH|w (Hne & _ & Hw)|w l ws (Hne & _ & Hw) _ IH]; [done|done|..].
  - rewrite <- (app_nil_r ((λ b : byte, [b]) <$> w)), ascii_word_split by done. by destruct w.
  - rewrite fmap_app, ascii_word_split by done. rewrite fmap_cons, app_nil_l.
    rewrite ascii_space_split by done. by rewrite IH.
Qed.

(** ASCII text without other white space than blanks is such a line. *)
Lemma split_ws_spaced l w :
  Forall (λ b, b = x20 \/ (Z_of_byte b < 128 /\ is_whitespace [b] = false)) l -> w = [] \/ word w ->
  spaced (w ++ l) (split_ws ((λ b, [b]) <$> l) w).
Proof.
  intros H. revert w. induction H as [|b l Hb _ IH]; intros w Hw.
  - simpl. rewrite app_nil_r. destruct Hw as [->|Hw]; [constructor|]. destruct w; by constructor.
  - rewrite fmap_cons. destruct Hb as [->|[Ha Hb]].
    + destruct Hw as [->|Hw]; [by apply spaced_blank, (IH []); left|].
      rewrite ascii_space_split by apply Hw. apply spaced_word; [done|]. by apply (IH []); left.
    + cbn [split_ws]. rewrite Hb. replace (w ++ b :: l) with ((w ++ [b]) ++ l) by by rewrite <- app_assoc.
      apply IH. right. destruct Hw as [->|Hw]; [by split_and!; [|repeat constructor..]|].
      destruct Hw as (Hne & Ha' & Hw). split_and!; [by destruct w|..]; (apply Forall_app_2; [done|by repeat constructor]).
Qed.

Lemma spaced_split l :
  Forall (λ b, b = x20 \/ (Z_of_byte b < 128 /\ is_whitespace [b] = false)) l -> spaced l (split_whitespace l).
Proof.
  intros H. unfold split_whitespace. rewrite chars_of_ascii.
  - apply (split_ws_spaced l []); [done|by left].
  - eapply Forall_impl; [exact H|]. by intros b [->|[? _]].
Qed.

(** A byte that ends a line is in no line of fields. *)
Lemma spaced_not_in x l ws : is_whitespace [x] = true -> x <> x20 -> spaced l ws -> x ∉ l.
Proof.
  intros Hx Hne.
  assert (forall w, word w -> x ∉ w) as Hw.
  { intros w (_ & _ & Hf) Hin. rewrite Forall_forall in Hf. by rewrite (Hf x Hin) in Hx. }
  induction 1 as [|l ws _ IH|w Hww|w l ws Hww _ IH].
  - apply not_elem_of_nil.
  - by apply not_elem_of_cons.
  - by apply Hw.
  - rewrite elem_of_app. intros [?|[?|?]%elem_of_cons]; [by eapply Hw|done|done].
Qed.

Lemma lines_from_app rline l t :
  x0a ∉ l -> lines_from rline (l ++ x0a :: t) = strip_cr (rev l ++ rline) :: lines t.
Proof.
  revert rline. induction l as [|b l IH]; intros rline Hl; simpl; [done|].
  apply not_elem_of_cons in Hl as [Hb Hl]. rewrite bool_decide_false by done.
  rewrite IH by done. by rewrite <- app_assoc.
Qed.

Lemma lines_lf l t : x0a ∉ l -> exists l', lines (l ++ x0a :: t) = l' :: lines t.
Proof. intros Hl. unfold lines at 1. rewrite lines_from_app by done. by eexists. Qed.

Lemma lines_lf_id l t : x0a ∉ l -> x0d ∉ l -> lines (l ++ x0a :: t) = l :: lines t.
Proof.
  intros Hl Hr. unfold lines at 1. rewrite lines_from_app by done. rewrite app_nil_r. f_equal.
  unfold strip_cr. destruct (rev l) as [|b r] eqn:Hrev.
  - by rewrite <- (rev_involutive l), Hrev.
  - assert (b ∈ l) as Hb. { rewrite <- (rev_involutive l), Hrev. apply list_elem_of_In, in_rev. rewrite rev_involutive. by left. }
    assert (rev (b :: r) = l) as <- by (by rewrite <- Hrev, rev_involutive).
    destruct b; try done.
Qed.

(** The parts of ASCII text are ASCII. *)
Lemma split_ws_ascii us w : Forall is_ascii us -> is_ascii w -> Forall is_ascii (split_ws us w).
Proof.
  intros H. revert w. induction H as [|u us Hu _ IH]; intros w Hw; simpl.
  - destruct w; [constructor|by constructor].
  - assert (forall ws, Forall is_ascii ws -> Forall is_ascii match w with [] => ws | _ => w :: ws end) as Hf
      by (intros; destruct w; by try constructor).
    destruct (is_whitespace u); [apply Hf, IH; constructor|]. apply IH. by apply Forall_app_2.
Qed.

Lemma split_whitespace_ascii s : is_ascii s -> Forall is_ascii (split_whitespace s).
Proof.
  intros Hs. unfold split_whitespace. rewrite chars_of_ascii by done. apply split_ws_ascii; [|constructor].
  apply Forall_fmap. eapply Forall_impl; [exact Hs|]. intros b Hb. by repeat constructor.
Qed.

Lemma strip_cr_ascii r : is_ascii r -> is_ascii (strip_cr r).
Proof.
  intros Hr. assert (is_ascii (rev r)) as H by (by apply Forall_rev).
  unfold strip_cr. destruct r as [|b r]; [done|]. destruct b; try exact H.
  apply Forall_cons in Hr as [_ Hr]. by apply Forall_rev.
Qed.

Lemma lines_ascii s : is_ascii s -> Forall is_ascii (lines s).
Proof.
  unfold lines. enough (forall r, is_ascii r -> is_ascii s -> Forall is_ascii (lines_from r s)) as H
    by (apply H; constructor).
  induction s as [|b s IH]; intros r Hr Hs; simpl.
  - destruct r; [constructor|]. constructor; [|constructor]. by apply Forall_rev.
  - apply Forall_cons in Hs as [Hb Hs]. case_bool_decide.
    + constructor; [by apply strip_cr_ascii|]. apply IH; [constructor|done].
    + apply IH; [by constructor|done].
Qed.

(** Lines of fields, each with its line feed. *)
Definition file_of (ls : list str) : str := concat ((λ l, l ++ [x0a]) <$> ls).

Lemma lines_file_of ls wss : Forall2 spaced ls wss -> lines (file_of ls) = ls.
Proof.
  unfold file_of. induction 1 as [|l ws ls wss Hl _ IH]; [done|]. csimpl.
  rewrite <- app_assoc. cbn [app]. rewrite lines_lf_id by (eapply spaced_not_in; [| |done]; done).
  by rewrite IH.
Qed.

Lemma file_of_ascii ls wss : Forall2 spaced ls wss -> is_ascii (file_of ls).
Proof.
  unfold file_of. induction 1 as [|l ws ls wss Hl _ IH]; [constructor|]. csimpl.
  apply Forall_app_2; [|done]. apply Forall_app_2; [by eapply spaced_ascii|by repeat constructor].
Qed.

(** *** Fields *)

Lemma hex_upper_word n z : (0 < n)%nat -> word (hex_upper n z).
Proof.
  intros Hn. pose proof (hex_upper_is_hex n z) as H. split_and!.
  - pose proof (length_hex_upper n z). by destruct (hex_upper n z); simpl in *; [lia|].
  - eapply Forall_impl; [exact H|]. unfold is_hex, between. intros b Hb. lia.
  - eapply Forall_impl; [exact H|]. unfold is_hex, is_whitespace, between. intros b Hb.
    destruct b; vm_compute in Hb; done || by vm_compute.
Qed.

Lemma dec_word n : 0 <= n -> word (dec n).
Proof.
  intros Hn. pose proof (dec_digits n Hn) as H. split_and!; [apply dec_ne|..].
  - eapply Forall_impl; [exact H|]. unfold is_ascii_digit, between. intros b Hb. lia.
  - eapply Forall_impl; [exact H|]. intros b Hb. destruct b; vm_compute in Hb; done || by vm_compute.
Qed.

Lemma word_app a b : word a -> word b -> word (a ++ b).
Proof. intros (Ha & Ha1 & Ha2) (Hb & Hb1 & Hb2). split_and!; [by destruct a|by apply Forall_app_2..]. Qed.

Lemma word_app_cons a x b : word a -> word b -> Z_of_byte x < 128 -> is_whitespace [x] = false -> word (a ++ x :: b).
Proof.
  intros Ha (Hb & Hb1 & Hb2) Hx Hw. apply word_app; [done|]. by split_and!; [|constructor..].
Qed.
