(* ===== verification/ProcFallback.v ===== *)
(** * proc_fallback.rs

    The observer used where eBPF is not available: it reads the kernel's tables
    of TCP sockets ([/proc/net/tcp] and [tcp6]), finds the process of each
    socket through the links in [/proc/<pid>/fd], and reports what appeared and
    what disappeared since the last poll.

    The host changes while it is observed: [hosts n] is what its files and its
    clock are at the n-th moment the observer looks, and the state counts the
    moments.  A file or a clock is read in one moment, a scan for the owner of a
    socket and the removal of old cache entries take one each. *)

From S2P Require Import Prelude Bytes RustSlice RustStr Consumer ProcFs.

#[local] Set Warnings "-clear-no-such-hyp".
#[local] Open Scope string_scope.
#[local] Open Scope list_scope.
#[local] Open Scope Z_scope.

(** ** Data *)

Record host := { fs : procfs; now : Z }.

Record ConnectionKey := { src_ip : Z; src_port : Z; dst_ip : Z; dst_port : Z }.

#[global] Instance ConnectionKey_eq_dec : EqDecision ConnectionKey.
Proof. solve_decision. Defined.

#[global] Instance ConnectionKey_countable : Countable ConnectionKey.
Proof.
  apply (inj_countable' (λ k, (src_ip k, src_port k, dst_ip k, dst_port k))
    (λ '(a, b, c, d), Build_ConnectionKey a b c d)). by intros [].
Defined.

Record ConnectionState := {
  cs_state : str;
  cs_pid : Z;
  cs_process_name : str;
  cs_first_seen : Z;
}.

Record PidCacheEntry := { pc_pid : Z; pc_inserted_at : Z }.

Abbreviation pid_cache := (gmap Z PidCacheEntry).
Abbreviation table := (gmap ConnectionKey ConnectionState).

Record ProcObserver := { prev_connections : table; observer_cache : pid_cache }.

Definition observer_new : ProcObserver := {| prev_connections := ∅; observer_cache := ∅ |}.

(** What a poll works on: the moments so far, the cache and the new table. *)
Record poll := { moment : nat; cache : pid_cache; out : table }.

Definition PID_CACHE_TTL : Z := 30 * 10 ^ 9.

(** ** Operations *)

Definition tcp_state_from_hex (hex : str) : option str :=
  ascii_bytes <$>
    (if decide (hex = ascii_bytes "01") then Some "ESTABLISHED"
     else if decide (hex = ascii_bytes "02") then Some "SYN_SENT"
     else if decide (hex = ascii_bytes "03") then Some "SYN_RECV"
     else if decide (hex = ascii_bytes "04") then Some "FIN_WAIT1"
     else if decide (hex = ascii_bytes "05") then Some "FIN_WAIT2"
     else if decide (hex = ascii_bytes "06") then Some "TIME_WAIT"
     else if decide (hex = ascii_bytes "07") then Some "CLOSE_WAIT"
     else if decide (hex = ascii_bytes "08") then Some "LAST_ACK"
     else if decide (hex = ascii_bytes "09") then Some "CLOSING"
     else if decide (hex = ascii_bytes "0A") then Some "LISTEN"
     else None).

Definition parse_address (s : str) : panics (result (Z * Z)) :=
  match split_once x3a s with
  | None => Some (Err (ascii_bytes "address missing ':': " ++ s))
  | Some (ip_hex, port_hex) =>
      match from_str_radix_16 16 port_hex with
      | None => Some (Err (ascii_bytes "bad port hex: " ++ port_hex))
      | Some port =>
          if len ip_hex =? 8 then
            match from_str_radix_16 32 ip_hex with
            | Some ip => Some (Ok (ip, port))
            | None => Some (Err (ascii_bytes "bad IPv4 hex: " ++ ip_hex))
            end
          else if len ip_hex =? 32 then
            seg ← str_range ip_hex 24 32;
            match from_str_radix_16 32 seg with
            | Some seg3 => Some (Ok (seg3, port))
            | None => Some (Err (ascii_bytes "bad IPv6 hex segment: " ++ seg))
            end
          else Some (Err (ascii_bytes "unexpected IP hex length " ++ dec (len ip_hex) ++ ascii_bytes ": " ++ s))
      end
  end.

(** [to_ne_bytes] on a little-endian host. *)
Definition format_ip (ip : Z) : str :=
  let b i := dec (default 0 (Z_of_byte <$> le_bytes 4 ip !! i)) in
  b 0%nat ++ dot ++ b 1%nat ++ dot ++ b 2%nat ++ dot ++ b 3%nat.

(** *** Processes *)

Definition fd_dir (pid : Z) : str := ascii_bytes "/proc/" ++ dec pid ++ ascii_bytes "/fd".
Definition comm_path (pid : Z) : str := ascii_bytes "/proc/" ++ dec pid ++ ascii_bytes "/comm".
Definition socket_link (inode : Z) : str := ascii_bytes "socket:[" ++ dec inode ++ ascii_bytes "]".

(** Whether one of the links of the directory is [target]. *)
Definition fd_matches (f : procfs) (dir target : str) (fd : option (list byte)) : bool :=
  match fd with
  | None => false
  | Some name =>
      match fs_read_link f (dir ++ ascii_bytes "/" ++ name) with
      | None => false
      | Some link => bool_decide (from_utf8_lossy link = target)
      end
  end.

Fixpoint scan_entries (f : procfs) (target : str) (entries : list (option (list byte))) : Z :=
  match entries with
  | [] => 0
  | None :: entries => scan_entries f target entries
  | Some name :: entries =>
      match parse_u32 (from_utf8_lossy name) with
      | None => scan_entries f target entries
      | Some pid =>
          match fs_read_dir f (fd_dir pid) with
          | None => scan_entries f target entries
          | Some fds =>
              if existsb (fd_matches f (fd_dir pid) target) fds then pid
              else scan_entries f target entries
          end
      end
  end.

Definition scan_proc_fds_for_inode (f : procfs) (target : str) : Z :=
  match fs_read_dir f (ascii_bytes "/proc") with
  | None => 0
  | Some entries => scan_entries f target entries
  end.

(** [inserted_at.elapsed() < PID_CACHE_TTL] *)
Definition fresh (at_ : Z) (e : PidCacheEntry) : Prop := Z.max 0 (at_ - pc_inserted_at e) < PID_CACHE_TTL.

#[global] Instance fresh_dec at_ e : Decision (fresh at_ e).
Proof. unfold fresh. apply _. Defined.

Definition get_process_name (f : procfs) (pid : Z) : str :=
  match read_to_string f (comm_path pid) with
  | Some s => trim s
  | None => []
  end.

(** *** Snapshots *)

Section observer.
Context (hosts : nat -> host) (exclude_ports : list Z) (exclude_ips : list str).

Abbreviation fs_at n := (fs (hosts n)).
Abbreviation now_at n := (now (hosts n)).

Definition scan_for (inode : Z) (n : nat) (c : pid_cache) : Z * (nat * pid_cache) :=
  let pid := scan_proc_fds_for_inode (fs_at n) (socket_link inode) in
  (pid, (S (S n), <[inode := {| pc_pid := pid; pc_inserted_at := now_at (S n) |}]> c)).

Definition find_pid_for_inode (inode : Z) (n : nat) (c : pid_cache) : Z * (nat * pid_cache) :=
  if inode =? 0 then (0, (n, c))
  else
    match c !! inode with
    | Some entry => if decide (fresh (now_at n) entry) then (pc_pid entry, (S n, c)) else scan_for inode (S n) c
    | None => scan_for inode n c
    end.

(** The end of the loop's body, once a line is known to be wanted. *)
Definition insert_connection (state : str) (key : ConnectionKey) (inode : Z) (p : poll) : poll :=
  let '(pid, (n, c)) := find_pid_for_inode inode (moment p) (cache p) in
  let '(process_name, n) := if 0 <? pid then (get_process_name (fs_at n) pid, S n) else ([], n) in
  {| moment := S n; cache := c;
     out := <[key := {| cs_state := state; cs_pid := pid; cs_process_name := process_name;
                        cs_first_seen := now_at n |}]> (out p) |}.

Definition excluded (key : ConnectionKey) : Prop :=
  (src_port key ∈ exclude_ports \/ dst_port key ∈ exclude_ports) \/
  exists ip, ip ∈ exclude_ips /\ (ip = format_ip (src_ip key) \/ ip = format_ip (dst_ip key)).

#[global] Instance excluded_dec key : Decision (excluded key).
Proof using Type.
  unfold excluded. apply or_dec; [apply _|].
  destruct (decide (Exists (λ ip, ip = format_ip (src_ip key) \/ ip = format_ip (dst_ip key)) exclude_ips)) as [H|H];
    rewrite Exists_exists in H; [by left|by right].
Defined.

(** The body of the loop over the lines after the header. *)
Definition parse_proc_line (line : str) (p : poll) : panics poll :=
  let fields := split_whitespace line in
  if (length fields <? 10)%nat then Some p
  else
    let field i := default [] (fields !! i) in
    match tcp_state_from_hex (field 3%nat) with
    | None => Some p
    | Some state =>
        if decide (state = ascii_bytes "LISTEN") then Some p
        else
          local ← parse_address (field 1%nat);
          match local with
          | Err _ => Some p
          | Ok (src_ip, src_port) =>
              remote ← parse_address (field 2%nat);
              match remote with
              | Err _ => Some p
              | Ok (dst_ip, dst_port) =>
                  let key := {| src_ip := src_ip; src_port := src_port; dst_ip := dst_ip; dst_port := dst_port |} in
                  if decide (excluded key) then Some p
                  else
                    let inode := default 0 (parse_u64 (field 9%nat)) in
                    Some (insert_connection state key inode p)
              end
          end
    end.

Fixpoint parse_proc_lines (ls : list str) (p : poll) : panics poll :=
  match ls with
  | [] => Some p
  | l :: ls => p ← parse_proc_line l p; parse_proc_lines ls p
  end.

(** The poll as it is left, and whether the file could be read. *)
Definition parse_proc_tcp (path : str) (p : poll) : panics (result unit * poll) :=
  let p' := {| moment := S (moment p); cache := cache p; out := out p |} in
  match read_to_string (fs_at (moment p)) path with
  | None => Some (Err (ascii_bytes "failed to read " ++ path), p')
  | Some content => (λ p, (Ok tt, p)) <$> parse_proc_lines (tail (lines content)) p'
  end.

(** A difference between two snapshots, and the event that reports it. *)
Inductive change := Opened (k : ConnectionKey) (s : ConnectionState) | Closed (k : ConnectionKey) (s : ConnectionState).

Definition connection_event (k : ConnectionKey) (state : str) (s : ConnectionState) : NetworkEvent :=
  TcpConnection (format_ip (src_ip k)) (src_port k) (format_ip (dst_ip k)) (dst_port k)
    state (cs_pid s) (cs_process_name s).

Definition change_event (c : change) : NetworkEvent :=
  match c with
  | Opened k s => connection_event k (cs_state s) s
  | Closed k s => connection_event k (ascii_bytes "CLOSED") s
  end.

(** The entries of [t] that [other] lacks, less the listening ones: the two
    loops over the hash maps. *)
Definition missing (t other : table) : list (ConnectionKey * ConnectionState) :=
  map_to_list (filter (λ ks, other !! ks.1 = None /\ cs_state ks.2 <> ascii_bytes "LISTEN") t).

Definition changes (prev current : table) : list change :=
  ((λ ks, Opened ks.1 ks.2) <$> missing current prev) ++ ((λ ks, Closed ks.1 ks.2) <$> missing prev current).

Definition retain_fresh (at_ : Z) (c : pid_cache) : pid_cache := filter (λ e, fresh at_ e.2) c.

Definition collect (n : nat) (o : ProcObserver) : panics (result (list NetworkEvent) * (nat * ProcObserver)) :=
  '(r4, p) ← parse_proc_tcp (ascii_bytes "/proc/net/tcp") {| moment := n; cache := observer_cache o; out := ∅ |};
  let failed p := (moment p, {| prev_connections := prev_connections o; observer_cache := cache p |}) in
  match r4 with
  | Err _ => Some (Err (ascii_bytes "failed to parse /proc/net/tcp"), failed p)
  | Ok _ =>
      '(r6, p) ← parse_proc_tcp (ascii_bytes "/proc/net/tcp6") p;
      match r6 with
      | Err _ => Some (Err (ascii_bytes "failed to parse /proc/net/tcp6"), failed p)
      | Ok _ =>
          let events := change_event <$> changes (prev_connections o) (out p) in
          Some (Ok events,
            (S (moment p), {| prev_connections := out p; observer_cache := retain_fresh (now_at (moment p)) (cache p) |}))
      end
  end.

(** The loop of [run], for a number of polls: what each [collect] returned. *)
Fixpoint polls (k : nat) (n : nat) (o : ProcObserver) :
    panics (list (result (list NetworkEvent)) * (nat * ProcObserver)) :=
  match k with
  | O => Some ([], (n, o))
  | S k =>
      '(r, (n, o)) ← collect n o;
      '(rs, s) ← polls k n o;
      Some (r :: rs, s)
  end.
End observer.

(** ** The kernel's tables

    A socket as a line of [/proc/net/tcp] or [tcp6] shows it: the kernel prints
    the 32-bit words of an address with [%08X], in the order of memory, the port
    with [%04X] and the state with [%02X]. *)

Inductive address :=
  | V4 (a b c d : byte)
  | V6 (first12 : list byte) (a b c d : byte).

Definition address_wf (x : address) : Prop := match x with V4 _ _ _ _ => True | V6 g _ _ _ _ => length g = 12%nat end.

Definition hex_ip (x : address) : str :=
  match x with
  | V4 a b c d => hex_upper 8 (le_val [a; b; c; d])
  | V6 g a b c d =>
      (hex_upper 8 (le_val (slice 0 4 g)) ++ hex_upper 8 (le_val (slice 4 4 g)) ++ hex_upper 8 (le_val (slice 8 4 g))) ++
      hex_upper 8 (le_val [a; b; c; d])
  end.

Definition hex_address (x : address) (port : Z) : str := hex_ip x ++ x3a :: hex_upper 4 port.

(** What is left of an address: its last four bytes. *)
Definition last4 (x : address) : Z := match x with V4 a b c d | V6 _ a b c d => le_val [a; b; c; d] end.

Record socket := {
  so_sl : str;
  so_local : address; so_lport : Z;
  so_remote : address; so_rport : Z;
  so_state : Z;
  so_middle : list str;
  so_inode : Z;
  so_rest : list str;
}.

Definition socket_fields (s : socket) : list str :=
  [so_sl s; hex_address (so_local s) (so_lport s); hex_address (so_remote s) (so_rport s); hex_upper 2 (so_state s)] ++
  so_middle s ++ [dec (so_inode s)] ++ so_rest s.

Record socket_wf (s : socket) : Prop := {
  wf_local : address_wf (so_local s);
  wf_remote : address_wf (so_remote s);
  wf_lport : 0 <= so_lport s < 2 ^ 16;
  wf_rport : 0 <= so_rport s < 2 ^ 16;
  wf_middle : length (so_middle s) = 5%nat;
  wf_inode : 0 <= so_inode s < 2 ^ 64;
}.

(** A file that shows the sockets: a header, then a line each. *)
Definition proc_file (content : str) (socks : list socket) : Prop :=
  exists header ls, content = header ++ (x0a :: file_of ls) /\ is_ascii header /\ (x0a ∉ header) /\
    Forall2 (λ l s, spaced l (socket_fields s)) ls socks.

Definition key_of (s : socket) : ConnectionKey :=
  {| src_ip := last4 (so_local s); src_port := so_lport s; dst_ip := last4 (so_remote s); dst_port := so_rport s |}.

Lemma le_val_4 a b c d : 0 <= le_val [a; b; c; d] < 2 ^ 32.
Proof. apply (le_val_in_range [a; b; c; d]). Qed.

Lemma hex_ip_no_colon x : x3a ∉ hex_ip x.
Proof.
  assert (forall n z, x3a ∉ hex_upper n z) as H by (intros; by apply hex_upper_not_in).
  destruct x; cbn [hex_ip]; rewrite ?not_elem_of_app; by split_and?.
Qed.

Lemma hex_ip_ascii x : is_ascii (hex_ip x).
Proof.
  assert (forall z, is_ascii (hex_upper 8 z)) as H by (intros; apply word_ascii, hex_upper_word; lia).
  destruct x; cbn [hex_ip]; [apply H|]. unfold is_ascii in *. by rewrite !Forall_app.
Qed.

(** An address and a port are read back, up to the first twelve bytes of an
    IPv6 address. *)
Lemma parse_hex_address x port :
  0 <= port < 2 ^ 16 -> parse_address (hex_address x port) = Some (Ok (last4 x, port)).
Proof.
  intros Hp. unfold parse_address, hex_address. rewrite split_once_app by apply hex_ip_no_colon.
  rewrite from_hex_upper by lia. destruct x as [a b c d|g a b c d]; cbn [hex_ip last4].
  - unfold len at 1. rewrite length_hex_upper. cbn [Z.of_nat Z.eqb Pos.eqb Pos.of_succ_nat Pos.succ].
    rewrite from_hex_upper; [done|lia|lia|apply le_val_4].
  - pose proof (hex_ip_ascii (V6 g a b c d)) as Ha. cbn [hex_ip] in Ha.
    set (pre := hex_upper 8 (le_val (slice 0 4 g)) ++ _) in *.
    assert (length pre = 24%nat) as Hpre by (unfold pre; by rewrite !length_app, !length_hex_upper).
    assert (len (pre ++ hex_upper 8 (le_val [a; b; c; d])) = 32) as Hlen
      by (unfold len; by rewrite length_app, Hpre, length_hex_upper).
    rewrite Hlen. cbn [Z.eqb Pos.eqb]. rewrite str_range_ascii by (done || lia). cbn [mbind option_bind].
    unfold slice. rewrite drop_app_exact by done. rewrite firstn_all2 by by rewrite length_hex_upper.
    rewrite from_hex_upper; [done|lia|lia|apply le_val_4].
Qed.

(** ... and printed as the dotted quad of its last four bytes. *)
Lemma format_ip_last4 x :
  format_ip (last4 x) = match x with V4 a b c d | V6 _ a b c d => dotted a b c d end.
Proof.
  assert (forall a b c d, le_bytes 4 (le_val [a; b; c; d]) = [a; b; c; d]) as H
    by (intros; by apply le_bytes_le_val_id).
  unfold format_ip, dotted. by destruct x; cbn [last4]; rewrite H.
Qed.

Section observer_facts.
Context (hosts : nat -> host) (exclude_ports : list Z) (exclude_ips : list str).

Abbreviation fs_at n := (fs (hosts n)).
Abbreviation now_at n := (now (hosts n)).
Abbreviation line_step := (parse_proc_line hosts exclude_ports exclude_ips).
Abbreviation line_steps := (parse_proc_lines hosts exclude_ports exclude_ips).
Abbreviation read_table := (parse_proc_tcp hosts exclude_ports exclude_ips).
Abbreviation collect_at := (collect hosts exclude_ports exclude_ips).
Abbreviation excl := (excluded exclude_ports exclude_ips).

(** The state under which a socket is noted, if it is. *)
Definition noted (s : socket) : option str :=
  state ← tcp_state_from_hex (hex_upper 2 (so_state s));
  if decide (state = ascii_bytes "LISTEN" \/ excl (key_of s)) then None else Some state.

Definition note (p : poll) (s : socket) : poll :=
  match noted s with Some state => insert_connection hosts state (key_of s) (so_inode s) p | None => p end.

(** The state of the last noted socket of a key. *)
Definition last_state (key : ConnectionKey) : list socket -> option str :=
  foldl (λ r s, match noted s with Some st => if decide (key_of s = key) then Some st else r | None => r end) None.

Lemma parse_socket_line l s p :
  socket_wf s -> spaced l (socket_fields s) -> line_step l p = Some (note p s).
Proof.
  intros Hwf Hl. unfold parse_proc_line. rewrite (split_spaced _ _ Hl).
  pose proof (wf_middle _ Hwf) as Hmid. unfold socket_fields.
  destruct (so_middle s) as [|f4 [|f5 [|f6 [|f7 [|f8 []]]]]]; try discriminate Hmid.
  cbn [app length Nat.ltb Nat.leb lookup list_lookup default option_map from_option].
  unfold note, noted. destruct (tcp_state_from_hex _) as [state|]; [|done]. simpl.
  destruct (decide (state = ascii_bytes "LISTEN")) as [Hls|Hls].
  { by rewrite decide_True by by left. }
  rewrite !parse_hex_address by apply Hwf. simpl. fold (key_of s).
  destruct (decide (excl (key_of s))).
  - by rewrite decide_True by by right.
  - rewrite decide_False by tauto. rewrite parse_dec by apply Hwf. done.
Qed.

Lemma parse_socket_lines ls socks p :
  Forall socket_wf socks -> Forall2 (λ l s, spaced l (socket_fields s)) ls socks ->
  line_steps ls p = Some (foldl note p socks).
Proof.
  intros Hwf H. revert p Hwf. induction H as [|l s ls socks Hl _ IH]; intros p Hwf; [done|].
  apply Forall_cons in Hwf as [Hs Hwf]. simpl. rewrite (parse_socket_line _ _ _ Hs Hl). simpl. by apply IH.
Qed.

Lemma proc_file_lines content socks :
  proc_file content socks -> is_ascii content /\ exists ls, tail (lines content) = ls /\ Forall2 (λ l s, spaced l (socket_fields s)) ls socks.
Proof.
  intros (header & ls & -> & Ha & Hn & Hls).
  assert (exists wss, Forall2 spaced ls wss) as [wss Hw].
  { exists (socket_fields <$> socks). clear -Hls. induction Hls; simpl; by constructor. }
  split.
  - apply Forall_app_2; [done|]. constructor; [done|]. by eapply file_of_ascii.
  - exists ls. split; [|done]. destruct (lines_lf header (file_of ls) Hn) as [l' ->]. simpl. by eapply lines_file_of.
Qed.

Definition next_moment (p : poll) : poll := {| moment := S (moment p); cache := cache p; out := out p |}.

Lemma read_table_file path content socks p :
  fs_read (fs_at (moment p)) path = Some content -> proc_file content socks -> Forall socket_wf socks ->
  read_table path p = Some (Ok tt, foldl note (next_moment p) socks).
Proof.
  intros Hr Hf Hwf. destruct (proc_file_lines _ _ Hf) as (Ha & ls & Hls & H). unfold parse_proc_tcp.
  rewrite (read_to_string_valid _ _ _ Hr) by by apply utf8_valid_ascii. rewrite Hls.
  by rewrite (parse_socket_lines _ _ _ Hwf H).
Qed.

(** What a noted socket leaves in the table. *)
Lemma insert_connection_out state key inode p :
  exists s, cs_state s = state /\ out (insert_connection hosts state key inode p) = <[key := s]> (out p).
Proof.
  unfold insert_connection. destruct (find_pid_for_inode _ _ _ _) as [pid [n c]].
  by destruct (0 <? pid); eexists; (split; [|reflexivity]).
Qed.

Lemma noted_states key socks p :
  cs_state <$> out (foldl note p socks) !! key =
  foldl (λ r s, match noted s with Some st => if decide (key_of s = key) then Some st else r | None => r end)
    (cs_state <$> out p !! key) socks.
Proof.
  revert p. induction socks as [|s socks IH]; intros p; [done|]. simpl. rewrite IH. f_equal.
  unfold note. destruct (noted s) as [st|]; [|done].
  destruct (insert_connection_out st (key_of s) (so_inode s) p) as (cs & <- & ->). case_decide as Hk.
  - subst key. by rewrite lookup_insert_eq.
  - by rewrite lookup_insert_ne.
Qed.
(** *** What a poll is made of *)

(** The steps that the lines of the tables can take a poll through. *)
Inductive reaches : poll -> poll -> Prop :=
  | reaches_refl p : reaches p p
  | reaches_look p p' : reaches (next_moment p) p' -> reaches p p'
  | reaches_insert state key inode p p' :
      state <> ascii_bytes "LISTEN" -> ~ excl key ->
      reaches (insert_connection hosts state key inode p) p' -> reaches p p'.

#[local] Hint Constructors reaches : core.

#[local] Instance reaches_trans : Transitive reaches.
Proof. intros p q r. induction 1; eauto. Qed.

Lemma reaches_inv (P : poll -> Prop) p p' :
  (forall p, P p -> P (next_moment p)) ->
  (forall state key inode p, state <> ascii_bytes "LISTEN" -> ~ excl key -> P p -> P (insert_connection hosts state key inode p)) ->
  reaches p p' -> P p -> P p'.
Proof. intros Hn Hi. induction 1; auto. Qed.

Lemma line_reaches l p p' : line_step l p = Some p' -> reaches p p'.
Proof.
  unfold parse_proc_line. intros H. repeat case_match; try by simplify_eq.
  all: destruct (parse_address _) as [[[sip sport]|]|]; simplify_eq/=; try done.
  all: destruct (parse_address _) as [[[dip dport]|]|]; simplify_eq/=; try done.
  all: case_match; simplify_eq; eauto.
Qed.

Lemma lines_reach ls p p' : line_steps ls p = Some p' -> reaches p p'.
Proof.
  revert p. induction ls as [|l ls IH]; intros p; simpl; [by intros [= <-]|].
  destruct (line_step l p) as [q|] eqn:Hq; [|done]. simpl. intros H. transitivity q; [by eapply line_reaches|by apply IH].
Qed.

Lemma table_reaches path p r p' : read_table path p = Some (r, p') -> reaches p p'.
Proof.
  unfold parse_proc_tcp. fold (next_moment p). destruct (read_to_string _ _) as [content|].
  - destruct (line_steps _ _) as [q|] eqn:Hq; [|done]. intros [= _ <-]. apply reaches_look. by eapply lines_reach.
  - intros [= _ <-]. eauto.
Qed.

(** A poll fails and keeps the last snapshot, or replaces it and reports the
    differences. *)
Lemma collect_cases n o r n' o' :
  collect_at n o = Some (r, (n', o')) ->
  exists p, reaches {| moment := n; cache := observer_cache o; out := ∅ |} p /\
    ((exists e, r = Err e /\ n' = moment p /\ prev_connections o' = prev_connections o /\ observer_cache o' = cache p) \/
     (r = Ok (change_event <$> changes (prev_connections o) (out p)) /\ n' = S (moment p) /\
      prev_connections o' = out p /\ observer_cache o' = retain_fresh (now_at (moment p)) (cache p))).
Proof.
  unfold collect. destruct (read_table _ _) as [[r4 p]|] eqn:H4; [|done].
  apply table_reaches in H4. simpl. destruct r4 as [[]|e].
  - destruct (read_table (ascii_bytes "/proc/net/tcp6") p) as [[r6 q]|] eqn:H6; [|done]. apply table_reaches in H6.
    simpl. destruct r6 as [[]|e]; intros [= <- <- <-]; exists q;
      (split; [by transitivity p|]); [right|left]; eauto 10.
  - intros [= <- <- <-]. exists p. split; [done|]. left. eauto 10.
Qed.

(** *** Polls return *)

(** The tables are ASCII text whenever they can be read. *)
Definition ascii_tables : Prop :=
  forall m path bs, path = ascii_bytes "/proc/net/tcp" \/ path = ascii_bytes "/proc/net/tcp6" ->
    fs_read (fs_at m) path = Some bs -> is_ascii bs.

Lemma parse_address_ascii s : is_ascii s -> exists r, parse_address s = Some r.
Proof.
  intros Hs. unfold parse_address, split_once. destruct (position x3a s) as [i|] eqn:Hi; [|by eexists]. simpl.
  case_match; [|by eexists]. case_match; [case_match; by eexists|].
  case_match; [|by eexists]. rewrite str_range_ascii.
  - simpl. case_match; by eexists.
  - by apply Forall_take.
  - lia.
  - lia.
Qed.

Lemma line_returns l p : is_ascii l -> exists p', line_step l p = Some p'.
Proof.
  intros Hl. assert (forall i, is_ascii (default [] (split_whitespace l !! i))) as Hf.
  { intros i. pose proof (split_whitespace_ascii l Hl) as H. rewrite Forall_lookup in H.
    destruct (split_whitespace l !! i) eqn:Hi; [by eapply H|constructor]. }
  unfold parse_proc_line. case_match; [by eexists|]. case_match; [|by eexists]. case_decide; [by eexists|].
  destruct (parse_address_ascii _ (Hf 1%nat)) as [r ->]. simpl. destruct r as [[sip sport]|]; [|by eexists].
  destruct (parse_address_ascii _ (Hf 2%nat)) as [r ->]. simpl. destruct r as [[dip dport]|]; [|by eexists].
  case_decide; by eexists.
Qed.

Lemma lines_return ls p : Forall is_ascii ls -> exists p', line_steps ls p = Some p'.
Proof.
  intros H. revert p. induction H as [|l ls Hl _ IH]; intros p; [by eexists|]. simpl.
  destruct (line_returns l p Hl) as [q ->]. simpl. apply IH.
Qed.

Lemma table_returns path p :
  (forall bs, fs_read (fs_at (moment p)) path = Some bs -> is_ascii bs) ->
  exists r p', read_table path p = Some (r, p') /\
    (r = Ok tt <-> exists bs, fs_read (fs_at (moment p)) path = Some bs).
Proof.
  intros Ha. unfold parse_proc_tcp, read_to_string. destruct (fs_read _ path) as [bs|] eqn:Hr; simpl.
  - rewrite utf8_valid_ascii by by apply Ha.
    destruct (lines_return (tail (lines bs)) (next_moment p)) as [q Hq].
    { apply Forall_tail, lines_ascii. by apply Ha. }
    fold (next_moment p). rewrite Hq. simpl. eexists _, _. split; [done|]. split; [by eexists|done].
  - eexists _, _. split; [done|]. split; [done|]. by intros [bs ?].
Qed.

Lemma collect_returns n o : ascii_tables -> exists r n' o', collect_at n o = Some (r, (n', o')).
Proof.
  intros Ha. unfold collect.
  destruct (table_returns (ascii_bytes "/proc/net/tcp") {| moment := n; cache := observer_cache o; out := ∅ |})
    as (r4 & p & -> & _); [intros bs; apply Ha; by left|]. simpl. destruct r4 as [|e]; [|by eexists _, _, _].
  destruct (table_returns (ascii_bytes "/proc/net/tcp6") p) as (r6 & q & -> & _); [intros bs; apply Ha; by right|].
  simpl. destruct r6; by eexists _, _, _.
Qed.

Lemma polls_return k n o :
  ascii_tables -> exists rs n' o', polls hosts exclude_ports exclude_ips k n o = Some (rs, (n', o')).
Proof.
  intros Ha. revert n o. induction k as [|k IH]; intros n o; [by eexists _, _, _|]. simpl.
  destruct (collect_returns n o Ha) as (r & n1 & o1 & ->). simpl.
  destruct (IH n1 o1) as (rs & n2 & o2 & ->). simpl. by eexists _, _, _.
Qed.
End observer_facts.

(** ** Differences of snapshots *)

Lemma elem_of_missing t other k s :
  (k, s) ∈ missing t other <-> t !! k = Some s /\ other !! k = None /\ cs_state s <> ascii_bytes "LISTEN".
Proof. unfold missing. by rewrite elem_of_map_to_list, map_lookup_filter_Some. Qed.

Lemma missing_keys t other : NoDup (missing t other).*1.
Proof. apply NoDup_fst_map_to_list. Qed.

Lemma missing_key t other k :
  k ∈ (missing t other).*1 -> is_Some (t !! k) /\ other !! k = None.
Proof. intros ([k' s] & -> & (H & Ho & _)%elem_of_missing)%list_elem_of_fmap. by split. Qed.

(** No snapshot has a listening socket. *)
Definition no_listen (t : table) : Prop := forall k s, t !! k = Some s -> cs_state s <> ascii_bytes "LISTEN".

Lemma no_listen_missing t other k :
  no_listen t -> k ∈ (missing t other).*1 <-> is_Some (t !! k) /\ other !! k = None.
Proof.
  intros Ht. split; [apply missing_key|]. intros [[s Hs] Ho]. apply list_elem_of_fmap. exists (k, s).
  split; [done|]. apply elem_of_missing. eauto.
Qed.

Lemma elem_of_changes prev cur e :
  e ∈ change_event <$> changes prev cur <->
  (exists k s, cur !! k = Some s /\ prev !! k = None /\ cs_state s <> ascii_bytes "LISTEN" /\
    e = connection_event k (cs_state s) s) \/
  (exists k s, prev !! k = Some s /\ cur !! k = None /\ cs_state s <> ascii_bytes "LISTEN" /\
    e = connection_event k (ascii_bytes "CLOSED") s).
Proof.
  unfold changes. rewrite fmap_app, elem_of_app, <- !list_fmap_compose, !list_elem_of_fmap. split.
  - intros [([k s] & -> & H%elem_of_missing)|([k s] & -> & H%elem_of_missing)]; simpl in *;
      destruct H as (H1 & H2 & H3); [left|right]; eauto 10.
  - intros [(k & s & H1 & H2 & H3 & ->)|(k & s & H1 & H2 & H3 & ->)]; [left|right]; exists (k, s);
      (split; [done|]); by apply elem_of_missing.
Qed.

(** Follows one key through a list of changes: whether it is open at the end,
    [None] when it is opened twice or closed while it is not open. *)
Fixpoint follow (key : ConnectionKey) (is_open : bool) (cs : list change) : option bool :=
  match cs with
  | [] => Some is_open
  | Opened k _ :: cs =>
      if decide (k = key) then if is_open then None else follow key true cs else follow key is_open cs
  | Closed k _ :: cs =>
      if decide (k = key) then if is_open then follow key false cs else None else follow key is_open cs
  end.

Lemma follow_app key b cs cs' : follow key b (cs ++ cs') = b ← follow key b cs; follow key b cs'.
Proof. revert b. induction cs as [|[k s|k s] cs IH]; intros b; simpl; repeat case_match; done. Qed.

Lemma follow_opened key b l :
  NoDup l.*1 ->
  follow key b ((λ ks : ConnectionKey * ConnectionState, Opened ks.1 ks.2) <$> l) =
  if decide (key ∈ l.*1) then if b then None else Some true else Some b.
Proof.
  revert b. induction l as [|[k s] l IH]; intros b Hd; simpl; [done|].
  rewrite fmap_cons in Hd. apply NoDup_cons in Hd as [Hk Hd]. simpl in *. destruct (decide (k = key)) as [->|Hne].
  - rewrite decide_True by by left. destruct b; [done|]. rewrite IH by done. by rewrite decide_False.
  - rewrite IH by done. apply decide_ext. rewrite elem_of_cons. intuition congruence.
Qed.

Lemma follow_closed key b l :
  NoDup l.*1 ->
  follow key b ((λ ks : ConnectionKey * ConnectionState, Closed ks.1 ks.2) <$> l) =
  if decide (key ∈ l.*1) then if b then Some false else None else Some b.
Proof.
  revert b. induction l as [|[k s] l IH]; intros b Hd; simpl; [done|].
  rewrite fmap_cons in Hd. apply NoDup_cons in Hd as [Hk Hd]. simpl in *. destruct (decide (k = key)) as [->|Hne].
  - rewrite decide_True by by left. destruct b; [|done]. rewrite IH by done. by rewrite decide_False.
  - rewrite IH by done. apply decide_ext. rewrite elem_of_cons. intuition congruence.
Qed.

Definition known (t : table) (key : ConnectionKey) : bool := bool_decide (is_Some (t !! key)).

(** The differences take a key from one snapshot to the next. *)
Lemma follow_changes prev cur key :
  no_listen prev -> no_listen cur -> follow key (known prev key) (changes prev cur) = Some (known cur key).
Proof.
  intros Hp Hc. unfold changes, known. rewrite follow_app, follow_opened by apply missing_keys.
  destruct (prev !! key) as [s|] eqn:Hkp, (cur !! key) as [s'|] eqn:Hkc.
  all: repeat match goal with |- context [bool_decide (is_Some (@None ?A))] => rewrite (bool_decide_false (is_Some (@None A))) by (by intros []) end.
  all: rewrite ?bool_decide_true by by eexists.
  - rewrite decide_False by (intros [_ ?]%missing_key; congruence). simpl. rewrite follow_closed by apply missing_keys.
    by rewrite decide_False by (intros [_ ?]%missing_key; congruence).
  - rewrite decide_False by (intros [[] _]%missing_key; congruence). simpl. rewrite follow_closed by apply missing_keys.
    by rewrite decide_True by (apply no_listen_missing; [done|split; [by eexists|done]]).
  - rewrite decide_True by (apply no_listen_missing; [done|split; [by eexists|done]]). simpl.
    rewrite follow_closed by apply missing_keys.
    by rewrite decide_False by (intros [[] _]%missing_key; congruence).
  - rewrite decide_False by (intros [[] _]%missing_key; congruence). simpl. rewrite follow_closed by apply missing_keys.
    by rewrite decide_False by (intros [[] _]%missing_key; congruence).
Qed.

(** ** Processes *)

(** Process [pid] has a descriptor that is the socket of the inode. *)
Definition holds_socket (f : procfs) (pid inode : Z) : Prop :=
  exists fds name link, fs_read_dir f (fd_dir pid) = Some fds /\ Some name ∈ fds /\
    fs_read_link f (fd_dir pid ++ ascii_bytes "/" ++ name) = Some link /\
    from_utf8_lossy link = socket_link inode.

Lemma scan_finds_holder f inode pid :
  scan_proc_fds_for_inode f (socket_link inode) = pid -> pid <> 0 -> holds_socket f pid inode.
Proof.
  unfold scan_proc_fds_for_inode. destruct (fs_read_dir f _) as [entries|]; [|by intros <-]. clear -entries.
  induction entries as [|[name|] entries IH]; simpl; [by intros <-| |done].
  destruct (parse_u32 _) as [q|]; [|done]. destruct (fs_read_dir f (fd_dir q)) as [fds|] eqn:Hd; [|done].
  destruct (existsb _ fds) eqn:He; [|done]. intros <- _.
  apply existsb_exists in He as ([fd|] & Hin & Hm); [|done]. simpl in Hm.
  destruct (fs_read_link f _) as [link|] eqn:Hl; [|done]. apply bool_decide_eq_true in Hm.
  exists fds, fd, link. split_and!; try done. by apply list_elem_of_In.
Qed.


Section processes.
Context (hosts : nat -> host) (exclude_ports : list Z) (exclude_ips : list str).

Abbreviation fs_at n := (fs (hosts n)).
Abbreviation now_at n := (now (hosts n)).

(** Every entry of the cache is what a scan found between moments [n0] and [n]. *)
Definition cache_scanned (n0 n : nat) (c : pid_cache) : Prop :=
  forall inode e, c !! inode = Some e -> exists m, (n0 <= m)%nat /\ (S m < n)%nat /\
    pc_pid e = scan_proc_fds_for_inode (fs_at m) (socket_link inode) /\ pc_inserted_at e = now_at (S m).

Lemma cache_scanned_later n0 n n' c : (n <= n')%nat -> cache_scanned n0 n c -> cache_scanned n0 n' c.
Proof. intros Hn H inode e (m & ? & ? & ?)%H. exists m. split_and!; by (lia || intuition). Qed.

Lemma cache_scanned_insert n0 n m c inode :
  (n0 <= m)%nat -> (S m < n)%nat -> cache_scanned n0 n c ->
  cache_scanned n0 n (<[inode := {| pc_pid := scan_proc_fds_for_inode (fs_at m) (socket_link inode);
    pc_inserted_at := now_at (S m) |}]> c).
Proof.
  intros Hm Hn H i e [[<- <-]|[_ He]]%lookup_insert_Some; [by exists m|by apply H].
Qed.

Lemma find_pid_cases n0 inode n c pid n' c' :
  inode <> 0 -> (n0 <= n)%nat -> cache_scanned n0 n c -> find_pid_for_inode hosts inode n c = (pid, (n', c')) ->
  (n <= n')%nat /\ cache_scanned n0 n' c' /\
  exists m, pid = scan_proc_fds_for_inode (fs_at m) (socket_link inode) /\
    ((n <= m)%nat \/ ((n0 <= m)%nat /\ (S m < n)%nat /\ now_at n - now_at (S m) < PID_CACHE_TTL)).
Proof.
  intros Hi Hn Hc. unfold find_pid_for_inode. rewrite (proj2 (Z.eqb_neq _ _) Hi).
  assert (forall k, (n <= k)%nat -> scan_for hosts inode k c = (pid, (n', c')) ->
    (n <= n')%nat /\ cache_scanned n0 n' c' /\
    exists m, pid = scan_proc_fds_for_inode (fs_at m) (socket_link inode) /\
      ((n <= m)%nat \/ ((n0 <= m)%nat /\ (S m < n)%nat /\ now_at n - now_at (S m) < PID_CACHE_TTL))) as Hscan.
  { unfold scan_for. intros k Hk [= <- <- <-]. split_and!; [lia| |exists k; auto].
    apply cache_scanned_insert; [lia..|]. by eapply cache_scanned_later; [|done]; lia. }
  destruct (c !! inode) as [e|] eqn:He; [|by apply Hscan]. case_decide as Hf; [|apply Hscan; lia].
  intros [= <- <- <-]. destruct (Hc _ _ He) as (m & Hm & Hlt & Hp & Ht). split_and!; [lia| |].
  - by eapply cache_scanned_later; [|done]; lia.
  - exists m. split; [done|]. right. unfold fresh in Hf. rewrite Ht in Hf. split_and!; lia.
Qed.

Lemma insert_scanned n0 state key inode p :
  (n0 <= moment p)%nat /\ cache_scanned n0 (moment p) (cache p) ->
  let p' := insert_connection hosts state key inode p in
  (n0 <= moment p')%nat /\ cache_scanned n0 (moment p') (cache p').
Proof.
  intros [Hn Hc]. unfold insert_connection.
  destruct (find_pid_for_inode _ _ _ _) as [pid [n c]] eqn:Hf.
  assert ((moment p <= n)%nat /\ cache_scanned n0 n c) as [Hle Hs].
  { destruct (decide (inode = 0)) as [->|Hi].
    - unfold find_pid_for_inode in Hf. simpl in Hf. by simplify_eq.
    - destruct (find_pid_cases n0 _ _ _ _ _ _ Hi Hn Hc Hf) as (? & ? & _). done. }
  destruct (0 <? pid); simpl; (split; [lia|]); (eapply cache_scanned_later; [|exact Hs]; lia).
Qed.

Lemma collect_scanned n0 n o r n' o' :
  collect hosts exclude_ports exclude_ips n o = Some (r, (n', o')) ->
  (n0 <= n)%nat -> cache_scanned n0 n (observer_cache o) ->
  (n0 <= n')%nat /\ cache_scanned n0 n' (observer_cache o').
Proof.
  intros (p & Hr & Hc)%collect_cases Hn Ho.
  assert ((n0 <= moment p)%nat /\ cache_scanned n0 (moment p) (cache p)) as [Hp Hs].
  { refine (reaches_inv _ _ _ (λ p, (n0 <= moment p)%nat /\ cache_scanned n0 (moment p) (cache p)) _ _ _ _ Hr _).
    - intros q [Hq Hqc]. split; simpl; [lia|]. eapply cache_scanned_later; [|exact Hqc]. lia.
    - intros. by apply insert_scanned.
    - by split. }
  destruct Hc as [(e & -> & -> & _ & ->)|(-> & -> & _ & ->)]; [done|]. split; [lia|].
  eapply cache_scanned_later; [|intros i e [He _]%map_lookup_filter_Some; by apply Hs]. lia.
Qed.

Lemma polls_scanned n0 k n o rs n' o' :
  polls hosts exclude_ports exclude_ips k n o = Some (rs, (n', o')) ->
  (n0 <= n)%nat -> cache_scanned n0 n (observer_cache o) ->
  (n0 <= n')%nat /\ cache_scanned n0 n' (observer_cache o').
Proof.
  revert n o rs. induction k as [|k IH]; intros n o rs; simpl; [by intros [= _ <- <-]|].
  destruct (collect _ _ _ n o) as [[r [n1 o1]]|] eqn:Hc; [|done]. simpl.
  destruct (polls _ _ _ k n1 o1) as [[rs' [n2 o2]]|] eqn:Hp; [|done]. intros [= _ <- <-] Hn Ho.
  destruct (collect_scanned n0 _ _ _ _ _ Hc Hn Ho). by eapply IH.
Qed.
End processes.

(** ** Properties *)

Section properties.
Context (hosts : nat -> host) (exclude_ports : list Z) (exclude_ips : list str).

Abbreviation fs_at n := (fs (hosts n)).
Abbreviation now_at n := (now (hosts n)).
Abbreviation collect_at := (collect hosts exclude_ports exclude_ips).
Abbreviation polls_at := (polls hosts exclude_ports exclude_ips).

(** What the poll is after the sockets of the first table. *)
Definition after_tcp (n : nat) (o : ProcObserver) (socks : list socket) : poll :=
  foldl (note hosts exclude_ports exclude_ips)
    (next_moment {| moment := n; cache := observer_cache o; out := ∅ |}) socks.

Lemma collect_tables n o content4 content6 socks4 socks6 :
  fs_read (fs_at n) (ascii_bytes "/proc/net/tcp") = Some content4 ->
  proc_file content4 socks4 -> Forall socket_wf socks4 ->
  fs_read (fs_at (moment (after_tcp n o socks4))) (ascii_bytes "/proc/net/tcp6") = Some content6 ->
  proc_file content6 socks6 -> Forall socket_wf socks6 ->
  exists n' o', collect_at n o = Some (Ok (change_event <$> changes (prev_connections o) (prev_connections o')), (n', o')) /\
    forall key, cs_state <$> prev_connections o' !! key = last_state exclude_ports exclude_ips key (socks4 ++ socks6).
Proof.
  intros Hr4 Hf4 Hw4 Hr6 Hf6 Hw6. unfold collect.
  rewrite (read_table_file hosts _ _ _ content4 socks4) by done. fold (after_tcp n o socks4). simpl.
  rewrite (read_table_file hosts _ _ _ content6 socks6) by done. simpl.
  eexists _, {| prev_connections := _; observer_cache := _ |}. split; [reflexivity|].
  intros key. simpl. rewrite noted_states. simpl. unfold after_tcp. rewrite noted_states. unfold last_state.
  rewrite foldl_app. f_equal.
Qed.

(** [C37] A poll of readable tables: it returns, its snapshot has exactly the
    connections of the sockets the kernel shows in both tables, less those that
    listen, have an unknown state or are excluded, each in the state of the
    last line of its key, and the events are the connections that appeared and
    the ones that disappeared. *)
Theorem collect_reports_tables n o content4 content6 socks4 socks6 :
  fs_read (fs_at n) (ascii_bytes "/proc/net/tcp") = Some content4 ->
  proc_file content4 socks4 -> Forall socket_wf socks4 ->
  fs_read (fs_at (moment (after_tcp n o socks4))) (ascii_bytes "/proc/net/tcp6") = Some content6 ->
  proc_file content6 socks6 -> Forall socket_wf socks6 ->
  exists events n' o', collect_at n o = Some (Ok events, (n', o')) /\
    (forall key, cs_state <$> prev_connections o' !! key = last_state exclude_ports exclude_ips key (socks4 ++ socks6)) /\
    forall e, e ∈ events <->
      (exists k s, prev_connections o' !! k = Some s /\ prev_connections o !! k = None /\
        cs_state s <> ascii_bytes "LISTEN" /\ e = connection_event k (cs_state s) s) \/
      (exists k s, prev_connections o !! k = Some s /\ prev_connections o' !! k = None /\
        cs_state s <> ascii_bytes "LISTEN" /\ e = connection_event k (ascii_bytes "CLOSED") s).
Proof.
  intros Hr4 Hf4 Hw4 Hr6 Hf6 Hw6.
  destruct (collect_tables _ _ _ _ _ _ Hr4 Hf4 Hw4 Hr6 Hf6 Hw6) as (n' & o' & Hc & Hk).
  exists (change_event <$> changes (prev_connections o) (prev_connections o')), n', o'. split; [exact Hc|]. split; [exact Hk|]. apply elem_of_changes.
Qed.

Lemma collect_follows n o r n' o' :
  collect_at n o = Some (r, (n', o')) -> no_listen (prev_connections o) ->
  no_listen (prev_connections o') /\
  exists cs, (r = Ok (change_event <$> cs) \/ (cs = [] /\ exists e, r = Err e)) /\
    forall key, follow key (known (prev_connections o) key) cs = Some (known (prev_connections o') key).
Proof.
  intros (p & Hr & Hc)%collect_cases Ho.
  assert (no_listen (out p)) as Hp.
  { refine (reaches_inv _ _ _ (λ p, no_listen (out p)) _ _ _ _ Hr _); [intros q Hq; exact Hq| |intros k s; simpl; by rewrite lookup_empty].
    intros state key inode q Hst _ Hq. destruct (insert_connection_out hosts state key inode q) as (s & <- & ->).
    intros k s' [[<- <-]|[_ Hs]]%lookup_insert_Some; [done|by eapply Hq]. }
  destruct Hc as [(e & -> & _ & -> & _)|(-> & _ & -> & _)]; (split; [done|]).
  - exists []. split; [right; eauto|done].
  - eexists. split; [by left|]. intros key. by apply follow_changes.
Qed.

Lemma polls_follow k n o rs n' o' :
  polls_at k n o = Some (rs, (n', o')) -> no_listen (prev_connections o) ->
  exists css, Forall2 (λ r cs, r = Ok (change_event <$> cs) \/ (cs = [] /\ exists e, r = Err e)) rs css /\
    forall key, follow key (known (prev_connections o) key) (concat css) = Some (known (prev_connections o') key).
Proof.
  revert n o rs. induction k as [|k IH]; intros n o rs; simpl.
  { intros [= <- _ <-] _. by exists []. }
  destruct (collect_at n o) as [[r [n1 o1]]|] eqn:Hc; [|done]. simpl.
  destruct (polls_at k n1 o1) as [[rs' [n2 o2]]|] eqn:Hp; [|done]. intros [= <- <- <-] Ho.
  destruct (collect_follows _ _ _ _ _ Hc Ho) as (Ho1 & cs & Hr & Hf).
  destruct (IH _ _ _ Hp Ho1) as (css & Hrs & Hfs). exists (cs :: css). split; [by constructor|].
  intros key. simpl. rewrite follow_app, Hf. apply Hfs.
Qed.

(** [C38] The life of a connection: over any number of polls of a host whose
    tables are ASCII text, whatever they hold and whether or not they can be
    read, the polls return, and what is reported of one address pair alternates
    between its appearance and its end; it is open at the end just when the last
    snapshot has it. *)
Theorem connection_reports_alternate k n :
  ascii_tables hosts ->
  exists rs n' o css, polls_at k n observer_new = Some (rs, (n', o)) /\
    Forall2 (λ r cs, r = Ok (change_event <$> cs) \/ (cs = [] /\ exists e, r = Err e)) rs css /\
    forall key, follow key false (concat css) = Some (bool_decide (is_Some (prev_connections o !! key))).
Proof.
  intros Ha. destruct (polls_return hosts exclude_ports exclude_ips k n observer_new Ha) as (rs & n' & o & Hp).
  assert (no_listen (prev_connections observer_new)) as Hn by (intros key s; simpl; by rewrite lookup_empty).
  destruct (polls_follow _ _ _ _ _ _ Hp Hn) as (css & Hrs & Hf). by exists rs, n', o, css.
Qed.

(** Where process numbers come from: whatever the host does between and
    during the polls, the number found for an inode afterwards is the result of
    a scan that is done now or was done during the polls and ended less than 30
    seconds ago; when it is not zero, that process had the socket then. *)
Theorem pid_found_recently k n0 rs n o inode pid n' c' :
  polls_at k n0 observer_new = Some (rs, (n, o)) -> inode <> 0 ->
  find_pid_for_inode hosts inode n (observer_cache o) = (pid, (n', c')) ->
  exists m, pid = scan_proc_fds_for_inode (fs_at m) (socket_link inode) /\
    ((n <= m)%nat \/ ((n0 <= m)%nat /\ (S m < n)%nat /\ now_at n - now_at (S m) < PID_CACHE_TTL)) /\
    (pid <> 0 -> holds_socket (fs_at m) pid inode).
Proof.
  intros Hp Hi Hf. destruct (polls_scanned hosts _ _ n0 _ _ _ _ _ _ Hp (le_n _)) as [Hn Hc].
  { intros i e. simpl. by rewrite lookup_empty. }
  destruct (find_pid_cases hosts n0 _ _ _ _ _ _ Hi Hn Hc Hf) as (_ & _ & m & Hm & Hw).
  exists m. split_and!; [done|done|]. by apply scan_finds_holder.
Qed.

(** A poll fails exactly when a table cannot be read. *)
Lemma collect_without_tcp6 n o :
  ascii_tables hosts -> (forall m, fs_read (fs_at m) (ascii_bytes "/proc/net/tcp6") = None) ->
  exists e n' o', collect_at n o = Some (Err e, (n', o')) /\ prev_connections o' = prev_connections o.
Proof.
  intros Ha H6. unfold collect.
  destruct (table_returns hosts exclude_ports exclude_ips (ascii_bytes "/proc/net/tcp")
    {| moment := n; cache := observer_cache o; out := ∅ |}) as (r4 & p & -> & _); [intros bs; apply Ha; by left|].
  simpl. destruct r4 as [[]|e]; [|by eexists _, _, _]. unfold parse_proc_tcp, read_to_string.
  rewrite H6. simpl. by eexists _, _, _.
Qed.

(** A host without [/proc/net/tcp6] (IPv6 disabled): every poll returns an
    error, so no connection is ever reported, not even an IPv4 one, although
    [/proc/net/tcp] is read. *)
Theorem no_ipv6_no_reports k n o :
  ascii_tables hosts -> (forall m, fs_read (fs_at m) (ascii_bytes "/proc/net/tcp6") = None) ->
  exists rs n' o', polls_at k n o = Some (rs, (n', o')) /\ length rs = k /\
    (Forall (λ r, exists e, r = Err e) rs) /\ prev_connections o' = prev_connections o.
Proof.
  intros Ha H6. revert n o. induction k as [|k IH]; intros n o; simpl.
  { by eexists _, _, _. }
  destruct (collect_without_tcp6 n o Ha H6) as (e & n1 & o1 & -> & Ho1). simpl.
  destruct (IH n1 o1) as (rs & n2 & o2 & -> & Hl & Hf & Ho2). simpl. eexists _, _, _. split; [done|].
  split_and!; [simpl; lia|constructor; [by eexists|done]|congruence].
Qed.
End properties.

(** *** Concrete hosts *)

Definition sample_header : str :=
  ascii_bytes "  sl  local_address rem_address   st tx_queue rx_queue tr tm->when retrnsmt   uid  timeout inode".
Definition sample_line4 : str :=
  ascii_bytes "   1: 0100007F:C000 0200000A:01BB 01 00000000:00000000 00:00000000 00000000  1000        0 67890 1 0000000000000000 20 4 30 10 -1".
Definition sample_line6 : str :=
  ascii_bytes "   0: 00000000000000000000000001000000:1F90 00000000000000000000000000000000:0000 0A 00000000:00000000 00:00000000 00000000     0        0 12345".

(** 127.0.0.1:49152 to 10.0.0.2:443, established; [::1]:8080, listening. *)
Definition sample_sock4 : socket := {|
  so_sl := ascii_bytes "1:"; so_local := V4 x7f x00 x00 x01; so_lport := 49152;
  so_remote := V4 x0a x00 x00 x02; so_rport := 443; so_state := 1;
  so_middle := ascii_bytes <$> ["00000000:00000000"; "00:00000000"; "00000000"; "1000"; "0"];
  so_inode := 67890; so_rest := ascii_bytes <$> ["1"; "0000000000000000"; "20"; "4"; "30"; "10"; "-1"] |}.

Definition sample_sock6 : socket := {|
  so_sl := ascii_bytes "0:"; so_local := V6 (repeat x00 12) x00 x00 x00 x01; so_lport := 8080;
  so_remote := V6 (repeat x00 12) x00 x00 x00 x00; so_rport := 0; so_state := 10;
  so_middle := ascii_bytes <$> ["00000000:00000000"; "00:00000000"; "00000000"; "0"; "0"];
  so_inode := 12345; so_rest := [] |}.

Definition sample_table (ls : list str) : str := sample_header ++ (x0a :: file_of ls).

(** A host with these tables where process 42, [curl], has the socket 67890. *)
Definition sample_fs (tcp : str) (tcp6 : option str) : procfs := {|
  fs_read path :=
    if decide (path = ascii_bytes "/proc/net/tcp") then Some tcp
    else if decide (path = ascii_bytes "/proc/net/tcp6") then tcp6
    else if decide (path = ascii_bytes "/proc/42/comm") then Some (ascii_bytes "curl" ++ [x0a])
    else None;
  fs_read_dir path :=
    if decide (path = ascii_bytes "/proc") then Some (Some ∘ ascii_bytes <$> ["self"; "1"; "42"])
    else if decide (path = ascii_bytes "/proc/42/fd") then Some (Some ∘ ascii_bytes <$> ["0"; "3"])
    else None;
  fs_read_link path :=
    if decide (path = ascii_bytes "/proc/42/fd/3") then Some (ascii_bytes "socket:[67890]") else None |}.

(** The connection is there for the first ten moments, which are a second apart. *)
Definition sample_hosts (n : nat) : host := {|
  fs := sample_fs (sample_table (if (n <? 10)%nat then [sample_line4] else [])) (Some (sample_table [sample_line6]));
  now := Z.of_nat n * 10 ^ 9 |}.

Lemma sample_spaced4 : spaced sample_line4 (socket_fields sample_sock4).
Proof.
  replace (socket_fields sample_sock4) with (split_whitespace sample_line4) by by vm_compute.
  apply spaced_split, (bool_decide_unpack _). by vm_compute.
Defined.

Lemma sample_spaced6 : spaced sample_line6 (socket_fields sample_sock6).
Proof.
  replace (socket_fields sample_sock6) with (split_whitespace sample_line6) by by vm_compute.
  apply spaced_split, (bool_decide_unpack _). by vm_compute.
Defined.

Lemma sample_file ls socks :
  Forall2 (λ l s, spaced l (socket_fields s)) ls socks -> proc_file (sample_table ls) socks.
Proof.
  intros H. exists sample_header, ls. split_and!; [done| | |done].
  - apply (bool_decide_unpack _). by vm_compute.
  - apply (bool_decide_unpack _). by vm_compute.
Qed.

Definition sample_event (state : string) : NetworkEvent :=
  TcpConnection (ascii_bytes "127.0.0.1") 49152 (ascii_bytes "10.0.0.2") 443 (ascii_bytes state) 42 (ascii_bytes "curl").

(** The second poll does not look before the tenth moment. *)
Example sample_polls :
  fst <$> polls sample_hosts [] [] 3 6 observer_new =
  Some [Ok [sample_event "ESTABLISHED"]; Ok [sample_event "CLOSED"]; Ok []].
Proof. vm_compute. reflexivity. Qed.

Lemma sample_wf4 : socket_wf sample_sock4.
Proof. split; simpl; done || lia. Defined.

Lemma sample_wf6 : socket_wf sample_sock6.
Proof. split; simpl; done || lia. Defined.

Lemma collect_reports_tables_witness :
  exists events n' o', collect sample_hosts [] [] 0 observer_new = Some (Ok events, (n', o')) /\
    sample_event "ESTABLISHED" ∈ events.
Proof.
  destruct (collect_reports_tables sample_hosts [] [] 0 observer_new (sample_table [sample_line4]) (sample_table [sample_line6])
    [sample_sock4] [sample_sock6]) as (events & n' & o' & Hc & Hk & He).
  - reflexivity.
  - apply sample_file. constructor; [apply sample_spaced4|constructor].
  - repeat constructor; simpl; done || lia.
  - vm_compute. reflexivity.
  - apply sample_file. constructor; [apply sample_spaced6|constructor].
  - repeat constructor; simpl; done || lia.
  - exists events, n', o'. split; [exact Hc|].
    enough (events = [sample_event "ESTABLISHED"]) as -> by by left.
    enough (Some events = Some [sample_event "ESTABLISHED"]) by congruence.
    transitivity (r ← fst <$> collect sample_hosts [] [] 0 observer_new; match r with Ok l => Some l | Err _ => None end).
    + by rewrite Hc.
    + vm_compute. reflexivity.
Defined.

Lemma sample_fs_ascii tcp tcp6 path bs :
  is_ascii tcp -> (forall bs, tcp6 = Some bs -> is_ascii bs) ->
  path = ascii_bytes "/proc/net/tcp" \/ path = ascii_bytes "/proc/net/tcp6" ->
  fs_read (sample_fs tcp tcp6) path = Some bs -> is_ascii bs.
Proof.
  intros Ht H6 [->| ->]; unfold sample_fs; cbn [fs_read].
  - rewrite decide_True by done. by intros [= <-].
  - rewrite decide_False by done. rewrite decide_True by done. apply H6.
Qed.

Lemma sample_ascii : ascii_tables sample_hosts.
Proof.
  intros m path bs Hp. apply sample_fs_ascii; [|intros ? [= <-]|done].
  - destruct (m <? 10)%nat; apply (bool_decide_unpack _); by vm_compute.
  - apply (bool_decide_unpack _). by vm_compute.
Qed.

Lemma connection_reports_alternate_witness :
  exists rs n' o css, polls sample_hosts [] [] 3 6 observer_new = Some (rs, (n', o)) /\
    Forall2 (λ r cs, r = Ok (change_event <$> cs) \/ (cs = [] /\ exists e, r = Err e)) rs css /\
    forall key, follow key false (concat css) = Some (bool_decide (is_Some (prev_connections o !! key))).
Proof. apply connection_reports_alternate, sample_ascii. Defined.

(** Two seconds after it was found the process is taken from the cache. *)
Lemma pid_found_recently_witness :
  exists rs n o pid n' c', polls sample_hosts [] [] 1 0 observer_new = Some (rs, (n, o)) /\
    find_pid_for_inode sample_hosts 67890 n (observer_cache o) = (pid, (n', c')) /\ pid = 42 /\
    exists m, holds_socket (fs (sample_hosts m)) 42 67890.
Proof.
  destruct (polls sample_hosts [] [] 1 0 observer_new) as [[rs [n o]]|] eqn:Hp; [|by vm_compute in Hp].
  destruct (find_pid_for_inode sample_hosts 67890 n (observer_cache o)) as [pid [n' c']] eqn:Hf.
  assert (pid = 42) as ->.
  { assert (Some pid = (λ s, (find_pid_for_inode sample_hosts 67890 s.2.1 (observer_cache s.2.2)).1) <$>
      polls sample_hosts [] [] 1 0 observer_new) as H by (rewrite Hp; simpl; by rewrite Hf).
    vm_compute in H. congruence. }
  destruct (pid_found_recently sample_hosts [] [] 1 0 rs n o 67890 42 n' c' Hp ltac:(done) Hf) as (m & _ & _ & Hh).
  exists rs, n, o, 42, n', c'. split; [reflexivity|]. split; [exact Hf|]. split; [reflexivity|].
  exists m. apply Hh. lia.
Defined.

(** The same host without IPv6. *)
Definition ipv4_hosts (n : nat) : host := {| fs := sample_fs (sample_table [sample_line4]) None; now := Z.of_nat n |}.

Lemma ipv4_ascii : ascii_tables ipv4_hosts.
Proof.
  intros m path bs Hp. apply sample_fs_ascii; [|done|done]. apply (bool_decide_unpack _). by vm_compute.
Qed.

Lemma no_ipv6_no_reports_witness :
  exists rs n' o', polls ipv4_hosts [] [] 5 0 observer_new = Some (rs, (n', o')) /\ length rs = 5%nat /\
    Forall (λ r, exists e, r = Err e) rs /\ prev_connections o' = prev_connections observer_new.
Proof. apply no_ipv6_no_reports; [apply ipv4_ascii|]. intros m. reflexivity. Defined.

(** *** State names *)

(** The states of [include/net/tcp_states.h] are named as the kernel names them
    up to TIME_WAIT; from CLOSE on the names are off by one, and CLOSING (11)
    has none. *)
Example state_names :
  (λ code, tcp_state_from_hex (hex_upper 2 code)) <$> [1; 2; 3; 4; 5; 6; 7; 8; 9; 10; 11; 12] =
  (Some ∘ ascii_bytes <$> ["ESTABLISHED"; "SYN_SENT"; "SYN_RECV"; "FIN_WAIT1"; "FIN_WAIT2"; "TIME_WAIT";
    "CLOSE_WAIT"; "LAST_ACK"; "CLOSING"; "LISTEN"]) ++ [None; None].
Proof. vm_compute. reflexivity. Qed.

(** A field of 32 bytes that is not ASCII panics. *)
Example parse_address_panics :
  parse_address (ascii_bytes "00000000000000000000000" ++ [xc3; xa9] ++ ascii_bytes "0000000:0050") = None.
Proof. vm_compute. reflexivity. Qed.

(** Different IPv6 peers with the same last four bytes are one connection. *)
Example ipv6_keys_collide :
  let s g := {| so_sl := so_sl sample_sock4; so_local := so_local sample_sock4; so_lport := 40000;
    so_remote := V6 g x00 x00 x00 x01; so_rport := 443; so_state := 1; so_middle := so_middle sample_sock4;
    so_inode := 1; so_rest := [] |} in
  key_of (s (repeat x00 12)) = key_of (s (repeat x20 12)).
Proof. reflexivity. Qed.
