(* ===== verification/ObserverMode.v ===== *)
(** * mod.rs and loader.rs: the choice of the observer

    At startup the agent decides between the eBPF programs, the [/proc]
    observer and doing nothing ([detect_observer_mode]); the loader of the
    programs then makes its own checks of the kernel ([check_capabilities]) and
    loads the programs the configuration asks for.  libbpf is a parameter: what
    opening and loading an object gives. *)

From S2P Require Import Prelude Bytes RustSlice RustStr Consumer ProcFs.

#[local] Set Warnings "-clear-no-such-hyp".
#[local] Open Scope string_scope.
#[local] Open Scope list_scope.
#[local] Open Scope Z_scope.

(** ** Data *)

Record EbpfConfig := {
  enabled : bool;
  tcp_connections : bool;
  dns_resolution : bool;
  http_inspection : bool;
  db_inspection : bool;
  exclude_ports : list Z;
  exclude_ips : list str;
  ring_buffer_size_kb : Z;
  poll_interval_ms : Z;
  fallback_to_proc : bool;
}.

Inductive ObserverMode := Ebpf | ProcFallback | Stub.

#[global] Instance ObserverMode_eq_dec : EqDecision ObserverMode.
Proof. solve_decision. Defined.

(** A program of a loaded object: its ELF section and whether it can be attached. *)
Record bpf_program := { bp_name : str; bp_section : str; bp_attaches : bool }.

(** A loaded object: its programs, and the links that keep them attached. *)
Record object := { ob_programs : list bpf_program; ob_links : list str }.

Record EbpfPrograms := {
  tcp_object : option object;
  dns_object : option object;
  http_object : option object;
}.

Definition is_loaded (p : EbpfPrograms) : bool :=
  bool_decide (is_Some (tcp_object p)) || bool_decide (is_Some (dns_object p)) || bool_decide (is_Some (http_object p)).

Definition MIN_KERNEL_MAJOR : Z := 5.
Definition MIN_KERNEL_MINOR : Z := 4.
Definition KPROBE_PREFIX : str := ascii_bytes "kprobe/".
Definition KRETPROBE_PREFIX : str := ascii_bytes "kretprobe/".
Definition CAP_BPF_BIT : Z := 39.

Definition osrelease : str := ascii_bytes "/proc/sys/kernel/osrelease".
Definition btf_path : str := ascii_bytes "/sys/kernel/btf/vmlinux".

(** ** Operations *)

(** [s.starts_with(prefix)] *)
Definition starts_with (prefix s : str) : bool := bool_decide (take (length prefix) s = prefix).

(** The version as [detect_observer_mode] reads it: 0 for what is not a number. *)
Definition lenient_version (raw : str) : Z * Z :=
  let parts := split_byte x2e (trim raw) in
  (default 0 (s ← parts !! 0%nat; parse_u32 s),
   default 0 (s ← parts !! 1%nat; s ← split_byte x2d s !! 0%nat; parse_u32 s)).

Definition version_ok (v : Z * Z) : bool := (5 <? v.1) || ((v.1 =? 5) && (4 <=? v.2)).

Definition parse_kernel_version (s : str) : result (Z * Z) :=
  let parts := split_byte x2e s in
  match parts !! 0%nat with
  | None => Err (ascii_bytes "kernel version string is empty")
  | Some major_str =>
      match parts !! 1%nat with
      | None => Err (ascii_bytes "kernel version string missing minor component")
      | Some minor_str =>
          match parse_u32 major_str with
          | None => Err (ascii_bytes "invalid kernel major '" ++ major_str ++ ascii_bytes "'")
          | Some major =>
              match parse_u32 minor_str with
              | None => Err (ascii_bytes "invalid kernel minor '" ++ minor_str ++ ascii_bytes "'")
              | Some minor => Ok (major, minor)
              end
          end
      end
  end.

Section host.
(** The files, whether a path exists, and what libbpf makes of each object:
    [None] when it cannot be written to a file, opened or loaded. *)
Context (f : procfs) (path_exists : str -> bool) (libbpf_load : str -> option (list bpf_program)).

Definition detect_observer_mode (config : EbpfConfig) : ObserverMode :=
  if negb (enabled config) then Stub
  else
    let version_ok :=
      match read_to_string f osrelease with
      | Some raw => version_ok (lenient_version raw)
      | None => false
      end in
    if version_ok && path_exists btf_path then Ebpf
    else if fallback_to_proc config then ProcFallback
    else Stub.

Definition kernel_version : result (Z * Z) :=
  match read_to_string f osrelease with
  | None => Err (ascii_bytes "Failed to read /proc/sys/kernel/osrelease")
  | Some raw =>
      match parse_kernel_version (trim raw) with
      | Ok v => Ok v
      | Err _ => Err (ascii_bytes "Failed to parse kernel version from '" ++ trim raw ++ ascii_bytes "'")
      end
  end.

Definition check_cap_bpf : result bool :=
  match read_to_string f (ascii_bytes "/proc/self/status") with
  | None => Err (ascii_bytes "Failed to read /proc/self/status")
  | Some status =>
      match List.find (starts_with (ascii_bytes "CapEff:")) (lines status) with
      | None => Err (ascii_bytes "CapEff line not found in /proc/self/status")
      | Some cap_eff_line =>
          match split_whitespace cap_eff_line !! 1%nat with
          | None => Err (ascii_bytes "CapEff line has no value")
          | Some hex_str =>
              match from_str_radix_16 64 hex_str with
              | None => Err (ascii_bytes "failed to parse CapEff hex value '" ++ hex_str ++ ascii_bytes "'")
              | Some cap_eff => Ok (Z.land (Z.shiftr cap_eff CAP_BPF_BIT) 1 =? 1)
              end
          end
      end
  end.

(** The result of [check_cap_bpf] is only logged. *)
Definition check_capabilities : result unit :=
  match kernel_version with
  | Err e => Err e
  | Ok (major, minor) =>
      if (major <? MIN_KERNEL_MAJOR) || ((major =? MIN_KERNEL_MAJOR) && (minor <? MIN_KERNEL_MINOR)) then
        Err (ascii_bytes "Kernel " ++ dec major ++ dot ++ dec minor ++ ascii_bytes " does not meet minimum requirement " ++
             dec MIN_KERNEL_MAJOR ++ dot ++ dec MIN_KERNEL_MINOR ++ ascii_bytes " for eBPF")
      else if negb (path_exists btf_path) then
        Err (ascii_bytes "BTF not available at /sys/kernel/btf/vmlinux — CONFIG_DEBUG_INFO_BTF may not be enabled")
      else Ok tt
  end.

(** Loads an object and attaches its kprobes and kretprobes; one that cannot be
    attached is logged and left out. *)
Definition load_program (name : str) : result object :=
  match libbpf_load name with
  | None => Err (ascii_bytes "Failed to load eBPF program '" ++ name ++ ascii_bytes "'")
  | Some progs =>
      Ok {| ob_programs := progs;
            ob_links := bp_name <$> List.filter (λ p,
              (starts_with KPROBE_PREFIX (bp_section p) || starts_with KRETPROBE_PREFIX (bp_section p)) &&
              bp_attaches p) progs |}
  end.

Definition load_enabled (on : bool) (name : string) : result (option object) :=
  if on then match load_program (ascii_bytes name) with Ok o => Ok (Some o) | Err e => Err e end else Ok None.

Definition load (config : EbpfConfig) : result EbpfPrograms :=
  match check_capabilities with
  | Err _ => Err (ascii_bytes "eBPF capability check failed")
  | Ok _ =>
      match load_enabled (tcp_connections config) "tcp_tracker" with
      | Err e => Err e
      | Ok tcp =>
          match load_enabled (dns_resolution config) "dns_mapper" with
          | Err e => Err e
          | Ok dns =>
              match load_enabled (http_inspection config) "http_inspector" with
              | Err e => Err e
              | Ok http => Ok {| tcp_object := tcp; dns_object := dns; http_object := http |}
              end
          end
      end
  end.

(** What [run] ends up doing: a loop that does not end, or an error. *)
Inductive observer :=
  | RunsEbpf (programs : EbpfPrograms)
  | RunsProc
  | RunsStub
  | Fails (context : str).

Definition run_ebpf (config : EbpfConfig) : observer :=
  match load config with
  | Err e => Fails e
  | Ok programs => if is_loaded programs then RunsEbpf programs else RunsProc
  end.

Definition run (config : EbpfConfig) : observer :=
  match detect_observer_mode config with
  | Ebpf => run_ebpf config
  | ProcFallback => RunsProc
  | Stub => RunsStub
  end.
End host.

(** ** Versions *)

Lemma parse_digits_all acc s v :
  parse_digits acc s = Some v -> Forall (λ b, is_ascii_digit (Z_of_byte b) = true) s.
Proof.
  revert acc. induction s as [|b s IH]; intros acc; [constructor|]. simpl.
  destruct (is_ascii_digit (Z_of_byte b)) eqn:Hb; [|done]. case_match; [|done]. intros Hp.
  constructor; [done|]. by eapply IH.
Qed.

(** A string that parses as a number has no dash. *)
Lemma parse_u32_no_dash s v : parse_u32 s = Some v -> x2d ∉ s.
Proof.
  unfold parse_u32, parse_u64. intros H Hin.
  assert (forall t, Forall (λ b, is_ascii_digit (Z_of_byte b) = true) t -> x2d ∈ t -> False) as Hno.
  { intros t Ht Hd. rewrite Forall_forall in Ht. by specialize (Ht _ Hd). }
  destruct s as [|b s]; [done|]. case_bool_decide as Hb.
  - apply elem_of_cons in Hin as [<-|Hin]; [done|]. destruct s as [|c s]; [done|].
    destruct (parse_digits 0 (c :: s)) eqn:Hp; [|done]. by eapply Hno; [eapply parse_digits_all|].
  - destruct (parse_digits 0 (b :: s)) eqn:Hp; [|done]. by eapply Hno; [eapply parse_digits_all|].
Qed.

(** Where the loader can read the version, the mode detection reads the same. *)
Lemma lenient_version_agrees raw v : parse_kernel_version (trim raw) = Ok v -> lenient_version raw = v.
Proof.
  unfold parse_kernel_version, lenient_version. destruct (split_byte x2e (trim raw) !! 0%nat) as [a|]; [|done].
  destruct (split_byte x2e (trim raw) !! 1%nat) as [b|]; [|done]. simpl.
  destruct (parse_u32 a) as [major|]; [|done]. destruct (parse_u32 b) as [minor|] eqn:Hb; [|done].
  intros [= <-]. rewrite split_byte_none by by eapply parse_u32_no_dash. simpl. by rewrite Hb.
Qed.

(** *** What the kernel prints *)

(** [uname -r] and a line feed: two numbers, then nothing or a dot and more. *)
Definition release (major minor : Z) (rest : str) : str :=
  (dec major ++ x2e :: dec minor ++ rest) ++ [x0a].

Definition release_rest (rest : str) : Prop := rest = [] \/ exists t, rest = x2e :: t /\ word rest.

Lemma trim_start_chars_id us : (forall u us', us = u :: us' -> is_whitespace u = false) -> trim_start_chars us = us.
Proof. intros H. destruct us as [|u us]; [done|]. simpl. by rewrite (H u us). Qed.

Lemma trim_word_lf w : word w -> trim (w ++ [x0a]) = w.
Proof.
  intros (Hne & Ha & Hw). unfold trim. rewrite chars_of_ascii by (apply Forall_app_2; [done|by repeat constructor]).
  assert (Forall (λ u, is_whitespace u = false) ((λ b : byte, [b]) <$> w)) as Hf by by apply Forall_fmap.
  rewrite fmap_app. rewrite (trim_start_chars_id (_ ++ _)).
  - rewrite rev_app_distr. cbn [fmap list_fmap rev app trim_start_chars].
    change (is_whitespace [x0a]) with true. cbn match. rewrite trim_start_chars_id.
    + rewrite rev_involutive. clear. induction w as [|b w IH]; [done|]. csimpl. by rewrite IH.
    + intros u us' Hr. apply Forall_rev in Hf. rewrite Hr in Hf. by apply Forall_cons in Hf as [].
  - intros u us'. destruct w; [done|]. intros [= <- _]. by apply Forall_cons in Hf as [].
Qed.

Lemma dec_no_dot n : 0 <= n -> x2e ∉ dec n.
Proof. intros Hn Hin. pose proof (dec_digits n Hn) as H. rewrite Forall_forall in H. by specialize (H _ Hin). Qed.

Lemma release_version major minor rest :
  0 <= major < 2 ^ 32 -> 0 <= minor < 2 ^ 32 -> release_rest rest ->
  parse_kernel_version (trim (release major minor rest)) = Ok (major, minor).
Proof.
  intros HM Hm Hr. pose proof (dec_word major ltac:(lia)) as WM. pose proof (dec_word minor ltac:(lia)) as Wm.
  unfold release. rewrite trim_word_lf.
  - unfold parse_kernel_version. rewrite split_byte_cons by (apply dec_no_dot; lia).
    assert (exists l, split_byte x2e (dec minor ++ rest) = dec minor :: l) as [l ->].
    { destruct Hr as [->|(t & -> & _)].
      - rewrite app_nil_r, split_byte_none by (apply dec_no_dot; lia). by eexists.
      - rewrite split_byte_cons by (apply dec_no_dot; lia). by eexists. }
    simpl. by rewrite !parse_u32_dec.
  - apply word_app_cons; [done| |done|done]. destruct Hr as [->|(t & -> & Ht)]; [by rewrite app_nil_r|by apply word_app].
Qed.

(** ** Properties *)

Section properties.
Context (f : procfs) (path_exists : str -> bool).

(** The objects the configuration asks for. *)
Definition wanted (config : EbpfConfig) : list str :=
  (if tcp_connections config then [ascii_bytes "tcp_tracker"] else []) ++
  (if dns_resolution config then [ascii_bytes "dns_mapper"] else []) ++
  (if http_inspection config then [ascii_bytes "http_inspector"] else []).

Lemma version_checks_agree v :
  version_ok v = negb ((v.1 <? MIN_KERNEL_MAJOR) || ((v.1 =? MIN_KERNEL_MAJOR) && (v.2 <? MIN_KERNEL_MINOR))).
Proof. unfold version_ok, MIN_KERNEL_MAJOR, MIN_KERNEL_MINOR. lia. Qed.

(** The two checks of the kernel agree: when the release can be parsed by
    the loader, as every release is that the kernel prints with two numbers
    first, the mode detection chooses eBPF exactly for the enabled
    configurations on hosts that pass the loader's capability check. *)
Theorem startup_checks_agree config :
  (forall raw major minor rest, read_to_string f osrelease = Some raw -> raw = release major minor rest ->
    0 <= major < 2 ^ 32 -> 0 <= minor < 2 ^ 32 -> release_rest rest -> kernel_version f = Ok (major, minor)) /\
  (forall v, kernel_version f = Ok v ->
    (detect_observer_mode f path_exists config = Ebpf <->
      enabled config = true /\ check_capabilities f path_exists = Ok tt)).
Proof.
  split.
  - intros raw major minor rest Hr -> HM Hm Hrest. unfold kernel_version. rewrite Hr.
    by rewrite release_version by done.
  - intros [major minor] Hv. unfold check_capabilities. rewrite Hv. unfold detect_observer_mode.
    unfold kernel_version in Hv. destruct (read_to_string f osrelease) as [raw|]; [|done].
    destruct (parse_kernel_version (trim raw)) as [v|] eqn:Hp; [|done]. injection Hv as ->.
    rewrite (lenient_version_agrees _ _ Hp), version_checks_agree. simpl.
    destruct (enabled config), (_ || _), (path_exists btf_path), (fallback_to_proc config); simpl; intuition congruence.
Qed.

Context (libbpf_load : str -> option (list bpf_program)).

Lemma load_enabled_cases on name :
  (on = true /\ libbpf_load (ascii_bytes name) = None /\ exists e, load_enabled libbpf_load on name = Err e) \/
  ((on = true -> is_Some (libbpf_load (ascii_bytes name))) /\
    exists o, load_enabled libbpf_load on name = Ok o /\ (is_Some o <-> on = true)).
Proof.
  unfold load_enabled, load_program. destruct on.
  - destruct (libbpf_load (ascii_bytes name)) as [progs|]; [right|left; eauto]. split; [by eexists|].
    eexists. split; [done|]. split; [done|by eexists].
  - right. split; [done|]. exists None. split; [done|]. split; [by intros []|done].
Qed.

Lemma flag_of_object (o : option object) on : (is_Some o <-> on = true) -> bool_decide (is_Some o) = on.
Proof.
  intros H. destruct on; [by apply bool_decide_true, H|]. apply bool_decide_false. by intros Ho%H.
Qed.

(** What the observer becomes in eBPF mode.  If an object the configuration
    asks for cannot be loaded it fails, and does not fall back to [/proc],
    whatever [fallback_to_proc] says; otherwise it falls back exactly when no
    object is asked for, and runs with the objects asked for else. *)
Theorem ebpf_mode_outcomes config :
  detect_observer_mode f path_exists config = Ebpf -> check_capabilities f path_exists = Ok tt ->
  let outcome := run f path_exists libbpf_load config in
  ((exists name, name ∈ wanted config /\ libbpf_load name = None) /\ exists e, outcome = Fails e) \/
  ((forall name, name ∈ wanted config -> is_Some (libbpf_load name)) /\
    (wanted config = [] /\ outcome = RunsProc \/
     wanted config <> [] /\ exists p, outcome = RunsEbpf p /\
       (is_Some (tcp_object p) <-> tcp_connections config = true) /\
       (is_Some (dns_object p) <-> dns_resolution config = true) /\
       (is_Some (http_object p) <-> http_inspection config = true))).
Proof.
  intros Hd Hc. unfold run. rewrite Hd. unfold run_ebpf, load. rewrite Hc. unfold wanted.
  destruct (load_enabled_cases (tcp_connections config) "tcp_tracker") as [(Ht & Hn & e & ->)|(Ht & tcp & -> & Htcp)].
  { left. rewrite Ht. split; [|by eexists]. eexists. split; [|exact Hn]. by left. }
  destruct (load_enabled_cases (dns_resolution config) "dns_mapper") as [(Hs & Hn & e & ->)|(Hs & dns & -> & Hdns)].
  { left. rewrite Hs. split; [|by eexists]. eexists. split; [|exact Hn]. set_solver. }
  destruct (load_enabled_cases (http_inspection config) "http_inspector") as [(Hh & Hn & e & ->)|(Hh & http & -> & Hhttp)].
  { left. rewrite Hh. split; [|by eexists]. eexists. split; [|exact Hn]. set_solver. }
  right. split.
  { intros name. destruct (tcp_connections config), (dns_resolution config), (http_inspection config); set_solver. }
  assert (is_loaded {| tcp_object := tcp; dns_object := dns; http_object := http |} =
    (tcp_connections config || dns_resolution config || http_inspection config)) as ->.
  { unfold is_loaded. simpl. by rewrite (flag_of_object _ _ Htcp), (flag_of_object _ _ Hdns), (flag_of_object _ _ Hhttp). }
  destruct (tcp_connections config), (dns_resolution config), (http_inspection config); simpl;
    (by left) || (right; split; [done|by eexists]).
Qed.
End properties.

(** *** A host *)

Definition sample_host (rel : string) : procfs := {|
  fs_read path :=
    if decide (path = osrelease) then Some (ascii_bytes rel ++ [x0a])
    else if decide (path = ascii_bytes "/proc/self/status") then
      Some (ascii_bytes "Name:	agent" ++ [x0a] ++ ascii_bytes "CapEff:	000001ffffffffff" ++ [x0a])
    else None;
  fs_read_dir _ := None;
  fs_read_link _ := None |}.

Definition sample_config (tcp dns http : bool) : EbpfConfig := {|
  enabled := true; tcp_connections := tcp; dns_resolution := dns; http_inspection := http;
  db_inspection := false; exclude_ports := []; exclude_ips := []; ring_buffer_size_kb := 256;
  poll_interval_ms := 100; fallback_to_proc := true |}.

Definition all_exist (_ : str) : bool := true.

(** libbpf refuses the DNS object. *)
Definition sample_libbpf (name : str) : option (list bpf_program) :=
  if decide (name = ascii_bytes "dns_mapper") then None
  else Some [{| bp_name := ascii_bytes "handle"; bp_section := ascii_bytes "kprobe/tcp_connect"; bp_attaches := true |}].

Example sample_cap_bpf : check_cap_bpf (sample_host "6.8.0-45-generic") = Ok true.
Proof. vm_compute. reflexivity. Qed.

Lemma startup_checks_agree_witness :
  kernel_version (sample_host "6.8.0-45-generic") = Ok (6, 8) /\
  (detect_observer_mode (sample_host "6.8.0-45-generic") all_exist (sample_config true true true) = Ebpf <->
    enabled (sample_config true true true) = true /\
    check_capabilities (sample_host "6.8.0-45-generic") all_exist = Ok tt).
Proof.
  destruct (startup_checks_agree (sample_host "6.8.0-45-generic") all_exist (sample_config true true true)) as [Hv Hd].
  assert (kernel_version (sample_host "6.8.0-45-generic") = Ok (6, 8)) as H.
  { apply (Hv _ 6 8 (ascii_bytes ".0-45-generic") eq_refl).
    - vm_compute. reflexivity.
    - lia.
    - lia.
    - right. exists (ascii_bytes "0-45-generic"). split; [reflexivity|]. apply (bool_decide_unpack _). by vm_compute. }
  split; [exact H|]. by apply (Hd (6, 8)).
Defined.

Lemma ebpf_mode_outcomes_witness :
  (exists e, run (sample_host "6.8.0") all_exist sample_libbpf (sample_config true true false) = Fails e) /\
  run (sample_host "6.8.0") all_exist sample_libbpf (sample_config false false false) = RunsProc.
Proof.
  split.
  - destruct (ebpf_mode_outcomes (sample_host "6.8.0") all_exist sample_libbpf (sample_config true true false))
      as [[_ H]|[H _]]; [by vm_compute|by vm_compute|exact H|].
    destruct (H (ascii_bytes "dns_mapper")) as [progs Hp]; [right; left|by vm_compute in Hp].
  - destruct (ebpf_mode_outcomes (sample_host "6.8.0") all_exist sample_libbpf (sample_config false false false))
      as [[(name & Hn & _) _]|[_ [[_ H]|[H _]]]]; [by vm_compute|by vm_compute| |exact H|done].
    by apply elem_of_nil in Hn.
Defined.

(** A release whose second number is followed by a dash passes the first check
    and not the loader's, and the observer fails. *)
Example versions_disagree :
  detect_observer_mode (sample_host "6.12-rc1") all_exist (sample_config true false false) = Ebpf /\
  check_capabilities (sample_host "6.12-rc1") all_exist =
    Err (ascii_bytes "Failed to parse kernel version from '6.12-rc1'").
Proof. split; vm_compute; reflexivity. Qed.
