(* ===== verification/ClusterEvent.v ===== *)
(** * communication/mod.rs: events for the cluster

    The conversion of a [NetworkEvent] to the message of [ebpf.proto] that
    [send_network_events_proto] sends.  The messages are records with the fields
    of the generated Rust types; a 32-bit integer [x as i32] is [as_i32 x]. *)

From S2P Require Import Prelude Bytes RustStr Consumer TcpConsumer.

#[local] Open Scope string_scope.
#[local] Open Scope list_scope.
#[local] Open Scope Z_scope.

(** ** Messages *)

Inductive TcpEventType := EventUnspecified | Connect | Accept | Close | Reset.

Inductive TcpState :=
  | Unspecified | Established | SynSent | SynReceived | FinWait1 | FinWait2 | TimeWait | CloseWait
  | LastAck | Closing | Listen.

Definition event_type_number (t : TcpEventType) : Z :=
  match t with EventUnspecified => 0 | Connect => 1 | Accept => 2 | Close => 3 | Reset => 4 end.

Definition state_number (s : TcpState) : Z :=
  match s with
  | Unspecified => 0 | Established => 1 | SynSent => 2 | SynReceived => 3 | FinWait1 => 4 | FinWait2 => 5
  | TimeWait => 6 | CloseWait => 7 | LastAck => 8 | Closing => 9 | Listen => 10
  end.

Record TcpConnectionEvent := {
  tce_type : Z; tce_source_ip : str; tce_source_port : Z; tce_destination_ip : str; tce_destination_port : Z;
  tce_state : Z; tce_duration_ms : Z; tce_bytes_sent : Z; tce_bytes_received : Z; tce_pid : Z; tce_process_name : str;
}.

Record DnsQueryEvent := {
  dqe_query_name : str; dqe_query_type : str; dqe_resolved_ips : list str; dqe_response_code : str;
  dqe_ttl_seconds : Z; dqe_latency_ms : f64; dqe_pid : Z; dqe_process_name : str;
}.

Record HttpRequestEvent := {
  hre_method : str; hre_path : str; hre_http_version : str; hre_status_code : Z; hre_latency_ms : f64;
  hre_request_bytes : Z; hre_response_bytes : Z; hre_source_ip : str; hre_destination_ip : str;
  hre_destination_port : Z; hre_pid : Z; hre_process_name : str; hre_host : str; hre_user_agent : str;
}.

Record DbQueryMessage := {
  dqm_protocol : str; dqm_query : str; dqm_query_type : str; dqm_database : str; dqm_latency_ms : f64;
  dqm_row_count : Z; dqm_error_message : str; dqm_source_ip : str; dqm_destination_ip : str;
  dqm_destination_port : Z; dqm_pid : Z; dqm_process_name : str;
}.

Inductive pb_event :=
  | PbTcpConnection (e : TcpConnectionEvent)
  | PbDnsQuery (e : DnsQueryEvent)
  | PbHttpRequest (e : HttpRequestEvent)
  | PbDbQuery (e : DbQueryMessage).

(** The message: when it was made, and the event. *)
Record pb_network_event := { ne_timestamp : Z; ne_event : pb_event }.

(** ** Conversion *)

Definition as_i32 (x : Z) : Z := let w := x mod 2 ^ 32 in if w <? 2 ^ 31 then w else w - 2 ^ 32.

Definition one_of_names (s : str) (names : list string) : bool := existsb (λ n, bool_decide (s = ascii_bytes n)) names.

Definition tcp_state_from_str (state : str) : TcpState :=
  if one_of_names state ["ESTABLISHED"] then Established
  else if one_of_names state ["SYN_SENT"] then SynSent
  else if one_of_names state ["SYN_RECV"; "SYN_RECEIVED"] then SynReceived
  else if one_of_names state ["FIN_WAIT1"; "FIN_WAIT_1"] then FinWait1
  else if one_of_names state ["FIN_WAIT2"; "FIN_WAIT_2"] then FinWait2
  else if one_of_names state ["TIME_WAIT"] then TimeWait
  else if one_of_names state ["CLOSE_WAIT"] then CloseWait
  else if one_of_names state ["LAST_ACK"] then LastAck
  else if one_of_names state ["CLOSING"] then Closing
  else if one_of_names state ["LISTEN"] then Listen
  else if one_of_names state ["CLOSED"] then Unspecified
  else Unspecified.

Definition convert_network_event (now : Z) (event : NetworkEvent) : pb_network_event := {|
  ne_timestamp := now;
  ne_event :=
    match event with
    | TcpConnection source_ip source_port destination_ip destination_port state pid process_name =>
        PbTcpConnection {|
          tce_type := event_type_number Connect;
          tce_source_ip := source_ip; tce_source_port := as_i32 source_port;
          tce_destination_ip := destination_ip; tce_destination_port := as_i32 destination_port;
          tce_state := state_number (tcp_state_from_str state);
          tce_duration_ms := 0; tce_bytes_sent := 0; tce_bytes_received := 0;
          tce_pid := as_i32 pid; tce_process_name := process_name |}
    | DnsQuery query_name resolved_ips latency_ms pid =>
        PbDnsQuery {|
          dqe_query_name := query_name; dqe_query_type := []; dqe_resolved_ips := resolved_ips;
          dqe_response_code := []; dqe_ttl_seconds := 0; dqe_latency_ms := latency_ms;
          dqe_pid := as_i32 pid; dqe_process_name := [] |}
    | HttpRequest method path status_code latency_ms source_ip destination_ip destination_port pid =>
        PbHttpRequest {|
          hre_method := method; hre_path := path; hre_http_version := []; hre_status_code := as_i32 status_code;
          hre_latency_ms := latency_ms; hre_request_bytes := 0; hre_response_bytes := 0;
          hre_source_ip := source_ip; hre_destination_ip := destination_ip;
          hre_destination_port := as_i32 destination_port; hre_pid := as_i32 pid;
          hre_process_name := []; hre_host := []; hre_user_agent := [] |}
    | DbQuery protocol query latency_ms destination_ip destination_port pid =>
        PbDbQuery {|
          dqm_protocol := protocol; dqm_query := query; dqm_query_type := []; dqm_database := [];
          dqm_latency_ms := latency_ms; dqm_row_count := 0; dqm_error_message := []; dqm_source_ip := [];
          dqm_destination_ip := destination_ip; dqm_destination_port := as_i32 destination_port;
          dqm_pid := as_i32 pid; dqm_process_name := [] |}
    end |}.

(** ** Lemmas *)

Lemma as_i32_id x : 0 <= x < 2 ^ 31 -> as_i32 x = x.
Proof.
  intros Hx. unfold as_i32. rewrite Z.mod_small by lia. cbv zeta. by rewrite (proj2 (Z.ltb_lt _ _)) by lia.
Qed.

Lemma as_i32_range x : - 2 ^ 31 <= as_i32 x < 2 ^ 31.
Proof.
  unfold as_i32. pose proof (Z.mod_pos_bound x (2 ^ 32) ltac:(lia)). cbv zeta. case_match; lia.
Qed.

(** The state number that reaches the cluster is the kernel's own up to 10:
    what the consumer calls CLOSE_WAIT, LAST_ACK and CLOSING is CLOSE,
    CLOSE_WAIT and LAST_ACK in the kernel; CLOSING (11) is not told. *)
Lemma state_number_sent code :
  state_number (tcp_state_from_str (tcp_state_name code)) = if (1 <=? code) && (code <=? 10) then code else 0.
Proof.
  destruct (decide (1 <= code <= 10)) as [H|H].
  - assert (code ∈ [1; 2; 3; 4; 5; 6; 7; 8; 9; 10]) as Hc by (rewrite !elem_of_cons; lia).
    repeat (apply elem_of_cons in Hc as [->|Hc]; [by vm_compute|]). by apply elem_of_nil in Hc.
  - replace (tcp_state_name code) with (ascii_bytes "UNKNOWN").
    + replace ((1 <=? code) && (code <=? 10)) with false by lia. by vm_compute.
    + unfold tcp_state_name. f_equal. destruct code as [|p|p]; [done| |done].
      do 4 (destruct p as [p|p|]; try done; try lia).
Qed.
