(* ===== verification/Agent.v ===== *)
(** * The agent's event loop

    [run_ebpf] of mod.rs with the three programs it loads, their consumers and
    the report to the cluster as one system: probes fire at any moment; an
    iteration of the loop polls the three ring buffers, drains the three
    consumers and hands what they held to the client as one batch, which it
    converts to protobuf messages.  What the client does with a batch is in
    [Report]. *)

From S2P Require Import Prelude Bytes CLayout CObject Common Bpf BpfRef LayoutFacts ProbeObject.
From S2P Require ClusterEvent.
From S2P Require Import TcpTracker Emitter DnsMapper HttpInspector RustSlice RustStr Consumer TcpConsumer.
From S2P Require DnsConsumer HttpConsumer.
From S2P Require Import EndToEnd.

#[local] Set Warnings "-clear-no-such-hyp".
#[local] Open Scope string_scope.
#[local] Open Scope list_scope.
#[local] Open Scope Z_scope.

Abbreviation handle_dns_event := DnsConsumer.handle_dns_event.
Abbreviation handle_http_event := HttpConsumer.handle_http_event.
Abbreviation convert_network_event := ClusterEvent.convert_network_event.

(** What [send_network_events_proto] is called with, and the messages of the
    batch it builds. *)
Record batch := {
  ba_events : list NetworkEvent;
  ba_messages : list ClusterEvent.pb_network_event;
}.

Section agent.
Context {HW : Helpers} {HM : BpfHash tcp_event} {HR : Ringbuf} {PL : Plain}.
Context (exclude_ports : list Z) (proc_comm : Z -> option str).

Abbreviation sender := (@pstate unit no_map HR).

Record agent := {
  ag_tcp : sys;
  ag_dns : sender; ag_cache : DnsConsumer.dns_cache;
  ag_http : sender; ag_queue : list NetworkEvent;
  ag_batches : list batch;
}.

Definition agent_init : agent := {|
  ag_tcp := Sys tcp_init ∅; ag_dns := em_init; ag_cache := ∅;
  ag_http := em_init; ag_queue := []; ag_batches := [] |}.

Inductive agent_label :=
  | TcpProbe (w : world) (c : tcp_call)
  | DnsProbe (w : world) (c : send_call)
  | HttpProbe (w : world) (c : send_call)
  | Iteration (polled drained : Z).

(** *** [rb.poll(Duration::ZERO)]: the callback runs for every record there is *)

Definition poll_tcp (now : Z) (s : sys) : sys :=
  foldl (λ s l, sys_step exclude_ports l s) s (replicate (length (records (sys_kernel s))) (Poll now)).

Definition poll_dns (now : Z) (st : sender) (cache : DnsConsumer.dns_cache) : sender * DnsConsumer.dns_cache :=
  (foldl (λ st l, dns_step l st) st (replicate (length (records st)) Read),
   foldl (λ cache bs, (handle_dns_event exclude_ports proc_comm now bs cache).2) cache (records st)).

Definition handle_http_records (recs : list (list byte)) (queue : list NetworkEvent) : panics (list NetworkEvent) :=
  foldl (λ q bs, queue ← q; snd <$> handle_http_event exclude_ports queue bs) (Some queue) recs.

Definition poll_http (st : sender) (queue : list NetworkEvent) : panics (sender * list NetworkEvent) :=
  queue ← handle_http_records (records st) queue;
  Some (foldl (λ st l, http_step l st) st (replicate (length (records st)) Read), queue).

(** *** Reporting *)

Definition batch_of (now : Z) (all_events : list NetworkEvent) : batch :=
  {| ba_events := all_events; ba_messages := convert_network_event now <$> all_events |}.

(** The batches of a call with these events: an empty batch is not sent. *)
Definition batches_of (now : Z) (all_events : list NetworkEvent) : list batch :=
  if bool_decide (all_events = []) then [] else [batch_of now all_events].

(** Polling and draining: the events of one iteration of the loop. *)
Definition collect_events (polled drained : Z) (a : agent) : panics (list NetworkEvent * agent) :=
  let tcp := poll_tcp polled (ag_tcp a) in
  let '(dns, cache) := poll_dns polled (ag_dns a) (ag_cache a) in
  '(http, queue) ← poll_http (ag_http a) (ag_queue a);
  let tcp_events := (drain_events drained (sys_conns tcp)).1 in
  let '(dns_events, cache) := DnsConsumer.dns_drain_events drained cache in
  let '(http_events, queue) := HttpConsumer.http_drain_events queue in
  Some (tcp_events ++ dns_events ++ http_events,
    {| ag_tcp := sys_step exclude_ports (Drain drained) tcp; ag_dns := dns; ag_cache := cache;
       ag_http := http; ag_queue := queue; ag_batches := ag_batches a |}).

Definition hand_over (bs : list batch) (a : agent) : agent := {|
  ag_tcp := ag_tcp a; ag_dns := ag_dns a; ag_cache := ag_cache a; ag_http := ag_http a;
  ag_queue := ag_queue a; ag_batches := ag_batches a ++ bs |}.

(** The body of the loop, up to the call of [send_network_events_proto]. *)
Definition iteration (polled drained : Z) (a : agent) : panics agent :=
  '(all_events, a) ← collect_events polled drained a;
  Some (hand_over (batches_of drained all_events) a).

Definition agent_step (l : agent_label) (a : agent) : panics agent :=
  match l with
  | TcpProbe w c => Some {|
      ag_tcp := sys_step exclude_ports (Probe w c) (ag_tcp a); ag_dns := ag_dns a; ag_cache := ag_cache a;
      ag_http := ag_http a; ag_queue := ag_queue a; ag_batches := ag_batches a |}
  | DnsProbe w c => Some {|
      ag_tcp := ag_tcp a; ag_dns := dns_step (Invoke w c) (ag_dns a); ag_cache := ag_cache a;
      ag_http := ag_http a; ag_queue := ag_queue a; ag_batches := ag_batches a |}
  | HttpProbe w c => Some {|
      ag_tcp := ag_tcp a; ag_dns := ag_dns a; ag_cache := ag_cache a;
      ag_http := http_step (Invoke w c) (ag_http a); ag_queue := ag_queue a;
      ag_batches := ag_batches a |}
  | Iteration polled drained => iteration polled drained a
  end.

Definition agent_run (ls : list agent_label) : panics agent :=
  foldl (λ a l, a ← a; agent_step l a) (Some agent_init) ls.

(** ** One step *)

(** What a step is for the TCP system of [EndToEnd]. *)
Definition tcp_labels (l : agent_label) (a : agent) : list sys_label :=
  match l with
  | TcpProbe w c => [Probe w c]
  | Iteration polled drained => replicate (length (records (sys_kernel (ag_tcp a)))) (Poll polled) ++ [Drain drained]
  | _ => []
  end.

(** The batch an iteration sends when the other two consumers have nothing. *)
Definition tcp_batches (l : agent_label) (a : agent) : list batch :=
  match l with
  | Iteration polled drained => batches_of drained (drain_events drained (sys_conns (poll_tcp polled (ag_tcp a)))).1
  | _ => []
  end.

(** The DNS and HTTP programs have been running since the start, and their
    consumers hold nothing. *)
Definition silent (a : agent) : Prop :=
  (exists ls, ag_dns a = dns_run ls em_init) /\ (exists ls, ag_http a = http_run ls em_init) /\
  ag_cache a = ∅ /\ ag_queue a = [].

Lemma dns_trace_app ls ls' : foldl (λ st l, dns_step l st) (dns_run ls em_init) ls' = dns_run (ls ++ ls') em_init.
Proof using Type. unfold dns_run, em_trace, obj_run, trace_run. by rewrite foldl_app. Qed.

Lemma http_trace_app ls ls' : foldl (λ st l, http_step l st) (http_run ls em_init) ls' = http_run (ls ++ ls') em_init.
Proof using Type. unfold http_run, em_trace, obj_run, trace_run. by rewrite foldl_app. Qed.

Lemma dns_records_ignored ls now recs cache :
  (forall bs, bs ∈ recs -> bs ∈ records (dns_run ls em_init)) ->
  foldl (λ cache bs, (handle_dns_event exclude_ports proc_comm now bs cache).2) cache recs = cache.
Proof using Type.
  induction recs as [|bs recs IH]; intros H; [done|]. simpl.
  rewrite (DnsConsumer.dns_pipeline_silent ls) by (apply H; by left). apply IH. intros b Hb. apply H. by right.
Qed.

Lemma http_records_ignored ls recs queue :
  (forall bs, bs ∈ recs -> bs ∈ records (http_run ls em_init)) ->
  handle_http_records recs queue = Some queue.
Proof using Type.
  unfold handle_http_records. induction recs as [|bs recs IH]; intros H; [done|]. simpl.
  rewrite (HttpConsumer.http_pipeline_silent ls) by (apply H; by left). apply IH. intros b Hb. apply H. by right.
Qed.

(** What is collected are the events of the TCP consumer. *)
Lemma collect_silent polled drained a :
  silent a ->
  collect_events polled drained a = Some ((drain_events drained (sys_conns (poll_tcp polled (ag_tcp a)))).1,
    {| ag_tcp := sys_step exclude_ports (Drain drained) (poll_tcp polled (ag_tcp a));
       ag_dns := foldl (λ st l, dns_step l st) (ag_dns a) (replicate (length (records (ag_dns a))) Read);
       ag_cache := ∅;
       ag_http := foldl (λ st l, http_step l st) (ag_http a) (replicate (length (records (ag_http a))) Read);
       ag_queue := []; ag_batches := ag_batches a |}).
Proof using Type.
  intros ([dls Hd] & [hls Hh] & Hc & Hq). unfold collect_events, poll_dns, poll_http.
  rewrite Hc, Hq, Hd, Hh. rewrite (dns_records_ignored dls) by done. rewrite (http_records_ignored hls) by done.
  cbn [mbind option_bind]. unfold DnsConsumer.dns_drain_events, HttpConsumer.http_drain_events.
  rewrite map_filter_empty, map_to_list_empty. cbn [fmap list_fmap app]. by rewrite app_nil_r.
Qed.

Lemma agent_step_silent l a :
  silent a ->
  exists a', agent_step l a = Some a' /\ silent a' /\
    ag_tcp a' = foldl (λ s l, sys_step exclude_ports l s) (ag_tcp a) (tcp_labels l a) /\
    ag_batches a' = ag_batches a ++ tcp_batches l a.
Proof using Type.
  intros Hs. pose proof Hs as ([dls Hd] & [hls Hh] & Hc & Hq). destruct l as [w c|w c|w c|polled drained].
  - eexists. split; [done|]. unfold silent. cbn. rewrite app_nil_r. by split_and!; [exists dls|exists hls|..].
  - eexists. split; [done|]. unfold silent. cbn. rewrite app_nil_r. split_and!; [|by exists hls|done..].
    exists (dls ++ [Invoke w c]). by rewrite Hd, <- dns_trace_app.
  - eexists. split; [done|]. unfold silent. cbn. rewrite app_nil_r. split_and!; [by exists dls| |done..].
    exists (hls ++ [Invoke w c]). by rewrite Hh, <- http_trace_app.
  - cbn [agent_step tcp_labels tcp_batches]. unfold iteration. rewrite collect_silent by done.
    cbn [mbind option_bind]. eexists. split; [done|]. rewrite foldl_app. fold (poll_tcp polled (ag_tcp a)).
    unfold silent. cbn [hand_over ag_tcp ag_dns ag_cache ag_http ag_queue ag_batches].
    rewrite Hd, Hh, dns_trace_app, http_trace_app. by split_and!; [eexists|eexists|..].
Qed.

(** ** Traces *)

Fixpoint sys_labels (ls : list agent_label) (a : agent) : list sys_label :=
  match ls with
  | [] => []
  | l :: ls => tcp_labels l a ++ match agent_step l a with Some a' => sys_labels ls a' | None => [] end
  end.

Definition agent_steps (ls : list agent_label) (a : agent) : panics agent :=
  foldl (λ a l, a ← a; agent_step l a) (Some a) ls.

Lemma agent_steps_cons l ls a : agent_steps (l :: ls) a = a' ← agent_step l a; agent_steps ls a'.
Proof using Type.
  unfold agent_steps. simpl. destruct (agent_step l a) as [a'|]; [done|]. simpl.
  induction ls as [|l' ls IH]; [done|]. apply IH.
Qed.

Lemma agent_steps_app ls ls' a : agent_steps (ls ++ ls') a = a' ← agent_steps ls a; agent_steps ls' a'.
Proof using Type.
  revert a. induction ls as [|l ls IH]; intros a; [done|]. simpl app. rewrite !agent_steps_cons.
  destruct (agent_step l a) as [a'|]; simpl; [apply IH|done].
Qed.

Lemma agent_steps_silent ls a :
  silent a ->
  exists a', agent_steps ls a = Some a' /\ silent a' /\
    ag_tcp a' = foldl (λ s l, sys_step exclude_ports l s) (ag_tcp a) (sys_labels ls a).
Proof using Type.
  revert a. induction ls as [|l ls IH]; intros a Ha; [by exists a|]. rewrite agent_steps_cons. simpl.
  destruct (agent_step_silent l a Ha) as (a' & -> & Ha' & Ht & _). simpl.
  destruct (IH a' Ha') as (a2 & -> & Ha2 & Ht2). exists a2. split_and!; [done..|].
  by rewrite foldl_app, <- Ht.
Qed.

Lemma init_silent : silent agent_init.
Proof using Type. split_and!; [by exists []|by exists []|done..]. Qed.

Lemma agent_returns ls : exists a, agent_run ls = Some a.
Proof using Type. destruct (agent_steps_silent ls agent_init init_silent) as (a & Ha & _). by exists a. Qed.

Lemma agent_tcp ls a :
  agent_run ls = Some a -> silent a /\ ag_tcp a = sys_run exclude_ports (sys_labels ls agent_init).
Proof using Type.
  intros H. destruct (agent_steps_silent ls agent_init init_silent) as (a' & Ha & Hs & Ht).
  unfold agent_run in H. unfold agent_steps in Ha. rewrite Ha in H. by injection H as <-.
Qed.

Lemma sys_labels_app ls ls' a a' :
  agent_steps ls a = Some a' -> sys_labels (ls ++ ls') a = sys_labels ls a ++ sys_labels ls' a'.
Proof using Type.
  revert a. induction ls as [|l ls IH]; intros a; [by intros [= ->]|]. rewrite agent_steps_cons. simpl.
  destruct (agent_step l a) as [a1|]; [|done]. simpl. intros H. by rewrite (IH _ H), app_assoc.
Qed.

Lemma kernel_labels_app (ls ls' : list sys_label) : kernel_labels (ls ++ ls') = kernel_labels ls ++ kernel_labels ls'.
Proof using Type. unfold kernel_labels. by rewrite fmap_app, concat_app. Qed.

Lemma kernel_labels_polls n t (l : tcp_label) : l ∈ kernel_labels (replicate n (Poll t)) -> l = Read.
Proof using Type.
  induction n as [|n IH]; [by intros ?%elem_of_nil|]. unfold kernel_labels in *. simpl.
  by intros [->|?]%elem_of_cons; [|apply IH].
Qed.

(** Kernel functions are only seen when a TCP probe fires. *)
Lemma sys_labels_probes ls a w c :
  Invoke w c ∈ kernel_labels (sys_labels ls a) -> TcpProbe w c ∈ ls.
Proof using Type.
  revert a. induction ls as [|l ls IH]; intros a; [by intros ?%elem_of_nil|].
  simpl. rewrite kernel_labels_app. intros [H|H]%elem_of_app.
  - destruct l as [w' c'|w' c'|w' c'|p d]; simpl in H.
    + apply list_elem_of_singleton in H. injection H as <- <-. by left.
    + by apply elem_of_nil in H.
    + by apply elem_of_nil in H.
    + rewrite kernel_labels_app in H. apply elem_of_app in H as [H%kernel_labels_polls|H%elem_of_nil]; done.
  - right. destruct (agent_step l a) as [a'|]; [by eapply IH|by apply elem_of_nil in H].
Qed.

(** ** Properties *)

(** The message says what a probe saw: a probe of the TCP tracker fired on the
    socket, whose ports are not excluded; the message is a CONNECT of its
    addresses and ports by the process that was running, in a state that is
    ESTABLISHED, TIME_WAIT or the kernel's CLOSE (7). *)
Definition seen_connection (ls : list agent_label) (m : ClusterEvent.pb_network_event) : Prop :=
  exists w sk c state, TcpProbe w c ∈ ls /\ (c = Connect sk \/ exists st, c = SetState sk st) /\
    (skc_read w sk "skc_num" ∉ exclude_ports) /\ (bpf_ntohs (skc_read w sk "skc_dport") ∉ exclude_ports) /\
    state ∈ [1; 6; 7] /\
    ClusterEvent.ne_event m = ClusterEvent.PbTcpConnection {|
      ClusterEvent.tce_type := 1;
      ClusterEvent.tce_source_ip := format_ip (skc_read w sk "skc_rcv_saddr");
      ClusterEvent.tce_source_port := ClusterEvent.as_i32 (skc_read w sk "skc_num");
      ClusterEvent.tce_destination_ip := format_ip (skc_read w sk "skc_daddr");
      ClusterEvent.tce_destination_port := ClusterEvent.as_i32 (bpf_ntohs (skc_read w sk "skc_dport"));
      ClusterEvent.tce_state := state;
      ClusterEvent.tce_duration_ms := 0; ClusterEvent.tce_bytes_sent := 0; ClusterEvent.tce_bytes_received := 0;
      ClusterEvent.tce_pid := ClusterEvent.as_i32 (w_pid_tgid w / 2 ^ 32);
      ClusterEvent.tce_process_name := from_utf8_lossy (cstr (w_comm w (Z.to_nat MAX_COMM_LEN))) |}.

Lemma seen_connection_snoc ls l m : seen_connection ls m -> seen_connection (ls ++ [l]) m.
Proof using Type. intros (w & sk & c & st & H & ?). exists w, sk, c, st. split; [apply elem_of_app; by left|done]. Qed.

Lemma drained_seen ls a polled drained ev :
  agent_run ls = Some a -> ev ∈ (drain_events drained (sys_conns (poll_tcp polled (ag_tcp a)))).1 ->
  seen_connection ls (convert_network_event drained ev).
Proof using Type.
  intros Ha Hev. destruct (agent_tcp ls a Ha) as [_ Ht].
  replace (poll_tcp polled (ag_tcp a)) with
    (sys_run exclude_ports (sys_labels ls agent_init ++ replicate (length (records (sys_kernel (ag_tcp a)))) (Poll polled)))
    in Hev by by (unfold poll_tcp, sys_run; rewrite foldl_app; unfold sys_run in Ht; by rewrite <- Ht).
  apply reported_connections_are_real in Hev as (w & sk & state & Hl & Hn & Hp & Hst & ->).
  assert (exists c, Invoke w c ∈ kernel_labels (sys_labels ls agent_init) /\
    (c = Connect sk \/ exists st, c = SetState sk st)) as (c & Hc & Hk).
  { unfold looked_at in Hl. rewrite kernel_labels_app, !elem_of_app in Hl.
    destruct Hl as [[H|H%kernel_labels_polls]|[st H]]; [|done|]; [eauto|].
    rewrite elem_of_app in H. destruct H as [H|H%kernel_labels_polls]; [eauto|done]. }
  apply sys_labels_probes in Hc.
  exists w, sk, c, (ClusterEvent.state_number (ClusterEvent.tcp_state_from_str state)). split_and!; try done.
  repeat (apply elem_of_cons in Hst as [->|Hst]; [apply (bool_decide_unpack _); by vm_compute|]).
  by apply elem_of_nil in Hst.
Qed.

(** [C6] What the cluster can learn from the eBPF observer: whatever the probes
    of the three programs see and whenever the loop runs, the loop does not
    panic, the DNS cache and the queue of HTTP events stay empty, and every
    message of every batch is a TCP connection that was seen in a socket. *)
Theorem agent_sends_only_connections ls :
  exists a, agent_run ls = Some a /\ ag_cache a = ∅ /\ ag_queue a = [] /\
    forall b m, b ∈ ag_batches a -> m ∈ ba_messages b -> seen_connection ls m.
Proof using Type.
  induction ls as [|l ls (a & Ha & _ & _ & Hb)] using rev_ind.
  { exists agent_init. split_and!; [done..|]. by intros b m ?%elem_of_nil. }
  destruct (agent_tcp ls a Ha) as [Hs _]. destruct (agent_step_silent l a Hs) as (a' & Hstep & Hs' & _ & Hbs).
  exists a'. split; [|split_and!; [apply Hs'|apply Hs'|]].
  { unfold agent_run in *. rewrite foldl_app, Ha. exact Hstep. }
  intros b m. rewrite Hbs, elem_of_app. intros [H|H] Hm; [by eapply seen_connection_snoc, Hb|].
  destruct l as [| | |polled drained]; cbn [tcp_batches] in H; try by apply elem_of_nil in H.
  unfold batches_of in H. case_bool_decide; [by apply elem_of_nil in H|].
  apply list_elem_of_singleton in H. subst b. cbn [ba_messages batch_of] in Hm.
  apply list_elem_of_fmap in Hm as (ev & -> & Hev). apply seen_connection_snoc. by eapply drained_seen.
Qed.

(** The label does not involve thread [t]'s connects. *)
Definition agent_quiet (t : Z) (l : agent_label) : Prop :=
  match l with TcpProbe w c => quiet t (Probe w c) | _ => True end.

Lemma sys_labels_quiet t ls a : Forall (agent_quiet t) ls -> Forall (quiet t) (sys_labels ls a).
Proof using Type.
  intros H. revert a. induction H as [|l ls Hl _ IH]; intros a; [constructor|]. simpl. apply Forall_app_2.
  - destruct l; simpl; try done; [by constructor|]. apply Forall_app_2; [|by repeat constructor].
    apply Forall_replicate. by repeat constructor.
  - destruct (agent_step l a); [apply IH|constructor].
Qed.

(** When a thread starts a connect on a socket whose first 16 bytes are [bs] and
    the connect returns 0 - with room in the map and the ring, whatever the
    other threads, the other programs and iterations of the loop do in between -
    the next iteration collects the connection: addresses and ports as the
    socket has them, established, with the process and its name. *)
Lemma connect_collected ls w0 sk bs mid w1 polled drained a0 a1 :
  agent_run ls = Some a0 -> agent_run (ls ++ TcpProbe w0 (Connect sk) :: mid) = Some a1 ->
  read_mem (w_kmem w0) sk 16 = Some bs ->
  Z.of_nat (size (hm_abs (ps_map (sys_kernel (ag_tcp a0))))) < hm_max_entries ->
  w_pid_tgid w1 = w_pid_tgid w0 ->
  Forall (agent_quiet (w_pid_tgid w0)) mid ->
  ~ ring_full (sys_kernel (ag_tcp a1)) sizeof_tcp_event ->
  ~ excluded exclude_ports (key_of (sock_event w0 sk 0 0)) ->
  drained - polled <= 300 * 10 ^ 9 ->
  exists a2 events a3, agent_step (TcpProbe w1 (ConnectRet 0)) a1 = Some a2 /\
    collect_events polled drained a2 = Some (events, a3) /\
    connection_of bs (ascii_bytes "ESTABLISHED") (w_pid_tgid w0 / 2 ^ 32)
      (w_comm w0 (Z.to_nat MAX_COMM_LEN)) ∈ events.
Proof using Type.
  intros H0 H1 Hm Hroom Ht Hmid Hring Hx Hnow.
  destruct (agent_tcp _ _ H0) as [_ E0]. destruct (agent_tcp _ _ H1) as [Hs1 E1].
  destruct (agent_step_silent (TcpProbe w1 (ConnectRet 0)) a1 Hs1) as (a' & Hstep & Hs' & E' & _).
  assert (exists mid', sys_labels (ls ++ TcpProbe w0 (Connect sk) :: mid) agent_init =
    sys_labels ls agent_init ++ Probe w0 (Connect sk) :: mid' /\ Forall (quiet (w_pid_tgid w0)) mid') as (mid' & Hl & Hq).
  { rewrite (sys_labels_app _ _ _ a0) by exact H0. simpl. eexists. split; [done|]. by apply sys_labels_quiet. }
  rewrite Hl in E1.
  assert (ag_tcp a' = sys_run exclude_ports ((sys_labels ls agent_init ++ Probe w0 (Connect sk) :: mid') ++
    [Probe w1 (ConnectRet 0)])) as Ea.
  { rewrite E', E1. unfold sys_run. by rewrite (foldl_app _ (_ ++ _)). }
  pose proof (connect_reaches_observer exclude_ports (sys_labels ls agent_init) w0 sk bs mid' w1 polled drained) as Hc.
  cbv zeta in Hc. rewrite <- Ea, <- E1, <- E0 in Hc. specialize (Hc Hm Hroom Ht Hq Hring Hx Hnow).
  assert (forall n, sys_run exclude_ports (((sys_labels ls agent_init ++ Probe w0 (Connect sk) :: mid') ++
    [Probe w1 (ConnectRet 0)]) ++ replicate n (Poll polled)) =
    foldl (λ s l, sys_step exclude_ports l s) (ag_tcp a') (replicate n (Poll polled))) as Hpoll.
  { intros n. rewrite Ea. unfold sys_run. by rewrite (foldl_app _ (_ ++ [_])). }
  rewrite Hpoll in Hc. fold (poll_tcp polled (ag_tcp a')) in Hc.
  eexists a', _, _. split; [exact Hstep|]. split; [by apply collect_silent|exact Hc].
Qed.
End agent.
