(* ===== verification/RustFloat.v ===== *)
(** * Rust's f64

    The operations of [f64] that flow control and reconnection use, on the
    specification of IEEE arithmetic in the Standard Library ([SpecFloat]). *)

From Stdlib Require Import SpecFloat.
From S2P Require Import Prelude Consumer.

#[local] Open Scope Z_scope.

Definition f64_one : f64 := S754_finite false 4503599627370496 (-52).
(** [0.5], [2.0] and [0.9] *)
Definition f64_half : f64 := S754_finite false 4503599627370496 (-53).
Definition f64_two : f64 := S754_finite false 4503599627370496 (-51).
Definition nine_tenths : f64 := S754_finite false 8106479329266893 (-53).

Definition f64_lt (x y : f64) : bool := SFltb x y.
Definition f64_zero_lt (x : f64) : bool := f64_lt f64_zero x.
Definition f64_add (x y : f64) : f64 := SFadd 53 1024 x y.
Definition f64_sub (x y : f64) : f64 := SFsub 53 1024 x y.
Definition f64_mul (x y : f64) : f64 := SFmul 53 1024 x y.
Definition f64_quot (x y : f64) : f64 := SFdiv 53 1024 x y.

(** [n as f64], and the [f32] of a signal [as f64]. *)
Definition u64_as_f64 (n : Z) : f64 := binary_normalize 53 1024 n 0 false.
Definition f32_as_f64 (x : spec_float) : f64 :=
  match x with
  | S754_finite s m e => binary_normalize 53 1024 (cond_Zopp s (Zpos m)) e s
  | _ => x
  end.

(** [2.0_f64.powi(n)] *)
Definition f64_pow2 (n : Z) : f64 := binary_normalize 53 1024 1 n false.

(** [x.min(y)] and [x.max(y)]: of a NaN and a number, the number. *)
Definition is_nan (x : f64) : bool := match x with S754_nan => true | _ => false end.
Definition f64_min (x y : f64) : f64 := if is_nan x then y else if f64_lt y x then y else x.
Definition f64_max (x y : f64) : f64 := if is_nan x then y else if f64_lt x y then y else x.

(** [x as u64]: towards zero, saturating, a NaN is zero. *)
Definition f64_as_u64 (x : f64) : Z :=
  match x with
  | S754_finite false m e => Z.min (2 ^ 64 - 1) (if 0 <=? e then Zpos m * 2 ^ e else Z.div (Zpos m) (2 ^ (- e)))
  | S754_infinity false => 2 ^ 64 - 1
  | _ => 0
  end.
