(* ===== verification/Sqlite.v ===== *)
(** * What the edge buffer uses of SQLite and bincode

    [edge_buffer.rs] keeps entries that do not fit in memory in one SQLite
    table, as blobs that bincode makes of them.  Neither library is in the
    repository: [BufferDb] and [Bincode] are interfaces, one operation per
    statement or call of the source, with what the statement's SQL, or bincode's
    documentation, says as laws.  [ref_db] and [ref_bincode] are executable
    instances. *)

From S2P Require Import Prelude Bytes.
From stdpp Require Import sorting.

#[local] Open Scope list_scope.
#[local] Open Scope Z_scope.

(** A row of the table [buffer]. *)
Record row := Row {
  row_id : Z;
  row_data_type : list byte;
  row_data : list byte;
  row_priority : Z;
  row_retry_count : Z;
  row_created_at : Z;
  row_sent_at : option Z;
}.

#[global] Instance row_eq_dec : EqDecision row.
Proof. solve_decision. Defined.

Definition pending (rs : list row) : list row := filter (λ r, row_sent_at r = None) rs.

(** [ORDER BY priority ASC, created_at ASC]: says nothing of equal rows. *)
Definition drain_order (r s : row) : Prop :=
  row_priority r < row_priority s \/
  row_priority r = row_priority s /\ row_created_at r <= row_created_at s.

#[global] Instance drain_order_dec : RelDecision drain_order.
Proof. intros r s. unfold drain_order. apply _. Defined.

#[global] Instance drain_order_total : Total drain_order.
Proof. intros r s. unfold drain_order. lia. Qed.

#[global] Instance drain_order_trans : Transitive drain_order.
Proof. intros r s t. unfold drain_order. lia. Qed.

Definition mark_row_sent (now id : Z) (r : row) : row :=
  if decide (row_id r = id)
  then Row (row_id r) (row_data_type r) (row_data r) (row_priority r) (row_retry_count r)
         (row_created_at r) (Some now)
  else r.

Definition mark_row_retry (id : Z) (r : row) : row :=
  if decide (row_id r = id)
  then Row (row_id r) (row_data_type r) (row_data r) (row_priority r) (row_retry_count r + 1)
         (row_created_at r) (row_sent_at r)
  else r.

Definition with_id (id : Z) (rs : list row) : list row := filter (λ r, row_id r = id) rs.
Definition created_before (cutoff : Z) (rs : list row) : list row := filter (λ r, row_created_at r < cutoff) rs.
Definition created_since (cutoff : Z) (rs : list row) : list row := filter (λ r, ~ row_created_at r < cutoff) rs.

Definition oldest (rs : list row) : Z :=
  match row_created_at <$> rs with [] => 0 | t :: ts => foldr Z.min t ts end.

(** A connection and the table behind it.  [disk] is what a statement meets (a
    full disk, a locked file): a statement that fails leaves the table as it
    was. *)
Class BufferDb := {
  conn : Type;
  disk : Type;
  db_wf : conn -> Prop;
  db_rows : conn -> list row;
  (** [AUTOINCREMENT]: the ids to come start here. *)
  db_seq : conn -> Z;

  sql_insert : disk -> list byte -> list byte -> Z -> conn -> option conn;
  sql_delete_before : disk -> Z -> conn -> option (Z * conn);
  sql_delete_all : disk -> conn -> option (Z * conn);
  sql_select_pending : disk -> Z -> conn -> option (list row);
  sql_set_sent : disk -> Z -> Z -> conn -> option (Z * conn);
  sql_incr_retry : disk -> Z -> conn -> option (Z * conn);
  sql_sum_pending : disk -> conn -> option Z;
  sql_min_created : disk -> conn -> option Z;
  sql_count_pending : disk -> conn -> option Z;

  db_ids c : db_wf c -> NoDup (row_id <$> db_rows c) /\ Forall (λ r, 0 < row_id r < db_seq c) (db_rows c);
  sql_insert_rows d dt blob now c c' :
    db_wf c -> sql_insert d dt blob now c = Some c' ->
    db_wf c' /\ exists id, db_seq c <= id < db_seq c' /\
      db_rows c' = db_rows c ++ [Row id dt blob 2 0 now None];
  sql_delete_before_rows d cutoff c n c' :
    db_wf c -> sql_delete_before d cutoff c = Some (n, c') ->
    db_wf c' /\ db_seq c' = db_seq c /\
    n = Z.of_nat (length (created_before cutoff (db_rows c))) /\
    db_rows c' = created_since cutoff (db_rows c);
  sql_delete_all_rows d c n c' :
    db_wf c -> sql_delete_all d c = Some (n, c') ->
    db_wf c' /\ db_seq c' = db_seq c /\ n = Z.of_nat (length (db_rows c)) /\ db_rows c' = [];
  sql_select_pending_rows d limit c rs :
    db_wf c -> sql_select_pending d limit c = Some rs ->
    exists sorted, sorted ≡ₚ pending (db_rows c) /\ StronglySorted drain_order sorted /\
      rs = take (Z.to_nat limit) sorted;
  sql_set_sent_rows d now id c n c' :
    db_wf c -> sql_set_sent d now id c = Some (n, c') ->
    db_wf c' /\ db_seq c' = db_seq c /\ n = Z.of_nat (length (with_id id (db_rows c))) /\
    db_rows c' = mark_row_sent now id <$> db_rows c;
  sql_incr_retry_rows d id c n c' :
    db_wf c -> sql_incr_retry d id c = Some (n, c') ->
    db_wf c' /\ db_seq c' = db_seq c /\ n = Z.of_nat (length (with_id id (db_rows c))) /\
    db_rows c' = mark_row_retry id <$> db_rows c;
  sql_sum_pending_rows d c total :
    db_wf c -> sql_sum_pending d c = Some total ->
    total = Z.of_nat (sum_list_with (λ r, length (row_data r)) (pending (db_rows c)));
  sql_min_created_rows d c t :
    db_wf c -> sql_min_created d c = Some t -> t = oldest (pending (db_rows c));
  sql_count_pending_rows d c n :
    db_wf c -> sql_count_pending d c = Some n -> n = Z.of_nat (length (pending (db_rows c)));
}.

(** What the source serializes. *)
Record SqlitePayload := { sp_sequence_number : Z; sp_data : list byte }.

Class Bincode := {
  bincode_serialize : SqlitePayload -> option (list byte);
  bincode_deserialize : list byte -> option SqlitePayload;
  bincode_roundtrip p blob : bincode_serialize p = Some blob -> bincode_deserialize blob = Some p;
}.

(** ** Rows found again *)

Lemma pending_spec r rs : r ∈ pending rs <-> r ∈ rs /\ row_sent_at r = None.
Proof. unfold pending. rewrite list_elem_of_filter. tauto. Qed.

(** An id names one row. *)
Lemma row_by_id rs r s : NoDup (row_id <$> rs) -> r ∈ rs -> s ∈ rs -> row_id r = row_id s -> r = s.
Proof.
  induction rs as [|t rs IH]; simpl; [by intros _ ?%elem_of_nil|].
  intros [Ht Hnd]%NoDup_cons Hr Hs Hrs.
  apply elem_of_cons in Hr as [->|Hr], Hs as [->|Hs]; [done|..|by apply IH];
    exfalso; apply Ht; [rewrite Hrs|rewrite <- Hrs]; by apply list_elem_of_fmap_2.
Qed.

(** ** Reference instances

    The table in memory, the next id beside it; every statement works while
    [d] is [true]. *)

Record ref_conn := RefConn { rc_rows : list row; rc_seq : Z }.

Definition ref_wf (c : ref_conn) : Prop :=
  0 < rc_seq c /\ NoDup (row_id <$> rc_rows c) /\ Forall (λ r, 0 < row_id r < rc_seq c) (rc_rows c).

Definition when {A} (d : bool) (a : A) : option A := if d then Some a else None.

Definition ref_update (f : row -> row) (id : Z) (d : bool) (c : ref_conn) : option (Z * ref_conn) :=
  when d (Z.of_nat (length (with_id id (rc_rows c))), RefConn (f <$> rc_rows c) (rc_seq c)).

Lemma when_some {A} d (a b : A) : when d a = Some b -> a = b.
Proof. destruct d; [by intros [= ->]|done]. Qed.

Lemma ref_wf_filter (P : row -> Prop) `{forall r, Decision (P r)} c :
  ref_wf c -> ref_wf (RefConn (filter P (rc_rows c)) (rc_seq c)).
Proof.
  intros (Hp & Hn & Hu). split_and!; simpl; [done| |].
  2: { rewrite Forall_forall in *. intros r [_ Hr]%list_elem_of_filter. by apply Hu. }
  eapply sublist_NoDup; [exact Hn|apply fmap_sublist, sublist_filter].
Qed.

Lemma ref_wf_map f c : (forall r, row_id (f r) = row_id r) ->
  ref_wf c -> ref_wf (RefConn (f <$> rc_rows c) (rc_seq c)).
Proof.
  intros Hf (Hp & Hn & Hu). split_and!; simpl; [done| |].
  - rewrite <- list_fmap_compose. rewrite (list_fmap_ext _ row_id _ (λ i r _, Hf r)). done.
  - apply Forall_fmap. eapply Forall_impl; [exact Hu|]. intros r. simpl. by rewrite Hf.
Qed.

Lemma mark_row_sent_id now id r : row_id (mark_row_sent now id r) = row_id r.
Proof. unfold mark_row_sent. by case_decide. Qed.
Lemma mark_row_retry_id id r : row_id (mark_row_retry id r) = row_id r.
Proof. unfold mark_row_retry. by case_decide. Qed.

#[global, program] Definition ref_db : BufferDb := {|
  conn := ref_conn;
  disk := bool;
  db_wf := ref_wf;
  db_rows := rc_rows;
  db_seq := rc_seq;
  sql_insert d dt blob now c :=
    when d (RefConn (rc_rows c ++ [Row (rc_seq c) dt blob 2 0 now None]) (rc_seq c + 1));
  sql_delete_before d cutoff c :=
    when d (Z.of_nat (length (created_before cutoff (rc_rows c))),
            RefConn (created_since cutoff (rc_rows c)) (rc_seq c));
  sql_delete_all d c := when d (Z.of_nat (length (rc_rows c)), RefConn [] (rc_seq c));
  sql_select_pending d limit c :=
    when d (take (Z.to_nat limit) (merge_sort drain_order (pending (rc_rows c))));
  sql_set_sent d now id := ref_update (mark_row_sent now id) id d;
  sql_incr_retry d id := ref_update (mark_row_retry id) id d;
  sql_sum_pending d c := when d (Z.of_nat (sum_list_with (λ r, length (row_data r)) (pending (rc_rows c))));
  sql_min_created d c := when d (oldest (pending (rc_rows c)));
  sql_count_pending d c := when d (Z.of_nat (length (pending (rc_rows c)))) |}.
Next Obligation. intros c (_ & Hn & Hu). by split. Qed.
Next Obligation.
  intros d dt blob now c c' (Hp & Hn & Hu) <-%when_some. simpl. split; [split_and!; simpl|].
  - lia.
  - rewrite fmap_app. apply NoDup_app. split_and!; [done| |apply NoDup_singleton].
    intros id (r & -> & Hr)%list_elem_of_fmap Hid%list_elem_of_singleton. simpl in Hid.
    rewrite Forall_forall in Hu. apply Hu in Hr. lia.
  - apply Forall_app_2; [|repeat constructor; simpl; lia].
    eapply Forall_impl; [exact Hu|]. simpl. lia.
  - exists (rc_seq c). split; [lia|done].
Qed.
Next Obligation.
  intros d cutoff c n c' Hc [= <- <-]%when_some. split; [|by repeat split]. by apply ref_wf_filter.
Qed.
Next Obligation.
  intros d c n c' (Hp & _ & _) [= <- <-]%when_some. split; [|by repeat split].
  split_and!; simpl; [done|constructor|constructor].
Qed.
Next Obligation.
  intros d limit c rs _ <-%when_some. exists (merge_sort drain_order (pending (rc_rows c))).
  split_and!; [apply merge_sort_Permutation| |done]. apply (StronglySorted_merge_sort _).
Qed.
Next Obligation.
  intros d now id c n c' Hc [= <- <-]%when_some. split; [|by repeat split].
  apply ref_wf_map; [apply mark_row_sent_id|done].
Qed.
Next Obligation.
  intros d id c n c' Hc [= <- <-]%when_some. split; [|by repeat split].
  apply ref_wf_map; [apply mark_row_retry_id|done].
Qed.
Next Obligation. by intros d c total _ <-%when_some. Qed.
Next Obligation. by intros d c t _ <-%when_some. Qed.
Next Obligation. by intros d c n _ <-%when_some. Qed.

(** bincode's default format: little-endian integers of fixed size, a vector
    after its length. *)
#[program] Definition ref_bincode : Bincode := {|
  bincode_serialize p :=
    let n := Z.of_nat (length (sp_data p)) in
    if decide (in_range 64 (sp_sequence_number p) /\ in_range 64 n)
    then Some (le_bytes 8 (sp_sequence_number p) ++ le_bytes 8 n ++ sp_data p) else None;
  bincode_deserialize blob :=
    let n := le_val (slice 8 8 blob) in
    if decide (16 + n <= Z.of_nat (length blob))
    then Some {| sp_sequence_number := le_val (take 8 blob); sp_data := slice 16 (Z.to_nat n) blob |}
    else None |}.
Next Obligation.
  intros [seq bs] blob. cbv zeta. cbn [sp_data sp_sequence_number]. case_decide as Hr; [|done]. destruct Hr as [Hs Hn].
  intros <-%(inj Some). set (n := Z.of_nat (length bs)) in *.
  assert (slice 8 8 (le_bytes 8 seq ++ le_bytes 8 n ++ bs) = le_bytes 8 n) as ->.
  { unfold slice. by rewrite drop_app_length', take_app_length' by (by rewrite length_le_bytes). }
  rewrite !(le_val_le_bytes_id 8 64) by done.
  rewrite !length_app, !length_le_bytes. rewrite decide_True by lia. f_equal. f_equal.
  - rewrite take_app_length' by (by rewrite length_le_bytes). by apply (le_val_le_bytes_id 8 64).
  - unfold slice. rewrite app_assoc, drop_app_length' by (by rewrite length_app, !length_le_bytes).
    apply take_ge. unfold n. lia.
Qed.
