(* ===== verification/EdgeBuffer.v ===== *)
(** * communication/edge_buffer.rs

    The agent's edge buffer: what could not be sent waits in a queue in memory
    and, where SQLite is configured, in a table on disk.  One definition per
    method of [EdgeBuffer]; the clocks and the disk are what a [moment] holds,
    one for each point where a method reads them.  Here a method runs without
    another one in between, which the code does not ensure: [EdgeBufferTasks]
    has the interleavings. *)

From stdpp Require Import functions.
From S2P Require Import Prelude Bytes RustSlice Sqlite.

#[local] Open Scope string_scope.
#[local] Open Scope list_scope.
#[local] Open Scope Z_scope.

Definition SQLITE_DRAIN_BATCH_SIZE : Z := 1000.

Inductive DataType := Metrics | Traces | Events | NetworkEvents.

#[global] Instance DataType_eq_dec : EqDecision DataType.
Proof. solve_decision. Defined.

Definition as_str (dt : DataType) : list byte :=
  match dt with
  | Metrics => ascii_bytes "metrics"
  | Traces => ascii_bytes "traces"
  | Events => ascii_bytes "events"
  | NetworkEvents => ascii_bytes "network_events"
  end.

Definition from_str (s : list byte) : option DataType :=
  if decide (s = ascii_bytes "metrics") then Some Metrics
  else if decide (s = ascii_bytes "traces") then Some Traces
  else if decide (s = ascii_bytes "events") then Some Events
  else if decide (s = ascii_bytes "network_events") then Some NetworkEvents
  else None.

Record BufferEntry := {
  sequence_number : Z;
  created_at : Z;
  data : list byte;
  data_type : DataType;
  sqlite_row_id : option Z;
}.

(** Times in nanoseconds.  [max_entries] and the settings of the disk are read
    nowhere. *)
Record EdgeBufferConfig := {
  max_memory_bytes : Z;
  max_entries : Z;
  entry_ttl : Z;
  disk_spill_dir : list byte;
  disk_spill_enabled : bool;
  max_disk_bytes : Z;
  sqlite_path : option (list byte);
}.

Definition default_config : EdgeBufferConfig := {|
  max_memory_bytes := 100 * 1024 * 1024;
  max_entries := 100000;
  entry_ttl := 24 * 60 * 60 * 10 ^ 9;
  disk_spill_dir := ascii_bytes "/tmp/paryty-edge-buffer";
  disk_spill_enabled := true;
  max_disk_bytes := 1024 * 1024 * 1024;
  sqlite_path := None |}.

(** The counters of [BufferMetrics], by name. *)
Inductive metric :=
  | entries_written | entries_read | entries_evicted | entries_disk_spilled
  | current_memory_bytes | current_entry_count | disk_bytes_used
  | entries_spilled_sqlite | entries_drained_sqlite.

#[global] Instance metric_eq_dec : EqDecision metric.
Proof. solve_decision. Defined.

Abbreviation BufferMetrics := (metric -> Z).

(** [as i64], and subtraction that saturates. *)
Definition as_i64 (x : Z) : Z := let w := wrap 64 x in if w <? 2 ^ 63 then w else w - 2 ^ 64.
Definition saturating_sub_i64 (x y : Z) : Z := Z.max (- 2 ^ 63) (Z.min (2 ^ 63 - 1) (x - y)).

Section buffer.
Context {DB : BufferDb} {BC : Bincode}.
Context (config : EdgeBufferConfig).

(** What a method finds when it looks: the monotonic clock, the wall clock in
    seconds since 1970, the disk. *)
Record moment := Moment { instant : Z; epoch_secs : Z; disk_now : disk }.

Record EdgeBuffer := {
  buffer : list BufferEntry;
  memory_usage : Z;
  sequence_counter : Z;
  metrics : BufferMetrics;
  running : bool;
  db : option conn;
}.

Implicit Types eb : EdgeBuffer.
Implicit Types m : moment.

Definition with_buffer (b : list BufferEntry) (usage : Z) eb : EdgeBuffer := {|
  buffer := b; memory_usage := usage; sequence_counter := sequence_counter eb;
  metrics := metrics eb; running := running eb; db := db eb |}.

Definition with_metrics (ms : BufferMetrics) eb : EdgeBuffer := {|
  buffer := buffer eb; memory_usage := memory_usage eb; sequence_counter := sequence_counter eb;
  metrics := ms; running := running eb; db := db eb |}.

Definition with_db (c : conn) eb : EdgeBuffer := {|
  buffer := buffer eb; memory_usage := memory_usage eb; sequence_counter := sequence_counter eb;
  metrics := metrics eb; running := running eb; db := Some c |}.

(** [fetch_add], [fetch_sub] and [store] on a counter. *)
Definition metric_add (k : metric) (n : Z) eb : EdgeBuffer :=
  with_metrics (<[k := wrap 64 (metrics eb k + n)]> (metrics eb)) eb.
Definition metric_sub (k : metric) (n : Z) eb : EdgeBuffer :=
  with_metrics (<[k := wrap 64 (metrics eb k - n)]> (metrics eb)) eb.
Definition metric_store (k : metric) (n : Z) eb : EdgeBuffer :=
  with_metrics (<[k := n]> (metrics eb)) eb.

Definition size (e : BufferEntry) : Z := len (data e).
Definition total_size (l : list BufferEntry) : Z := foldr (λ e n, size e + n) 0 l.
Definition count (l : list BufferEntry) : Z := Z.of_nat (length l).

(** [opened]: what [init_sqlite] makes of the path. *)
Definition new (opened : option conn) : EdgeBuffer := {|
  buffer := []; memory_usage := 0; sequence_counter := 1; metrics := λ _, 0; running := true;
  db := match sqlite_path config with Some _ => opened | None => None end |}.

(** [pop_front] of [e] before [l] in the two loops that evict. *)
Definition evict_front (e : BufferEntry) (l : list BufferEntry) eb : EdgeBuffer :=
  metric_sub current_entry_count 1 (metric_add entries_evicted 1
    (with_buffer l (wrap 64 (memory_usage eb - size e)) eb)).

Definition evict_oldest eb : bool * EdgeBuffer :=
  match buffer eb with
  | e :: l => (true, evict_front e l eb)
  | [] => (false, eb)
  end.

(** The loop over the front of the queue, whose entries are [l]. *)
Fixpoint evict_expired_loop (now : Z) (l : list BufferEntry) eb : EdgeBuffer :=
  match l with
  | e :: l =>
      if entry_ttl config <? Z.max 0 (now - created_at e)
      then evict_expired_loop now l (evict_front e l eb)
      else eb
  | [] => eb
  end.

Definition evict_expired_sqlite m eb : EdgeBuffer :=
  match db eb with
  | None => eb
  | Some c =>
      let cutoff := saturating_sub_i64 (epoch_secs m) (as_i64 (entry_ttl config / 10 ^ 9)) in
      match sql_delete_before (disk_now m) cutoff c with
      | Some (deleted, c) =>
          if 0 <? deleted then metric_add entries_evicted deleted (with_db c eb) else with_db c eb
      | None => eb
      end
  end.

Definition evict_expired m eb : EdgeBuffer :=
  evict_expired_sqlite m (evict_expired_loop (instant m) (buffer eb) eb).

Definition spill_to_sqlite m (c : conn) (e : BufferEntry) : option conn :=
  blob ← bincode_serialize {| sp_sequence_number := sequence_number e; sp_data := data e |};
  sql_insert (disk_now m) (as_str (data_type e)) blob (epoch_secs m) c.

(** The memory has no room for [n] more bytes. *)
Definition is_full (n : Z) eb : bool := max_memory_bytes config <? wrap 64 (memory_usage eb + n).

(** The loop that evicts the oldest entries, [l], until there is room. *)
Fixpoint make_room (n : Z) (l : list BufferEntry) eb : EdgeBuffer :=
  if is_full n eb
  then match l with
       | e :: l => make_room n l (evict_front e l eb)
       | [] => eb
       end
  else eb.

Definition push_back (e : BufferEntry) eb : EdgeBuffer :=
  let eb := with_buffer (buffer eb ++ [e]) (memory_usage eb) eb in
  let eb := with_buffer (buffer eb) (wrap 64 (memory_usage eb + size e)) eb in
  let eb := metric_add entries_written 1 eb in
  let eb := metric_store current_memory_bytes (memory_usage eb) eb in
  metric_add current_entry_count 1 eb.

(** The entry is created at [m0], expired ones are evicted at [m1], it is
    spilled at [m2].  The result is always [Ok] of the sequence number. *)
Definition write m0 m1 m2 (bytes : list byte) (dt : DataType) eb : Z * EdgeBuffer :=
  let seq := sequence_counter eb in
  let eb := {| buffer := buffer eb; memory_usage := memory_usage eb;
               sequence_counter := wrap 64 (seq + 1);
               metrics := metrics eb; running := running eb; db := db eb |} in
  let entry := {| sequence_number := seq; created_at := instant m0; data := bytes;
                  data_type := dt; sqlite_row_id := None |} in
  let eb := evict_expired m1 eb in
  if is_full (size entry) eb
  then
    match (c ← db eb; spill_to_sqlite m2 c entry) with
    | Some c =>
        (seq, metric_add entries_written 1 (metric_add entries_spilled_sqlite 1 (with_db c eb)))
    | None => (seq, push_back entry (make_room (size entry) (buffer eb) eb))
    end
  else (seq, push_back entry eb).

Definition read (n : nat) eb : list BufferEntry * EdgeBuffer :=
  let drain_count := Nat.min n (length (buffer eb)) in
  let entries := take drain_count (buffer eb) in
  let eb := with_buffer (drop drain_count (buffer eb))
              (wrap 64 (memory_usage eb - total_size entries)) eb in
  let eb := metric_add entries_read (count entries) eb in
  let eb := metric_store current_memory_bytes (memory_usage eb) eb in
  (entries, metric_sub current_entry_count (count entries) eb).

Definition peek (n : nat) eb : list BufferEntry := take n (buffer eb).

(** [None]: a blob that is not a payload. *)
Definition entry_of_row (now : Z) (r : row) : option BufferEntry :=
  payload ← bincode_deserialize (row_data r);
  Some {| sequence_number := sp_sequence_number payload;
          created_at := now;
          data := sp_data payload;
          data_type := default Metrics (from_str (row_data_type r));
          sqlite_row_id := Some (row_id r) |}.

(** [None]: an error. *)
Definition drain_sqlite_pending m (c : conn) : option (list BufferEntry) :=
  rows ← sql_select_pending (disk_now m) SQLITE_DRAIN_BATCH_SIZE c;
  mapM (entry_of_row (instant m)) rows.

Definition drain m eb : list BufferEntry * EdgeBuffer :=
  let entries := buffer eb in
  let eb := with_buffer [] (wrap 64 (memory_usage eb - total_size entries)) eb in
  let eb := metric_add entries_read (count entries) eb in
  let eb := metric_store current_memory_bytes 0 eb in
  let eb := metric_store current_entry_count 0 eb in
  match (c ← db eb; drain_sqlite_pending m c) with
  | Some sqlite_entries =>
      (entries ++ sqlite_entries, metric_add entries_drained_sqlite (count sqlite_entries) eb)
  | None => (entries, eb)
  end.

Definition drain_by_type (dt : DataType) eb : list BufferEntry * EdgeBuffer :=
  let entries := filter (λ e, data_type e = dt) (buffer eb) in
  let retained := filter (λ e, data_type e <> dt) (buffer eb) in
  let eb := with_buffer retained (wrap 64 (memory_usage eb - total_size entries)) eb in
  let eb := metric_add entries_read (count entries) eb in
  (entries, metric_sub current_entry_count (count entries) eb).

(** [free]: nobody holds the lock of the queue. *)
Definition delete_all_backlog (free : bool) m eb : EdgeBuffer :=
  let drained := if free then count (buffer eb) else 0 in
  let eb := if free then with_buffer [] (memory_usage eb) eb else eb in
  let eb := if 0 <? drained
            then metric_store current_entry_count 0 (with_buffer (buffer eb) 0 eb) else eb in
  match db eb with
  | None => eb
  | Some c =>
      match sql_delete_all (disk_now m) c with
      | Some (_, c) => with_db c eb
      | None => eb
      end
  end.

(** [None]: an error. *)
Definition mark_sent m (row_id : Z) eb : option EdgeBuffer :=
  c ← db eb;
  r ← sql_set_sent (disk_now m) (epoch_secs m) row_id c;
  Some (with_db r.2 eb).

Definition mark_retry m (row_id : Z) eb : option EdgeBuffer :=
  c ← db eb;
  r ← sql_incr_retry (disk_now m) row_id c;
  Some (with_db r.2 eb).

Definition persistent_size m eb : Z :=
  match db eb with None => 0 | Some c => wrap 64 (default 0 (sql_sum_pending (disk_now m) c)) end.

Definition oldest_entry_timestamp m eb : Z :=
  match db eb with None => 0 | Some c => default 0 (sql_min_created (disk_now m) c) end.

Definition sqlite_pending_count m eb : option Z :=
  match db eb with None => Some 0 | Some c => sql_count_pending (disk_now m) c end.

Definition shutdown eb : EdgeBuffer := {|
  buffer := buffer eb; memory_usage := memory_usage eb; sequence_counter := sequence_counter eb;
  metrics := metrics eb; running := false; db := db eb |}.
End buffer.
