(* ===== verification/EdgeBufferSpec.v ===== *)
(** * What the edge buffer promises

    The buffer as a queue, a table and the fate of every entry ever written
    ([buffer_spec]), that the code implements it ([edge_buffer_refines]), and
    what follows: how much memory it takes, which entries can be lost, and that
    what is spilled to disk comes back until it has been sent. *)

From stdpp Require Import functions sorting.
From S2P Require Import Prelude Bytes RustSlice Sqlite EdgeBuffer.

#[local] Set Warnings "-clear-no-such-hyp".
#[local] Open Scope list_scope.
#[local] Open Scope Z_scope.

#[local] Arguments total_size : simpl never.
#[local] Arguments count : simpl never.

Lemma total_size_nil : total_size [] = 0.
Proof. done. Qed.

Lemma count_nil : count [] = 0.
Proof. done. Qed.

Lemma total_size_cons e l : total_size (e :: l) = size e + total_size l.
Proof. done. Qed.

Lemma count_cons e l : count (e :: l) = 1 + count l.
Proof. unfold count. simpl. lia. Qed.

Lemma size_nonneg e : 0 <= size e.
Proof. unfold size. apply len_nonneg. Qed.

Lemma total_size_nonneg l : 0 <= total_size l.
Proof. induction l as [|e l IH]; [done|]. rewrite total_size_cons. pose proof (size_nonneg e). lia. Qed.

Lemma total_size_app l1 l2 : total_size (l1 ++ l2) = total_size l1 + total_size l2.
Proof. induction l1 as [|e l1 IH]; [done|]. simpl. rewrite !total_size_cons. lia. Qed.

Lemma total_size_filter (P : BufferEntry -> Prop) `{forall e, Decision (P e)} l :
  total_size (filter P l) + total_size (filter (λ e, ~ P e) l) = total_size l.
Proof.
  induction l as [|e l IH]; [done|]. rewrite !filter_cons.
  destruct (decide (P e)) as [He|He].
  - rewrite (decide_False (P := ~ P e)) by tauto. rewrite !total_size_cons. lia.
  - rewrite (decide_True (P := ~ P e)) by done. rewrite !total_size_cons. lia.
Qed.

Lemma count_filter (P : BufferEntry -> Prop) `{forall e, Decision (P e)} l :
  count (filter P l) + count (filter (λ e, ~ P e) l) = count l.
Proof.
  unfold count. induction l as [|e l IH]; [done|]. rewrite !filter_cons.
  destruct (decide (P e)) as [He|He].
  - rewrite (decide_False (P := ~ P e)) by tauto. simpl. lia.
  - rewrite (decide_True (P := ~ P e)) by done. simpl. lia.
Qed.

Lemma count_app l1 l2 : count (l1 ++ l2) = count l1 + count l2.
Proof. unfold count. rewrite length_app. lia. Qed.

Section spec.
Context {DB : BufferDb} {BC : Bincode}.
Context (config : EdgeBufferConfig).
Implicit Types eb : EdgeBuffer.
Implicit Types m : moment.

(** ** The operations as labels *)

Inductive op :=
  | Write m0 m1 m2 (bytes : list byte) (dt : DataType)
  | ReadSome (n : nat)
  | Drain m
  | DrainByType (dt : DataType)
  | MarkSent m (id : Z)
  | MarkRetry m (id : Z)
  | DeleteBacklog (free : bool) m.

(** What an operation returns, and the buffer after it. *)
Definition step (o : op) eb : list BufferEntry * EdgeBuffer :=
  match o with
  | Write m0 m1 m2 bytes dt => ([], (write config m0 m1 m2 bytes dt eb).2)
  | ReadSome n => read n eb
  | Drain m => drain m eb
  | DrainByType dt => drain_by_type dt eb
  | MarkSent m id => ([], default eb (mark_sent m id eb))
  | MarkRetry m id => ([], default eb (mark_retry m id eb))
  | DeleteBacklog free m => ([], delete_all_backlog free m eb)
  end.

Definition steps (os : list op) eb : EdgeBuffer := foldl (λ eb o, (step o eb).2) eb os.

(** What each of the operations returns. *)
Fixpoint results (os : list op) eb : list (list BufferEntry) :=
  match os with
  | o :: os => (step o eb).1 :: results os (step o eb).2
  | [] => []
  end.

Lemma steps_snoc os o eb : steps (os ++ [o]) eb = (step o (steps os eb)).2.
Proof using Type. unfold steps. by rewrite foldl_app. Qed.

Lemma results_snoc os o eb : results (os ++ [o]) eb = results os eb ++ [(step o (steps os eb)).1].
Proof using Type. revert eb. induction os as [|o' os IH]; intros eb; simpl; [done|]. by rewrite IH. Qed.

(** ** The specification *)

(** The queue, the table, the next sequence number, and where entries that are
    not in the queue went: handed out, spilled, lost. *)
Record abs := Abs {
  ab_queue : list BufferEntry;
  ab_table : option (list row);
  ab_next : Z;
  ab_out : list BufferEntry;
  ab_spilled : list BufferEntry;
  ab_lost : list BufferEntry;
}.

Definition expired (now : Z) (e : BufferEntry) : Prop := entry_ttl config < Z.max 0 (now - created_at e).

(** The expired entries at the front of the queue. *)
Definition expires (now : Z) (q old q1 : list BufferEntry) : Prop :=
  q = old ++ q1 /\ Forall (expired now) old /\ forall e, head q1 = Some e -> ~ expired now e.

Definition cutoff m : Z := saturating_sub_i64 (epoch_secs m) (as_i64 (entry_ttl config / 10 ^ 9)).

(** A statement changed the table as [f] says, or failed. *)
Definition may_change (f : list row -> list row) (t t' : option (list row)) : Prop :=
  t' = t \/ t' = f <$> t.

(** The fewest entries at the front whose leaving makes room for [n] bytes. *)
Definition makes_room (n : Z) (q old q1 : list BufferEntry) : Prop :=
  q = old ++ q1 /\
  (total_size q1 + n <= max_memory_bytes config \/ q1 = []) /\
  forall e l, old = l ++ [e] -> max_memory_bytes config < total_size (e :: q1) + n.

Definition new_entry m (seq : Z) (bytes : list byte) (dt : DataType) : BufferEntry := {|
  sequence_number := seq; created_at := instant m; data := bytes; data_type := dt;
  sqlite_row_id := None |}.

(** What [drain] finds in the table: none when the statement fails, else up to
    1000 pending rows, oldest first. *)
Definition drains (now : Z) (t : option (list row)) (es : list BufferEntry) : Prop :=
  es = [] \/
  exists rs sorted, t = Some rs /\ sorted ≡ₚ pending rs /\ StronglySorted drain_order sorted /\
    mapM (entry_of_row now) (take 1000 sorted) = Some es.

(** There is no table, or it does not take the entry. *)
Definition refused m (seq : Z) (bytes : list byte) (dt : DataType) (t : option (list row)) : Prop :=
  t = None \/ bincode_serialize {| sp_sequence_number := seq; sp_data := bytes |} = None \/
  exists c blob, t = Some (db_rows c) /\
    bincode_serialize {| sp_sequence_number := seq; sp_data := bytes |} = Some blob /\
    sql_insert (disk_now m) (as_str dt) blob (epoch_secs m) c = None.

Inductive buffer_spec : op -> abs -> list BufferEntry -> abs -> Prop :=
  | spec_queued m0 m1 m2 bytes dt q t next out sp lost old q1 t1 :
      expires (instant m1) q old q1 -> may_change (created_since (cutoff m1)) t t1 ->
      total_size q1 + len bytes <= max_memory_bytes config ->
      buffer_spec (Write m0 m1 m2 bytes dt) (Abs q t next out sp lost) []
        (Abs (q1 ++ [new_entry m0 next bytes dt]) t1 (wrap 64 (next + 1)) out sp (lost ++ old))
  | spec_spilled m0 m1 m2 bytes dt q t next out sp lost old q1 rs1 blob id :
      expires (instant m1) q old q1 -> may_change (created_since (cutoff m1)) t (Some rs1) ->
      max_memory_bytes config < total_size q1 + len bytes ->
      bincode_serialize {| sp_sequence_number := next; sp_data := bytes |} = Some blob ->
      Forall (λ r, row_id r < id) rs1 ->
      buffer_spec (Write m0 m1 m2 bytes dt) (Abs q t next out sp lost) []
        (Abs q1 (Some (rs1 ++ [Row id (as_str dt) blob 2 0 (epoch_secs m2) None])) (wrap 64 (next + 1))
          out (sp ++ [new_entry m0 next bytes dt]) (lost ++ old))
  | spec_evicting m0 m1 m2 bytes dt q t next out sp lost old q1 t1 more q2 :
      expires (instant m1) q old q1 -> may_change (created_since (cutoff m1)) t t1 ->
      max_memory_bytes config < total_size q1 + len bytes ->
      makes_room (len bytes) q1 more q2 ->
      refused m2 next bytes dt t1 ->
      buffer_spec (Write m0 m1 m2 bytes dt) (Abs q t next out sp lost) []
        (Abs (q2 ++ [new_entry m0 next bytes dt]) t1 (wrap 64 (next + 1)) out sp (lost ++ old ++ more))
  | spec_read n q t next out sp lost :
      buffer_spec (ReadSome n) (Abs q t next out sp lost) (take n q)
        (Abs (drop n q) t next (out ++ take n q) sp lost)
  | spec_drain m q t next out sp lost es :
      drains (instant m) t es ->
      buffer_spec (Drain m) (Abs q t next out sp lost) (q ++ es) (Abs [] t next (out ++ q) sp lost)
  | spec_drain_by_type dt q t next out sp lost :
      buffer_spec (DrainByType dt) (Abs q t next out sp lost) (filter (λ e, data_type e = dt) q)
        (Abs (filter (λ e, data_type e <> dt) q) t next (out ++ filter (λ e, data_type e = dt) q) sp lost)
  | spec_mark_sent m id q t t1 next out sp lost :
      may_change (fmap (mark_row_sent (epoch_secs m) id)) t t1 ->
      buffer_spec (MarkSent m id) (Abs q t next out sp lost) [] (Abs q t1 next out sp lost)
  | spec_mark_retry m id q t t1 next out sp lost :
      may_change (fmap (mark_row_retry id)) t t1 ->
      buffer_spec (MarkRetry m id) (Abs q t next out sp lost) [] (Abs q t1 next out sp lost)
  | spec_delete_backlog free m q t t1 next out sp lost :
      may_change (λ _, []) t t1 ->
      buffer_spec (DeleteBacklog free m) (Abs q t next out sp lost) []
        (Abs (if free then [] else q) t1 next out sp (if free then lost ++ q else lost)).

(** Sequences of operations, with what each returns. *)
Inductive spec_steps : list op -> abs -> list (list BufferEntry) -> abs -> Prop :=
  | spec_steps_nil s : spec_steps [] s [] s
  | spec_steps_snoc os o s outs s1 es s2 :
      spec_steps os s outs s1 -> buffer_spec o s1 es s2 -> spec_steps (os ++ [o]) s (outs ++ [es]) s2.

(** ** What a buffer stands for *)

(** More than the limit is kept only while it is one entry. *)
Definition bounded (q : list BufferEntry) : Prop :=
  total_size q <= max_memory_bytes config \/ exists e, q = [e].

Record rel eb (s : abs) : Prop := {
  rl_queue : buffer eb = ab_queue s;
  rl_usage : memory_usage eb = total_size (ab_queue s);
  rl_count : metrics eb current_entry_count = wrap 64 (count (ab_queue s));
  rl_next : sequence_counter eb = ab_next s;
  rl_wf c : db eb = Some c -> db_wf c;
  rl_table : ab_table s = db_rows <$> db eb;
  rl_sizes : Forall (λ e, size e < 2 ^ 63) (ab_queue s);
  rl_bounded : bounded (ab_queue s);
}.

(** *** The loops *)

(** What the loops over the front of the queue leave as it is. *)
Definition same_rest eb eb' : Prop :=
  sequence_counter eb' = sequence_counter eb /\ db eb' = db eb /\ running eb' = running eb.

(** The counters agree with the queue. *)
Definition counted eb : Prop :=
  memory_usage eb = total_size (buffer eb) /\ total_size (buffer eb) < 2 ^ 64 /\
  metrics eb current_entry_count = wrap 64 (count (buffer eb)).

Lemma evict_front_counted e l eb :
  buffer eb = e :: l -> counted eb ->
  counted (evict_front e l eb) /\ buffer (evict_front e l eb) = l /\ same_rest eb (evict_front e l eb).
Proof using Type.
  intros Hb (Hu & Hm & Hc). rewrite Hb, total_size_cons in Hu, Hm. rewrite Hb in Hc.
  pose proof (size_nonneg e). pose proof (total_size_nonneg l).
  unfold counted, evict_front, metric_sub, metric_add, with_metrics.
  cbn [buffer memory_usage metrics with_buffer]. split_and!; try done.
  - rewrite Hu, wrap_id by (unfold in_range; lia). lia.
  - lia.
  - rewrite fn_lookup_insert, fn_lookup_insert_ne by done. rewrite Hc, wrap_sub_wrap_l.
    f_equal. rewrite count_cons. lia.
Qed.

Lemma same_rest_trans eb1 eb2 eb3 : same_rest eb1 eb2 -> same_rest eb2 eb3 -> same_rest eb1 eb3.
Proof using Type. unfold same_rest. intros (? & ? & ?) (? & ? & ?). split_and!; congruence. Qed.

Lemma evict_expired_loop_spec now l eb :
  buffer eb = l -> counted eb ->
  let eb' := evict_expired_loop config now l eb in
  (exists old, expires now l old (buffer eb')) /\ counted eb' /\ same_rest eb eb'.
Proof using Type.
  revert eb. induction l as [|e l IH]; intros eb Hb Hc eb'; subst eb'; cbn [evict_expired_loop].
  { split; [|done]. exists []. rewrite Hb. split_and!; [done|constructor|by intros e]. }
  destruct (Z.ltb_spec (entry_ttl config) (Z.max 0 (now - created_at e))) as [He|He].
  - destruct (evict_front_counted e l eb Hb Hc) as (Hc1 & Hb1 & Hs1).
    destruct (IH _ Hb1 Hc1) as ((old & Hl & Ho & Hh) & Hc2 & Hs2).
    split_and!; [|done|by eapply same_rest_trans].
    exists (e :: old). split_and!; [|by constructor|done]. cbn [app]. by rewrite <- Hl.
  - split; [|done]. exists []. rewrite Hb. split_and!; [done|constructor|].
    intros e' [= <-]. unfold expired. lia.
Qed.

Lemma is_full_spec n eb :
  counted eb -> 0 <= n -> total_size (buffer eb) + n < 2 ^ 64 ->
  is_full config n eb = bool_decide (max_memory_bytes config < total_size (buffer eb) + n).
Proof using Type.
  intros (Hu & _) Hn Hr. unfold is_full. pose proof (total_size_nonneg (buffer eb)).
  rewrite Hu, wrap_id by (unfold in_range; lia).
  case_bool_decide; [by apply Z.ltb_lt|by apply Z.ltb_ge; lia].
Qed.

Lemma make_room_spec n l eb :
  buffer eb = l -> counted eb -> 0 <= n -> total_size l + n < 2 ^ 64 ->
  let eb' := make_room config n l eb in
  (exists old, makes_room n l old (buffer eb')) /\ counted eb' /\ same_rest eb eb'.
Proof using Type.
  revert eb. induction l as [|e l IH]; intros eb Hb Hc Hn Hr eb'; subst eb'; cbn [make_room];
    rewrite is_full_spec by (rewrite ?Hb; done); rewrite Hb; case_bool_decide as Hf.
  - split; [|done]. exists []. rewrite Hb. split_and!; [done|by right|]. by intros e [|].
  - split; [|done]. exists []. rewrite Hb. split_and!; [done|by right|]. by intros e [|].
  - rewrite total_size_cons in Hr. pose proof (size_nonneg e).
    destruct (evict_front_counted e l eb Hb Hc) as (Hc1 & Hb1 & Hs1).
    destruct (IH _ Hb1 Hc1) as ((old & Hl & Ho & Hh) & Hc2 & Hs2); [done|lia|].
    split_and!; [|done|by eapply same_rest_trans].
    exists (e :: old). split_and!; [cbn [app]; by rewrite <- Hl|done|].
    intros e' [|e1 k]; cbn [app]; intros [= -> ->]; [by rewrite Hl in Hf|]. by apply (Hh e' k).
  - split; [|done]. exists []. rewrite Hb. split_and!; [done|left; lia|]. by intros e' [|].
Qed.

(** *** The table *)

Lemma evict_expired_sqlite_spec m eb t :
  (forall c, db eb = Some c -> db_wf c) -> t = db_rows <$> db eb ->
  let eb' := evict_expired_sqlite config m eb in
  may_change (created_since (cutoff m)) t (db_rows <$> db eb') /\
  (forall c, db eb' = Some c -> db_wf c) /\
  buffer eb' = buffer eb /\ memory_usage eb' = memory_usage eb /\
  metrics eb' current_entry_count = metrics eb current_entry_count /\
  sequence_counter eb' = sequence_counter eb.
Proof using Type.
  intros Hwf -> eb'. subst eb'. unfold evict_expired_sqlite. fold (cutoff m).
  destruct (db eb) as [c|] eqn:Hc; [|rewrite Hc; split; [by left|done]].
  destruct (sql_delete_before (disk_now m) (cutoff m) c) as [[n c']|] eqn:Hd.
  - apply sql_delete_before_rows in Hd as (Hwf' & _ & _ & Hr); [|by apply Hwf].
    destruct (0 <? n); cbn; (split; [right; by rewrite Hr|]); (split; [by intros ? [= <-]|]);
      split_and!; done.
  - rewrite Hc. split; [by left|]. by split_and!; [intros ? [= <-]; apply Hwf|..].
Qed.

(** *** One operation *)

Lemma push_back_counted e eb :
  counted eb -> total_size (buffer eb) + size e < 2 ^ 64 ->
  let eb' := push_back e eb in
  buffer eb' = buffer eb ++ [e] /\ counted eb' /\ same_rest eb eb'.
Proof using Type.
  intros (Hu & Hm & Hc) Hr eb'. subst eb'. pose proof (size_nonneg e). pose proof (total_size_nonneg (buffer eb)).
  unfold counted, push_back, metric_add, metric_store, with_metrics.
  cbn [buffer memory_usage metrics with_buffer]. rewrite total_size_app, count_app, total_size_cons.
  rewrite total_size_nil. split_and!; try done.
  - rewrite Hu, wrap_id by (unfold in_range; lia). lia.
  - lia.
  - rewrite fn_lookup_insert, !fn_lookup_insert_ne by done. rewrite Hc, wrap_add_wrap_l. done.
Qed.

Context (Hmax : 0 <= max_memory_bytes config <= 2 ^ 63).

Lemma bounded_total q : bounded q -> Forall (λ e, size e < 2 ^ 63) q -> total_size q <= 2 ^ 63.
Proof using Hmax.
  intros [Hq|[e ->]] Hs; [lia|]. apply Forall_cons in Hs as [He _]. rewrite total_size_cons.
  rewrite total_size_nil. lia.
Qed.

Lemma rel_counted eb s : rel eb s -> counted eb.
Proof using Hmax.
  intros Hr. pose proof (bounded_total _ (rl_bounded _ _ Hr) (rl_sizes _ _ Hr)). unfold counted.
  rewrite (rl_queue _ _ Hr), (rl_usage _ _ Hr), (rl_count _ _ Hr). split_and!; [done|lia|done].
Qed.

(** A counted buffer with a good queue stands for its contents. *)
Lemma rel_intro eb t next out sp lost :
  counted eb -> sequence_counter eb = next -> (forall c, db eb = Some c -> db_wf c) ->
  t = db_rows <$> db eb -> Forall (λ e, size e < 2 ^ 63) (buffer eb) -> bounded (buffer eb) ->
  rel eb (Abs (buffer eb) t next out sp lost).
Proof using Type. intros (Hu & _ & Hc) Hn Hw Ht Hs Hb. by split. Qed.

Lemma spill_spec m c e c' :
  db_wf c -> spill_to_sqlite m c e = Some c' ->
  db_wf c' /\ exists blob id,
    bincode_serialize {| sp_sequence_number := sequence_number e; sp_data := data e |} = Some blob /\
    Forall (λ r, row_id r < id) (db_rows c) /\
    db_rows c' = db_rows c ++ [Row id (as_str (data_type e)) blob 2 0 (epoch_secs m) None].
Proof using Type.
  intros Hc (blob & Hb & Hi)%bind_Some. apply sql_insert_rows in Hi as (Hc' & id & Hid & Hr); [|done].
  split; [done|]. exists blob, id. split_and!; [done| |done].
  destruct (db_ids _ Hc) as [_ Hu]. eapply Forall_impl; [exact Hu|]. simpl. lia.
Qed.

Lemma spill_refused m eb e t :
  t = db_rows <$> db eb -> (c ← db eb; spill_to_sqlite m c e) = None ->
  refused m (sequence_number e) (data e) (data_type e) t.
Proof using Type.
  intros -> Hn. unfold refused. destruct (db eb) as [c|]; [|by left]. simpl in Hn. unfold spill_to_sqlite in Hn.
  destruct (bincode_serialize _) as [blob|]; [|by right; left]. right; right. by exists c, blob.
Qed.

(** Between the creation of an entry and its storing. *)
Lemma evict_expired_spec m eb s :
  rel eb s ->
  let eb' := evict_expired config m eb in
  exists old, expires (instant m) (ab_queue s) old (buffer eb') /\
    may_change (created_since (cutoff m)) (ab_table s) (db_rows <$> db eb') /\
    (forall c, db eb' = Some c -> db_wf c) /\ counted eb' /\ sequence_counter eb' = sequence_counter eb.
Proof using Hmax.
  intros Hr eb'. subst eb'. unfold evict_expired. pose proof (rel_counted _ _ Hr) as Hc.
  destruct (evict_expired_loop_spec (instant m) (buffer eb) eb eq_refl Hc) as ((old & Ho) & Hc1 & Hs & Hd & _).
  set (eb1 := evict_expired_loop _ _ _ _) in *.
  destruct (evict_expired_sqlite_spec m eb1 (ab_table s)) as (Ht & Hw & Hb & Hu & Hm & Hq).
  { rewrite Hd. apply (rl_wf _ _ Hr). }
  { rewrite Hd. apply (rl_table _ _ Hr). }
  exists old. unfold counted in *. rewrite Hb, Hu, Hm, Hq, Hs. rewrite <- (rl_queue _ _ Hr).
  exact (conj Ho (conj Ht (conj Hw (conj Hc1 eq_refl)))).
Qed.

Lemma bounded_suffix old q : bounded (old ++ q) -> bounded q.
Proof using Hmax.
  intros [Hq|[e He]].
  - left. rewrite total_size_app in Hq. pose proof (total_size_nonneg old). lia.
  - destruct old; [right; by exists e|]. cbn [app] in He. injection He as _ He.
    apply app_nil in He as [_ ->]. left. rewrite total_size_nil. lia.
Qed.

(** An entry stored in memory. *)
Lemma push_back_rel e eb t next out sp lost :
  counted eb -> sequence_counter eb = next -> (forall c, db eb = Some c -> db_wf c) ->
  t = db_rows <$> db eb -> Forall (λ e, size e < 2 ^ 63) (buffer eb) -> size e < 2 ^ 63 ->
  total_size (buffer eb) <= 2 ^ 63 ->
  total_size (buffer eb) + size e <= max_memory_bytes config \/ buffer eb = [] ->
  rel (push_back e eb) (Abs (buffer eb ++ [e]) t next out sp lost).
Proof using Hmax.
  intros Hc Hn Hw Ht Hs He Htot Hroom.
  destruct (push_back_counted e eb Hc) as (Hb & Hc' & Hq & Hd & _); [lia|].
  rewrite <- Hb. apply rel_intro; [done|congruence|by rewrite Hd|by rewrite Hd|..]; rewrite Hb.
  - apply Forall_app_2; [done|]. by constructor.
  - destruct Hroom as [Hm|Hm]; [left|right; exists e; by rewrite Hm].
    rewrite total_size_app, total_size_cons. rewrite total_size_nil. lia.
Qed.

Lemma write_refines m0 m1 m2 bytes dt eb s :
  len bytes < 2 ^ 63 -> rel eb s ->
  exists s', buffer_spec (Write m0 m1 m2 bytes dt) s (step (Write m0 m1 m2 bytes dt) eb).1 s' /\
    rel (step (Write m0 m1 m2 bytes dt) eb).2 s'.
Proof using Hmax.
  intros Hlen Hr. cbn [step fst snd]. unfold write. cbv zeta.
  set (eb0 := Build_EdgeBuffer _ _ _ _ _ _). set (entry := Build_BufferEntry _ _ _ _ _).
  destruct s as [q t next out sp lost]. pose proof (rl_next _ _ Hr) as Hn. cbn in Hn.
  assert (rel eb0 (Abs q t (wrap 64 (next + 1)) out sp lost)) as Hr0.
  { destruct Hr. split; try done. cbn. by rewrite Hn. }
  pose proof (len_nonneg bytes) as Hpos.
  assert (entry = new_entry m0 next bytes dt) as He by (unfold entry, new_entry; by rewrite Hn).
  destruct (evict_expired_spec m1 eb0 _ Hr0) as (old & Hold & Ht & Hw & Hc & Hq).
  change (sequence_counter eb0) with (wrap 64 (sequence_counter eb + 1)) in Hq. rewrite Hn in Hq.
  cbn [ab_queue ab_table] in Hold, Ht. set (eb1 := evict_expired _ _ _) in *.
  assert (Forall (λ e, size e < 2 ^ 63) (buffer eb1) /\ bounded (buffer eb1)) as [Hs1 Hb1].
  { pose proof (rl_sizes _ _ Hr) as Hs. pose proof (rl_bounded _ _ Hr) as Hb. cbn in Hs, Hb.
    destruct Hold as (Hold & _). rewrite Hold in Hs, Hb.
    split; [by apply Forall_app in Hs as [_ ?]|by eapply bounded_suffix]. }
  pose proof (bounded_total _ Hb1 Hs1) as Htot. change (size entry) with (len bytes).
  rewrite is_full_spec by (done || lia). case_bool_decide as Hfull.
  2: { eexists. split; [eapply spec_queued; [exact Hold|exact Ht|lia]|]. rewrite <- He.
    apply push_back_rel; try done. left. change (size entry) with (len bytes). lia. }
  destruct (c ← db eb1; spill_to_sqlite m2 c entry) as [c'|] eqn:Hsp.
  - apply bind_Some in Hsp as (c & Hdb & Hsp).
    destruct (spill_spec _ _ _ _ (Hw c Hdb) Hsp) as (Hc' & blob & id & Hblob & Hid & Hrows).
    rewrite Hdb in Ht. rewrite He in Hblob. eexists.
    split; [eapply spec_spilled; [exact Hold|exact Ht|done|exact Hblob|exact Hid]|].
    destruct Hc as (Hu & Hm & Hcc). split; cbn; try done; [by intros ? [= <-]|by rewrite Hrows].
  - destruct (make_room_spec (len bytes) (buffer eb1) eb1 eq_refl Hc Hpos ltac:(lia)) as
      ((more & Hmore) & Hc2 & Hs & Hd & _).
    set (eb2 := make_room _ _ _ _) in *. pose proof Hmore as (Hm & Hroom & _).
    rewrite Hm, total_size_app in Htot. pose proof (total_size_nonneg more).
    rewrite Hm in Hs1. apply Forall_app in Hs1 as [_ Hs1]. eexists. split.
    + rewrite He in *. eapply spec_evicting; [exact Hold|exact Ht|done|exact Hmore|].
      by apply (spill_refused m2 eb1 (new_entry m0 next bytes dt)).
    + rewrite <- He. apply push_back_rel; try done; [congruence|by rewrite Hd|by rewrite Hd|lia].
Qed.

(** *** The other operations *)

Lemma drain_pending_drains m eb t es :
  (forall c, db eb = Some c -> db_wf c) -> t = db_rows <$> db eb ->
  (c ← db eb; drain_sqlite_pending m c) = Some es -> drains (instant m) t es.
Proof using Type.
  intros Hw -> (c & Hd & (rs & Hrs & Hes)%bind_Some)%bind_Some. right.
  apply sql_select_pending_rows in Hrs as (sorted & Hp & Hs & ->); [|by apply Hw].
  exists (db_rows c), sorted. by rewrite Hd.
Qed.

(** Entries leave the queue, and nothing else changes. *)
Lemma leave_rel eb eb' q' leaving s out lost :
  rel eb s -> total_size q' + total_size leaving = total_size (ab_queue s) ->
  count q' + count leaving = count (ab_queue s) -> sublist q' (ab_queue s) ->
  buffer eb' = q' -> memory_usage eb' = wrap 64 (memory_usage eb - total_size leaving) ->
  metrics eb' current_entry_count = wrap 64 (metrics eb current_entry_count - count leaving) ->
  sequence_counter eb' = sequence_counter eb -> db eb' = db eb ->
  rel eb' (Abs q' (ab_table s) (ab_next s) out (ab_spilled s) lost).
Proof using Hmax.
  intros Hr Ht Hn Hsub Hq Hu Hc Hseq Hd. pose proof (rel_counted _ _ Hr) as (_ & Hm & _).
  rewrite (rl_queue _ _ Hr) in Hm. rewrite (rl_usage _ _ Hr) in Hu. rewrite (rl_count _ _ Hr), wrap_sub_wrap_l in Hc.
  pose proof (total_size_nonneg q'). pose proof (total_size_nonneg leaving). split; cbn; try done.
  - rewrite Hu, wrap_id by (unfold in_range; lia). lia.
  - rewrite Hc. f_equal. lia.
  - rewrite Hseq. apply (rl_next _ _ Hr).
  - intros c. rewrite Hd. apply (rl_wf _ _ Hr).
  - rewrite Hd. apply (rl_table _ _ Hr).
  - pose proof (rl_sizes _ _ Hr) as Hs. rewrite Forall_forall in *. intros e He.
    by apply Hs, (elem_of_sublist q').
  - destruct (rl_bounded _ _ Hr) as [Hb|[e He]]; [left; lia|]. rewrite He in Hsub.
    apply sublist_cons_r in Hsub as [->%sublist_nil_r|(l & -> & ->%sublist_nil_r)]; [left; rewrite total_size_nil; lia|].
    right. by exists e.
Qed.

Lemma read_refines n eb s :
  rel eb s -> exists s', buffer_spec (ReadSome n) s (step (ReadSome n) eb).1 s' /\ rel (step (ReadSome n) eb).2 s'.
Proof using Hmax.
  intros Hr. destruct s as [q t next out sp lost]. cbn [step]. unfold read. cbn [fst snd].
  rewrite (rl_queue _ _ Hr). cbn [ab_queue].
  assert (take (Nat.min n (length q)) q = take n q) as ->.
  { destruct (Nat.min_spec n (length q)) as [[? ->]|[? ->]]; [done|]. by rewrite !take_ge. }
  assert (drop (Nat.min n (length q)) q = drop n q) as ->.
  { destruct (Nat.min_spec n (length q)) as [[? ->]|[? ->]]; [done|]. by rewrite !drop_ge. }
  eexists. split; [apply spec_read|]. eapply (leave_rel eb _ _ (take n q) (Abs q t next out sp lost)); try done.
  - cbn. rewrite <- (take_drop n q) at 3. rewrite total_size_app. lia.
  - cbn. rewrite <- (take_drop n q) at 3. rewrite count_app. lia.
  - apply sublist_drop.
Qed.

Lemma drain_by_type_refines dt eb s :
  rel eb s -> exists s', buffer_spec (DrainByType dt) s (step (DrainByType dt) eb).1 s' /\
    rel (step (DrainByType dt) eb).2 s'.
Proof using Hmax.
  intros Hr. destruct s as [q t next out sp lost]. cbn [step]. unfold drain_by_type. cbn [fst snd].
  rewrite (rl_queue _ _ Hr). cbn [ab_queue]. set (es := filter _ q).
  eexists. split; [apply spec_drain_by_type|]. eapply (leave_rel eb _ _ es (Abs q t next out sp lost)); try done.
  - cbn. rewrite <- (total_size_filter (λ e, data_type e = dt) q). fold es. lia.
  - cbn. rewrite <- (count_filter (λ e, data_type e = dt) q). fold es. lia.
  - apply sublist_filter.
Qed.

Lemma drain_refines m eb s :
  rel eb s -> exists s', buffer_spec (Drain m) s (step (Drain m) eb).1 s' /\ rel (step (Drain m) eb).2 s'.
Proof using Hmax.
  intros Hr. destruct s as [q t next out sp lost]. cbn [step]. unfold drain.
  set (eb1 := metric_store current_entry_count _ _). cbn [fst snd].
  assert (rel eb1 (Abs [] t next (out ++ q) sp lost)) as Hr1.
  { eapply (leave_rel eb _ _ q (Abs q t next out sp lost)); try done.
    - apply sublist_nil_l.
    - cbn. by rewrite (rl_queue _ _ Hr).
    - cbn [eb1 metric_store with_metrics metrics]. unfold eb1, metric_store, with_metrics. cbn [metrics].
      rewrite fn_lookup_insert, (rl_count _ _ Hr), wrap_sub_wrap_l. cbn [ab_queue]. by rewrite Z.sub_diag. }
  rewrite (rl_queue _ _ Hr). cbn [ab_queue].
  destruct (c ← db eb1; drain_sqlite_pending m c) as [es|] eqn:Hes; cbn [fst snd].
  - exists (Abs [] t next (out ++ q) sp lost). split.
    + apply spec_drain. eapply drain_pending_drains; [|apply (rl_table _ _ Hr1)|exact Hes]. apply (rl_wf _ _ Hr1).
    + by destruct Hr1.
  - exists (Abs [] t next (out ++ q) sp lost). split; [|done].
    rewrite <- (app_nil_r q) at 2. apply spec_drain. by left.
Qed.

(** Only the table changes. *)
Lemma table_rel eb c rs s :
  rel eb s -> db_wf c -> db_rows c = rs ->
  rel (with_db c eb) (Abs (ab_queue s) (Some rs) (ab_next s) (ab_out s) (ab_spilled s) (ab_lost s)).
Proof using Type. intros [] Hc <-. split; cbn; try done. by intros ? [= <-]. Qed.

Lemma mark_sent_refines m id eb s :
  rel eb s -> exists s', buffer_spec (MarkSent m id) s (step (MarkSent m id) eb).1 s' /\
    rel (step (MarkSent m id) eb).2 s'.
Proof using Type.
  intros Hr. destruct s as [q t next out sp lost]. pose proof (rl_table _ _ Hr) as Ht. cbn in Ht.
  cbn [step fst snd]. unfold mark_sent. destruct (db eb) as [c|] eqn:Hd; cbn.
  2: { eexists. split; [apply spec_mark_sent; left; reflexivity|done]. }
  pose proof (rl_wf _ _ Hr c Hd) as Hc.
  destruct (sql_set_sent _ _ _ c) as [[n c']|] eqn:Hs; cbn.
  2: { eexists. split; [apply spec_mark_sent; left; reflexivity|done]. }
  apply sql_set_sent_rows in Hs as (Hc' & _ & _ & Hrows); [|done].
  eexists. split; [apply spec_mark_sent; right|exact (table_rel _ _ _ _ Hr Hc' Hrows)]. by rewrite Ht.
Qed.

Lemma mark_retry_refines m id eb s :
  rel eb s -> exists s', buffer_spec (MarkRetry m id) s (step (MarkRetry m id) eb).1 s' /\
    rel (step (MarkRetry m id) eb).2 s'.
Proof using Type.
  intros Hr. destruct s as [q t next out sp lost]. pose proof (rl_table _ _ Hr) as Ht. cbn in Ht.
  cbn [step fst snd]. unfold mark_retry. destruct (db eb) as [c|] eqn:Hd; cbn.
  2: { eexists. split; [apply spec_mark_retry; left; reflexivity|done]. }
  pose proof (rl_wf _ _ Hr c Hd) as Hc.
  destruct (sql_incr_retry _ _ c) as [[n c']|] eqn:Hs; cbn.
  2: { eexists. split; [apply spec_mark_retry; left; reflexivity|done]. }
  apply sql_incr_retry_rows in Hs as (Hc' & _ & _ & Hrows); [|done].
  eexists. split; [apply spec_mark_retry; right|exact (table_rel _ _ _ _ Hr Hc' Hrows)]. by rewrite Ht.
Qed.

Lemma delete_backlog_refines free m eb s :
  rel eb s -> exists s', buffer_spec (DeleteBacklog free m) s (step (DeleteBacklog free m) eb).1 s' /\
    rel (step (DeleteBacklog free m) eb).2 s'.
Proof using Hmax.
  intros Hr. destruct s as [q t next out sp lost]. cbn [step fst snd]. unfold delete_all_backlog.
  set (eb0 := if free then _ else eb). set (eb1 := if 0 <? _ then _ else eb0).
  pose proof (rl_queue _ _ Hr) as Hq. cbn in Hq.
  assert (rel eb1 (Abs (if free then [] else q) t next out sp (if free then lost ++ q else lost))) as Hr1.
  { unfold eb1, eb0. destruct free; [|by destruct Hr]. rewrite Hq.
    eapply (leave_rel eb _ _ q (Abs q t next out sp lost)); try done.
    - apply sublist_nil_l.
    - by destruct (0 <? count q).
    - rewrite (rl_usage _ _ Hr), Z.sub_diag. by destruct q.
    - rewrite (rl_count _ _ Hr), wrap_sub_wrap_l, Z.sub_diag. destruct q as [|e q]; cbn [ab_queue].
      + exact (rl_count _ _ Hr).
      + rewrite (proj2 (Z.ltb_lt 0 (count (e :: q)))) by (rewrite count_cons; unfold count; lia).
        cbn [metric_store with_metrics metrics]. unfold metric_store, with_metrics. cbn [metrics].
        by rewrite fn_lookup_insert.
    - by destruct (0 <? count q).
    - by destruct (0 <? count q). }
  pose proof (rl_table _ _ Hr1) as Ht. cbn [ab_table] in Ht.
  destruct (db eb1) as [c|] eqn:Hd.
  2: { eexists. split; [apply spec_delete_backlog; left; reflexivity|done]. }
  destruct (sql_delete_all (disk_now m) c) as [[n c']|] eqn:Hs.
  2: { eexists. split; [apply spec_delete_backlog; left; reflexivity|done]. }
  apply sql_delete_all_rows in Hs as (Hc' & _ & _ & Hrows); [|by apply (rl_wf _ _ Hr1)].
  eexists. split; [apply spec_delete_backlog; right|exact (table_rel _ _ _ _ Hr1 Hc' Hrows)]. by rewrite Ht.
Qed.

(** A vector of the language holds less than 2^63 bytes. *)
Definition op_ok (o : op) : Prop := match o with Write _ _ _ bytes _ => len bytes < 2 ^ 63 | _ => True end.

Lemma step_refines o eb s :
  op_ok o -> rel eb s -> exists s', buffer_spec o s (step o eb).1 s' /\ rel (step o eb).2 s'.
Proof using Hmax.
  destruct o; intros Ho Hr.
  - by apply write_refines.
  - by apply read_refines.
  - by apply drain_refines.
  - by apply drain_by_type_refines.
  - by apply mark_sent_refines.
  - by apply mark_retry_refines.
  - by apply delete_backlog_refines.
Qed.

Definition abs_init (opened : option conn) : abs :=
  Abs [] (db_rows <$> db (new config opened)) 1 [] [] [].

Lemma new_rel opened : (forall c, opened = Some c -> db_wf c) -> rel (new config opened) (abs_init opened).
Proof using Hmax.
  intros Hw. split; cbn; try done.
  - destruct (sqlite_path config); [done|by intros].
  - left. rewrite total_size_nil. lia.
Qed.

Lemma steps_refine os opened :
  (forall c, opened = Some c -> db_wf c) -> Forall op_ok os ->
  exists s, spec_steps os (abs_init opened) (results os (new config opened)) s /\
    rel (steps os (new config opened)) s.
Proof using Hmax.
  intros Hw. induction os as [|o os IH] using rev_ind; intros Hok.
  { exists (abs_init opened). split; [constructor|by apply new_rel]. }
  apply Forall_app in Hok as [Hok [Ho _]%Forall_cons]. destruct (IH Hok) as (s1 & Hs1 & Hr1).
  destruct (step_refines o _ s1 Ho Hr1) as (s2 & Hs2 & Hr2).
  exists s2. rewrite results_snoc, steps_snoc. split; [by eapply spec_steps_snoc|done].
Qed.

(** ** The fate of entries *)

(** The entries the writes make, the first one with number [seq]. *)
Fixpoint written (os : list op) (seq : Z) : list BufferEntry :=
  match os with
  | Write m0 _ _ bytes dt :: os => new_entry m0 seq bytes dt :: written os (wrap 64 (seq + 1))
  | _ :: os => written os seq
  | [] => []
  end.

(** What the operations hand out of the queue. *)
Fixpoint handed_out (os : list op) eb : list BufferEntry :=
  match os with
  | o :: os => filter (λ e, sqlite_row_id e = None) (step o eb).1 ++ handed_out os (step o eb).2
  | [] => []
  end.

(** Nothing is old enough to expire, and nothing is deleted on command. *)
Definition calm (o : op) : Prop :=
  match o with
  | Write m0 m1 _ _ _ => 0 <= instant m0 /\ instant m1 <= entry_ttl config
  | DeleteBacklog free _ => free = false
  | _ => True
  end.

(** The table takes every entry that is written. *)
Definition disk_takes (o : op) : Prop :=
  match o with
  | Write _ _ m2 bytes dt =>
      (forall seq, is_Some (bincode_serialize {| sp_sequence_number := seq; sp_data := bytes |})) /\
      (forall blob c, is_Some (sql_insert (disk_now m2) (as_str dt) blob (epoch_secs m2) c))
  | _ => True
  end.

Definition next_seq (o : op) (seq : Z) : Z := match o with Write _ _ _ _ _ => wrap 64 (seq + 1) | _ => seq end.

Lemma written_snoc os o seq :
  written (os ++ [o]) seq = written os seq ++ written [o] (foldl (λ n o, next_seq o n) seq os).
Proof using Type. revert seq. induction os as [|[] os IH]; intros seq; simpl; [done|by rewrite IH|apply IH..]. Qed.

Lemma handed_out_snoc os o eb :
  handed_out (os ++ [o]) eb =
    handed_out os eb ++ filter (λ e, sqlite_row_id e = None) (step o (steps os eb)).1.
Proof using Type.
  revert eb. induction os as [|o' os IH]; intros eb; simpl; [by rewrite app_nil_r|]. by rewrite IH, <- app_assoc.
Qed.

(** Entries of the table carry a row id, those of the queue do not. *)
Definition from_memory (e : BufferEntry) : Prop := sqlite_row_id e = None.

#[local] Instance from_memory_dec e : Decision (from_memory e).
Proof. unfold from_memory. apply _. Defined.

Lemma drains_rows now t es : drains now t es -> Forall (λ e, ~ from_memory e) es.
Proof using Type.
  intros [->|(rs & sorted & _ & _ & _ & Hm)]; [constructor|].
  apply mapM_Some in Hm. induction Hm as [|r e rs' es' He _ IH]; [constructor|].
  constructor; [|done]. apply bind_Some in He as (p & _ & [= <-]). by unfold from_memory.
Qed.

(** What holds of the abstract states on the way. *)
Record fate (os : list op) (s : abs) : Prop := {
  ft_memory : Forall from_memory (ab_queue s);
  ft_all : written os 1 ≡ₚ ab_out s ++ ab_queue s ++ ab_spilled s ++ ab_lost s;
  ft_next : ab_next s = foldl (λ n o, next_seq o n) 1 os;
  ft_born e : Forall calm os -> e ∈ ab_queue s -> 0 <= created_at e;
  ft_table : Forall calm os -> Forall disk_takes os -> is_Some (ab_table s) -> ab_lost s = [];
  ft_fits : Forall calm os -> total_size (written os 1) <= max_memory_bytes config -> ab_lost s = [];
}.

Context (Httl : 0 <= entry_ttl config).

Lemma total_size_perm l1 l2 : l1 ≡ₚ l2 -> total_size l1 = total_size l2.
Proof using Type. induction 1; rewrite ?total_size_cons; lia. Qed.

(** Nothing expires in calm. *)
Lemma calm_expires now q old q1 :
  now <= entry_ttl config -> (forall e, e ∈ q -> 0 <= created_at e) -> expires now q old q1 ->
  old = [] /\ q1 = q.
Proof using Httl.
  intros Hn Hq (-> & Ho & _). destruct old as [|e old]; [done|]. exfalso.
  apply Forall_cons in Ho as [He _]. unfold expired in He.
  specialize (Hq e ltac:(apply elem_of_app; left; by left)). lia.
Qed.

Lemma may_change_some f t t' : may_change f t t' -> is_Some t' <-> is_Some t.
Proof using Type. intros [->| ->]; [done|]. apply fmap_is_Some. Qed.

(** Operations that write nothing and lose nothing. *)
Lemma fate_moved os o s s1 :
  fate os s -> (forall seq, written [o] seq = []) -> next_seq o (ab_next s) = ab_next s ->
  sublist (ab_queue s1) (ab_queue s) -> ab_next s1 = ab_next s ->
  (is_Some (ab_table s1) -> is_Some (ab_table s)) ->
  ab_out s1 ++ ab_queue s1 ++ ab_spilled s1 ++ ab_lost s1 ≡ₚ
    ab_out s ++ ab_queue s ++ ab_spilled s ++ ab_lost s ->
  (calm o -> ab_lost s1 = ab_lost s) -> fate (os ++ [o]) s1.
Proof using Type.
  intros [Hm Ha Hn Hb Ht Hf] Hw Hq Hsub Hn1 Ht1 Hp Hl. split.
  - rewrite Forall_forall in *. intros e He. by apply Hm, (elem_of_sublist (ab_queue s1)).
  - rewrite written_snoc, Hw, app_nil_r, Hp. exact Ha.
  - rewrite foldl_snoc, <- Hn, Hn1. done.
  - intros e [Hc _]%Forall_app He. by apply Hb, (elem_of_sublist (ab_queue s1)).
  - intros [Hc Ho]%Forall_app [Hd _]%Forall_app Hs. apply Forall_cons in Ho as [Ho _].
    rewrite Hl by done. by apply Ht; [..|apply Ht1].
  - intros [Hc Ho]%Forall_app. apply Forall_cons in Ho as [Ho _].
    rewrite written_snoc, Hw, app_nil_r, Hl by done. by apply Hf.
Qed.

(** Where a written entry goes: the queue or the table. *)
Lemma fate_written os m0 m1 m2 bytes dt q t next out sp lost old q1 more q2 t1 sp1 q3 :
  fate os (Abs q t next out sp lost) -> expires (instant m1) q old q1 -> q1 = more ++ q2 ->
  (is_Some t1 -> is_Some t) ->
  (q3 = q2 ++ [new_entry m0 next bytes dt] /\ sp1 = sp \/
   q3 = q2 /\ sp1 = sp ++ [new_entry m0 next bytes dt]) ->
  (more <> [] -> max_memory_bytes config < total_size q1 + len bytes /\ (is_Some t1 -> ~ disk_takes (Write m0 m1 m2 bytes dt))) ->
  fate (os ++ [Write m0 m1 m2 bytes dt])
    (Abs q3 t1 (wrap 64 (next + 1)) out sp1 (lost ++ old ++ more)).
Proof using Hmax Httl.
  intros [Hm Ha Hn Hb Ht Hf] Hold -> Htab Hq3 Hmore. cbn in *. pose proof Hold as (Hq & _).
  set (e := new_entry m0 next bytes dt) in *.
  assert (forall x, x ∈ q3 -> x ∈ q \/ x = e) as Hin.
  { intros x Hx. rewrite Hq. destruct Hq3 as [[-> _]|[-> _]]; set_solver. }
  assert (Forall calm (os ++ [Write m0 m1 m2 bytes dt]) -> old = [] /\ Forall calm os /\ calm (Write m0 m1 m2 bytes dt))
    as Hcalm.
  { intros [Hc [Ho _]%Forall_cons]%Forall_app. split; [|done].
    apply (calm_expires (instant m1) q old (more ++ q2)); [apply Ho|by intros; apply Hb|done]. }
  split; cbn.
  - rewrite Forall_forall in *. intros x [Hx| ->]%Hin; [by apply Hm|done].
  - rewrite written_snoc, <- Hn. cbn [written]. fold e. rewrite Ha, Hq.
    destruct Hq3 as [[-> ->]|[-> ->]]; clear; solve_Permutation.
  - by rewrite foldl_snoc, <- Hn.
  - intros x (_ & Hc & Ho)%Hcalm [Hx| ->]%Hin; [by apply Hb|apply Ho].
  - intros (-> & Hc & _)%Hcalm [Hd [Ho _]%Forall_cons]%Forall_app Hs. rewrite Ht by auto.
    destruct more; [done|]. by destruct (Hmore ltac:(done)) as [_ []].
  - intros (-> & Hc & _)%Hcalm. rewrite written_snoc, total_size_app, <- Hn. cbn [written]. fold e.
    rewrite total_size_cons, total_size_nil. change (size e) with (len bytes). pose proof (len_nonneg bytes).
    intros Hfit. rewrite Hf by (done || lia). destruct more as [|x more]; [done|].
    destruct (Hmore ltac:(done)) as [Hfull _]. exfalso. apply total_size_perm in Ha.
    rewrite !total_size_app, Hq in Ha. cbn [app] in Ha, Hfull. pose proof (total_size_nonneg out).
    pose proof (total_size_nonneg sp). pose proof (total_size_nonneg lost). lia.
Qed.

Lemma refused_not_taken m0 m1 m seq bytes dt t :
  refused m seq bytes dt t -> is_Some t -> ~ disk_takes (Write m0 m1 m bytes dt).
Proof using Type.
  intros [->|[Hn|(c & blob & _ & _ & Hn)]] Ht [Hs Hi]; [by destruct Ht| |].
  - specialize (Hs seq). rewrite Hn in Hs. by destruct Hs.
  - specialize (Hi blob c). rewrite Hn in Hi. by destruct Hi.
Qed.

Lemma fate_step os o s es s1 : fate os s -> buffer_spec o s es s1 -> fate (os ++ [o]) s1.
Proof using Hmax Httl.
  intros Hf Hs. destruct Hs as [m0 m1 m2 bytes dt q t next out sp lost old q1 t1 Hold Ht Hroom
    |m0 m1 m2 bytes dt q t next out sp lost old q1 rs1 blob id Hold Ht Hfull Hblob Hid
    |m0 m1 m2 bytes dt q t next out sp lost old q1 t1 more q2 Hold Ht Hfull Hmore Href
    |n q t next out sp lost|m q t next out sp lost es Hes|dt q t next out sp lost
    |m id q t t1 next out sp lost Ht|m id q t t1 next out sp lost Ht|free m q t t1 next out sp lost Ht].
  - rewrite <- (app_nil_r old). eapply fate_written; [exact Hf|exact Hold|done| |by left|done].
    exact (proj1 (may_change_some _ _ _ Ht)).
  - rewrite <- (app_nil_r old). eapply fate_written; [exact Hf|exact Hold|done| |by right|done].
    intros _. by apply (may_change_some _ _ _ Ht).
  - destruct Hmore as (Hq & _). eapply fate_written; [exact Hf|exact Hold|exact Hq| |by left|].
    + exact (proj1 (may_change_some _ _ _ Ht)).
    + intros _. split; [done|]. by eapply refused_not_taken.
  - eapply fate_moved; try done; cbn; [apply sublist_drop|].
    rewrite <- (take_drop n q) at 3. rewrite <- !app_assoc. done.
  - eapply fate_moved; try done; cbn; [apply sublist_nil_l|]. by rewrite <- !app_assoc.
  - eapply fate_moved; try done; cbn; [apply sublist_filter|].
    rewrite <- (filter_app_complement (λ e, data_type e = dt) q) at 3. rewrite <- !app_assoc. done.
  - eapply fate_moved; try done; cbn. exact (proj1 (may_change_some _ _ _ Ht)).
  - eapply fate_moved; try done; cbn. exact (proj1 (may_change_some _ _ _ Ht)).
  - eapply fate_moved; try done; cbn.
    + destruct free; [apply sublist_nil_l|done].
    + exact (proj1 (may_change_some _ _ _ Ht)).
    + destruct free; [solve_Permutation|done].
    + intros ->. done.
Qed.

Lemma fate_init opened : fate [] (abs_init opened).
Proof using Type. split; try done. by intros ? _ ?%elem_of_nil. Qed.

(** The entries handed out of the queue are the specification's. *)
Lemma step_handed_out o s es s1 os :
  fate os s -> buffer_spec o s es s1 -> ab_out s1 = ab_out s ++ filter from_memory es.
Proof using Type.
  intros [Hm _ _ _ _ _] Hs.
  assert (forall l, Forall from_memory l -> filter from_memory l = l) as Hall.
  { intros l Hl. induction Hl as [|e l He _ IH]; [done|]. by rewrite filter_cons_True, IH. }
  destruct Hs; cbn in *; try by rewrite app_nil_r.
  - rewrite Hall; [done|]. by apply Forall_take.
  - rewrite filter_app, Hall by done. replace (filter from_memory es) with ([] : list BufferEntry).
    { by rewrite app_nil_r. }
    symmetry. apply drains_rows in H. clear -H. induction H as [|e l He _ IH]; [done|]. by rewrite filter_cons_False.
  - rewrite Hall; [done|]. rewrite Forall_forall in *. intros e [_ He]%list_elem_of_filter. by apply Hm.
Qed.

(** *** Where entries were spilled, and why they were lost *)

(** A write of the run added this entry's row to the table. *)
Inductive was_spilled opened (os : list op) (e : BufferEntry) : Prop :=
  Was_spilled os1 m0 m1 m2 bytes dt os2 blob rs id :
    os = os1 ++ Write m0 m1 m2 bytes dt :: os2 ->
    e = new_entry m0 (sequence_counter (steps os1 (new config opened))) bytes dt ->
    bincode_serialize {| sp_sequence_number := sequence_number e; sp_data := bytes |} = Some blob ->
    db_rows <$> db (steps (os1 ++ [Write m0 m1 m2 bytes dt]) (new config opened)) =
      Some (rs ++ [Row id (as_str dt) blob 2 0 (epoch_secs m2) None]) ->
    Forall (λ r, row_id r < id) rs ->
    was_spilled opened os e.

(** The operation takes [e] out of the queue [q] for good: it has expired, it
    makes room for a write that the table, then [t], refuses, or a deletion was
    ordered. *)
Inductive loses (q : list BufferEntry) (seq : Z) (t : option (list row)) (e : BufferEntry) : op -> Prop :=
  | loses_expired m0 m1 m2 bytes dt :
      e ∈ q -> expired (instant m1) e -> loses q seq t e (Write m0 m1 m2 bytes dt)
  | loses_evicted m0 m1 m2 bytes dt old q1 more q2 :
      expires (instant m1) q old q1 -> max_memory_bytes config < total_size q1 + len bytes ->
      makes_room (len bytes) q1 more q2 -> e ∈ more -> refused m2 seq bytes dt t ->
      loses q seq t e (Write m0 m1 m2 bytes dt)
  | loses_deleted m : e ∈ q -> loses q seq t e (DeleteBacklog true m).

Inductive was_lost opened (os : list op) (e : BufferEntry) : Prop :=
  Was_lost os1 o os2 :
    os = os1 ++ o :: os2 ->
    loses (buffer (steps os1 (new config opened))) (sequence_counter (steps os1 (new config opened)))
      (db_rows <$> db (steps (os1 ++ [o]) (new config opened))) e o ->
    was_lost opened os e.

Lemma was_spilled_snoc opened os o e : was_spilled opened os e -> was_spilled opened (os ++ [o]) e.
Proof using Type. intros []; subst. econstructor; [by rewrite <- app_assoc, <- app_comm_cons|done..]. Qed.

Lemma was_lost_snoc opened os o e : was_lost opened os e -> was_lost opened (os ++ [o]) e.
Proof using Type. intros []; subst. econstructor; [by rewrite <- app_assoc, <- app_comm_cons|done]. Qed.

Record traced opened (os : list op) (s : abs) : Prop := {
  tr_spilled : Forall (was_spilled opened os) (ab_spilled s);
  tr_lost : Forall (was_lost opened os) (ab_lost s);
}.

Lemma traced_step opened os o s es s1 :
  traced opened os s -> rel (steps os (new config opened)) s -> rel (steps (os ++ [o]) (new config opened)) s1 ->
  buffer_spec o s es s1 -> traced opened (os ++ [o]) s1.
Proof using Type.
  intros [Hsp Hlo] Hr Hr1 Hs.
  pose proof (Forall_impl _ _ _ Hsp (was_spilled_snoc opened os o)) as Hsp'.
  pose proof (Forall_impl _ _ _ Hlo (was_lost_snoc opened os o)) as Hlo'.
  assert (forall l, Forall (λ e, loses (ab_queue s) (ab_next s) (ab_table s1) e o) l ->
    Forall (was_lost opened (os ++ [o])) l) as Hnew.
  { intros l Hl. eapply Forall_impl; [exact Hl|]. intros e He. exists os o []; [done|].
    by rewrite (rl_queue _ _ Hr), (rl_next _ _ Hr), <- (rl_table _ _ Hr1). }
  assert (forall q old q1 m0 m1 m2 bytes dt, o = Write m0 m1 m2 bytes dt -> ab_queue s = q -> expires (instant m1) q old q1 ->
    Forall (was_lost opened (os ++ [o])) old) as Hold.
  { intros q old q1 m0 m1 m2 bytes dt -> Hq (Happ & Ho & _). apply Hnew. rewrite Forall_forall in *.
    intros e He. apply loses_expired; [|by apply Ho]. rewrite Hq, Happ. apply elem_of_app. by left. }
  destruct Hs; split; cbn [ab_spilled ab_lost ab_queue ab_next ab_table] in *; try done;
    rewrite ?Forall_app; try (split_and!; [done|by eapply Hold]).
  - split; [done|]. constructor; [|done].
    econstructor; [done|by rewrite (rl_next _ _ Hr)|done| |done]. by rewrite <- (rl_table _ _ Hr1).
  - split_and!; [done|by eapply Hold|]. apply Hnew, Forall_forall. intros e He. by eapply loses_evicted.
  - destruct free; [|done]. apply Forall_app. split; [done|]. apply Hnew, Forall_forall. intros e He. by apply loses_deleted.
Qed.

Lemma steps_fate os opened :
  (forall c, opened = Some c -> db_wf c) -> Forall op_ok os ->
  exists s, fate os s /\ traced opened os s /\ rel (steps os (new config opened)) s /\
    ab_out s = handed_out os (new config opened).
Proof using Hmax Httl.
  intros Hw. induction os as [|o os IH] using rev_ind; intros Hok.
  { exists (abs_init opened). split_and!; [apply fate_init|by split|by apply new_rel|done]. }
  apply Forall_app in Hok as [Hok [Ho _]%Forall_cons]. destruct (IH Hok) as (s1 & Hf & Ht & Hr & Hout).
  destruct (step_refines o _ s1 Ho Hr) as (s2 & Hs2 & Hr2). rewrite <- steps_snoc in Hr2.
  exists s2. split_and!; [by eapply fate_step|by eapply traced_step|done|].
  rewrite (step_handed_out _ _ _ _ _ Hf Hs2), Hout, handed_out_snoc. done.
Qed.

(** ** Entries on disk *)

Lemma from_str_as_str dt : from_str (as_str dt) = Some dt.
Proof using Type. by destruct dt. Qed.

Definition decodable (r : row) : Prop := is_Some (bincode_deserialize (row_data r)).

Definition table_decodable (t : option (list row)) : Prop :=
  forall rs, t = Some rs -> Forall decodable rs.

(** The row of an entry, until it has been sent. *)
Definition holds_row (id created : Z) (dt : DataType) (blob : list byte) (t : option (list row)) : Prop :=
  exists rs r, t = Some rs /\ r ∈ rs /\ row_id r = id /\ row_created_at r = created /\
    row_data_type r = as_str dt /\ row_data r = blob /\ row_sent_at r = None.

(** What does not take the row [id] away. *)
Definition spares (id created : Z) (o : op) : Prop :=
  match o with
  | Write _ m1 _ _ _ => cutoff m1 <= created
  | MarkSent _ id' => id' <> id
  | DeleteBacklog _ _ => False
  | _ => True
  end.

Lemma decodable_step o s es s1 :
  buffer_spec o s es s1 -> table_decodable (ab_table s) -> table_decodable (ab_table s1).
Proof using Type.
  assert (forall (f : list row -> list row) t t', (forall rs, Forall decodable rs -> Forall decodable (f rs)) ->
    may_change f t t' -> table_decodable t -> table_decodable t') as Hf.
  { intros f t t' Hf [->| ->] Ht; [done|]. intros rs' (rs & -> & ->)%fmap_Some. by apply Hf, Ht. }
  assert (forall m t t', may_change (created_since (cutoff m)) t t' -> table_decodable t -> table_decodable t') as Hd.
  { intros m t t'. apply Hf. intros rs. rewrite !Forall_forall. intros Hrs r [_ Hr]%list_elem_of_filter.
    by apply Hrs. }
  destruct 1; intros Ht; cbn in *; try done; try by eapply Hd.
  - assert (table_decodable (Some rs1)) as Hrs1 by by eapply Hd.
    intros rs [= <-]. apply Forall_app_2; [by apply Hrs1|]. constructor; [|done].
    unfold decodable. cbn. by erewrite bincode_roundtrip.
  - eapply Hf; [|done|done]. intros rs Hrs. apply Forall_fmap. eapply Forall_impl; [exact Hrs|].
    intros r. unfold decodable, mark_row_sent. cbn. by case_decide.
  - eapply Hf; [|done|done]. intros rs Hrs. apply Forall_fmap. eapply Forall_impl; [exact Hrs|].
    intros r. unfold decodable, mark_row_retry. cbn. by case_decide.
  - eapply Hf; [|done|done]. by constructor.
Qed.

Lemma holds_row_map id created dt blob f t :
  (forall r, row_id r = id -> row_id (f r) = id /\ row_created_at (f r) = row_created_at r /\
    row_data_type (f r) = row_data_type r /\ row_data (f r) = row_data r /\ row_sent_at (f r) = row_sent_at r) ->
  holds_row id created dt blob t -> holds_row id created dt blob (fmap (M := list) f <$> t).
Proof using Type.
  intros Hf (rs & r & -> & Hr & Hid & Hc & Hd & Hb & Hs). exists (f <$> rs), (f r).
  destruct (Hf r Hid) as (? & ? & ? & ? & ?). split; [done|].
  split; [by apply list_elem_of_fmap_2|]. split_and!; congruence.
Qed.

Lemma holds_row_step id created dt blob o s es s1 :
  buffer_spec o s es s1 -> spares id created o -> holds_row id created dt blob (ab_table s) ->
  holds_row id created dt blob (ab_table s1).
Proof using Hmax.
  assert (forall m t t', cutoff m <= created -> may_change (created_since (cutoff m)) t t' ->
    holds_row id created dt blob t -> holds_row id created dt blob t') as Hd.
  { intros m t t' Hm [->| ->]; [done|]. intros (rs & r & -> & Hr & Hid & Hc & ?).
    exists (created_since (cutoff m) rs), r. split_and!; try done; try tauto.
    apply list_elem_of_filter. split; [lia|done]. }
  destruct 1; cbn; intros Hsp Hh; try done; try by eapply Hd.
  - assert (holds_row id created dt blob (Some rs1)) as (rs & r & [= <-] & Hr & ?) by by eapply Hd.
    eexists _, r. split; [done|]. split; [|done]. apply elem_of_app. by left.
  - destruct H as [->| ->]; [done|]. apply holds_row_map; [|done]. intros r <-.
    unfold mark_row_sent. by rewrite decide_False by congruence.
  - destruct H as [->| ->]; [done|]. apply holds_row_map; [|done]. intros r Hr.
    unfold mark_row_retry. by case_decide.
Qed.

Lemma holds_row_steps id created dt blob mid eb s :
  Forall op_ok mid -> Forall (spares id created) mid -> rel eb s ->
  table_decodable (ab_table s) -> holds_row id created dt blob (ab_table s) ->
  exists s', rel (steps mid eb) s' /\ table_decodable (ab_table s') /\
    holds_row id created dt blob (ab_table s').
Proof using Hmax.
  intros Ho Hs. revert eb s. induction mid as [|o mid IH]; intros eb s Hr Hd Hh; [by exists s|].
  apply Forall_cons in Ho as [Ho1 Ho], Hs as [Hs1 Hs].
  destruct (step_refines o _ _ Ho1 Hr) as (s1 & Hs2 & Hr1). apply (IH Ho Hs _ s1 Hr1).
  - by eapply decodable_step.
  - by eapply holds_row_step.
Qed.

Lemma spec_steps_decodable os s0 outs s :
  spec_steps os s0 outs s -> table_decodable (ab_table s0) -> table_decodable (ab_table s).
Proof using Type. induction 1 as [|os o s outs s1 es s2 _ IH Hs]; [done|]. intros H0. eapply decodable_step; eauto. Qed.

(** A drain that the disk answers, with no more than a batch pending, finds it. *)
Lemma holds_row_drained id created dt bytes blob seq m eb s :
  rel eb s -> table_decodable (ab_table s) -> holds_row id created dt blob (ab_table s) ->
  bincode_serialize {| sp_sequence_number := seq; sp_data := bytes |} = Some blob ->
  (forall c, db eb = Some c -> is_Some (sql_select_pending (disk_now m) SQLITE_DRAIN_BATCH_SIZE c) /\
    Z.of_nat (length (pending (db_rows c))) <= SQLITE_DRAIN_BATCH_SIZE) ->
  {| sequence_number := seq; created_at := instant m; data := bytes; data_type := dt;
     sqlite_row_id := Some id |} ∈ (drain m eb).1.
Proof using Type.
  intros Hr Hd (rs & r & Ht & Hin & Hid & _ & Hdt & Hb & Hs) Hblob Hsel. rewrite (rl_table _ _ Hr) in Ht.
  apply fmap_Some in Ht as (c & Hc & ->). destruct (Hsel c Hc) as [[rs Hrs] Hn].
  pose proof (sql_select_pending_rows _ _ _ _ (rl_wf _ _ Hr c Hc) Hrs) as (sorted & Hp & _ & Hrs').
  rewrite take_ge in Hrs' by (rewrite Hp; unfold SQLITE_DRAIN_BATCH_SIZE in *; lia). subst rs.
  assert (exists es, mapM (entry_of_row (instant m)) sorted = Some es) as [es Hes].
  { apply mapM_is_Some_2. apply Forall_forall. intros r' Hr'. rewrite Hp, pending_spec in Hr'.
    pose proof (Hd (db_rows c)) as Hdec. rewrite (rl_table _ _ Hr), Hc in Hdec. specialize (Hdec eq_refl).
    rewrite Forall_forall in Hdec. destruct (Hdec r' (proj1 Hr')) as [p Hpay].
    unfold compose, entry_of_row. rewrite Hpay. by eexists. }
  unfold drain. cbn [db metric_store with_metrics metric_add with_buffer]. 
  rewrite Hc. cbn [mbind option_bind]. unfold drain_sqlite_pending. rewrite Hrs. cbn [mbind option_bind].
  rewrite Hes. cbn [fst]. apply elem_of_app. right.
  apply mapM_Some in Hes. assert (r ∈ sorted) as (i & Hi)%list_elem_of_lookup by by rewrite Hp, pending_spec.
  destruct (Forall2_lookup_l _ _ _ _ _ Hes Hi) as (e & He & Hre).
  apply list_elem_of_lookup. exists i. rewrite He. f_equal.
  unfold entry_of_row in Hre. rewrite Hb in Hre. erewrite bincode_roundtrip in Hre by done.
  cbn in Hre. rewrite Hdt, from_str_as_str, Hid in Hre. by injection Hre as <-.
Qed.

(** ** Properties *)

(** [C15] Refinement: after any operations on a new buffer, whatever clocks and
    disk do, each has returned what the specification can return, and the buffer
    stands for the state it then reaches: a queue whose front expires or makes
    room, a table, and an account of every entry. *)
Theorem edge_buffer_refines_spec os opened :
  (forall c, opened = Some c -> db_wf c) -> Forall op_ok os ->
  exists s, spec_steps os (abs_init opened) (results os (new config opened)) s /\
    rel (steps os (new config opened)) s.
Proof using Hmax. apply steps_refine. Qed.

(** [C16] Bounds: after any operations the counter of the memory used is the
    bytes queued, the gauge of entries is their number modulo 2^64, and no more
    than the limit is queued, except when it is one entry that is larger than
    the limit by itself. *)
Theorem edge_buffer_bounded os opened :
  (forall c, opened = Some c -> db_wf c) -> Forall op_ok os ->
  let eb := steps os (new config opened) in
  memory_usage eb = total_size (buffer eb) /\
  metrics eb current_entry_count = wrap 64 (count (buffer eb)) /\
  (total_size (buffer eb) <= max_memory_bytes config \/ exists e, buffer eb = [e]).
Proof using Hmax.
  intros Hw Ho eb. destruct (steps_refine os opened Hw Ho) as (s & _ & Hr). fold eb in Hr.
  rewrite (rl_queue _ _ Hr). split_and!; [apply (rl_usage _ _ Hr)|apply (rl_count _ _ Hr)|apply (rl_bounded _ _ Hr)].
Qed.

(** [C17] Every entry ever written was handed out, is queued, was spilled or was
    lost, and none of them twice.  A spilled one was given a new row of the
    table, with its number and its bytes, by the write that made it.  A lost one
    was in the queue when it expired, when it had to make room for a write that
    the table did not take, or when a deletion was ordered.  So nothing is lost
    as long as nothing is old enough to expire, no deletion is ordered, and
    either the entries written fit in memory together or the disk takes what
    does not fit. *)
Theorem edge_buffer_accounts os opened :
  (forall c, opened = Some c -> db_wf c) -> Forall op_ok os ->
  let eb := steps os (new config opened) in
  exists spilled lost,
    written os 1 ≡ₚ handed_out os (new config opened) ++ buffer eb ++ spilled ++ lost /\
    Forall (was_spilled opened os) spilled /\ Forall (was_lost opened os) lost /\
    (Forall calm os ->
     total_size (written os 1) <= max_memory_bytes config \/ Forall disk_takes os /\ is_Some (db eb) ->
     lost = []).
Proof using Hmax Httl.
  intros Hw Ho eb. destruct (steps_fate os opened Hw Ho) as (s & Hf & [Hsp Hlo] & Hr & Hout). fold eb in Hr.
  exists (ab_spilled s), (ab_lost s). split; [|split; [done|split; [done|]]].
  - rewrite (rl_queue _ _ Hr), <- Hout. apply (ft_all _ _ Hf).
  - intros Hc [Hfit|[Hd Hdb]]; [by apply (ft_fits _ _ Hf)|]. apply (ft_table _ _ Hf); try done.
    rewrite (rl_table _ _ Hr). by apply fmap_is_Some.
Qed.

(** [C18] Round trip through the disk: an entry that was written and is not
    queued in memory has a row, and until the row is marked sent, expires or is
    deleted, every drain that the disk answers while no more than 1000 rows are
    pending returns it with its number, its bytes and its type, for [mark_sent]
    to acknowledge. *)
Theorem spilled_entry_drained os opened m0 m1 m2 bytes dt :
  let w := write config m0 m1 m2 bytes dt (steps os (new config opened)) in
  (forall c, opened = Some c -> db_wf c /\ Forall decodable (db_rows c)) ->
  Forall op_ok os -> len bytes < 2 ^ 63 ->
  Forall (λ e, sequence_number e <> w.1) (buffer w.2) ->
  exists id, forall mid m,
    Forall op_ok mid -> Forall (spares id (epoch_secs m2)) mid ->
    (forall c, db (steps mid w.2) = Some c ->
      is_Some (sql_select_pending (disk_now m) SQLITE_DRAIN_BATCH_SIZE c) /\
      Z.of_nat (length (pending (db_rows c))) <= SQLITE_DRAIN_BATCH_SIZE) ->
    {| sequence_number := w.1; created_at := instant m; data := bytes; data_type := dt;
       sqlite_row_id := Some id |} ∈ (drain m (steps mid w.2)).1.
Proof using Hmax.
  intros w Hw Ho Hb Hnew.
  destruct (steps_refine os opened (λ c Hc, proj1 (Hw c Hc)) Ho) as (s & Hsp & Hr).
  apply spec_steps_decodable in Hsp.
  2: { intros rs. cbn. destruct (sqlite_path config); [|done].
    intros (c & Hc & ->)%fmap_Some. by apply (Hw c). }
  destruct (write_refines m0 m1 m2 bytes dt _ s Hb Hr) as (s1 & Hs1 & Hr1).
  pose proof (decodable_step _ _ _ _ Hs1 Hsp) as Hd1. cbn [step snd] in Hr1. fold w in Hr1.
  assert (w.1 = ab_next s) as Hseq.
  { rewrite <- (rl_next _ _ Hr). unfold w, write. cbv zeta. destruct (is_full _ _ _); [|done].
    by destruct (_ ≫= _). }
  rewrite (rl_queue _ _ Hr1), Hseq in Hnew. rewrite Hseq. clear Hseq.
  inversion Hs1 as [? ? ? ? ? ? ? next ? ? ? ? q1 ? Hold Ht Hroom
    |? ? ? ? ? ? ? next ? ? ? ? q1 rs1 blob id Hold Ht Hfull Hblob Hid
    |? ? ? ? ? ? ? next ? ? ? ? q1 ? more q2 Hold Ht Hfull Hmore Href| | | | | |]; subst; cbn in Hnew |- *.
  - apply Forall_app in Hnew as [_ [Hn _]%Forall_cons]. done.
  - exists id. intros mid m Hmid Hsp' Hsel.
    destruct (holds_row_steps id (epoch_secs m2) dt blob mid _ _ Hmid Hsp' Hr1 Hd1) as (s' & Hr' & Hd' & Hh).
    { eexists _, _. split; [done|]. split; [apply elem_of_app; right; by left|done]. }
    by eapply holds_row_drained.
  - apply Forall_app in Hnew as [_ [Hn _]%Forall_cons]. done.
Qed.
End spec.

(** ** On the reference instances *)

Section witnesses.
#[local] Existing Instances ref_db ref_bincode.

(** Forty bytes of memory, an hour to live, a database. *)
Definition small_config : EdgeBufferConfig := {|
  max_memory_bytes := 40; max_entries := 100000; entry_ttl := 3600 * 10 ^ 9; disk_spill_dir := [];
  disk_spill_enabled := true; max_disk_bytes := 0; sqlite_path := Some [] |}.

Definition at_ (t : Z) (works : bool) : moment (DB := ref_db) := @Moment ref_db (t * 10 ^ 9) (1000 + t) works.

Definition write_at (t : Z) (works : bool) (n : nat) : op :=
  Write (at_ t works) (at_ t works) (at_ t works) (repeat x00 n) Events.

(** Two entries that fit, one that does not while the disk is broken, one that
    the disk takes. *)
Definition some_writes : list op :=
  [write_at 1 true 15; write_at 2 true 15; write_at 3 false 25; write_at 4 true 25].

Lemma some_writes_ok : Forall op_ok some_writes.
Proof. repeat constructor. Qed.

Definition ref_opened : option ref_conn := Some (RefConn [] 1).

Lemma ref_opened_wf c : ref_opened = Some c -> ref_wf c /\ Forall decodable (rc_rows c).
Proof. intros [= <-]. repeat constructor. Qed.

Lemma edge_buffer_refines_spec_witness :
  exists s, spec_steps small_config some_writes (abs_init small_config ref_opened)
      (results small_config some_writes (new small_config ref_opened)) s /\
    rel small_config (steps small_config some_writes (new small_config ref_opened)) s.
Proof.
  apply (edge_buffer_refines_spec small_config ltac:(done) some_writes ref_opened);
    [intros c Hc; apply (ref_opened_wf c Hc)|apply some_writes_ok].
Defined.

Lemma edge_buffer_bounded_witness :
  let eb := steps small_config some_writes (new small_config ref_opened) in
  memory_usage eb = 40 /\ memory_usage eb = total_size (buffer eb) /\
  metrics eb current_entry_count = wrap 64 (count (buffer eb)) /\
  (total_size (buffer eb) <= 40 \/ exists e, buffer eb = [e]).
Proof.
  split; [vm_compute; reflexivity|].
  apply (edge_buffer_bounded small_config ltac:(done) some_writes ref_opened);
    [intros c Hc; apply (ref_opened_wf c Hc)|apply some_writes_ok].
Defined.

Lemma edge_buffer_accounts_witness :
  let os := [write_at 1 true 15; write_at 2 true 15; write_at 4 true 25] in
  let eb := steps small_config os (new small_config ref_opened) in
  exists spilled lost,
    written os 1 ≡ₚ handed_out small_config os (new small_config ref_opened) ++ buffer eb ++ spilled ++ lost /\
    Forall (was_spilled small_config ref_opened os) spilled /\
    Forall (was_lost small_config ref_opened os) lost /\
    (Forall (calm small_config) os ->
     total_size (written os 1) <= 40 \/ Forall disk_takes os /\ is_Some (db eb) -> lost = []).
Proof.
  apply (edge_buffer_accounts small_config ltac:(done) ltac:(done) _ ref_opened);
    [intros c Hc; apply (ref_opened_wf c Hc)|repeat constructor].
Defined.

(** Between the write and the drain, another write and a failed sending. *)
Lemma spilled_entry_drained_witness :
  let os := [write_at 1 true 15; write_at 2 true 15] in
  let w := write small_config (at_ 4 true) (at_ 4 true) (at_ 4 true) (repeat x01 25) Traces
    (steps small_config os (new small_config ref_opened)) in
  let mid := [write_at 5 true 30; MarkRetry (at_ 6 true) 1] in
  exists id, {| sequence_number := w.1; created_at := 7 * 10 ^ 9; data := repeat x01 25;
    data_type := Traces; sqlite_row_id := Some id |} ∈ (drain (at_ 7 true) (steps small_config mid w.2)).1.
Proof.
  destruct (spilled_entry_drained small_config ltac:(done) [write_at 1 true 15; write_at 2 true 15] ref_opened
    (at_ 4 true) (at_ 4 true) (at_ 4 true) (repeat x01 25) Traces) as [id Hid].
  - intros c Hc. apply (ref_opened_wf c Hc).
  - repeat constructor.
  - done.
  - vm_compute. repeat constructor; discriminate.
  - exists id. apply (Hid _ (at_ 7 true)).
    + repeat constructor.
    + repeat constructor; vm_compute; discriminate.
    + intros c Hc. split; [by eexists|]. vm_compute in Hc. injection Hc as <-. vm_compute. discriminate.
Defined.
End witnesses.
