(* ===== verification/EdgeBufferTasks.v ===== *)
(** * edge_buffer.rs under concurrent tasks

    The tasks of the agent share one [EdgeBuffer] and no method holds its lock
    throughout.  Here a method is a sequence of steps, each an access to the
    queue or to the counter of memory, and the steps of several tasks are
    interleaved in any order.  The buffer is in memory only, as [Client] makes
    it.  The steps of a loop under the lock are separate too, which allows more
    interleavings than there are. *)

From S2P Require Import Prelude Bytes RustSlice Sqlite EdgeBuffer EdgeBufferSpec.

#[local] Set Warnings "-clear-no-such-hyp".
#[local] Open Scope list_scope.
#[local] Open Scope Z_scope.

Section tasks.
Context {DB : BufferDb} {BC : Bincode}.
Variable config : EdgeBufferConfig.
Implicit Types eb : EdgeBuffer.

(** ** Steps *)

(** Where a task stands: a write before its start, at the front of the queue
    ([Expire]) or with an expired entry in its hands, before it compares memory
    with the limit ([Compare], then [Room] in the loop), with room to make or an
    entry it took to that end, before it queues its entry and before it counts
    it; a read or drain before and after it took entries; a deletion before and
    after it cleared the queue. *)
Inductive task :=
  | Start (m0 m1 : moment) (bytes : list byte) (dt : DataType)
  | Expire (now : Z) (e : BufferEntry)
  | Expired (now : Z) (old e : BufferEntry)
  | Compare (e : BufferEntry)
  | Room (e : BufferEntry)
  | Evict (e : BufferEntry)
  | Evicted (old e : BufferEntry)
  | Push (e : BufferEntry)
  | Pushed (e : BufferEntry)
  | Read (n : nat)
  | WasRead (entries : list BufferEntry)
  | Drain
  | Drained (entries : list BufferEntry)
  | Delete (free : bool)
  | Deleted (drained : Z)
  | Finished.

Implicit Types t : task.
Implicit Types ts : list task.

(** The queue changes and the counter does not. *)
Definition requeue (q : list BufferEntry) eb : EdgeBuffer := with_buffer q (memory_usage eb) eb.

Definition exec t eb : task * EdgeBuffer :=
  match t with
  | Start m0 m1 bytes dt =>
      let seq := sequence_counter eb in
      (Expire (instant m1) {| sequence_number := seq; created_at := instant m0; data := bytes;
                              data_type := dt; sqlite_row_id := None |},
       {| buffer := buffer eb; memory_usage := memory_usage eb; sequence_counter := wrap 64 (seq + 1);
          metrics := metrics eb; running := running eb; db := db eb |})
  | Expire now e =>
      match buffer eb with
      | old :: q =>
          if entry_ttl config <? Z.max 0 (now - created_at old) then (Expired now old e, requeue q eb)
          else (Compare e, eb)
      | [] => (Compare e, eb)
      end
  | Expired now old e => (Expire now e, evict_front old (buffer eb) eb)
  | Compare e => (if is_full config (size e) eb then Room e else Push e, eb)
  | Room e => (if is_full config (size e) eb then Evict e else Push e, eb)
  | Evict e =>
      match buffer eb with
      | old :: q => (Evicted old e, requeue q eb)
      | [] => (Push e, eb)
      end
  | Evicted old e => (Room e, evict_front old (buffer eb) eb)
  | Push e => (Pushed e, requeue (buffer eb ++ [e]) eb)
  | Pushed e =>
      let eb := with_buffer (buffer eb) (wrap 64 (memory_usage eb + size e)) eb in
      let eb := metric_add entries_written 1 eb in
      let eb := metric_store current_memory_bytes (memory_usage eb) eb in
      (Finished, metric_add current_entry_count 1 eb)
  | Read n =>
      let drain_count := Nat.min n (length (buffer eb)) in
      (WasRead (take drain_count (buffer eb)), requeue (drop drain_count (buffer eb)) eb)
  | WasRead entries =>
      let eb := with_buffer (buffer eb) (wrap 64 (memory_usage eb - total_size entries)) eb in
      let eb := metric_add entries_read (count entries) eb in
      let eb := metric_store current_memory_bytes (memory_usage eb) eb in
      (Finished, metric_sub current_entry_count (count entries) eb)
  | Drain => (Drained (buffer eb), requeue [] eb)
  | Drained entries =>
      let eb := with_buffer (buffer eb) (wrap 64 (memory_usage eb - total_size entries)) eb in
      let eb := metric_add entries_read (count entries) eb in
      let eb := metric_store current_memory_bytes 0 eb in
      (Finished, metric_store current_entry_count 0 eb)
  | Delete free =>
      if free then (Deleted (count (buffer eb)), requeue [] eb) else (Deleted 0, eb)
  | Deleted drained =>
      (Finished, if 0 <? drained then metric_store current_entry_count 0 (with_buffer (buffer eb) 0 eb) else eb)
  | Finished => (Finished, eb)
  end.

(** A schedule says which task makes each step. *)
Definition sched_step (p : list task * EdgeBuffer) (i : nat) : list task * EdgeBuffer :=
  match p.1 !! i with
  | Some t => (<[i := (exec t p.2).1]> p.1, (exec t p.2).2)
  | None => p
  end.

Definition run_tasks (schedule : list nat) ts eb : list task * EdgeBuffer :=
  foldl sched_step (ts, eb) schedule.

(** ** A task without interruption is a method *)

Definition runs t eb eb' : Prop :=
  exists n, Nat.iter n (λ p, exec p.1 p.2) (t, eb) = (Finished, eb').

Lemma runs_step t eb eb' : runs (exec t eb).1 (exec t eb).2 eb' -> runs t eb eb'.
Proof using Type.
  intros [n Hn]. exists (S n). rewrite Nat.iter_succ_r. cbn [fst snd]. by destruct (exec t eb).
Qed.

Lemma runs_done eb : runs Finished eb eb.
Proof using Type. by exists 0%nat. Qed.

Lemma runs_push e eb : runs (Push e) eb (push_back e eb).
Proof using Type. apply runs_step, runs_step, runs_done. Qed.

Lemma runs_room e l eb :
  buffer eb = l -> runs (Room e) eb (push_back e (make_room config (size e) l eb)).
Proof using Type.
  revert eb. induction l as [|old l IH]; intros eb Hb; apply runs_step; cbn [exec fst snd make_room];
    destruct (is_full _ _ _); try apply runs_push; apply runs_step; cbn [exec]; rewrite Hb; cbn [fst snd].
  - apply runs_push.
  - apply runs_step. by apply IH.
Qed.

Lemma runs_expire now e l eb eb' :
  buffer eb = l -> runs (Compare e) (evict_expired_loop config now l eb) eb' -> runs (Expire now e) eb eb'.
Proof using Type.
  revert eb. induction l as [|old l IH]; intros eb Hb Hr; apply runs_step; cbn [exec]; rewrite Hb; [done|].
  cbn [evict_expired_loop] in Hr. destruct (_ <? _); [|done]. apply runs_step. by apply IH.
Qed.

(** Every task ends, and alone it does what its method does. *)
Lemma tasks_alone eb :
  db eb = None ->
  (forall m0 m1 m2 bytes dt, runs (Start m0 m1 bytes dt) eb (write config m0 m1 m2 bytes dt eb).2) /\
  (forall n, runs (Read n) eb (EdgeBuffer.read n eb).2) /\
  (forall m, runs Drain eb (drain m eb).2) /\
  (forall free m, runs (Delete free) eb (delete_all_backlog free m eb)).
Proof using Type.
  intros Hd. split_and!.
  - intros m0 m1 m2 bytes dt. apply runs_step. cbn [exec fst snd]. unfold write. cbv zeta.
    set (eb0 := Build_EdgeBuffer _ _ _ _ _ _). set (e := Build_BufferEntry _ _ _ _ _).
    eapply runs_expire; [done|]. unfold evict_expired, evict_expired_sqlite.
    assert (forall l eb, db eb = None -> db (evict_expired_loop config (instant m1) l eb) = None) as Hl.
    { induction l as [|x l IH]; intros eb1 H1; cbn [evict_expired_loop]; [done|]. case_match; [by apply IH|done]. }
    pose proof (Hl (buffer eb0) eb0 Hd) as Hn. set (eb1 := evict_expired_loop _ _ _ _) in *. rewrite Hn.
    apply runs_step. cbn [exec fst snd]. destruct (is_full _ _ _); [|apply runs_push].
    rewrite Hn. by apply runs_room.
  - intros n. apply runs_step, runs_step, runs_done.
  - intros m. apply runs_step. cbn [exec fst snd]. apply runs_step. unfold drain.
    cbn [db metric_store metric_add with_metrics with_buffer]. rewrite Hd. apply runs_done.
  - intros free m. unfold delete_all_backlog. destruct free; apply runs_step, runs_step; cbn [exec fst snd].
    + destruct (0 <? count (buffer eb)) eqn:Hc; cbn [db metric_store with_metrics with_buffer requeue];
        rewrite Hd; apply runs_done.
    + change (0 <? 0) with false. cbv iota. rewrite Hd. apply runs_done.
Qed.

(** ** The counter of memory *)

(** What a task has yet to add to the counter, or subtract from it. *)
Definition owed t : Z :=
  match t with
  | Expired _ old _ | Evicted old _ => - size old
  | Pushed e => size e
  | WasRead entries | Drained entries => - total_size entries
  | _ => 0
  end.

Definition all_owed ts : Z := foldr (λ t n, owed t + n) 0 ts.

Definition deletes t : bool := match t with Delete _ | Deleted _ => true | _ => false end.

(** A task that has not begun. *)
Definition begins t : Prop := match t with Start _ _ _ _ | Read _ | Drain => True | _ => False end.

Definition counter_inv ts eb : Prop :=
  memory_usage eb = wrap 64 (total_size (buffer eb) - all_owed ts) /\ Forall (λ t, deletes t = false) ts.

Lemma owed_insert ts i t t' : ts !! i = Some t -> all_owed (<[i := t']> ts) = all_owed ts - owed t + owed t'.
Proof using Type.
  revert i. induction ts as [|t0 ts IH]; intros [|i] Hi; simpl in *; simplify_eq; [lia|]. rewrite (IH i Hi). lia.
Qed.

(** One step keeps the counter up to what is owed, by this task and by others. *)
Lemma exec_counts t eb k :
  deletes t = false -> memory_usage eb = wrap 64 (total_size (buffer eb) - owed t - k) ->
  deletes (exec t eb).1 = false /\
  memory_usage (exec t eb).2 = wrap 64 (total_size (buffer (exec t eb).2) - owed (exec t eb).1 - k).
Proof using Type.
  intros Hd Hu. destruct t as [m0 m1 bytes dt|now e|now old e|e|e|e|old e|e|e|n|es| |es|free|n|]; try done;
    cbn [exec fst snd owed] in *.
  - destruct (buffer eb) as [|old q] eqn:Hb; cbn [fst snd owed]; [by rewrite Hb|].
    destruct (_ <? _); cbn [fst snd owed]; [|by rewrite Hb]. split; [done|]. cbn [requeue with_buffer memory_usage buffer owed].
    rewrite Hu, total_size_cons. f_equal. lia.
  - split; [done|]. cbn -[total_size size]. rewrite Hu, wrap_sub_wrap_l. f_equal. lia.
  - by destruct (is_full _ _ _).
  - by destruct (is_full _ _ _).
  - destruct (buffer eb) as [|old q] eqn:Hb; cbn [fst snd owed]; [by rewrite Hb|]. split; [done|].
    cbn [fst snd requeue with_buffer memory_usage buffer owed].
    rewrite Hu, total_size_cons. f_equal. lia.
  - split; [done|]. cbn -[total_size size]. rewrite Hu, wrap_sub_wrap_l. f_equal. lia.
  - split; [done|]. cbn [requeue with_buffer memory_usage buffer]. rewrite Hu, total_size_app, total_size_cons, total_size_nil.
    f_equal. lia.
  - split; [done|]. cbn -[total_size size]. rewrite Hu, wrap_add_wrap_l. f_equal. lia.
  - split; [done|]. cbn [requeue with_buffer memory_usage buffer]. rewrite Hu.
    rewrite <- (take_drop (Nat.min n (length (buffer eb))) (buffer eb)) at 1. rewrite total_size_app. f_equal. lia.
  - split; [done|]. cbn -[total_size size]. rewrite Hu, wrap_sub_wrap_l. f_equal. lia.
  - split; [done|]. cbn [requeue with_buffer memory_usage buffer]. rewrite Hu, total_size_nil. f_equal. lia.
  - split; [done|]. cbn -[total_size size]. rewrite Hu, wrap_sub_wrap_l. f_equal. lia.
Qed.

Lemma sched_step_inv i ts eb :
  counter_inv ts eb -> counter_inv (sched_step (ts, eb) i).1 (sched_step (ts, eb) i).2.
Proof using Type.
  intros [Hu Hd]. unfold sched_step. cbn [fst snd]. destruct (ts !! i) as [t|] eqn:Hi; [|done]. cbn [fst snd].
  destruct (exec_counts t eb (all_owed ts - owed t)) as [Hd' Hu'].
  - by eapply Forall_lookup_1 in Hd.
  - rewrite Hu. f_equal. lia.
  - split; [|by apply Forall_insert]. rewrite Hu', (owed_insert _ _ _ _ Hi). f_equal. lia.
Qed.

Lemma run_tasks_inv schedule ts eb :
  counter_inv ts eb -> counter_inv (run_tasks schedule ts eb).1 (run_tasks schedule ts eb).2.
Proof using Type.
  unfold run_tasks. revert ts eb. induction schedule as [|i s IH]; intros ts eb Hi; [done|]. simpl.
  apply (sched_step_inv i) in Hi. destruct (sched_step (ts, eb) i). by apply IH.
Qed.

Lemma begins_inv ts : Forall begins ts -> all_owed ts = 0 /\ Forall (λ t, deletes t = false) ts.
Proof using Type.
  induction 1 as [|t ts Ht _ [IHo IHd]]; [done|]. split; [|constructor; [by destruct t|done]].
  simpl. rewrite IHo. by destruct t.
Qed.

(** [C19] However writes, reads and drains of any number of tasks are
    interleaved, the counter of memory is what is queued less what those tasks
    that have changed the queue have yet to count; when none is in between, it
    is exactly what is queued. *)
Theorem counter_settles ts schedule :
  Forall begins ts ->
  let '(ts', eb) := run_tasks schedule ts (new config None) in
  memory_usage eb = wrap 64 (total_size (buffer eb) - all_owed ts') /\
  (Forall (λ t, owed t = 0) ts' -> total_size (buffer eb) < 2 ^ 64 -> memory_usage eb = total_size (buffer eb)).
Proof using Type.
  intros Hb. apply begins_inv in Hb as [Ho Hd].
  assert (counter_inv ts (new config None)) as Hi by (split; [by rewrite Ho|done]).
  apply (run_tasks_inv schedule) in Hi as [Hu _]. destruct (run_tasks _ _ _) as [ts' eb]. cbn [fst snd] in Hu.
  split; [done|]. intros Hq Hlt. rewrite Hu.
  assert (all_owed ts' = 0) as -> by (clear -Hq; induction Hq as [|t ts Ht _ IH]; [done|]; simpl; lia).
  rewrite Z.sub_0_r. apply wrap_id. split; [apply total_size_nonneg|done].
Qed.
End tasks.

(** ** Races *)

Section races.
#[local] Existing Instances ref_db ref_bincode.

Definition at_once : moment (DB := ref_db) := @Moment ref_db 0 0 true.
Definition write_of (n : nat) : task := Start at_once at_once (repeat x00 n) Events.
Definition memory_only : EdgeBuffer := new default_config None.

Definition sizes_queued (p : list task * EdgeBuffer) : list Z := size <$> buffer p.2.

(** A drain takes the entry of a write that has not counted it yet: the counter
    is below zero, that is near 2^64, the next entry is queued, and the one after
    that makes room by evicting it, with 99.99 of 100 megabytes free. *)
Example drain_race_evicts :
  let p := run_tasks default_config
    ([0; 0; 0; 0] ++ [1; 1] ++ repeat 2 6 ++ repeat 3 20)%nat
    [write_of 9; Drain; write_of 1; write_of 2] memory_only in
  sizes_queued p = [2] /\ metrics p.2 entries_evicted = 1 /\
  total_size (buffer p.2) + 9 < max_memory_bytes default_config.
Proof. repeat split; vm_compute; reflexivity. Qed.

(** Two writes compare the memory with the limit before either queues. *)
Example limit_race_exceeds :
  let config := {| max_memory_bytes := 10; max_entries := 100; entry_ttl := 1; disk_spill_dir := [];
                   disk_spill_enabled := false; max_disk_bytes := 0; sqlite_path := None |} in
  let p := run_tasks config ([0; 0; 0] ++ [1; 1; 1] ++ [0; 0] ++ [1; 1])%nat [write_of 8; write_of 8]
    (new config None) in
  total_size (buffer p.2) = 16 /\ memory_usage p.2 = 16 /\ p.1 = [Finished; Finished].
Proof. repeat split; vm_compute; reflexivity. Qed.

(** A deletion between the queueing and the counting of an entry: the counter
    keeps the size of an entry that is gone. *)
Example delete_race_leaks :
  let p := run_tasks default_config ([0; 0; 0; 0] ++ [1; 1] ++ [0])%nat [write_of 9; Delete true] memory_only in
  buffer p.2 = [] /\ memory_usage p.2 = 9 /\ p.1 = [Finished; Finished].
Proof. repeat split; vm_compute; reflexivity. Qed.

Lemma counter_settles_witness :
  let p := run_tasks default_config ([0; 0; 0; 0] ++ [1; 1] ++ [0])%nat [write_of 9; Drain] memory_only in
  memory_usage p.2 = wrap 64 (total_size (buffer p.2) - all_owed p.1).
Proof.
  pose proof (counter_settles default_config [write_of 9; Drain] ([0; 0; 0; 0] ++ [1; 1] ++ [0])%nat
    ltac:(repeat constructor)) as H.
  cbv zeta. unfold memory_only. destruct (run_tasks _ _ _ _). exact (proj1 H).
Defined.
End races.
