(* ===== verification/FlowControl.v ===== *)
(** * communication/flow_control.rs

    The agent's queue by priority, its sampling under backpressure and the
    signals of the cluster.  A random number is an argument of the operation
    that draws it; the tasks that share the queue take its lock for the whole of
    an operation. *)

From Stdlib Require Import SpecFloat.
From stdpp Require Import sorting.
From S2P Require Import Prelude Bytes Consumer RustFloat.

#[local] Set Warnings "-clear-no-such-hyp".
#[local] Open Scope list_scope.
#[local] Open Scope Z_scope.

(** ** Data *)

Inductive Priority := Critical | High | Normal | Low.

#[global] Instance Priority_eq_dec : EqDecision Priority.
Proof. solve_decision. Defined.

(** The order of the enumeration. *)
Definition rank (p : Priority) : Z := match p with Critical => 0 | High => 1 | Normal => 2 | Low => 3 end.

Record PrioritizedMessage := { priority : Priority; pm_data : list byte; pm_sequence_number : Z }.

#[global] Instance PrioritizedMessage_eq_dec : EqDecision PrioritizedMessage.
Proof. solve_decision. Defined.

Record FlowControlState := {
  accepting : bool;
  credits : Z;
  window_bytes : Z;
  window_used : Z;
  fc_suggested_sampling_rate : f64;
  desired_interval_ms : option Z;
}.

Definition default_state : FlowControlState := {|
  accepting := true; credits := 1000; window_bytes := 10 * 1024 * 1024; window_used := 0;
  fc_suggested_sampling_rate := f64_one; desired_interval_ms := None |}.

Record FlowControl := {
  state : FlowControlState;
  queue : list PrioritizedMessage;
  backpressure_active : bool;
  messages_dropped : Z;
  sampling_rate : f64;
  max_queue_size : Z;
}.

Implicit Types fc : FlowControl.
Implicit Types q : list PrioritizedMessage.

Definition new (size : Z) : FlowControl := {|
  state := default_state; queue := []; backpressure_active := false; messages_dropped := 0;
  sampling_rate := f64_one; max_queue_size := size |}.

Definition with_queue q fc : FlowControl := {|
  state := state fc; queue := q; backpressure_active := backpressure_active fc;
  messages_dropped := messages_dropped fc; sampling_rate := sampling_rate fc;
  max_queue_size := max_queue_size fc |}.

Definition drop_one fc : FlowControl := {|
  state := state fc; queue := queue fc; backpressure_active := backpressure_active fc;
  messages_dropped := wrap 64 (messages_dropped fc + 1); sampling_rate := sampling_rate fc;
  max_queue_size := max_queue_size fc |}.

(** ** The queue *)

(** [sort_by], which is stable, on the priorities: each message is inserted
    after those that do not come later. *)
Fixpoint insert_sorted (m : PrioritizedMessage) q : list PrioritizedMessage :=
  match q with
  | [] => [m]
  | x :: q => if rank (priority m) <? rank (priority x) then m :: x :: q else x :: insert_sorted m q
  end.

Definition make_contiguous_sorted q : list PrioritizedMessage := foldl (λ q m, insert_sorted m q) [] q.

(** [q.iter().rposition(|m| m.priority >= p)] *)
Fixpoint rposition (p : Priority) q : option nat :=
  match q with
  | [] => None
  | m :: q =>
      match rposition p q with
      | Some i => Some (S i)
      | None => if rank p <=? rank (priority m) then Some 0%nat else None
      end
  end.

Definition len_usize q : Z := Z.of_nat (length q).

(** [random]: what [fastrand::f64()] draws. *)
Definition enqueue (random : f64) (data : list byte) (p : Priority) (sequence_number : Z) fc : bool * FlowControl :=
  let msg := {| priority := p; pm_data := data; pm_sequence_number := sequence_number |} in
  let push fc := with_queue (make_contiguous_sorted (queue fc ++ [msg])) fc in
  if decide (p = Critical) then (true, push fc)
  else if backpressure_active fc && f64_lt (sampling_rate fc) random then (false, drop_one fc)
  else if max_queue_size fc <=? len_usize (queue fc)
  then
    match rposition p (queue fc) with
    | Some lowest => (true, push (drop_one (with_queue (delete lowest (queue fc)) fc)))
    | None => (false, drop_one fc)
    end
  else (true, push fc).

Definition dequeue (count : nat) fc : list PrioritizedMessage * FlowControl :=
  let drain_count := Nat.min count (length (queue fc)) in
  (take drain_count (queue fc), with_queue (drop drain_count (queue fc)) fc).

(** ** Signals *)

Definition update_state (new_state : FlowControlState) fc : FlowControl :=
  let window_usage := if 0 <? window_bytes new_state
                      then f64_quot (u64_as_f64 (window_used new_state)) (u64_as_f64 (window_bytes new_state))
                      else f64_zero in
  {| state := new_state; queue := queue fc;
     backpressure_active :=
       negb (accepting new_state) || (credits new_state =? 0) || f64_lt nine_tenths window_usage;
     messages_dropped := messages_dropped fc;
     sampling_rate := if f64_zero_lt (fc_suggested_sampling_rate new_state)
                      then fc_suggested_sampling_rate new_state else sampling_rate fc;
     max_queue_size := max_queue_size fc |}.

(** The message [FlowControl] of [ingestion.proto]. *)
Record FlowControlSignal := {
  fs_desired_interval_ms : Z;
  fs_sampling_rate : spec_float;
  fs_pause : bool;
  fs_reason : list byte;
}.

Definition apply_server_signal (signal : FlowControlSignal) fc : FlowControl :=
  let sampled := SFltb (S754_zero false) (fs_sampling_rate signal) in
  let rate := f32_as_f64 (fs_sampling_rate signal) in
  {| state := {|
       accepting := if fs_pause signal then false else accepting (state fc);
       credits := credits (state fc); window_bytes := window_bytes (state fc);
       window_used := window_used (state fc);
       fc_suggested_sampling_rate := if sampled then rate else fc_suggested_sampling_rate (state fc);
       desired_interval_ms := if 0 <? fs_desired_interval_ms signal
                              then Some (fs_desired_interval_ms signal) else desired_interval_ms (state fc) |};
     queue := queue fc;
     backpressure_active := if fs_pause signal then true else backpressure_active fc;
     messages_dropped := messages_dropped fc;
     sampling_rate := if sampled then rate else sampling_rate fc;
     max_queue_size := max_queue_size fc |}.

Definition is_backpressured fc : bool := backpressure_active fc.

Definition queue_len fc : Z := len_usize (queue fc).

Definition desired_interval fc : option Z := desired_interval_ms (state fc).

(** What [Client::send_metrics] asks before it sends: the batch is only kept in
    the edge buffer. *)
Definition sampled_out (random : f64) fc : bool := is_backpressured fc && f64_lt (sampling_rate fc) random.

(** ** The queue by classes *)

Definition before (m m' : PrioritizedMessage) : Prop := rank (priority m) <= rank (priority m').

#[global] Instance before_trans : Transitive before.
Proof. intros m1 m2 m3. unfold before. lia. Qed.

(** The messages of one priority, the oldest first. *)
Definition class (p : Priority) q : list PrioritizedMessage := filter (λ m, priority m = p) q.

Lemma insert_sorted_last m q : Forall (λ x, before x m) q -> insert_sorted m q = q ++ [m].
Proof.
  induction 1 as [|x q Hx _ IH]; [done|]. simpl. unfold before in Hx.
  rewrite (proj2 (Z.ltb_ge _ _)) by done. by rewrite IH.
Qed.

Lemma insert_sorted_perm m q : insert_sorted m q ≡ₚ m :: q.
Proof. induction q as [|x q IH]; simpl; [done|]. case_match; [done|]. rewrite IH. constructor. Qed.

Lemma insert_sorted_sorted m q : StronglySorted before q -> StronglySorted before (insert_sorted m q).
Proof.
  induction 1 as [|x q Hs IH Hx]; simpl; [by repeat constructor|]. case_match; bool_to_prop.
  - constructor; [by constructor|]. constructor; [unfold before; lia|].
    eapply Forall_impl; [exact Hx|]. unfold before. simpl. lia.
  - constructor; [done|]. rewrite insert_sorted_perm. constructor; [unfold before; lia|done].
Qed.

(** Sorting a sorted queue and one more message inserts that message. *)
Lemma sort_sorted q : StronglySorted before q -> make_contiguous_sorted q = q.
Proof.
  intros Hs. unfold make_contiguous_sorted. induction q as [|m q IH] using rev_ind; [done|].
  rewrite foldl_snoc. apply StronglySorted_app in Hs as (Hb & Hq & _).
  rewrite IH by done. apply insert_sorted_last. apply Forall_forall. intros x Hx. apply Hb; [done|by left].
Qed.

Lemma sort_snoc m q : StronglySorted before q -> make_contiguous_sorted (q ++ [m]) = insert_sorted m q.
Proof. intros Hs. unfold make_contiguous_sorted. rewrite foldl_snoc. f_equal. by apply sort_sorted. Qed.

Lemma class_app p q q' : class p (q ++ q') = class p q ++ class p q'.
Proof. apply filter_app. Qed.

Lemma class_nil p q : Forall (λ m, priority m <> p) q -> class p q = [].
Proof. induction 1 as [|m q Hm _ IH]; [done|]. unfold class. by rewrite filter_cons_False. Qed.

(** Stability: a new message comes after those of its class. *)
Lemma insert_sorted_class p m q :
  StronglySorted before q -> class p (insert_sorted m q) = class p q ++ class p [m].
Proof.
  induction 1 as [|x q Hs IH Hx]; [done|]. simpl. case_match; bool_to_prop.
  - change (m :: x :: q) with ([m] ++ (x :: q)). rewrite class_app.
    destruct (decide (priority m = p)) as [<-|Hp].
    + assert (class (priority m) (x :: q) = []) as ->; [|by rewrite app_nil_r].
      apply class_nil. constructor; [intros Hx'; rewrite Hx' in *; lia|].
      eapply Forall_impl; [exact Hx|]. unfold before. simpl. intros y Hy Hy'. rewrite Hy' in *. lia.
    + rewrite (class_nil p [m]) by by constructor. by rewrite app_nil_r.
  - change (x :: insert_sorted m q) with ([x] ++ insert_sorted m q). rewrite class_app, IH.
    by rewrite app_assoc, <- class_app.
Qed.

(** In a sorted queue the last message is the one that makes room. *)
Lemma rposition_sorted p q :
  StronglySorted before q ->
  match rposition p q with
  | Some i => exists q' x, q = q' ++ [x] /\ i = length q' /\ rank p <= rank (priority x)
  | None => Forall (λ m, rank (priority m) < rank p) q
  end.
Proof.
  induction 1 as [|m q Hs IH Hm]; simpl; [constructor|]. destruct (rposition p q) as [i|].
  - destruct IH as (q' & x & -> & -> & Hx). by exists (m :: q'), x.
  - destruct (Z.leb_spec (rank p) (rank (priority m))); [|by constructor].
    destruct q as [|x q]; [by exists [], m|].
    exfalso. apply Forall_cons in IH as [IH _], Hm as [Hm _]. unfold before in Hm. lia.
Qed.

Lemma delete_last {A} (q : list A) x : delete (length q) (q ++ [x]) = q.
Proof. rewrite delete_take_drop, take_app_length, drop_ge by (rewrite length_app; simpl; lia). apply app_nil_r. Qed.

(** ** Runs *)

Inductive fc_op :=
  | Enqueue (random : f64) (data : list byte) (p : Priority) (sequence_number : Z)
  | Dequeue (count : nat)
  | UpdateState (new_state : FlowControlState)
  | ServerSignal (signal : FlowControlSignal).

Definition fc_step (o : fc_op) fc : list PrioritizedMessage * FlowControl :=
  match o with
  | Enqueue random data p seq => ([], (enqueue random data p seq fc).2)
  | Dequeue n => dequeue n fc
  | UpdateState st => ([], update_state st fc)
  | ServerSignal s => ([], apply_server_signal s fc)
  end.

(** What is sent in the end, in order, and the state. *)
Definition fc_run (os : list fc_op) fc : list PrioritizedMessage * FlowControl :=
  foldl (λ r o, let r' := fc_step o r.2 in (r.1 ++ r'.1, r'.2)) ([], fc) os.

(** The messages handed in. *)
Definition arrivals (os : list fc_op) : list PrioritizedMessage :=
  omap (λ o, match o with
             | Enqueue _ data p seq => Some {| priority := p; pm_data := data; pm_sequence_number := seq |}
             | _ => None
             end) os.

Definition is_critical (m : PrioritizedMessage) : Prop := priority m = Critical.

#[global] Instance is_critical_dec m : Decision (is_critical m).
Proof. unfold is_critical. apply _. Defined.

(** What may be dropped. *)
Definition sheddable q : list PrioritizedMessage := filter (λ m, ~ is_critical m) q.

(** The state of the queue after the arrivals [arr], [out] having been sent. *)
Record fc_inv (arr out : list PrioritizedMessage) (size : Z) fc : Prop := {
  fi_size : max_queue_size fc = size;
  fi_sorted : StronglySorted before (queue fc);
  fi_critical : class Critical arr = class Critical out ++ class Critical (queue fc);
  fi_order p : sublist (class p out ++ class p (queue fc)) (class p arr);
  fi_bound : len_usize (sheddable (queue fc)) <= Z.max 0 size;
  fi_count : messages_dropped fc = wrap 64 (len_usize arr - len_usize out - len_usize (queue fc));
}.

(** Storing one more message in the queue. *)
Lemma push_inv arr out size fc fc' m :
  fc_inv arr out size fc -> queue fc' = make_contiguous_sorted (queue fc ++ [m]) ->
  max_queue_size fc' = size -> messages_dropped fc' = messages_dropped fc ->
  (is_critical m \/ len_usize (sheddable (queue fc)) < Z.max 0 size) ->
  fc_inv (arr ++ [m]) out size fc'.
Proof.
  intros [Hsz Hs Hc Ho Hb Hn] Hq Hsz' Hd Hm. rewrite sort_snoc in Hq by done. split.
  - done.
  - rewrite Hq. by apply insert_sorted_sorted.
  - rewrite Hq, insert_sorted_class, class_app, Hc by done. by rewrite app_assoc.
  - intros p. rewrite Hq, insert_sorted_class, class_app, app_assoc by done. by apply sublist_app.
  - rewrite Hq. unfold sheddable, len_usize in *. rewrite insert_sorted_perm.
    destruct Hm as [Hm|Hm].
    + by rewrite filter_cons_False by tauto.
    + rewrite filter_cons. case_decide; simpl; lia.
  - rewrite Hd, Hn, Hq. unfold len_usize. rewrite insert_sorted_perm, length_app. simpl. f_equal. lia.
Qed.

(** A message refused, one shed from the end of the queue, and messages sent. *)
Lemma refuse_inv arr out size fc m :
  fc_inv arr out size fc -> ~ is_critical m -> fc_inv (arr ++ [m]) out size (drop_one fc).
Proof.
  intros [Hsz Hs Hc Ho Hb Hn] Hm. split; try done; cbn [queue drop_one messages_dropped].
  - rewrite class_app, (class_nil Critical [m]) by by constructor. by rewrite app_nil_r.
  - intros p. rewrite class_app. by apply sublist_inserts_r.
  - rewrite Hn, wrap_add_wrap_l. unfold len_usize. rewrite length_app. simpl. f_equal. lia.
Qed.

Lemma shed_inv arr out size fc q x :
  fc_inv arr out size fc -> queue fc = q ++ [x] -> ~ is_critical x ->
  fc_inv arr out size (drop_one (with_queue q fc)) /\ len_usize (sheddable q) < Z.max 0 size.
Proof.
  intros [Hsz Hs Hc Ho Hb Hn] Hq Hx. rewrite Hq in *.
  assert (len_usize (sheddable (q ++ [x])) = len_usize (sheddable q) + 1) as Hl.
  { unfold len_usize, sheddable. rewrite filter_app, filter_cons_True, length_app by done. simpl. lia. }
  split; [|lia]. split; try done; cbn [queue drop_one with_queue messages_dropped].
  - by apply StronglySorted_app_1_l in Hs.
  - rewrite Hc, class_app, (class_nil Critical [x]) by by constructor. by rewrite app_nil_r.
  - intros p. etrans; [|apply Ho]. rewrite class_app, app_assoc. by apply sublist_inserts_r.
  - lia.
  - rewrite Hn, wrap_add_wrap_l. unfold len_usize. rewrite length_app. simpl. f_equal. lia.
Qed.

Lemma dequeue_inv arr out size fc n :
  fc_inv arr out size fc -> fc_inv arr (out ++ (dequeue n fc).1) size (dequeue n fc).2.
Proof.
  intros [Hsz Hs Hc Ho Hb Hn]. unfold dequeue. set (k := Nat.min _ _). cbn [fst snd].
  set (front := take k (queue fc)). set (rest := drop k (queue fc)).
  assert (queue fc = front ++ rest) as Hq by (symmetry; apply take_drop). rewrite Hq in *.
  split; try done; cbn [queue with_queue messages_dropped].
  - by apply StronglySorted_app_1_r in Hs.
  - by rewrite Hc, !class_app, app_assoc.
  - intros p. rewrite class_app, <- app_assoc, <- class_app. apply Ho.
  - unfold len_usize, sheddable in *. rewrite filter_app, length_app in Hb. lia.
  - rewrite Hn. unfold len_usize. rewrite !length_app. f_equal. lia.
Qed.

Lemma step_inv arr out size fc o :
  fc_inv arr out size fc ->
  fc_inv (arr ++ arrivals [o]) (out ++ (fc_step o fc).1) size (fc_step o fc).2.
Proof.
  intros Hi. destruct o as [random data p seq|n|st|sig]; cbn [fc_step fst snd arrivals omap list_omap];
    rewrite ?app_nil_r.
  2: by apply dequeue_inv.
  2, 3: by destruct Hi.
  unfold enqueue. cbv zeta. set (m := Build_PrioritizedMessage _ _ _).
  destruct (decide (p = Critical)) as [Hp|Hp]; [eapply push_inv; try done; [by destruct Hi|by left]|].
  destruct (_ && _); [by apply refuse_inv|].
  pose proof (rposition_sorted p (queue fc) (fi_sorted _ _ _ _ Hi)) as Hr.
  destruct (Z.leb_spec (max_queue_size fc) (len_usize (queue fc))) as [Hfull|Hroom].
  - destruct (rposition p (queue fc)) as [i|]; [|by apply refuse_inv].
    destruct Hr as (q & x & Hq & -> & Hx). rewrite Hq, delete_last.
    assert (~ is_critical x) as Hnc.
    { intros Hc. unfold is_critical in Hc. rewrite Hc in Hx. by destruct p. }
    destruct (shed_inv _ _ _ _ _ _ Hi Hq Hnc) as [Hi' Hb].
    eapply push_inv; [exact Hi'|done|apply (fi_size _ _ _ _ Hi)|done|by right].
  - eapply push_inv; try done; [apply (fi_size _ _ _ _ Hi)|]. right.
    rewrite (fi_size _ _ _ _ Hi) in Hroom. unfold len_usize, sheddable in *.
    pose proof (length_filter (λ m, ~ is_critical m) (queue fc)). lia.
Qed.

Lemma run_inv os size :
  fc_inv (arrivals os) (fc_run os (new size)).1 size (fc_run os (new size)).2.
Proof.
  induction os as [|o os IH] using rev_ind.
  { split; try done; [constructor|apply Z.le_max_l]. }
  unfold fc_run in *. rewrite foldl_snoc. unfold arrivals in *. rewrite omap_app. cbn [fst snd].
  by apply step_inv.
Qed.

(** ** Signals of the cluster *)

(** A rate that is 1 or more, or that is to be kept. *)
Definition full_rate (signal : FlowControlSignal) : Prop :=
  SFltb (S754_zero false) (fs_sampling_rate signal) = false \/
  f64_lt (f32_as_f64 (fs_sampling_rate signal)) f64_one = false.

(** The agent's flow control only ever gets signals of the cluster. *)
Definition signals (ss : list FlowControlSignal) fc : FlowControl := foldl (λ fc s, apply_server_signal s fc) fc ss.

Lemma signals_paused ss fc :
  backpressure_active (signals ss fc) = backpressure_active fc || existsb fs_pause ss.
Proof.
  revert fc. induction ss as [|s ss IH]; intros fc; simpl; [by rewrite orb_false_r|]. rewrite IH. simpl.
  by destruct (fs_pause s), (backpressure_active fc).
Qed.

Lemma signals_full_rate ss fc :
  f64_lt (sampling_rate fc) f64_one = false -> Forall full_rate ss ->
  f64_lt (sampling_rate (signals ss fc)) f64_one = false.
Proof.
  intros Hfc Hss. revert fc Hfc. induction Hss as [|s ss Hs _ IH]; intros fc Hfc; [done|].
  apply IH. simpl. destruct (SFltb _ _) eqn:Hr; [|done]. by destruct Hs as [Hs|Hs]; [congruence|].
Qed.

(** Numbers of one sign are compared by exponent, then by mantissa. *)
Lemma f64_lt_trans x y z : f64_lt x y = true -> f64_lt y z = true -> f64_lt x z = true.
Proof.
  unfold f64_lt, SFltb.
  destruct x as [[]|[]| |[] m1 e1], y as [[]|[]| |[] m2 e2], z as [[]|[]| |[] m3 e3]; cbn; try done.
  all: fold (Pos.compare m1 m2) (Pos.compare m2 m3) (Pos.compare m1 m3).
  all: destruct (Z.compare_spec e1 e2), (Z.compare_spec e2 e3), (Z.compare_spec e1 e3); try (done || lia).
  all: destruct (Pos.compare_spec m1 m2), (Pos.compare_spec m2 m3), (Pos.compare_spec m1 m3); done || lia.
Qed.

(** ** Properties *)

(** [C30] After any messages, dequeues, signals and state updates, of a queue
    meant for [size] messages: what is queued is in the order of the priorities;
    every critical message handed in has been sent or is queued, in the order of
    arrival, and no other overtakes one of its own priority; of what may be
    dropped at most [size] messages are queued; and the counter is the number of
    messages handed in that are neither sent nor queued. *)
Theorem critical_never_dropped os size :
  let r := fc_run os (new size) in
  StronglySorted before (queue r.2) /\
  class Critical (arrivals os) = class Critical r.1 ++ class Critical (queue r.2) /\
  (forall p, sublist (class p r.1 ++ class p (queue r.2)) (class p (arrivals os))) /\
  len_usize (sheddable (queue r.2)) <= Z.max 0 size /\
  messages_dropped r.2 = wrap 64 (len_usize (arrivals os) - len_usize r.1 - len_usize (queue r.2)).
Proof. intros r. destruct (run_inv os size) as [_ Hs Hc Ho Hb Hn]. by split_and!. Qed.

(** What the cluster's signals do to the sending of metrics: without a
    pause nothing is held back, whatever the sampling rates; with a pause nothing
    is held back either unless a rate below 1 was sent too; and once there was a
    pause, no later signal ends the backpressure. *)
Theorem pause_needs_rate ss size random :
  f64_lt random f64_one = true ->
  (existsb fs_pause ss = false \/ Forall full_rate ss -> sampled_out random (signals ss (new size)) = false) /\
  (existsb fs_pause ss = true -> forall more, is_backpressured (signals more (signals ss (new size))) = true).
Proof.
  intros Hr. unfold sampled_out, is_backpressured. split.
  - rewrite signals_paused. intros [->|Hf]; [done|]. apply andb_false_iff. right.
    apply (signals_full_rate _ (new size)) in Hf; [|done].
    destruct (f64_lt (sampling_rate _) random) eqn:Hlt; [|done].
    by rewrite (f64_lt_trans _ _ _ Hlt Hr) in Hf.
  - intros Hp more. by rewrite !signals_paused, Hp.
Qed.

(** ** Witnesses *)

Definition message (p : Priority) (n : Z) : fc_op := Enqueue f64_zero [] p n.
Definition signal (rate : spec_float) (pause : bool) : FlowControlSignal := {|
  fs_desired_interval_ms := 0; fs_sampling_rate := rate; fs_pause := pause; fs_reason := [] |}.

(** A queue for two: the alert passes, the newest of the least urgent messages goes. *)
Example queue_full :
  let r := fc_run [message Low 1; message Normal 2; message Critical 3; message High 4; Dequeue 1] (new 2) in
  pm_sequence_number <$> r.1 = [3] /\ pm_sequence_number <$> queue r.2 = [4; 2] /\ messages_dropped r.2 = 1.
Proof. by vm_compute. Qed.

(** Half of the batches are held back once paused with a rate of one half. *)
Lemma pause_needs_rate_witness :
  let half : f64 := S754_finite false 4503599627370496 (-53) in
  let three_quarters : f64 := S754_finite false 6755399441055744 (-53) in
  let pause := [signal f64_zero true] in
  (existsb fs_pause pause = false \/ Forall full_rate pause ->
    sampled_out three_quarters (signals pause (new 10)) = false) /\
  (existsb fs_pause pause = true ->
    forall more, is_backpressured (signals more (signals pause (new 10))) = true) /\
  sampled_out three_quarters (signals (pause ++ [signal (S754_finite false 8388608 (-24)) false]) (new 10)) = true.
Proof.
  intros half three_quarters pause.
  destruct (pause_needs_rate pause 10 three_quarters ltac:(vm_compute; reflexivity)) as [Hs Hp].
  split; [exact Hs|]. split; [exact Hp|]. vm_compute. reflexivity.
Defined.
