(* ===== verification/MetricMessage.v ===== *)
(** * Metrics as messages: the batch [send_metrics] sends

    The snapshot the collectors of agent/src/metal take ([MetalBatch]), the
    message of [agent.proto] made of it, and what a receiver reads back of the
    snapshot. *)

From S2P Require Import Prelude Bytes RustSlice RustStr Consumer RustFloat EdgeBuffer.
From S2P Require ClusterEvent.

#[local] Open Scope list_scope.
#[local] Open Scope Z_scope.

Abbreviation as_i32 := ClusterEvent.as_i32.

(** ** The snapshot: metal/*.rs *)

Record CpuMetrics := {
  cpu_timestamp : str;
  cpu_total_usage_percent : f64;
  cpu_per_core_percent : list f64;
  cpu_load_average_1m : option f64;
  cpu_load_average_5m : option f64;
  cpu_load_average_15m : option f64;
  cpu_frequency_mhz : f64;
  cpu_context_switches : option Z;
  cpu_physical_cores : Z;
  cpu_logical_cores : Z;
  cpu_model_name : str;
  cpu_vendor_id : option str;
}.

Record MemoryPressure := {
  some_avg10 : f64; some_avg60 : f64; some_avg300 : f64;
  full_avg10 : f64; full_avg60 : f64; full_avg300 : f64;
}.

Record ProcessMemory := {
  pm_pid : Z;
  pm_name : str;
  pm_rss_bytes : Z;
  pm_vsz_bytes : Z;
  pm_swap_bytes : Z;
}.

Record MemoryMetrics := {
  mem_timestamp : str;
  mem_total_bytes : Z;
  mem_used_bytes : Z;
  mem_free_bytes : Z;
  mem_available_bytes : Z;
  mem_cached_bytes : option Z;
  mem_buffer_bytes : option Z;
  mem_swap_total_bytes : Z;
  mem_swap_used_bytes : Z;
  mem_usage_percent : f64;
  mem_pressure : option MemoryPressure;
  mem_top_processes : list ProcessMemory;
}.

Record DiskDevice := {
  dd_device_name : str;
  dd_mount_point : str;
  dd_filesystem_type : str;
  dd_total_bytes : Z;
  dd_used_bytes : Z;
  dd_free_bytes : Z;
  dd_read_ops_per_sec : option f64;
  dd_write_ops_per_sec : option f64;
  dd_read_bytes_per_sec : option f64;
  dd_write_bytes_per_sec : option f64;
  dd_io_latency_ms : option f64;
  dd_queue_depth : option f64;
  dd_is_ssd : bool;
  dd_utilization_pct : f64;
}.

Record DiskMetrics := { disk_timestamp : str; disk_devices : list DiskDevice }.

Record TcpStats := { ts_retransmits : Z; ts_active_connections : Z; ts_time_wait : Z; ts_listen : Z }.

Record NetworkInterface := {
  if_interface_name : str;
  if_rx_bytes_per_sec : f64;
  if_tx_bytes_per_sec : f64;
  if_rx_packets_per_sec : f64;
  if_tx_packets_per_sec : f64;
  if_rx_errors : Z;
  if_tx_errors : Z;
  if_rx_dropped : option Z;
  if_tx_dropped : option Z;
  if_total_rx_bytes : Z;
  if_total_tx_bytes : Z;
  if_total_rx_packets : Z;
  if_total_tx_packets : Z;
  if_tcp_retransmits : option Z;
  if_estimated_rtt_ms : option f64;
  if_speed_mbps : option Z;
  if_is_up : bool;
}.

Record NetworkMetrics := {
  net_timestamp : str;
  net_interfaces : list NetworkInterface;
  net_tcp_stats : option TcpStats;
}.

Record ProcessInfo := {
  pi_pid : Z;
  pi_parent_pid : Z;
  pi_name : str;
  pi_command_line : str;
  pi_exe : option str;
  pi_cpu_usage_percent : f64;
  pi_rss_bytes : Z;
  pi_vsz_bytes : Z;
  pi_disk_read_bytes : option Z;
  pi_disk_written_bytes : option Z;
  pi_status : str;
  pi_thread_count : option Z;
  pi_fd_count : option Z;
  pi_container_id : option str;
  pi_started_at : option str;
  pi_user_id : option str;
}.

Record ProcessMetrics := { proc_timestamp : str; proc_processes : list ProcessInfo }.

Record ContainerInfo := {
  ci_container_id : str;
  ci_runtime : str;
  ci_name : str;
  ci_image : str;
  ci_status : str;
  ci_cgroup_version : str;
  ci_pids : list Z;
  (** [resource_limits] *)
  ci_memory_limit_bytes : option Z;
  ci_cpu_quota : option f64;
  ci_cpu_shares : option Z;
}.

Record ContainerMetrics := { ct_timestamp : str; ct_containers : list ContainerInfo }.

Record MetalBatch := {
  mb_timestamp : str;
  mb_cpu : option CpuMetrics;
  mb_memory : option MemoryMetrics;
  mb_disk : option DiskMetrics;
  mb_network : option NetworkMetrics;
  mb_process : option ProcessMetrics;
  mb_container : option ContainerMetrics;
}.

(** What stands for data that are not the JSON of a snapshot. *)
Definition metal_empty : MetalBatch := {|
  mb_timestamp := []; mb_cpu := None; mb_memory := None; mb_disk := None; mb_network := None;
  mb_process := None; mb_container := None |}.

(** ** The message: agent.proto *)

Record CpuMetric := {
  pb_cpu_total_usage_percent : f64;
  pb_cpu_per_core_percent : list f64;
  pb_cpu_load_average_1m : f64;
  pb_cpu_load_average_5m : f64;
  pb_cpu_load_average_15m : f64;
  pb_cpu_frequency_mhz : f64;
  pb_cpu_context_switches : Z;
  pb_cpu_physical_cores : Z;
  pb_cpu_logical_cores : Z;
  pb_cpu_model_name : str;
  pb_cpu_vendor_id : str;
}.

Record pb_MemoryPressure := {
  some_10 : f64; some_60 : f64; some_300 : f64; full_10 : f64; full_60 : f64; full_300 : f64;
}.

Record MemoryTopProcess := { tp_pid : Z; tp_name : str; tp_rss_bytes : Z; tp_vsz_bytes : Z }.

Record MemoryMetric := {
  pb_mem_total_bytes : Z;
  pb_mem_used_bytes : Z;
  pb_mem_free_bytes : Z;
  pb_mem_available_bytes : Z;
  pb_mem_cached_bytes : Z;
  pb_mem_buffer_bytes : Z;
  pb_mem_swap_total_bytes : Z;
  pb_mem_swap_used_bytes : Z;
  pb_mem_usage_percent : f64;
  pb_mem_pressure : option pb_MemoryPressure;
  pb_mem_top_processes : list MemoryTopProcess;
}.

Record DiskMetric := {
  pb_dd_device_name : str;
  pb_dd_mount_point : str;
  pb_dd_filesystem_type : str;
  pb_dd_total_bytes : Z;
  pb_dd_used_bytes : Z;
  pb_dd_free_bytes : Z;
  pb_dd_read_ops_per_sec : f64;
  pb_dd_write_ops_per_sec : f64;
  pb_dd_read_bytes_per_sec : f64;
  pb_dd_write_bytes_per_sec : f64;
  pb_dd_io_latency_ms : f64;
  pb_dd_queue_depth : f64;
  pb_dd_is_ssd : bool;
  pb_dd_utilization_pct : f64;
}.

Record pb_TcpStats := {
  established : Z; time_wait : Z; close_wait : Z; listen : Z; retransmit_count : Z;
}.

Record NetworkMetric := {
  pb_if_interface_name : str;
  pb_if_rx_bytes_per_sec : f64;
  pb_if_tx_bytes_per_sec : f64;
  pb_if_rx_packets_per_sec : f64;
  pb_if_tx_packets_per_sec : f64;
  pb_if_rx_errors : Z;
  pb_if_tx_errors : Z;
  pb_if_rx_dropped : Z;
  pb_if_tx_dropped : Z;
  pb_if_tcp_retransmits : Z;
  pb_if_estimated_rtt_ms : f64;
  pb_if_total_rx_bytes : Z;
  pb_if_total_tx_bytes : Z;
  pb_if_total_rx_packets : Z;
  pb_if_total_tx_packets : Z;
  pb_if_speed_mbps : Z;
  pb_if_is_up : bool;
  pb_if_tcp_stats : option pb_TcpStats;
}.

Record ProcessMetric := {
  pb_pi_pid : Z;
  pb_pi_parent_pid : Z;
  pb_pi_name : str;
  pb_pi_command_line : str;
  pb_pi_cpu_usage_percent : f64;
  pb_pi_rss_bytes : Z;
  pb_pi_vsz_bytes : Z;
  pb_pi_status : str;
  pb_pi_thread_count : Z;
  pb_pi_fd_count : Z;
  pb_pi_container_id : str;
  pb_pi_started_at : option (Z * Z);
  pb_pi_exe : str;
  pb_pi_disk_read_bytes : Z;
  pb_pi_disk_written_bytes : Z;
  pb_pi_user_id : str;
}.

(** The [labels] are never set. *)
Record ContainerMetric := {
  pb_ci_container_id : str;
  pb_ci_runtime : str;
  pb_ci_name : str;
  pb_ci_image : str;
  pb_ci_status : str;
  pb_ci_cgroup_version : str;
  pb_ci_pids : list Z;
  pb_ci_memory_limit_bytes : Z;
  pb_ci_cpu_quota : f64;
  pb_ci_cpu_shares : Z;
}.

(** Without the time it is sent; health checks, log entries, network events and
    metrics of the agent itself are never in it. *)
Record MetricBatch := {
  pb_agent_id : str;
  pb_session_id : str;
  pb_sequence_number : Z;
  pb_cpu : option CpuMetric;
  pb_memory : option MemoryMetric;
  pb_disks : list DiskMetric;
  pb_interfaces : list NetworkMetric;
  pb_processes : list ProcessMetric;
  pb_containers : list ContainerMetric;
}.

(** ** The conversion *)

(** [parse_from_rfc3339]: chrono's, giving seconds and nanoseconds. *)
Section conversion.
Context (parse_from_rfc3339 : str -> option (Z * Z)).

Definition or_zero : option f64 -> f64 := default f64_zero.

Definition cpu_metric (c : CpuMetrics) : CpuMetric := {|
  pb_cpu_total_usage_percent := cpu_total_usage_percent c;
  pb_cpu_per_core_percent := cpu_per_core_percent c;
  pb_cpu_load_average_1m := or_zero (cpu_load_average_1m c);
  pb_cpu_load_average_5m := or_zero (cpu_load_average_5m c);
  pb_cpu_load_average_15m := or_zero (cpu_load_average_15m c);
  pb_cpu_frequency_mhz := cpu_frequency_mhz c;
  pb_cpu_context_switches := as_i64 (default 0 (cpu_context_switches c));
  pb_cpu_physical_cores := as_i32 (cpu_physical_cores c);
  pb_cpu_logical_cores := as_i32 (cpu_logical_cores c);
  pb_cpu_model_name := cpu_model_name c;
  pb_cpu_vendor_id := default [] (cpu_vendor_id c) |}.

Definition memory_pressure (p : MemoryPressure) : pb_MemoryPressure := {|
  some_10 := some_avg10 p; some_60 := some_avg60 p; some_300 := some_avg300 p;
  full_10 := full_avg10 p; full_60 := full_avg60 p; full_300 := full_avg300 p |}.

Definition memory_top_process (p : ProcessMemory) : MemoryTopProcess := {|
  tp_pid := as_i32 (pm_pid p); tp_name := pm_name p;
  tp_rss_bytes := as_i64 (pm_rss_bytes p); tp_vsz_bytes := as_i64 (pm_vsz_bytes p) |}.

Definition memory_metric (m : MemoryMetrics) : MemoryMetric := {|
  pb_mem_total_bytes := as_i64 (mem_total_bytes m);
  pb_mem_used_bytes := as_i64 (mem_used_bytes m);
  pb_mem_free_bytes := as_i64 (mem_free_bytes m);
  pb_mem_available_bytes := as_i64 (mem_available_bytes m);
  pb_mem_cached_bytes := as_i64 (default 0 (mem_cached_bytes m));
  pb_mem_buffer_bytes := as_i64 (default 0 (mem_buffer_bytes m));
  pb_mem_swap_total_bytes := as_i64 (mem_swap_total_bytes m);
  pb_mem_swap_used_bytes := as_i64 (mem_swap_used_bytes m);
  pb_mem_usage_percent := mem_usage_percent m;
  pb_mem_pressure := memory_pressure <$> mem_pressure m;
  pb_mem_top_processes := memory_top_process <$> mem_top_processes m |}.

Definition disk_metric (d : DiskDevice) : DiskMetric := {|
  pb_dd_device_name := dd_device_name d; pb_dd_mount_point := dd_mount_point d;
  pb_dd_filesystem_type := dd_filesystem_type d;
  pb_dd_total_bytes := as_i64 (dd_total_bytes d);
  pb_dd_used_bytes := as_i64 (dd_used_bytes d);
  pb_dd_free_bytes := as_i64 (dd_free_bytes d);
  pb_dd_read_ops_per_sec := or_zero (dd_read_ops_per_sec d);
  pb_dd_write_ops_per_sec := or_zero (dd_write_ops_per_sec d);
  pb_dd_read_bytes_per_sec := or_zero (dd_read_bytes_per_sec d);
  pb_dd_write_bytes_per_sec := or_zero (dd_write_bytes_per_sec d);
  pb_dd_io_latency_ms := or_zero (dd_io_latency_ms d);
  pb_dd_queue_depth := or_zero (dd_queue_depth d);
  pb_dd_is_ssd := dd_is_ssd d; pb_dd_utilization_pct := dd_utilization_pct d |}.

Definition tcp_stats (ts : TcpStats) : pb_TcpStats := {|
  established := as_i32 (ts_active_connections ts); time_wait := as_i32 (ts_time_wait ts);
  close_wait := 0; listen := as_i32 (ts_listen ts); retransmit_count := as_i64 (ts_retransmits ts) |}.

(** Every interface carries the statistics of the host. *)
Definition network_metric (ts : option TcpStats) (i : NetworkInterface) : NetworkMetric := {|
  pb_if_interface_name := if_interface_name i;
  pb_if_rx_bytes_per_sec := if_rx_bytes_per_sec i;
  pb_if_tx_bytes_per_sec := if_tx_bytes_per_sec i;
  pb_if_rx_packets_per_sec := if_rx_packets_per_sec i;
  pb_if_tx_packets_per_sec := if_tx_packets_per_sec i;
  pb_if_rx_errors := as_i64 (if_rx_errors i);
  pb_if_tx_errors := as_i64 (if_tx_errors i);
  pb_if_rx_dropped := as_i64 (default 0 (if_rx_dropped i));
  pb_if_tx_dropped := as_i64 (default 0 (if_tx_dropped i));
  pb_if_tcp_retransmits := as_i64 (default 0 (if_tcp_retransmits i));
  pb_if_estimated_rtt_ms := or_zero (if_estimated_rtt_ms i);
  pb_if_total_rx_bytes := as_i64 (if_total_rx_bytes i);
  pb_if_total_tx_bytes := as_i64 (if_total_tx_bytes i);
  pb_if_total_rx_packets := as_i64 (if_total_rx_packets i);
  pb_if_total_tx_packets := as_i64 (if_total_tx_packets i);
  pb_if_speed_mbps := as_i64 (default 0 (if_speed_mbps i));
  pb_if_is_up := if_is_up i;
  pb_if_tcp_stats := tcp_stats <$> ts |}.

Definition process_metric (p : ProcessInfo) : ProcessMetric := {|
  pb_pi_pid := as_i32 (pi_pid p); pb_pi_parent_pid := as_i32 (pi_parent_pid p);
  pb_pi_name := pi_name p; pb_pi_command_line := pi_command_line p;
  pb_pi_cpu_usage_percent := pi_cpu_usage_percent p;
  pb_pi_rss_bytes := as_i64 (pi_rss_bytes p); pb_pi_vsz_bytes := as_i64 (pi_vsz_bytes p);
  pb_pi_status := pi_status p;
  pb_pi_thread_count := as_i32 (default 0 (pi_thread_count p));
  pb_pi_fd_count := as_i32 (default 0 (pi_fd_count p));
  pb_pi_container_id := default [] (pi_container_id p);
  pb_pi_started_at := pi_started_at p ≫= parse_from_rfc3339;
  pb_pi_exe := default [] (pi_exe p);
  pb_pi_disk_read_bytes := as_i64 (default 0 (pi_disk_read_bytes p));
  pb_pi_disk_written_bytes := as_i64 (default 0 (pi_disk_written_bytes p));
  pb_pi_user_id := default [] (pi_user_id p) |}.

Definition container_metric (c : ContainerInfo) : ContainerMetric := {|
  pb_ci_container_id := ci_container_id c; pb_ci_runtime := ci_runtime c; pb_ci_name := ci_name c;
  pb_ci_image := ci_image c; pb_ci_status := ci_status c; pb_ci_cgroup_version := ci_cgroup_version c;
  pb_ci_pids := as_i32 <$> ci_pids c;
  pb_ci_memory_limit_bytes := as_i64 (default 0 (ci_memory_limit_bytes c));
  pb_ci_cpu_quota := or_zero (ci_cpu_quota c);
  pb_ci_cpu_shares := as_i64 (default 0 (ci_cpu_shares c)) |}.

Definition metric_batch (agent session : str) (seq : Z) (metal : MetalBatch) : MetricBatch := {|
  pb_agent_id := agent; pb_session_id := session; pb_sequence_number := as_i64 seq;
  pb_cpu := cpu_metric <$> mb_cpu metal;
  pb_memory := memory_metric <$> mb_memory metal;
  pb_disks := default [] ((λ d, disk_metric <$> disk_devices d) <$> mb_disk metal);
  pb_interfaces := default [] ((λ n, network_metric (net_tcp_stats n) <$> net_interfaces n) <$> mb_network metal);
  pb_processes := default [] ((λ p, process_metric <$> proc_processes p) <$> mb_process metal);
  pb_containers := default [] ((λ c, container_metric <$> ct_containers c) <$> mb_container metal) |}.
End conversion.

(** ** What the message tells of the snapshot *)

(** A counter has its width. *)
Definition opt_in_range (w : Z) (o : option Z) : Prop := in_range w (default 0 o).

Definition cpu_ok (c : CpuMetrics) : Prop :=
  opt_in_range 64 (cpu_context_switches c) /\ in_range 32 (cpu_physical_cores c) /\ in_range 32 (cpu_logical_cores c).

Definition top_process_ok (p : ProcessMemory) : Prop :=
  in_range 32 (pm_pid p) /\ in_range 64 (pm_rss_bytes p) /\ in_range 64 (pm_vsz_bytes p).

Definition memory_ok (m : MemoryMetrics) : Prop :=
  Forall (in_range 64) [mem_total_bytes m; mem_used_bytes m; mem_free_bytes m; mem_available_bytes m;
    default 0 (mem_cached_bytes m); default 0 (mem_buffer_bytes m); mem_swap_total_bytes m; mem_swap_used_bytes m] /\
  Forall top_process_ok (mem_top_processes m).

Definition disk_ok (d : DiskDevice) : Prop :=
  in_range 64 (dd_total_bytes d) /\ in_range 64 (dd_used_bytes d) /\ in_range 64 (dd_free_bytes d).

Definition tcp_stats_ok (ts : TcpStats) : Prop :=
  in_range 64 (ts_retransmits ts) /\ in_range 32 (ts_active_connections ts) /\ in_range 32 (ts_time_wait ts) /\
  in_range 32 (ts_listen ts).

Definition interface_ok (i : NetworkInterface) : Prop :=
  Forall (in_range 64) [if_rx_errors i; if_tx_errors i; default 0 (if_rx_dropped i); default 0 (if_tx_dropped i);
    if_total_rx_bytes i; if_total_tx_bytes i; if_total_rx_packets i; if_total_tx_packets i;
    default 0 (if_tcp_retransmits i); default 0 (if_speed_mbps i)].

Definition process_ok (p : ProcessInfo) : Prop :=
  Forall (in_range 32) [pi_pid p; pi_parent_pid p; default 0 (pi_thread_count p); default 0 (pi_fd_count p)] /\
  Forall (in_range 64) [pi_rss_bytes p; pi_vsz_bytes p; default 0 (pi_disk_read_bytes p);
    default 0 (pi_disk_written_bytes p)].

Definition container_ok (c : ContainerInfo) : Prop :=
  Forall (in_range 32) (ci_pids c) /\ opt_in_range 64 (ci_memory_limit_bytes c) /\ opt_in_range 64 (ci_cpu_shares c).

(** The lists of a snapshot; a missing one is empty. *)
Definition devices (b : MetalBatch) : list DiskDevice := default [] (disk_devices <$> mb_disk b).
Definition interfaces (b : MetalBatch) : list NetworkInterface := default [] (net_interfaces <$> mb_network b).
Definition processes (b : MetalBatch) : list ProcessInfo := default [] (proc_processes <$> mb_process b).
Definition containers (b : MetalBatch) : list ContainerInfo := default [] (ct_containers <$> mb_container b).
Definition host_tcp_stats (b : MetalBatch) : option TcpStats := mb_network b ≫= net_tcp_stats.

Record metal_ok (b : MetalBatch) : Prop := {
  mo_cpu c : mb_cpu b = Some c -> cpu_ok c;
  mo_memory m : mb_memory b = Some m -> memory_ok m;
  mo_disk : Forall disk_ok (devices b);
  mo_network : Forall interface_ok (interfaces b);
  mo_tcp ts : host_tcp_stats b = Some ts -> tcp_stats_ok ts;
  mo_process : Forall process_ok (processes b);
  mo_container : Forall container_ok (containers b);
}.

(** What is left of a snapshot when the times it was taken at, the swap of
    processes and the times they started at are forgotten, and a value that is
    missing is taken for 0 or an empty text. *)
Definition plain_cpu (c : CpuMetrics) : CpuMetrics := {|
  cpu_timestamp := []; cpu_total_usage_percent := cpu_total_usage_percent c;
  cpu_per_core_percent := cpu_per_core_percent c;
  cpu_load_average_1m := Some (or_zero (cpu_load_average_1m c));
  cpu_load_average_5m := Some (or_zero (cpu_load_average_5m c));
  cpu_load_average_15m := Some (or_zero (cpu_load_average_15m c));
  cpu_frequency_mhz := cpu_frequency_mhz c;
  cpu_context_switches := Some (default 0 (cpu_context_switches c));
  cpu_physical_cores := cpu_physical_cores c; cpu_logical_cores := cpu_logical_cores c;
  cpu_model_name := cpu_model_name c; cpu_vendor_id := Some (default [] (cpu_vendor_id c)) |}.

Definition plain_top_process (p : ProcessMemory) : ProcessMemory := {|
  pm_pid := pm_pid p; pm_name := pm_name p; pm_rss_bytes := pm_rss_bytes p; pm_vsz_bytes := pm_vsz_bytes p;
  pm_swap_bytes := 0 |}.

Definition plain_memory (m : MemoryMetrics) : MemoryMetrics := {|
  mem_timestamp := []; mem_total_bytes := mem_total_bytes m; mem_used_bytes := mem_used_bytes m;
  mem_free_bytes := mem_free_bytes m; mem_available_bytes := mem_available_bytes m;
  mem_cached_bytes := Some (default 0 (mem_cached_bytes m));
  mem_buffer_bytes := Some (default 0 (mem_buffer_bytes m));
  mem_swap_total_bytes := mem_swap_total_bytes m; mem_swap_used_bytes := mem_swap_used_bytes m;
  mem_usage_percent := mem_usage_percent m; mem_pressure := mem_pressure m;
  mem_top_processes := plain_top_process <$> mem_top_processes m |}.

Definition plain_disk (d : DiskDevice) : DiskDevice := {|
  dd_device_name := dd_device_name d; dd_mount_point := dd_mount_point d;
  dd_filesystem_type := dd_filesystem_type d; dd_total_bytes := dd_total_bytes d;
  dd_used_bytes := dd_used_bytes d; dd_free_bytes := dd_free_bytes d;
  dd_read_ops_per_sec := Some (or_zero (dd_read_ops_per_sec d));
  dd_write_ops_per_sec := Some (or_zero (dd_write_ops_per_sec d));
  dd_read_bytes_per_sec := Some (or_zero (dd_read_bytes_per_sec d));
  dd_write_bytes_per_sec := Some (or_zero (dd_write_bytes_per_sec d));
  dd_io_latency_ms := Some (or_zero (dd_io_latency_ms d));
  dd_queue_depth := Some (or_zero (dd_queue_depth d));
  dd_is_ssd := dd_is_ssd d; dd_utilization_pct := dd_utilization_pct d |}.

Definition plain_interface (i : NetworkInterface) : NetworkInterface := {|
  if_interface_name := if_interface_name i; if_rx_bytes_per_sec := if_rx_bytes_per_sec i;
  if_tx_bytes_per_sec := if_tx_bytes_per_sec i; if_rx_packets_per_sec := if_rx_packets_per_sec i;
  if_tx_packets_per_sec := if_tx_packets_per_sec i; if_rx_errors := if_rx_errors i;
  if_tx_errors := if_tx_errors i; if_rx_dropped := Some (default 0 (if_rx_dropped i));
  if_tx_dropped := Some (default 0 (if_tx_dropped i)); if_total_rx_bytes := if_total_rx_bytes i;
  if_total_tx_bytes := if_total_tx_bytes i; if_total_rx_packets := if_total_rx_packets i;
  if_total_tx_packets := if_total_tx_packets i; if_tcp_retransmits := Some (default 0 (if_tcp_retransmits i));
  if_estimated_rtt_ms := Some (or_zero (if_estimated_rtt_ms i));
  if_speed_mbps := Some (default 0 (if_speed_mbps i)); if_is_up := if_is_up i |}.

Definition plain_process (p : ProcessInfo) : ProcessInfo := {|
  pi_pid := pi_pid p; pi_parent_pid := pi_parent_pid p; pi_name := pi_name p;
  pi_command_line := pi_command_line p; pi_exe := Some (default [] (pi_exe p));
  pi_cpu_usage_percent := pi_cpu_usage_percent p; pi_rss_bytes := pi_rss_bytes p;
  pi_vsz_bytes := pi_vsz_bytes p; pi_disk_read_bytes := Some (default 0 (pi_disk_read_bytes p));
  pi_disk_written_bytes := Some (default 0 (pi_disk_written_bytes p)); pi_status := pi_status p;
  pi_thread_count := Some (default 0 (pi_thread_count p)); pi_fd_count := Some (default 0 (pi_fd_count p));
  pi_container_id := Some (default [] (pi_container_id p)); pi_started_at := None;
  pi_user_id := Some (default [] (pi_user_id p)) |}.

Definition plain_container (c : ContainerInfo) : ContainerInfo := {|
  ci_container_id := ci_container_id c; ci_runtime := ci_runtime c; ci_name := ci_name c;
  ci_image := ci_image c; ci_status := ci_status c; ci_cgroup_version := ci_cgroup_version c;
  ci_pids := ci_pids c; ci_memory_limit_bytes := Some (default 0 (ci_memory_limit_bytes c));
  ci_cpu_quota := Some (or_zero (ci_cpu_quota c)); ci_cpu_shares := Some (default 0 (ci_cpu_shares c)) |}.

(** The statistics of TCP are on the interfaces, so that without one they are
    not told. *)
Definition plain (b : MetalBatch) : MetalBatch := {|
  mb_timestamp := []; mb_cpu := plain_cpu <$> mb_cpu b; mb_memory := plain_memory <$> mb_memory b;
  mb_disk := Some {| disk_timestamp := []; disk_devices := plain_disk <$> devices b |};
  mb_network := Some {| net_timestamp := []; net_interfaces := plain_interface <$> interfaces b;
    net_tcp_stats := if decide (interfaces b = []) then None else host_tcp_stats b |};
  mb_process := Some {| proc_timestamp := []; proc_processes := plain_process <$> processes b |};
  mb_container := Some {| ct_timestamp := []; ct_containers := plain_container <$> containers b |} |}.

(** ** Reading the message

    The receiver's side, by the names of the fields: a number that stands for an
    unsigned one is taken modulo its width, the times the snapshot was taken at
    and what the message does not have are empty or 0. *)
Definition read_cpu (c : CpuMetric) : CpuMetrics := {|
  cpu_timestamp := []; cpu_total_usage_percent := pb_cpu_total_usage_percent c;
  cpu_per_core_percent := pb_cpu_per_core_percent c;
  cpu_load_average_1m := Some (pb_cpu_load_average_1m c);
  cpu_load_average_5m := Some (pb_cpu_load_average_5m c);
  cpu_load_average_15m := Some (pb_cpu_load_average_15m c);
  cpu_frequency_mhz := pb_cpu_frequency_mhz c;
  cpu_context_switches := Some (wrap 64 (pb_cpu_context_switches c));
  cpu_physical_cores := wrap 32 (pb_cpu_physical_cores c);
  cpu_logical_cores := wrap 32 (pb_cpu_logical_cores c);
  cpu_model_name := pb_cpu_model_name c; cpu_vendor_id := Some (pb_cpu_vendor_id c) |}.

Definition read_pressure (p : pb_MemoryPressure) : MemoryPressure := {|
  some_avg10 := some_10 p; some_avg60 := some_60 p; some_avg300 := some_300 p;
  full_avg10 := full_10 p; full_avg60 := full_60 p; full_avg300 := full_300 p |}.

Definition read_top_process (p : MemoryTopProcess) : ProcessMemory := {|
  pm_pid := wrap 32 (tp_pid p); pm_name := tp_name p; pm_rss_bytes := wrap 64 (tp_rss_bytes p);
  pm_vsz_bytes := wrap 64 (tp_vsz_bytes p); pm_swap_bytes := 0 |}.

Definition read_memory (m : MemoryMetric) : MemoryMetrics := {|
  mem_timestamp := []; mem_total_bytes := wrap 64 (pb_mem_total_bytes m);
  mem_used_bytes := wrap 64 (pb_mem_used_bytes m); mem_free_bytes := wrap 64 (pb_mem_free_bytes m);
  mem_available_bytes := wrap 64 (pb_mem_available_bytes m);
  mem_cached_bytes := Some (wrap 64 (pb_mem_cached_bytes m));
  mem_buffer_bytes := Some (wrap 64 (pb_mem_buffer_bytes m));
  mem_swap_total_bytes := wrap 64 (pb_mem_swap_total_bytes m);
  mem_swap_used_bytes := wrap 64 (pb_mem_swap_used_bytes m);
  mem_usage_percent := pb_mem_usage_percent m; mem_pressure := read_pressure <$> pb_mem_pressure m;
  mem_top_processes := read_top_process <$> pb_mem_top_processes m |}.

Definition read_disk (d : DiskMetric) : DiskDevice := {|
  dd_device_name := pb_dd_device_name d; dd_mount_point := pb_dd_mount_point d;
  dd_filesystem_type := pb_dd_filesystem_type d; dd_total_bytes := wrap 64 (pb_dd_total_bytes d);
  dd_used_bytes := wrap 64 (pb_dd_used_bytes d); dd_free_bytes := wrap 64 (pb_dd_free_bytes d);
  dd_read_ops_per_sec := Some (pb_dd_read_ops_per_sec d);
  dd_write_ops_per_sec := Some (pb_dd_write_ops_per_sec d);
  dd_read_bytes_per_sec := Some (pb_dd_read_bytes_per_sec d);
  dd_write_bytes_per_sec := Some (pb_dd_write_bytes_per_sec d);
  dd_io_latency_ms := Some (pb_dd_io_latency_ms d); dd_queue_depth := Some (pb_dd_queue_depth d);
  dd_is_ssd := pb_dd_is_ssd d; dd_utilization_pct := pb_dd_utilization_pct d |}.

Definition read_tcp_stats (ts : pb_TcpStats) : TcpStats := {|
  ts_retransmits := wrap 64 (retransmit_count ts); ts_active_connections := wrap 32 (established ts);
  ts_time_wait := wrap 32 (time_wait ts); ts_listen := wrap 32 (listen ts) |}.

Definition read_interface (i : NetworkMetric) : NetworkInterface := {|
  if_interface_name := pb_if_interface_name i; if_rx_bytes_per_sec := pb_if_rx_bytes_per_sec i;
  if_tx_bytes_per_sec := pb_if_tx_bytes_per_sec i; if_rx_packets_per_sec := pb_if_rx_packets_per_sec i;
  if_tx_packets_per_sec := pb_if_tx_packets_per_sec i; if_rx_errors := wrap 64 (pb_if_rx_errors i);
  if_tx_errors := wrap 64 (pb_if_tx_errors i); if_rx_dropped := Some (wrap 64 (pb_if_rx_dropped i));
  if_tx_dropped := Some (wrap 64 (pb_if_tx_dropped i)); if_total_rx_bytes := wrap 64 (pb_if_total_rx_bytes i);
  if_total_tx_bytes := wrap 64 (pb_if_total_tx_bytes i); if_total_rx_packets := wrap 64 (pb_if_total_rx_packets i);
  if_total_tx_packets := wrap 64 (pb_if_total_tx_packets i);
  if_tcp_retransmits := Some (wrap 64 (pb_if_tcp_retransmits i));
  if_estimated_rtt_ms := Some (pb_if_estimated_rtt_ms i);
  if_speed_mbps := Some (wrap 64 (pb_if_speed_mbps i)); if_is_up := pb_if_is_up i |}.

Definition read_process (p : ProcessMetric) : ProcessInfo := {|
  pi_pid := wrap 32 (pb_pi_pid p); pi_parent_pid := wrap 32 (pb_pi_parent_pid p); pi_name := pb_pi_name p;
  pi_command_line := pb_pi_command_line p; pi_exe := Some (pb_pi_exe p);
  pi_cpu_usage_percent := pb_pi_cpu_usage_percent p; pi_rss_bytes := wrap 64 (pb_pi_rss_bytes p);
  pi_vsz_bytes := wrap 64 (pb_pi_vsz_bytes p); pi_disk_read_bytes := Some (wrap 64 (pb_pi_disk_read_bytes p));
  pi_disk_written_bytes := Some (wrap 64 (pb_pi_disk_written_bytes p)); pi_status := pb_pi_status p;
  pi_thread_count := Some (wrap 32 (pb_pi_thread_count p)); pi_fd_count := Some (wrap 32 (pb_pi_fd_count p));
  pi_container_id := Some (pb_pi_container_id p); pi_started_at := None; pi_user_id := Some (pb_pi_user_id p) |}.

Definition read_container (c : ContainerMetric) : ContainerInfo := {|
  ci_container_id := pb_ci_container_id c; ci_runtime := pb_ci_runtime c; ci_name := pb_ci_name c;
  ci_image := pb_ci_image c; ci_status := pb_ci_status c; ci_cgroup_version := pb_ci_cgroup_version c;
  ci_pids := wrap 32 <$> pb_ci_pids c; ci_memory_limit_bytes := Some (wrap 64 (pb_ci_memory_limit_bytes c));
  ci_cpu_quota := Some (pb_ci_cpu_quota c); ci_cpu_shares := Some (wrap 64 (pb_ci_cpu_shares c)) |}.

(** The statistics of TCP are those of the first interface. *)
Definition read_batch (m : MetricBatch) : MetalBatch := {|
  mb_timestamp := []; mb_cpu := read_cpu <$> pb_cpu m; mb_memory := read_memory <$> pb_memory m;
  mb_disk := Some {| disk_timestamp := []; disk_devices := read_disk <$> pb_disks m |};
  mb_network := Some {| net_timestamp := []; net_interfaces := read_interface <$> pb_interfaces m;
    net_tcp_stats := i ← head (pb_interfaces m); read_tcp_stats <$> pb_if_tcp_stats i |};
  mb_process := Some {| proc_timestamp := []; proc_processes := read_process <$> pb_processes m |};
  mb_container := Some {| ct_timestamp := []; ct_containers := read_container <$> pb_containers m |} |}.

(** A cast to a signed number of the same width and back. *)
Lemma u64_as_i64 x : in_range 64 x -> wrap 64 (as_i64 x) = x.
Proof.
  intros Hx. unfold as_i64. cbv zeta. rewrite !(wrap_id 64 x) by done. destruct (x <? 2 ^ 63); [by apply wrap_id|].
  unfold wrap. rewrite <- (Z.mod_add _ 1) by done. replace (x - 2 ^ 64 + 1 * 2 ^ 64) with x by lia. by apply wrap_id.
Qed.

Lemma u32_as_i32 x : in_range 32 x -> wrap 32 (as_i32 x) = x.
Proof.
  intros Hx. unfold as_i32, ClusterEvent.as_i32. fold (wrap 32 x). cbv zeta. rewrite !(wrap_id 32 x) by done.
  destruct (x <? 2 ^ 31); [by apply wrap_id|].
  unfold wrap. rewrite <- (Z.mod_add _ 1) by done. replace (x - 2 ^ 32 + 1 * 2 ^ 32) with x by lia. by apply wrap_id.
Qed.

(** Undo the casts of numbers that are in range. *)
Ltac read_back :=
  repeat match goal with
  | H : Forall _ (_ :: _) |- _ => apply Forall_cons in H as [? H]
  | H : opt_in_range _ _ |- _ => unfold opt_in_range in H
  end;
  cbn;
  repeat match goal with
  | |- context [wrap 64 (as_i64 ?x)] => rewrite (u64_as_i64 x) by assumption
  | |- context [wrap 32 (as_i32 ?x)] => rewrite (u32_as_i32 x) by assumption
  end.

Lemma read_list {A B C} (P : A -> Prop) (f : A -> B) (r : B -> C) (g : A -> C) (l : list A) :
  (forall x, P x -> r (f x) = g x) -> Forall P l -> r <$> (f <$> l) = g <$> l.
Proof. intros Hr. induction 1 as [|x l Hx _ IH]; [done|]. rewrite !fmap_cons, IH. f_equal. by apply Hr. Qed.

Lemma read_option {A B C} (P : A -> Prop) (f : A -> B) (r : B -> C) (g : A -> C) (o : option A) :
  (forall x, P x -> r (f x) = g x) -> (forall x, o = Some x -> P x) -> r <$> (f <$> o) = g <$> o.
Proof. intros Hr Ho. destruct o as [x|]; [|done]. simpl. f_equal. by apply Hr, Ho. Qed.

Lemma cpu_read c : cpu_ok c -> read_cpu (cpu_metric c) = plain_cpu c.
Proof. intros (?&?&?). unfold read_cpu, plain_cpu. by read_back. Qed.

Lemma top_process_read p : top_process_ok p -> read_top_process (memory_top_process p) = plain_top_process p.
Proof. intros (?&?&?). unfold read_top_process, plain_top_process. by read_back. Qed.

Lemma memory_read m : memory_ok m -> read_memory (memory_metric m) = plain_memory m.
Proof.
  intros [? Ht]. unfold read_memory, plain_memory. read_back.
  rewrite (read_list _ _ _ _ _ top_process_read Ht). f_equal. by destruct (mem_pressure m) as [[]|].
Qed.

Lemma disk_read d : disk_ok d -> read_disk (disk_metric d) = plain_disk d.
Proof. intros (?&?&?). unfold read_disk, plain_disk. by read_back. Qed.

Lemma tcp_stats_read ts : tcp_stats_ok ts -> read_tcp_stats (tcp_stats ts) = id ts.
Proof. intros (?&?&?&?). unfold read_tcp_stats. read_back. by destruct ts. Qed.

Lemma interface_read ts i : interface_ok i -> read_interface (network_metric ts i) = plain_interface i.
Proof. unfold interface_ok. intros. unfold read_interface, plain_interface. by read_back. Qed.

Lemma process_read parse p : process_ok p -> read_process (process_metric parse p) = plain_process p.
Proof. intros [? ?]. unfold read_process, plain_process. by read_back. Qed.

Lemma container_read c : container_ok c -> read_container (container_metric c) = plain_container c.
Proof.
  intros (Hp&?&?). unfold read_container, plain_container. read_back.
  rewrite (read_list _ _ _ id _ u32_as_i32 Hp). by rewrite list_fmap_id.
Qed.

Lemma fmap_default {A B C} (f : A -> list B) (g : B -> C) (o : option A) :
  default [] ((λ x, g <$> f x) <$> o) = g <$> default [] (f <$> o).
Proof. by destruct o. Qed.

(** The lists of the message. *)
Lemma message_interfaces parse agent session seq b :
  pb_interfaces (metric_batch parse agent session seq b) = network_metric (host_tcp_stats b) <$> interfaces b.
Proof. cbn. unfold interfaces, host_tcp_stats. by destruct (mb_network b). Qed.

Lemma message_processes parse agent session seq b :
  pb_processes (metric_batch parse agent session seq b) = process_metric parse <$> processes b.
Proof. apply fmap_default. Qed.

(** [C23] What is measured arrives: a receiver who reads the message by the names
    of its fields gets every value of the snapshot back in its place, but for
    the times it was taken at and the swap of processes, where a missing value
    is 0 or an empty text.  The signed numbers of the message are wide enough.
    Every interface carries the host's statistics of TCP, every process the time
    it started at, if that can be parsed, and the message its sender, its
    session and its number. *)
Theorem metric_batch_roundtrip parse agent session seq b :
  metal_ok b -> in_range 64 seq ->
  let m := metric_batch parse agent session seq b in
  read_batch m = plain b /\
  Forall (λ i, read_tcp_stats <$> pb_if_tcp_stats i = host_tcp_stats b) (pb_interfaces m) /\
  pb_pi_started_at <$> pb_processes m = (λ p, pi_started_at p ≫= parse) <$> processes b /\
  pb_agent_id m = agent /\ pb_session_id m = session /\ wrap 64 (pb_sequence_number m) = seq.
Proof.
  intros Hb Hs m.
  assert (read_tcp_stats <$> (tcp_stats <$> host_tcp_stats b) = host_tcp_stats b) as Hts.
  { rewrite (read_option _ _ _ id _ tcp_stats_read (mo_tcp _ Hb)). apply option_fmap_id. }
  split; [|split; [|split; [|split_and!; [done..|by apply u64_as_i64]]]]; subst m.
  - unfold read_batch, plain. rewrite message_interfaces, message_processes. cbn [metric_batch pb_cpu pb_memory pb_disks pb_containers].
    rewrite !fmap_default. fold (devices b) (containers b).
    rewrite (read_option _ _ _ _ _ cpu_read (mo_cpu _ Hb)), (read_option _ _ _ _ _ memory_read (mo_memory _ Hb)),
      (read_list _ _ _ _ _ disk_read (mo_disk _ Hb)), (read_list _ _ _ _ _ (interface_read _) (mo_network _ Hb)),
      (read_list _ _ _ _ _ (process_read _) (mo_process _ Hb)), (read_list _ _ _ _ _ container_read (mo_container _ Hb)).
    f_equal. do 2 f_equal. destruct (interfaces b) as [|i l]; [done|]. rewrite decide_False by done. exact Hts.
  - rewrite message_interfaces. apply Forall_fmap, Forall_true. intros i. exact Hts.
  - rewrite message_processes, <- list_fmap_compose. done.
Qed.

(** A processor of one core, with and without its load, on a host with a disk. *)
Definition one_core (load : option f64) : CpuMetrics := {|
  cpu_timestamp := []; cpu_total_usage_percent := f64_half; cpu_per_core_percent := [f64_half];
  cpu_load_average_1m := load; cpu_load_average_5m := load; cpu_load_average_15m := load;
  cpu_frequency_mhz := f64_two; cpu_context_switches := Some (2 ^ 64 - 1); cpu_physical_cores := 1;
  cpu_logical_cores := 2; cpu_model_name := ascii_bytes "x"; cpu_vendor_id := None |}.

Definition host (load : option f64) : MetalBatch := {|
  mb_timestamp := []; mb_cpu := Some (one_core load); mb_memory := None;
  mb_disk := Some {| disk_timestamp := []; disk_devices := [
    {| dd_device_name := ascii_bytes "sda"; dd_mount_point := ascii_bytes "/"; dd_filesystem_type := ascii_bytes "ext4";
       dd_total_bytes := 2 ^ 40; dd_used_bytes := 2 ^ 39; dd_free_bytes := 2 ^ 39; dd_read_ops_per_sec := load;
       dd_write_ops_per_sec := None; dd_read_bytes_per_sec := None; dd_write_bytes_per_sec := None;
       dd_io_latency_ms := None; dd_queue_depth := None; dd_is_ssd := true; dd_utilization_pct := f64_half |}] |};
  mb_network := None; mb_process := None; mb_container := None |}.

Lemma host_ok load : metal_ok (host load).
Proof.
  split; try done; cbn.
  - intros c [= <-]. unfold cpu_ok, opt_in_range, in_range; cbn; lia.
  - constructor; [|constructor]. unfold disk_ok, in_range; cbn; lia.
Qed.

Lemma metric_batch_roundtrip_witness :
  let m := metric_batch (λ _, None) (ascii_bytes "a") (ascii_bytes "s") 7 (host (Some f64_half)) in
  read_batch m = plain (host (Some f64_half)) /\ pb_agent_id m = ascii_bytes "a" /\
  pb_cpu_context_switches <$> pb_cpu m = Some (-1).
Proof.
  cbv zeta. destruct (metric_batch_roundtrip (λ _, None) (ascii_bytes "a") (ascii_bytes "s") 7 (host (Some f64_half)))
    as (Hr & _ & _ & Ha & _); [apply host_ok|done|]. split; [exact Hr|]. split; [exact Ha|]. vm_compute. reflexivity.
Defined.
