(* ===== verification/Tenant.v ===== *)
(** * communication/tenant.rs

    The file in which the agent keeps the name of its tenant.  The file system
    is a map from paths to contents; which accesses fail is an argument. *)

From S2P Require Import Prelude Bytes RustSlice RustStr Consumer.

#[local] Open Scope list_scope.
#[local] Open Scope Z_scope.

Abbreviation files := (gmap str (list byte)).

Implicit Types fs : files.

(** [data_dir.join("tenant_id")] *)
Definition path_slash : byte := x2f.
Definition join (dir name : str) : str :=
  match last dir with
  | None => name
  | Some b => if decide (b = path_slash) then dir ++ name else dir ++ [path_slash] ++ name
  end.

Record TenantCache := { cache_path : str }.

Definition tenant_new (data_dir : str) : TenantCache := {| cache_path := join data_dir (ascii_bytes "tenant_id") |}.

Implicit Types t : TenantCache.

(** [readable]: the file can be read, if there is one. *)
Definition read (readable : bool) t fs : option str :=
  match (content ← fs !! cache_path t; if readable && utf8_valid content then Some content else None) with
  | Some content => let trimmed := trim content in if bool_decide (trimmed = []) then None else Some trimmed
  | None => None
  end.

(** What a write comes to: the directory cannot be made or the file not be
    opened; the disk takes [n] bytes of it; all is written. *)
Inductive write_outcome := NotOpened | Partial (n : nat) | Whole.

Definition write (w : write_outcome) (tenant_id : str) t fs : bool * files :=
  match w with
  | NotOpened => (false, fs)
  | Partial n => (false, <[cache_path t := take n tenant_id]> fs)
  | Whole => (true, <[cache_path t := tenant_id]> fs)
  end.

(** [removable]: the file can be removed. *)
Definition clear (removable : bool) t fs : bool * files :=
  match fs !! cache_path t with
  | Some _ => if removable then (true, delete (cache_path t) fs) else (false, fs)
  | None => (true, fs)
  end.

(** ** Round trip *)

Definition trimmed_name (s : str) : option str := if bool_decide (trim s = []) then None else Some (trim s).

(** What is read of the cache: after a write that succeeded the name
    without the white space around it, and nothing when that leaves nothing;
    after one that broke off, a prefix in the place of a name; after clearing,
    nothing. *)
Theorem tenant_cache_roundtrip w removable tenant_id t fs :
  utf8_valid tenant_id = true ->
  (let '(ok, fs') := write w tenant_id t fs in
   (ok = true -> read true t fs' = trimmed_name tenant_id) /\
   (ok = false -> read true t fs' = read true t fs \/
      exists n, let c := take n tenant_id in read true t fs' = if utf8_valid c then trimmed_name c else None)) /\
  (let '(ok, fs') := clear removable t fs in ok = true -> read true t fs' = None).
Proof.
  intros Hv. split.
  - destruct w as [|n|]; simpl; split; try done; intros _.
    + by left.
    + right. exists n. unfold read. rewrite lookup_insert_eq. cbn [mbind option_bind andb].
      by destruct (utf8_valid (take n tenant_id)).
    + unfold read. rewrite lookup_insert_eq. cbn [mbind option_bind andb]. by rewrite Hv.
  - unfold clear. destruct (fs !! cache_path t) eqn:Hf; [destruct removable; [|done]|]; intros _; unfold read.
    + by rewrite lookup_delete_eq.
    + by rewrite Hf.
Qed.

Lemma tenant_cache_roundtrip_witness :
  let t := tenant_new (ascii_bytes "/var/lib/paryty") in
  read true t (write Whole (ascii_bytes " acme ") t ∅).2 = Some (ascii_bytes "acme").
Proof.
  pose proof (tenant_cache_roundtrip Whole true (ascii_bytes " acme ") (tenant_new (ascii_bytes "/var/lib/paryty")) ∅)
    as H. cbv zeta. etrans; [apply H; [vm_compute; reflexivity|reflexivity]|vm_compute; reflexivity].
Defined.
