(* ===== verification/Compression.v ===== *)
(** * communication/compression.rs

    The compressor, on an interface of the zstd library. *)

From S2P Require Import Prelude Bytes.

#[local] Open Scope list_scope.
#[local] Open Scope Z_scope.

(** Encoding at a level, and decoding; [None] for an error.  What was encoded
    decodes to itself. *)
Class Zstd := {
  zstd_encode : Z -> list byte -> option (list byte);
  zstd_decode : list byte -> option (list byte);
  zstd_roundtrip level data compressed :
    zstd_encode level data = Some compressed -> zstd_decode compressed = Some data;
}.

(** One frame: a mark and the data. *)
Definition ref_encode (level : Z) (data : list byte) : option (list byte) :=
  if (1 <=? level) && (level <=? 22) then Some (x28 :: data) else None.
Definition ref_decode (frame : list byte) : option (list byte) :=
  match frame with x28 :: data => Some data | _ => None end.
Definition ref_zstd : Zstd.
Proof.
  refine {| zstd_encode := ref_encode; zstd_decode := ref_decode |}.
  intros level data compressed. unfold ref_encode. destruct (_ && _); [|done]. by intros [= <-].
Defined.

Inductive CompressionAlgorithm := UseZstd | UseNone.

Record Compressor := { zstd_level : Z }.

Definition compressor_new : Compressor := {| zstd_level := 3 |}.
Definition with_settings (level : Z) : Compressor := {| zstd_level := Z.min 22 (Z.max 1 level) |}.

Section compress.
Context {ZS : Zstd}.
Implicit Types k : Compressor.

Definition compress_zstd (data : list byte) k : option (list byte) := zstd_encode (zstd_level k) data.
Definition decompress_zstd (data : list byte) k : option (list byte) := zstd_decode data.

Definition compress (data : list byte) (a : CompressionAlgorithm) k : option (list byte) :=
  match a with UseZstd => compress_zstd data k | UseNone => Some data end.
Definition decompress (data : list byte) (a : CompressionAlgorithm) k : option (list byte) :=
  match a with UseZstd => decompress_zstd data k | UseNone => Some data end.

Definition compress_metrics (data : list byte) k : option (list byte) := compress_zstd data k.
Definition compress_traces (data : list byte) k : option (list byte) := compress_zstd data k.

(** The two compressors may have different levels. *)
Lemma compress_roundtrip data a k k' compressed :
  compress data a k = Some compressed -> decompress compressed a k' = Some data.
Proof using Type. destruct a; simpl; [apply zstd_roundtrip|by intros [= ->]]. Qed.
End compress.
