(* ===== verification/GrpcClient.v ===== *)
(** * The agent's connection: communication/grpc_client.rs

    What [GrpcClient] keeps between calls: the state of the connection, what is
    attached to its requests, and the byte channel.  Of the remote calls, which
    are tonic's, there is what is attached to them and what is made of their
    answers; an answer is an argument. *)

From S2P Require Import Prelude Bytes RustSlice RustStr Consumer Tenant.

#[local] Open Scope list_scope.
#[local] Open Scope Z_scope.

(** ** tokio's bounded channel

    [mpsc::channel(n)] and [tx.send(m).await]: with room the message is queued,
    otherwise the caller waits until one is received ([None]).  Nothing in the
    source receives from the channel of [GrpcClient] or drops its receiver,
    which the client itself keeps. *)

Class Mpsc := {
  chan : Type;
  ch_new : Z -> chan;
  ch_send : list byte -> chan -> option chan;
  ch_queued : chan -> list (list byte);
  ch_capacity : chan -> Z;
  ch_new_spec n : 0 < n -> ch_queued (ch_new n) = [] /\ ch_capacity (ch_new n) = n;
  ch_send_room m c :
    Z.of_nat (length (ch_queued c)) < ch_capacity c ->
    exists c', ch_send m c = Some c' /\ ch_queued c' = ch_queued c ++ [m] /\ ch_capacity c' = ch_capacity c;
  ch_send_full m c : ch_capacity c <= Z.of_nat (length (ch_queued c)) -> ch_send m c = None;
}.

#[program] Definition ref_mpsc : Mpsc := {|
  chan := list (list byte) * Z;
  ch_new n := ([], n);
  ch_send m c := if Z.of_nat (length c.1) <? c.2 then Some (c.1 ++ [m], c.2) else None;
  ch_queued := fst;
  ch_capacity := snd |}.
Next Obligation. done. Qed.
Next Obligation. intros m [q n] Hc. simpl in *. rewrite (proj2 (Z.ltb_lt _ _)) by done. by eexists. Qed.
Next Obligation. intros m [q n] Hc. simpl in *. by rewrite (proj2 (Z.ltb_ge _ _)) by done. Qed.

Inductive ConnectionState := Disconnected | Connecting | Connected | Reconnecting.

#[global] Instance ConnectionState_eq_dec : EqDecision ConnectionState.
Proof. solve_decision. Defined.

(** [Result]: a value, or the text of an error. *)
Inductive answer (A : Type) := Answer (a : A) | Error (text : str).
Arguments Answer {A} a.
Arguments Error {A} text.

(** ** [reread_api_key] of config/mod.rs

    [env]: the variable; [file]: whether there is a file, whether it can be read
    and parsed, and the key in it. *)
Definition reread_api_key (env : option str) (file : option (option str)) : option (option str) :=
  let from_file :=
    match file with
    | Some (Some key) => Some (if bool_decide (key = []) then None else Some key)
    | Some None => None
    | None => Some None
    end in
  match env with
  | Some key => if bool_decide (key = []) then from_file else Some (Some key)
  | None => from_file
  end.

Section grpc.
Context {CH : Mpsc}.

Definition CHANNEL_CAPACITY : Z := 1024.

(** What [Client::new] reads of the configuration. *)
Record AgentConfig := {
  cf_id : str;
  cf_api_key : str;
  cf_tenant_id : option str;
  cf_twin_id : option str;
  cf_client_id : option str;
}.

(** What requests carry.  The identity here is not that of [Client]. *)
Record Metadata := {
  api_key : option str;
  tenant_id : option str;
  request_twin_id : option str;
  request_client_id : option str;
}.

(** [has_client]: the typed client and its channel are there. *)
Record GrpcClient := {
  connection : ConnectionState;
  client_running : bool;
  has_client : bool;
  tx : chan;
  metadata : Metadata;
  tenant_cache : option TenantCache;
}.

Implicit Types g : GrpcClient.
Implicit Types m : Metadata.

Definition grpc_new (config : AgentConfig) : GrpcClient := {|
  connection := Disconnected; client_running := false; has_client := false; tx := ch_new CHANNEL_CAPACITY;
  metadata := {|
    api_key := if bool_decide (cf_api_key config = []) then None else Some (cf_api_key config);
    tenant_id := cf_tenant_id config; request_twin_id := None; request_client_id := None |};
  tenant_cache := None |}.

Definition set_tenant_cache (t : TenantCache) g : GrpcClient := {|
  connection := connection g; client_running := client_running g; has_client := has_client g; tx := tx g;
  metadata := metadata g; tenant_cache := Some t |}.

Definition set_state (s : ConnectionState) g : GrpcClient := {|
  connection := s; client_running := client_running g; has_client := has_client g; tx := tx g;
  metadata := metadata g; tenant_cache := tenant_cache g |}.

Definition set_client (r : bool) g : GrpcClient := {|
  connection := connection g; client_running := r; has_client := r; tx := tx g;
  metadata := metadata g; tenant_cache := tenant_cache g |}.

Definition with_tx (t : chan) g : GrpcClient := {|
  connection := connection g; client_running := client_running g; has_client := has_client g; tx := t;
  metadata := metadata g; tenant_cache := tenant_cache g |}.

Definition with_metadata m g : GrpcClient := {|
  connection := connection g; client_running := client_running g; has_client := has_client g; tx := tx g;
  metadata := m; tenant_cache := tenant_cache g |}.

(** ** Metadata *)

(** [free]: nobody reads the twin, or the client, of the requests meanwhile;
    otherwise [try_write] fails and the old one stays. *)
Definition update_identity (free : bool * bool) (twin client : option str) g : GrpcClient :=
  let m := metadata g in
  with_metadata {|
    api_key := api_key m; tenant_id := tenant_id m;
    request_twin_id := if free.1 then twin else request_twin_id m;
    request_client_id := if free.2 then client else request_client_id m |} g.

Definition update_api_key (new_key : option str) g : GrpcClient :=
  let m := metadata g in
  with_metadata {| api_key := new_key; tenant_id := tenant_id m; request_twin_id := request_twin_id m;
                   request_client_id := request_client_id m |} g.

(** [reread]: what [reread_api_key] returns, or its error. *)
Definition refresh_api_key (reread : option (option str)) g : bool * GrpcClient :=
  match reread with
  | Some (Some new_key) =>
      if bool_decide (api_key (metadata g) = Some new_key) then (false, g)
      else (true, update_api_key (Some new_key) g)
  | Some None | None => (false, g)
  end.

(** [valid]: [MetadataValue::try_from] accepts the text. *)
Definition header (valid : str -> bool) (name : str) (v : option str) : list (str * str) :=
  match v with Some x => if valid x then [(name, x)] else [] | None => [] end.

(** [free]: the locks of the key, the twin and the client can be read; no
    request waits for them. *)
Definition attach_api_key_metadata (valid : str -> bool) (free : bool) m : list (str * str) :=
  if free then header valid (ascii_bytes "x-api-key") (api_key m) else [].
Definition attach_identity_metadata (valid : str -> bool) (free : bool * bool) m : list (str * str) :=
  (if free.1 then header valid (ascii_bytes "x-twin-id") (request_twin_id m) else []) ++
  (if free.2 then header valid (ascii_bytes "x-client-id") (request_client_id m) else []).

(** The remote calls; [ResolveIdentity] is one of another service. *)
Inductive call := RegisterAgent | SendBatch | Heartbeat | ReportNetworkEvents | StreamMetrics | ResolveIdentity.

Definition request_headers (valid : str -> bool) (free : bool * bool * bool) (k : call) g : list (str * str) :=
  match k with
  | ResolveIdentity => []
  | _ => attach_api_key_metadata valid free.1.1 (metadata g) ++
         header valid (ascii_bytes "x-tenant-id") (tenant_id (metadata g)) ++
         attach_identity_metadata valid (free.1.2, free.2) (metadata g)
  end.

(** ** Connecting *)

(** [works]: the endpoint is valid and the cluster answers. *)
Definition connect (works : bool) g : bool * GrpcClient :=
  let g := set_state Connecting g in
  if works then (true, set_client true (set_state Connected g)) else (false, g).

Definition disconnect g : GrpcClient := set_state Disconnected (set_client false g).

Definition is_connected g : bool := bool_decide (connection g = Connected).

(** ** Remote calls

    [reply]: the answer of the cluster, or the text of its status. *)

Definition not_available : str := ascii_bytes "Not connected: proto client unavailable".

Definition unary {A} (failed : str) (reply : answer A) g : answer A :=
  if negb (has_client g) then Error not_available
  else match reply with Answer a => Answer a | Error status => Error (failed ++ status) end.

(** The reply is a session; the second result is what goes into the cache, in
    the place of the tenant. *)
Definition register_agent (reply : answer str) g : answer str * option (TenantCache * str) :=
  let r := unary (ascii_bytes "RegisterAgent RPC failed: ") reply g in
  (r, match r with Answer session => t ← tenant_cache g; Some (t, session) | Error _ => None end).

Definition send_batch (reply : answer bool) g : answer bool :=
  unary (ascii_bytes "SendBatch RPC failed: ") reply g.
Definition heartbeat {A} (reply : answer A) g : answer A :=
  unary (ascii_bytes "Heartbeat RPC failed: ") reply g.
Definition report_network_events (reply : answer unit) g : answer unit :=
  unary (ascii_bytes "ReportNetworkEvents RPC failed: ") reply g.

(** The reply: the twin and the client, when assigned. *)
Definition resolve_identity_call (reply : answer (option (str * str))) g : answer (str * str) :=
  if negb (has_client g) then Error (ascii_bytes "Cannot resolve identity: not connected")
  else match reply with
       | Answer (Some ids) => Answer ids
       | Answer None => Error (ascii_bytes "Agent not yet assigned to a twin")
       | Error _ => Error (ascii_bytes "ResolveIdentity RPC failed")
       end.

(** [anyhow]'s [context]: the text of the error becomes this one. *)
Definition context {A} (text : str) (r : answer A) : answer A :=
  match r with Answer a => Answer a | Error _ => Error text end.

(** What the loops take for an error of authentication.  Of the upper-case
    letters outside ASCII only one, a dotted I, becomes a letter of the two
    words, and it leaves its dot behind that, so that they need not be lowered. *)
Definition is_auth_error (error : str) : bool :=
  let error_msg := ascii_lowercase error in
  contains (ascii_bytes "unauthenticated") error_msg || contains (ascii_bytes "unauthorized") error_msg.

(** ** The byte channel *)

Inductive send_result :=
  | Sent (g : GrpcClient)
  | SendError
  | Waits.

Definition send (bytes : list byte) g : send_result :=
  if negb (is_connected g) then SendError
  else match ch_send bytes (tx g) with
       | Some t => Sent (with_tx t g)
       | None => Waits
       end.

Definition in_channel g : list (list byte) := ch_queued (tx g).

(** Of the capacity it was created with, the channel holds at most that. *)
Record channel_ok g : Prop := {
  ch_ok_capacity : ch_capacity (tx g) = CHANNEL_CAPACITY;
  ch_ok_length : Z.of_nat (length (in_channel g)) <= CHANNEL_CAPACITY;
}.

Lemma grpc_new_ok config : channel_ok (grpc_new config) /\ in_channel (grpc_new config) = [].
Proof using Type.
  destruct (ch_new_spec CHANNEL_CAPACITY ltac:(done)) as [Hq Hc].
  split; [split|]; unfold in_channel; cbn; rewrite ?Hq; done.
Qed.

(** The channel alone decides. *)
Lemma channel_ok_same g g' : tx g' = tx g -> channel_ok g -> channel_ok g'.
Proof using Type. intros Ht [? ?]. by split; unfold in_channel; rewrite Ht. Qed.

(** A send changes the channel and nothing else. *)
Lemma send_sent bytes g g' : send bytes g = Sent g' -> g' = with_tx (tx g') g.
Proof using Type.
  unfold send. destruct (negb _); [done|]. destruct (ch_send _ _); [|done]. by intros [= <-].
Qed.

Lemma send_spec bytes g :
  channel_ok g ->
  match send bytes g with
  | Sent g' =>
      is_connected g = true /\ channel_ok g' /\ in_channel g' = in_channel g ++ [bytes] /\
      g' = with_tx (tx g') g
  | SendError => is_connected g = false
  | Waits => is_connected g = true /\ Z.of_nat (length (in_channel g)) = CHANNEL_CAPACITY
  end.
Proof using Type.
  intros [Hc Hl]. unfold send. destruct (is_connected g); [|done]. cbn [negb].
  destruct (decide (Z.of_nat (length (in_channel g)) < CHANNEL_CAPACITY)) as [Hlt|Hge].
  - destruct (ch_send_room bytes (tx g)) as (t & -> & Hq & Hcap); [by rewrite Hc|].
    assert (Z.of_nat (length (in_channel (with_tx t g))) = Z.of_nat (length (in_channel g)) + 1) as Hlen.
    { unfold in_channel. cbn [with_tx tx]. rewrite Hq, length_app. simpl. lia. }
    split_and!; try done. split; [cbn [with_tx tx]; congruence|lia].
  - rewrite ch_send_full by (rewrite Hc; unfold in_channel in Hge; lia). split; [done|lia].
Qed.

Lemma send_full bytes g :
  channel_ok g -> Z.of_nat (length (in_channel g)) = CHANNEL_CAPACITY -> is_connected g = true ->
  send bytes g = Waits.
Proof using Type.
  intros [Hc _] Hf Hon. unfold send. rewrite Hon. cbn [negb]. rewrite ch_send_full; [done|].
  rewrite Hc. unfold in_channel in Hf. lia.
Qed.
End grpc.
