(* ===== verification/Reconnect.v ===== *)
(** * communication/reconnect.rs

    The reconnection engine: exponential backoff with jitter.  The clock, the
    random number and whether the connection works are arguments; the delay
    that is slept is part of the result. *)

From Stdlib Require Import SpecFloat.
From S2P Require Import Prelude Bytes Consumer RustFloat GrpcClient.

#[local] Open Scope Z_scope.

(** Delays in milliseconds. *)
Record ReconnectPolicy := {
  base_delay : Z;
  max_delay : Z;
  jitter_factor : f64;
  max_retries : Z;
  reset_on_success : bool;
}.

Definition default_policy : ReconnectPolicy := {|
  base_delay := 100; max_delay := 30 * 1000; jitter_factor := f64_half; max_retries := 0;
  reset_on_success := true |}.

Record ReconnectionEngine := {
  policy : ReconnectPolicy;
  attempt : Z;
  consecutive_failures : Z;
  last_attempt : option Z;
  total_reconnections : Z;
}.

Implicit Types e : ReconnectionEngine.

Definition engine_new (p : ReconnectPolicy) : ReconnectionEngine := {|
  policy := p; attempt := 0; consecutive_failures := 0; last_attempt := None; total_reconnections := 0 |}.

(** [n as i32] of a [u32] *)
Definition u32_as_i32 (n : Z) : Z := if n <? 2 ^ 31 then n else n - 2 ^ 32.

Definition next_delay (random : f64) e : Z :=
  let base := u64_as_f64 (base_delay (policy e)) in
  let max := u64_as_f64 (max_delay (policy e)) in
  let delay_ms := f64_mul base (f64_pow2 (u32_as_i32 (attempt e))) in
  let delay_ms := f64_min delay_ms max in
  let jitter_range := f64_mul delay_ms (jitter_factor (policy e)) in
  let jitter := f64_mul (f64_sub (f64_mul random f64_two) f64_one) jitter_range in
  let delay_ms := f64_max (f64_add delay_ms jitter) f64_zero in
  f64_as_u64 delay_ms.

Definition set_attempt (n : Z) e : ReconnectionEngine := {|
  policy := policy e; attempt := n; consecutive_failures := consecutive_failures e;
  last_attempt := last_attempt e; total_reconnections := total_reconnections e |}.

Definition begin_attempt (now : Z) e : ReconnectionEngine := {|
  policy := policy e; attempt := attempt e; consecutive_failures := wrap 32 (consecutive_failures e + 1);
  last_attempt := Some now; total_reconnections := total_reconnections e |}.

Definition end_attempt e : ReconnectionEngine := {|
  policy := policy e; attempt := attempt e; consecutive_failures := 0;
  last_attempt := last_attempt e; total_reconnections := wrap 64 (total_reconnections e + 1) |}.

(** [Ok(false)], [Ok(true)] and [Err], with the delay slept before. *)
Inductive reconnect_result :=
  | GivesUp
  | Reconnected (delay : Z)
  | Fails (delay : Z).

Definition reset e : ReconnectionEngine := set_attempt 0 e.

Section reconnect.
Context {CH : Mpsc}.
Implicit Types g : GrpcClient.

Definition reconnect (now : Z) (random : f64) (works : bool) e g :
    reconnect_result * ReconnectionEngine * GrpcClient :=
  let e := begin_attempt now e in
  if (0 <? max_retries (policy e)) && (max_retries (policy e) <=? attempt e) then (GivesUp, e, g)
  else
    let delay := next_delay random e in
    let g := set_state Reconnecting g in
    let e := set_attempt (wrap 32 (attempt e + 1)) e in
    let '(ok, g) := connect works g in
    if ok
    then
      let e := if reset_on_success (policy e) then set_attempt 0 e else e in
      (Reconnected delay, end_attempt e, g)
    else (Fails delay, e, g).

(** ** The delays *)

(** [n] attempts that fail, at whatever times. *)
Fixpoint failing (n : nat) (draws : nat -> Z * f64) e g : ReconnectionEngine * GrpcClient :=
  match n with
  | O => (e, g)
  | S n => let '(e, g) := failing n draws e g in
           let '(_, e, g) := reconnect (draws n).1 (draws n).2 false e g in (e, g)
  end.

Lemma reconnect_policy now random works e g : policy (reconnect now random works e g).1.2 = policy e.
Proof using Type. unfold reconnect. destruct (_ && _), works; try done. cbn. by destruct (reset_on_success _). Qed.

Lemma failing_state n draws g :
  Z.of_nat n < 2 ^ 31 ->
  let e := (failing n draws (engine_new default_policy) g).1 in
  policy e = default_policy /\ attempt e = Z.of_nat n /\ consecutive_failures e = Z.of_nat n.
Proof using Type.
  induction n as [|n IH]; intros Hn; [done|]. simpl. specialize (IH ltac:(lia)).
  destruct (failing n draws _ g) as [e g']. cbv zeta in IH. cbn [fst] in IH. destruct IH as (Hp & Ha & Hc).
  unfold reconnect. cbn [policy begin_attempt]. rewrite Hp. cbn.
  rewrite Ha, Hc, Nat2Z.inj_succ, <- Z.add_1_r in *. change (2 ^ 31) with 2147483648 in Hn.
  rewrite !wrap_id by (unfold in_range; change (2 ^ 32) with 4294967296; lia). done.
Qed.

(** Doubling beyond the range of [f64]. *)
Lemma pow2_overflow n : 1024 <= n -> f64_pow2 n = S754_infinity false.
Proof using Type.
  intros Hn. unfold f64_pow2, binary_normalize, binary_round. cbn [digits2_pos].
  assert (SpecFloat.fexp 53 1024 (1 + n) = n - 52) as ->
    by (unfold SpecFloat.fexp, SpecFloat.emin; lia).
  unfold shl_align. replace (n - 52 - n) with (-52) by lia. cbn [Pos.iter].
  assert (SpecFloat.fexp 53 1024 (53 + (n - 52)) = n - 52) as Hf
    by (unfold SpecFloat.fexp, SpecFloat.emin; lia).
  assert (shr_fexp 53 1024 4503599627370496 (n - 52) loc_Exact =
    (shr_record_of_loc 4503599627370496 loc_Exact, n - 52)) as Hs.
  { unfold shr_fexp. change (Zdigits2 4503599627370496) with 53. by rewrite Hf, Z.sub_diag. }
  unfold binary_round_aux. rewrite Hs. cbn [shr_record_of_loc shr_m loc_of_shr_record round_nearest_even shr_r shr_s].
  rewrite Hs. cbn [shr_record_of_loc shr_m].
  by rewrite (proj2 (Z.leb_gt _ _)) by lia.
Qed.

(** The jitter-free draw: the delay doubles from [base_delay] to [max_delay]. *)
Lemma next_delay_half n e :
  0 <= n < 2 ^ 31 -> policy e = default_policy -> attempt e = n ->
  next_delay f64_half e = Z.min 30000 (100 * 2 ^ n).
Proof using Type.
  intros Hn Hp Ha. unfold next_delay. rewrite Hp, Ha. unfold u32_as_i32.
  rewrite (proj2 (Z.ltb_lt _ _)) by lia. destruct (Z.le_gt_cases 1024 n) as [Hbig|Hsmall].
  - rewrite pow2_overflow by done. rewrite Z.min_l; [vm_compute; reflexivity|].
    apply Z.le_trans with (100 * 2 ^ 1024); [done|]. apply Z.mul_le_mono_nonneg_l; [done|].
    apply Z.pow_le_mono_r; lia.
  - assert (forallb (λ n, f64_as_u64 (f64_max (f64_add
        (f64_min (f64_mul (u64_as_f64 100) (f64_pow2 (Z.of_nat n))) (u64_as_f64 30000))
        (f64_mul (f64_sub (f64_mul f64_half f64_two) f64_one)
           (f64_mul (f64_min (f64_mul (u64_as_f64 100) (f64_pow2 (Z.of_nat n))) (u64_as_f64 30000)) f64_half)))
        f64_zero) =? Z.min 30000 (100 * 2 ^ Z.of_nat n)) (seq 0 1024) = true) as Hall by (vm_compute; reflexivity).
    rewrite forallb_forall in Hall. specialize (Hall (Z.to_nat n)). rewrite Z2Nat.id in Hall by lia.
    apply Z.eqb_eq, Hall, in_seq. lia.
Qed.

(** With the greatest draws the delay exceeds [max_delay], which is capped
    before the jitter. *)
Example delay_beyond_max :
  next_delay (S754_finite false 9007199254740990 (-53)) (set_attempt 9 (engine_new default_policy)) = 44999.
Proof. vm_compute. reflexivity. Qed.

(** [C29] With the default policy the engine never gives up: however many
    attempts failed before, the next one is made, after a delay that without
    jitter is 100 ms doubled each time up to 30 s; a success leaves it
    connected and as at first but for its counts, so that the next delay is
    again the first. *)
Theorem reconnect_backoff n draws now works g :
  Z.of_nat n < 2 ^ 31 ->
  let '(e, g') := failing n draws (engine_new default_policy) g in
  let '(r, e', g'') := reconnect now f64_half works e g' in
  let delay := Z.min 30000 (100 * 2 ^ Z.of_nat n) in
  if works
  then r = Reconnected delay /\ is_connected g'' = true /\ attempt e' = 0 /\ consecutive_failures e' = 0
  else r = Fails delay /\ is_connected g'' = false /\ attempt e' = wrap 32 (Z.of_nat n + 1).
Proof using Type.
  intros Hn. pose proof (failing_state n draws g Hn) as Hf.
  destruct (failing n draws _ g) as [e g']. cbv zeta in Hf. cbn [fst] in Hf. destruct Hf as (Hp & Ha & _).
  pose proof (next_delay_half (Z.of_nat n) (begin_attempt now e) ltac:(lia) Hp Ha) as Hd.
  unfold reconnect. cbn [policy begin_attempt]. rewrite Hp. cbn -[next_delay is_connected wrap Z.min Z.mul].
  rewrite Hd. destruct works; cbn [is_connected]; [by rewrite Hp|]. by rewrite Ha.
Qed.
End reconnect.

Definition bare_config : AgentConfig := {|
  cf_id := []; cf_api_key := []; cf_tenant_id := None; cf_twin_id := None; cf_client_id := None |}.

Lemma reconnect_backoff_witness :
  let '(e, g) := failing (CH := ref_mpsc) 3 (λ _, (0, f64_zero)) (engine_new default_policy) (grpc_new bare_config) in
  let '(r, _, _) := reconnect 0 f64_half true e g in r = Reconnected 800.
Proof.
  pose proof (reconnect_backoff (CH := ref_mpsc) 3 (λ _, (0, f64_zero)) 0 true (grpc_new bare_config) eq_refl) as H.
  destruct (failing (CH := ref_mpsc) 3 (λ _, (0, f64_zero)) (engine_new default_policy) (grpc_new bare_config)) as [e g].
  destruct (reconnect (CH := ref_mpsc) 0 f64_half true e g) as [[r e'] g']. exact (proj1 H).
Defined.
