(* ===== verification/ClusterLink.v ===== *)
(** * The agent's way to the cluster: communication/mod.rs

    [Client]: the methods that send, the flush, registration and identity, the
    commands and signals of the cluster, one turn of each background loop, and
    the shutdown.  What a remote call answers, the clocks and the disk are
    arguments; a method or a turn runs without another one in between. *)

From S2P Require Import Prelude Bytes RustSlice RustStr Consumer Sqlite EdgeBuffer FlowControl.
From S2P Require Import Compression GrpcClient Reconnect.

#[local] Open Scope list_scope.
#[local] Open Scope Z_scope.

Section link.
Context {DB : BufferDb} {BC : Bincode} {CH : Mpsc} {ZS : Zstd}.

(** ** State *)

Record Identity := {
  twin_id : option str;
  client_id : option str;
  topic_prefix : option str;
  identity_valid : bool;
}.

(** The task of [start_stream_listener]: before the stream is opened, reading
    it, or at its end. *)
Inductive ListenerState := Waiting | Listening | Stopped.

Record Client := {
  grpc : GrpcClient;
  engine : ReconnectionEngine;
  edge : EdgeBuffer;
  compressor : Compressor;
  flow_control : FlowControl;
  client_sequence : Z;
  cancelled : bool;
  agent_id : str;
  session_id : str;
  registered : bool;
  identity : Identity;
  backlog_bytes : Z;
  backlog_since_epoch : Z;
  listener : ListenerState;
}.

Implicit Types c : Client.
Implicit Types m : moment.

(** [twin/{}/client/{}] *)
Definition prefix_of (twin client : str) : str :=
  ascii_bytes "twin/" ++ twin ++ ascii_bytes "/client/" ++ client.

(** [Client::new].  Whatever the configuration says, the edge buffer has its own
    default configuration. *)
Definition client_new (config : AgentConfig) : Client := {|
  grpc := grpc_new config; engine := engine_new default_policy;
  edge := EdgeBuffer.new default_config None; compressor := compressor_new;
  flow_control := FlowControl.new 10000; client_sequence := 1; cancelled := false;
  agent_id := cf_id config; session_id := []; registered := false;
  identity := {|
    twin_id := cf_twin_id config; client_id := cf_client_id config;
    topic_prefix := t ← cf_twin_id config; d ← cf_client_id config; Some (prefix_of t d);
    identity_valid := bool_decide (is_Some (cf_twin_id config)) && bool_decide (is_Some (cf_client_id config)) |};
  backlog_bytes := 0; backlog_since_epoch := 0; listener := Waiting |}.

Definition with_grpc (g : GrpcClient) c : Client := {|
  grpc := g; engine := engine c; edge := edge c; compressor := compressor c; flow_control := flow_control c;
  client_sequence := client_sequence c; cancelled := cancelled c; agent_id := agent_id c;
  session_id := session_id c; registered := registered c; identity := identity c;
  backlog_bytes := backlog_bytes c; backlog_since_epoch := backlog_since_epoch c; listener := listener c |}.
Definition with_engine (e : ReconnectionEngine) c : Client := {|
  grpc := grpc c; engine := e; edge := edge c; compressor := compressor c; flow_control := flow_control c;
  client_sequence := client_sequence c; cancelled := cancelled c; agent_id := agent_id c;
  session_id := session_id c; registered := registered c; identity := identity c;
  backlog_bytes := backlog_bytes c; backlog_since_epoch := backlog_since_epoch c; listener := listener c |}.
Definition with_edge (e : EdgeBuffer) c : Client := {|
  grpc := grpc c; engine := engine c; edge := e; compressor := compressor c; flow_control := flow_control c;
  client_sequence := client_sequence c; cancelled := cancelled c; agent_id := agent_id c;
  session_id := session_id c; registered := registered c; identity := identity c;
  backlog_bytes := backlog_bytes c; backlog_since_epoch := backlog_since_epoch c; listener := listener c |}.
Definition with_flow (f : FlowControl) c : Client := {|
  grpc := grpc c; engine := engine c; edge := edge c; compressor := compressor c; flow_control := f;
  client_sequence := client_sequence c; cancelled := cancelled c; agent_id := agent_id c;
  session_id := session_id c; registered := registered c; identity := identity c;
  backlog_bytes := backlog_bytes c; backlog_since_epoch := backlog_since_epoch c; listener := listener c |}.
Definition count_call c : Client := {|
  grpc := grpc c; engine := engine c; edge := edge c; compressor := compressor c;
  flow_control := flow_control c; client_sequence := wrap 64 (client_sequence c + 1);
  cancelled := cancelled c; agent_id := agent_id c; session_id := session_id c; registered := registered c;
  identity := identity c; backlog_bytes := backlog_bytes c; backlog_since_epoch := backlog_since_epoch c;
  listener := listener c |}.
Definition cancel c : Client := {|
  grpc := grpc c; engine := engine c; edge := edge c; compressor := compressor c;
  flow_control := flow_control c; client_sequence := client_sequence c; cancelled := true;
  agent_id := agent_id c; session_id := session_id c; registered := registered c; identity := identity c;
  backlog_bytes := backlog_bytes c; backlog_since_epoch := backlog_since_epoch c; listener := listener c |}.
Definition with_session (s : str) c : Client := {|
  grpc := grpc c; engine := engine c; edge := edge c; compressor := compressor c;
  flow_control := flow_control c; client_sequence := client_sequence c; cancelled := cancelled c;
  agent_id := agent_id c; session_id := s; registered := true; identity := identity c;
  backlog_bytes := backlog_bytes c; backlog_since_epoch := backlog_since_epoch c; listener := listener c |}.
Definition with_identity (i : Identity) c : Client := {|
  grpc := grpc c; engine := engine c; edge := edge c; compressor := compressor c;
  flow_control := flow_control c; client_sequence := client_sequence c; cancelled := cancelled c;
  agent_id := agent_id c; session_id := session_id c; registered := registered c; identity := i;
  backlog_bytes := backlog_bytes c; backlog_since_epoch := backlog_since_epoch c; listener := listener c |}.
Definition set_backlog_info (bytes since : Z) c : Client := {|
  grpc := grpc c; engine := engine c; edge := edge c; compressor := compressor c;
  flow_control := flow_control c; client_sequence := client_sequence c; cancelled := cancelled c;
  agent_id := agent_id c; session_id := session_id c; registered := registered c; identity := identity c;
  backlog_bytes := bytes; backlog_since_epoch := since; listener := listener c |}.
Definition with_listener (l : ListenerState) c : Client := {|
  grpc := grpc c; engine := engine c; edge := edge c; compressor := compressor c;
  flow_control := flow_control c; client_sequence := client_sequence c; cancelled := cancelled c;
  agent_id := agent_id c; session_id := session_id c; registered := registered c; identity := identity c;
  backlog_bytes := backlog_bytes c; backlog_since_epoch := backlog_since_epoch c; listener := l |}.

(** The call returned, or its task waits for room in the channel. *)
Inductive outcome := Returned c | Hangs c.

Definition client_of (o : outcome) : Client := match o with Returned c => c | Hangs c => c end.

(** ** Identity and registration *)

(** [free]: as for [update_identity]. *)
Definition apply_identity (free : bool * bool) (twin client prefix : option str) c : Client :=
  let assigned := bool_decide (is_Some twin) && bool_decide (is_Some client) in
  let c := with_identity {| twin_id := twin; client_id := client; topic_prefix := prefix;
                            identity_valid := assigned |} c in
  if assigned then with_grpc (update_identity free twin client (grpc c)) c
  else with_grpc (update_identity free None None (grpc c)) c.

Definition clear_identity (free : bool * bool) c : Client :=
  let c := with_identity {| twin_id := None; client_id := None; topic_prefix := None;
                            identity_valid := false |} c in
  with_grpc (update_identity free None None (grpc c)) c.

Definition is_identity_assigned c : bool := identity_valid (identity c).

(** What the cluster answers to [RegisterAgent] and [ResolveIdentity], whether
    the identity of the requests can be written, and what reading the key again
    gives. *)
Record answers := {
  registration : answer str;
  resolution : answer (option (str * str));
  ids_free : bool * bool;
  reread : option (option str);
}.

(** Its result is only logged. *)
Definition resolve_identity (a : answers) c : Client :=
  if negb (is_connected (grpc c)) then c
  else match resolve_identity_call (resolution a) (grpc c) with
       | Answer (twin, client) =>
           apply_identity (ids_free a) (Some twin) (Some client) (Some (prefix_of twin client)) c
       | Error _ => c
       end.

Definition register_on_connect (a : answers) c : answer unit * Client :=
  match context (ascii_bytes "Agent registration failed") (register_agent (registration a) (grpc c)).1 with
  | Error e => (Error e, c)
  | Answer session =>
      let c := with_session session c in
      (Answer tt, if negb (is_identity_assigned c) then resolve_identity a c else c)
  end.

(** What a loop does after an error: it reads the key again if the error is one
    of authentication. *)
Definition refresh_on_error (reread : option (option str)) (e : str) c : bool * Client :=
  if is_auth_error e
  then let '(refreshed, g) := refresh_api_key reread (grpc c) in (refreshed, with_grpc g c)
  else (false, c).

(** How the registration loop goes on: it ends, or sleeps that many seconds,
    with that many attempts made. *)
Inductive registration_next := LoopEnds | SleepsFor (seconds : Z) (attempt : Z).

(** One turn of the registration loop. *)
Definition registration_turn (a : answers) (attempt : Z) c : registration_next * Client :=
  if registered c then (LoopEnds, c)
  else if negb (is_connected (grpc c)) then (SleepsFor 2 attempt, c)
  else
    let '(r, c) := register_on_connect a c in
    match r with
    | Answer _ => (LoopEnds, c)
    | Error e =>
        if is_auth_error e
        then let '(key_refreshed, c) := refresh_on_error (reread a) e c in
             (SleepsFor (if key_refreshed then 0 else 60) attempt, c)
        else
          let attempt := wrap 32 (attempt + 1) in
          (SleepsFor (Z.min 30 (2 ^ Z.min attempt 5)) attempt, c)
    end.

(** ** Sending *)

(** A call of [write] reads the clocks and the disk three times. *)
Definition buffer_write (ms : moment * moment * moment) (bytes : list byte) (dt : DataType) c : Client :=
  with_edge (write default_config ms.1.1 ms.1.2 ms.2 bytes dt (edge c)).2 c.

(** Sending once: the outcome goes on with [k] unless the send waits. *)
Definition send_then (bytes : list byte) c (k : Client -> outcome) : outcome :=
  match send bytes (grpc c) with
  | Sent g => k (with_grpc g c)
  | SendError => k c
  | Waits => Hangs c
  end.

(** [send_traces], [send_events] and [send_network_events]: the data are
    buffered, and sent when connected. *)
Definition buffer_and_send ms (bytes : list byte) (dt : DataType) c : outcome :=
  let c := buffer_write ms bytes dt (count_call c) in
  if is_connected (grpc c) then send_then bytes c Returned else Returned c.

Definition send_traces ms (bytes : list byte) c : outcome :=
  match compress_traces bytes (compressor c) with
  | Some compressed => buffer_and_send ms compressed Traces c
  | None => Returned (count_call c)
  end.

Definition send_events ms (bytes : list byte) c : outcome := buffer_and_send ms bytes Events c.

Definition send_network_events ms (bytes : list byte) c : outcome := buffer_and_send ms bytes NetworkEvents c.

(** Whether the batch of [send_network_events_proto] is taken; [reply]: what the
    cluster answers. *)
Definition reports (reply : answer unit) c : bool :=
  is_connected (grpc c) && match report_network_events reply (grpc c) with Answer _ => true | Error _ => false end.

(** [json]: the events as JSON. *)
Definition send_network_events_proto (reply : answer unit) ms (json : option (list byte)) c : outcome :=
  let c := count_call c in
  if reports reply c then Returned c
  else Returned (match json with Some bytes => buffer_write ms bytes NetworkEvents c | None => c end).

(** A send that fails is only logged. *)
Definition send_live (bytes : list byte) c (k : Client -> outcome) : outcome :=
  if negb (is_connected (grpc c)) then k c
  else match compress_metrics bytes (compressor c) with
       | Some compressed => send_then compressed c k
       | None => k c
       end.

(** Whether [send_batch] succeeds and the batch is accepted. *)
Definition batch_accepted (reply : answer bool) c : bool :=
  is_connected (grpc c) && match send_batch reply (grpc c) with Answer accepted => accepted | Error _ => false end.

Definition send_metrics (random : f64) (reply : answer bool) ms (bytes : list byte) c : outcome :=
  let c := count_call c in
  match compress_metrics bytes (compressor c) with
  | None => Returned c
  | Some compressed =>
      if sampled_out random (flow_control c) then Returned (buffer_write ms compressed Metrics c)
      else
        let rest c := if batch_accepted reply c then Returned c
                      else Returned (buffer_write ms compressed Metrics c) in
        if is_identity_assigned c then send_live bytes c rest else rest c
  end.

(** ** Flushing *)

(** The loop of [flush_buffer] and [upload_backlog_stream]. *)
Fixpoint flush_entries m (entries : list BufferEntry) c : outcome :=
  match entries with
  | [] => Returned c
  | e :: entries =>
      match send (data e) (grpc c) with
      | Sent g =>
          let c := with_grpc g c in
          let c := match sqlite_row_id e with
                   | Some id => with_edge (default (edge c) (mark_sent m id (edge c))) c
                   | None => c
                   end in
          flush_entries m entries c
      | SendError =>
          Returned (match sqlite_row_id e with
                    | Some id => with_edge (default (edge c) (mark_retry m id (edge c))) c
                    | None => c
                    end)
      | Waits => Hangs c
      end
  end.

Definition flush_buffer m c : outcome :=
  let '(entries, e) := drain m (edge c) in
  flush_entries m entries (with_edge e c).

Definition upload_backlog_stream m c : outcome := flush_buffer m c.

(** ** Messages of the cluster *)

(** [AgentCommandType], by number. *)
Inductive AgentCommandType :=
  | Unspecified | Restart | UpdateConfig | FlushBuffer | ToggleLayer | AssignIdentity | UploadBacklog
  | DeleteBacklog | Retire | Blacklist | Unpair.

#[global] Instance AgentCommandType_eq_dec : EqDecision AgentCommandType.
Proof using Type. solve_decision. Defined.

Definition command_types : list AgentCommandType :=
  [Unspecified; Restart; UpdateConfig; FlushBuffer; ToggleLayer; AssignIdentity; UploadBacklog;
   DeleteBacklog; Retire; Blacklist; Unpair].

Definition command_of_number (n : Z) : option AgentCommandType :=
  if 0 <=? n then command_types !! Z.to_nat n else None.

(** An [AgentCommand], its payload the three strings when it is JSON, and what
    handling it finds: the clocks and disk, and whether the lock of the buffer
    and the identity of the requests are free. *)
Record AgentCommand := {
  command_type : Z;
  command_payload : option (option (list byte) * option (list byte) * option (list byte));
  command_moment : moment;
  command_free : bool;
  command_ids_free : bool * bool;
}.

Definition type_of (k : AgentCommand) : option AgentCommandType := command_of_number (command_type k).

(** The backlog is uploaded in a task of its own. *)
Definition handle_agent_command (k : AgentCommand) c : outcome :=
  match type_of k with
  | Some FlushBuffer => flush_buffer (command_moment k) c
  | Some AssignIdentity =>
      Returned (match command_payload k with
                | Some (twin, client, prefix) => apply_identity (command_ids_free k) twin client prefix c
                | None => c
                end)
  | Some UploadBacklog => Returned (client_of (upload_backlog_stream (command_moment k) c))
  | Some DeleteBacklog =>
      Returned (with_edge (delete_all_backlog (command_free k) (command_moment k) (edge c)) c)
  | Some Retire | Some Blacklist => Returned (cancel c)
  | Some Unpair => Returned (clear_identity (command_ids_free k) c)
  | Some Restart | Some UpdateConfig | Some ToggleLayer | Some Unspecified | None => Returned c
  end.

(** [ClusterToAgent]; of a configuration and of a heartbeat on the stream
    nothing is used. *)
Inductive ClusterMessage :=
  | MsgFlowControl (signal : FlowControlSignal)
  | MsgConfigPush
  | MsgCommand (k : AgentCommand)
  | MsgHeartbeat.

Definition dispatch_cluster_message (msg : option ClusterMessage) c : outcome :=
  match msg with
  | Some (MsgFlowControl signal) => Returned (with_flow (apply_server_signal signal (flow_control c)) c)
  | Some (MsgCommand k) => handle_agent_command k c
  | Some MsgConfigPush | Some MsgHeartbeat | None => Returned c
  end.

(** ** Background loops *)

(** The stream listener: opening the stream, once, when connected, with a first
    heartbeat; a message; the end of the stream, which may also be a heartbeat on
    it that fails, or the shutdown. *)
Definition listener_opens (opened : bool) c : Client :=
  match listener c with
  | Waiting =>
      if cancelled c then with_listener Stopped c
      else if negb (is_connected (grpc c)) then c
      else with_listener (if opened then Listening else Stopped) c
  | Listening | Stopped => c
  end.

Definition listener_hears (msg : option ClusterMessage) c : outcome :=
  match listener c with Listening => dispatch_cluster_message msg c | Waiting | Stopped => Returned c end.

Definition listener_ends c : Client :=
  match listener c with Listening => with_listener Stopped c | Waiting | Stopped => c end.

Definition refresh_backlog_info (ms : moment * moment) c : Client :=
  set_backlog_info
    (wrap 64 (persistent_size ms.1 (edge c) + memory_usage (edge c)))
    (oldest_entry_timestamp ms.2 (edge c)) c.

Fixpoint handle_commands (ks : list AgentCommand) c : outcome :=
  match ks with
  | [] => Returned c
  | k :: ks => match handle_agent_command k c with Returned c => handle_commands ks c | Hangs c => Hangs c end
  end.

(** [pending]: the commands in the answer. *)
Definition heartbeat_turn (ms : moment * moment) (pending : answer (list AgentCommand))
    (reread : option (option str)) c : outcome :=
  if cancelled c then Returned c
  else if negb (is_connected (grpc c)) then Returned c
  else
    let c := refresh_backlog_info ms c in
    match heartbeat pending (grpc c) with
    | Answer ks => handle_commands ks c
    | Error e => Returned (refresh_on_error reread e c).2
    end.

(** One turn of the reconnection loop; [works]: connecting does.  That the
    engine gives up, which ends the loop, does not happen with its policy. *)
Definition reconnection_turn m (now : Z) (random : f64) (works : bool) (a : answers) c : outcome :=
  if cancelled c then Returned c
  else if is_connected (grpc c)
  then if registered c then flush_buffer m c else Returned c
  else
    let '(r, e, g) := reconnect now random works (engine c) (grpc c) in
    let c := with_grpc g (with_engine e c) in
    match r with
    | Reconnected _ =>
        let '(r, c) := register_on_connect a c in
        flush_buffer m (match r with Answer _ => c | Error e => (refresh_on_error (reread a) e c).2 end)
    | GivesUp | Fails _ => Returned c
    end.

Definition client_connect (works : bool) c : Client := with_grpc (connect works (grpc c)).2 c.

Definition client_shutdown m c : outcome :=
  let c := cancel c in
  match (if is_connected (grpc c) then flush_buffer m c else Returned c) with
  | Returned c =>
      let c := with_grpc (disconnect (grpc c)) c in
      Returned (with_edge (EdgeBuffer.shutdown (edge c)) c)
  | Hangs c => Hangs c
  end.

(** ** Runs *)

Inductive client_op :=
  | OpConnect (works : bool)
  | OpMetrics (random : f64) (reply : answer bool) (ms : moment * moment * moment) (bytes : list byte)
  | OpTraces (ms : moment * moment * moment) (bytes : list byte)
  | OpEvents (ms : moment * moment * moment) (bytes : list byte)
  | OpNetworkEvents (ms : moment * moment * moment) (bytes : list byte)
  | OpNetworkEventsProto (reply : answer unit) (ms : moment * moment * moment) (json : option (list byte))
  | OpListen (opened : bool)
  | OpMessage (msg : option ClusterMessage)
  | OpStreamEnds
  | OpHeartbeat (ms : moment * moment) (pending : answer (list AgentCommand)) (reread : option (option str))
  | OpRegistration (a : answers) (attempt : Z)
  | OpReconnection (m : moment) (now : Z) (random : f64) (works : bool) (a : answers)
  | OpShutdown (m : moment).

Definition client_exec (o : client_op) c : outcome :=
  match o with
  | OpConnect works => Returned (client_connect works c)
  | OpMetrics random reply ms bytes => send_metrics random reply ms bytes c
  | OpTraces ms bytes => send_traces ms bytes c
  | OpEvents ms bytes => send_events ms bytes c
  | OpNetworkEvents ms bytes => send_network_events ms bytes c
  | OpNetworkEventsProto reply ms json => send_network_events_proto reply ms json c
  | OpListen opened => Returned (listener_opens opened c)
  | OpMessage msg => listener_hears msg c
  | OpStreamEnds => Returned (listener_ends c)
  | OpHeartbeat ms pending reread => heartbeat_turn ms pending reread c
  | OpRegistration a attempt => Returned (registration_turn a attempt c).2
  | OpReconnection m now random works a => reconnection_turn m now random works a c
  | OpShutdown m => client_shutdown m c
  end.

(** A task that hangs does not stop the others. *)
Definition client_run (os : list client_op) c : Client := foldl (λ c o, client_of (client_exec o c)) c os.

(** The task of [start_registration_loop].  A turn has what the cluster answers
    it and what other tasks do while it sleeps; a shutdown ends the sleep and
    the loop, unless there is no sleep.  The result: the sleeps, and whether the
    loop has ended. *)
Fixpoint registration_loop (turns : list (answers * list client_op)) (attempt : Z) c
    : list Z * bool * Client :=
  match turns with
  | [] => ([], false, c)
  | (a, os) :: turns =>
      match registration_turn a attempt c with
      | (LoopEnds, c) => ([], true, c)
      | (SleepsFor seconds attempt, c) =>
          let c := client_run os c in
          if (0 <? seconds) && cancelled c then ([seconds], true, c)
          else let '(sleeps, ended, c) := registration_loop turns attempt c in (seconds :: sleeps, ended, c)
      end
  end.
End link.
