(* ===== verification/ClusterLinkSpec.v ===== *)
(** * What becomes of the agent's data: the theorems on ClusterLink

    Every operation of [Client] is a sequence of changes, each of the buffer, of
    the channel or of one aspect of the rest ([aspect]); which aspects it may
    change is its effect ([effects]).  What holds of all runs follows by
    induction on them: the channel only grows, and what no operation of a run
    may change stays.  Then the flush. *)

From S2P Require Import Prelude Bytes RustSlice RustStr Consumer RustFloat Tenant Sqlite EdgeBuffer FlowControl.
From S2P Require Import Compression GrpcClient Reconnect ClusterLink.

#[local] Set Warnings "-clear-no-such-hyp".
#[local] Open Scope list_scope.
#[local] Open Scope Z_scope.

Section link.
Context {DB : BufferDb} {BC : Bincode} {CH : Mpsc} {ZS : Zstd}.
Implicit Types c : Client.
Implicit Types m : moment.

(** ** The buffer without a database *)

Lemma evict_expired_loop_db config now l eb : db (evict_expired_loop config now l eb) = db eb.
Proof using Type. revert eb. induction l as [|e l IH]; intros eb; simpl; [done|]. case_match; [|done]. by rewrite IH. Qed.

Lemma make_room_db config n l eb : db (make_room config n l eb) = db eb.
Proof using Type. revert eb. induction l as [|e l IH]; intros eb; simpl; case_match; try done. by rewrite IH. Qed.

Lemma evict_expired_db config m eb : db eb = None -> db (evict_expired config m eb) = None.
Proof using Type.
  intros Hd. unfold evict_expired, evict_expired_sqlite. by rewrite evict_expired_loop_db, Hd, evict_expired_loop_db.
Qed.

(** What is written is last in the queue. *)
Lemma write_memory config m0 m1 m2 bytes dt eb :
  db eb = None ->
  db (write config m0 m1 m2 bytes dt eb).2 = None /\
  exists q e, buffer (write config m0 m1 m2 bytes dt eb).2 = q ++ [e] /\ data e = bytes /\ data_type e = dt.
Proof using Type.
  intros Hd. unfold write. cbv zeta. set (eb0 := Build_EdgeBuffer _ _ _ _ _ _).
  pose proof (evict_expired_db config m1 eb0 Hd) as He. rewrite He. cbn [mbind option_bind].
  destruct (is_full _ _ _); cbn [fst snd push_back metric_add metric_store with_metrics with_buffer db buffer];
    rewrite ?make_room_db; split; try done; by eexists _, _.
Qed.

Lemma delete_all_db free m eb : db eb = None -> db (delete_all_backlog free m eb) = None.
Proof using Type. intros Hd. unfold delete_all_backlog. destruct free, (0 <? _); cbn; by rewrite Hd. Qed.

Lemma drain_memory m eb :
  db eb = None -> (drain m eb).1 = buffer eb /\ buffer (drain m eb).2 = [] /\ db (drain m eb).2 = None.
Proof using Type. intros Hd. unfold drain. cbn [db metric_store metric_add with_metrics with_buffer]. by rewrite Hd. Qed.

Lemma drain_db m eb : db (drain m eb).2 = db eb.
Proof using Type. unfold drain. by case_match. Qed.

Lemma mark_sent_db m id eb eb' : mark_sent m id eb = Some eb' -> db eb <> None.
Proof using Type. unfold mark_sent. by destruct (db eb). Qed.

Lemma mark_retry_db m id eb eb' : mark_retry m id eb = Some eb' -> db eb <> None.
Proof using Type. unfold mark_retry. by destruct (db eb). Qed.

(** ** Changes *)

Inductive aspect := Connections | Registration | Cancellation | Identities | Key | Signals | Listener | Sequence | Settings.

#[global] Instance aspect_eq_dec : EqDecision aspect.
Proof using Type. solve_decision. Defined.

Definition view_type (x : aspect) : Type :=
  match x with
  | Connections => ConnectionState * bool * bool * ReconnectionEngine
  | Registration => bool * str
  | Cancellation => bool
  | Identities => Identity * option str * option str
  | Key => option str
  | Signals => FlowControl
  | Listener => ListenerState
  | Sequence => Z
  | Settings => str * Compressor * option str * option TenantCache
  end.

(** What there is to see of one aspect. *)
Definition view (x : aspect) c : view_type x :=
  match x return view_type x with
  | Connections => (connection (grpc c), client_running (grpc c), has_client (grpc c), engine c)
  | Registration => (registered c, session_id c)
  | Cancellation => cancelled c
  | Identities => (identity c, request_twin_id (metadata (grpc c)), request_client_id (metadata (grpc c)))
  | Key => api_key (metadata (grpc c))
  | Signals => flow_control c
  | Listener => listener c
  | Sequence => client_sequence c
  | Settings => (agent_id c, compressor c, tenant_id (metadata (grpc c)), tenant_cache (grpc c))
  end.

Implicit Types E : aspect -> bool.

Inductive change E c : Client -> Prop :=
  | change_edge c' :
      (forall x, view x c' = view x c) -> tx (grpc c') = tx (grpc c) ->
      (db (edge c) = None -> db (edge c') = None) -> change E c c'
  | change_sent bytes g : send bytes (grpc c) = Sent g -> change E c (with_grpc g c)
  | change_aspect x c' :
      E x = true -> (forall y, y <> x -> view y c' = view y c) ->
      tx (grpc c') = tx (grpc c) -> edge c' = edge c -> change E c c'.

#[local] Abbreviation changes E := (rtc (change E)).

Lemma sent_views bytes g c x : send bytes (grpc c) = Sent g -> view x (with_grpc g c) = view x c.
Proof using Type. intros ->%send_sent. by destruct x. Qed.

(** What may not change stays. *)
Lemma changes_view E c c' x : changes E c c' -> E x = false -> view x c' = view x c.
Proof using Type.
  intros Hc Hx. induction Hc as [|c1 c2 c3 H12 _ IH]; [done|]. rewrite IH.
  destruct H12 as [c2 Hv _ _|bytes g Hs|y c2 Hy Hv _ _]; [apply Hv|by eapply sent_views|].
  apply Hv. by intros ->; rewrite Hx in Hy.
Qed.

Lemma changes_edge E c c' :
  (forall x, view x c' = view x c) -> tx (grpc c') = tx (grpc c) ->
  (db (edge c) = None -> db (edge c') = None) -> changes E c c'.
Proof using Type. intros. by apply rtc_once, change_edge. Qed.

(** The rest of the state is not looked at. *)
Lemma changes_rest E c c' :
  (forall x, view x c' = view x c) -> tx (grpc c') = tx (grpc c) -> edge c' = edge c -> changes E c c'.
Proof using Type. intros ?? He. apply changes_edge; [done..|]. by rewrite He. Qed.

Lemma changes_aspect E x c c' :
  E x = true -> (forall y, y <> x -> view y c' = view y c) -> tx (grpc c') = tx (grpc c) -> edge c' = edge c ->
  changes E c c'.
Proof using Type. intros. by eapply rtc_once, change_aspect. Qed.

(** *** What the operations change *)

Lemma count_call_changes E c : E Sequence = true -> changes E c (count_call c).
Proof using Type. intros HE. apply (changes_aspect _ Sequence); try done. by intros [] ?. Qed.

Lemma buffer_write_changes E ms bytes dt c : changes E c (buffer_write ms bytes dt c).
Proof using Type. apply changes_edge; [by intros []|done|]. apply write_memory. Qed.

Lemma send_then_changes E bytes c k :
  (forall c', changes E c' (client_of (k c'))) -> changes E c (client_of (send_then bytes c k)).
Proof using Type.
  intros Hk. unfold send_then. destruct (send _ _) as [g| |] eqn:Hs; [|by apply Hk|done].
  eapply rtc_l; [by eapply change_sent|apply Hk].
Qed.

(** The methods that send, from the point where the call is counted. *)
Lemma buffer_and_send_changes E ms bytes dt c :
  changes E (count_call c) (client_of (buffer_and_send ms bytes dt c)).
Proof using Type.
  unfold buffer_and_send. cbv zeta. etrans; [apply buffer_write_changes|].
  destruct (is_connected _); [by apply send_then_changes|done].
Qed.

Lemma traces_changes E ms bytes c : changes E (count_call c) (client_of (send_traces ms bytes c)).
Proof using Type. unfold send_traces. destruct (compress_traces _ _); [apply buffer_and_send_changes|done]. Qed.

Lemma proto_changes E reply ms json c :
  changes E (count_call c) (client_of (send_network_events_proto reply ms json c)).
Proof using Type.
  unfold send_network_events_proto. cbv zeta. destruct (reports _ _); [done|].
  destruct json; [apply buffer_write_changes|done].
Qed.

Lemma metrics_changes E random reply ms bytes c :
  changes E (count_call c) (client_of (send_metrics random reply ms bytes c)).
Proof using Type.
  unfold send_metrics. cbv zeta. destruct (compress_metrics _ _) as [compressed|]; [|done].
  destruct (sampled_out _ _); [apply buffer_write_changes|].
  assert (forall c', changes E c' (client_of (if batch_accepted reply c' then Returned c'
    else Returned (buffer_write ms compressed Metrics c')))) as Hrest.
  { intros c'. destruct (batch_accepted _ _); [done|apply buffer_write_changes]. }
  destruct (is_identity_assigned _); [|apply Hrest]. unfold send_live. destruct (negb _); [apply Hrest|].
  destruct (compress_metrics _ _); [by apply send_then_changes|apply Hrest].
Qed.

Lemma flush_entries_changes E m entries c : changes E c (client_of (flush_entries m entries c)).
Proof using Type.
  revert c. induction entries as [|e entries IH]; intros c; cbn [flush_entries]; [done|].
  destruct (send _ _) as [g| |] eqn:Hs; [|cbn [client_of]|done].
  - eapply rtc_l; [by eapply change_sent|]. cbv zeta. destruct (sqlite_row_id e) as [id|]; [|apply IH].
    etrans; [|apply IH]. apply changes_edge; [by intros []|done|]. cbn [edge with_edge with_grpc].
    destruct (mark_sent _ _ _) eqn:Hm; [|done]. by apply mark_sent_db in Hm.
  - destruct (sqlite_row_id e) as [id|]; [|done]. apply changes_edge; [by intros []|done|]. cbn [edge with_edge].
    destruct (mark_retry _ _ _) eqn:Hm; [|done]. by apply mark_retry_db in Hm.
Qed.

Lemma flush_changes E m c : changes E c (client_of (flush_buffer m c)).
Proof using Type.
  unfold flush_buffer. pose proof (drain_db m (edge c)) as Hd. destruct (drain _ _) as [entries e].
  etrans; [|apply flush_entries_changes]. apply changes_edge; [by intros []|done|]. cbn in *. congruence.
Qed.

Lemma apply_identity_changes E free twin client prefix c :
  E Identities = true -> changes E c (apply_identity free twin client prefix c).
Proof using Type.
  intros HE. unfold apply_identity. cbv zeta.
  destruct (_ && _); apply (changes_aspect _ Identities); try done; by intros [] ?.
Qed.

(** [register_on_connect] asks for an identity when there is none. *)
Lemma register_changes E a c :
  E Registration = true -> (is_identity_assigned c = false -> E Identities = true) ->
  changes E c (register_on_connect a c).2.
Proof using Type.
  intros HR HE. unfold register_on_connect. destruct (context _ _) as [s|]; [|done]. cbv zeta.
  change (is_identity_assigned (with_session s c)) with (is_identity_assigned c). cbn [snd].
  etrans; [apply (changes_aspect E Registration c (with_session s c)); [exact HR|by intros [] ?|done..]|].
  destruct (is_identity_assigned c); cbn [negb]; [done|]. unfold resolve_identity.
  destruct (negb _); [done|]. destruct (resolve_identity_call _ _) as [[]|]; [|done].
  by apply apply_identity_changes, HE.
Qed.

Definition identity_command (k : AgentCommand) : bool :=
  bool_decide (type_of k = Some AssignIdentity \/ type_of k = Some Unpair).

(** The agent is told to end. *)
Definition ending_command (k : AgentCommand) : bool :=
  bool_decide (type_of k = Some Retire \/ type_of k = Some Blacklist).

Lemma command_changes E k c :
  (identity_command k = true -> E Identities = true) -> (ending_command k = true -> E Cancellation = true) ->
  changes E c (client_of (handle_agent_command k c)).
Proof using Type.
  unfold handle_agent_command, identity_command, ending_command. intros HE HC.
  assert (forall c', (forall x, view x c' = view x c) -> tx (grpc c') = tx (grpc c) -> edge c' = edge c ->
    changes E c c') as Hrest by apply changes_rest.
  destruct (type_of k) as [[]|]; cbn [client_of];
    try (apply (changes_aspect _ Cancellation); [apply HC; rewrite bool_decide_true by tauto; done|by intros [] ?|done..]);
    try first [done | apply flush_changes | apply Hrest; [by intros []|done..]].
  - destruct (command_payload k) as [[[]]|]; [|done]. apply apply_identity_changes, HE.
    by rewrite bool_decide_true by by left.
  - apply changes_edge; [by intros []|done|]. apply delete_all_db.
  - rewrite bool_decide_true in HE by by right. unfold clear_identity. cbv zeta.
    apply (changes_aspect _ Identities); [by apply HE| |done..]. by intros [] ?.
Qed.

Lemma commands_changes E ks c :
  (existsb identity_command ks = true -> E Identities = true) ->
  (existsb ending_command ks = true -> E Cancellation = true) ->
  changes E c (client_of (handle_commands ks c)).
Proof using Type.
  revert c. induction ks as [|k ks IH]; intros c HE HC; [done|]. cbn [handle_commands existsb] in *.
  assert (changes E c (client_of (handle_agent_command k c))) as Hk
    by (apply command_changes; intros Hk; [apply HE|apply HC]; by rewrite Hk).
  destruct (handle_agent_command k c) as [c'|c']; [|done]. cbn [client_of] in Hk.
  etrans; [exact Hk|]. apply IH; intros Hks; [apply HE|apply HC]; by rewrite Hks, orb_true_r.
Qed.

Lemma refresh_changes E reread e c :
  (is_auth_error e = true -> E Key = true) -> changes E c (refresh_on_error reread e c).2.
Proof using Type.
  intros HE. unfold refresh_on_error. destruct (is_auth_error e); [|done]. unfold refresh_api_key.
  destruct reread as [[key|]|]; cbn [snd]; try (apply changes_rest; [by intros []|done..]).
  case_bool_decide; cbn [snd]; [apply changes_rest; [by intros []|done..]|].
  apply (changes_aspect _ Key); [by apply HE| |done..]. by intros [] ?.
Qed.

(** The text of the error of [register_on_connect] is always the same, and no
    error of authentication. *)
Lemma register_error a c e : (register_on_connect a c).1 = Error e -> is_auth_error e = false.
Proof using Type.
  unfold register_on_connect. destruct (register_agent _ _).1; simpl; [done|]. intros [= <-]. by vm_compute.
Qed.

(** *** Effects *)

Definition message_effects (msg : option ClusterMessage) (x : aspect) : bool :=
  match msg, x with
  | Some (MsgFlowControl _), Signals => true
  | Some (MsgCommand k), Identities => identity_command k
  | Some (MsgCommand k), Cancellation => ending_command k
  | _, _ => false
  end.

Definition effects (o : client_op) c (x : aspect) : bool :=
  match o, x with
  | (OpConnect _ | OpShutdown _), Connections => true
  | OpReconnection _ _ _ _ _, (Connections | Registration) => negb (is_connected (grpc c))
  | OpRegistration _ _, Registration => negb (registered c)
  | OpShutdown _, Cancellation => true
  | (OpMetrics _ _ _ _ | OpTraces _ _ | OpEvents _ _ | OpNetworkEvents _ _ | OpNetworkEventsProto _ _ _), Sequence => true
  | (OpListen _ | OpStreamEnds), Listener => true
  | OpMessage msg, x => match listener c with Listening => message_effects msg x | _ => false end
  | OpHeartbeat _ (Answer ks) _, Identities => existsb identity_command ks
  | OpHeartbeat _ (Answer ks) _, Cancellation => existsb ending_command ks
  | OpHeartbeat _ _ _, Key => true
  | (OpRegistration _ _ | OpReconnection _ _ _ _ _), Identities => negb (is_identity_assigned c)
  | _, _ => false
  end.

Lemma dispatch_changes E msg c :
  (forall x, message_effects msg x = true -> E x = true) -> changes E c (client_of (dispatch_cluster_message msg c)).
Proof using Type.
  intros HE. destruct msg as [[s| |k|]|]; cbn [dispatch_cluster_message client_of]; try done.
  - apply (changes_aspect _ Signals); [by apply HE| |done..]. by intros [] ?.
  - apply command_changes; [by apply (HE Identities)|by apply (HE Cancellation)].
Qed.

Lemma reconnection_changes m now random works a c :
  let o := OpReconnection m now random works a in changes (effects o c) c (client_of (reconnection_turn m now random works a c)).
Proof using Type.
  intros o. set (E := effects o c). unfold reconnection_turn. destruct (cancelled c); [done|].
  destruct (is_connected (grpc c)) eqn:Hon.
  { destruct (registered c); [apply flush_changes|done]. }
  destruct (reconnect now random works (engine c) (grpc c)) as [[r e] g] eqn:Hr.
  set (c1 := with_grpc g (with_engine e c)).
  assert (changes E c c1) as Hc.
  { unfold reconnect in Hr. cbv zeta in Hr. apply (changes_aspect _ Connections).
    - subst E o. cbn. by rewrite Hon.
    - intros [] ?; try done; subst c1; destruct (_ && _), works; cbn in Hr; by simplify_eq.
    - subst c1; destruct (_ && _), works; cbn in Hr; by simplify_eq.
    - done. }
  destruct r; [exact Hc| |exact Hc]. etrans; [exact Hc|].
  pose proof (register_changes E a c1) as Hreg. pose proof (register_error a c1) as Herr.
  destruct (register_on_connect a c1) as [r c2]. cbn [fst snd] in *. etrans; [apply Hreg|].
  { subst E o. cbn. by rewrite Hon. }
  { intros Hi. subst E o. cbn. by change (is_identity_assigned c1) with (is_identity_assigned c) in Hi; rewrite Hi. }
  etrans; [|apply flush_changes]. destruct r as [|e']; [done|]. apply refresh_changes. by rewrite (Herr e').
Qed.

Lemma registration_changes a attempt c :
  changes (effects (OpRegistration a attempt) c) c (registration_turn a attempt c).2.
Proof using Type.
  set (E := effects _ _). unfold registration_turn. destruct (registered c) eqn:Hr; [done|].
  destruct (negb (is_connected _)); [done|].
  pose proof (register_changes E a c) as Hreg. pose proof (register_error a c) as Herr.
  destruct (register_on_connect a c) as [r c2]. cbn [fst snd] in *.
  assert (changes E c c2) as Hc by (apply Hreg; [|intros Hi]; subst E; cbn; by rewrite ?Hr, ?Hi).
  destruct r as [|e]; [exact Hc|]. by rewrite (Herr e).
Qed.

Lemma shutdown_changes m c : changes (effects (OpShutdown m) c) c (client_of (client_shutdown m c)).
Proof using Type.
  set (E := effects _ _). unfold client_shutdown. cbv zeta.
  etrans; [apply (changes_aspect E Cancellation c (cancel c)); [done|by intros [] ?|done..]|].
  assert (changes E (cancel c)
    (client_of (if is_connected (grpc (cancel c)) then flush_buffer m (cancel c) else Returned (cancel c)))) as Hf
    by (destruct (is_connected _); [apply flush_changes|done]).
  destruct (if is_connected (grpc (cancel c)) then _ else _) as [c'|c']; [|exact Hf]. etrans; [exact Hf|].
  etrans; [apply (changes_aspect E Connections c' (with_grpc (disconnect (grpc c')) c')); try done; by intros [] ?|].
  apply changes_edge; [by intros []|done..].
Qed.

Lemma exec_changes o c : changes (effects o c) c (client_of (client_exec o c)).
Proof using Type.
  assert (forall c', effects o c Sequence = true -> changes (effects o c) (count_call c) c' -> changes (effects o c) c c')
    as Hcount by (intros c' Hs Hc; by etrans; [apply count_call_changes|]).
  destruct o as [works|random reply ms bytes|ms bytes|ms bytes|ms bytes|reply ms json|opened|msg| |ms pending reread
    |a attempt|m now random works a|m]; cbn [client_exec client_of].
  - unfold client_connect, connect. apply (changes_aspect _ Connections); try done; try by destruct works.
    intros [] ?; by destruct works.
  - apply Hcount; [done|apply metrics_changes].
  - apply Hcount; [done|apply traces_changes].
  - apply Hcount; [done|apply buffer_and_send_changes].
  - apply Hcount; [done|apply buffer_and_send_changes].
  - apply Hcount; [done|apply proto_changes].
  - unfold listener_opens. destruct (listener c); [|done..].
    destruct (cancelled c); [|destruct (negb _); [done|]]; apply (changes_aspect _ Listener); try done; by intros [] ?.
  - unfold listener_hears. destruct (listener c) eqn:Hl; try done. apply dispatch_changes. intros x Hx. cbn.
    by rewrite Hl.
  - unfold listener_ends. destruct (listener c); [done| |done]. apply (changes_aspect _ Listener); try done. by intros [] ?.
  - unfold heartbeat_turn. destruct (cancelled c); [done|]. destruct (negb _); [done|]. cbv zeta.
    etrans; [apply (changes_rest _ c (refresh_backlog_info ms c)); [by intros []|done..]|].
    unfold heartbeat, unary. destruct (negb _); [by apply refresh_changes|].
    destruct pending; [by apply commands_changes|by apply refresh_changes].
  - apply registration_changes.
  - apply reconnection_changes.
  - apply shutdown_changes.
Qed.

(** ** What holds of all runs *)

Definition queued c : list (list byte) := in_channel (grpc c).

(** There is no database; the channel is in order. *)
Record link_inv c : Prop := {
  li_channel : channel_ok (grpc c);
  li_memory : db (edge c) = None;
}.

(** From [c] to [c'] messages were added to the channel. *)
Definition grows c c' : Prop := link_inv c' /\ prefix (queued c) (queued c').

Lemma change_grows E c c' : change E c c' -> link_inv c -> grows c c'.
Proof using Type.
  assert (forall c', tx (grpc c') = tx (grpc c) -> db (edge c') = None -> link_inv c -> grows c c') as Hsame.
  { intros c'' Ht Hd [Hc _]. split; [split; [by eapply channel_ok_same|done]|].
    unfold queued, in_channel. by rewrite Ht. }
  intros [c'' _ Ht Hd|bytes g Hs|x c'' _ _ Ht He] Hi.
  - apply Hsame; [done|apply Hd, Hi|done].
  - pose proof (send_spec bytes (grpc c) (li_channel _ Hi)) as Hg. rewrite Hs in Hg.
    destruct Hg as (_ & Hok & Hq & _). split; [split; [done|apply Hi]|]. by exists [bytes].
  - apply Hsame; [done|rewrite He; apply Hi|done].
Qed.

Lemma changes_grow E c c' : changes E c c' -> link_inv c -> grows c c'.
Proof using Type.
  induction 1 as [|c1 c2 c3 H12 _ IH]; intros Hi; [by split|].
  destruct (change_grows _ _ _ H12 Hi) as [Hi2 Hp]. destruct (IH Hi2). split; [done|by etrans].
Qed.

Lemma client_run_cons o os c : client_run (o :: os) c = client_run os (client_of (client_exec o c)).
Proof using Type. done. Qed.

Lemma client_run_grows os c : link_inv c -> grows c (client_run os c).
Proof using Type.
  revert c. induction os as [|o os IH]; intros c Hi; [by split|]. rewrite client_run_cons.
  destruct (changes_grow _ _ _ (exec_changes o c) Hi) as [Hi1 Hp]. destruct (IH _ Hi1). split; [done|by etrans].
Qed.

Lemma client_reachable os config : link_inv (client_run os (client_new config)).
Proof using Type. apply client_run_grows. split; [apply grpc_new_ok|done]. Qed.

(** An aspect stays in a run when, while it is as it was, no operation of the
    run may change it. *)
Lemma run_view x os c :
  Forall (λ o, forall c', view x c' = view x c -> effects o c' x = false) os ->
  view x (client_run os c) = view x c.
Proof using Type.
  revert c. induction os as [|o os IH]; intros c Hos; [done|]. apply Forall_cons in Hos as [Ho Hos].
  rewrite client_run_cons. pose proof (changes_view _ _ _ x (exec_changes o c) (Ho _ eq_refl)) as Hv.
  rewrite <- Hv. apply IH. rewrite Hv. exact Hos.
Qed.

Lemma effects_settings o c : effects o c Settings = false.
Proof using Type.
  destruct o as [| | | | | | |msg| |? []| | |]; try done. cbn. destruct (listener c); [done| |done].
  by destruct msg as [[]|].
Qed.

(** What the configuration gives is never changed, and the tenant is never
    cached. *)
Lemma run_settings os config :
  let c := client_run os (client_new config) in
  agent_id c = cf_id config /\ compressor c = compressor_new /\
  tenant_id (metadata (grpc c)) = cf_tenant_id config /\ tenant_cache (grpc c) = None.
Proof using Type.
  assert (view Settings (client_run os (client_new config)) = view Settings (client_new config)) as Hv.
  { apply run_view, Forall_true. intros o c' _. apply effects_settings. }
  by injection Hv.
Qed.

(** *** The sequence numbers *)

Definition counts (o : client_op) : Z :=
  match o with
  | OpMetrics _ _ _ _ | OpTraces _ _ | OpEvents _ _ | OpNetworkEvents _ _ | OpNetworkEventsProto _ _ _ => 1
  | _ => 0
  end.

(** Every call that sends takes the next number. *)
Lemma exec_sequence o c :
  in_range 64 (client_sequence c) ->
  client_sequence (client_of (client_exec o c)) = wrap 64 (client_sequence c + counts o).
Proof using Type.
  intros Hr. assert (forall c', changes (λ _, false) (count_call c) c' ->
    client_sequence c' = wrap 64 (client_sequence c + 1)) as Hcount.
  { intros c' Hc. by apply (changes_view _ _ _ Sequence Hc). }
  assert (effects o c Sequence = false -> client_sequence (client_of (client_exec o c)) = wrap 64 (client_sequence c + 0))
    as Hrest.
  { intros Hs. rewrite Z.add_0_r, wrap_id by done. apply (changes_view _ _ _ Sequence (exec_changes o c) Hs). }
  destruct o as [| | | | | | |msg| |? []| | |]; cbn [client_exec client_of counts];
    try (apply Hrest; done).
  - apply Hcount, metrics_changes.
  - apply Hcount, traces_changes.
  - apply Hcount, buffer_and_send_changes.
  - apply Hcount, buffer_and_send_changes.
  - apply Hcount, proto_changes.
  - apply Hrest. cbn. destruct (listener c); [done| |done]. by destruct msg as [[]|].
Qed.

(** ** The flush *)

(** The first [k] entries reach the channel.  It ends before the last entry when
    there is no connection, with the first, or when the channel is full. *)
Record flushed (entries : list BufferEntry) c (k : nat) (o : outcome) : Prop := {
  fl_some : (k <= length entries)%nat;
  fl_queued : queued (client_of o) = queued c ++ (data <$> take k entries);
  fl_edge : edge (client_of o) = edge c;
  fl_inv : link_inv (client_of o);
  fl_end : match o with
           | Returned _ => k = length entries \/ (k = 0%nat /\ is_connected (grpc c) = false)
           | Hangs c' => (k < length entries)%nat /\ is_connected (grpc c) = true /\
               Z.of_nat (length (queued c')) = CHANNEL_CAPACITY
           end;
}.

(** Marking a row does nothing without a database. *)
Lemma mark_none (f : conn -> option EdgeBuffer) c :
  db (edge c) = None -> with_edge (default (edge c) (c0 ← db (edge c); f c0)) c = c.
Proof using Type. intros ->. by destruct c. Qed.

Lemma flush_entries_spec m entries c :
  link_inv c -> exists k, flushed entries c k (flush_entries m entries c).
Proof using Type.
  revert c. induction entries as [|e entries IH]; intros c Hi; cbn [flush_entries].
  { exists 0%nat. split; cbn; rewrite ?app_nil_r; try done. by left. }
  pose proof (send_spec (data e) (grpc c) (li_channel _ Hi)) as Hs. destruct (send _ _) as [g| |].
  - destruct Hs as (Hon & Hok & Hq & Hg). cbv zeta. set (c1 := with_grpc g c) in *.
    assert (link_inv c1) as Hi1 by (split; [done|apply Hi]).
    replace (match sqlite_row_id e with Some _ => _ | None => c1 end) with c1.
    2: { destruct (sqlite_row_id e); [|done]. symmetry. apply (mark_none _ c1), Hi. }
    destruct (IH c1 Hi1) as [k [Hk Hq1 He1 Hi2 Hend]]. exists (S k).
    assert (is_connected (grpc c1) = true) as Hon1 by (subst c1; cbn [with_grpc grpc]; by rewrite Hg).
    split; [simpl; lia| |by rewrite He1|done|].
    + rewrite Hq1. cbn [take fmap list_fmap]. change (queued c1) with (in_channel g). rewrite Hq.
      by rewrite <- app_assoc.
    + rewrite Hon1 in Hend. destruct (flush_entries _ _ _); cbn [length];
        [destruct Hend as [|[_ ?]]; [left; lia|done]|]. destruct Hend as (? & _ & ?). split_and!; [lia|done..].
  - replace (match sqlite_row_id e with Some _ => _ | None => c end) with c.
    2: { destruct (sqlite_row_id e); [|done]. symmetry. apply (mark_none _ c), Hi. }
    exists 0%nat. split; cbn; rewrite ?app_nil_r; try done; [lia|by right].
  - exists 0%nat. split; cbn; rewrite ?app_nil_r; try done; [lia|]. split_and!; [lia|apply Hs..].
Qed.

(** The buffer is empty from the beginning on. *)
Lemma flush_buffer_spec m c :
  link_inv c ->
  exists eb k, buffer eb = [] /\ flushed (buffer (edge c)) (with_edge eb c) k (flush_buffer m c).
Proof using Type.
  intros Hi. unfold flush_buffer. destruct (drain_memory m (edge c) (li_memory _ Hi)) as (He & Hb & Hd).
  destruct (drain m (edge c)) as [entries eb]. cbn [fst snd] in *. subst entries.
  destruct (flush_entries_spec m (buffer (edge c)) (with_edge eb c)) as [k Hf]; [by split; [apply Hi|]|].
  by exists eb, k.
Qed.

(** ** A full channel *)

Lemma buffer_and_send_full ms bytes dt c :
  link_inv c -> Z.of_nat (length (queued c)) = CHANNEL_CAPACITY -> is_connected (grpc c) = true ->
  exists c', buffer_and_send ms bytes dt c = Hangs c'.
Proof using Type.
  intros Hi Hf Hon. unfold buffer_and_send, send_then. cbv zeta. cbn [grpc buffer_write count_call with_edge].
  rewrite Hon, (send_full bytes (grpc c) (li_channel _ Hi) Hf Hon). by eexists.
Qed.

Lemma metrics_full random reply ms bytes c :
  link_inv c -> Z.of_nat (length (queued c)) = CHANNEL_CAPACITY -> is_connected (grpc c) = true ->
  is_identity_assigned c = true -> sampled_out random (flow_control c) = false ->
  is_Some (compress_metrics bytes (compressor c)) ->
  exists c', send_metrics random reply ms bytes c = Hangs c'.
Proof using Type.
  intros Hi Hf Hon Hid Hs [compressed Hz]. unfold send_metrics, send_live, send_then. cbv zeta.
  cbn [flow_control compressor count_call]. change (is_identity_assigned (count_call c)) with (is_identity_assigned c).
  change (grpc (count_call c)) with (grpc c).
  rewrite Hz, Hs, Hid, Hon. cbn [negb]. rewrite (send_full compressed (grpc c) (li_channel _ Hi) Hf Hon). by eexists.
Qed.

Lemma flush_full m c :
  link_inv c -> Z.of_nat (length (queued c)) = CHANNEL_CAPACITY -> is_connected (grpc c) = true ->
  buffer (edge c) <> [] -> exists c', flush_buffer m c = Hangs c' /\ buffer (edge c') = [].
Proof using Type.
  intros Hi Hf Hon Hb. unfold flush_buffer.
  destruct (drain_memory m (edge c) (li_memory _ Hi)) as (Hes & He & Hd).
  destruct (drain m (edge c)) as [entries eb]. cbn [fst snd] in *. subst entries.
  destruct (buffer (edge c)) as [|e es]; [done|]. cbn [flush_entries with_edge grpc].
  rewrite (send_full _ (grpc c) (li_channel _ Hi) Hf Hon). by eexists.
Qed.

(** ** Properties *)

(** [C20] What is sent as bytes never leaves the agent: the channel holds every
    message that was sent so far, in order, and nothing takes one out.  It has
    room for 1024; from then on, whatever happens, a connected call that sends
    traces, events or network events never returns, nor does one that sends
    metrics once the agent has an identity, nor a flush that finds something in
    the buffer, which it has emptied before. *)
Theorem byte_channel_fills os config :
  let c := client_run os (client_new config) in
  Z.of_nat (length (queued c)) <= 1024 /\
  (forall more, prefix (queued c) (queued (client_run more c))) /\
  (Z.of_nat (length (queued c)) = 1024 ->
   forall more, let c' := client_run more c in
   queued c' = queued c /\
   (is_connected (grpc c') = true ->
    (forall ms bytes dt, exists c'', buffer_and_send ms bytes dt c' = Hangs c'') /\
    (forall random reply ms bytes,
       is_identity_assigned c' = true -> sampled_out random (flow_control c') = false ->
       is_Some (compress_metrics bytes (compressor c')) ->
       exists c'', send_metrics random reply ms bytes c' = Hangs c'') /\
    (forall m, buffer (edge c') <> [] ->
       exists c'', flush_buffer m c' = Hangs c'' /\ buffer (edge c'') = []))).
Proof using Type.
  intros c. pose proof (client_reachable os config) as Hi. fold c in Hi.
  split; [apply (li_channel _ Hi)|].
  split; [intros more; by apply client_run_grows|]. intros Hfull more c'.
  destruct (client_run_grows more c Hi) as [Hi' [added Hadd]]. fold c' in Hi', Hadd.
  assert (queued c' = queued c) as Hq.
  { pose proof (ch_ok_length _ (li_channel _ Hi')) as Hl. fold (queued c') in Hl.
    rewrite Hadd, length_app in Hl. unfold CHANNEL_CAPACITY in Hl.
    destruct added; [by rewrite Hadd, app_nil_r|]. simpl in Hl. lia. }
  assert (Z.of_nat (length (queued c')) = CHANNEL_CAPACITY) as Hf by by rewrite Hq.
  split; [done|]. intros Hon. split; [by intros; apply buffer_and_send_full|].
  split; [by intros; apply metrics_full|]. by intros; apply flush_full.
Qed.

(** [C21] What a flush does: some first entries of the buffer reach the channel,
    in order; all of them when there is a connection and room for them.
    Otherwise the flush ends at the first entry, without a connection, or
    never, with the channel full, and the rest is in neither, since the buffer
    was emptied at the beginning. *)
Theorem flush_outcome os config m :
  let c := client_run os (client_new config) in
  let entries := buffer (edge c) in
  exists k, (k <= length entries)%nat /\
    queued (client_of (flush_buffer m c)) = queued c ++ (data <$> take k entries) /\
    buffer (edge (client_of (flush_buffer m c))) = [] /\ db (edge (client_of (flush_buffer m c))) = None /\
    match flush_buffer m c with
    | Returned _ => k = length entries \/ (k = 0%nat /\ is_connected (grpc c) = false)
    | Hangs c' => (k < length entries)%nat /\ is_connected (grpc c) = true /\
        Z.of_nat (length (queued c')) = 1024
    end.
Proof using Type.
  intros c entries. pose proof (client_reachable os config) as Hi. fold c in Hi.
  destruct (flush_buffer_spec m c Hi) as (eb & k & Hb & [Hk Hq He Hi' Hend]). exists k.
  split; [done|]. split; [done|]. rewrite He. split; [done|].
  split; [rewrite <- He; apply Hi'|done].
Qed.

(** Sending changes the channel only. *)
Lemma send_live_outcome bytes compressed c k :
  link_inv c -> compress_metrics bytes (compressor c) = Some compressed ->
  (exists c', send_live bytes c k = k c' /\ link_inv c' /\ edge c' = edge c /\
     (forall reply, batch_accepted reply c' = batch_accepted reply c) /\
     queued c' = queued c ++ (if is_connected (grpc c) then [compressed] else [])) \/
  send_live bytes c k = Hangs c /\ is_connected (grpc c) = true /\ Z.of_nat (length (queued c)) = CHANNEL_CAPACITY.
Proof using Type.
  intros Hi Hz. unfold send_live, send_then. destruct (is_connected (grpc c)) eqn:Hon; cbn [negb].
  2: { left. exists c. by rewrite app_nil_r. }
  rewrite Hz. pose proof (send_spec compressed (grpc c) (li_channel _ Hi)) as Hs. destruct (send _ _) as [g| |].
  - left. exists (with_grpc g c). destruct Hs as (_ & Hok & Hq & Hg). split; [done|].
    split; [split; [done|apply Hi]|]. split; [done|]. split; [|done]. intros reply.
    unfold batch_accepted. cbn [grpc with_grpc]. by rewrite Hg.
  - by rewrite Hs in Hon.
  - right. by destruct Hs.
Qed.

(** [C22] What becomes of metrics.  When they cannot be compressed they are
    lost.  Otherwise the cluster accepts them and nothing is buffered, or they
    are compressed in the last entry of the buffer, and a copy is in the channel
    when there is an identity and a connection; or, with the channel full,
    the call never returns and they are in neither. *)
Theorem metrics_outcome os config random reply ms bytes :
  let c := client_run os (client_new config) in
  let sampled := sampled_out random (flow_control c) in
  match compress_metrics bytes compressor_new, send_metrics random reply ms bytes c with
  | None, o => o = Returned (count_call c)
  | Some compressed, Returned c' =>
      (if negb sampled && batch_accepted reply c then edge c' = edge c
       else exists q e, buffer (edge c') = q ++ [e] /\ data_type e = Metrics /\
              forall k, decompress_zstd (data e) k = Some bytes) /\
      queued c' = queued c ++
        (if negb sampled && is_identity_assigned c && is_connected (grpc c) then [compressed] else [])
  | Some compressed, Hangs c' =>
      sampled = false /\ is_identity_assigned c = true /\ is_connected (grpc c) = true /\
      Z.of_nat (length (queued c)) = 1024 /\ queued c' = queued c /\ edge c' = edge c
  end.
Proof using Type.
  intros c sampled. pose proof (client_reachable os config) as Hi. fold c in Hi.
  assert (compressor (count_call c) = compressor_new) as Hk by apply run_settings.
  assert (link_inv (count_call c)) as Hi1 by (split; apply Hi).
  unfold send_metrics. cbv zeta. rewrite Hk. destruct (compress_metrics bytes compressor_new) as [compressed|] eqn:Hz; [|done].
  change (flow_control (count_call c)) with (flow_control c). fold sampled.
  assert (forall c', link_inv c' ->
    exists q e, buffer (edge (buffer_write ms compressed Metrics c')) = q ++ [e] /\ data_type e = Metrics /\
      forall k, decompress_zstd (data e) k = Some bytes) as Hbuf.
  { intros c' Hc'. destruct (write_memory default_config ms.1.1 ms.1.2 ms.2 compressed Metrics (edge c') (li_memory _ Hc'))
      as (_ & q & e & Hq & He & Ht). exists q, e. split; [exact Hq|]. split; [done|]. intros k. rewrite He.
    by apply (compress_roundtrip bytes UseZstd compressor_new k). }
  destruct sampled; cbn [negb andb]; [split; [by apply Hbuf|by rewrite app_nil_r]|].
  set (rest c1 := if batch_accepted reply c1 then Returned c1 else Returned (buffer_write ms compressed Metrics c1)).
  assert (forall c1, link_inv c1 -> exists c', rest c1 = Returned c' /\ queued c' = queued c1 /\
    if batch_accepted reply c1 then edge c' = edge c1
    else exists q e, buffer (edge c') = q ++ [e] /\ data_type e = Metrics /\
      forall k, decompress_zstd (data e) k = Some bytes) as Hrest.
  { intros c1 Hc1. unfold rest. destruct (batch_accepted reply c1); eexists; (split; [done|]); split; try done.
    by apply Hbuf. }
  change (is_identity_assigned (count_call c)) with (is_identity_assigned c).
  destruct (is_identity_assigned c); cbn [andb].
  - rewrite <- Hk in Hz. destruct (send_live_outcome bytes compressed (count_call c) rest Hi1 Hz)
      as [(c1 & -> & Hc1 & He & Ha & Hq)|(-> & Hon & Hf)]; [|done].
    destruct (Hrest c1 Hc1) as (c' & -> & Hq' & Hr). rewrite Ha, He in Hr. split; [exact Hr|]. by rewrite Hq', Hq.
  - destruct (Hrest _ Hi1) as (c' & He & Hq' & Hr). unfold rest in He. rewrite He. split; [exact Hr|].
    by rewrite Hq', app_nil_r.
Qed.

(** [C24] A connection is never given up: once connected, and until the
    shutdown, the client counts as connected whatever the cluster answers and
    whichever calls fail, so that the reconnection loop never reconnects. *)
Theorem connected_for_good os c :
  is_connected (grpc c) = true ->
  Forall (λ o, match o with OpConnect _ | OpShutdown _ => False | _ => True end) os ->
  is_connected (grpc (client_run os c)) = true /\ engine (client_run os c) = engine c.
Proof using Type.
  intros Hon Hos. assert (view Connections (client_run os c) = view Connections c) as Hv.
  { apply run_view. eapply Forall_impl; [exact Hos|]. cbn beta. intros o Ho c' [= Hc _ _ _].
    unfold is_connected in Hon. rewrite <- Hc in Hon. fold (is_connected (grpc c')) in Hon.
    destruct o as [| | | | | | |msg| |? []| | |]; try done; cbn.
    - destruct (listener c'); try done. by destruct msg as [[]|].
    - by rewrite Hon. }
  injection Hv as Hc _ _ He. split; [|done]. unfold is_connected in *. by rewrite Hc.
Qed.

(** *** Identity *)

(** The operations in which the cluster assigns an identity, or takes it
    away. *)
Definition assigns (o : client_op) : bool :=
  match o with
  | OpMessage (Some (MsgCommand k)) => identity_command k
  | OpHeartbeat _ (Answer ks) _ => existsb identity_command ks
  | _ => false
  end.

Lemma identity_stays os c :
  is_identity_assigned c = true -> Forall (λ o, assigns o = false) os ->
  view Identities (client_run os c) = view Identities c.
Proof using Type.
  intros Hid Hos. apply run_view. eapply Forall_impl; [exact Hos|]. cbn beta. intros o Ho c' [= Hi _ _].
  assert (is_identity_assigned c' = true) as Hid' by (unfold is_identity_assigned in *; congruence).
  destruct o as [| | | | | | |[[]|]| |? []| | |]; cbn in Ho |- *; rewrite ?Hid'; try done; by destruct (listener c').
Qed.

Lemma header_name valid name v (n x : str) : (n, x) ∈ header valid name v -> n = name.
Proof using Type.
  unfold header. destruct v as [y|]; [destruct (valid y)|]; rewrite ?elem_of_nil, ?list_elem_of_singleton; try done.
  by intros [= -> ->].
Qed.

(** [C25] An identity of the configuration is the client's until the cluster
    assigns another one, but it never reaches the cluster: no request carries
    one, since only an identity that is applied gets into the requests, and an
    agent that has one neither asks for it nor applies it. *)
Theorem requests_lack_identity os config t d :
  cf_twin_id config = Some t -> cf_client_id config = Some d ->
  Forall (λ o, assigns o = false) os ->
  let c := client_run os (client_new config) in
  identity c = {| twin_id := Some t; client_id := Some d; topic_prefix := Some (prefix_of t d);
                  identity_valid := true |} /\
  forall valid free k n x, (n, x) ∈ request_headers valid free k (grpc c) ->
    n = ascii_bytes "x-api-key" \/ n = ascii_bytes "x-tenant-id".
Proof using Type.
  intros Ht Hd Hos c.
  assert (view Identities c = view Identities (client_new config)) as Hv
    by (apply identity_stays; [unfold is_identity_assigned; cbn; by rewrite Ht, Hd|done]).
  injection Hv as Hi Htw Hcl. split; [rewrite Hi; cbn; by rewrite Ht, Hd|].
  intros valid free k n x Hx. unfold request_headers in Hx.
  replace (attach_identity_metadata valid (free.1.2, free.2) (metadata (grpc c))) with (@nil (str * str)) in Hx.
  2: { unfold attach_identity_metadata. rewrite Htw, Hcl. by destruct free as [[[] []] []]. }
  rewrite app_nil_r in Hx.
  assert ((n, x) ∈ attach_api_key_metadata valid free.1.1 (metadata (grpc c)) ++
    header valid (ascii_bytes "x-tenant-id") (tenant_id (metadata (grpc c)))) as Hin
    by (destruct k; try done; by apply elem_of_nil in Hx).
  apply elem_of_app in Hin as [Hin|Hin]; [left|right]; [|by eapply header_name].
  unfold attach_api_key_metadata in Hin. destruct free.1.1; [by eapply header_name|by apply elem_of_nil in Hin].
Qed.

(** *** The key, and the stream *)

Lemma registration_sleeps a attempt c :
  0 <= attempt < 2 ^ 32 - 1 ->
  match (registration_turn a attempt c).1 with
  | LoopEnds => registered c = true \/ exists session, registration a = Answer session
  | SleepsFor seconds _ => 2 <= seconds <= 30
  end.
Proof using Type.
  intros Ha. unfold registration_turn. destruct (registered c); [by left|].
  destruct (negb _); [cbn; lia|]. pose proof (register_error a c) as Herr.
  unfold register_on_connect, register_agent, unary in *.
  destruct (negb (has_client _)), (registration a) as [session|text]; cbn in Herr |- *;
    rewrite ?(Herr _ eq_refl); cbn [fst]; try (right; by eexists);
    rewrite wrap_id by (unfold in_range; lia);
    pose proof (Z.pow_le_mono_r 2 1 (Z.min (attempt + 1) 5) ltac:(lia) ltac:(lia));
    pose proof (Z.pow_le_mono_r 2 (Z.min (attempt + 1) 5) 5 ltac:(lia) ltac:(lia)); lia.
Qed.

(** [C26] The key of the requests is only ever read again after a heartbeat that
    failed: without heartbeats it stays that of the configuration, whatever the
    cluster answers to registrations and reconnections.  A turn of the
    registration loop ends the loop, or sleeps between 2 and 30 seconds; never
    0, as after a key was refreshed, nor 60, as after one that was not. *)
Theorem registration_never_refreshes os config a attempt :
  Forall (λ o, match o with OpHeartbeat _ _ _ => False | _ => True end) os -> 0 <= attempt < 2 ^ 32 - 1 ->
  let c := client_run os (client_new config) in
  api_key (metadata (grpc c)) = api_key (metadata (grpc (client_new config))) /\
  match (registration_turn a attempt c).1 with
  | LoopEnds => registered c = true \/ exists session, registration a = Answer session
  | SleepsFor seconds _ => 2 <= seconds <= 30
  end.
Proof using Type.
  intros Hos Ha c. split; [|apply registration_sleeps, Ha].
  assert (view Key c = view Key (client_new config)) as Hv; [|exact Hv].
  apply run_view. eapply Forall_impl; [exact Hos|]. cbn beta. intros o Ho c' _.
  destruct o as [| | | | | | |msg| |? []| | |]; try done. cbn.
  destruct (listener c'); try done. by destruct msg as [[]|].
Qed.

(** *** The registration loop *)

(** The sleep after the [i]th failure: 2, 4, 8, 16 and from then on 30 seconds. *)
Definition backoff (i : Z) : Z := Z.min 30 (2 ^ Z.min i 5).
Definition backoffs (n : nat) : list Z := backoff <$> seqZ 1 (Z.of_nat n).

(** A connection comes with a client for the calls. *)
Definition served c : Prop := is_connected (grpc c) = true -> has_client (grpc c) = true.

Lemma served_view c c' : view Connections c' = view Connections c -> served c -> served c'.
Proof using Type. intros Hv. cbn in Hv. injection Hv as Hc _ Hh _. unfold served, is_connected. by rewrite Hc, Hh. Qed.

Lemma served_exec o c : served c -> served (client_of (client_exec o c)).
Proof using Type.
  intros Hc. destruct (effects o c Connections) eqn:He.
  2: { eapply served_view; [|exact Hc]. by apply (changes_view _ _ _ _ (exec_changes o c)). }
  set (E x := bool_decide (x <> Connections)).
  assert (forall m c, served c -> served (client_of (flush_buffer m c))) as Hflush
    by (intros m c'; apply served_view, (changes_view E _ _ _ (flush_changes E m c')); done).
  destruct o as [works| | | | | | |msg| |? []| |m now random works a|m]; try done; cbn [client_exec client_of].
  - by destruct works.
  - cbn in He. destruct (listener c); [done| |done]. by destruct msg as [[]|].
  - unfold reconnection_turn. destruct (cancelled c); [done|]. cbn in He. apply negb_true_iff in He as Hoff. rewrite Hoff.
    destruct (reconnect now random works (engine c) (grpc c)) as [[r e] g] eqn:Hr.
    assert (served (with_grpc g (with_engine e c))) as H1.
    { unfold reconnect in Hr. cbv zeta in Hr. destruct (_ && _), works; cbn in Hr; by simplify_eq. }
    destruct r; [exact H1| |exact H1].
    pose proof (register_changes E a _ eq_refl (λ _, eq_refl) : changes E (with_grpc g (with_engine e c)) _) as Hreg.
    destruct (register_on_connect a _) as [r c2]. cbn [snd] in Hreg. apply Hflush.
    apply (served_view (with_grpc g (with_engine e c))); [|exact H1].
    destruct r as [|e']; [by apply (changes_view E)|].
    rewrite <- (changes_view E _ _ Connections Hreg eq_refl). 
    by apply (changes_view E _ _ _ (refresh_changes E (reread a) e' c2 (λ _, eq_refl))).
  - unfold client_shutdown. cbv zeta.
    assert (served (client_of (if is_connected (grpc (cancel c)) then flush_buffer m (cancel c) else Returned (cancel c))))
      as H1 by (destruct (is_connected (grpc (cancel c))); [by apply Hflush|exact Hc]).
    destruct (if is_connected (grpc (cancel c)) then _ else _) as [c'|c']; [done|exact H1].
Qed.

Lemma connected_has_client os config : served (client_run os (client_new config)).
Proof using Type.
  assert (served (client_new config)) as H by done. revert H. generalize (client_new config).
  induction os as [|o os IH]; intros c Hc; [done|]. rewrite client_run_cons. by apply IH, served_exec.
Qed.

(** What other tasks may do meanwhile: anything but connect, register, or end. *)
Definition lets_register (o : client_op) : bool :=
  match o with
  | OpConnect _ | OpShutdown _ | OpRegistration _ _ => false
  | OpMessage (Some (MsgCommand k)) => negb (ending_command k)
  | OpHeartbeat _ (Answer ks) _ => negb (existsb ending_command ks)
  | _ => true
  end.

(** The loop is at work: connected, not registered, not told to end. *)
Definition registering c : Prop :=
  is_connected (grpc c) = true /\ has_client (grpc c) = true /\ registered c = false /\ cancelled c = false.

Lemma registering_run os c :
  registering c -> Forall (λ o, lets_register o = true) os -> registering (client_run os c).
Proof using Type.
  intros (Hon & Hcl & Hr & Hn) Hos.
  assert (view Connections (client_run os c) = view Connections c /\
    view Registration (client_run os c) = view Registration c /\
    view Cancellation (client_run os c) = view Cancellation c) as (HC & HR & HX).
  { revert c Hon Hcl Hr Hn. induction Hos as [|o os Ho _ IH]; intros c Hon Hcl Hr Hn; [done|].
    rewrite client_run_cons. set (c1 := client_of (client_exec o c)).
    assert (forall x, x = Connections \/ x = Registration \/ x = Cancellation -> view x c1 = view x c) as Hx.
    { intros x Hx. apply (changes_view _ _ _ x (exec_changes o c)).
      destruct o as [| | | | | | |msg| |? []| | |]; try done; destruct Hx as [->|[->| ->]]; cbn;
        rewrite ?Hon; try done; try (destruct (listener c); [done| |done]; destruct msg as [[]|]; try done);
        by apply negb_true_iff. }
    pose proof (Hx Connections ltac:(auto)) as H1. pose proof (Hx Registration ltac:(auto)) as H2.
    pose proof (Hx Cancellation ltac:(auto)) as H3. rewrite <- H1, <- H2, <- H3.
    cbn in H1, H2, H3. injection H1 as Hc _ Hc' _. injection H2 as Hr' _.
    apply IH; [unfold is_connected in *; by rewrite Hc|by rewrite Hc'|by rewrite Hr'|by rewrite H3]. }
  cbn in HC, HR, HX. injection HC as Hc _ Hc' _. injection HR as Hr' _.
  unfold registering, is_connected in *. rewrite Hc, Hc', Hr', HX. done.
Qed.

(** A refusal: the text of the error is hidden, so it is never one of
    authentication. *)
Lemma registration_refused a attempt c e :
  registering c -> registration a = Error e -> 0 <= attempt < 2 ^ 32 - 1 ->
  registration_turn a attempt c = (SleepsFor (backoff (attempt + 1)) (attempt + 1), c).
Proof using Type.
  intros (Hon & Hcl & Hr & _) Ha Hn. unfold registration_turn. rewrite Hr, Hon. cbn [negb].
  pose proof (register_error a c) as He. unfold register_on_connect, register_agent, unary in *.
  rewrite Hcl, Ha in *. cbn in He |- *. rewrite (He _ eq_refl). by rewrite wrap_id by (unfold in_range; lia).
Qed.

Lemma registration_accepted a attempt c session :
  registering c -> registration a = Answer session ->
  exists c', registration_turn a attempt c = (LoopEnds, c') /\ registered c' = true /\ session_id c' = session.
Proof using Type.
  intros (Hon & Hcl & Hr & _) Ha. unfold registration_turn. rewrite Hr, Hon. cbn [negb].
  unfold register_on_connect, register_agent, unary. rewrite Hcl, Ha. cbn [negb fst context].
  eexists. split; [done|]. destruct (negb _); [|done]. unfold resolve_identity.
  destruct (negb _); [done|]. destruct (resolve_identity_call _ _) as [[]|]; [|done].
  unfold apply_identity. cbv zeta. by destruct (_ && _).
Qed.

Lemma backoff_pos i : 0 <= i -> 0 < backoff i.
Proof using Type. intros. unfold backoff. assert (0 < 2 ^ Z.min i 5) by (apply Z.pow_pos_nonneg; lia). lia. Qed.

(** The refused turns come first, whatever follows. *)
Lemma registration_loop_refused refused turns n c :
  registering c ->
  Forall (λ t, (exists e, registration t.1 = Error e) /\ Forall (λ o, lets_register o = true) t.2) refused ->
  Z.of_nat (n + length refused) < 2 ^ 32 ->
  let c' := client_run (concat refused.*2) c in
  let r := registration_loop turns (Z.of_nat (n + length refused)) c' in
  registering c' /\
  registration_loop (refused ++ turns) (Z.of_nat n) c =
    ((backoff <$> seqZ (Z.of_nat n + 1) (Z.of_nat (length refused))) ++ r.1.1, r.1.2, r.2).
Proof using Type.
  revert n c. induction refused as [|[a os] refused IH]; intros n c Hc Hf Hn c' r.
  { subst c' r. cbn [concat fmap list_fmap client_run foldl length app seqZ]. rewrite Nat.add_0_r. split; [done|].
    cbn. by destruct (registration_loop turns (Z.of_nat n) c) as [[? ?] ?]. }
  apply Forall_cons in Hf as [[[e He] Hos] Hf]. cbn [length fst snd] in *.
  pose proof (registering_run os c Hc Hos) as Hc1.
  destruct (IH (S n) (client_run os c) Hc1 Hf ltac:(lia)) as [Hc' Hr]. cbv zeta in Hr, Hc'.
  assert (client_run (concat refused.*2) (client_run os c) = c') as Hrun.
  { subst c'. cbn [fmap list_fmap concat snd]. unfold client_run. by rewrite foldl_app. }
  rewrite Hrun in Hr, Hc'. split; [done|]. cbn [app registration_loop].
  rewrite (registration_refused a (Z.of_nat n) c e) by (done || lia). cbv zeta.
  rewrite (proj2 (proj2 (proj2 Hc1))), andb_false_r.
  replace (Z.of_nat n + 1) with (Z.of_nat (S n)) by lia. rewrite Hr.
  replace (S n + length refused)%nat with (n + S (length refused))%nat by lia. fold r.
  rewrite (seqZ_cons (Z.of_nat (S n)) (Z.of_nat (S (length refused)))) by lia. cbn [fmap list_fmap app].
  replace (Z.succ (Z.of_nat (S n))) with (Z.of_nat (S n) + 1) by lia.
  by replace (Z.pred (Z.of_nat (S (length refused)))) with (Z.of_nat (length refused)) by lia.
Qed.

(** [C27] The registration loop ends with the first answer that is a session,
    and not before.  While the cluster refuses, whatever it says and whatever
    the other tasks do, the loop goes on; after the [i]th refusal it sleeps
    2^[i] seconds, at most 30.  Then the client is registered with the session
    it was answered.  A shutdown, or a command that ends the agent, ends it with
    the sleep in which it comes. *)
Theorem registration_loop_ends os config refused a os' turns :
  let c := client_run os (client_new config) in
  is_connected (grpc c) = true -> registered c = false -> cancelled c = false ->
  Forall (λ t, (exists e, registration t.1 = Error e) /\ Forall (λ o, lets_register o = true) t.2) refused ->
  Z.of_nat (length refused) < 2 ^ 32 - 1 ->
  (registration_loop refused 0 c).1 = (backoffs (length refused), false) /\
  let r := registration_loop (refused ++ (a, os') :: turns) 0 c in
  match registration a with
  | Answer session =>
      r.1 = (backoffs (length refused), true) /\ registered r.2 = true /\ session_id r.2 = session
  | Error _ =>
      let c' := client_run (concat refused.*2 ++ os') c in
      cancelled c' = true -> r = (backoffs (S (length refused)), true, c')
  end.
Proof using Type.
  intros c Hon Hr Hn Hf Hlen. assert (registering c) as Hc.
  { split_and!; [done| |done..]. by apply (connected_has_client os config). }
  pose proof (λ turns, registration_loop_refused refused turns 0 c Hc Hf ltac:(lia)) as Hloop.
  change (Z.of_nat 0) with 0 in Hloop. change (0 + 1) with 1 in Hloop. change (0 + length refused)%nat with (length refused) in Hloop.
  split. { pose proof (proj2 (Hloop [])) as H. rewrite app_nil_r in H. rewrite H. cbn. by rewrite app_nil_r. }
  destruct (Hloop ((a, os') :: turns)) as [Hc' ->]. cbv zeta. cbn [registration_loop fst snd].
  set (c1 := client_run (concat refused.*2) c) in *. destruct (registration a) as [session|e] eqn:Ha.
  - destruct (registration_accepted a (Z.of_nat (length refused)) c1 session Hc' Ha) as (c2 & -> & ? & ?).
    cbn [fst snd]. by rewrite app_nil_r.
  - intros He. rewrite (registration_refused a _ c1 e) by (done || lia).
    assert (client_run os' c1 = client_run (concat refused.*2 ++ os') c) as ->
      by (subst c1; unfold client_run; by rewrite foldl_app).
    rewrite He. pose proof (backoff_pos (Z.of_nat (length refused) + 1) ltac:(lia)).
    rewrite (proj2 (Z.ltb_lt _ _)) by done. cbn [andb fst snd]. do 2 f_equal.
    unfold backoffs. rewrite Nat2Z.inj_succ, <- Z.add_1_r, seqZ_app by lia. rewrite fmap_app.
    do 2 f_equal. by rewrite Z.add_comm.
Qed.

(** [C28] The stream from the cluster is opened once: after it ended, or could
    not be opened the first time, no message is read from it, whatever happens,
    so that the sampling of the metrics stays as it was. *)
Theorem stream_not_reopened os c :
  listener c = Stopped ->
  listener (client_run os c) = Stopped /\ flow_control (client_run os c) = flow_control c.
Proof using Type.
  revert c. induction os as [|o os IH]; intros c Hs; [done|]. rewrite client_run_cons.
  assert (listener (client_of (client_exec o c)) = Stopped /\
    flow_control (client_of (client_exec o c)) = flow_control c) as [Hl <-]; [|by apply IH].
  pose proof (exec_changes o c) as Hc. split.
  - destruct o as [| | | | | |opened| | |? []| | |]; cbn [client_exec client_of];
      try (rewrite <- Hs; by apply (changes_view _ _ _ Listener Hc)).
    + unfold listener_opens. by rewrite Hs.
    + rewrite <- Hs. apply (changes_view _ _ _ Listener Hc). cbn. by rewrite Hs.
    + unfold listener_ends. by rewrite Hs.
  - apply (changes_view _ _ _ Signals Hc). destruct o as [| | | | | |opened| | |? []| | |]; try done. cbn. by rewrite Hs.
Qed.

(** Traces, events and network events that are sent are also left in the
    buffer, so that the next flush sends them again. *)
Lemma sent_twice os config ms m bytes dt c1 c2 :
  let c := client_run os (client_new config) in
  is_connected (grpc c) = true ->
  buffer_and_send ms bytes dt c = Returned c1 -> flush_buffer m c1 = Returned c2 ->
  exists between, queued c2 = queued c ++ [bytes] ++ between ++ [bytes].
Proof using Type.
  intros c Hon Hs Hf. pose proof (client_reachable os config) as Hi. fold c in Hi.
  pose proof (changes_grow _ _ _ (buffer_and_send_changes (λ _, false) ms bytes dt c)) as [Hi1 _];
    [by split; apply Hi|]. rewrite Hs in Hi1. cbn [client_of] in Hi1.
  unfold buffer_and_send, send_then in Hs. cbv zeta in Hs. cbn [grpc buffer_write count_call with_edge] in Hs.
  rewrite Hon in Hs. pose proof (send_spec bytes (grpc c) (li_channel _ Hi)) as Hg.
  destruct (send _ _) as [g| |]; [|congruence|done]. destruct Hg as (_ & _ & Hq & Hg).
  destruct (flush_buffer_spec m c1 Hi1) as (eb & k & _ & [_ Hq2 _ _ Hend]). rewrite Hf in Hq2, Hend.
  injection Hs as <-. destruct (write_memory default_config ms.1.1 ms.1.2 ms.2 bytes dt (edge c) (li_memory _ Hi))
    as (_ & q & e & Hl & He & _).
  change (is_connected (grpc _)) with (is_connected g) in Hend. rewrite Hg in Hend.
  change (is_connected (with_tx _ _)) with (is_connected (grpc c)) in Hend. rewrite Hon in Hend.
  destruct Hend as [->|[_ ?]]; [|done]. rewrite firstn_all in Hq2.
  cbn [edge with_grpc with_edge count_call buffer_write] in Hq2.
  rewrite Hl, fmap_app in Hq2. exists (data <$> q). rewrite <- He in *.
  change (queued c2) with (queued (client_of (Returned c2))). rewrite Hq2.
  change (queued (with_edge _ _)) with (in_channel g). rewrite Hq. by rewrite <- !app_assoc.
Qed.
End link.

(** ** On the reference instances *)

Section witnesses.
#[local] Existing Instances ref_db ref_bincode ref_mpsc ref_zstd.

Definition soon : moment (DB := ref_db) := @Moment ref_db 0 0 true.
Definition report : client_op := OpNetworkEvents (soon, soon, soon) [].
Definition refusal : answers := Build_answers (Error (ascii_bytes "unauthenticated")) (Error []) (true, true) None.

Lemma byte_channel_fills_witness :
  let c := client_run (OpConnect true :: repeat report 1024) (client_new bare_config) in
  Z.of_nat (length (queued c)) = 1024 /\ exists c', buffer_and_send (soon, soon, soon) [] NetworkEvents c = Hangs c'.
Proof.
  pose proof (byte_channel_fills (OpConnect true :: repeat report 1024) bare_config) as (_ & _ & H).
  assert (Z.of_nat (length (queued (client_run (OpConnect true :: repeat report 1024) (client_new bare_config)))) = 1024)
    as Hl by (vm_compute; reflexivity).
  assert (is_connected (grpc (client_run (OpConnect true :: repeat report 1024) (client_new bare_config))) = true) as Hon
    by (vm_compute; reflexivity).
  cbv zeta. revert H Hl Hon.
  generalize (client_run (OpConnect true :: repeat report 1024) (client_new bare_config)). intros c H Hl Hon.
  split; [exact Hl|]. destruct (H Hl []) as (_ & Hs).
  apply (proj1 (Hs Hon) (soon, soon, soon) [] NetworkEvents).
Defined.

Lemma connected_for_good_witness :
  let c := client_run [OpConnect true; report] (client_new bare_config) in
  is_connected (grpc (client_run [report; OpReconnection soon 0 f64_zero false refusal] c)) = true.
Proof. apply connected_for_good; [vm_compute; reflexivity|repeat constructor]. Defined.

Definition paired_config : AgentConfig := {|
  cf_id := ascii_bytes "a"; cf_api_key := ascii_bytes "k"; cf_tenant_id := None;
  cf_twin_id := Some (ascii_bytes "t"); cf_client_id := Some (ascii_bytes "d") |}.

Lemma requests_lack_identity_witness :
  let c := client_run [OpConnect true; OpRegistration (Build_answers (Answer []) (Error []) (true, true) None) 0; report]
    (client_new paired_config) in
  identity_valid (identity c) = true /\ registered c = true /\
  request_headers (λ _, true) (true, true, true) SendBatch (grpc c) = [(ascii_bytes "x-api-key", ascii_bytes "k")].
Proof.
  cbv zeta. split; [|split; vm_compute; reflexivity]. rewrite (proj1 (requests_lack_identity
    [OpConnect true; OpRegistration (Build_answers (Answer []) (Error []) (true, true) None) 0; report]
    paired_config _ _ eq_refl eq_refl ltac:(repeat constructor))). reflexivity.
Defined.

Lemma registration_never_refreshes_witness :
  let c := client_run [OpConnect true; OpRegistration refusal 0] (client_new paired_config) in
  api_key (metadata (grpc c)) = Some (ascii_bytes "k") /\ registration_turn refusal 1 c = (SleepsFor 4 2, c).
Proof.
  cbv zeta. split; [|vm_compute; reflexivity].
  etrans; [apply (registration_never_refreshes _ paired_config refusal 1); [repeat constructor|lia]|vm_compute; reflexivity].
Defined.

(** Two refusals, then a session; a report is sent during the first sleep. *)
Lemma registration_loop_ends_witness :
  let c := client_run [OpConnect true] (client_new bare_config) in
  let accepted := Build_answers (Answer (ascii_bytes "s")) (Error []) (true, true) None in
  let r := registration_loop [(refusal, [report]); (refusal, []); (accepted, [])] 0 c in
  r.1 = ([2; 4], true) /\ registered r.2 = true /\ session_id r.2 = ascii_bytes "s".
Proof.
  apply (registration_loop_ends [OpConnect true] bare_config [(refusal, [report]); (refusal, [])]
    (Build_answers (Answer (ascii_bytes "s")) (Error []) (true, true) None) [] []); try (vm_compute; reflexivity).
  repeat constructor; by eexists.
Defined.

Lemma stream_not_reopened_witness :
  let c := client_run [OpConnect true; OpListen true; OpStreamEnds] (client_new bare_config) in
  let c' := client_run [OpListen true; OpMessage (Some (MsgFlowControl (Build_FlowControlSignal 0 (SpecFloat.S754_zero false) true [])))] c in
  flow_control c' = flow_control c.
Proof. apply stream_not_reopened. vm_compute. reflexivity. Defined.
End witnesses.
