(* ===== verification/Report.v ===== *)
(** * From the kernel to the cluster

    The event loop of [Agent] and the client of [ClusterLink] as one system: an
    iteration of the loop calls [send_network_events_proto] with the events it
    collected; the other operations of the client - metrics, sends of other
    parts, its background loops - run at any moment in between; what the cluster
    takes of events and metrics is recorded. *)

From stdpp Require Import sorting.
From S2P Require Import Prelude Bytes CLayout CObject Common Bpf BpfRef LayoutFacts ProbeObject.
From S2P Require ClusterEvent.
From S2P Require Import TcpTracker Emitter DnsMapper HttpInspector RustSlice RustStr Consumer TcpConsumer.
From S2P Require DnsConsumer HttpConsumer.
From S2P Require Import EndToEnd Agent.
From S2P Require Import Sqlite EdgeBuffer GrpcClient ClusterLink ClusterLinkSpec.
From S2P Require Import RustFloat FlowControl Compression Reconnect MetricMessage.

#[local] Set Warnings "-clear-no-such-hyp".
#[local] Open Scope string_scope.
#[local] Open Scope list_scope.
#[local] Open Scope Z_scope.

(** The message [NetworkEventBatch], without its timestamp. *)
Record NetworkEventBatch := {
  nb_agent_id : str;
  nb_session_id : str;
  nb_sequence_number : Z;
  nb_events : list ClusterEvent.pb_network_event;
}.

Section report.
Context {HW : Helpers} {HM : BpfHash tcp_event} {HR : Ringbuf} {PL : Plain}.
Context {DB : BufferDb} {BC : Bincode} {CH : Mpsc} {ZS : Zstd}.
(** [to_json], [from_json]: [serde_json::to_vec] of events, [from_slice] of a
    snapshot of the metrics. *)
Context (exclude_ports : list Z) (proc_comm : Z -> option str) (to_json : list NetworkEvent -> option str).
Context (from_json : list byte -> option MetalBatch) (parse_from_rfc3339 : str -> option (Z * Z)).
Context (config : AgentConfig).

Abbreviation agent_step := (Agent.agent_step exclude_ports proc_comm).
Abbreviation agent_run := (Agent.agent_run exclude_ports proc_comm).
Abbreviation collect_events := (Agent.collect_events exclude_ports proc_comm).

Record system := {
  sy_agent : agent;
  sy_client : Client;
  sy_received : list NetworkEventBatch;
  sy_metrics : list MetricBatch;
}.

Definition system_init : system :=
  {| sy_agent := agent_init; sy_client := client_new config; sy_received := []; sy_metrics := [] |}.

Implicit Types s : system.

(** A step of the agent, with what the cluster answers when it reports and the
    clocks and the disk when it buffers; an operation of the client. *)
Inductive label :=
  | Act (l : agent_label) (reply : answer unit) (ms : moment * moment * moment)
  | Other (o : client_op).

(** The batch takes the number the call takes. *)
Definition network_event_batch (b : batch) (c : Client) : NetworkEventBatch := {|
  nb_agent_id := agent_id c; nb_session_id := session_id c;
  nb_sequence_number := as_i64 (client_sequence c); nb_events := ba_messages b |}.

Definition report_batch (reply : answer unit) (ms : moment * moment * moment) s (b : batch) : system := {|
  sy_agent := sy_agent s;
  sy_client := client_of (client_exec (OpNetworkEventsProto reply ms (to_json (ba_events b))) (sy_client s));
  sy_received := sy_received s ++
    (if reports reply (sy_client s) then [network_event_batch b (sy_client s)] else []);
  sy_metrics := sy_metrics s |}.

Definition with_agent (a : agent) s : system :=
  {| sy_agent := a; sy_client := sy_client s; sy_received := sy_received s; sy_metrics := sy_metrics s |}.

(** The snapshot in data that [send_metrics] is called with. *)
Definition metal_of (data : list byte) : MetalBatch := default metal_empty (from_json data).

(** The batch [send_metrics] sends, when it gets there and it is accepted. *)
Definition accepted_metrics (o : client_op) (c : Client) : list MetricBatch :=
  match o with
  | OpMetrics random reply ms bytes =>
      match send_metrics random reply ms bytes c, compress_metrics bytes (compressor c) with
      | Returned _, Some _ =>
          if negb (sampled_out random (flow_control c)) && batch_accepted reply c
          then [metric_batch parse_from_rfc3339 (agent_id c) (session_id c) (client_sequence c) (metal_of bytes)]
          else []
      | _, _ => []
      end
  | _ => []
  end.

Definition step (l : label) s : panics system :=
  match l with
  | Act (Iteration polled drained) reply ms =>
      '(all_events, a) ← collect_events polled drained (sy_agent s);
      let bs := batches_of drained all_events in
      Some (foldl (report_batch reply ms) (with_agent (hand_over bs a) s) bs)
  | Act l _ _ => a ← agent_step l (sy_agent s); Some (with_agent a s)
  | Other o => Some {| sy_agent := sy_agent s; sy_client := client_of (client_exec o (sy_client s));
                       sy_received := sy_received s; sy_metrics := sy_metrics s ++ accepted_metrics o (sy_client s) |}
  end.

Definition run (ls : list label) : panics system := foldl (λ r l, s ← r; step l s) (Some system_init) ls.

(** ** The parts of the system *)

Definition agent_labels (ls : list label) : list agent_label :=
  omap (λ l, match l with Act l _ _ => Some l | Other _ => None end) ls.

Lemma report_batches_agent reply ms bs s : sy_agent (foldl (report_batch reply ms) s bs) = sy_agent s.
Proof using Type. revert s. induction bs as [|b bs IH]; intros s; [done|]. simpl. by rewrite IH. Qed.

(** The agent does not depend on the client. *)
Lemma step_agent l s :
  sy_agent <$> step l s = match l with Act l _ _ => agent_step l (sy_agent s) | Other _ => Some (sy_agent s) end.
Proof using Type.
  destruct l as [[w c|w c|w c|polled drained] reply ms|o]; try done.
  cbn [step Agent.agent_step]. unfold iteration.
  destruct (collect_events polled drained (sy_agent s)) as [[events a]|]; [|done]. cbn [mbind option_bind fmap option_fmap option_map].
  by rewrite report_batches_agent.
Qed.

Lemma run_snoc ls l : run (ls ++ [l]) = s ← run ls; step l s.
Proof using Type. unfold run. by rewrite foldl_app. Qed.

Lemma run_agent ls : sy_agent <$> run ls = agent_run (agent_labels ls).
Proof using Type.
  induction ls as [|l ls IH] using rev_ind; [done|]. rewrite run_snoc. unfold agent_labels in *. rewrite omap_app.
  unfold Agent.agent_run in *. rewrite foldl_app, <- IH. destruct (run ls) as [s|]; simpl.
  - pose proof (step_agent l s) as Hs. destruct l; exact Hs.
  - by destruct l.
Qed.

Lemma run_agent_some ls s : run ls = Some s -> agent_run (agent_labels ls) = Some (sy_agent s).
Proof using Type. intros Hs. by rewrite <- run_agent, Hs. Qed.

Lemma run_returns ls : exists s, run ls = Some s.
Proof using Type.
  destruct (agent_returns exclude_ports proc_comm (agent_labels ls)) as [a Ha]. rewrite <- run_agent in Ha.
  destruct (run ls) as [s|]; [by exists s|done].
Qed.

(** What a step may do to the client is a run of it. *)
Lemma step_client l s s' : step l s = Some s' -> exists os, sy_client s' = client_run os (sy_client s).
Proof using Type.
  destruct l as [[w c|w c|w c|polled drained] reply ms|o]; cbn [step].
  - intros [= <-]. by exists [].
  - intros [= <-]. by exists [].
  - intros [= <-]. by exists [].
  - destruct (collect_events polled drained (sy_agent s)) as [[events a]|]; [|done]. cbn [mbind option_bind].
    intros [= <-]. unfold batches_of. case_bool_decide; [by exists []|by eexists [_]].
  - intros [= <-]. by exists [o].
Qed.

Lemma run_client ls s : run ls = Some s -> exists os, sy_client s = client_run os (client_new config).
Proof using Type.
  revert s. induction ls as [|l ls IH] using rev_ind; intros s'; [intros [= <-]; by exists []|].
  rewrite run_snoc. destruct (run ls) as [s|]; [|done]. cbn [mbind option_bind]. intros Hs.
  destruct (IH s eq_refl) as [os Hc]. destruct (step_client _ _ _ Hs) as [os' ->].
  exists (os ++ os'). rewrite Hc. unfold client_run. by rewrite foldl_app.
Qed.

(** ** Reporting one batch *)

Lemma write_network_events ms bytes c :
  link_inv c -> exists q e, buffer (edge (buffer_write ms bytes NetworkEvents c)) = q ++ [e] /\
    data e = bytes /\ data_type e = NetworkEvents.
Proof using Type. intros Hc. eapply write_memory, Hc. Qed.

(** What becomes of events that are reported: the cluster has the messages, or
    the edge buffer the JSON, if there is one, in its last entry. *)
Definition delivered (reply : answer unit) (b : batch) (c : Client) (s' : system) : Prop :=
  if reports reply c then last (sy_received s') = Some (network_event_batch b c) /\ edge (sy_client s') = edge c
  else forall json, to_json (ba_events b) = Some json ->
    exists q e, buffer (edge (sy_client s')) = q ++ [e] /\ data e = json /\ data_type e = NetworkEvents.

Lemma report_batch_delivered reply ms s b :
  link_inv (sy_client s) -> delivered reply b (sy_client s) (report_batch reply ms s b).
Proof using Type.
  intros Hc. unfold delivered, report_batch. cbn [sy_received sy_client client_exec].
  unfold send_network_events_proto. cbv zeta.
  change (reports reply (count_call (sy_client s))) with (reports reply (sy_client s)).
  destruct (reports reply (sy_client s)); [by rewrite last_snoc|]. intros json ->. cbn [client_of].
  by apply (write_network_events ms json (count_call (sy_client s))); split; apply Hc.
Qed.

Lemma run_agent_id ls s : run ls = Some s -> agent_id (sy_client s) = cf_id config.
Proof using Type. intros Hs. destruct (run_client ls s Hs) as [os ->]. apply run_settings. Qed.

Lemma run_link_inv ls s : run ls = Some s -> link_inv (sy_client s).
Proof using Type. intros Hs. destruct (run_client ls s Hs) as [os ->]. apply client_reachable. Qed.

(** [C4] End to end: when a thread starts a connect on a socket whose first 16
    bytes are [bs] and the connect returns 0 - with room in the map and the
    ring, ports that are not excluded, whatever the other threads, the other
    programs, iterations of the loop and the client do in between - the next
    iteration, if it drains within five minutes of its poll, reports the
    connection: addresses and ports as the socket has them, established, with
    the process and its name.  The cluster receives it in a batch of this
    agent, or, when it cannot be reached or refuses, the edge buffer has it in
    its last entry, as JSON. *)
Theorem connect_reaches_cluster ls w0 sk bs mid w1 polled drained reply0 ms0 reply1 ms1 reply ms s0 s1 :
  run ls = Some s0 -> run (ls ++ Act (TcpProbe w0 (Connect sk)) reply0 ms0 :: mid) = Some s1 ->
  read_mem (w_kmem w0) sk 16 = Some bs ->
  Z.of_nat (base.size (hm_abs (ps_map (sys_kernel (ag_tcp (sy_agent s0)))))) < hm_max_entries ->
  w_pid_tgid w1 = w_pid_tgid w0 ->
  Forall (agent_quiet (w_pid_tgid w0)) (agent_labels mid) ->
  ~ ring_full (sys_kernel (ag_tcp (sy_agent s1))) sizeof_tcp_event ->
  ~ excluded exclude_ports (key_of (sock_event w0 sk 0 0)) ->
  drained - polled <= 300 * 10 ^ 9 ->
  exists s2 events, run ((ls ++ Act (TcpProbe w0 (Connect sk)) reply0 ms0 :: mid) ++
      [Act (TcpProbe w1 (ConnectRet 0)) reply1 ms1; Act (Iteration polled drained) reply ms]) = Some s2 /\
    connection_of bs (ascii_bytes "ESTABLISHED") (w_pid_tgid w0 / 2 ^ 32)
      (w_comm w0 (Z.to_nat MAX_COMM_LEN)) ∈ events /\
    delivered reply (batch_of drained events) (sy_client s1) s2.
Proof using Type.
  intros H0 H1 Hm Hroom Ht Hmid Hring Hx Hnow.
  assert (agent_labels (ls ++ Act (TcpProbe w0 (Connect sk)) reply0 ms0 :: mid) =
    agent_labels ls ++ TcpProbe w0 (Connect sk) :: agent_labels mid) as Hl by (unfold agent_labels; by rewrite omap_app).
  pose proof (run_agent_some _ _ H1) as Ha1. rewrite Hl in Ha1.
  destruct (connect_collected exclude_ports proc_comm (agent_labels ls) w0 sk bs (agent_labels mid) w1 polled drained
    _ _ (run_agent_some _ _ H0) Ha1 Hm Hroom Ht Hmid Hring Hx Hnow) as (a2 & events & a3 & Hstep & Hcol & Hin).
  set (s2 := with_agent (hand_over (batches_of drained events) a3) (with_agent a2 s1)).
  exists (report_batch reply ms s2 (batch_of drained events)), events. split; [|split; [exact Hin|]].
  - change [Act _ reply1 ms1; ?x] with ([Act (TcpProbe w1 (ConnectRet 0)) reply1 ms1] ++ [x]).
    rewrite app_assoc, !run_snoc, H1. cbn [mbind option_bind step]. rewrite Hstep. cbn [mbind option_bind sy_agent with_agent].
    rewrite Hcol. cbn [mbind option_bind]. unfold s2, batches_of. rewrite bool_decide_false; [done|]. intros He.
    rewrite He in Hin. by apply elem_of_nil in Hin.
  - apply (report_batch_delivered reply ms s2). apply (run_link_inv _ s1 H1).
Qed.

(** ** What the cluster receives *)

(** The batches come from this agent and have the numbers of calls that were
    made, one after the other; every message is a connection that was seen, and
    all metrics are what [send_metrics] was called with. *)
Record received_ok (ls : list label) s : Prop := {
  rc_sequence : 1 <= client_sequence (sy_client s) <= Z.of_nat (length ls) + 1;
  rc_below : Forall (λ b, nb_sequence_number b < client_sequence (sy_client s)) (sy_received s);
  rc_sorted : StronglySorted Z.lt (nb_sequence_number <$> sy_received s);
  rc_agent b : b ∈ sy_received s -> nb_agent_id b = cf_id config;
  rc_seen b m : b ∈ sy_received s -> m ∈ nb_events b -> seen_connection exclude_ports (agent_labels ls) m;
  rc_metrics_below : Forall (λ b, pb_sequence_number b < client_sequence (sy_client s)) (sy_metrics s);
  rc_metrics_sorted : StronglySorted Z.lt (pb_sequence_number <$> sy_metrics s);
  rc_metrics_sent b : b ∈ sy_metrics s -> exists random reply ms bytes session seq,
    Other (OpMetrics random reply ms bytes) ∈ ls /\
    b = metric_batch parse_from_rfc3339 (cf_id config) session seq (metal_of bytes);
}.

Lemma as_i64_id x : 0 <= x < 2 ^ 63 -> as_i64 x = x.
Proof using Type.
  intros Hx. unfold as_i64. cbv zeta. rewrite wrap_id by (unfold in_range; lia).
  destruct (Z.ltb_spec x (2 ^ 63)); lia.
Qed.

Lemma sorted_snoc (l : list Z) x : StronglySorted Z.lt l -> Forall (λ y, y < x) l -> StronglySorted Z.lt (l ++ [x]).
Proof using Type.
  induction 1 as [|y l Hl IH Hy]; intros Hx; simpl; [by repeat constructor|].
  apply Forall_cons in Hx as [Hyx Hx]. constructor; [by apply IH|]. apply Forall_app_2; [done|by repeat constructor].
Qed.

Lemma exec_next o c :
  1 <= client_sequence c < 2 ^ 63 ->
  client_sequence (client_of (client_exec o c)) = client_sequence c + counts o /\ 0 <= counts o <= 1.
Proof using Type.
  intros Hc. rewrite exec_sequence by (unfold in_range; lia). assert (0 <= counts o <= 1) by by destruct o.
  split; [apply wrap_id; unfold in_range; lia|done].
Qed.

Lemma seen_label ls l m :
  seen_connection exclude_ports (agent_labels ls) m -> seen_connection exclude_ports (agent_labels (ls ++ [l])) m.
Proof using Type.
  unfold agent_labels. rewrite omap_app. intros Hm. destruct l; simpl; [by apply seen_connection_snoc|].
  by rewrite app_nil_r.
Qed.

Lemma metrics_label ls l (b : MetricBatch) :
  (exists random reply ms bytes session seq, Other (OpMetrics random reply ms bytes) ∈ ls /\
     b = metric_batch parse_from_rfc3339 (cf_id config) session seq (metal_of bytes)) ->
  exists random reply ms bytes session seq, Other (OpMetrics random reply ms bytes) ∈ ls ++ [l] /\
     b = metric_batch parse_from_rfc3339 (cf_id config) session seq (metal_of bytes).
Proof using Type.
  intros (r & reply & ms & bytes & session & seq & Hin & ->). exists r, reply, ms, bytes, session, seq.
  split; [apply elem_of_app; by left|done].
Qed.

Lemma below_later {A} (number : A -> Z) (l : list A) (n n' : Z) :
  n <= n' -> Forall (λ b, number b < n) l -> Forall (λ b, number b < n') l.
Proof using Type. intros Hn Hl. eapply Forall_impl; [exact Hl|]. cbn beta. lia. Qed.

(** One more message, with the number of this call. *)
Lemma numbered_snoc {A} (number : A -> Z) (l : list A) (b : A) (n : Z) :
  Forall (λ b, number b < n) l -> StronglySorted Z.lt (number <$> l) -> number b = n ->
  Forall (λ b, number b < n + 1) (l ++ [b]) /\ StronglySorted Z.lt (number <$> (l ++ [b])).
Proof using Type.
  intros Hl Hs Hb. split.
  - apply Forall_app_2; [eapply below_later; [|exact Hl]; lia|repeat constructor; lia].
  - rewrite fmap_app. cbn. rewrite Hb. apply sorted_snoc; [done|]. by apply Forall_fmap.
Qed.

(** Steps in which the cluster receives nothing, or one more batch. *)
Lemma received_same ls l s s' :
  received_ok ls s ->
  client_sequence (sy_client s) <= client_sequence (sy_client s') <= client_sequence (sy_client s) + 1 ->
  sy_received s' = sy_received s -> sy_metrics s' = sy_metrics s -> received_ok (ls ++ [l]) s'.
Proof using Type.
  intros [Hs Hb Ho Ha Hm Hmb Hms Hmm] Hn Hr Hr'. split; rewrite ?length_app, ?Hr, ?Hr'; try done.
  - simpl. lia.
  - eapply below_later; [|exact Hb]. lia.
  - intros b m Hin Hm'. eapply seen_label, Hm; done.
  - eapply below_later; [|exact Hmb]. lia.
  - intros b Hin. by apply metrics_label, Hmm.
Qed.

Lemma received_batch ls l s s' b :
  received_ok ls s -> Z.of_nat (length ls) < 2 ^ 62 -> agent_id (sy_client s) = cf_id config ->
  client_sequence (sy_client s') = client_sequence (sy_client s) + 1 ->
  sy_received s' = sy_received s ++ [network_event_batch b (sy_client s)] -> sy_metrics s' = sy_metrics s ->
  (forall m, m ∈ ba_messages b -> seen_connection exclude_ports (agent_labels (ls ++ [l])) m) ->
  received_ok (ls ++ [l]) s'.
Proof using Type.
  intros [Hs Hb Ho Ha Hm Hmb Hms Hmm] Hl Hid Hn Hr Hr' Hseen.
  destruct (numbered_snoc nb_sequence_number _ (network_event_batch b (sy_client s)) _ Hb Ho) as [Hb' Ho'];
    [cbn; apply as_i64_id; lia|].
  split; rewrite ?length_app, ?Hr, ?Hr', ?Hn; try done.
  - simpl. lia.
  - intros b' [?| ->%list_elem_of_singleton]%elem_of_app; [by apply Ha|exact Hid].
  - intros b' m [Hin| ->%list_elem_of_singleton]%elem_of_app Hm'; [by eapply seen_label, Hm|by apply Hseen].
  - eapply below_later; [|exact Hmb]. lia.
  - intros b' Hin. by apply metrics_label, Hmm.
Qed.

(** An operation of the client. *)
Lemma received_other ls o s :
  received_ok ls s -> Z.of_nat (length ls) < 2 ^ 62 -> agent_id (sy_client s) = cf_id config ->
  received_ok (ls ++ [Other o]) {| sy_agent := sy_agent s; sy_client := client_of (client_exec o (sy_client s));
    sy_received := sy_received s; sy_metrics := sy_metrics s ++ accepted_metrics o (sy_client s) |}.
Proof using Type.
  intros Hok Hl Hid. destruct (exec_next o (sy_client s)) as [Hq Hc]; [destruct Hok; lia|].
  assert (accepted_metrics o (sy_client s) = [] \/ exists random reply ms bytes,
    o = OpMetrics random reply ms bytes /\ accepted_metrics o (sy_client s) = [metric_batch parse_from_rfc3339
      (agent_id (sy_client s)) (session_id (sy_client s)) (client_sequence (sy_client s)) (metal_of bytes)])
    as [Hn|(random & reply & ms & bytes & -> & Hn)].
  { destruct o as [|random reply ms bytes| | | | | | | | | | |]; try by left. cbn.
    destruct (send_metrics _ _ _ _ _); [|by left]. destruct (compress_metrics _ _); [|by left].
    destruct (_ && _); [right|by left].
    by exists random, reply, ms, bytes. }
  - apply (received_same _ _ s); [done|cbn [sy_client]; lia|done|cbn [sy_metrics]; by rewrite Hn, app_nil_r].
  - destruct Hok as [Hs Hb Ho Ha Hm Hmb Hms Hmm].
    destruct (numbered_snoc pb_sequence_number _ (metric_batch parse_from_rfc3339 (agent_id (sy_client s))
      (session_id (sy_client s)) (client_sequence (sy_client s)) (metal_of bytes)) _ Hmb Hms) as [Hb' Ho'];
      [cbn; apply as_i64_id; lia|].
    split; cbn [sy_client sy_received sy_metrics]; rewrite ?length_app, ?Hn, ?Hq; try done.
    + simpl. lia.
    + eapply below_later; [|exact Hb]. cbn. lia.
    + intros b m Hin Hm'. by eapply seen_label, Hm.
    + intros b [Hin| ->%list_elem_of_singleton]%elem_of_app; [by apply metrics_label, Hmm|].
      rewrite Hid.
      exists random, reply, ms, bytes, (session_id (sy_client s)), (client_sequence (sy_client s)). split; [|done]. apply elem_of_app. right. by left.
Qed.

Lemma collected_seen ls s polled drained events a m :
  run ls = Some s -> collect_events polled drained (sy_agent s) = Some (events, a) ->
  m ∈ ba_messages (batch_of drained events) -> seen_connection exclude_ports (agent_labels ls) m.
Proof using Type.
  intros Hs Hc Hm. pose proof (run_agent_some _ _ Hs) as Ha.
  destruct (agent_tcp exclude_ports proc_comm _ _ Ha) as [Hsil _].
  rewrite (collect_silent exclude_ports proc_comm) in Hc by done. injection Hc as <- <-.
  cbn [ba_messages batch_of] in Hm. apply list_elem_of_fmap in Hm as (ev & -> & Hev).
  eapply (drained_seen exclude_ports proc_comm); [exact Ha|exact Hev].
Qed.

(** [C5] What the cluster receives, in a run of less than 2^62
    steps: batches of this agent, in the order in which they were sent and
    numbered upwards, in those of events only connections that were seen, in
    those of metrics what [send_metrics] was called with. *)
Theorem cluster_receives ls s :
  run ls = Some s -> Z.of_nat (length ls) < 2 ^ 62 -> received_ok ls s.
Proof using Type.
  revert s. induction ls as [|l ls IH] using rev_ind; intros s'.
  { intros [= <-] _. split; cbn; [lia|constructor|constructor| | |constructor|constructor|]; by intros ? ?%elem_of_nil || (intros ? ? ?%elem_of_nil). }
  rewrite run_snoc, length_app. destruct (run ls) as [s|] eqn:Hs; [|done]. cbn [mbind option_bind]. intros Hstep Hlen.
  simpl in Hlen. specialize (IH s eq_refl ltac:(lia)).
  destruct l as [[w c|w c|w c|polled drained] reply ms|o]; cbn [step] in Hstep.
  - injection Hstep as <-. by apply (received_same _ _ s); [|cbn; lia|..].
  - injection Hstep as <-. by apply (received_same _ _ s); [|cbn; lia|..].
  - injection Hstep as <-. by apply (received_same _ _ s); [|cbn; lia|..].
  - destruct (collect_events polled drained (sy_agent s)) as [[events a]|] eqn:Hc; [|done].
    cbn [mbind option_bind] in Hstep. injection Hstep as <-. unfold batches_of.
    case_bool_decide; [by apply (received_same _ _ s); [|cbn; lia|..]|]. cbn [foldl].
    set (s1 := with_agent _ s).
    destruct (exec_next (OpNetworkEventsProto reply ms (to_json events)) (sy_client s)) as [Hq _];
      [destruct IH; lia|].
    destruct (reports reply (sy_client s)) eqn:Hr.
    + apply (received_batch _ _ s _ (batch_of drained events)); try done; try lia.
      * by eapply run_agent_id.
      * unfold report_batch. cbn [sy_received]. change (sy_client s1) with (sy_client s). by rewrite Hr.
      * intros m Hm. eapply seen_label, collected_seen; done.
    + apply (received_same _ _ s); [done| | |done].
      * cbn [report_batch sy_client with_agent s1]. cbn [counts] in Hq. cbn in Hq |- *. lia.
      * unfold report_batch. cbn [sy_received]. change (sy_client s1) with (sy_client s). rewrite Hr. apply app_nil_r.
  - injection Hstep as <-. apply received_other; [done|lia|by eapply run_agent_id].
Qed.
End report.

(** ** Witnesses *)

Section witnesses.
#[local] Existing Instances ref_helpers ref_tcp_hash ref_ring256 ref_plain ref_db ref_bincode ref_mpsc ref_zstd.

Abbreviation run22 := (run [22] (λ _, None) (λ _, Some []) (λ _, None) (λ _, None) bare_config).

Definition now3 : moment * moment * moment := (soon, soon, soon).
Definition act (l : agent_label) : label := Act l (Answer tt) now3.

(** Process 42 connects; in between process 43 starts to, an HTTP send and a
    DNS query are seen, the loop runs once, and the client connects. *)
Definition agent_busy : list label :=
  [act (TcpProbe (w_b 1500) (Connect 4096)); act (HttpProbe (w_b 1500) (SendMsg 4096 0 64));
   Other (OpConnect true); act (DnsProbe (w_b 1500) (SendMsg 4096 0 64)); act (Iteration 5 6)].

Definition before : list label := [act (TcpProbe (w_b 900) (SetState 4096 7))].
Definition until_return : list label := before ++ act (TcpProbe (w_a 1000) (Connect 4096)) :: agent_busy.
Definition report_at (reply : answer unit) : list label :=
  [act (TcpProbe (w_a 2000) (ConnectRet 0)); Act (Iteration 10 20) reply now3].

Lemma connect_reaches_cluster_witness :
  exists s1 s2 events, run22 until_return = Some s1 /\ run22 (until_return ++ report_at (Answer tt)) = Some s2 /\
    connection_of (sock_image [93; 184; 216; 34] [10; 0; 0; 1] 443 54321) (ascii_bytes "ESTABLISHED")
      (w_pid_tgid (w_a 1000) / 2 ^ 32) (w_comm (w_a 1000) (Z.to_nat MAX_COMM_LEN)) ∈ events /\
    delivered (λ _, Some []) (Answer tt) (batch_of 20 events) (sy_client s1) s2.
Proof.
  destruct (run_returns [22] (λ _, None) (λ _, Some []) (λ _, None) (λ _, None) bare_config before) as [s0 H0].
  destruct (run_returns [22] (λ _, None) (λ _, Some []) (λ _, None) (λ _, None) bare_config until_return) as [s1 H1].
  edestruct (connect_reaches_cluster [22] (λ _, None) (λ _, Some []) (λ _, None) (λ _, None) bare_config before (w_a 1000) 4096
    (sock_image [93; 184; 216; 34] [10; 0; 0; 1] 443 54321) agent_busy (w_a 2000) 10 20
    (Answer tt) now3 (Answer tt) now3 (Answer tt) now3 s0 s1 H0 H1) as (s2 & events & H2 & Hin & Hd).
  - vm_compute. reflexivity.
  - destruct (agent_tcp _ _ _ _ (run_agent_some _ _ _ _ _ _ _ _ H0)) as [_ ->]. vm_compute. reflexivity.
  - reflexivity.
  - repeat constructor. vm_compute. discriminate.
  - apply not_ring_full. destruct (agent_tcp _ _ _ _ (run_agent_some _ _ _ _ _ _ _ _ H1)) as [_ ->]. vm_compute. reflexivity.
  - apply (bool_decide_unpack _). vm_compute. constructor.
  - vm_compute. discriminate.
  - exists s1, s2, events. split; [exact H1|]. split; [exact H2|]. split; [exact Hin|exact Hd].
Defined.

Lemma cluster_receives_witness :
  exists s, run22 (until_return ++ report_at (Answer tt)) = Some s /\
    received_ok [22] (λ _, None) (λ _, None) bare_config (until_return ++ report_at (Answer tt)) s.
Proof.
  destruct (run_returns [22] (λ _, None) (λ _, Some []) (λ _, None) (λ _, None) bare_config (until_return ++ report_at (Answer tt))) as [s Hs].
  exists s. split; [exact Hs|]. apply (cluster_receives _ _ _ _ _ _ _ _ Hs). vm_compute. reflexivity.
Defined.

(** The loop reports twice, with the first two numbers. *)
Example two_batches :
  (λ s, nb_sequence_number <$> sy_received s) <$> run22 (until_return ++ report_at (Answer tt)) = Some [1; 2].
Proof. vm_compute. reflexivity. Qed.

(** Metrics in between take the second; what cannot be read as a snapshot is
    sent as an empty one, and is lost once that is accepted. *)
Example unreadable_metrics_lost :
  (λ s, (nb_sequence_number <$> sy_received s, sy_metrics s, buffer (edge (sy_client s)))) <$>
    run22 (until_return ++ Other (OpMetrics f64_zero (Answer true) now3 (ascii_bytes "?")) :: report_at (Answer tt)) =
  Some ([1; 3], [metric_batch (λ _, None) [] [] 2 metal_empty], []).
Proof. vm_compute. reflexivity. Qed.
End witnesses.
